(* ===== verification/_CoqProject ===== *)
-Q . S2P
Prelude.v
GoStrings.v
SqlEscape.v
CronExpr.v
K8s.v
Api.v
Runtime.v
FakeRuntime.v
Ensure.v
PgConfig.v
PgStatus.v
PgResources.v
Password.v
Pdb.v
ClusterController.v
UserController.v
BackupController.v
Pgbouncer.v
PoolerController.v
Rollout.v
Decisions.v
Store.v
Scheduler.v
Liveness.v
EventBus.v
JsonPatch.v
Durations.v
Backoff.v
TimeUtil.v
ConfFile.v
Snapshot.v
Images.v
UserState.v
Meta.v
Names.v
Network.v
WalArchive.v
Manifest.v
Paths.v
Standby.v
Health.v
Workflows.v
StsBuilder.v
Shell.v
Exec.v
Initialize.v
Events.v
Metrics.v
Predicates.v
PoolerConfig.v
SecretKey.v
Tuning.v
Probes.v
Topology.v
Certificates.v
Urls.v
GoFlag.v
Plugin.v
Manager.v
Tokens.v
RecoveryTime.v
GoHeap.v
DeepCopy.v
Calls.v
Rbac.v
Interleaving.v
E2e.v
OwnWrites.v
