(* ===== verification/Prelude.v ===== *)
(** * Athos: a verification library for the Athos Kubernetes operator

    Athos manages PostgreSQL clusters on Kubernetes.  Three custom resources
    (PostgresCluster, PostgresUser, PostgresBackup) are reconciled by four controllers:
    the cluster controller creates and updates the Kubernetes objects of a cluster, the
    user controller runs a SQL script in the first database pod, the backup controller
    drives one Job per backup, and the pooler controller runs PgBouncer in front of a
    cluster.  They call pure packages: object builders, configuration writers, SQL
    quoting, cron validation, password generation, status conditions.  Further packages
    decide on upgrades, failover, schedules and connection strings.

    ** Layers and files

    Language and platform.
    - [Prelude.v]: Go errors and results, a state monad for code that calls the API,
      machine integers as [Z] with explicit wrap-around, and the tactics [breflect],
      [mstep], [case_match_in].
    - [GoStrings.v]: Go strings as byte strings with the functions of strings, strconv,
      unicode/utf8 and fmt that the code uses.  The tables of package unicode are a
      parameter ([UnicodeTables]); what is proved holds for every table.
    - [K8s.v]: records with the fields of the Kubernetes types the code reads or writes.
    - [Runtime.v]: controller-runtime's client, clock, event recorder, random source and
      remote execution are not part of the repository; they are the class [Runtime] of
      operations and the class [RuntimeLaws] of what the code relies on.  A write stores
      what was sent up to the documented defaults of the API server for unset fields (the
      relations [*_defaulted] of [K8s.v] and [Api.v]).  Controllers are
      functions [W -> result * W] over an abstract world [W], and [stored w k n] is the
      object persisted under kind [k] and name [n].  [frames], [keeps] and [silent] are
      the reusable notions of what code leaves alone.
    - [FakeRuntime.v]: an in-memory instance with scripted faults; it discharges the laws
      and runs every witness.
    - [Ensure.v]: the create-or-update shape shared by the reconcile steps.

    Data of the operator.
    - [Api.v]: api/v1alpha1, the custom resources, and module [Webhook]: Default,
      ValidateCreate, ValidateUpdate, ValidateDelete.
    - [PgConfig.v]: internal/postgres naming.go, labels.go, version.go, config.go, hba.go
      and params.go (modules [Naming], [Labels], [Version], [Config], [HBA], [Params]).
    - [PgStatus.v]: internal/postgres/status.go.  [PgResources.v]: credentials.go,
      resources.go, backup.go.
    - [SqlEscape.v], [CronExpr.v], [Password.v], [Pdb.v], [Pgbouncer.v] (with portmap),
      [Rollout.v], [Decisions.v] (ha, upgrade, clusterstate, poolerstate), [Store.v] and
      [Scheduler.v]: the packages of these names under internal/.

    Controllers (internal/controller).
    - [ClusterController.v], [UserController.v], [BackupController.v],
      [PoolerController.v]: one definition per method, with every branch and error path,
      in the order of the calls of the source.  A field the code updates in place on a
      fetched object is an updated copy that is threaded on; where a status write
      refreshes the object in place, the object returned by the server is threaded on.
    - [Liveness.v]: the class [RuntimeUp] of a server that accepts the creation of valid
      objects and updates that are current, valid and leave immutable fields alone, with
      the notion of a valid object as a parameter; progress of the cluster controller.

    Supporting packages (internal/), one file or module per package.
    - [EventBus.v] (eventbus), [JsonPatch.v] (patcher), [Durations.v] (duration, with a
      model of time.ParseDuration), [Backoff.v] (backoff; the Schedule interface is a class
      with laws), [TimeUtil.v] (timeutil), [ConfFile.v] (configfile, with the reader of
      PostgreSQL's configuration files), [Snapshot.v] (snapshot, with the calendar),
      [Images.v] (imageutil, version, upgradepolicy), [UserState.v] (userstate),
      [Meta.v] (conditions, finalizers, owner, labels, validation, dnsname),
      [Network.v] (network), [WalArchive.v] (walarchive), [Manifest.v] (manifest),
      [Paths.v] (datadir, with path/filepath), [Standby.v] (replication, recovery),
      [Health.v] (podmanager, healthcheck), [Workflows.v] (workflows, over [Runtime] and a
      class for namespaces and volume claims), [StsBuilder.v] (statefulset).
    - [Names.v]: the names derived from a cluster against the validators of [Meta.v].
    - [Shell.v]: the reference shell, a reader of words with quotes, variables and
      splitting and a runner of scripts over a class of programs; [Exec.v] (exec) and
      [Initialize.v] (initialize) are read and run by it.
    - [Events.v] (events), [Metrics.v] (metrics, over a class of collectors),
      [Predicates.v] (predicates), [PoolerConfig.v] (poolerconfig), [SecretKey.v]
      (secretkey, with a reader of connection URIs), [Tuning.v] (resourcerequests,
      storageclass, keepalive), [Probes.v] (probe, sidecar), [Topology.v] (topology, with
      the scheduler as a step relation), [Certificates.v] (certificate, over a class of
      the crypto operations), [Urls.v] (the URI method of store, with net/url),
      [Tokens.v] (GenerateToken of password with base64, and the helpers that panic),
      [RecoveryTime.v] (ParseTime of recovery, with time.Parse for its layout).

    Programs (cmd/).
    - [GoFlag.v]: package flag.  [Plugin.v]: cmd/plugin/main.go, with text/tabwriter and
      the decoding of unstructured objects.  [Manager.v]: cmd/main.go, what each
      SetupWithManager watches, and the registered controllers run together in any order.

    Across the components.
    - [GoHeap.v]: Go memory with references that can be shared, what a value reaches, and
      what it is to copy it.  [DeepCopy.v]: api/v1alpha1/zz_generated.deepcopy.go over it,
      with the structures as they lie in memory; their contents are the records of [Api].
    - [Calls.v]: the calls a reconcile makes, whatever they answer, and the profile of each
      controller.  [Rbac.v]: the permission markers, config/rbac/role.yaml and the chart's
      role against these calls.  [Interleaving.v]: reconciles with the calls of others
      between their own.  [OwnWrites.v]: the objects that belong to a reconcile, and that
      it writes no others.
    - [E2e.v]: test/utils, over a host with an oracle for the programs it runs.

    ** What the theorems show

    - Convergence: a reconcile that reports success has established the desired state,
      and it does report success while the API server is up and the objects it writes are
      acceptable to it.
    - Isolation, for every outcome including failures of any call: objects of others,
      existing Secrets, immutable fields, paused clusters, terminal backups and existing
      Jobs are not touched.
    - Injection safety: quoting is inverted by a reference lexer of PostgreSQL tokens, and
      the script of a user consists of exactly the intended statements; the conditions on
      NUL bytes, on dollar quotes and on the text that follows are part of the theorems.
    - Composition: along every sequence of reconciles of the registered controllers,
      Secrets, Jobs and terminal backups stay as they are and every change is one of a
      watched kind.
    - Concurrency: whatever others do between the calls of a reconcile, the calls of other
      reconciles included, existing Secrets, Jobs, ServiceAccounts, users and backups are
      safe from it, it writes only objects of its own request, and no object belongs to
      two requests.
    - Deep copies: a copy equals the original and shares no memory with it.
    - Permissions: the chart's role covers every call; the generated role every call but
      the remote command of the user controller.
    - Consistency of the generated objects and files: references, selectors, ports,
      rendered configuration read back by reference readers.
    - Decision procedures against declarative specifications: admission, cron grammar,
      defaulting, conditions, rollout order and completion, schedules, retention with its
      overflow bound, upgrade classes, snapshot retention, network policies.
    - Refinement: the event bus, which removes handlers by a remembered index, implements
      named subscriptions wherever subscriptions of a topic end in the reverse order of
      their start; a merge patch applied by RFC 7386 is the change it was computed from;
      the metrics hold what the history of recorded events says; the watch predicates are
      characterised update by update.
    - Termination: retries over a limited schedule, rolling upgrades, and the bootstrap
      script, which calls initdb at most once.
    - Placement: required spreading separates the pods that carry it, and the spread
      constraints keep hosts balanced.
    - Certificates: what is issued decodes, chains to its CA and is renewed in time.
    - Round trips through reference readers: durations, image references, connection
      strings and URIs, postgresql.conf, pg_hba.conf, pgbouncer.ini, standby and recovery
      settings, recovery times, tokens, WAL segment names, multi-document manifests,
      command lines of the PostgreSQL tools, the status table of the plugin.
    - Well-formedness: names and labels derived from a cluster pass the validators of the
      repository; paths below a base directory stay below it.
    - Behaviour that departs from the documentation, stated as theorems: a
      dollar quote in a password breaks the script of a user apart, redaction stops at a quote, a
      rejected user is reported as applied, the role labels are static, an outage leaves
      Degraded stale, the pooler has no user list and its network policy blocks it, a
      cancelled subscription can remove another one, comparison by printed text or with
      missing keys overlooks changes, a password with a space changes the host a standby
      connects to, the pooler controller is not registered, options after the cluster name
      are ignored by the plugin, a superuser name with a blank is split by the bootstrap
      script, unescaped credentials change the host a URI names, the generated role keeps
      users from ever being applied.

    ** Assumptions, bounds and fuel

    The laws describe reads that are current and no other writer between the calls of one
    reconcile; sequences of reconciles of all controllers are the step relation of
    [Manager.v].  [Interleaving.v] drops both assumptions for what reconcilers must not
    touch: there anything may happen between two calls, and the profiles of [Calls.v] hold
    whatever a read returns, a stale object included.  A
    failed write may or may not have been persisted.  Fuel is used where recursion is not
    structural: one unit per byte for UTF-8 decoding, redaction and DSN tokens, where each
    round consumes at least one byte; two units for nested cron steps, since the part
    before the first slash has no slash; the binary logarithm of a number for its decimal
    digits; the number of supported versions for their loop.  The lemmas
    [concat_runes_fuel], [redact_fuel_enough], [tokenize_fuel], [digits_fuel] and the
    grammar of cron atoms show that this is enough.  The duration parsers have one unit
    per byte of text, since every segment consumes one; the loop of [Retry] takes its fuel
    as an argument, and more than the limit of the schedule is enough; the digits of an
    int32 take at most eleven rounds.  The arguments of a command line are consumed
    structurally.  Floating-point
    factors are the binary64 operations of the Standard Library; a conversion to an
    integer that is out of range yields a parameter, since Go leaves it open.

    ** Not modelled

    Scheme and webhook registration, log lines, and what runs inside third-party code: the
    caches and queues of the manager, the zone database behind time.Parse, the crypto
    packages and the Prometheus client, which are parameters or classes with laws.
    Convergence is proved for reconciles that are not interrupted by other writers: with
    them a reconcile may fail or overwrite, and the next one runs again. *)

From Stdlib Require Import ZArith Lia List Bool.
From stdpp Require Import base list strings gmap sorting.

Declare Scope athos_scope.
Delimit Scope athos_scope with athos.

Create HintDb athos.
Create Rewrite HintDb athos.

(** ** Go errors as values *)

(** A Go [error] value: a leaf error, a Kubernetes API status error with its
    reason, or an error wrapped by [fmt.Errorf("pre%wpost", err)]. *)
Inductive Reason :=
  | NotFound | AlreadyExists | Conflict | Invalid | Forbidden | Timeout | InternalError.

Inductive error :=
  | ErrNew (msg : string)
  | ErrStatus (r : Reason) (msg : string)
  | ErrWrap (pre : string) (e : error) (post : string).

#[export] Instance Reason_eq_dec : EqDecision Reason.
Proof. solve_decision. Defined.

#[export] Instance error_eq_dec : EqDecision error.
Proof. solve_decision. Defined.

(** [err.Error()]. *)
Fixpoint Error (e : error) : string :=
  match e with
  | ErrNew m => m
  | ErrStatus _ m => m
  | ErrWrap pre e post => pre +:+ Error e +:+ post
  end.

(** The API reason of an error, looking through wrapping as [errors.As] does. *)
Fixpoint reason_of (e : error) : option Reason :=
  match e with
  | ErrNew _ => None
  | ErrStatus r _ => Some r
  | ErrWrap _ e _ => reason_of e
  end.

(** [errors.IsNotFound(err)] and [errors.IsAlreadyExists(err)] of apimachinery. *)
Definition IsNotFound (e : error) : bool := bool_decide (reason_of e = Some NotFound).
Definition IsAlreadyExists (e : error) : bool := bool_decide (reason_of e = Some AlreadyExists).

(** The pair [(value, error)] of a fallible Go function. *)
Inductive result (A : Type) :=
  | Ok (a : A)
  | Err (e : error).
Arguments Ok {A} _.
Arguments Err {A} _.

Definition result_err {A} (r : result A) : option error :=
  match r with Ok _ => None | Err e => Some e end.

Definition is_ok {A} (r : result A) : bool :=
  match r with Ok _ => true | Err _ => false end.

(** ** Stateful code: explicit state passing *)

Definition M (W A : Type) : Type := W -> A * W.

Definition ret {W A} (a : A) : M W A := fun w => (a, w).
Definition bind {W A B} (m : M W A) (k : A -> M W B) : M W B :=
  fun w => let '(a, w') := m w in k a w'.

Notation "'let!' x ':=' m 'in' k" := (bind m (fun x => k))
  (at level 10, x name, m at level 100, k at level 200) : athos_scope.

(** [if err := m; err != nil { return err }] followed by [k]. *)
Definition mtry {W} (m : M W (option error)) (k : M W (option error)) : M W (option error) :=
  bind m (fun e => match e with Some _ => ret e | None => k end).

Notation "'try!' m 'in' k" := (mtry m k)
  (at level 10, m at level 100, k at level 200) : athos_scope.

Lemma bind_inv {W A B} (m : M W A) (k : A -> M W B) w b w' :
  bind m k w = (b, w') <-> exists a w1, m w = (a, w1) /\ k a w1 = (b, w').
Proof.
  unfold bind. destruct (m w) as [a w1]. split; [eauto|].
  intros (a' & w1' & [= <- <-] & Hk). exact Hk.
Qed.

Lemma pair_fst {A B} (p : A * B) a : p.1 = a -> p = (a, p.2).
Proof. destruct p. by intros <-. Qed.

(** ** Machine integers *)

(** Two's-complement wrap-around to [w] bits. *)
Definition wrap (w z : Z) : Z := ((z + 2 ^ (w - 1)) `mod` 2 ^ w - 2 ^ (w - 1))%Z.
Definition int32 (z : Z) : Z := wrap 32 z.
Definition int64 (z : Z) : Z := wrap 64 z.

Definition min_int32 : Z := (- 2 ^ 31)%Z.
Definition max_int32 : Z := (2 ^ 31 - 1)%Z.
Definition min_int64 : Z := (- 2 ^ 63)%Z.
Definition max_int64 : Z := (2 ^ 63 - 1)%Z.

Definition in_int32 (z : Z) : bool := ((min_int32 <=? z) && (z <=? max_int32))%Z.
Definition in_int64 (z : Z) : bool := ((min_int64 <=? z) && (z <=? max_int64))%Z.

Lemma wrap_id w z : (0 < w)%Z -> (- 2 ^ (w - 1) <= z < 2 ^ (w - 1))%Z -> wrap w z = z.
Proof.
  intros Hw Hz. unfold wrap.
  assert (2 ^ w = 2 * 2 ^ (w - 1))%Z as E.
  { replace w with (Z.succ (w - 1)) at 1 by lia. rewrite Z.pow_succ_r by lia. lia. }
  rewrite Z.mod_small; lia.
Qed.

Lemma int64_id z : in_int64 z = true -> int64 z = z.
Proof.
  unfold in_int64, min_int64, max_int64. intros H. apply andb_prop in H as [H1 H2].
  apply wrap_id; [lia|]. change (64 - 1)%Z with 63%Z. lia.
Qed.

Lemma int32_id z : in_int32 z = true -> int32 z = z.
Proof.
  unfold in_int32, min_int32, max_int32. intros H. apply andb_prop in H as [H1 H2].
  apply wrap_id; [lia|]. change (32 - 1)%Z with 31%Z. lia.
Qed.

Lemma wrap_range w z : (0 < w)%Z -> (- 2 ^ (w - 1) <= wrap w z < 2 ^ (w - 1))%Z.
Proof.
  intros Hw. unfold wrap.
  assert (2 ^ w = 2 * 2 ^ (w - 1))%Z as E.
  { replace w with (Z.succ (w - 1)) at 1 by lia. rewrite Z.pow_succ_r by lia. lia. }
  pose proof (Z.mod_pos_bound (z + 2 ^ (w - 1)) (2 ^ w) ltac:(lia)). lia.
Qed.

Lemma wrap_ext w a b : (a mod 2 ^ w = b mod 2 ^ w)%Z -> wrap w a = wrap w b.
Proof. intros H. unfold wrap. by rewrite (Zplus_mod a), (Zplus_mod b), H. Qed.

Lemma int64_ext a b : (a mod 2 ^ 64 = b mod 2 ^ 64)%Z -> int64 a = int64 b.
Proof. apply wrap_ext. Qed.

(** Wrap-around adds a multiple of the modulus. *)
Lemma int64_shift z : exists k, int64 z = (z + k * 2 ^ 64)%Z.
Proof.
  exists (- ((z + 2 ^ 63) / 2 ^ 64))%Z. unfold int64, wrap. change (64 - 1)%Z with 63%Z.
  pose proof (Z.div_mod (z + 2 ^ 63) (2 ^ 64) ltac:(done)). lia.
Qed.

Lemma int64_in z : in_int64 (int64 z) = true.
Proof.
  pose proof (wrap_range 64 z ltac:(lia)) as H. unfold in_int64, min_int64, max_int64, int64.
  change (64 - 1)%Z with 63%Z in H. apply andb_true_intro. split; [apply Z.leb_le|apply Z.leb_le]; lia.
Qed.

#[export] Hint Rewrite int32_id int64_id using (vm_compute; reflexivity) : athos.

(** ** Tactics *)

(** Split boolean conjunctions and turn integer tests into propositions. *)
Ltac breflect :=
  repeat match goal with
  | H : _ && _ = true |- _ => apply andb_prop in H; destruct H
  | H : _ || _ = false |- _ => apply orb_false_elim in H; destruct H
  | H : negb _ = true |- _ => apply negb_true_iff in H
  | H : negb _ = false |- _ => apply negb_false_iff in H
  | H : (_ <=? _)%Z = true |- _ => apply Z.leb_le in H
  | H : (_ <=? _)%Z = false |- _ => apply Z.leb_gt in H
  | H : (_ <? _)%Z = true |- _ => apply Z.ltb_lt in H
  | H : (_ <? _)%Z = false |- _ => apply Z.ltb_ge in H
  | H : (_ =? _)%Z = true |- _ => apply Z.eqb_eq in H
  | H : (_ =? _)%Z = false |- _ => apply Z.eqb_neq in H
  | H : (_ =? _)%string = true |- _ => apply String.eqb_eq in H
  | H : (_ =? _)%string = false |- _ => apply String.eqb_neq in H
  | H : bool_decide _ = true |- _ => apply bool_decide_eq_true in H
  | H : bool_decide _ = false |- _ => apply bool_decide_eq_false in H
  end.

(** Case analysis on the scrutinee of a match or conditional in the goal or a
    hypothesis. *)
Ltac case_match_in H :=
  match type of H with
  | context [ match ?x with _ => _ end ] => destruct x eqn:?
  end.

(** Step through monadic code: [H : bind m k w = (r, w')]. *)
Ltac mstep H :=
  let a := fresh "a" in let w := fresh "w" in let E := fresh "E" in
  apply bind_inv in H as (a & w & E & H).

(** Linear arithmetic with division and modulo by constants. *)
Ltac dlia := Z.to_euclidean_division_equations; lia.
