(* ===== verification/GoStrings.v ===== *)
(** * Go strings

    Go strings are byte sequences; they are modelled by [string], whose
    characters are 8-bit [ascii] values.  This file holds the part of the
    packages [strings], [strconv], [unicode/utf8] and [fmt] the operator uses:
    byte search, splitting, joining, replacement, trimming, UTF-8 iteration,
    integer formatting and parsing.  The lemmas on them are shared by every
    component that builds or parses text. *)

From Stdlib Require Import ZArith Lia List Bool Ascii.
From stdpp Require Import base list strings gmap sorting.
From S2P Require Import Prelude.

Local Open Scope Z_scope.

(** ** Bytes *)

Definition byte (c : ascii) : Z := Z.of_N (N_of_ascii c).
Definition chr (z : Z) : ascii := ascii_of_N (Z.to_N z).

Lemma byte_range c : 0 <= byte c < 256.
Proof. unfold byte. pose proof (N_ascii_bounded c). lia. Qed.

Lemma chr_byte c : chr (byte c) = c.
Proof. unfold chr, byte. rewrite N2Z.id. apply ascii_N_embedding. Qed.

Lemma byte_chr z : 0 <= z < 256 -> byte (chr z) = z.
Proof. intros H. unfold byte, chr. rewrite N_ascii_embedding by lia. lia. Qed.

Lemma byte_inj c d : byte c = byte d -> c = d.
Proof. intros H. by rewrite <- (chr_byte c), H, chr_byte. Qed.

Definition dquote : ascii := "034".
Definition squote : ascii := "039".
Definition bslash : ascii := "092".
Definition newline : string := String "010" "".
Definition str1 (c : ascii) : string := String c "".

Definition is_digit (c : ascii) : bool := (48 <=? byte c) && (byte c <=? 57).
Definition is_lower (c : ascii) : bool := (97 <=? byte c) && (byte c <=? 122).
Definition is_upper (c : ascii) : bool := (65 <=? byte c) && (byte c <=? 90).

(** ** Concatenation *)

Lemma app_cons_l c s t : String c s +:+ t = String c (s +:+ t).
Proof. reflexivity. Qed.

Lemma str1_app c s : str1 c +:+ s = String c s.
Proof. reflexivity. Qed.

Lemma app_nil_l_s s : "" +:+ s = s.
Proof. reflexivity. Qed.

Lemma app_nil_r_s s : s +:+ "" = s.
Proof. induction s as [|c s IH]; [done|]. by rewrite app_cons_l, IH. Qed.

Lemma app_assoc_s a b c : (a +:+ b) +:+ c = a +:+ (b +:+ c).
Proof. induction a as [|x a IH]; [done|]. by rewrite !app_cons_l, IH. Qed.

Lemma length_app_s a b : String.length (a +:+ b) = (String.length a + String.length b)%nat.
Proof. induction a as [|x a IH]; [done|]. rewrite app_cons_l. simpl. by rewrite IH. Qed.

Lemma app_inv_tail_s a b c : a +:+ c = b +:+ c -> a = b.
Proof.
  revert b. induction a as [|x a IH]; intros [|y b] H.
  - done.
  - apply (f_equal String.length) in H. rewrite !length_app_s in H. simpl in H. lia.
  - apply (f_equal String.length) in H. rewrite !length_app_s in H. simpl in H. lia.
  - rewrite !app_cons_l in H. injection H as -> H. f_equal. by apply IH.
Qed.

(** [strings.Join(parts, sep)]. *)
Fixpoint strings_join (sep : string) (l : list string) : string :=
  match l with
  | [] => ""
  | [s] => s
  | s :: l' => s +:+ sep +:+ strings_join sep l'
  end.

(** Concatenation of the pieces written to a [strings.Builder]. *)
Definition concat_s (l : list string) : string := foldr String.append "" l.

Lemma concat_s_app l1 l2 : concat_s (l1 ++ l2) = concat_s l1 +:+ concat_s l2.
Proof. induction l1 as [|s l1 IH]; [done|]. simpl. by rewrite IH, app_assoc_s. Qed.

(** ** Properties of every byte *)

Fixpoint sall (p : ascii -> bool) (s : string) : bool :=
  match s with
  | EmptyString => true
  | String c s' => p c && sall p s'
  end.

Lemma sall_app p a b : sall p (a +:+ b) = sall p a && sall p b.
Proof.
  induction a as [|x a IH]; [done|].
  rewrite app_cons_l. simpl. by rewrite IH, andb_assoc.
Qed.

Lemma sall_impl (p q : ascii -> bool) s :
  (forall c, p c = true -> q c = true) -> sall p s = true -> sall q s = true.
Proof.
  intros Hpq. induction s as [|c s IH]; [done|]. simpl. intros H. breflect.
  rewrite Hpq by done. by apply IH.
Qed.

Definition neqc (c d : ascii) : bool := negb (Ascii.eqb c d).

(** [strings.IndexByte]: position of the first occurrence. *)
Fixpoint index_byte (c : ascii) (s : string) : option nat :=
  match s with
  | EmptyString => None
  | String d s' => if Ascii.eqb c d then Some O else S <$> index_byte c s'
  end.

(** [strings.Contains(s, c)] and [strings.ContainsRune(s, c)] for an ASCII [c]:
    an ASCII rune occurs in a string exactly when its byte does. *)
Definition contains_byte (c : ascii) (s : string) : bool := negb (sall (neqc c) s).

Lemma contains_byte_false c s : contains_byte c s = false <-> sall (neqc c) s = true.
Proof. unfold contains_byte. by rewrite negb_false_iff. Qed.

Lemma index_byte_None c s : index_byte c s = None <-> sall (neqc c) s = true.
Proof.
  induction s as [|d s IH]; [done|]. simpl. unfold neqc at 1.
  destruct (Ascii.eqb c d); simpl; [done|].
  rewrite <- IH. by destruct (index_byte c s).
Qed.

Fixpoint stake (n : nat) (s : string) : string :=
  match n, s with
  | S n', String c s' => String c (stake n' s')
  | _, _ => ""
  end.

Fixpoint sdrop (n : nat) (s : string) : string :=
  match n, s with
  | S n', String _ s' => sdrop n' s'
  | _, _ => s
  end.

Lemma stake_sdrop n s : stake n s +:+ sdrop n s = s.
Proof.
  revert s. induction n as [|n IH]; intros [|c s]; try done.
  simpl. by rewrite app_cons_l, IH.
Qed.

Lemma sdrop_app n a b : n = String.length a -> sdrop n (a +:+ b) = b.
Proof. intros ->. by induction a as [|x a IH]. Qed.

Lemma sdrop_past c l r : sdrop (S (String.length l)) (l +:+ String c r) = r.
Proof.
  rewrite <- (str1_app c r), <- app_assoc_s.
  apply sdrop_app. rewrite length_app_s. simpl. lia.
Qed.

Lemma stake_app n a b : n = String.length a -> stake n (a +:+ b) = a.
Proof. intros ->. induction a as [|x a IH]; [done|]. rewrite app_cons_l. simpl. by rewrite IH. Qed.

Lemma length_sdrop n s : String.length (sdrop n s) = (String.length s - n)%nat.
Proof. revert s. induction n as [|n IH]; intros [|c s]; simpl; auto. Qed.

(** First occurrence of a byte: the prefix before it does not contain it. *)
Lemma index_byte_app c a b :
  sall (neqc c) a = true -> index_byte c (a +:+ String c b) = Some (String.length a).
Proof.
  induction a as [|d a IH]; intros H.
  - rewrite app_nil_l_s. simpl. by rewrite Ascii.eqb_refl.
  - rewrite app_cons_l. simpl in *. unfold neqc at 1 in H. breflect.
    rewrite H, IH by done. done.
Qed.

(** ** Replacement and splitting on one byte *)

(** [strings.ReplaceAll(s, c, r)] for a one-byte pattern. *)
Fixpoint replace_byte (c : ascii) (r : string) (s : string) : string :=
  match s with
  | EmptyString => ""
  | String d s' => if Ascii.eqb c d then r +:+ replace_byte c r s' else String d (replace_byte c r s')
  end.

Lemma replace_byte_app c r a b : replace_byte c r (a +:+ b) = replace_byte c r a +:+ replace_byte c r b.
Proof.
  induction a as [|x a IH]; [done|]. rewrite app_cons_l. cbn [replace_byte].
  destruct (Ascii.eqb c x); rewrite IH; [by rewrite app_assoc_s|done].
Qed.

Lemma replace_byte_none c r s : sall (neqc c) s = true -> replace_byte c r s = s.
Proof.
  induction s as [|d s IH]; [done|]. simpl. unfold neqc at 1. intros H. breflect.
  rewrite H. by rewrite IH.
Qed.

(** [strings.Split(s, c)] for a one-byte separator; splitting the empty string
    yields one empty part. *)
Fixpoint split_byte (c : ascii) (s : string) : list string :=
  match s with
  | EmptyString => [""]
  | String d s' =>
      if Ascii.eqb c d then "" :: split_byte c s'
      else match split_byte c s' with
           | [] => [str1 d]
           | p :: ps => String d p :: ps
           end
  end.

Lemma split_byte_nonempty c s : split_byte c s <> [].
Proof.
  destruct s as [|d s]; simpl; [done|].
  destruct (Ascii.eqb c d); [done|]. by destruct (split_byte c s).
Qed.

Lemma split_byte_none c s : sall (neqc c) s = true -> split_byte c s = [s].
Proof.
  induction s as [|d s IH]; [done|]. simpl. unfold neqc at 1. intros H. breflect.
  rewrite H. by rewrite IH.
Qed.

Lemma join_split_byte c s : strings_join (str1 c) (split_byte c s) = s.
Proof.
  induction s as [|d s IH]; [done|]. simpl.
  pose proof (split_byte_nonempty c s) as Hne.
  destruct (Ascii.eqb_spec c d) as [Hcd|]; destruct (split_byte c s) as [|p ps]; try done.
  - change (strings_join (str1 c) ("" :: p :: ps)) with (str1 c +:+ strings_join (str1 c) (p :: ps)).
    by rewrite IH, Hcd.
  - destruct ps as [|p' ps]; simpl in *; [by rewrite IH|].
    by rewrite app_cons_l, IH.
Qed.

Lemma split_byte_parts c s : Forall (fun p => sall (neqc c) p = true) (split_byte c s).
Proof.
  induction s as [|d s IH]; simpl; [by repeat constructor|].
  destruct (Ascii.eqb c d) eqn:E; [by constructor|].
  destruct (split_byte c s) as [|p ps].
  - constructor; [|done]. simpl. unfold neqc. by rewrite E.
  - inversion IH; subst. constructor; [|done]. simpl. unfold neqc at 1. by rewrite E.
Qed.

Lemma split_byte_app c a b :
  sall (neqc c) a = true -> split_byte c (a +:+ String c b) = a :: split_byte c b.
Proof.
  induction a as [|d a IH]; intros Ha; [rewrite app_nil_l_s; cbn; by rewrite Ascii.eqb_refl|].
  rewrite app_cons_l. cbn in *. unfold neqc at 1 in Ha. breflect. by rewrite H, IH.
Qed.

Lemma strings_join_cons sep a b l : strings_join sep (a :: b :: l) = a +:+ sep +:+ strings_join sep (b :: l).
Proof. reflexivity. Qed.

Lemma split_byte_join c l :
  Forall (fun p => sall (neqc c) p = true) l -> l <> [] -> split_byte c (strings_join (str1 c) l) = l.
Proof.
  induction 1 as [|a l Ha Hl IH]; intros Hne; [done|]. destruct l as [|b l]; [by apply split_byte_none|].
  rewrite strings_join_cons, str1_app, split_byte_app by done. by rewrite IH.
Qed.

Definition has_prefix (p s : string) : bool := String.prefix p s.

Lemma has_prefix_app p a b :
  has_prefix p (a +:+ b) = true ->
  has_prefix p a = true \/ exists p', p = a +:+ p' /\ has_prefix p' b = true.
Proof.
  unfold has_prefix. revert p. induction a as [|c a IH]; intros p H; [by right; exists p|].
  rewrite app_cons_l in H. destruct p as [|d p]; [by left|]. cbn [String.prefix] in *.
  destruct (ascii_dec d c) as [->|]; [|done]. destruct (IH _ H) as [|(p' & -> & ?)]; [by left|].
  right. by exists p'.
Qed.

(** [strings.HasSuffix(s, c)] and [strings.TrimSuffix(s, c)] for one byte [c]. *)
Fixpoint has_suffix_byte (c : ascii) (s : string) : bool :=
  match s with
  | EmptyString => false
  | String d EmptyString => Ascii.eqb c d
  | String _ s' => has_suffix_byte c s'
  end.

Fixpoint trim_suffix_byte (c : ascii) (s : string) : string :=
  match s with
  | EmptyString => ""
  | String d EmptyString => if Ascii.eqb c d then "" else s
  | String d s' => String d (trim_suffix_byte c s')
  end.

(** ** UTF-8 iteration *)

Definition in_range (lo hi z : Z) : bool := (lo <=? z) && (z <=? hi).

Definition RuneError : Z := 0xFFFD.

(** [utf8.DecodeRuneInString]: the first rune and its width in bytes; an invalid
    encoding yields [(RuneError, 1)], the empty string [(RuneError, 0)]. *)
Definition decode_rune (s : string) : Z * nat :=
  match s with
  | EmptyString => (RuneError, 0%nat)
  | String c0 s1 =>
      let b0 := byte c0 in
      if b0 <? 0x80 then (b0, 1%nat)
      else if in_range 0xC2 0xDF b0 then
        match s1 with
        | String c1 _ =>
            if in_range 0x80 0xBF (byte c1)
            then (Z.lor (Z.shiftl (Z.land b0 0x1F) 6) (Z.land (byte c1) 0x3F), 2%nat)
            else (RuneError, 1%nat)
        | EmptyString => (RuneError, 1%nat)
        end
      else if in_range 0xE0 0xEF b0 then
        let lo := if b0 =? 0xE0 then 0xA0 else 0x80 in
        let hi := if b0 =? 0xED then 0x9F else 0xBF in
        match s1 with
        | String c1 (String c2 _) =>
            if in_range lo hi (byte c1) && in_range 0x80 0xBF (byte c2)
            then (Z.lor (Z.shiftl (Z.land b0 0x0F) 12)
                    (Z.lor (Z.shiftl (Z.land (byte c1) 0x3F) 6) (Z.land (byte c2) 0x3F)), 3%nat)
            else (RuneError, 1%nat)
        | _ => (RuneError, 1%nat)
        end
      else if in_range 0xF0 0xF4 b0 then
        let lo := if b0 =? 0xF0 then 0x90 else 0x80 in
        let hi := if b0 =? 0xF4 then 0x8F else 0xBF in
        match s1 with
        | String c1 (String c2 (String c3 _)) =>
            if in_range lo hi (byte c1) && in_range 0x80 0xBF (byte c2)
               && in_range 0x80 0xBF (byte c3)
            then (Z.lor (Z.shiftl (Z.land b0 0x07) 18)
                    (Z.lor (Z.shiftl (Z.land (byte c1) 0x3F) 12)
                      (Z.lor (Z.shiftl (Z.land (byte c2) 0x3F) 6) (Z.land (byte c3) 0x3F))), 4%nat)
            else (RuneError, 1%nat)
        | _ => (RuneError, 1%nat)
        end
      else (RuneError, 1%nat)
  end.

(** The runes visited by [for _, r := range s], each with its bytes.  The fuel is
    the byte length, enough because every rune consumes at least one byte. *)
Fixpoint runes_fuel (fuel : nat) (s : string) : list (Z * string) :=
  match fuel with
  | O => []
  | S fuel' =>
      match s with
      | EmptyString => []
      | String _ _ =>
          let '(r, n) := decode_rune s in
          (r, stake n s) :: runes_fuel fuel' (sdrop n s)
      end
  end.

Definition runes (s : string) : list (Z * string) := runes_fuel (String.length s) s.

(** Either the first rune is an ASCII byte, or all bytes it consumes are [>= 0x80]. *)
Lemma decode_rune_spec c s :
  (byte c < 0x80 /\ decode_rune (String c s) = (byte c, 1%nat)) \/
  (0x80 <= byte c /\ exists r n, decode_rune (String c s) = (r, n) /\ (1 <= n <= 4)%nat /\
     (n <= S (String.length s))%nat /\
     sall (fun d => 0x80 <=? byte d) (stake n (String c s)) = true).
Proof.
  unfold decode_rune. destruct (Z.ltb_spec (byte c) 0x80) as [Hc|Hc]; [by left|right].
  split; [done|].
  assert (HR : forall t, exists r n,
     (RuneError, 1%nat) = (r, n) /\ (1 <= n <= 4)%nat /\ (n <= S (String.length t))%nat /\
     sall (fun d => 0x80 <=? byte d) (stake n (String c t)) = true).
  { intros t. exists RuneError, 1%nat. repeat split; simpl; lia. }
  assert (Hlo : forall (b : bool) lo hi z, 0x80 <= lo -> 0x80 <= hi ->
     in_range (if b then lo else 0x80) hi z = true -> 0x80 <= z).
  { unfold in_range. intros [] **; breflect; lia. }
  destruct (in_range 0xC2 0xDF (byte c)).
  { destruct s as [|c1 s]; [by apply HR|].
    destruct (in_range 0x80 0xBF (byte c1)) eqn:E1; [|by apply HR].
    unfold in_range in E1. breflect.
    eexists _, _. split; [done|]. repeat split; simpl; lia. }
  destruct (in_range 0xE0 0xEF (byte c)).
  { destruct s as [|c1 [|c2 s]]; [by apply HR..|].
    destruct (in_range _ _ (byte c1) && _) eqn:E; [|by apply HR]. breflect.
    apply Hlo in H; [|lia|by destruct (byte c =? 0xED)]. unfold in_range in H0. breflect.
    eexists _, _. split; [done|]. repeat split; simpl; lia. }
  destruct (in_range 0xF0 0xF4 (byte c)); [|by apply HR].
  destruct s as [|c1 [|c2 [|c3 s]]]; [by apply HR..|].
  destruct (in_range _ _ (byte c1) && _ && _) eqn:E; [|by apply HR]. breflect.
  apply Hlo in H; [|lia|by destruct (byte c =? 0xF4)]. unfold in_range in H1, H0. breflect.
  eexists _, _. split; [done|]. repeat split; simpl; lia.
Qed.

(** Every ASCII byte of a string is visited as a rune of its own. *)
Lemma runes_fuel_ascii (p : Z -> bool) (fuel : nat) s :
  (String.length s <= fuel)%nat ->
  forallb (fun r => p r.1) (runes_fuel fuel s) = true ->
  sall (fun c => (0x80 <=? byte c) || p (byte c)) s = true.
Proof.
  revert s. induction fuel as [|fuel IH]; intros [|c s] Hlen H; simpl in Hlen; try (done || lia).
  cbn [runes_fuel] in H.
  destruct (decode_rune_spec c s) as [[Hc E]|[Hc (r & n & E & Hn & Hns & Hall)]];
    rewrite E in H; cbn [forallb fst] in H; breflect.
  - simpl in H0 |- *. rewrite H, orb_true_r. by apply IH; [lia|].
  - rewrite <- (stake_sdrop n (String c s)), sall_app. apply andb_true_intro; split.
    + eapply sall_impl; [|exact Hall]. intros d Hd. simpl in Hd. by rewrite Hd.
    + apply IH; [|done]. rewrite length_sdrop. simpl. lia.
Qed.

Lemma runes_ascii (p : Z -> bool) s :
  forallb (fun r => p r.1) (runes s) = true ->
  sall (fun c => (0x80 <=? byte c) || p (byte c)) s = true.
Proof. by apply runes_fuel_ascii. Qed.

(** A string of ASCII bytes is visited byte by byte. *)
Lemma runes_fuel_all_ascii (fuel : nat) s :
  (String.length s <= fuel)%nat -> sall (fun c => byte c <? 0x80) s = true ->
  runes_fuel fuel s = map (fun c => (byte c, str1 c)) (String.list_ascii_of_string s).
Proof.
  revert s. induction fuel as [|fuel IH]; intros [|c s] Hlen H; simpl in Hlen; try (done || lia).
  simpl in H. breflect. cbn [runes_fuel].
  destruct (decode_rune_spec c s) as [[_ E]|[Hc _]]; [|lia].
  rewrite E. simpl. rewrite IH; [done|lia|done].
Qed.

Lemma runes_all_ascii s :
  sall (fun c => byte c <? 0x80) s = true ->
  runes s = map (fun c => (byte c, str1 c)) (String.list_ascii_of_string s).
Proof. by apply runes_fuel_all_ascii. Qed.

Lemma lor_le_l a b : 0 <= b -> a <= Z.lor a b.
Proof.
  intros Hb. assert (E : Z.lor a b = a + Z.ldiff b a).
  { rewrite Z.add_nocarry_lxor.
    - apply Z.bits_inj'. intros n Hn. rewrite Z.lxor_spec, Z.lor_spec, Z.ldiff_spec.
      by destruct (Z.testbit a n), (Z.testbit b n).
    - apply Z.bits_inj'. intros n Hn. rewrite Z.land_spec, Z.ldiff_spec, Z.bits_0.
      by destruct (Z.testbit a n), (Z.testbit b n). }
  rewrite E. pose proof (proj2 (Z.ldiff_nonneg b a) (or_introl Hb)). lia.
Qed.

Lemma byte_mask_ge (lo hi m v sh : Z) b :
  lo <= b <= hi -> 0 <= lo -> 0 <= m ->
  forallb (fun z => v <=? Z.shiftl (Z.land z m) sh) (map (fun n => lo + Z.of_nat n) (seq 0 (Z.to_nat (hi - lo + 1)))) = true ->
  v <= Z.shiftl (Z.land b m) sh.
Proof.
  intros Hb Hlo Hm Hall. rewrite forallb_forall in Hall. apply Z.leb_le, Hall.
  apply in_map_iff. exists (Z.to_nat (b - lo)). split; [lia|]. apply in_seq. lia.
Qed.

Lemma decode_rune_high c s : 0x80 <= byte c -> 0x80 <= (decode_rune (String c s)).1.
Proof.
  intros Hc. unfold decode_rune. destruct (Z.ltb_spec (byte c) 0x80); [lia|].
  assert (HE : 0x80 <= RuneError) by (unfold RuneError; lia).
  assert (Hn : forall x y k, 0 <= x -> 0 <= Z.shiftl (Z.land x y) k) by (intros; apply Z.shiftl_nonneg, Z.land_nonneg; lia).
  assert (Hb : forall d, 0 <= byte d) by (intros d; apply byte_range).
  assert (Hl : forall x y, 0 <= x -> 0 <= Z.land x y) by (intros; apply Z.land_nonneg; lia).
  destruct (in_range 0xC2 0xDF (byte c)) eqn:E2.
  { destruct s as [|c1 s]; [done|]. destruct (in_range 0x80 0xBF (byte c1)); [|done]. cbn [fst].
    etrans; [|apply lor_le_l, Hl, Hb]. unfold in_range in E2. breflect.
    apply (byte_mask_ge 0xC2 0xDF); [lia|lia|lia|reflexivity]. }
  destruct (in_range 0xE0 0xEF (byte c)) eqn:E3.
  { destruct s as [|c1 [|c2 s]]; [done..|]. destruct (in_range _ _ (byte c1) && _) eqn:E; [|done]. cbn [fst].
    unfold in_range in E3, E. breflect. destruct (Z.eqb_spec (byte c) 0xE0) as [E0|].
    - rewrite Z.lor_comm. etrans; [|apply lor_le_l, Hn, Hb]. etrans; [|apply lor_le_l, Hl, Hb].
      apply (byte_mask_ge 0xA0 0xBF); [|lia|lia|reflexivity]. split; [lia|]. case_match; lia.
    - etrans; [|apply lor_le_l, Z.lor_nonneg; split; [apply Hn, Hb|apply Hl, Hb]].
      apply (byte_mask_ge 0xE1 0xEF); [lia|lia|lia|reflexivity]. }
  destruct (in_range 0xF0 0xF4 (byte c)) eqn:E4; [|done].
  destruct s as [|c1 [|c2 [|c3 s]]]; [done..|]. destruct (in_range _ _ (byte c1) && _ && _) eqn:E; [|done]. cbn [fst].
  unfold in_range in E4, E. breflect. destruct (Z.eqb_spec (byte c) 0xF0) as [E0|].
  - rewrite Z.lor_comm. etrans; [|apply lor_le_l, Hn, Hb].
    etrans; [|apply lor_le_l, Z.lor_nonneg; split; [apply Hn, Hb|apply Hl, Hb]].
    apply (byte_mask_ge 0x90 0xBF); [|lia|lia|reflexivity]. split; [lia|]. case_match; lia.
  - etrans; [|apply lor_le_l, Z.lor_nonneg; split; [apply Hn, Hb|apply Z.lor_nonneg; split; [apply Hn, Hb|apply Hl, Hb]]].
    apply (byte_mask_ge 0xF1 0xF4); [lia|lia|lia|reflexivity].
Qed.

(** A test that holds of ASCII runes only holds of all runes when it holds of all bytes. *)
Lemma runes_bytes (p : Z -> bool) s :
  (forall r, 0x80 <= r -> p r = false) ->
  forallb (fun r => p r.1) (runes s) = sall (fun c => p (byte c)) s.
Proof.
  intros Hp. unfold runes. assert (H : (String.length s <= String.length s)%nat) by lia. revert H.
  generalize (String.length s) at 2 3 as fuel. intros fuel. revert s.
  induction fuel as [|fuel IH]; intros [|c s] Hlen; simpl in Hlen; try (done || lia).
  cbn [runes_fuel]. destruct (decode_rune_spec c s) as [[Hc E]|[Hc (r & n & E & _)]]; rewrite E; cbn [forallb fst sall].
  - cbn [sdrop]. rewrite IH; [done|]. cbn. lia.
  - pose proof (decode_rune_high c s Hc) as Hr. rewrite E in Hr. cbn in Hr. by rewrite !Hp.
Qed.

(** The bytes of the runes are the bytes of the string. *)
Lemma concat_runes_fuel (fuel : nat) s :
  (String.length s <= fuel)%nat -> concat_s (map snd (runes_fuel fuel s)) = s.
Proof.
  revert s. induction fuel as [|fuel IH]; intros [|c s] Hlen; simpl in Hlen; try (done || lia).
  cbn [runes_fuel]. destruct (decode_rune (String c s)) as [r n] eqn:E.
  assert (1 <= n)%nat.
  { destruct (decode_rune_spec c s) as [[_ E']|[_ (r' & n' & E' & ? & _)]]; rewrite E' in E; injection E; lia. }
  cbn [map snd concat_s foldr]. fold (concat_s (map snd (runes_fuel fuel (sdrop n (String c s))))).
  rewrite IH; [apply stake_sdrop|]. rewrite length_sdrop. simpl. lia.
Qed.

(** ** Unicode classes *)

(** The part of Go's Unicode tables that concerns code points [>= 0x80]; the ASCII
    part is given by the definitions below.  Nothing is assumed of the tables. *)
Record UnicodeTables := {
  table_letter : Z -> bool;
  table_digit : Z -> bool;
  table_upper : Z -> Z;
  table_lower : Z -> Z;
  table_islower : Z -> bool;
  table_print : Z -> bool;
}.

(** Tables without any class beyond ASCII. *)
Definition ascii_tables : UnicodeTables :=
  {| table_letter := fun _ => false; table_digit := fun _ => false;
     table_upper := fun r => r; table_lower := fun r => r;
     table_islower := fun _ => false; table_print := fun _ => false |}.

Definition IsLetter (T : UnicodeTables) (r : Z) : bool :=
  if r <? 0x80 then in_range 65 90 r || in_range 97 122 r else table_letter T r.

Definition IsDigit (T : UnicodeTables) (r : Z) : bool :=
  if r <? 0x80 then in_range 48 57 r else table_digit T r.

Definition IsLower (T : UnicodeTables) (r : Z) : bool :=
  if r <? 0x80 then in_range 97 122 r else table_islower T r.

(** [unicode.ToUpper] on a rune. *)
Definition ToUpperRune (T : UnicodeTables) (r : Z) : Z :=
  if r <? 0x80 then (if in_range 97 122 r then r - 32 else r) else table_upper T r.

(** [strconv.IsPrint]. *)
Definition IsPrint (T : UnicodeTables) (r : Z) : bool :=
  if r <? 0x80 then in_range 0x20 0x7E r else table_print T r.

(** [unicode.IsSpace]: the White_Space property. *)
Definition IsSpace (r : Z) : bool :=
  in_range 9 13 r || (r =? 32) || (r =? 0x85) || (r =? 0xA0) || (r =? 0x1680)
  || in_range 0x2000 0x200A r || (r =? 0x2028) || (r =? 0x2029) || (r =? 0x202F)
  || (r =? 0x205F) || (r =? 0x3000).

(** [strings.TrimSpace]. *)
Fixpoint drop_space (l : list (Z * string)) : list (Z * string) :=
  match l with
  | [] => []
  | (r, b) :: l' => if IsSpace r then drop_space l' else l
  end.

Definition TrimSpace (s : string) : string :=
  concat_s (map snd (reverse (drop_space (reverse (drop_space (runes s)))))).

(** [strings.Fields]: the maximal runs of non-space runes. *)
Fixpoint fields_go (cur : string) (l : list (Z * string)) : list string :=
  match l with
  | [] => if (cur =? "")%string then [] else [cur]
  | (r, b) :: l' =>
      if IsSpace r then (if (cur =? "")%string then fields_go "" l' else cur :: fields_go "" l')
      else fields_go (cur +:+ b) l'
  end.

Definition Fields (s : string) : list string := fields_go "" (runes s).

(** ** Quoting: the verb [%q] *)

Definition hex_digit (z : Z) : ascii := chr (if z <? 10 then 48 + z else 87 + z).

(** [n] lowercase hexadecimal digits of [z]. *)
Fixpoint hex_digits (n : nat) (z : Z) : string :=
  match n with
  | O => ""
  | S n' => String (hex_digit (Z.land (Z.shiftr z (4 * Z.of_nat n')) 15)) (hex_digits n' z)
  end.

(** The escape of one rune and its bytes, as [strconv.Quote] writes it. *)
Definition quote_rune (T : UnicodeTables) (r : Z) (b : string) : string :=
  if (r =? RuneError) && (String.length b =? 1)%nat
  then str1 bslash +:+ "x" +:+ match b with String c _ => hex_digits 2 (byte c) | _ => "" end
  else if (r =? byte dquote) || (r =? byte bslash) then str1 bslash +:+ b
  else if IsPrint T r then b
  else if in_range 7 13 r then
    str1 bslash +:+ match r with 7 => "a" | 8 => "b" | 9 => "t" | 10 => "n" | 11 => "v" | 12 => "f" | _ => "r" end
  else if (r <? 0x20) || (r =? 0x7F) then str1 bslash +:+ "x" +:+ hex_digits 2 r
  else if r <? 0x10000 then str1 bslash +:+ "u" +:+ hex_digits 4 r
  else str1 bslash +:+ "U" +:+ hex_digits 8 r.

(** [strconv.Quote]. *)
Definition Quote (T : UnicodeTables) (s : string) : string :=
  str1 dquote +:+ concat_s (map (fun p => quote_rune T p.1 p.2) (runes s)) +:+ str1 dquote.

(** ** Integers as text *)

Fixpoint digits_go (fuel : nat) (n : Z) (acc : string) : string :=
  match fuel with
  | O => acc
  | S fuel' =>
      let acc' := String (chr (48 + n `mod` 10)) acc in
      if n <? 10 then acc' else digits_go fuel' (n / 10) acc'
  end.

(** Decimal digits of [n >= 0]; a number has at most [log2 n + 1] of them. *)
Definition digits (n : Z) : string := digits_go (S (Z.to_nat (Z.log2 n))) n "".

(** [fmt.Sprintf("%d", z)] and [strconv.Itoa]. *)
Definition itoa (z : Z) : string :=
  if z <? 0 then "-" +:+ digits (- z) else digits z.

Fixpoint parse_digits (acc : Z) (s : string) : option Z :=
  match s with
  | EmptyString => Some acc
  | String c s' => if is_digit c then parse_digits (acc * 10 + (byte c - 48)) s' else None
  end.

Definition parse_uint (s : string) : option Z :=
  match s with EmptyString => None | String _ _ => parse_digits 0 s end.

(** [strconv.Atoi] on a 64-bit platform: an optional sign, at least one digit, and
    a value in the range of [int]; [None] stands for the returned error. *)
Definition Atoi (s : string) : option Z :=
  let parsed :=
    match s with
    | String "-" s' => Z.opp <$> parse_uint s'
    | String "+" s' => parse_uint s'
    | _ => parse_uint s
    end in
  match parsed with
  | Some z => if in_int64 z then Some z else None
  | None => None
  end.

Lemma digit_chr d : 0 <= d < 10 ->
  is_digit (chr (48 + d)) = true /\ byte (chr (48 + d)) - 48 = d.
Proof. intros H. unfold is_digit. rewrite byte_chr by lia. lia. Qed.

Lemma digits_go_digits fuel n acc :
  0 <= n -> sall is_digit acc = true -> sall is_digit (digits_go fuel n acc) = true.
Proof.
  revert n acc. induction fuel as [|fuel IH]; intros n acc Hn Hacc; [done|]. simpl.
  pose proof (Z.mod_pos_bound n 10 ltac:(lia)) as Hm.
  assert (sall is_digit (String (chr (48 + n `mod` 10)) acc) = true).
  { simpl. by rewrite (proj1 (digit_chr _ Hm)). }
  destruct (n <? 10); [done|]. apply IH; [|done]. apply Z.div_pos; lia.
Qed.

Lemma parse_digits_go fuel n acc :
  0 <= n < 10 ^ Z.of_nat fuel -> parse_digits 0 (digits_go fuel n acc) = parse_digits n acc.
Proof.
  revert n acc. induction fuel as [|fuel IH]; intros n acc Hn; simpl.
  - f_equal. simpl in Hn. lia.
  - pose proof (Z.mod_pos_bound n 10 ltac:(lia)) as Hm.
    pose proof (digit_chr _ Hm) as [Hd Hv].
    destruct (Z.ltb_spec n 10) as [Hs|Hs].
    + simpl. rewrite Hd. f_equal. rewrite Z.mod_small in Hv |- * by lia. lia.
    + rewrite IH; simpl.
      * rewrite Hd. f_equal. pose proof (Z.div_mod n 10). lia.
      * rewrite Nat2Z.inj_succ, Z.pow_succ_r in Hn by lia.
        split; [apply Z.div_pos; lia|]. apply Z.div_lt_upper_bound; lia.
Qed.

Lemma digits_fuel n : 0 <= n -> n < 10 ^ Z.of_nat (S (Z.to_nat (Z.log2 n))).
Proof.
  intros Hn. destruct (Z.eq_dec n 0) as [->|Hne]; [done|].
  pose proof (Z.log2_spec n ltac:(lia)) as [_ Hlt]. pose proof (Z.log2_nonneg n).
  rewrite Nat2Z.inj_succ, Z2Nat.id by done.
  eapply Z.lt_le_trans; [exact Hlt|]. apply Z.pow_le_mono_l. lia.
Qed.

Lemma digits_cons n : exists c s, digits n = String c s.
Proof.
  unfold digits.
  assert (H : forall fuel m acc, acc <> EmptyString -> exists c s, digits_go fuel m acc = String c s).
  { induction fuel as [|fuel IH]; intros m [|c acc] Ha; simpl; try destruct (m <? 10); eauto; done. }
  cbn [digits_go]. destruct (n <? 10); eauto.
Qed.

Lemma parse_uint_digits n : 0 <= n -> parse_uint (digits n) = Some n.
Proof.
  intros Hn. unfold parse_uint. destruct (digits_cons n) as (c & s & E). rewrite E, <- E.
  unfold digits. rewrite parse_digits_go; [done|]. pose proof (digits_fuel n). lia.
Qed.

Lemma digits_all n : 0 <= n -> sall is_digit (digits n) = true.
Proof. intros Hn. by apply digits_go_digits. Qed.

(** A digit is neither a sign nor any other byte outside ['0'..'9']. *)
Lemma sall_digit_neq c s : is_digit c = false -> sall is_digit s = true -> sall (neqc c) s = true.
Proof.
  intros Hc. apply sall_impl. intros d Hd. unfold neqc. apply negb_true_iff.
  destruct (Ascii.eqb_spec c d) as [->|]; congruence.
Qed.

Lemma Atoi_digits n : 0 <= n -> in_int64 n = true -> Atoi (digits n) = Some n.
Proof.
  intros Hn Hr. pose proof (parse_uint_digits n Hn) as E. pose proof (digits_all n Hn) as Hd.
  destruct (digits_cons n) as (c & s & Ed). rewrite Ed in *. simpl in Hd. breflect.
  unfold Atoi. destruct c as [[] [] [] [] [] [] [] []]; try discriminate; rewrite E, Hr; done.
Qed.

Lemma Atoi_itoa z : in_int64 z = true -> Atoi (itoa z) = Some z.
Proof.
  intros Hz. unfold itoa. destruct (Z.ltb_spec z 0) as [Hneg|Hpos]; [|by apply Atoi_digits].
  rewrite app_cons_l, app_nil_l_s. unfold Atoi. cbv beta iota zeta.
  rewrite parse_uint_digits by lia. cbn. by rewrite Z.opp_involutive, Hz.
Qed.

Lemma itoa_inj a b : itoa a = itoa b -> a = b.
Proof.
  assert (Hneg : forall x y, 0 <= x -> 0 <= y -> digits x <> "-" +:+ digits y).
  { intros x y Hx Hy E. pose proof (digits_all x Hx) as Hd. rewrite E in Hd. done. }
  assert (Hpos : forall x y, 0 <= x -> 0 <= y -> digits x = digits y -> x = y).
  { intros x y Hx Hy E. pose proof (parse_uint_digits x Hx) as H1.
    rewrite E, parse_uint_digits in H1 by done. congruence. }
  unfold itoa. destruct (Z.ltb_spec a 0), (Z.ltb_spec b 0); intros E.
  - rewrite !app_cons_l, !app_nil_l_s in E. injection E as E. apply Hpos in E; lia.
  - exfalso. eapply Hneg; [..|symmetry; exact E]; lia.
  - exfalso. eapply Hneg; [..|exact E]; lia.
  - by apply Hpos.
Qed.

(** ** Sorted text *)

(** [sort.Strings]: ascending byte-wise order. *)
Definition sort_strings (l : list string) : list string := merge_sort String.le l.

(** Sorting forgets the order in which a map was iterated. *)
Lemma sort_strings_perm l l' : l ≡ₚ l' -> sort_strings l = sort_strings l'.
Proof.
  intros Hp. apply (StronglySorted_unique String.le).
  - apply (StronglySorted_merge_sort _).
  - apply (StronglySorted_merge_sort _).
  - unfold sort_strings. by rewrite !merge_sort_Permutation.
Qed.

Lemma sort_strings_sorted l : StronglySorted String.le (sort_strings l).
Proof. apply (StronglySorted_merge_sort _). Qed.

Lemma sort_strings_permutation l : sort_strings l ≡ₚ l.
Proof. apply merge_sort_Permutation. Qed.

(** ** Spans and ASCII letter case *)

(** The longest prefix of bytes with [p], and the rest. *)
Fixpoint span (p : ascii -> bool) (s : string) : string * string :=
  match s with
  | String c s' => if p c then let '(a, b) := span p s' in (String c a, b) else ("", s)
  | EmptyString => ("", "")
  end.

(** [strings.ToLower] on ASCII text, byte by byte. *)
Definition lower_byte (c : ascii) : ascii := if is_upper c then chr (byte c + 32) else c.
Fixpoint smap (f : ascii -> ascii) (s : string) : string :=
  match s with EmptyString => "" | String c s' => String (f c) (smap f s') end.

Lemma span_app p a rest :
  sall p a = true -> (forall c r, rest = String c r -> p c = false) ->
  span p (a +:+ rest) = (a, rest).
Proof.
  intros Ha Hr. induction a as [|c a IH].
  - rewrite app_nil_l_s. destruct rest as [|c r]; [done|]. cbn. by rewrite (Hr c r).
  - rewrite app_cons_l. cbn in *. breflect. by rewrite H, IH.
Qed.

Lemma span_split p s : (span p s).1 +:+ (span p s).2 = s.
Proof.
  induction s as [|c s IH]; [done|]. cbn. destruct (p c); [|done].
  destruct (span p s). cbn in *. by rewrite app_cons_l, IH.
Qed.

(** [utf8.EncodeRune]: surrogates and values out of range become [RuneError]. *)
Definition encode_rune (r : Z) : string :=
  let r := if (r <? 0) || (0x10FFFF <? r) || in_range 0xD800 0xDFFF r then RuneError else r in
  let cont i := chr (Z.lor 0x80 (Z.land (Z.shiftr r (6 * i)) 0x3F)) in
  if r <? 0x80 then str1 (chr r)
  else if r <? 0x800 then String (chr (Z.lor 0xC0 (Z.shiftr r 6))) (str1 (cont 0))
  else if r <? 0x10000 then String (chr (Z.lor 0xE0 (Z.shiftr r 12))) (String (cont 1) (str1 (cont 0)))
  else String (chr (Z.lor 0xF0 (Z.shiftr r 18))) (String (cont 2) (String (cont 1) (str1 (cont 0)))).

(** [strings.ToLower]: ASCII text byte by byte, other text rune by rune. *)
Definition ToLower (T : UnicodeTables) (s : string) : string :=
  if sall (fun c => byte c <? 0x80) s then smap lower_byte s
  else concat_s (map (fun p => encode_rune (if p.1 <? 0x80 then byte (lower_byte (chr p.1)) else table_lower T p.1))
                     (runes s)).

(** [strings.ToUpper]. *)
Definition upper_byte (c : ascii) : ascii := if is_lower c then chr (byte c - 32) else c.
Definition ToUpper (T : UnicodeTables) (s : string) : string :=
  if sall (fun c => byte c <? 0x80) s then smap upper_byte s
  else concat_s (map (fun p => encode_rune (ToUpperRune T p.1)) (runes s)).

(** ** Text that trimming leaves alone *)

Definition printable (c : ascii) : bool := in_range 0x20 0x7E (byte c).
Definition graphic (c : ascii) : bool := in_range 0x21 0x7E (byte c).

(** Text whose first, or last, byte is a visible character. *)
Definition starts_ok (s : string) : Prop := exists c a, s = String c a /\ graphic c = true.
Definition ends_ok (s : string) : Prop := exists a c, s = a +:+ str1 c /\ graphic c = true.

Lemma graphic_printable c : graphic c = true -> printable c = true.
Proof. unfold graphic, printable, in_range. intros H. breflect. lia. Qed.

Lemma graphic_not_space c : graphic c = true -> IsSpace (byte c) = false.
Proof.
  unfold graphic, IsSpace, in_range. intros H. breflect.
  repeat (apply orb_false_intro); try (apply andb_false_iff); try (apply Z.eqb_neq); lia.
Qed.

Lemma list_ascii_snoc a c :
  String.list_ascii_of_string (a +:+ str1 c) = String.list_ascii_of_string a ++ [c].
Proof. induction a as [|d a IH]; [done|]. rewrite app_cons_l. cbn. by rewrite IH. Qed.

Lemma drop_space_hd r b l : IsSpace r = false -> drop_space ((r, b) :: l) = (r, b) :: l.
Proof. intros H. cbn. by rewrite H. Qed.

Lemma concat_str1 s : concat_s (map snd (map (fun c => (byte c, str1 c)) (String.list_ascii_of_string s))) = s.
Proof. induction s as [|c s IH]; [done|]. cbn. by rewrite <- IH at 2. Qed.

(** Trimming leaves text that neither starts nor ends with a space. *)
Lemma TrimSpace_id s : sall printable s = true -> starts_ok s -> ends_ok s -> TrimSpace s = s.
Proof.
  intros Hp (c & a & Es & Hc) (b & d & Ed & Hd). unfold TrimSpace. rewrite runes_all_ascii.
  2: { eapply sall_impl; [|exact Hp]. intros x. unfold printable, in_range. intros H. breflect. lia. }
  assert (drop_space (map (fun c => (byte c, str1 c)) (String.list_ascii_of_string s)) =
          map (fun c => (byte c, str1 c)) (String.list_ascii_of_string s)) as ->.
  { rewrite Es. cbn [String.list_ascii_of_string map]. by rewrite drop_space_hd by by apply graphic_not_space. }
  assert (drop_space (reverse (map (fun c => (byte c, str1 c)) (String.list_ascii_of_string s))) =
          reverse (map (fun c => (byte c, str1 c)) (String.list_ascii_of_string s))) as ->.
  { rewrite Ed, list_ascii_snoc, map_app, reverse_app. cbn [map app reverse].
    change (reverse [(byte d, str1 d)]) with [(byte d, str1 d)]. cbn [app].
    by rewrite drop_space_hd by by apply graphic_not_space. }
  rewrite reverse_involutive. apply concat_str1.
Qed.

Lemma ends_ok_sall s : s <> "" -> sall graphic s = true -> ends_ok s.
Proof.
  induction s as [|c s IH]; [done|]. intros _. cbn [sall]. intros H. breflect.
  destruct s as [|d s]; [by exists "", c|]. destruct IH as (a & x & E & Hx); [done..|].
  exists (String c a), x. by rewrite E, app_cons_l.
Qed.

Lemma ends_ok_app a b : ends_ok b -> ends_ok (a +:+ b).
Proof. intros (x & c & -> & Hc). exists (a +:+ x), c. by rewrite app_assoc_s. Qed.

Lemma itoa_graphic z : sall graphic (itoa z) = true.
Proof.
  assert (forall n, 0 <= n -> sall graphic (digits n) = true) as Hd.
  { intros n Hn. eapply sall_impl; [|by apply digits_all]. intros c. unfold is_digit, graphic, in_range. lia. }
  unfold itoa. destruct (Z.ltb_spec z 0); [rewrite sall_app, Hd by lia; done|by apply Hd].
Qed.

(** ** Fields of joined words *)

Definition word (s : string) : Prop := s <> "" /\ sall graphic s = true.

#[export] Instance word_dec s : Decision (word s).
Proof. unfold word. apply _. Defined.

Definition ascii_runes (s : string) : list (Z * string) :=
  map (fun c => (byte c, str1 c)) (String.list_ascii_of_string s).

Lemma ascii_runes_app a b : ascii_runes (a +:+ b) = ascii_runes a ++ ascii_runes b.
Proof.
  unfold ascii_runes. induction a as [|c a IH]; [done|]. rewrite app_cons_l. cbn. by rewrite IH.
Qed.

Lemma fields_go_word cur w l :
  sall graphic w = true -> fields_go cur (ascii_runes w ++ l) = fields_go (cur +:+ w) l.
Proof.
  revert cur. induction w as [|c w IH]; intros cur Hw; [by rewrite app_nil_r_s|].
  cbn [sall] in Hw. breflect. cbn [ascii_runes String.list_ascii_of_string map app fields_go].
  rewrite graphic_not_space by done. fold (ascii_runes w). rewrite IH by done.
  by rewrite app_assoc_s, str1_app.
Qed.

(** Splitting words joined by one ASCII space character gives the words. *)
Lemma Fields_join c (ws : list string) :
  IsSpace (byte c) = true -> byte c < 0x80 -> Forall word ws ->
  Fields (strings_join (str1 c) ws) = ws.
Proof.
  intros Hc Hb Hws. unfold Fields. rewrite runes_all_ascii.
  2: { induction Hws as [|w ws [_ Hw] Hws IH]; [done|]. cbn [strings_join].
       assert (sall (fun d => byte d <? 0x80) w = true).
       { eapply sall_impl; [|exact Hw]. unfold graphic, in_range. intros d Hd. breflect. lia. }
       destruct ws; [done|]. rewrite !sall_app. apply andb_true_intro. split; [done|].
       apply andb_true_intro. split; [|done]. cbn. rewrite andb_true_r. by apply Z.ltb_lt. }
  fold (ascii_runes (strings_join (str1 c) ws)).
  induction Hws as [|w ws [Hne Hw] Hws IH]; [done|]. cbn [strings_join].
  destruct ws as [|w' ws].
  - rewrite <- (app_nil_r (ascii_runes w)), fields_go_word by done. rewrite app_nil_l_s. cbn [fields_go].
    by destruct (String.eqb_spec w "").
  - rewrite !ascii_runes_app, fields_go_word by done. rewrite app_nil_l_s.
    cbn [ascii_runes str1 String.list_ascii_of_string map app fields_go]. rewrite Hc.
    destruct (String.eqb_spec w ""); [done|]. f_equal. exact IH.
Qed.

(** ** Fixed-width numbers and their order *)

(** The low [n] decimal digits of a number, with leading zeros. *)
Fixpoint padded (n : nat) (v : Z) : string :=
  match n with
  | O => ""
  | S n' => String (chr (48 + (v / 10 ^ Z.of_nat n') mod 10)) (padded n' v)
  end.

Lemma padded_digits n v : sall is_digit (padded n v) = true.
Proof.
  induction n as [|n IH]; [done|]. cbn [padded sall]. rewrite IH, andb_true_r.
  apply digit_chr, Z.mod_pos_bound. lia.
Qed.

Lemma padded_length n v : String.length (padded n v) = n.
Proof. induction n as [|n IH]; [done|]. cbn. by rewrite IH. Qed.

Lemma compare_app_s a : forall a' s s', String.length a = String.length a' ->
  String.compare (a +:+ s) (a' +:+ s') =
    match String.compare a a' with Eq => String.compare s s' | o => o end.
Proof.
  induction a as [|c a IH]; intros [|c' a'] s s' Hl; try done.
  rewrite !app_cons_l. cbn [String.compare]. destruct (Ascii.compare c c'); [|done|done].
  apply IH. cbn in Hl. lia.
Qed.

Lemma compare_refl_s s : String.compare s s = Eq.
Proof. induction s as [|c s IH]; [done|]. cbn. unfold Ascii.compare. by rewrite N.compare_refl. Qed.

(** Fixed-width decimal text compares as the numbers do. *)
Lemma padded_compare n a b :
  String.compare (padded n a) (padded n b) = (a mod 10 ^ Z.of_nat n ?= b mod 10 ^ Z.of_nat n).
Proof.
  induction n as [|n IH]; [by rewrite !Z.mod_1_r|].
  cbn [padded String.compare]. rewrite Nat2Z.inj_succ, Z.pow_succ_r by lia.
  rewrite (Z.mul_comm 10), !Z.rem_mul_r by (try apply Z.pow_nonzero; lia).
  set (p := 10 ^ Z.of_nat n) in *. assert (0 < p) by (apply Z.pow_pos_nonneg; lia).
  pose proof (Z.mod_pos_bound (a / p) 10 ltac:(lia)). pose proof (Z.mod_pos_bound (b / p) 10 ltac:(lia)).
  pose proof (Z.mod_pos_bound a p ltac:(lia)). pose proof (Z.mod_pos_bound b p ltac:(lia)).
  assert (Ascii.compare (chr (48 + (a / p) mod 10)) (chr (48 + (b / p) mod 10)) = ((a / p) mod 10 ?= (b / p) mod 10)) as ->.
  { unfold Ascii.compare, chr. rewrite !N_ascii_embedding by lia.
    rewrite Z2N.inj_compare by lia. apply Zcompare_plus_compat. }
  rewrite IH. destruct (Z.compare_spec ((a / p) mod 10) ((b / p) mod 10)) as [E|E|E].
  - rewrite E. symmetry. rewrite !(Z.add_comm _ (p * _)). apply Zcompare_plus_compat.
  - symmetry. apply Z.compare_lt_iff. nia.
  - symmetry. apply Z.compare_gt_iff. nia.
Qed.
