(* ===== verification/SqlEscape.v ===== *)
(** * internal/sqlescape: quoting of SQL identifiers and literals

    The functions of [sqlescape.go], a reference lexer for the quoted tokens of
    PostgreSQL (standard-conforming strings), and the lemmas that relate them: a
    quoted value is read back unchanged unless the text that follows extends the token. *)

From Stdlib Require Import ZArith Lia List Bool Ascii.
From stdpp Require Import base list strings.
From S2P Require Import Prelude GoStrings.

Local Open Scope Z_scope.

Module SqlEscape.

(** ** The operations *)

(** [Identifier]. *)
Definition Identifier (name : string) : string :=
  if contains_byte "000" name
  then str1 dquote +:+ "\x00" +:+ str1 dquote
  else str1 dquote +:+ replace_byte dquote (String dquote (str1 dquote)) name +:+ str1 dquote.

(** [StringLiteral]. *)
Definition StringLiteral (s : string) : string :=
  str1 squote +:+ replace_byte squote (String squote (str1 squote)) s +:+ str1 squote.

(** [QualifiedIdentifier]. *)
Definition QualifiedIdentifier (parts : list string) : string :=
  match parts with
  | [] => ""
  | _ => strings_join "." (map Identifier parts)
  end.

(** The body of the loop of [IsValidIdentifier]: whether one rune is accepted. *)
Definition valid_rune (T : UnicodeTables) (r : Z) : bool :=
  if r =? 0 then false
  else if (r <? 0x20) && negb (r =? 32) then false
  else if r =? byte dquote then false
  else if IsLetter T r || IsDigit T r then true
  else (r =? 95) || (r =? 36) || (r =? 45) || (r =? 46).

(** [IsValidIdentifier]. *)
Definition IsValidIdentifier (T : UnicodeTables) (name : string) : bool :=
  if (name =? "")%string || (63 <? Z.of_nat (String.length name)) then false
  else forallb (fun r => valid_rune T r.1) (runes name).

(** [MustIdentifier]: [None] stands for the error. *)
Definition MustIdentifier (T : UnicodeTables) (name : string) : option string :=
  if IsValidIdentifier T name then Some (Identifier name) else None.

(** [AssertSafePassword]: [true] when no error is returned. *)
Definition AssertSafePassword (pw : string) : bool := negb (contains_byte "000" pw).

(** ** Reference lexer *)

(** The token that starts just after an opening quote [q]: a doubled quote stands
    for itself, a single one ends the token.  The result is the value and the text
    that follows the closing quote. *)
Fixpoint lex_quoted (q : ascii) (s : string) : option (string * string) :=
  match s with
  | EmptyString => None
  | String c s' =>
      if Ascii.eqb c q then
        match s' with
        | String d s'' =>
            if Ascii.eqb d q
            then (fun p => (String q p.1, p.2)) <$> lex_quoted q s''
            else Some ("", s')
        | EmptyString => Some ("", "")
        end
      else (fun p => (String c p.1, p.2)) <$> lex_quoted q s'
  end.

Definition starts_with (c : ascii) (s : string) : bool :=
  match s with String d _ => Ascii.eqb d c | EmptyString => false end.

(** A token of the SQL text at the head of [s]. *)
Definition read_token (q : ascii) (s : string) : option (string * string) :=
  match s with
  | String c s' => if Ascii.eqb c q then lex_quoted q s' else None
  | EmptyString => None
  end.

(** PostgreSQL joins string literals that are separated by white space, comments included,
    with at least one newline in it.  [literal_gap comment nl s]: the text after the opening
    quote of the continuation, if [s] is such a gap followed by a quote; [comment] and [nl]
    say whether the reader is inside a [--] comment and has met a newline. *)
Definition sql_newline (c : ascii) : bool := (byte c =? 10) || (byte c =? 13).
Definition sql_space (c : ascii) : bool := (byte c =? 32) || ((9 <=? byte c) && (byte c <=? 13)).

Fixpoint literal_gap (comment nl : bool) (s : string) : option string :=
  match s with
  | EmptyString => None
  | String c s' =>
      if sql_newline c then literal_gap false true s'
      else if comment then literal_gap true nl s'
      else if sql_space c then literal_gap false nl s'
      else if Ascii.eqb c "-" && starts_with "-" s' then literal_gap true nl s'
      else if Ascii.eqb c squote && nl then Some s' else None
  end.

(** A string constant at the head of [s], with its continuations; [n] bounds their
    number. *)
Fixpoint read_constant (n : nat) (s : string) : option (string * string) :=
  match read_token squote s with
  | None => None
  | Some (v, rest) =>
      match literal_gap false false rest with
      | None => Some (v, rest)
      | Some more =>
          match n with
          | O => None
          | S n => (fun p => (v +:+ p.1, p.2)) <$> read_constant n (String squote more)
          end
      end
  end.

Definition read_literal (s : string) : option (string * string) := read_constant (String.length s) s.

(** Two literals on two lines are one constant; on one line they are not. *)
Example literals_join :
  read_literal ("'foo' " +:+ str1 "010" +:+ "  'bar' x") = Some ("foobar", " x") /\
  read_literal "'foo' 'bar'" = Some ("foo", " 'bar'").
Proof. split; reflexivity. Qed.

Lemma lex_quoted_escape q s rest :
  starts_with q rest = false ->
  lex_quoted q (replace_byte q (String q (str1 q)) s +:+ str1 q +:+ rest) = Some (s, rest).
Proof.
  intros Hr. induction s as [|c s IH].
  - change (lex_quoted q (String q rest) = Some ("", rest)). simpl.
    rewrite Ascii.eqb_refl. destruct rest as [|d rest]; [done|]. simpl in Hr. by rewrite Hr.
  - simpl. destruct (Ascii.eqb_spec q c) as [<-|Hne].
    + rewrite app_assoc_s, app_cons_l, str1_app. simpl. by rewrite Ascii.eqb_refl, IH.
    + rewrite app_cons_l. simpl. destruct (Ascii.eqb_spec c q); [congruence|]. by rewrite IH.
Qed.

Lemma read_token_quoted q s rest :
  starts_with q rest = false ->
  read_token q ((str1 q +:+ replace_byte q (String q (str1 q)) s +:+ str1 q) +:+ rest) = Some (s, rest).
Proof.
  intros Hr. rewrite !app_assoc_s, str1_app.
  unfold read_token. rewrite Ascii.eqb_refl. by apply lex_quoted_escape.
Qed.

(** Bytes a valid identifier may hold: those of a multi-byte rune, letters, digits
    and the four punctuation characters. *)
Definition ident_byte (c : ascii) : bool :=
  (0x80 <=? byte c) || is_lower c || is_upper c || is_digit c
  || (byte c =? 95) || (byte c =? 36) || (byte c =? 45) || (byte c =? 46).

Lemma valid_rune_ident_byte T c :
  (0x80 <=? byte c) || valid_rune T (byte c) = true -> ident_byte c = true.
Proof.
  unfold ident_byte, valid_rune, IsLetter, IsDigit, is_lower, is_upper, is_digit, in_range.
  destruct (Z.leb_spec 0x80 (byte c)) as [|Hlt]; [done|]. simpl.
  destruct (Z.ltb_spec (byte c) 0x80); [|lia].
  repeat case_match; breflect; intros; try done; lia.
Qed.

Lemma IsValidIdentifier_bytes T name :
  IsValidIdentifier T name = true -> sall ident_byte name = true.
Proof.
  unfold IsValidIdentifier. case_match; [done|]. intros Hv.
  apply (runes_ascii (valid_rune T)) in Hv.
  eapply sall_impl; [|exact Hv]. intros c. apply valid_rune_ident_byte.
Qed.

Lemma ident_byte_neq c s : ident_byte c = false -> sall ident_byte s = true -> sall (neqc c) s = true.
Proof.
  intros Hc. apply sall_impl. intros d Hd. unfold neqc. apply negb_true_iff.
  destruct (Ascii.eqb_spec c d) as [->|]; congruence.
Qed.

Lemma Identifier_verbatim T name :
  IsValidIdentifier T name = true -> Identifier name = str1 dquote +:+ name +:+ str1 dquote.
Proof.
  intros Hv%IsValidIdentifier_bytes. unfold Identifier.
  rewrite (proj2 (contains_byte_false _ _)) by by apply ident_byte_neq.
  by rewrite replace_byte_none by by apply ident_byte_neq.
Qed.

#[export] Hint Resolve IsValidIdentifier_bytes ident_byte_neq : athos.

(** ** Properties *)



(** What [IsValidIdentifier] guarantees for any Unicode table: the name has 1 to
    63 bytes, every ASCII byte of it is a letter, a digit or one of [_ $ - .], so
    there is no quote, semicolon, whitespace, control or NUL byte in it, and
    [MustIdentifier] returns it verbatim between double quotes. *)
Theorem IsValidIdentifier_sound (T : UnicodeTables) (name : string) :
  IsValidIdentifier T name = true ->
  (1 <= String.length name <= 63)%nat /\
  sall ident_byte name = true /\
  Forall (fun c => sall (neqc c) name = true)
    [squote; dquote; ";"%char; " "%char; bslash; "000"%char; "010"%char] /\
  MustIdentifier T name = Some (str1 dquote +:+ name +:+ str1 dquote).
Proof.
  intros Hv. assert (sall ident_byte name = true) as Hb by eauto with athos.
  split; [|split; [done|split]].
  - unfold IsValidIdentifier in Hv. case_match; [done|]. breflect.
    split; [destruct name; [done|simpl; lia]|lia].
  - repeat (constructor; [by apply ident_byte_neq|]). constructor.
  - unfold MustIdentifier. by rewrite Hv, (Identifier_verbatim T).
Qed.

Lemma IsValidIdentifier_sound_witness :
  MustIdentifier ascii_tables "app-user_1.rw" = Some (str1 dquote +:+ "app-user_1.rw" +:+ str1 dquote).
Proof. apply (IsValidIdentifier_sound ascii_tables "app-user_1.rw"). vm_compute. reflexivity. Defined.

End SqlEscape.
