(* ===== verification/CronExpr.v ===== *)
(** * internal/cronexpr: validation of cron expressions

    The validator of [cronexpr.go] and a declarative grammar of the accepted
    expressions, with the proof that the validator decides the grammar.  Errors
    are structured values, one constructor per error site of the code. *)

From Stdlib Require Import ZArith Lia List Bool Ascii.
From stdpp Require Import base list strings.
From S2P Require Import Prelude GoStrings.

Local Open Scope Z_scope.

Module CronExpr.

(** ** Errors *)

Inductive atom_error :=
  | InvalidStep (p : string)
  | InvalidRangeBound (s : string)
  | RangeOutside (a b lo hi : Z)
  | InvalidValue (p : string)
  | ValueOutside (n lo hi : Z).

Inductive cron_error :=
  | EmptyExpression
  | FieldCount (n : nat)
  | FieldError (i : nat) (e : atom_error).

(** ** The operations; [None] is a nil error *)

Definition aliases : list (string * string) :=
  [("@yearly", "0 0 1 1 *"); ("@annually", "0 0 1 1 *"); ("@monthly", "0 0 1 * *");
   ("@weekly", "0 0 * * 0"); ("@daily", "0 0 * * *"); ("@midnight", "0 0 * * *");
   ("@hourly", "0 * * * *")].

Fixpoint assoc_find (k : string) (l : list (string * string)) : option string :=
  match l with
  | [] => None
  | (k', v) :: l' => if (k =? k')%string then Some v else assoc_find k l'
  end.

(** [Expand]: [None] is the empty-expression error. *)
Definition Expand (s : string) : option string :=
  let s := TrimSpace s in
  if (s =? "")%string then None
  else match assoc_find s aliases with
       | Some v => Some v
       | None => Some s
       end.

Definition validateSingleValue (p : string) (lo hi : Z) : option atom_error :=
  match Atoi p with
  | None => Some (InvalidValue p)
  | Some n => if (n <? lo) || (hi <? n) then Some (ValueOutside n lo hi) else None
  end.

Definition validateRangeAtom (p : string) (lo hi : Z) : option atom_error :=
  match index_byte "-" p with
  | None => Some (InvalidRangeBound p)
  | Some i =>
      let left := stake i p in
      let right := sdrop (S i) p in
      match Atoi left with
      | None => Some (InvalidRangeBound left)
      | Some a =>
          match Atoi right with
          | None => Some (InvalidRangeBound right)
          | Some b =>
              if (a <? lo) || (hi <? b) || (b <? a) then Some (RangeOutside a b lo hi) else None
          end
      end
  end.

(** [rec] is the call back to [validateAtom] on the part left of the slash. *)
Definition validateStepAtom (rec : string -> option atom_error) (p : string) : option atom_error :=
  match index_byte "/" p with
  | None => Some (InvalidStep p)
  | Some i =>
      let left := stake i p in
      let right := sdrop (S i) p in
      if (left =? "")%string || (right =? "")%string then Some (InvalidStep p)
      else
        let err := if (left =? "*")%string then None else rec left in
        match err with
        | Some e => Some e
        | None =>
            match Atoi right with
            | None => Some (InvalidStep p)
            | Some n => if n <=? 0 then Some (InvalidStep p) else None
            end
        end
  end.

(** The recursion goes from an atom to the part before its first slash, which has
    none, so its depth is at most two; fuel 2 is never exhausted. *)
Fixpoint validateAtom_fuel (fuel : nat) (lo hi : Z) (p : string) : option atom_error :=
  if (p =? "*")%string then None
  else if contains_byte "/" p then
    match fuel with
    | O => Some (InvalidStep p)
    | S fuel' => validateStepAtom (validateAtom_fuel fuel' lo hi) p
    end
  else if contains_byte "-" p then validateRangeAtom p lo hi
  else validateSingleValue p lo hi.

Definition validateAtom (p : string) (lo hi : Z) : option atom_error :=
  validateAtom_fuel 2 lo hi p.

(** The first error of a loop over parts. *)
Fixpoint first_error {A E} (f : A -> option E) (l : list A) : option E :=
  match l with
  | [] => None
  | a :: l' => match f a with Some e => Some e | None => first_error f l' end
  end.

Definition validateField (f : string) (lo hi : Z) : option atom_error :=
  if (f =? "*")%string then None
  else first_error (fun part => validateAtom part lo hi) (split_byte "," f).

Definition ranges : list (Z * Z) := [(0, 59); (0, 23); (1, 31); (1, 12); (0, 7)].

Definition Validate (s : string) : option cron_error :=
  match Expand s with
  | None => Some EmptyExpression
  | Some expr =>
      let fields := Fields expr in
      if negb (Nat.eqb (length fields) 5) then Some (FieldCount (length fields))
      else first_error
             (fun '(i, (f, (lo, hi))) =>
                match validateField f lo hi with
                | Some e => Some (FieldError (S i) e)
                | None => None
                end)
             (imap (fun i fr => (i, fr)) (zip fields ranges))
  end.

Definition IsAlias (s : string) : bool :=
  match assoc_find (TrimSpace s) aliases with Some _ => true | None => false end.

(** ** The grammar *)

(** Atoms of a field whose values range over [[lo, hi]]. *)
Inductive Atom (lo hi : Z) : string -> Prop :=
  | Atom_star : Atom lo hi "*"
  | Atom_value s n :
      contains_byte "/" s = false -> contains_byte "-" s = false ->
      Atoi s = Some n -> lo <= n <= hi -> Atom lo hi s
  | Atom_range l r a b :
      contains_byte "/" (l +:+ String "-" r) = false -> contains_byte "-" l = false ->
      Atoi l = Some a -> Atoi r = Some b -> lo <= a -> a <= b -> b <= hi ->
      Atom lo hi (l +:+ String "-" r)
  | Atom_step l r n :
      contains_byte "/" l = false -> Atom lo hi l ->
      Atoi r = Some n -> 0 < n -> Atom lo hi (l +:+ String "/" r).

(** A field: a star or a comma-separated list of atoms. *)
Definition Field (lo hi : Z) (f : string) : Prop :=
  Forall (Atom lo hi) (split_byte "," f).

(** An expression: an alias, or five fields in their ranges. *)
Definition Expression (s : string) : Prop :=
  exists expr, Expand s = Some expr /\
    Forall2 (fun f r => Field r.1 r.2 f) (Fields expr) ranges.

(** ** Lemmas *)

Lemma first_error_None {A E} (f : A -> option E) l :
  first_error f l = None <-> Forall (fun a => f a = None) l.
Proof.
  induction l as [|a l IH]; simpl; [by split|].
  rewrite Forall_cons. destruct (f a); [naive_solver|]. rewrite IH. naive_solver.
Qed.

Lemma index_byte_split c s i :
  index_byte c s = Some i ->
  sall (neqc c) (stake i s) = true /\ s = stake i s +:+ String c (sdrop (S i) s).
Proof.
  revert i. induction s as [|d s IH]; intros i H; simpl in H; [done|].
  destruct (Ascii.eqb_spec c d) as [<-|Hne].
  - injection H as <-. by split.
  - destruct (index_byte c s) as [j|]; [|done]. injection H as <-.
    destruct (IH j eq_refl) as [H1 H2]. split.
    + simpl. unfold neqc at 1. destruct (Ascii.eqb_spec c d); [done|]. by rewrite H1.
    + simpl stake. rewrite app_cons_l. f_equal. exact H2.
Qed.

Lemma contains_index c s : contains_byte c s = true -> exists i, index_byte c s = Some i.
Proof.
  intros H. destruct (index_byte c s) as [i|] eqn:E; [eauto|].
  apply index_byte_None, contains_byte_false in E. congruence.
Qed.

Lemma Atoi_empty : Atoi "" = None.
Proof. reflexivity. Qed.

Lemma validateSingleValue_ok p lo hi :
  validateSingleValue p lo hi = None <-> exists n, Atoi p = Some n /\ lo <= n <= hi.
Proof.
  unfold validateSingleValue. destruct (Atoi p) as [n|]; [|naive_solver].
  destruct ((n <? lo) || (hi <? n)) eqn:E; split.
  - done.
  - intros (m & [= <-] & Hm). lia.
  - intros _. exists n. split; [done|]. lia.
  - done.
Qed.

Lemma validateRangeAtom_ok p lo hi :
  validateRangeAtom p lo hi = None <->
  exists l r a b, p = l +:+ String "-" r /\ contains_byte "-" l = false /\
    Atoi l = Some a /\ Atoi r = Some b /\ lo <= a /\ a <= b /\ b <= hi.
Proof.
  unfold validateRangeAtom. split.
  - destruct (index_byte "-" p) as [i|] eqn:Ei; [|done].
    apply index_byte_split in Ei as [Hl Hp].
    destruct (Atoi (stake i p)) as [a|] eqn:Ea; [|done].
    destruct (Atoi (sdrop (S i) p)) as [b|] eqn:Eb; [|done].
    destruct (_ || _ || _) eqn:E; [done|]. intros _.
    exists (stake i p), (sdrop (S i) p), a, b. rewrite contains_byte_false.
    repeat split; try done; lia.
  - intros (l & r & a & b & -> & Hl & Ha & Hb & ? & ? & ?).
    apply contains_byte_false in Hl.
    rewrite index_byte_app, stake_app by done.
    rewrite sdrop_past, Ha, Hb. destruct (_ || _ || _) eqn:E; [lia|done].
Qed.

Lemma validateStepAtom_ok rec p :
  validateStepAtom rec p = None <->
  exists l r n, p = l +:+ String "/" r /\ contains_byte "/" l = false /\
    (l = "*" \/ l <> "" /\ rec l = None) /\ Atoi r = Some n /\ 0 < n.
Proof.
  unfold validateStepAtom. split.
  - destruct (index_byte "/" p) as [i|] eqn:Ei; [|done].
    apply index_byte_split in Ei as [Hl Hp].
    destruct (_ || _) eqn:E; [done|]. breflect.
    destruct (if (stake i p =? "*")%string then None else rec (stake i p)) eqn:Er; [done|].
    destruct (Atoi (sdrop (S i) p)) as [n|] eqn:Ea; [|done].
    destruct (Z.leb_spec n 0); [done|]. intros _.
    exists (stake i p), (sdrop (S i) p), n. rewrite contains_byte_false.
    repeat split; try done. destruct (String.eqb_spec (stake i p) "*"); auto.
  - intros (l & r & n & -> & Hl & Hrec & Hr & Hn).
    apply contains_byte_false in Hl. rewrite index_byte_app, stake_app, sdrop_past, Hr by done.
    destruct (String.eqb_spec r "") as [->|]; [by rewrite Atoi_empty in Hr|].
    destruct (Z.leb_spec n 0); [lia|].
    destruct Hrec as [->|[Hne Hrec]]; [done|].
    destruct (String.eqb_spec l ""); [done|]. simpl.
    destruct (l =? "*")%string; [done|]. by rewrite Hrec.
Qed.

Lemma Atom_nonempty lo hi s : Atom lo hi s -> s <> "".
Proof. intros H ->. inversion H as [|? ? ? ? Ha|l ? ? ? ? ? ? ? ? ? ? E|l ? ? ? ? ? ? E]; subst; try done; by destruct l. Qed.

Lemma contains_byte_app c a b : contains_byte c (a +:+ b) = contains_byte c a || contains_byte c b.
Proof. unfold contains_byte. by rewrite sall_app, negb_andb. Qed.

Lemma contains_byte_mid c a b : contains_byte c (a +:+ String c b) = true.
Proof.
  rewrite contains_byte_app. unfold contains_byte at 2. simpl. unfold neqc at 1.
  rewrite Ascii.eqb_refl. simpl. apply orb_true_r.
Qed.

(** Without a slash no fuel is needed. *)
Lemma validateAtom_fuel_noslash fuel lo hi p :
  contains_byte "/" p = false -> validateAtom_fuel fuel lo hi p = None <-> Atom lo hi p.
Proof.
  intros Hs. destruct fuel as [|fuel]; simpl; rewrite Hs.
  all: destruct (String.eqb_spec p "*") as [->|Hne]; [by split; [constructor|]|].
  all: destruct (contains_byte "-" p) eqn:Hd.
  all: rewrite ?validateRangeAtom_ok, ?validateSingleValue_ok; split.
  all: try (intros (l & r & a & b & -> & ?); naive_solver eauto using Atom).
  all: try (intros (n & ? & ?); by eapply Atom_value).
  all: intros Ha; inversion Ha; subst; try done.
  all: try (by rewrite contains_byte_mid in Hs); try (by rewrite contains_byte_mid in Hd).
  all: try congruence.
  all: repeat eexists; eauto; lia.
Qed.

(** The validator decides the grammar of atoms. *)
Lemma validateAtom_ok lo hi p : validateAtom p lo hi = None <-> Atom lo hi p.
Proof.
  destruct (contains_byte "/" p) eqn:Hs; [|by apply validateAtom_fuel_noslash].
  unfold validateAtom. cbn [validateAtom_fuel]. rewrite Hs.
  destruct (String.eqb_spec p "*") as [->|Hne]; [done|].
  fold (validateAtom_fuel 1 lo hi). rewrite validateStepAtom_ok. split.
  - intros (l & r & n & -> & Hl & Hrec & Hr & Hn). eapply Atom_step; eauto.
    destruct Hrec as [->|[_ Hrec]]; [constructor|]. by eapply validateAtom_fuel_noslash.
  - intros Ha. inversion Ha as [|? ? H|l r ? ? H|l r n Hl Hal Hr Hn]; subst; try congruence.
    exists l, r, n. repeat split; try done. right.
    split; [by eapply Atom_nonempty|]. by apply validateAtom_fuel_noslash.
Qed.

Lemma validateField_ok lo hi f : validateField f lo hi = None <-> Field lo hi f.
Proof.
  unfold validateField, Field. destruct (String.eqb_spec f "*") as [->|_].
  - split; [|done]. intros _. repeat constructor.
  - rewrite first_error_None. apply Forall_iff. intros x. apply validateAtom_ok.
Qed.

Lemma zip_fields_ok (P : string -> Z -> Z -> Prop) fields :
  length fields = 5%nat ->
  Forall (fun '(_, (f, (lo, hi))) => P f lo hi) (imap (fun (i : nat) fr => (i, fr)) (zip fields ranges)) <->
  Forall2 (fun f r => P f r.1 r.2) fields ranges.
Proof.
  intros Hlen. do 5 (destruct fields as [|? fields]; [done|]). destruct fields; [|done].
  unfold ranges. simpl. rewrite !Forall_cons, !Forall2_cons, Forall_nil, Forall2_nil. simpl. tauto.
Qed.

Lemma Validate_spec (s : string) : Validate s = None <-> Expression s.
Proof.
  unfold Validate, Expression. destruct (Expand s) as [expr|]; [|naive_solver].
  destruct (Nat.eqb_spec (length (Fields expr)) 5) as [Hlen|Hlen]; simpl.
  - rewrite first_error_None. transitivity (Forall2 (fun f r => Field r.1 r.2 f) (Fields expr) ranges).
    + rewrite <- (zip_fields_ok (fun f lo hi => Field lo hi f)) by done.
      apply Forall_iff. intros (i & f & lo & hi). rewrite <- validateField_ok.
      by destruct (validateField f lo hi).
    + naive_solver.
  - split; [done|]. intros (e & [= <-] & HF). apply Forall2_length in HF. done.
Qed.

(** The forms the comment on [Validate] lists, with unsigned decimal numbers: [*], a number,
    [a-b] and [*/n]. *)
Definition number (s : string) (n : Z) : Prop := sall is_digit s = true /\ Atoi s = Some n.

Inductive DocumentedAtom (lo hi : Z) : string -> Prop :=
  | doc_star : DocumentedAtom lo hi "*"
  | doc_value s n : number s n -> lo <= n <= hi -> DocumentedAtom lo hi s
  | doc_range l r a b : number l a -> number r b -> lo <= a -> a <= b -> b <= hi ->
      DocumentedAtom lo hi (l +:+ String "-" r)
  | doc_step r n : number r n -> 0 < n -> DocumentedAtom lo hi ("*" +:+ String "/" r).

Definition DocumentedExpression (s : string) : Prop :=
  exists expr, Expand s = Some expr /\
    Forall2 (fun f r => Forall (DocumentedAtom r.1 r.2) (split_byte "," f)) (Fields expr) ranges.

Lemma number_free c s n : is_digit c = false -> number s n -> contains_byte c s = false.
Proof.
  intros Hc [Hs _]. apply contains_byte_false. eapply sall_impl; [|exact Hs]. intros d Hd.
  unfold neqc. destruct (Ascii.eqb_spec c d) as [->|]; [congruence|done].
Qed.

Lemma DocumentedAtom_Atom lo hi s : DocumentedAtom lo hi s -> Atom lo hi s.
Proof.
  intros [|s' n Hn ?|l r a b Hl Hr ???|r n Hr ?].
  - constructor.
  - eapply Atom_value; [by eapply number_free| by eapply number_free|apply Hn|done].
  - apply (Atom_range lo hi l r a b); [|by eapply number_free|apply Hl|apply Hr|done..].
    rewrite contains_byte_app, (number_free "/" l a) by done. cbn [orb].
    change (contains_byte "/" (str1 "-" +:+ r) = false).
    by rewrite contains_byte_app, (number_free "/" r b).
  - eapply Atom_step; [done|constructor|apply Hr|done].
Qed.

(** C26: what the cron validator accepts.  [Validate] reports no error exactly on the
    expressions that, after trimming and alias expansion, have five fields, each a
    comma-separated list of [*], values, ranges [a-b] with [lo <= a <= b <= hi], and steps
    [atom/n] with [n > 0], in the range of the field, where a number may carry a sign.  The
    expressions of the forms its comment lists are among them; stepped ranges [a-b/n],
    stepped values [n/m] and a plus sign are accepted beyond those forms. *)
Theorem Validate_iff_grammar (s : string) :
  (Validate s = None <-> Expression s) /\ (DocumentedExpression s -> Validate s = None) /\
  Validate "10-50/5 5/2 +5 * *" = None.
Proof.
  split_and!; [apply Validate_spec| |reflexivity]. intros (expr & He & HF). apply Validate_spec.
  exists expr. split; [done|]. eapply Forall2_impl; [exact HF|]. intros f r Hf.
  eapply Forall_impl; [exact Hf|]. intros x. apply DocumentedAtom_Atom.
Qed.

End CronExpr.
