(* ===== verification/K8s.v ===== *)
(** * Kubernetes API data

    The fields of the Kubernetes API types the operator reads or writes, as
    records.  Types the operator only copies from a spec to a pod (affinity,
    tolerations, topology constraints) are represented by their serialised text. *)

From Stdlib Require Import ZArith Lia List Bool.
From stdpp Require Import base list strings gmap.
From S2P Require Import Prelude GoStrings.

Local Open Scope Z_scope.

(** ** Metadata *)

Record OwnerReference := {
  or_Kind : string;
  or_Name : string;
  or_UID : string;
  or_Controller : bool;
}.

Record ObjectMeta := {
  om_Name : string;
  om_Namespace : string;
  om_UID : string;
  om_Labels : gmap string string;
  om_Annotations : gmap string string;
  om_Finalizers : list string;
  om_OwnerReferences : list OwnerReference;
  om_DeletionTimestamp : option Z;
  om_Generation : Z;
  om_ResourceVersion : Z;
}.

(** [metav1.ObjectMeta{Name: n, Namespace: ns, Labels: l}]. *)
Definition mkMeta (n ns : string) (l : gmap string string) : ObjectMeta :=
  {| om_Name := n; om_Namespace := ns; om_UID := ""; om_Labels := l; om_Annotations := ∅;
     om_Finalizers := []; om_OwnerReferences := []; om_DeletionTimestamp := None;
     om_Generation := 0; om_ResourceVersion := 0 |}.

Record NamespacedName := { nn_Name : string; nn_Namespace : string }.

#[export] Instance NamespacedName_eq_dec : EqDecision NamespacedName.
Proof. solve_decision. Defined.

#[export] Instance NamespacedName_countable : Countable NamespacedName.
Proof.
  refine (inj_countable' (fun n => (nn_Name n, nn_Namespace n))
            (fun p => {| nn_Name := p.1; nn_Namespace := p.2 |}) _).
  by intros [].
Defined.

Definition key_of (m : ObjectMeta) : NamespacedName :=
  {| nn_Name := om_Name m; nn_Namespace := om_Namespace m |}.

Inductive ConditionStatus := ConditionTrue | ConditionFalse | ConditionUnknown.

#[export] Instance ConditionStatus_eq_dec : EqDecision ConditionStatus.
Proof. solve_decision. Defined.

(** [metav1.Condition]; times are nanoseconds since the epoch. *)
Record Condition := {
  cond_Type : string;
  cond_Status : ConditionStatus;
  cond_ObservedGeneration : Z;
  cond_LastTransitionTime : Z;
  cond_Reason : string;
  cond_Message : string;
}.

(** ** Quantities *)

(** A [resource.Quantity]: its amount in units of [10^-9] and its canonical text. *)
Record Quantity := { q_nano : Z; q_text : string }.

Definition nano : Z := 1000000000.
Definition q_IsZero (q : Quantity) : bool := q_nano q =? 0.
(** [q.Cmp(0) <= 0]. *)
Definition q_NonPositive (q : Quantity) : bool := q_nano q <=? 0.
(** [q.Value()]: rounded up, away from zero, to an integer. *)
Definition q_Value (q : Quantity) : Z :=
  if 0 <=? q_nano q then (q_nano q + (nano - 1)) / nano
  else - ((- q_nano q + (nano - 1)) / nano).

Definition zero_quantity : Quantity := {| q_nano := 0; q_text := "0" |}.

Definition ResourceList := gmap string Quantity.
Record ResourceRequirements := { rr_Limits : ResourceList; rr_Requests : ResourceList }.

(** [rl.Memory()]: the memory entry, or a zero quantity. *)
Definition rl_Memory (rl : ResourceList) : Quantity :=
  match rl !! "memory" with Some q => q | None => zero_quantity end.

(** ** Pods *)

Inductive IntOrString := IntVal (z : Z) | StrVal (s : string).

(** [intstr.FromInt]: narrows to 32 bits. *)
Definition intstr_FromInt (z : Z) : IntOrString := IntVal (int32 z).
Definition intstr_FromInt32 (z : Z) : IntOrString := IntVal z.

Record ContainerPort := { cp_Name : string; cp_ContainerPort : Z; cp_Protocol : string }.

Record SecretKeySelector := { sks_Name : string; sks_Key : string }.

(** An environment variable: a literal value or a secret key reference. *)
Record EnvVar := { ev_Name : string; ev_Value : string; ev_SecretKeyRef : option SecretKeySelector }.

Record VolumeMount := { vm_Name : string; vm_MountPath : string }.

Inductive ProbeHandler :=
  | ExecAction (cmd : list string)
  | TCPSocketAction (port : IntOrString)
  | HTTPGetAction (path : string) (port : IntOrString).

Record Probe := {
  pr_Handler : ProbeHandler;
  pr_InitialDelaySeconds : Z;
  pr_PeriodSeconds : Z;
  pr_TimeoutSeconds : Z;
  pr_SuccessThreshold : Z;
  pr_FailureThreshold : Z;
}.

Record SecurityContext := { sc_AllowPrivilegeEscalation : option bool; sc_DropCapabilities : list string }.

Record Container := {
  c_Name : string;
  c_Image : string;
  c_ImagePullPolicy : string;
  c_Command : list string;
  c_SecurityContext : option SecurityContext;
  c_Ports : list ContainerPort;
  c_Env : list EnvVar;
  c_EnvFromSecrets : list string;
  c_VolumeMounts : list VolumeMount;
  c_Resources : ResourceRequirements;
  c_ReadinessProbe : option Probe;
  c_LivenessProbe : option Probe;
}.

Inductive VolumeSource := ConfigMapVolume (name : string) | EmptyDirVolume.
Record Volume := { v_Name : string; v_Source : VolumeSource }.

Record PodSecurityContext := {
  psc_RunAsNonRoot : bool;
  psc_RunAsUser : Z;
  psc_RunAsGroup : Z;
  psc_FSGroup : Z;
  psc_Seccomp : string;
}.

Record PodSpec := {
  ps_ServiceAccountName : string;
  ps_RestartPolicy : string;
  ps_Containers : list Container;
  ps_TopologySpreadConstraints : list string;
  ps_Affinity : option string;
  ps_Tolerations : list string;
  ps_ImagePullSecrets : list string;
  ps_PriorityClassName : string;
  ps_TerminationGracePeriodSeconds : option Z;
  ps_SecurityContext : option PodSecurityContext;
  ps_Volumes : list Volume;
}.

Record PodTemplateSpec := { pts_Labels : gmap string string; pts_Spec : PodSpec }.

Definition no_resources : ResourceRequirements := {| rr_Limits := ∅; rr_Requests := ∅ |}.

(** ** Workloads *)

Record PersistentVolumeClaim := {
  pvc_Name : string;
  pvc_Labels : gmap string string;
  pvc_AccessModes : list string;
  pvc_Storage : Quantity;
  pvc_StorageClassName : option string;
}.

Record StatefulSetSpec := {
  ss_Replicas : option Z;
  ss_ServiceName : string;
  ss_PodManagementPolicy : string;
  ss_UpdateStrategy : string;
  ss_Selector : gmap string string;
  ss_Template : PodTemplateSpec;
  ss_VolumeClaimTemplates : list PersistentVolumeClaim;
}.

Record StatefulSet := { sts_Meta : ObjectMeta; sts_Spec : StatefulSetSpec; sts_ReadyReplicas : Z }.

Record DeploymentSpec := {
  ds_Replicas : option Z;
  ds_Selector : gmap string string;
  ds_Template : PodTemplateSpec;
}.

Record Deployment := { dep_Meta : ObjectMeta; dep_Spec : DeploymentSpec }.

Record JobSpec := { js_BackoffLimit : option Z; js_Template : PodTemplateSpec }.
Record JobCondition := { jc_Type : string; jc_Status : string }.
Record Job := { job_Meta : ObjectMeta; job_Spec : JobSpec; job_Conditions : list JobCondition }.

(** ** Services, configuration, policies *)

Record ServicePort := { sp_Name : string; sp_Port : Z; sp_TargetPort : IntOrString; sp_Protocol : string }.

Record ServiceSpec := {
  svs_Type : string;
  svs_ClusterIP : string;
  svs_PublishNotReadyAddresses : bool;
  svs_Selector : gmap string string;
  svs_Ports : list ServicePort;
}.

Record Service := { svc_Meta : ObjectMeta; svc_Spec : ServiceSpec }.
Record ConfigMap := { cm_Meta : ObjectMeta; cm_Data : gmap string string }.
Record Secret := {
  sec_Meta : ObjectMeta;
  sec_Type : string;
  sec_Data : gmap string string;
  sec_StringData : gmap string string;
}.
Record ServiceAccount := { sa_Meta : ObjectMeta }.

Record PodDisruptionBudgetSpec := {
  pdbs_Selector : gmap string string;
  pdbs_MinAvailable : option IntOrString;
  pdbs_MaxUnavailable : option IntOrString;
}.
Record PodDisruptionBudget := { pdb_Meta : ObjectMeta; pdb_Spec : PodDisruptionBudgetSpec }.

(** ** Label selection *)

(** Whether a pod with labels [l] is selected by the [matchLabels] map [sel]: every
    pair of the selector is a label. *)
Definition selects (sel l : gmap string string) : Prop := sel ⊆ l.

#[export] Instance selects_dec sel l : Decision (selects sel l).
Proof. unfold selects. apply _. Defined.

(** ** Server-side defaulting

    The API server completes the fields a client leaves unset with the defaults the
    Kubernetes API reference documents.  [..._defaulted x y] says that [y] is [x] with some
    unset fields completed that way; fields the reference gives no default for are equal. *)

(** [y] is [x], or [x] is the unset value and [y] a documented default. *)
Definition defaulted {A} (unset : A) (d : A -> Prop) (x y : A) : Prop := y = x \/ (x = unset /\ d y).

Definition handler_defaulted (x y : ProbeHandler) : Prop :=
  y = x \/ exists port, x = HTTPGetAction "" port /\ y = HTTPGetAction "/" port.

Definition probe_defaulted (x y : Probe) : Prop :=
  handler_defaulted (pr_Handler x) (pr_Handler y) /\
  pr_InitialDelaySeconds y = pr_InitialDelaySeconds x /\
  defaulted 0 (eq 10) (pr_PeriodSeconds x) (pr_PeriodSeconds y) /\
  defaulted 0 (eq 1) (pr_TimeoutSeconds x) (pr_TimeoutSeconds y) /\
  defaulted 0 (eq 1) (pr_SuccessThreshold x) (pr_SuccessThreshold y) /\
  defaulted 0 (eq 3) (pr_FailureThreshold x) (pr_FailureThreshold y).

Definition containerport_defaulted (x y : ContainerPort) : Prop :=
  cp_Name y = cp_Name x /\ cp_ContainerPort y = cp_ContainerPort x /\
  defaulted "" (eq "TCP") (cp_Protocol x) (cp_Protocol y).

(** Requests that are left out default to the limits. *)
Definition resources_defaulted (x y : ResourceRequirements) : Prop :=
  rr_Limits y = rr_Limits x /\ rr_Requests x ⊆ rr_Requests y /\
  rr_Requests y ⊆ rr_Requests x ∪ rr_Limits x.

Definition container_defaulted (x y : Container) : Prop :=
  c_Name y = c_Name x /\ c_Image y = c_Image x /\
  defaulted "" (fun p => p = "Always" \/ p = "IfNotPresent") (c_ImagePullPolicy x) (c_ImagePullPolicy y) /\
  c_Command y = c_Command x /\ c_SecurityContext y = c_SecurityContext x /\
  Forall2 containerport_defaulted (c_Ports x) (c_Ports y) /\
  c_Env y = c_Env x /\ c_EnvFromSecrets y = c_EnvFromSecrets x /\ c_VolumeMounts y = c_VolumeMounts x /\
  resources_defaulted (c_Resources x) (c_Resources y) /\
  option_Forall2 probe_defaulted (c_ReadinessProbe x) (c_ReadinessProbe y) /\
  option_Forall2 probe_defaulted (c_LivenessProbe x) (c_LivenessProbe y).

(** An absent security context is completed with an empty one. *)
Definition pod_defaulted (x y : PodSpec) : Prop :=
  ps_ServiceAccountName y = ps_ServiceAccountName x /\
  defaulted "" (eq "Always") (ps_RestartPolicy x) (ps_RestartPolicy y) /\
  Forall2 container_defaulted (ps_Containers x) (ps_Containers y) /\
  ps_TopologySpreadConstraints y = ps_TopologySpreadConstraints x /\
  ps_Affinity y = ps_Affinity x /\ ps_Tolerations y = ps_Tolerations x /\
  ps_ImagePullSecrets y = ps_ImagePullSecrets x /\ ps_PriorityClassName y = ps_PriorityClassName x /\
  defaulted None (eq (Some 30)) (ps_TerminationGracePeriodSeconds x) (ps_TerminationGracePeriodSeconds y) /\
  defaulted None (fun _ => True) (ps_SecurityContext x) (ps_SecurityContext y) /\
  ps_Volumes y = ps_Volumes x.

Definition template_defaulted (x y : PodTemplateSpec) : Prop :=
  pts_Labels y = pts_Labels x /\ pod_defaulted (pts_Spec x) (pts_Spec y).

Definition statefulset_defaulted (x y : StatefulSetSpec) : Prop :=
  defaulted None (eq (Some 1)) (ss_Replicas x) (ss_Replicas y) /\
  ss_ServiceName y = ss_ServiceName x /\
  defaulted "" (eq "OrderedReady") (ss_PodManagementPolicy x) (ss_PodManagementPolicy y) /\
  defaulted "" (eq "RollingUpdate") (ss_UpdateStrategy x) (ss_UpdateStrategy y) /\
  ss_Selector y = ss_Selector x /\ template_defaulted (ss_Template x) (ss_Template y) /\
  ss_VolumeClaimTemplates y = ss_VolumeClaimTemplates x.

Definition deployment_defaulted (x y : DeploymentSpec) : Prop :=
  defaulted None (eq (Some 1)) (ds_Replicas x) (ds_Replicas y) /\
  ds_Selector y = ds_Selector x /\ template_defaulted (ds_Template x) (ds_Template y).

(** The server adds its own labels to the pods of a Job. *)
Definition job_defaulted (x y : JobSpec) : Prop :=
  defaulted None (eq (Some 6)) (js_BackoffLimit x) (js_BackoffLimit y) /\
  pts_Labels (js_Template x) ⊆ pts_Labels (js_Template y) /\
  pod_defaulted (pts_Spec (js_Template x)) (pts_Spec (js_Template y)).

(** An unset target port is the port. *)
Definition serviceport_defaulted (x y : ServicePort) : Prop :=
  sp_Name y = sp_Name x /\ sp_Port y = sp_Port x /\
  (sp_TargetPort y = sp_TargetPort x \/
   (sp_TargetPort x ∈ [IntVal 0; StrVal ""] /\ sp_TargetPort y = IntVal (sp_Port x))) /\
  defaulted "" (eq "TCP") (sp_Protocol x) (sp_Protocol y).

(** The server completes the rest of a Service itself (cluster IP, type). *)
Definition service_defaulted (x y : ServiceSpec) : Prop :=
  svs_Selector y = svs_Selector x /\ Forall2 serviceport_defaulted (svs_Ports x) (svs_Ports y).

Lemma defaulted_refl {A} unset (d : A -> Prop) x : defaulted unset d x x.
Proof. by left. Qed.

Lemma defaulted_set {A} unset (d : A -> Prop) x y : defaulted unset d x y -> x <> unset -> y = x.
Proof. by intros [?|[? _]]. Qed.

Lemma probe_defaulted_refl p : probe_defaulted p p.
Proof. unfold probe_defaulted, handler_defaulted, defaulted. tauto. Qed.

Lemma container_defaulted_refl c : container_defaulted c c.
Proof.
  unfold container_defaulted, resources_defaulted. split_and!; try done; try apply defaulted_refl.
  - induction (c_Ports c); constructor; [|done]. unfold containerport_defaulted, defaulted. tauto.
  - apply map_union_subseteq_l.
  - destruct (c_ReadinessProbe c); constructor. apply probe_defaulted_refl.
  - destruct (c_LivenessProbe c); constructor. apply probe_defaulted_refl.
Qed.

Lemma pod_defaulted_refl p : pod_defaulted p p.
Proof.
  unfold pod_defaulted. split_and!; try done; try apply defaulted_refl.
  induction (ps_Containers p); constructor; [|done]. apply container_defaulted_refl.
Qed.

Lemma template_defaulted_refl t : template_defaulted t t.
Proof. split; [done|apply pod_defaulted_refl]. Qed.

Lemma statefulset_defaulted_refl s : statefulset_defaulted s s.
Proof.
  unfold statefulset_defaulted. split_and!; try done; try apply defaulted_refl. apply template_defaulted_refl.
Qed.

Lemma deployment_defaulted_refl s : deployment_defaulted s s.
Proof. split_and!; [apply defaulted_refl|done|apply template_defaulted_refl]. Qed.

Lemma job_defaulted_refl s : job_defaulted s s.
Proof. split_and!; [apply defaulted_refl|done|apply pod_defaulted_refl]. Qed.

Lemma service_defaulted_refl s : service_defaulted s s.
Proof.
  split; [done|]. induction (svs_Ports s); constructor; [|done].
  unfold serviceport_defaulted, defaulted. tauto.
Qed.

(** Ports that set their target and protocol are stored as they are. *)
Lemma serviceports_set (x y : list ServicePort) :
  Forall2 serviceport_defaulted x y ->
  Forall (fun p => sp_TargetPort p ∉ [IntVal 0; StrVal ""] /\ sp_Protocol p <> "") x -> y = x.
Proof.
  induction 1 as [|[n p t pr] [n' p' t' pr'] x y (Hn & Hp & Ht & Hpr) _ IH]; intros Hf; [done|].
  apply Forall_cons in Hf as [[Ht0 Hp0] Hf]. cbn in *. rewrite (IH Hf). f_equal.
  apply defaulted_set in Hpr; [|done]. destruct Ht as [->|[? _]]; [|done]. by subst.
Qed.
