(* ===== verification/Api.v ===== *)
(** * api/v1alpha1: custom resources and admission webhooks

    The custom resource types of the operator and the defaulting and validating
    webhooks of [PostgresCluster]. *)

From Stdlib Require Import ZArith Lia List Bool.
From stdpp Require Import base list strings gmap.
From S2P Require Import Prelude GoStrings K8s CronExpr.

Local Open Scope Z_scope.

(** ** PostgresCluster *)

Record StorageSpec := {
  st_Size : Quantity;
  st_StorageClass : option string;
  st_AccessModes : list string;
}.

Record S3BackupSpec := {
  s3_Bucket : string;
  s3_Region : string;
  s3_Endpoint : string;
  s3_Path : string;
  s3_CredentialsSecret : option string;
}.

Record GCSBackupSpec := {
  gcs_Bucket : string;
  gcs_Path : string;
  gcs_CredentialsSecret : option string;
}.

Record BackupDestinationSpec := { bd_S3 : option S3BackupSpec; bd_GCS : option GCSBackupSpec }.

Record BackupSpec := {
  bs_Enabled : bool;
  bs_RetentionPolicy : string;
  bs_Schedule : string;
  bs_Destination : option BackupDestinationSpec;
}.

Record TLSSpec := {
  tls_Enabled : bool;
  tls_CertificateSecret : option string;
  tls_CASecret : option string;
}.

Record MonitoringSpec := { mon_Enabled : bool; mon_Port : Z }.

Record PostgresClusterSpec := {
  pcs_PostgresVersion : Z;
  pcs_Instances : Z;
  pcs_Storage : StorageSpec;
  pcs_Resources : ResourceRequirements;
  pcs_PostgresParameters : gmap string string;
  pcs_PostgresHBA : list string;
  pcs_Backup : option BackupSpec;
  pcs_TLS : option TLSSpec;
  pcs_Monitoring : option MonitoringSpec;
  pcs_TopologySpreadConstraints : list string;
  pcs_Affinity : option string;
  pcs_Tolerations : list string;
  pcs_ImagePullSecrets : list string;
  pcs_ServiceAccountName : string;
  pcs_PriorityClassName : string;
  pcs_Paused : bool;
}.

(** The phase is a string in the API; the empty string is the phase of a new object. *)
Inductive PostgresClusterPhase :=
  | PhaseEmpty | PhaseInitializing | PhaseCreating | PhaseRunning | PhaseDegraded
  | PhaseFailed | PhasePaused | PhaseUpgrading.

#[export] Instance PostgresClusterPhase_eq_dec : EqDecision PostgresClusterPhase.
Proof. solve_decision. Defined.

Record PostgresClusterStatus := {
  pst_Conditions : list Condition;
  pst_Phase : PostgresClusterPhase;
  pst_ReadyInstances : Z;
  pst_CurrentPrimary : string;
  pst_WriteServiceName : string;
  pst_ReadServiceName : string;
  pst_PostgresVersion : string;
  pst_ObservedGeneration : Z;
  pst_LatestBackup : option Z;
}.

Definition ConditionReady : string := "Ready".
Definition ConditionAvailable : string := "Available".
Definition ConditionProgressing : string := "Progressing".
Definition ConditionDegraded : string := "Degraded".
Definition ConditionPrimaryReady : string := "PrimaryReady".

Definition PostgresClusterFinalizer : string := "pg.athos.io/finalizer".

Record PostgresCluster := {
  pc_Meta : ObjectMeta;
  pc_Spec : PostgresClusterSpec;
  pc_Status : PostgresClusterStatus;
}.

(** ** PostgresUser *)

Record DatabaseGrant := { dg_Name : string; dg_Privileges : list string }.

Record PostgresUserSpec := {
  us_ClusterName : string;
  us_PasswordSecret : option string;
  us_Databases : list DatabaseGrant;
  us_Roles : list string;
  us_Superuser : bool;
  us_ConnectionLimit : Z;
}.

Record PostgresUserStatus := {
  ust_Applied : bool;
  ust_Conditions : list Condition;
  ust_ObservedGeneration : Z;
}.

Record PostgresUser := {
  pu_Meta : ObjectMeta;
  pu_Spec : PostgresUserSpec;
  pu_Status : PostgresUserStatus;
}.

(** ** PostgresBackup *)

Inductive BackupMethod := BackupMethodBaseBackup | BackupMethodPgDump | BackupMethodOther (m : string).

Inductive BackupPhase :=
  | BackupPhaseEmpty | BackupPhasePending | BackupPhaseRunning | BackupPhaseCompleted | BackupPhaseFailed.

#[export] Instance BackupPhase_eq_dec : EqDecision BackupPhase.
Proof. solve_decision. Defined.

Record PostgresBackupSpec := {
  pbs_ClusterName : string;
  pbs_Method : BackupMethod;
  pbs_Online : bool;
}.

Record PostgresBackupStatus := {
  bst_Phase : BackupPhase;
  bst_StartTime : option Z;
  bst_CompletionTime : option Z;
  bst_BackupSize : Z;
  bst_DestinationPath : string;
  bst_Conditions : list Condition;
}.

Record PostgresBackup := {
  pb_Meta : ObjectMeta;
  pb_Spec : PostgresBackupSpec;
  pb_Status : PostgresBackupStatus;
}.

(** ** The webhooks *)

Module Webhook.

Definition Gi : Z := 1024 * 1024 * 1024.

(** [resource.MustParse("10Gi")]. *)
Definition quantity_10Gi : Quantity := {| q_nano := 10 * Gi * nano; q_text := "10Gi" |}.

Definition default_backup (b : BackupSpec) : BackupSpec :=
  {| bs_Enabled := bs_Enabled b;
     bs_RetentionPolicy := if (bs_RetentionPolicy b =? "")%string then "7d" else bs_RetentionPolicy b;
     bs_Schedule := bs_Schedule b;
     bs_Destination := bs_Destination b |}.

Definition default_monitoring (m : option MonitoringSpec) : MonitoringSpec :=
  let m := match m with Some m => m | None => {| mon_Enabled := true; mon_Port := 9187 |} end in
  if mon_Port m =? 0 then {| mon_Enabled := mon_Enabled m; mon_Port := 9187 |} else m.

(** [Default], on the spec. *)
Definition Default_spec (s : PostgresClusterSpec) : PostgresClusterSpec :=
  {| pcs_PostgresVersion := if pcs_PostgresVersion s =? 0 then 16 else pcs_PostgresVersion s;
     pcs_Instances := if pcs_Instances s =? 0 then 1 else pcs_Instances s;
     pcs_Storage :=
       {| st_Size := if q_IsZero (st_Size (pcs_Storage s)) then quantity_10Gi else st_Size (pcs_Storage s);
          st_StorageClass := st_StorageClass (pcs_Storage s);
          st_AccessModes := match st_AccessModes (pcs_Storage s) with
                            | [] => ["ReadWriteOnce"]
                            | l => l
                            end |};
     pcs_Resources := pcs_Resources s;
     pcs_PostgresParameters := pcs_PostgresParameters s;
     pcs_PostgresHBA := pcs_PostgresHBA s;
     pcs_Backup := default_backup <$> pcs_Backup s;
     pcs_TLS := match pcs_TLS s with
                | None => Some {| tls_Enabled := true; tls_CertificateSecret := None; tls_CASecret := None |}
                | t => t
                end;
     pcs_Monitoring := Some (default_monitoring (pcs_Monitoring s));
     pcs_TopologySpreadConstraints := pcs_TopologySpreadConstraints s;
     pcs_Affinity := pcs_Affinity s;
     pcs_Tolerations := pcs_Tolerations s;
     pcs_ImagePullSecrets := pcs_ImagePullSecrets s;
     pcs_ServiceAccountName := pcs_ServiceAccountName s;
     pcs_PriorityClassName := pcs_PriorityClassName s;
     pcs_Paused := pcs_Paused s |}.

(** [Default]. *)
Definition Default (r : PostgresCluster) : PostgresCluster :=
  {| pc_Meta := pc_Meta r; pc_Spec := Default_spec (pc_Spec r); pc_Status := pc_Status r |}.

(** [y] is the spec [x] as the API server may store it: unset fields are completed by the
    [+kubebuilder:default] values of the schema or by [Default]; [Enabled] flags are always
    sent and [Paused] has no default. *)
Definition spec_defaulted (x y : PostgresClusterSpec) : Prop :=
  defaulted 0 (eq 16) (pcs_PostgresVersion x) (pcs_PostgresVersion y) /\
  defaulted 0 (eq 1) (pcs_Instances x) (pcs_Instances y) /\
  (st_Size (pcs_Storage y) = st_Size (pcs_Storage x) \/
   (q_IsZero (st_Size (pcs_Storage x)) = true /\ st_Size (pcs_Storage y) = quantity_10Gi)) /\
  st_StorageClass (pcs_Storage y) = st_StorageClass (pcs_Storage x) /\
  defaulted [] (eq ["ReadWriteOnce"]) (st_AccessModes (pcs_Storage x)) (st_AccessModes (pcs_Storage y)) /\
  pcs_Resources y = pcs_Resources x /\ pcs_PostgresParameters y = pcs_PostgresParameters x /\
  pcs_PostgresHBA y = pcs_PostgresHBA x /\
  option_Forall2 (fun b b' => b' = b \/ b' = default_backup b) (pcs_Backup x) (pcs_Backup y) /\
  defaulted None (eq (Some {| tls_Enabled := true; tls_CertificateSecret := None; tls_CASecret := None |}))
    (pcs_TLS x) (pcs_TLS y) /\
  (pcs_Monitoring y = pcs_Monitoring x \/ pcs_Monitoring y = Some (default_monitoring (pcs_Monitoring x))) /\
  pcs_TopologySpreadConstraints y = pcs_TopologySpreadConstraints x /\
  pcs_Affinity y = pcs_Affinity x /\ pcs_Tolerations y = pcs_Tolerations x /\
  pcs_ImagePullSecrets y = pcs_ImagePullSecrets x /\
  pcs_ServiceAccountName y = pcs_ServiceAccountName x /\
  pcs_PriorityClassName y = pcs_PriorityClassName x /\ pcs_Paused y = pcs_Paused x.

Lemma spec_defaulted_refl s : spec_defaulted s s.
Proof.
  unfold spec_defaulted. split_and!; try done; try apply defaulted_refl; try by left.
  destruct (pcs_Backup s); constructor. by left.
Qed.

(** The webhook's defaulting is of this kind. *)
Lemma spec_defaulted_Default s : spec_defaulted s (Default_spec s).
Proof.
  unfold spec_defaulted, defaulted. cbn. split_and!; try done.
  - destruct (Z.eqb_spec (pcs_PostgresVersion s) 0); auto.
  - destruct (Z.eqb_spec (pcs_Instances s) 0); auto.
  - destruct (q_IsZero (st_Size (pcs_Storage s))); auto.
  - destruct (st_AccessModes (pcs_Storage s)); auto.
  - destruct (pcs_Backup s); constructor. by right.
  - destruct (pcs_TLS s); auto.
  - by right.
Qed.

(** A [field.Invalid] error: path and detail, one constructor per site. *)
Inductive field_error :=
  | VersionRange (v : Z)
  | InstancesRange (n : Z)
  | InstancesEven (n : Z)
  | StorageNonPositive (q : string)
  | ScheduleInvalid (s : string) (e : CronExpr.cron_error).

Definition validateVersion (r : PostgresCluster) : list field_error :=
  let v := pcs_PostgresVersion (pc_Spec r) in
  if (v <? 14) || (17 <? v) then [VersionRange v] else [].

Definition validateInstances (r : PostgresCluster) : list field_error :=
  let n := pcs_Instances (pc_Spec r) in
  if (n <? 1) || (10 <? n) then [InstancesRange n]
  else if (1 <? n) && (Z.rem n 2 =? 0) then [InstancesEven n]
  else [].

Definition validateStorage (r : PostgresCluster) : list field_error :=
  let q := st_Size (pcs_Storage (pc_Spec r)) in
  if q_NonPositive q then [StorageNonPositive (q_text q)] else [].

Definition validateBackup (r : PostgresCluster) : list field_error :=
  match pcs_Backup (pc_Spec r) with
  | None => []
  | Some b =>
      if negb (bs_Enabled b) then []
      else if negb (bs_Schedule b =? "")%string then
        match CronExpr.Validate (bs_Schedule b) with
        | Some e => [ScheduleInvalid (bs_Schedule b) e]
        | None => []
        end
      else []
  end.

(** [validate]: the accumulated errors; the webhook admits when there is none. *)
Definition validate (r : PostgresCluster) : list field_error :=
  validateVersion r ++ validateInstances r ++ validateStorage r ++ validateBackup r.

Definition ValidateCreate (r : PostgresCluster) : list field_error := validate r.
Definition ValidateUpdate (r old : PostgresCluster) : list field_error := validate r.
Definition ValidateDelete (r : PostgresCluster) : list field_error := [].

(** What admission promises to the controllers. *)
Definition admitted (s : PostgresClusterSpec) : Prop :=
  14 <= pcs_PostgresVersion s <= 17 /\
  pcs_Instances s ∈ [1; 3; 5; 7; 9] /\
  0 < q_nano (st_Size (pcs_Storage s)) /\
  (forall b, pcs_Backup s = Some b -> bs_Enabled b = true -> bs_Schedule b <> "" ->
     CronExpr.Expression (bs_Schedule b)).

Lemma validateVersion_ok r : validateVersion r = [] <-> 14 <= pcs_PostgresVersion (pc_Spec r) <= 17.
Proof. unfold validateVersion. case_match; breflect; split; try done; lia. Qed.

Lemma validateInstances_ok r : validateInstances r = [] <-> pcs_Instances (pc_Spec r) ∈ [1; 3; 5; 7; 9].
Proof.
  unfold validateInstances. set (n := pcs_Instances (pc_Spec r)).
  destruct ((n <? 1) || (10 <? n)) eqn:E.
  - split; [done|]. rewrite !elem_of_cons, elem_of_nil. lia.
  - assert (n ∈ [1;2;3;4;5;6;7;8;9;10]) as Hn by (rewrite !elem_of_cons; lia).
    clearbody n. clear E. rewrite !elem_of_cons in Hn. rewrite !elem_of_cons, elem_of_nil.
    destruct_or! Hn; try (by apply elem_of_nil in Hn); subst; try done; simpl; split; try done; try tauto; lia.
Qed.

Lemma validateStorage_ok r : validateStorage r = [] <-> 0 < q_nano (st_Size (pcs_Storage (pc_Spec r))).
Proof. unfold validateStorage, q_NonPositive. case_match; breflect; split; try done; lia. Qed.

Lemma validateBackup_ok r :
  validateBackup r = [] <->
  (forall b, pcs_Backup (pc_Spec r) = Some b -> bs_Enabled b = true -> bs_Schedule b <> "" ->
     CronExpr.Validate (bs_Schedule b) = None).
Proof.
  unfold validateBackup. destruct (pcs_Backup (pc_Spec r)) as [b|]; [|by split].
  destruct (bs_Enabled b) eqn:Ee; simpl; [|by split; [intros _ b' [= <-]; congruence|]].
  destruct (String.eqb_spec (bs_Schedule b) "") as [Es|Es]; simpl.
  - split; [intros _ b' [= <-]; congruence|done].
  - split.
    + intros H b' [= <-] _ _. by destruct (CronExpr.Validate (bs_Schedule b)).
    + intros H. by rewrite (H b).
Qed.

Lemma Default_monitoring_port m : mon_Port (default_monitoring m) <> 0.
Proof. unfold default_monitoring. repeat case_match; simpl; breflect; done. Qed.

Lemma default_monitoring_idem m : default_monitoring (Some (default_monitoring m)) = default_monitoring m.
Proof.
  unfold default_monitoring at 1. destruct (Z.eqb_spec (mon_Port (default_monitoring m)) 0); [|done].
  by destruct (Default_monitoring_port m).
Qed.

Lemma validate_spec (r : PostgresCluster) : ValidateCreate r = [] <-> admitted (pc_Spec r).
Proof.
  unfold ValidateCreate, validate, admitted.
  rewrite !app_nil, validateVersion_ok, validateInstances_ok, validateStorage_ok, validateBackup_ok.
  by setoid_rewrite CronExpr.Validate_spec.
Qed.

(** C25: what admission accepts.  The webhook reports no error exactly when the version is
    14..17, the instance count is 1, 3, 5, 7 or 9, the storage size is positive and the
    schedule of an enabled backup is empty or an expression the cron validator accepts. *)
Theorem validate_iff_admitted (r : PostgresCluster) : ValidateCreate r = [] <-> admitted (pc_Spec r).
Proof. apply validate_spec. Qed.

(** Defaulting is idempotent, touches only unset fields, and a cluster that sets
    nothing but valid values is admitted after defaulting even when version,
    instances and storage size were left out. *)
Theorem Default_idempotent_admits (r : PostgresCluster) :
  Default (Default r) = Default r /\
  (pcs_PostgresVersion (pc_Spec r) <> 0 ->
     pcs_PostgresVersion (pc_Spec (Default r)) = pcs_PostgresVersion (pc_Spec r)) /\
  (pcs_Instances (pc_Spec r) <> 0 -> pcs_Instances (pc_Spec (Default r)) = pcs_Instances (pc_Spec r)) /\
  (pcs_PostgresVersion (pc_Spec r) = 0 -> pcs_Instances (pc_Spec r) = 0 ->
     q_nano (st_Size (pcs_Storage (pc_Spec r))) = 0 -> validateBackup r = [] ->
     ValidateCreate (Default r) = []).
Proof.
  split; [|split; [|split]].
  - destruct r as [m [v n [sz sc am] ? ? ? b t mo ? ? ? ? ? ? ?] st].
    unfold Default, Default_spec. simpl. rewrite default_monitoring_idem.
    f_equal. f_equal.
    + by destruct (Z.eqb_spec v 0); [|destruct (Z.eqb_spec v 0)].
    + by destruct (Z.eqb_spec n 0); [|destruct (Z.eqb_spec n 0)].
    + destruct (q_IsZero sz) eqn:Eq, am; simpl; by rewrite ?Eq.
    + destruct b as [[? rp ? ?]|]; [|done]. unfold default_backup. simpl.
      by destruct (String.eqb_spec rp ""); [|destruct (String.eqb_spec rp "")].
    + by destruct t.
  - simpl. case_match; breflect; done.
  - simpl. case_match; breflect; done.
  - intros Hv Hn Hq Hb. apply validate_spec. unfold admitted. simpl.
    rewrite Hv, Hn. unfold q_IsZero. rewrite Hq. simpl. split_and!; try lia.
    + apply elem_of_cons. by left.
    + done.
    + intros b. rewrite fmap_Some. intros (b0 & Eb & ->). simpl. intros He Hs.
      apply CronExpr.Validate_spec. by eapply (proj1 (validateBackup_ok r) Hb b0).
Qed.

End Webhook.
