(* ===== verification/Runtime.v ===== *)
(** * The controller runtime as an interface

    The controllers reach Kubernetes through controller-runtime's client, which is
    not part of this repository.  It is the class [Runtime] of operations and the
    class [RuntimeLaws] of their documented behaviour; the controllers and their
    theorems are written against these classes.  [FakeRuntime.v] implements them in
    memory, which shows that the laws are consistent and makes the controllers
    executable.  The laws describe an API server used by one reconcile at a time:
    reads are current and nothing else writes between two calls of a reconcile.
    Failures are unrestricted: any call may fail at any time, with any error. *)

From Stdlib Require Import ZArith Lia List Bool Eqdep_dec.
From stdpp Require Import base list strings gmap.
From S2P Require Import Prelude GoStrings K8s Api.

Local Open Scope Z_scope.

(** ** Object kinds *)

Inductive Kind :=
  | KCluster | KUser | KBackup | KServiceAccount | KSecret | KConfigMap | KStatefulSet
  | KService | KPDB | KJob | KDeployment.

#[export] Instance Kind_eq_dec : EqDecision Kind.
Proof. solve_decision. Defined.

Definition obj (k : Kind) : Type :=
  match k with
  | KCluster => PostgresCluster
  | KUser => PostgresUser
  | KBackup => PostgresBackup
  | KServiceAccount => ServiceAccount
  | KSecret => Secret
  | KConfigMap => ConfigMap
  | KStatefulSet => StatefulSet
  | KService => Service
  | KPDB => PodDisruptionBudget
  | KJob => Job
  | KDeployment => Deployment
  end.

Definition meta (k : Kind) : obj k -> ObjectMeta :=
  match k return obj k -> ObjectMeta with
  | KCluster => pc_Meta
  | KUser => pu_Meta
  | KBackup => pb_Meta
  | KServiceAccount => sa_Meta
  | KSecret => sec_Meta
  | KConfigMap => cm_Meta
  | KStatefulSet => sts_Meta
  | KService => svc_Meta
  | KPDB => pdb_Meta
  | KJob => job_Meta
  | KDeployment => dep_Meta
  end.

Definition set_meta (k : Kind) : ObjectMeta -> obj k -> obj k :=
  match k return ObjectMeta -> obj k -> obj k with
  | KCluster => fun m o => {| pc_Meta := m; pc_Spec := pc_Spec o; pc_Status := pc_Status o |}
  | KUser => fun m o => {| pu_Meta := m; pu_Spec := pu_Spec o; pu_Status := pu_Status o |}
  | KBackup => fun m o => {| pb_Meta := m; pb_Spec := pb_Spec o; pb_Status := pb_Status o |}
  | KServiceAccount => fun m o => {| sa_Meta := m |}
  | KSecret => fun m o => {| sec_Meta := m; sec_Type := sec_Type o; sec_Data := sec_Data o;
                             sec_StringData := sec_StringData o |}
  | KConfigMap => fun m o => {| cm_Meta := m; cm_Data := cm_Data o |}
  | KStatefulSet => fun m o => {| sts_Meta := m; sts_Spec := sts_Spec o; sts_ReadyReplicas := sts_ReadyReplicas o |}
  | KService => fun m o => {| svc_Meta := m; svc_Spec := svc_Spec o |}
  | KPDB => fun m o => {| pdb_Meta := m; pdb_Spec := pdb_Spec o |}
  | KJob => fun m o => {| job_Meta := m; job_Spec := job_Spec o; job_Conditions := job_Conditions o |}
  | KDeployment => fun m o => {| dep_Meta := m; dep_Spec := dep_Spec o |}
  end.

Definition key {k} (o : obj k) : NamespacedName := key_of (meta k o).

(** The desired state an object carries: what the API server persists of a write.  Fields
    the client leaves unset are completed with the documented defaults; for a Secret,
    [stringData] is merged into [data] on write.  No controller creates or updates users
    and backups (only their status), so nothing is said about those. *)
Definition same_spec (k : Kind) : obj k -> obj k -> Prop :=
  match k return obj k -> obj k -> Prop with
  | KCluster => fun o o' => Webhook.spec_defaulted (pc_Spec o) (pc_Spec o')
  | KUser | KBackup | KServiceAccount => fun _ _ => True
  | KSecret => fun o o' => defaulted "" (eq "Opaque") (sec_Type o) (sec_Type o') /\
                           sec_Data o' = sec_StringData o ∪ sec_Data o
  | KConfigMap => fun o o' => cm_Data o' = cm_Data o
  | KStatefulSet => fun o o' => statefulset_defaulted (sts_Spec o) (sts_Spec o')
  | KService => fun o o' => service_defaulted (svc_Spec o) (svc_Spec o')
  | KPDB => fun o o' => pdb_Spec o' = pdb_Spec o
  | KJob => fun o o' => job_defaulted (job_Spec o) (job_Spec o')
  | KDeployment => fun o o' => deployment_defaulted (dep_Spec o) (dep_Spec o')
  end.

(** The spec of a custom resource is untouched by a write to its status. *)
Definition keeps_spec (k : Kind) : obj k -> obj k -> Prop :=
  match k return obj k -> obj k -> Prop with
  | KCluster => fun o o' => pc_Spec o' = pc_Spec o
  | KUser => fun o o' => pu_Spec o' = pu_Spec o
  | KBackup => fun o o' => pb_Spec o' = pb_Spec o
  | _ => fun _ _ => True
  end.

(** The observed state an object carries. *)
Definition same_status (k : Kind) : obj k -> obj k -> Prop :=
  match k return obj k -> obj k -> Prop with
  | KCluster => fun o o' => pc_Status o' = pc_Status o
  | KUser => fun o o' => pu_Status o' = pu_Status o
  | KBackup => fun o o' => pb_Status o' = pb_Status o
  | KStatefulSet => fun o o' => sts_ReadyReplicas o' = sts_ReadyReplicas o
  | KJob => fun o o' => job_Conditions o' = job_Conditions o
  | _ => fun _ _ => True
  end.

(** The metadata a client controls; generation, version, UID and the deletion
    timestamp are the server's. *)
Definition same_meta (m m' : ObjectMeta) : Prop :=
  key_of m' = key_of m /\ om_Labels m' = om_Labels m /\ om_Annotations m' = om_Annotations m /\
  om_Finalizers m' = om_Finalizers m /\ om_OwnerReferences m' = om_OwnerReferences m.

(** An object under deletion exists only as long as it has a finalizer. *)
Definition live (m : ObjectMeta) : Prop := om_DeletionTimestamp m = None \/ om_Finalizers m <> [].

#[export] Instance live_dec m : Decision (live m).
Proof. unfold live. apply _. Defined.

(** ** Operations *)

(** Arguments of [Recorder.Eventf]. *)
Inductive EventArg := ArgStr (s : string) | ArgInt (z : Z).
Record Event := {
  event_Type : string;
  event_Reason : string;
  event_Format : string;
  event_Args : list EventArg;
}.

Record ExecRequest := {
  ex_Namespace : string;
  ex_Pod : string;
  ex_Container : string;
  ex_Command : list string;
}.

(** The outcome of a remote command: the client cannot be built, the executor cannot
    be built, the stream fails (with the captured stderr), or the command succeeds. *)
Inductive ExecResult :=
  | ExecClientError (e : error)
  | ExecCreateError (e : error)
  | ExecStreamError (e : error) (stderr : string)
  | ExecOk.

(** The result of a reconcile: [ctrl.Result]. *)
Record Result := { Requeue : bool; RequeueAfter : Z }.

Definition second : Z := 1000000000.
Definition done_result : Result := {| Requeue := false; RequeueAfter := 0 |}.
Definition requeue : Result := {| Requeue := true; RequeueAfter := 0 |}.
Definition requeue_after (s : Z) : Result := {| Requeue := false; RequeueAfter := s * second |}.

Definition nn (name ns : string) : NamespacedName := {| nn_Name := name; nn_Namespace := ns |}.

(** The error component of a call whose value is not used. *)
Definition err_of {W A} (m : M W (result A)) : M W (option error) :=
  bind m (fun r => ret (result_err r)).

Class Runtime (W : Type) := {
  rt_Get : forall k, NamespacedName -> M W (result (obj k));
  rt_Create : forall k, obj k -> M W (result (obj k));
  rt_Update : forall k, obj k -> M W (result (obj k));
  rt_StatusUpdate : forall k, obj k -> M W (result (obj k));
  rt_Now : M W Z;
  rt_Event : Event -> M W unit;
  rt_RandInt : Z -> M W (result Z);
  rt_Exec : ExecRequest -> M W ExecResult;
  rt_SetControllerReference : forall k, OwnerReference -> string -> obj k -> result (obj k);
  rt_AddFinalizer : string -> list string -> list string;
  rt_RemoveFinalizer : string -> list string -> list string;
  rt_ContainsFinalizer : string -> list string -> bool;
}.

(** [set_owner refs o]: the object with its owner references replaced. *)
Definition meta_with_owners (refs : list OwnerReference) (m : ObjectMeta) : ObjectMeta :=
  {| om_Name := om_Name m; om_Namespace := om_Namespace m; om_UID := om_UID m;
     om_Labels := om_Labels m; om_Annotations := om_Annotations m; om_Finalizers := om_Finalizers m;
     om_OwnerReferences := refs; om_DeletionTimestamp := om_DeletionTimestamp m;
     om_Generation := om_Generation m; om_ResourceVersion := om_ResourceVersion m |}.

Definition meta_with_finalizers (fs : list string) (m : ObjectMeta) : ObjectMeta :=
  {| om_Name := om_Name m; om_Namespace := om_Namespace m; om_UID := om_UID m;
     om_Labels := om_Labels m; om_Annotations := om_Annotations m; om_Finalizers := fs;
     om_OwnerReferences := om_OwnerReferences m; om_DeletionTimestamp := om_DeletionTimestamp m;
     om_Generation := om_Generation m; om_ResourceVersion := om_ResourceVersion m |}.

Definition set_owner (k : Kind) (refs : list OwnerReference) (o : obj k) : obj k :=
  set_meta k (meta_with_owners refs (meta k o)) o.

Lemma meta_set_meta k m o : meta k (set_meta k m o) = m.
Proof. by destruct k. Qed.

Lemma key_set_owner k refs o : key (set_owner k refs o) = key o.
Proof. unfold key, set_owner. by rewrite meta_set_meta. Qed.

Lemma same_spec_set_owner k refs o o' : same_spec k (set_owner k refs o) o' <-> same_spec k o o'.
Proof. by destruct k. Qed.

(** ** Laws *)

Class RuntimeLaws (W : Type) `{Runtime W} := {
  (** The objects persisted by the API server. *)
  stored : W -> forall k, NamespacedName -> option (obj k);
  stored_key : forall w k n o, stored w k n = Some o -> key o = n;
  stored_live : forall w k n o, stored w k n = Some o -> live (meta k o);
  (** Reads: no effect; an object, or NotFound exactly when there is none. *)
  get_frame : forall k n w r w', rt_Get k n w = (r, w') ->
    forall k' n', stored w' k' n' = stored w k' n';
  get_ok : forall k n w o w', rt_Get k n w = (Ok o, w') -> stored w k n = Some o;
  get_notfound : forall k n w e w', rt_Get k n w = (Err e, w') -> IsNotFound e = true ->
    stored w k n = None;
  (** Create: touches one key, never an existing object; on success the desired
      state is persisted. *)
  create_frame : forall k o w r w', rt_Create k o w = (r, w') ->
    forall k' n', (k' <> k \/ n' <> key o \/ is_Some (stored w k' n')) -> stored w' k' n' = stored w k' n';
  create_ok : forall k o w o' w', rt_Create k o w = (Ok o', w') ->
    stored w k (key o) = None /\ stored w' k (key o) = Some o' /\
    same_spec k o o' /\ same_meta (meta k o) (meta k o') /\ om_DeletionTimestamp (meta k o') = None;
  (** A Create that fails may still have been persisted, as a whole. *)
  create_persists : forall k o w r w' o', rt_Create k o w = (r, w') ->
    stored w k (key o) = None -> stored w' k (key o) = Some o' ->
    same_spec k o o' /\ same_meta (meta k o) (meta k o');
  (** Update: touches one existing object; status is kept; removing the last
      finalizer of an object under deletion removes the object. *)
  update_frame : forall k o w r w', rt_Update k o w = (r, w') ->
    forall k' n', (k' <> k \/ n' <> key o \/ stored w k' n' = None) -> stored w' k' n' = stored w k' n';
  update_ok : forall k o w o' w', rt_Update k o w = (Ok o', w') ->
    exists o0, stored w k (key o) = Some o0 /\ same_spec k o o' /\ same_status k o0 o' /\
      same_meta (meta k o) (meta k o') /\
      om_DeletionTimestamp (meta k o') = om_DeletionTimestamp (meta k o0) /\
      stored w' k (key o) = (if decide (live (meta k o')) then Some o' else None);
  (** Status update: touches one existing object and only its status, also when it
      fails; the status is written as a whole or not at all. *)
  status_frame : forall k o w r w', rt_StatusUpdate k o w = (r, w') ->
    forall k' n', (k' <> k \/ n' <> key o \/ stored w k' n' = None) -> stored w' k' n' = stored w k' n';
  status_keeps : forall k o w r w' o0, rt_StatusUpdate k o w = (r, w') -> stored w k (key o) = Some o0 ->
    exists o', stored w' k (key o) = Some o' /\ keeps_spec k o0 o' /\ same_meta (meta k o0) (meta k o') /\
      om_DeletionTimestamp (meta k o') = om_DeletionTimestamp (meta k o0) /\
      (same_status k o0 o' \/ same_status k o o');
  status_ok : forall k o w o' w', rt_StatusUpdate k o w = (Ok o', w') ->
    exists o0, stored w k (key o) = Some o0 /\ stored w' k (key o) = Some o' /\
      keeps_spec k o0 o' /\ same_status k o o' /\ same_meta (meta k o0) (meta k o') /\
      om_DeletionTimestamp (meta k o') = om_DeletionTimestamp (meta k o0);
  (** The clock, the event recorder, the random source and remote commands do not
      touch API objects. *)
  now_frame : forall w t w', rt_Now w = (t, w') -> forall k n, stored w' k n = stored w k n;
  event_frame : forall e w u w', rt_Event e w = (u, w') -> forall k n, stored w' k n = stored w k n;
  rand_frame : forall b w r w', rt_RandInt b w = (r, w') -> forall k n, stored w' k n = stored w k n;
  rand_range : forall b w z w', rt_RandInt b w = (Ok z, w') -> 0 <= z < b;
  exec_frame : forall x w r w', rt_Exec x w = (r, w') -> forall k n, stored w' k n = stored w k n;
  (** The remote commands run so far with their outcomes; only [rt_Exec] adds to them. *)
  executed : W -> list (ExecRequest * ExecResult);
  exec_log : forall x w r w', rt_Exec x w = (r, w') -> executed w' = executed w ++ [(x, r)];
  get_log : forall k n w r w', rt_Get k n w = (r, w') -> executed w' = executed w;
  create_log : forall k o w r w', rt_Create k o w = (r, w') -> executed w' = executed w;
  update_log : forall k o w r w', rt_Update k o w = (r, w') -> executed w' = executed w;
  status_log : forall k o w r w', rt_StatusUpdate k o w = (r, w') -> executed w' = executed w;
  now_log : forall w t w', rt_Now w = (t, w') -> executed w' = executed w;
  event_log : forall e w u w', rt_Event e w = (u, w') -> executed w' = executed w;
  rand_log : forall b w r w', rt_RandInt b w = (r, w') -> executed w' = executed w;
  (** Owner references: only that metadata field changes. *)
  setref_ok : forall k ref ns o o', rt_SetControllerReference k ref ns o = Ok o' ->
    exists refs, o' = set_owner k refs o /\ ref ∈ refs;
  (** Finalizers. *)
  contains_finalizer : forall f fs, rt_ContainsFinalizer f fs = true <-> f ∈ fs;
  add_finalizer : forall f fs g, g ∈ rt_AddFinalizer f fs <-> g = f \/ g ∈ fs;
  remove_finalizer : forall f fs g, g ∈ rt_RemoveFinalizer f fs <-> g <> f /\ g ∈ fs;
}.

(** ** Frames *)

(** [frames S m]: whatever its outcome, [m] changes no object outside [S]. *)
Definition frames {W A} `{RuntimeLaws W} (S : Kind -> NamespacedName -> Prop) (m : M W A) : Prop :=
  forall w a w', m w = (a, w') -> forall k n, ~ S k n -> stored w' k n = stored w k n.

Section Frames.
Context {W : Type} `{RuntimeLaws W}.

Lemma frames_ret {A} S (a : A) : frames (W:=W) S (ret a).
Proof. intros w b w' [= <- <-]. done. Qed.

Lemma frames_bind {A B} S (m : M W A) (f : A -> M W B) :
  frames S m -> (forall a, frames S (f a)) -> frames S (bind m f).
Proof.
  intros Hm Hf w b w' Hb k n HS. mstep Hb.
  rewrite (Hf _ _ _ _ Hb k n HS). by eapply Hm.
Qed.

Lemma frames_mtry S (m k : M W (option error)) : frames S m -> frames S k -> frames S (mtry m k).
Proof. intros Hm Hk. apply frames_bind; [done|]. intros []; [apply frames_ret|done]. Qed.

Lemma frames_weaken {A} (S S' : Kind -> NamespacedName -> Prop) (m : M W A) :
  frames S m -> (forall k n, S k n -> S' k n) -> frames S' m.
Proof. intros Hm HS w a w' Hw k n Hn. eapply Hm; [done|]. eauto. Qed.

Lemma frames_Get S k n : frames S (rt_Get k n).
Proof. intros w r w' Hw k' n' _. by eapply get_frame. Qed.

Lemma frames_Create (S : Kind -> NamespacedName -> Prop) k o : S k (key o) -> frames S (rt_Create k o).
Proof.
  intros HS w r w' Hw k' n' HS'. eapply create_frame; [done|].
  destruct (decide (k' = k)) as [->|]; [|by left]. right; left. intros ->. done.
Qed.

Lemma frames_Update (S : Kind -> NamespacedName -> Prop) k o : S k (key o) -> frames S (rt_Update k o).
Proof.
  intros HS w r w' Hw k' n' HS'. eapply update_frame; [done|].
  destruct (decide (k' = k)) as [->|]; [|by left]. right; left. intros ->. done.
Qed.

Lemma frames_StatusUpdate (S : Kind -> NamespacedName -> Prop) k o :
  S k (key o) -> frames S (rt_StatusUpdate k o).
Proof.
  intros HS w r w' Hw k' n' HS'. eapply status_frame; [done|].
  destruct (decide (k' = k)) as [->|]; [|by left]. right; left. intros ->. done.
Qed.

Lemma frames_Now S : frames S rt_Now.
Proof. intros w t w' Hw k n _. by eapply now_frame. Qed.

Lemma frames_Event S e : frames S (rt_Event e).
Proof. intros w t w' Hw k n _. by eapply event_frame. Qed.

Lemma frames_RandInt S b : frames S (rt_RandInt b).
Proof. intros w t w' Hw k n _. by eapply rand_frame. Qed.

Lemma frames_Exec S x : frames S (rt_Exec x).
Proof. intros w t w' Hw k n _. by eapply exec_frame. Qed.

(** What is read carries the key it was read under. *)
Lemma frames_bind_Get {B} S k n (f : result (obj k) -> M W B) :
  (forall r, (forall o, r = Ok o -> key o = n) -> frames S (f r)) ->
  frames S (bind (rt_Get k n) f).
Proof.
  intros Hf w b w' Hb k' n' HS. mstep Hb.
  transitivity (stored w0 k' n'); [|by eapply get_frame].
  eapply Hf; [|exact Hb|done]. intros o ->. eapply stored_key. by eapply get_ok.
Qed.

Lemma frames_err_of {A} S (m : M W (result A)) : frames S m -> frames S (err_of m).
Proof. intros Hm. apply frames_bind; [done|]. intros. apply frames_ret. Qed.

Lemma setref_key k ref ns (o o' : obj k) : rt_SetControllerReference k ref ns o = Ok o' -> key o' = key o.
Proof. intros (refs & -> & _)%setref_ok. apply key_set_owner. Qed.

End Frames.

(** ** Code that only writes status *)

(** What a status write leaves of an object. *)
Definition kept (k : Kind) (o o' : obj k) : Prop :=
  keeps_spec k o o' /\ same_meta (meta k o) (meta k o') /\
  om_DeletionTimestamp (meta k o') = om_DeletionTimestamp (meta k o).

Lemma kept_refl k o : kept k o o.
Proof. split; [by destruct k|]. by split. Qed.

Lemma kept_trans k o1 o2 o3 : kept k o1 o2 -> kept k o2 o3 -> kept k o1 o3.
Proof.
  intros (S1 & (M1 & M2 & M3 & M4 & M5) & D1) (S2 & (N1 & N2 & N3 & N4 & N5) & D2). unfold kept, same_meta.
  split; [destruct k; simpl in *; congruence|]. split_and!; congruence.
Qed.

(** [keeps k n m]: [m] neither removes the object [n] nor changes more than its status. *)
Definition keeps {W A} `{RuntimeLaws W} (k : Kind) (n : NamespacedName) (m : M W A) : Prop :=
  forall w a w' o, m w = (a, w') -> stored w k n = Some o -> exists o', stored w' k n = Some o' /\ kept k o o'.

Section Keeps.
Context {W : Type} `{RuntimeLaws W}.

Lemma keeps_frames {A} k n (m : M W A) : frames (fun _ _ => False) m -> keeps k n m.
Proof. intros Hm w a w' o Hw Ho. exists o. rewrite (Hm _ _ _ Hw) by auto. by split; [|apply kept_refl]. Qed.

Lemma keeps_bind {A B} k n (m : M W A) (f : A -> M W B) :
  keeps k n m -> (forall a, keeps k n (f a)) -> keeps k n (bind m f).
Proof.
  intros Hm Hf w b w' o Hb Ho. mstep Hb. destruct (Hm _ _ _ _ E Ho) as (o1 & Ho1 & K1).
  destruct (Hf _ _ _ _ _ Hb Ho1) as (o2 & Ho2 & K2). exists o2. split; [done|]. by eapply kept_trans.
Qed.

Lemma keeps_StatusUpdate k n k' (o' : obj k') : keeps k n (rt_StatusUpdate k' o').
Proof.
  intros w r w' o Hw Ho. destruct (decide (k = k' /\ n = key o')) as [[-> ->]|Hne].
  - destruct (status_keeps _ _ _ _ _ _ Hw Ho) as (o1 & ? & ? & ? & ? & _). by exists o1.
  - exists o. split; [|apply kept_refl]. rewrite <- Ho. eapply status_frame; [done|].
    destruct (decide (k = k')); [|by left]. right; left. naive_solver.
Qed.

Lemma keeps_Create k n k' (o' : obj k') : keeps k n (rt_Create k' o').
Proof.
  intros w r w' o Hw Ho. exists o. split; [|apply kept_refl]. rewrite <- Ho.
  eapply create_frame; [done|]. right; right. rewrite Ho. eauto.
Qed.

End Keeps.

(** Prove [keeps] by following the structure of the code. *)
Ltac keeps_tac :=
  repeat first
    [ progress intros
    | apply keeps_StatusUpdate | apply keeps_Create
    | (apply keeps_frames;
       first [apply frames_ret | apply frames_Get | apply frames_Now | apply frames_Event
             | apply frames_RandInt | apply frames_Exec])
    | apply keeps_bind
    | match goal with |- keeps _ _ (match ?x with _ => _ end) => destruct x end ].

(** ** Code that runs no remote command *)

Definition silent {W A} `{RuntimeLaws W} (m : M W A) : Prop :=
  forall w a w', m w = (a, w') -> executed w' = executed w.

Section Silent.
Context {W : Type} `{RuntimeLaws W}.

Lemma silent_ret {A} (a : A) : silent (W:=W) (ret a).
Proof. by intros w b w' [= _ <-]. Qed.

Lemma silent_bind {A B} (m : M W A) (f : A -> M W B) :
  silent m -> (forall a, silent (f a)) -> silent (bind m f).
Proof. intros Hm Hf w b w' Hb. mstep Hb. rewrite (Hf _ _ _ _ Hb). by eapply Hm. Qed.

End Silent.

(** Prove [silent] by following the structure of the code. *)
Ltac silent_tac :=
  repeat first
    [ progress intros
    | apply silent_ret
    | solve [intros ???; first [apply get_log | apply create_log | apply update_log | apply status_log
                                | apply now_log | apply event_log | apply rand_log]]
    | apply silent_bind
    | match goal with |- silent (match ?x with _ => _ end) => destruct x end ].

(** Drop the rest [H] of a run that is silent from the log of commands. *)
Ltac silent_rest H :=
  match type of H with ?m ?w = (_, ?w') =>
    let S := fresh in assert (S : silent m) by silent_tac; rewrite (S _ _ _ H); clear S
  end.

(** The single object [n] of kind [k]. *)
Definition only (k : Kind) (n : NamespacedName) : Kind -> NamespacedName -> Prop :=
  fun k' n' => k' = k /\ n' = n.

#[export] Hint Resolve frames_ret frames_bind frames_mtry frames_Get frames_Create frames_Update
  frames_StatusUpdate frames_Now frames_Event frames_RandInt frames_Exec : athos.

(** Prove a frame goal by following the structure of the code. *)
Ltac frames_tac :=
  repeat first
    [ progress intros
    | apply frames_ret | apply frames_Get | apply frames_Now | apply frames_Event
    | apply frames_RandInt | apply frames_Exec
    | apply frames_mtry | apply frames_bind
    | apply frames_Create | apply frames_Update | apply frames_StatusUpdate
    | match goal with |- frames _ (match ?x with _ => _ end) => destruct x eqn:? end ].
