(* ===== verification/FakeRuntime.v ===== *)
(** * An in-memory runtime with scripted faults

    An implementation of the [Runtime] interface: an object store, a clock, a script
    of faults consumed one per API call, a script of random numbers (out of range ones
    are failures of the entropy source) and a script of remote-command outcomes; an
    exhausted script means no more faults.  It satisfies [RuntimeLaws], which shows
    that the laws are consistent, and it evaluates, so that the controllers can be run
    on concrete clusters. *)

From Stdlib Require Import ZArith Lia List Bool Eqdep_dec.
From stdpp Require Import base list strings gmap.
From S2P Require Import Prelude GoStrings K8s Api Runtime.

Local Open Scope Z_scope.

(** ** The store *)

Definition Store := forall k : Kind, gmap NamespacedName (obj k).

Definition empty_store : Store := fun _ => ∅.

(** Replace the table of one kind. *)
Definition set_table (k : Kind) (m : gmap NamespacedName (obj k)) (s : Store) : Store :=
  fun k' => match decide (k = k') with
            | left e => eq_rect k (fun k => gmap NamespacedName (obj k)) m k' e
            | right _ => s k'
            end.

Lemma set_table_eq k m s : set_table k m s k = m.
Proof.
  unfold set_table. destruct (decide (k = k)) as [e|]; [|done].
  by rewrite (UIP_dec Kind_eq_dec e eq_refl).
Qed.

Lemma set_table_ne k k' m s : k <> k' -> set_table k m s k' = s k'.
Proof. intros Hne. unfold set_table. by destruct (decide (k = k')). Qed.

Inductive Fault := FaultConflict | FaultTimeout | FaultInternal.

Definition fault_error (f : Fault) : error :=
  match f with
  | FaultConflict => ErrStatus Conflict "the object has been modified"
  | FaultTimeout => ErrStatus Timeout "timed out"
  | FaultInternal => ErrStatus InternalError "internal error"
  end.

Record World := {
  w_store : Store;
  w_faults : list (option Fault);
  w_clock : Z;
  w_events : list Event;
  w_rand : list Z;
  w_execs : list ExecResult;
  w_commands : list (ExecRequest * ExecResult);
}.

Definition with_store (s : Store) (w : World) : World :=
  {| w_store := s; w_faults := w_faults w; w_clock := w_clock w; w_events := w_events w;
     w_rand := w_rand w; w_execs := w_execs w; w_commands := w_commands w |}.

Definition with_faults (f : list (option Fault)) (w : World) : World :=
  {| w_store := w_store w; w_faults := f; w_clock := w_clock w; w_events := w_events w;
     w_rand := w_rand w; w_execs := w_execs w; w_commands := w_commands w |}.

(** An object is visible under the name it carries, while it is alive. *)
Definition lookup_obj (w : World) (k : Kind) (n : NamespacedName) : option (obj k) :=
  match w_store w k !! n with
  | Some o => if decide (key o = n /\ live (meta k o)) then Some o else None
  | None => None
  end.

Definition put_obj (k : Kind) (o : obj k) (w : World) : World :=
  with_store (set_table k (<[key o := o]> (w_store w k)) (w_store w)) w.

(** Run an API call unless the script holds a fault for it. *)
Definition faulty {A} (m : M World (result A)) : M World (result A) :=
  fun w => match w_faults w with
           | Some f :: rest => (Err (fault_error f), with_faults rest w)
           | None :: rest => m (with_faults rest w)
           | [] => m w
           end.

(** The next version of an object, with the server's deletion timestamp [d]. *)
Definition bump (d : option Z) (m : ObjectMeta) : ObjectMeta :=
  {| om_Name := om_Name m; om_Namespace := om_Namespace m; om_UID := om_UID m;
     om_Labels := om_Labels m; om_Annotations := om_Annotations m;
     om_Finalizers := om_Finalizers m; om_OwnerReferences := om_OwnerReferences m;
     om_DeletionTimestamp := d;
     om_Generation := om_Generation m; om_ResourceVersion := om_ResourceVersion m + 1 |}.

(** What the server persists of a written object. *)
Definition admit_obj (k : Kind) (d : option Z) (o : obj k) : obj k :=
  set_meta k (bump d (meta k o))
    (match k return obj k -> obj k with
     | KSecret => fun s => {| sec_Meta := sec_Meta s; sec_Type := sec_Type s;
                              sec_Data := sec_StringData s ∪ sec_Data s; sec_StringData := ∅ |}
     | _ => fun o => o
     end o).

(** [take_status k o s]: the object [o] with the status of [s]. *)
Definition take_status (k : Kind) : obj k -> obj k -> obj k :=
  match k return obj k -> obj k -> obj k with
  | KCluster => fun o s => {| pc_Meta := pc_Meta o; pc_Spec := pc_Spec o; pc_Status := pc_Status s |}
  | KUser => fun o s => {| pu_Meta := pu_Meta o; pu_Spec := pu_Spec o; pu_Status := pu_Status s |}
  | KBackup => fun o s => {| pb_Meta := pb_Meta o; pb_Spec := pb_Spec o; pb_Status := pb_Status s |}
  | KStatefulSet => fun o s => {| sts_Meta := sts_Meta o; sts_Spec := sts_Spec o;
                                  sts_ReadyReplicas := sts_ReadyReplicas s |}
  | KJob => fun o s => {| job_Meta := job_Meta o; job_Spec := job_Spec o; job_Conditions := job_Conditions s |}
  | _ => fun o _ => o
  end.

(** ** The operations *)

Definition not_found : error := ErrStatus NotFound "not found".

Definition fake_Get (k : Kind) (n : NamespacedName) : M World (result (obj k)) :=
  faulty (fun w => match lookup_obj w k n with
                   | Some o => (Ok o, w)
                   | None => (Err not_found, w)
                   end).

Definition fake_Create (k : Kind) (o : obj k) : M World (result (obj k)) :=
  faulty (fun w => match lookup_obj w k (key o) with
                   | Some _ => (Err (ErrStatus AlreadyExists "already exists"), w)
                   | None => let o' := admit_obj k None o in (Ok o', put_obj k o' w)
                   end).

Definition fake_Update (k : Kind) (o : obj k) : M World (result (obj k)) :=
  faulty (fun w => match lookup_obj w k (key o) with
                   | None => (Err not_found, w)
                   | Some o0 =>
                       let o' := take_status k (admit_obj k (om_DeletionTimestamp (meta k o0)) o) o0 in
                       (Ok o', put_obj k o' w)
                   end).

Definition fake_StatusUpdate (k : Kind) (o : obj k) : M World (result (obj k)) :=
  faulty (fun w => match lookup_obj w k (key o) with
                   | None => (Err not_found, w)
                   | Some o0 =>
                       let o1 := take_status k o0 o in
                       let o' := set_meta k (bump (om_DeletionTimestamp (meta k o0)) (meta k o0)) o1 in
                       (Ok o', put_obj k o' w)
                   end).

Definition fake_SetControllerReference (k : Kind) (ref : OwnerReference) (ns : string) (o : obj k) :
  result (obj k) :=
  if negb (ns =? om_Namespace (meta k o))%string
  then Err (ErrNew "cross-namespace owner references are disallowed")
  else if existsb or_Controller (om_OwnerReferences (meta k o))
  then Err (ErrNew "object is already owned by another controller")
  else Ok (set_owner k (om_OwnerReferences (meta k o) ++ [ref]) o).

#[export] Instance fake_runtime : Runtime World := {|
  rt_Get := fake_Get;
  rt_Create := fake_Create;
  rt_Update := fake_Update;
  rt_StatusUpdate := fake_StatusUpdate;
  rt_Now := fun w => (w_clock w,
    {| w_store := w_store w; w_faults := w_faults w; w_clock := w_clock w + 1; w_events := w_events w;
       w_rand := w_rand w; w_execs := w_execs w; w_commands := w_commands w |});
  rt_Event := fun e w => (tt,
    {| w_store := w_store w; w_faults := w_faults w; w_clock := w_clock w; w_events := w_events w ++ [e];
       w_rand := w_rand w; w_execs := w_execs w; w_commands := w_commands w |});
  rt_RandInt := fun b w =>
    match w_rand w with
    | z :: rest =>
        ((if (0 <=? z) && (z <? b) then Ok z else Err (ErrNew "entropy source failed")),
         {| w_store := w_store w; w_faults := w_faults w; w_clock := w_clock w; w_events := w_events w;
            w_rand := rest; w_execs := w_execs w; w_commands := w_commands w |})
    | [] => ((if 0 <? b then Ok 0 else Err (ErrNew "argument is not positive")), w)
    end;
  rt_Exec := fun x w =>
    let r := match w_execs w with r :: _ => r | [] => ExecOk end in
    (r,
     {| w_store := w_store w; w_faults := w_faults w; w_clock := w_clock w; w_events := w_events w;
        w_rand := w_rand w; w_execs := tail (w_execs w); w_commands := w_commands w ++ [(x, r)] |});
  rt_SetControllerReference := fake_SetControllerReference;
  rt_AddFinalizer := fun f fs => if decide (f ∈ fs) then fs else fs ++ [f];
  rt_RemoveFinalizer := fun f fs => filter (fun g => g <> f) fs;
  rt_ContainsFinalizer := fun f fs => bool_decide (f ∈ fs);
|}.

(** ** The laws *)

Lemma lookup_put_eq k o w :
  lookup_obj (put_obj k o w) k (key o) = if decide (live (meta k o)) then Some o else None.
Proof.
  unfold lookup_obj, put_obj, with_store. cbn [w_store].
  rewrite set_table_eq, lookup_insert_eq.
  destruct (decide (live (meta k o))), (decide (key o = key o /\ live (meta k o))); naive_solver.
Qed.

Lemma lookup_put_ne k o w k' n : (k' <> k \/ n <> key o) ->
  lookup_obj (put_obj k o w) k' n = lookup_obj w k' n.
Proof.
  intros Hne. unfold lookup_obj, put_obj, with_store. cbn [w_store].
  destruct (decide (k = k')) as [<-|Hk].
  - rewrite set_table_eq, lookup_insert_ne; [done|]. intros <-. by destruct Hne.
  - by rewrite set_table_ne.
Qed.

Lemma faulty_inv {A} (m : M World (result A)) w r w' :
  faulty m w = (r, w') ->
  (exists f, r = Err (fault_error f) /\ forall k n, lookup_obj w' k n = lookup_obj w k n) \/
  (exists w1, m w1 = (r, w') /\ forall k n, lookup_obj w1 k n = lookup_obj w k n).
Proof.
  unfold faulty. destruct (w_faults w) as [|[f|] rest]; intros Hw; [by eauto| |by eauto].
  injection Hw as <- <-. left. by eauto.
Qed.

Lemma faulty_log {A} (m : M World (result A)) w r w' :
  (forall w r w', m w = (r, w') -> w_commands w' = w_commands w) ->
  faulty m w = (r, w') -> w_commands w' = w_commands w.
Proof.
  intros Hm. unfold faulty. case_match; [by eapply Hm|]. case_match; [by intros [= _ <-]|].
  intros Hw. by rewrite (Hm _ _ _ Hw).
Qed.

Lemma key_admit k d o : key (admit_obj k d o) = key o.
Proof. by destruct k. Qed.

Lemma key_take_status k o s : key (take_status k o s) = key o.
Proof. by destruct k. Qed.

Lemma key_bump_status k d o0 o :
  key (set_meta k (bump d (meta k o0)) (take_status k o0 o)) = key o0.
Proof. by destruct k. Qed.

Lemma lookup_inv w k n o : lookup_obj w k n = Some o -> key o = n /\ live (meta k o).
Proof. unfold lookup_obj. case_match; [|done]. case_decide; [|done]. by intros [= <-]. Qed.

Lemma fault_not_notfound f : IsNotFound (fault_error f) = false.
Proof. by destruct f. Qed.

(** Writing an object outside a key, or where there is nothing, leaves the rest. *)
Lemma put_frame k (o : obj k) w1 w k' n' (b : bool) :
  (forall k n, lookup_obj w1 k n = lookup_obj w k n) ->
  bool_decide (is_Some (lookup_obj w1 k (key o))) = b ->
  (k' <> k \/ n' <> key o \/ bool_decide (is_Some (lookup_obj w k' n')) <> b) ->
  lookup_obj (put_obj k o w1) k' n' = lookup_obj w k' n'.
Proof.
  intros Hw Ho Hne. rewrite <- Hw. apply lookup_put_ne.
  destruct (decide (k' = k)) as [->|]; [|by left]. right. intros ->.
  destruct Hne as [?|[?|Hx]]; [done..|]. rewrite <- Hw in Hx. congruence.
Qed.

Lemma fake_get_inv k n w r w' : fake_Get k n w = (r, w') ->
  (forall k' n', lookup_obj w' k' n' = lookup_obj w k' n') /\
  (forall o, r = Ok o -> lookup_obj w k n = Some o) /\
  (forall e, r = Err e -> IsNotFound e = true -> lookup_obj w k n = None).
Proof.
  intros [(f & -> & Hf)|(w1 & Hm & Hw)]%faulty_inv.
  - split_and!; [done|done|]. intros e [= <-] He. by rewrite fault_not_notfound in He.
  - rewrite <- Hw. destruct (lookup_obj w1 k n) as [o|] eqn:E; injection Hm as <- <-;
      split_and!; naive_solver.
Qed.

Lemma fake_create_inv k o w r w' : fake_Create k o w = (r, w') ->
  (forall k' n', (k' <> k \/ n' <> key o \/ is_Some (lookup_obj w k' n')) ->
     lookup_obj w' k' n' = lookup_obj w k' n') /\
  (forall o', r = Ok o' -> lookup_obj w k (key o) = None /\ lookup_obj w' k (key o) = Some o' /\
     o' = admit_obj k None o).
Proof.
  intros [(f & -> & Hf)|(w1 & Hm & Hw)]%faulty_inv; [by split|].
  destruct (lookup_obj w1 k (key o)) as [o0|] eqn:E; injection Hm as <- <-; [by split|].
  rewrite <- (key_admit k None) in E. split.
  - intros k' n' Hne. apply (put_frame _ _ _ _ _ _ false); [done|by rewrite E|]. rewrite key_admit.
    destruct Hne as [?|[?|[x Hx]]]; auto. right. right. by rewrite Hx.
  - intros o' [= <-]. rewrite <- Hw. rewrite key_admit in E. split_and!; [done| |done].
    rewrite <- (key_admit k None o), lookup_put_eq. case_decide as Hl; [done|].
    destruct Hl. left. by destruct k.
Qed.

Lemma fake_update_inv k o w r w' : fake_Update k o w = (r, w') ->
  (forall k' n', (k' <> k \/ n' <> key o \/ lookup_obj w k' n' = None) ->
     lookup_obj w' k' n' = lookup_obj w k' n') /\
  (forall o', r = Ok o' -> exists o0, lookup_obj w k (key o) = Some o0 /\
     o' = take_status k (admit_obj k (om_DeletionTimestamp (meta k o0)) o) o0 /\
     lookup_obj w' k (key o) = if decide (live (meta k o')) then Some o' else None).
Proof.
  intros [(f & -> & Hf)|(w1 & Hm & Hw)]%faulty_inv; [by split|].
  destruct (lookup_obj w1 k (key o)) as [o0|] eqn:E; [|by injection Hm as <- <-; split].
  set (o1 := take_status k (admit_obj k (om_DeletionTimestamp (meta k o0)) o) o0) in Hm.
  assert (Hk : key o1 = key o) by (unfold o1; by rewrite key_take_status, key_admit).
  injection Hm as <- <-. split.
  - intros k' n' Hne. apply (put_frame k o1 w1 w k' n' true); [done|by rewrite Hk, E|]. rewrite Hk.
    destruct Hne as [?|[?|Hx]]; auto. right. right. by rewrite Hx.
  - intros o' [= <-]. exists o0. rewrite <- Hw. split_and!; [done|done|].
    rewrite <- Hk. apply lookup_put_eq.
Qed.

Lemma fake_status_inv k o w r w' : fake_StatusUpdate k o w = (r, w') ->
  (forall k' n', (k' <> k \/ n' <> key o \/ lookup_obj w k' n' = None) ->
     lookup_obj w' k' n' = lookup_obj w k' n') /\
  (forall o', r = Ok o' -> exists o0, lookup_obj w k (key o) = Some o0 /\
     o' = set_meta k (bump (om_DeletionTimestamp (meta k o0)) (meta k o0)) (take_status k o0 o) /\
     lookup_obj w' k (key o) = Some o').
Proof.
  intros [(f & -> & Hf)|(w1 & Hm & Hw)]%faulty_inv; [by split|].
  destruct (lookup_obj w1 k (key o)) as [o0|] eqn:E; [|by injection Hm as <- <-; split].
  set (o1 := set_meta k (bump (om_DeletionTimestamp (meta k o0)) (meta k o0)) (take_status k o0 o)) in Hm.
  pose proof (lookup_inv _ _ _ _ E) as [Hk0 Hlive].
  assert (Hk : key o1 = key o) by (unfold o1; by rewrite key_bump_status).
  injection Hm as <- <-. split.
  - intros k' n' Hne. apply (put_frame k o1 w1 w k' n' true); [done|by rewrite Hk, E|]. rewrite Hk.
    destruct Hne as [?|[?|Hx]]; auto. right. right. by rewrite Hx.
  - intros o' [= <-]. exists o0. rewrite <- Hw. split_and!; [done|done|].
    rewrite <- Hk, lookup_put_eq. case_decide as Hl; [done|]. destruct Hl.
    unfold o1. by rewrite meta_set_meta.
Qed.

Lemma fake_status_keeps k o w r w' o0 : fake_StatusUpdate k o w = (r, w') ->
  lookup_obj w k (key o) = Some o0 ->
  exists o', lookup_obj w' k (key o) = Some o' /\ keeps_spec k o0 o' /\ same_meta (meta k o0) (meta k o') /\
    om_DeletionTimestamp (meta k o') = om_DeletionTimestamp (meta k o0) /\
    (same_status k o0 o' \/ same_status k o o').
Proof.
  intros Hw Ho. destruct (faulty_inv _ _ _ _ Hw) as [(f & _ & Hf)|(w1 & Hm & Hw1)].
  - exists o0. rewrite Hf. split_and!; [done|by destruct k|done|done|left; by destruct k].
  - rewrite Hw1, Ho in Hm. injection Hm as <- _.
    apply fake_status_inv in Hw as (_ & Hok). destruct (Hok _ eq_refl) as (o1 & Ho1 & E & Hpost).
    rewrite Ho in Ho1. injection Ho1 as <-. eexists. split; [exact Hpost|]. split_and!; [by destruct k..|right; by destruct k].
Qed.

Lemma fake_setref_inv k ref ns o o' : fake_SetControllerReference k ref ns o = Ok o' ->
  exists refs, o' = set_owner k refs o /\ ref ∈ refs.
Proof.
  unfold fake_SetControllerReference. case_match; [done|]. case_match; [done|]. intros [= <-].
  eexists. split; [done|]. apply elem_of_app. right. by apply list_elem_of_singleton.
Qed.

Lemma same_spec_admit k d o s : same_spec k o (take_status k (admit_obj k d o) s).
Proof.
  destruct k; simpl; auto using Webhook.spec_defaulted_refl, statefulset_defaulted_refl,
    service_defaulted_refl, job_defaulted_refl, deployment_defaulted_refl, defaulted_refl.
Qed.

Lemma same_spec_created k d o : same_spec k o (admit_obj k d o).
Proof. pose proof (same_spec_admit k d o o). by destruct k. Qed.

#[export] Program Instance fake_laws : RuntimeLaws World := {| stored := lookup_obj; executed := w_commands |}.
Next Obligation. intros w k n o H. by apply lookup_inv in H as [? _]. Qed.
Next Obligation. intros w k n o H. by apply lookup_inv in H as [_ ?]. Qed.
Next Obligation. intros k n w r w' Hw. by apply fake_get_inv in Hw as (? & _). Qed.
Next Obligation. intros k n w o w' Hw. apply fake_get_inv in Hw as (_ & Ho & _). by apply Ho. Qed.
Next Obligation. intros k n w e w' Hw He. apply fake_get_inv in Hw as (_ & _ & Hn). by eapply Hn. Qed.
Next Obligation. intros k o w r w' Hw. by apply fake_create_inv in Hw as (? & _). Qed.
Next Obligation.
  intros k o w o' w' Hw. apply fake_create_inv in Hw as (_ & Ho).
  destruct (Ho _ eq_refl) as (? & ? & ->).
  split_and!; [done..|apply same_spec_created|by destruct k|by destruct k].
Qed.
Next Obligation.
  intros k o w r w' o' Hw Hn Ho'. pose proof (fake_create_inv _ _ _ _ _ Hw) as (_ & Ho).
  destruct (faulty_inv _ _ _ _ Hw) as [(f & _ & Hf)|(w1 & Hm & Hw1)].
  - rewrite Hf in Ho'. congruence.
  - rewrite Hw1, Hn in Hm. injection Hm as <- _. destruct (Ho _ eq_refl) as (_ & Hp & E).
    rewrite Hp in Ho'. injection Ho' as <-. split; [apply same_spec_created|by destruct k].
Qed.
Next Obligation. intros k o w r w' Hw. by apply fake_update_inv in Hw as (? & _). Qed.
Next Obligation.
  intros k o w o' w' Hw. apply fake_update_inv in Hw as (_ & Ho).
  destruct (Ho _ eq_refl) as (o0 & ? & -> & ?). exists o0.
  split_and!; [done|apply same_spec_admit|by destruct k|by destruct k|by destruct k|done].
Qed.
Next Obligation. intros k o w r w' Hw. by apply fake_status_inv in Hw as (? & _). Qed.
Next Obligation. intros k o w r w' o0. apply fake_status_keeps. Qed.
Next Obligation.
  intros k o w o' w' Hw. apply fake_status_inv in Hw as (_ & Ho).
  destruct (Ho _ eq_refl) as (o0 & ? & -> & ?). exists o0.
  split_and!; [done|done|by destruct k|by destruct k|by destruct k|by destruct k].
Qed.
Next Obligation. by intros w t w' [= <- <-]. Qed.
Next Obligation. by intros e w t w' [= <- <-]. Qed.
Next Obligation.
  intros b w r w'. cbn. destruct (w_rand w) as [|z l]; intros [= <- <-]; done.
Qed.
Next Obligation.
  intros b w z w'. cbn. destruct (w_rand w) as [|z' l]; intros Hw.
  { destruct (0 <? b) eqn:E; [|done]. injection Hw as <- <-. breflect. lia. }
  destruct (_ && _) eqn:E; [|done]. injection Hw as <- <-. breflect. lia.
Qed.
Next Obligation. by intros x w t w' [= <- <-]. Qed.
Next Obligation. by intros x w t w' [= <- <-]. Qed.
Next Obligation. intros k n w r w' Hw. eapply faulty_log; [|exact Hw]. clear. intros w r w'. cbv beta. by case_match; intros [= _ <-]. Qed.
Next Obligation. intros k o w r w' Hw. eapply faulty_log; [|exact Hw]. clear. intros w r w'. cbv beta. by case_match; intros [= _ <-]. Qed.
Next Obligation. intros k o w r w' Hw. eapply faulty_log; [|exact Hw]. clear. intros w r w'. cbv beta. by case_match; intros [= _ <-]. Qed.
Next Obligation. intros k o w r w' Hw. eapply faulty_log; [|exact Hw]. clear. intros w r w'. cbv beta. by case_match; intros [= _ <-]. Qed.
Next Obligation. by intros w t w' [= <- <-]. Qed.
Next Obligation. by intros e w t w' [= <- <-]. Qed.
Next Obligation. intros b w r w'. cbn. by destruct (w_rand w); intros [= _ <-]. Qed.
Next Obligation. intros k ref ns o o'. apply fake_setref_inv. Qed.
Next Obligation. intros f fs. cbn. apply bool_decide_eq_true. Qed.
Next Obligation.
  intros f fs g. cbn. case_decide.
  - split; [by right|]. by intros [->|].
  - rewrite elem_of_app, list_elem_of_singleton. tauto.
Qed.
Next Obligation. intros f fs g. cbn. by rewrite list_elem_of_filter. Qed.
