(* ===== verification/Ensure.v ===== *)
(** * The create-or-update step of the reconcilers

    Every sub-resource step of the cluster and pooler controllers has the same shape:
    build the desired object, set its owner, look it up, create it when it is absent and
    otherwise update some fields of the existing object.  The shape and what it
    guarantees are stated once here. *)

From Stdlib Require Import ZArith Lia List Bool.
From stdpp Require Import base list strings gmap.
From S2P Require Import Prelude GoStrings K8s Api Runtime.

Local Open Scope Z_scope.
Local Open Scope athos_scope.

(** An error returned as it is. *)
Definition same (e : error) : error := e.

Definition nothing {W} : M W unit := ret tt.

(** Set the owner reference, look the object up, create it when absent (and run
    [created]), otherwise run [before] and update the existing object with [merge].
    [wref] and [wget] wrap the errors of the first two calls. *)
Definition ensure {W} `{Runtime W} (ref : OwnerReference) (ns : string) (wref wget : error -> error)
  (k : Kind) (desired : obj k) (created : M W unit) (before : obj k -> M W unit) (merge : obj k -> obj k) :
  M W (option error) :=
  match rt_SetControllerReference k ref ns desired with
  | Err e => ret (Some (wref e))
  | Ok desired =>
      let! r := rt_Get k (key desired) in
      match r with
      | Err e =>
          if IsNotFound e then
            let! cr := rt_Create k desired in
            match cr with
            | Err e => ret (Some e)
            | Ok _ => let! _ := created in ret None
            end
          else ret (Some (wget e))
      | Ok existing =>
          let! _ := before existing in
          err_of (rt_Update k (merge existing))
      end
  end.

(** The set of no object. *)
Definition none : Kind -> NamespacedName -> Prop := fun _ _ => False.

Section Lemmas.
Context {W : Type} `{RuntimeLaws W}.

Lemma key_merge k (merge : obj k -> obj k) :
  (forall e, meta k (merge e) = meta k e) -> forall e, key (merge e) = key e.
Proof. intros Hm e. unfold key. by rewrite Hm. Qed.

Section Ensure.
Context (ref : OwnerReference) (ns : string) (wref wget : error -> error) (k : Kind) (desired : obj k) (created : M W unit)
        (before : obj k -> M W unit) (merge : obj k -> obj k).
Hypothesis created_frames : forall S, frames S created.
Hypothesis before_frames : forall S o, frames S (before o).
Hypothesis merge_meta : forall e, meta k (merge e) = meta k e.

Lemma ensure_frames : frames (only k (key desired)) (ensure ref ns wref wget k desired created before merge).
Proof using All.
  unfold ensure. destruct (rt_SetControllerReference _ _ _ _) as [d|e] eqn:Er; [|apply frames_ret].
  apply setref_key in Er. rewrite Er. apply frames_bind_Get. intros [o|e] Hk.
  - apply frames_bind; [apply before_frames|]. intros _. apply frames_err_of, frames_Update.
    split; [done|]. rewrite key_merge by done. by apply Hk.
  - destruct (IsNotFound e); [|apply frames_ret]. apply frames_bind.
    + apply frames_Create. by rewrite Er.
    + intros []; [|apply frames_ret]. apply frames_bind; [apply created_frames|]. intros _. apply frames_ret.
Qed.

(** A successful pass leaves the object present: freshly created with the desired
    state, or the previous object with the merged state. *)
Lemma ensure_spec w w' :
  ensure ref ns wref wget k desired created before merge w = (None, w') ->
  exists o, stored w' k (key desired) = Some o /\
    ((stored w k (key desired) = None /\ same_spec k desired o) \/
     (exists e, stored w k (key desired) = Some e /\ same_spec k (merge e) o /\ same_status k e o)).
Proof using All.
  unfold ensure. intros Hw.
  destruct (rt_SetControllerReference _ _ _ _) as [d|e] eqn:Er; [|done].
  pose proof (setref_key _ _ _ _ _ Er) as Hd. apply setref_ok in Er as (refs & Ed & _).
  mstep Hw. rewrite Hd in E. destruct a as [e|e].
  - mstep Hw. mstep Hw. destruct a0 as [o|]; [|done]. injection Hw as <-.
    pose proof (stored_key _ _ _ _ (get_ok _ _ _ _ _ E)) as Hke.
    pose proof (stored_live _ _ _ _ (get_ok _ _ _ _ _ E)) as Hlive.
    pose proof (update_ok _ _ _ _ _ E1) as (o0 & Ho0 & Hspec & Hst & Hmeta & Hdel & Hpost).
    rewrite key_merge, Hke in Ho0, Hpost by done.
    assert (Some o0 = Some e) as [= ->].
    { rewrite <- Ho0, (before_frames none _ _ _ _ E0 k _ (fun x => x)), (get_frame _ _ _ _ _ E).
      by eapply get_ok. }
    rewrite merge_meta in Hmeta. destruct Hmeta as (_ & _ & _ & Hfin & _).
    exists o. split.
    + rewrite Hpost, decide_True; [done|]. unfold live in *. by rewrite Hdel, Hfin.
    + right. exists e. split_and!; [by eapply get_ok|done|done].
  - destruct (IsNotFound e) eqn:Hnf; [|done]. mstep Hw. destruct a as [o|]; [|done].
    mstep Hw. injection Hw as <-.
    pose proof (create_ok _ _ _ _ _ E0) as (_ & Hpost & Hspec & _). rewrite Hd in Hpost.
    exists o. split.
    + by rewrite (created_frames none _ _ _ E1 k _ (fun x => x)).
    + left. split; [by eapply get_notfound|]. rewrite Ed in Hspec. by apply same_spec_set_owner in Hspec.
Qed.

End Ensure.

End Lemmas.
