(* ===== verification/PgConfig.v ===== *)
(** * internal/postgres: names, labels and configuration files

    [naming.go], [labels.go], [version.go], [config.go], [hba.go] and [params.go]:
    everything the operator derives from a [PostgresCluster] as text or as a map of
    strings. *)

From Stdlib Require Import ZArith Lia List Bool Ascii.
From stdpp Require Import base list strings gmap sorting.
From S2P Require Import Prelude GoStrings K8s Api.

Local Open Scope Z_scope.

(** ** naming.go *)

Module Naming.

Definition cluster_Name (c : PostgresCluster) : string := om_Name (pc_Meta c).
Definition cluster_Namespace (c : PostgresCluster) : string := om_Namespace (pc_Meta c).

Definition ClusterStatefulSetName (c : PostgresCluster) : string := cluster_Name c.
Definition PrimaryServiceName (c : PostgresCluster) : string := cluster_Name c +:+ "-primary".
Definition ReplicaServiceName (c : PostgresCluster) : string := cluster_Name c +:+ "-replicas".
Definition HeadlessServiceName (c : PostgresCluster) : string := cluster_Name c +:+ "-pods".
Definition ConfigMapName (c : PostgresCluster) : string := cluster_Name c +:+ "-config".
Definition SecretName (c : PostgresCluster) : string := cluster_Name c +:+ "-credentials".
Definition ServiceAccountName (c : PostgresCluster) : string :=
  if negb (pcs_ServiceAccountName (pc_Spec c) =? "")%string
  then pcs_ServiceAccountName (pc_Spec c)
  else cluster_Name c +:+ "-sa".
Definition BackupJobName (b : PostgresBackup) : string := om_Name (pb_Meta b) +:+ "-backup".
Definition PodName (c : PostgresCluster) (n : Z) : string := cluster_Name c +:+ "-" +:+ itoa n.
Definition PodFQDN (c : PostgresCluster) (n : Z) : string :=
  PodName c n +:+ "." +:+ HeadlessServiceName c +:+ "." +:+ cluster_Namespace c +:+ ".svc.cluster.local".

(** Different ordinals of a cluster name different pods. *)
Lemma PodName_inj c i j : PodName c i = PodName c j -> i = j.
Proof. unfold PodName. intros H. do 2 apply (inj (String.append _)) in H. by apply itoa_inj. Qed.

End Naming.

(** ** labels.go *)

Module Labels.
Import Naming.

Definition LabelCluster : string := "pg.athos.io/cluster".
Definition LabelRole : string := "pg.athos.io/role".
Definition LabelManagedBy : string := "app.kubernetes.io/managed-by".
Definition LabelComponent : string := "app.kubernetes.io/component".
Definition LabelName : string := "app.kubernetes.io/name".
Definition LabelInstance : string := "app.kubernetes.io/instance".
Definition LabelVersion : string := "pg.athos.io/postgres-version".
Definition RolePrimary : string := "primary".
Definition RoleReplica : string := "replica".
Definition OperatorName : string := "athos".

Definition CommonLabels (c : PostgresCluster) : gmap string string :=
  list_to_map
    [(LabelName, OperatorName); (LabelInstance, cluster_Name c); (LabelManagedBy, OperatorName);
     (LabelComponent, "database"); (LabelCluster, cluster_Name c);
     (LabelVersion, itoa (pcs_PostgresVersion (pc_Spec c)))].

Definition SelectorLabels (c : PostgresCluster) : gmap string string :=
  list_to_map
    [(LabelName, OperatorName); (LabelInstance, cluster_Name c); (LabelCluster, cluster_Name c)].

Definition PodLabels (c : PostgresCluster) (role : string) : gmap string string :=
  <[LabelRole := role]> (CommonLabels c).

Definition PrimaryPodLabels (c : PostgresCluster) : gmap string string := PodLabels c RolePrimary.
Definition ReplicaPodLabels (c : PostgresCluster) : gmap string string := PodLabels c RoleReplica.

(** [MergeLabels]: the overlay wins. *)
Definition MergeLabels (base overlay : gmap string string) : gmap string string := overlay ∪ base.

Lemma CommonLabels_lookup c k :
  CommonLabels c !! k =
    if decide (k = LabelName) then Some OperatorName
    else if decide (k = LabelInstance) then Some (cluster_Name c)
    else if decide (k = LabelManagedBy) then Some OperatorName
    else if decide (k = LabelComponent) then Some "database"
    else if decide (k = LabelCluster) then Some (cluster_Name c)
    else if decide (k = LabelVersion) then Some (itoa (pcs_PostgresVersion (pc_Spec c)))
    else None.
Proof.
  unfold CommonLabels. simpl. rewrite !lookup_insert, lookup_empty.
  repeat case_decide; congruence.
Qed.

Lemma SelectorLabels_lookup c k :
  SelectorLabels c !! k =
    if decide (k = LabelName) then Some OperatorName
    else if decide (k = LabelInstance) then Some (cluster_Name c)
    else if decide (k = LabelCluster) then Some (cluster_Name c)
    else None.
Proof.
  unfold SelectorLabels. simpl. rewrite !lookup_insert, lookup_empty.
  repeat case_decide; congruence.
Qed.

(** The selector is part of the labels of every object of the cluster. *)
Lemma SelectorLabels_subset c : SelectorLabels c ⊆ CommonLabels c.
Proof.
  apply map_subseteq_spec. intros k v. rewrite SelectorLabels_lookup, CommonLabels_lookup.
  repeat case_decide; subst; done.
Qed.

End Labels.

(** ** version.go *)

Module Version.

Definition defaultImageRepo : string := "docker.io/library/postgres".
Definition exporterImageRepo : string := "quay.io/prometheuscommunity/postgres-exporter".
Definition defaultExporterTag : string := "v0.15.0".

Definition PostgresImageTag (version : Z) : string :=
  if version =? 14 then defaultImageRepo +:+ ":14-alpine"
  else if version =? 15 then defaultImageRepo +:+ ":15-alpine"
  else if version =? 16 then defaultImageRepo +:+ ":16-alpine"
  else if version =? 17 then defaultImageRepo +:+ ":17-alpine"
  else defaultImageRepo +:+ ":" +:+ itoa version +:+ "-alpine".

Definition ExporterImageTag : string := exporterImageRepo +:+ ":" +:+ defaultExporterTag.

(** The five branches agree: the tag is the version number. *)
Lemma PostgresImageTag_eq v : PostgresImageTag v = defaultImageRepo +:+ ":" +:+ itoa v +:+ "-alpine".
Proof.
  unfold PostgresImageTag.
  repeat (match goal with |- context [v =? ?n] => destruct (Z.eqb_spec v n) as [->|] end; [reflexivity|]).
  done.
Qed.

End Version.

(** ** config.go *)

Module Config.

Definition DefaultParams : gmap string string :=
  list_to_map
    [("listen_addresses", "'*'"); ("max_connections", "100"); ("port", "5432");
     ("shared_buffers", "128MB"); ("effective_cache_size", "512MB");
     ("maintenance_work_mem", "64MB"); ("work_mem", "4MB");
     ("wal_level", "replica"); ("max_wal_senders", "10"); ("max_replication_slots", "10");
     ("wal_keep_size", "1GB"); ("archive_mode", "off");
     ("checkpoint_completion_target", "0.9"); ("checkpoint_timeout", "10min");
     ("random_page_cost", "1.1"); ("effective_io_concurrency", "200");
     ("log_destination", "'stderr'"); ("logging_collector", "off");
     ("log_min_duration_statement", "1000"); ("log_connections", "on");
     ("log_disconnections", "on"); ("log_line_prefix", "'%m [%p] %q%u@%d '");
     ("autovacuum", "on"); ("autovacuum_max_workers", "3"); ("autovacuum_naptime", "1min");
     ("autovacuum_vacuum_scale_factor", "0.1"); ("autovacuum_analyze_scale_factor", "0.05")].

(** [MergeParams]: the override wins. *)
Definition MergeParams (base override : gmap string string) : gmap string string := override ∪ base.

Definition conf_header : string := "# Managed by Athos. Do not edit manually.".

Definition conf_line (params : gmap string string) (k : string) : string :=
  k +:+ " = " +:+ default "" (params !! k).

(** The builder, given the order in which the map was iterated to collect the keys. *)
Definition BuildPostgresConf_from (keys : list string) (params : gmap string string) : string :=
  conf_header +:+ newline +:+
  concat_s (map (fun k => conf_line params k +:+ newline) (sort_strings keys)).

Definition BuildPostgresConf (params : gmap string string) : string :=
  BuildPostgresConf_from (map_to_list params).*1 params.

Lemma split_newline_line l rest :
  sall (neqc "010") l = true ->
  split_byte "010" (l +:+ newline +:+ rest) = l :: split_byte "010" rest.
Proof.
  unfold newline. rewrite app_cons_l, app_nil_l_s.
  induction l as [|c l IH]; intros H.
  - rewrite app_nil_l_s. simpl. done.
  - rewrite app_cons_l. cbn [split_byte sall] in *. unfold neqc at 1 in H. breflect.
    rewrite H, IH by done. done.
Qed.

Lemma split_newline_lines ls :
  Forall (fun l => sall (neqc "010") l = true) ls ->
  split_byte "010" (concat_s (map (fun l => l +:+ newline) ls)) = ls ++ [""].
Proof.
  induction 1 as [|l ls Hl _ IH]; [done|].
  cbn [map concat_s foldr]. fold (concat_s (map (fun l => l +:+ newline) ls)).
  rewrite app_assoc_s, split_newline_line by done. by rewrite IH.
Qed.

Lemma MergeParams_lookup base override k :
  MergeParams base override !! k = match override !! k with Some v => Some v | None => base !! k end.
Proof.
  unfold MergeParams. rewrite lookup_union. by destruct (override !! k), (base !! k).
Qed.

(** No entry of the map contains a line break. *)
Definition one_line (params : gmap string string) : Prop :=
  map_Forall (fun k v => sall (neqc "010") k = true /\ sall (neqc "010") v = true) params.

Lemma conf_line_one_line params k :
  one_line params -> is_Some (params !! k) -> sall (neqc "010") (conf_line params k) = true.
Proof.
  intros Hp [v Hv]. destruct (Hp k v Hv) as [Hk Hval].
  unfold conf_line. rewrite Hv. simpl. rewrite !sall_app, Hk, Hval. done.
Qed.

Lemma conf_lines keys params :
  keys ≡ₚ (map_to_list params).*1 -> one_line params ->
  Forall (fun l => sall (neqc "010") l = true) (map (conf_line params) (sort_strings keys)).
Proof.
  intros Hp H1. apply Forall_fmap, Forall_forall. intros k Hk. apply conf_line_one_line; [done|].
  rewrite sort_strings_permutation, Hp in Hk. apply list_elem_of_fmap in Hk as ([k' v] & -> & Hkv).
  apply elem_of_map_to_list in Hkv. by eexists.
Qed.

(** The rendered postgresql.conf is deterministic and complete.  Whatever order Go
    iterates the parameter map in, the text is the same; for parameters without line
    breaks its lines are the header, then one [key = value] line per parameter of the
    map, each exactly once, in ascending key order. *)
Theorem BuildPostgresConf_lines (keys : list string) (params : gmap string string) :
  keys ≡ₚ (map_to_list params).*1 -> one_line params ->
  BuildPostgresConf_from keys params = BuildPostgresConf params /\
  exists ks, ks ≡ₚ (map_to_list params).*1 /\ StronglySorted String.le ks /\ NoDup ks /\
    split_byte "010" (BuildPostgresConf params) = conf_header :: map (conf_line params) ks ++ [""].
Proof.
  intros Hp H1. split.
  - unfold BuildPostgresConf, BuildPostgresConf_from. by rewrite (sort_strings_perm keys _ Hp).
  - exists (sort_strings (map_to_list params).*1).
    split_and!; [apply sort_strings_permutation|apply sort_strings_sorted| |].
    + rewrite sort_strings_permutation. apply NoDup_fst_map_to_list.
    + unfold BuildPostgresConf, BuildPostgresConf_from.
      rewrite split_newline_line by done. f_equal.
      rewrite <- (split_newline_lines (map (conf_line params) _)), map_map; [done|].
      by apply conf_lines.
Qed.

Lemma BuildPostgresConf_lines_witness :
  BuildPostgresConf_from ["work_mem"; "autovacuum"]
    (list_to_map [("autovacuum", "on"); ("work_mem", "4MB")]) =
  BuildPostgresConf (list_to_map [("autovacuum", "on"); ("work_mem", "4MB")]).
Proof.
  apply (BuildPostgresConf_lines ["work_mem"; "autovacuum"]
           (list_to_map [("autovacuum", "on"); ("work_mem", "4MB")])).
  - apply (bool_decide_unpack _). vm_compute. exact I.
  - apply (bool_decide_unpack _). vm_compute. exact I.
Defined.

End Config.

(** ** hba.go *)

Module HBA.
Import Config.

Definition base_rules : list string :=
  ["local   all             all                                     peer";
   "host    all             all             127.0.0.1/32            scram-sha-256";
   "host    all             all             ::1/128                 scram-sha-256";
   "host    replication     all             10.0.0.0/8              scram-sha-256";
   "host    replication     all             172.16.0.0/12           scram-sha-256";
   "host    replication     all             192.168.0.0/16          scram-sha-256"].

Definition DefaultHBAConf (tlsEnabled : bool) : list string :=
  if tlsEnabled then
    base_rules ++
    ["hostssl all             all             0.0.0.0/0               scram-sha-256";
     "hostssl all             all             ::/0                    scram-sha-256"]
  else
    base_rules ++
    ["host    all             all             0.0.0.0/0               scram-sha-256";
     "host    all             all             ::/0                    scram-sha-256"].

Definition hba_header : list string :=
  ["# Managed by Athos. Do not edit manually.";
   "# TYPE  DATABASE        USER            ADDRESS                 METHOD"].

Definition custom_header : string := "# Custom rules from PostgresCluster.spec.postgresHBA".

Definition write_lines (ls : list string) : string := concat_s (map (fun l => l +:+ newline) ls).

Definition BuildHBAConf (rules : list string) (tlsEnabled : bool) : string :=
  write_lines hba_header +:+ write_lines (DefaultHBAConf tlsEnabled) +:+
  match rules with
  | [] => ""
  | _ => newline +:+ custom_header +:+ newline +:+ write_lines rules
  end.

Definition custom_lines (rules : list string) : list string :=
  match rules with [] => [] | _ => "" :: custom_header :: rules end.

Lemma write_lines_app a b : write_lines (a ++ b) = write_lines a +:+ write_lines b.
Proof. unfold write_lines. by rewrite map_app, concat_s_app. Qed.

Lemma write_lines_cons l ls : write_lines (l :: ls) = l +:+ newline +:+ write_lines ls.
Proof. unfold write_lines. cbn [map concat_s foldr]. apply app_assoc_s. Qed.

Lemma BuildHBAConf_write rules tls :
  BuildHBAConf rules tls = write_lines (hba_header ++ DefaultHBAConf tls ++ custom_lines rules).
Proof.
  unfold BuildHBAConf. rewrite !write_lines_app. do 2 f_equal.
  destruct rules as [|r rules]; [done|]. unfold custom_lines, write_lines.
  cbn [map concat_s foldr]. by rewrite !app_assoc_s, app_nil_l_s.
Qed.

(** A catch-all record: any database and user, from any address of one family. *)
Definition catch_all (rule : string) : bool :=
  match Fields rule with
  | [_; db; user; addr; _] =>
      (db =? "all")%string && (user =? "all")%string &&
      ((addr =? "0.0.0.0/0")%string || (addr =? "::/0")%string)
  | _ => false
  end.

Definition record_type (rule : string) : option string := head (Fields rule).

(** The lines of pg_hba.conf.  For custom rules without line breaks the file is
    the header, the baseline rules, and then the custom rules in their order; with TLS
    enabled every catch-all baseline record is [hostssl], so no remote plain-text
    connection is admitted by the baseline; in both modes the baseline already holds a
    catch-all record for IPv4 and for IPv6 ahead of every custom rule. *)
Theorem BuildHBAConf_lines (rules : list string) (tls : bool) :
  Forall (fun r => sall (neqc "010") r = true) rules ->
  split_byte "010" (BuildHBAConf rules tls) =
    hba_header ++ DefaultHBAConf tls ++ custom_lines rules ++ [""] /\
  Forall (fun r => catch_all r = true -> record_type r = Some (if tls then "hostssl" else "host"))
    (DefaultHBAConf tls) /\
  length (filter (fun r => catch_all r = true) (DefaultHBAConf tls)) = 2%nat.
Proof.
  intros Hr. split_and!.
  - rewrite BuildHBAConf_write. unfold write_lines. rewrite split_newline_lines; [by rewrite <- !app_assoc|].
    rewrite !Forall_app. split_and!; 
      [by apply (bool_decide_unpack _); vm_compute|by destruct tls; apply (bool_decide_unpack _); vm_compute|].
    destruct rules; [done|]. do 2 (apply Forall_cons; split; [by vm_compute|]). done.
  - destruct tls; repeat (apply Forall_cons; split; [by vm_compute|]); done.
  - by destruct tls; vm_compute.
Qed.

Lemma BuildHBAConf_lines_witness :
  split_byte "010" (BuildHBAConf ["host app app 10.1.0.0/16 md5"] true) =
    hba_header ++ DefaultHBAConf true ++ custom_lines ["host app app 10.1.0.0/16 md5"] ++ [""].
Proof.
  apply (BuildHBAConf_lines ["host app app 10.1.0.0/16 md5"] true). by repeat constructor.
Defined.

End HBA.

(** ** params.go *)

Module Params.

Definition kb : Z := 1024.
Definition mb : Z := 1024 * kb.
Definition gb : Z := 1024 * mb.

(** [fmtMemory]; Go's integer division truncates. *)
Definition fmtMemory (bytes : Z) : string :=
  if gb <=? bytes then itoa (Z.quot bytes gb) +:+ "GB"
  else if mb <=? bytes then itoa (Z.quot bytes mb) +:+ "MB"
  else itoa (Z.quot bytes kb) +:+ "kB".

Definition maxSharedBuffers : Z := 8 * 1024 * 1024 * 1024.
Definition maxMaintenanceMem : Z := 2 * 1024 * 1024 * 1024.

Definition containerMemoryBytes (c : PostgresCluster) : Z :=
  let mem := rl_Memory (rr_Limits (pcs_Resources (pc_Spec c))) in
  let mem := if q_IsZero mem then rl_Memory (rr_Requests (pcs_Resources (pc_Spec c))) else mem in
  q_Value mem.

Definition sharedBuffers (memBytes : Z) : Z :=
  let v := Z.quot memBytes 4 in if maxSharedBuffers <? v then maxSharedBuffers else v.

Definition maintenanceMem (memBytes : Z) : Z :=
  let v := Z.quot memBytes 20 in if maxMaintenanceMem <? v then maxMaintenanceMem else v.

Definition AutoTune (c : PostgresCluster) : gmap string string :=
  let memBytes := containerMemoryBytes c in
  if memBytes <=? 0 then ∅
  else list_to_map
    [("shared_buffers", fmtMemory (sharedBuffers memBytes));
     ("effective_cache_size", fmtMemory (Z.quot (int64 (memBytes * 3)) 4));
     ("maintenance_work_mem", fmtMemory (maintenanceMem memBytes));
     ("work_mem", "4MB");
     ("checkpoint_completion_target", "0.9");
     ("wal_buffers", "-1");
     ("default_statistics_target", "100");
     ("random_page_cost", "1.1");
     ("effective_io_concurrency", "200")].

Definition MergeWithAutoTune (c : PostgresCluster) : gmap string string :=
  pcs_PostgresParameters (pc_Spec c) ∪ AutoTune c.

(** [100 * Instances] in 32 bits. *)
Definition maxConnections (c : PostgresCluster) : Z := int32 (100 * pcs_Instances (pc_Spec c)).

Definition RequiredConnectionParams (c : PostgresCluster) : gmap string string :=
  list_to_map
    [("listen_addresses", "*"); ("port", "5432"); ("max_connections", itoa (maxConnections c));
     ("superuser_reserved_connections", "3")].

(** [ParseMemoryBytes], given apimachinery's quantity parser. *)
Definition ParseMemoryBytes (ParseQuantity : string -> option Quantity) (quantity : string) : Z :=
  match ParseQuantity quantity with
  | None => -1
  | Some q => q_Value q
  end.

(** How PostgreSQL reads a memory setting: digits and a unit, in bytes. *)
Definition read_memory (s : string) : option Z :=
  let n := (String.length s - 2)%nat in
  match Atoi (stake n s) with
  | Some v =>
      let u := sdrop n s in
      if (u =? "GB")%string then Some (v * gb)
      else if (u =? "MB")%string then Some (v * mb)
      else if (u =? "kB")%string then Some (v * kb)
      else None
  | None => None
  end.

Definition unit_of (bytes : Z) : Z :=
  if gb <=? bytes then gb else if mb <=? bytes then mb else kb.

Lemma read_memory_suffix v u : in_int64 v = true -> String.length u = 2%nat ->
  read_memory (itoa v +:+ u) =
    if (u =? "GB")%string then Some (v * gb)
    else if (u =? "MB")%string then Some (v * mb)
    else if (u =? "kB")%string then Some (v * kb)
    else None.
Proof.
  intros Hv Hu. unfold read_memory.
  assert (E : (String.length (itoa v +:+ u) - 2)%nat = String.length (itoa v)).
  { rewrite length_app_s. lia. }
  by rewrite E, stake_app, sdrop_app, Atoi_itoa by done.
Qed.

Lemma quot_in_int64 b d : 0 <= b -> in_int64 b = true -> 0 < d -> in_int64 (Z.quot b d) = true.
Proof.
  unfold in_int64, min_int64, max_int64. intros Hb Hr Hd. breflect.
  rewrite Z.quot_div_nonneg by lia.
  pose proof (Z.div_pos b d Hb Hd). pose proof (Z.div_le_upper_bound b d b Hd ltac:(nia)). lia.
Qed.

Lemma read_fmtMemory b : 0 <= b -> in_int64 b = true ->
  read_memory (fmtMemory b) = Some (b / unit_of b * unit_of b).
Proof.
  intros Hb Hr. unfold fmtMemory, unit_of.
  repeat case_match; rewrite read_memory_suffix by (done || by apply quot_in_int64);
    simpl; by rewrite Z.quot_div_nonneg.
Qed.

Lemma unit_of_pos b : 0 < unit_of b.
Proof. unfold unit_of, gb, mb, kb. repeat case_match; lia. Qed.

Lemma unit_le b : kb <= b -> unit_of b <= b.
Proof. unfold unit_of. intros. repeat case_match; breflect; lia. Qed.

(** Memory settings survive formatting.  PostgreSQL reads back what [fmtMemory]
    writes as the byte count rounded down to the printed unit, so the setting never
    exceeds the computed budget and, from one kilobyte up, is more than half of it; and
    the tuned [shared_buffers] and [maintenance_work_mem] never exceed their share of
    the container memory nor their caps. *)
Theorem fmtMemory_reads_back (b : Z) :
  0 <= b -> in_int64 b = true ->
  exists v, read_memory (fmtMemory b) = Some v /\ v <= b /\ (kb <= b -> b < 2 * v) /\
    sharedBuffers b <= Z.min (b / 4) maxSharedBuffers /\
    maintenanceMem b <= Z.min (b / 20) maxMaintenanceMem.
Proof.
  intros Hb Hr. exists (b / unit_of b * unit_of b). pose proof (unit_of_pos b) as Hu.
  pose proof (Z.div_mod b (unit_of b) ltac:(lia)). pose proof (Z.mod_pos_bound b (unit_of b) Hu).
  split; [by apply read_fmtMemory|]. split; [nia|]. split.
  - intros Hk%unit_le. assert (1 <= b / unit_of b) by (apply Z.div_le_lower_bound; lia). nia.
  - unfold sharedBuffers, maintenanceMem. rewrite !Z.quot_div_nonneg by lia.
    split; case_match; breflect; lia.
Qed.

Lemma fmtMemory_reads_back_witness :
  exists v, read_memory (fmtMemory 5905580032) = Some v /\ v <= 5905580032 /\
    (kb <= 5905580032 -> 5905580032 < 2 * v) /\
    sharedBuffers 5905580032 <= Z.min (5905580032 / 4) maxSharedBuffers /\
    maintenanceMem 5905580032 <= Z.min (5905580032 / 20) maxMaintenanceMem.
Proof. apply fmtMemory_reads_back; [lia|reflexivity]. Defined.

End Params.
