(* ===== verification/PgStatus.v ===== *)
(** * internal/postgres/status.go: conditions

    The three condition setters share one algorithm on the condition list; it is
    modelled once and instantiated for the three custom resources, as the three Go
    functions instantiate the same loop. *)

From Stdlib Require Import ZArith Lia List Bool.
From stdpp Require Import base list strings gmap.
From S2P Require Import Prelude GoStrings K8s Api.

Local Open Scope Z_scope.

Module Status.

Definition mkCondition (gen now : Z) (ty : string) (st : ConditionStatus) (reason msg : string) : Condition :=
  {| cond_Type := ty; cond_Status := st; cond_ObservedGeneration := gen;
     cond_LastTransitionTime := now; cond_Reason := reason; cond_Message := msg |}.

(** The loop: the first condition of the type is replaced in place, keeping its
    transition time when the status does not change; otherwise one is appended. *)
Fixpoint upsert (gen now : Z) (ty : string) (st : ConditionStatus) (reason msg : string)
  (cs : list Condition) : list Condition :=
  match cs with
  | [] => [mkCondition gen now ty st reason msg]
  | c :: cs' =>
      if (cond_Type c =? ty)%string then
        let now := if decide (cond_Status c = st) then cond_LastTransitionTime c else now in
        mkCondition gen now ty st reason msg :: cs'
      else c :: upsert gen now ty st reason msg cs'
  end.

Definition status_with_conditions (cs : list Condition) (s : PostgresClusterStatus) : PostgresClusterStatus :=
  {| pst_Conditions := cs; pst_Phase := pst_Phase s; pst_ReadyInstances := pst_ReadyInstances s;
     pst_CurrentPrimary := pst_CurrentPrimary s; pst_WriteServiceName := pst_WriteServiceName s;
     pst_ReadServiceName := pst_ReadServiceName s; pst_PostgresVersion := pst_PostgresVersion s;
     pst_ObservedGeneration := pst_ObservedGeneration s; pst_LatestBackup := pst_LatestBackup s |}.

(** [SetClusterCondition]; [now] is the clock reading. *)
Definition SetClusterCondition (now : Z) (c : PostgresCluster) (ty : string) (st : ConditionStatus)
  (reason msg : string) : PostgresCluster :=
  {| pc_Meta := pc_Meta c; pc_Spec := pc_Spec c;
     pc_Status := status_with_conditions
       (upsert (om_Generation (pc_Meta c)) now ty st reason msg (pst_Conditions (pc_Status c))) (pc_Status c) |}.

(** [SetBackupCondition]. *)
Definition SetBackupCondition (now : Z) (b : PostgresBackup) (ty : string) (st : ConditionStatus)
  (reason msg : string) : PostgresBackup :=
  let s := pb_Status b in
  {| pb_Meta := pb_Meta b; pb_Spec := pb_Spec b;
     pb_Status :=
       {| bst_Phase := bst_Phase s; bst_StartTime := bst_StartTime s; bst_CompletionTime := bst_CompletionTime s;
          bst_BackupSize := bst_BackupSize s; bst_DestinationPath := bst_DestinationPath s;
          bst_Conditions := upsert (om_Generation (pb_Meta b)) now ty st reason msg (bst_Conditions s) |} |}.

(** [SetUserCondition]. *)
Definition SetUserCondition (now : Z) (u : PostgresUser) (ty : string) (st : ConditionStatus)
  (reason msg : string) : PostgresUser :=
  let s := pu_Status u in
  {| pu_Meta := pu_Meta u; pu_Spec := pu_Spec u;
     pu_Status :=
       {| ust_Applied := ust_Applied s;
          ust_Conditions := upsert (om_Generation (pu_Meta u)) now ty st reason msg (ust_Conditions s);
          ust_ObservedGeneration := ust_ObservedGeneration s |} |}.

Definition IsClusterReady (c : PostgresCluster) : bool :=
  existsb (fun x => (cond_Type x =? ConditionReady)%string && bool_decide (cond_Status x = ConditionTrue))
    (pst_Conditions (pc_Status c)).

Definition IsClusterRunning (c : PostgresCluster) : bool :=
  bool_decide (pst_Phase (pc_Status c) = PhaseRunning).

(** ** The condition list as a map *)

(** The first condition of a type. *)
Fixpoint find_cond (ty : string) (cs : list Condition) : option Condition :=
  match cs with
  | [] => None
  | c :: cs' => if (cond_Type c =? ty)%string then Some c else find_cond ty cs'
  end.

Definition cond_types (cs : list Condition) : list string := cond_Type <$> cs.

(** Well-formed condition lists hold at most one condition of each type. *)
Definition wf_conditions (cs : list Condition) : Prop := NoDup (cond_types cs).

Section Upsert.
Context (gen now : Z) (ty : string) (st : ConditionStatus) (reason msg : string).
Local Abbreviation put := (upsert gen now ty st reason msg).

Lemma upsert_types cs : cond_types (put cs) = cond_types cs \/
  ((ty ∉ cond_types cs) /\ cond_types (put cs) = cond_types cs ++ [ty]).
Proof.
  induction cs as [|c cs IH]; cbn [upsert].
  - right. split; [apply not_elem_of_nil|done].
  - destruct (String.eqb_spec (cond_Type c) ty) as [E|Hne]; [left; unfold cond_types; by rewrite !fmap_cons, E|].
    unfold cond_types in *. rewrite !fmap_cons. destruct IH as [->|[Hnin ->]]; [by left|].
    right. split; [|done]. rewrite elem_of_cons. intros [->|]; done.
Qed.

Lemma upsert_wf cs : wf_conditions cs -> wf_conditions (put cs).
Proof.
  unfold wf_conditions. intros Hnd. destruct (upsert_types cs) as [->|[Hnin ->]]; [done|].
  apply NoDup_app. split_and!; [done| |apply NoDup_singleton].
  intros x Hx ->%list_elem_of_singleton. done.
Qed.

Lemma find_upsert_ne cs ty' : ty' <> ty -> find_cond ty' (put cs) = find_cond ty' cs.
Proof.
  intros Hne. induction cs as [|c cs IH]; simpl.
  - by destruct (String.eqb_spec ty ty').
  - destruct (String.eqb_spec (cond_Type c) ty) as [E|]; simpl.
    + rewrite E. by destruct (String.eqb_spec ty ty').
    + by destruct (cond_Type c =? ty')%string.
Qed.

Lemma find_upsert_eq cs :
  find_cond ty (put cs) = Some (mkCondition gen
    (match find_cond ty cs with
     | Some c => if decide (cond_Status c = st) then cond_LastTransitionTime c else now
     | None => now
     end) ty st reason msg).
Proof.
  induction cs as [|c cs IH]; simpl; [by rewrite String.eqb_refl|].
  destruct (String.eqb_spec (cond_Type c) ty) as [E|Hne]; simpl.
  - by rewrite String.eqb_refl.
  - by destruct (String.eqb_spec (cond_Type c) ty).
Qed.

End Upsert.

#[export] Hint Resolve upsert_wf : athos.
#[export] Hint Rewrite find_upsert_eq : athos.

(** Setting the same condition again, at any later time, changes nothing. *)
Lemma upsert_idem gen now now' ty st reason msg cs :
  upsert gen now' ty st reason msg (upsert gen now ty st reason msg cs) = upsert gen now ty st reason msg cs.
Proof.
  induction cs as [|c cs IH]; simpl.
  - rewrite String.eqb_refl. by destruct (decide (st = st)).
  - destruct (String.eqb_spec (cond_Type c) ty) as [E|Hne]; simpl.
    + rewrite String.eqb_refl. by destruct (decide (st = st)).
    + destruct (String.eqb_spec (cond_Type c) ty); [done|]. by rewrite IH.
Qed.

Lemma IsClusterReady_find c :
  wf_conditions (pst_Conditions (pc_Status c)) ->
  (IsClusterReady c = true <->
   exists x, find_cond ConditionReady (pst_Conditions (pc_Status c)) = Some x /\ cond_Status x = ConditionTrue).
Proof.
  unfold IsClusterReady, wf_conditions, cond_types.
  induction (pst_Conditions (pc_Status c)) as [|x cs IH]; simpl; intros Hnd; [naive_solver|].
  apply NoDup_cons in Hnd as [Hnin Hnd].
  destruct (String.eqb_spec (cond_Type x) ConditionReady) as [E|Hne]; simpl; [|by apply IH].
  case_bool_decide as Hs; simpl.
  - split; [|done]. intros _. eauto.
  - split; [|naive_solver]. intros (y & Hy & Hby)%existsb_exists. breflect.
    exfalso. apply Hnin. rewrite E, <- H. apply list_elem_of_fmap. exists y. split; [done|].
    by apply list_elem_of_In.
Qed.

(** The condition setter is a map update on a duplicate-free list.  Setting a
    condition keeps the list free of duplicate types, leaves the conditions of every
    other type unchanged, stores the new status, reason, message and generation, and
    advances the transition time exactly when the status changes; setting it again is a
    no-op whatever the clock says. *)
Theorem SetClusterCondition_upserts (now now' : Z) (c : PostgresCluster) (ty : string)
  (st : ConditionStatus) (reason msg : string) :
  wf_conditions (pst_Conditions (pc_Status c)) ->
  let c' := SetClusterCondition now c ty st reason msg in
  wf_conditions (pst_Conditions (pc_Status c')) /\
  (forall ty', ty' <> ty ->
     find_cond ty' (pst_Conditions (pc_Status c')) = find_cond ty' (pst_Conditions (pc_Status c))) /\
  (exists x, find_cond ty (pst_Conditions (pc_Status c')) = Some x /\
     cond_Status x = st /\ cond_Reason x = reason /\ cond_Message x = msg /\
     cond_ObservedGeneration x = om_Generation (pc_Meta c) /\
     forall y, find_cond ty (pst_Conditions (pc_Status c)) = Some y ->
       (cond_Status y = st -> cond_LastTransitionTime x = cond_LastTransitionTime y) /\
       (cond_Status y <> st -> cond_LastTransitionTime x = now)) /\
  SetClusterCondition now' c' ty st reason msg = c'.
Proof.
  intros Hwf c'. split_and!.
  - by apply upsert_wf.
  - intros ty' Hne. by apply find_upsert_ne.
  - eexists. split; [apply find_upsert_eq|]. cbn. split_and!; [done..|].
    intros y ->. split; intros ?; by case_decide.
  - unfold c', SetClusterCondition. cbn. by rewrite upsert_idem.
Qed.

Definition empty_status : PostgresClusterStatus :=
  {| pst_Conditions := []; pst_Phase := PhaseEmpty; pst_ReadyInstances := 0; pst_CurrentPrimary := "";
     pst_WriteServiceName := ""; pst_ReadServiceName := ""; pst_PostgresVersion := "";
     pst_ObservedGeneration := 0; pst_LatestBackup := None |}.

Definition sample_spec : PostgresClusterSpec :=
  {| pcs_PostgresVersion := 16; pcs_Instances := 3;
     pcs_Storage := {| st_Size := Webhook.quantity_10Gi; st_StorageClass := None; st_AccessModes := [] |};
     pcs_Resources := no_resources; pcs_PostgresParameters := ∅; pcs_PostgresHBA := [];
     pcs_Backup := None; pcs_TLS := None; pcs_Monitoring := None; pcs_TopologySpreadConstraints := [];
     pcs_Affinity := None; pcs_Tolerations := []; pcs_ImagePullSecrets := [];
     pcs_ServiceAccountName := ""; pcs_PriorityClassName := ""; pcs_Paused := false |}.

(** A freshly submitted cluster, used by the examples. *)
Definition sample_cluster : PostgresCluster :=
  {| pc_Meta := mkMeta "db" "prod" ∅; pc_Spec := sample_spec; pc_Status := empty_status |}.

(** The same cluster, running. *)
Definition running_cluster : PostgresCluster :=
  {| pc_Meta := pc_Meta sample_cluster; pc_Spec := sample_spec;
     pc_Status :=
       {| pst_Conditions := []; pst_Phase := PhaseRunning; pst_ReadyInstances := 3; pst_CurrentPrimary := "";
          pst_WriteServiceName := ""; pst_ReadServiceName := ""; pst_PostgresVersion := "";
          pst_ObservedGeneration := 0; pst_LatestBackup := None |} |}.

Lemma SetClusterCondition_upserts_witness :
  let c := SetClusterCondition 5 sample_cluster ConditionReady ConditionFalse "NoReadyInstances" "m" in
  wf_conditions (pst_Conditions (pc_Status (SetClusterCondition 9 c ConditionReady ConditionTrue "AllInstancesReady" "m"))).
Proof.
  apply (SetClusterCondition_upserts 9 10
    (SetClusterCondition 5 sample_cluster ConditionReady ConditionFalse "NoReadyInstances" "m")
    ConditionReady ConditionTrue "AllInstancesReady" "m").
  apply NoDup_singleton.
Defined.

End Status.
