(* ===== verification/Password.v ===== *)
(** * internal/password: generated credentials

    The generator over the random source of the runtime; [GenerateToken] and
    [MustGenerate], which the controllers do not use, are in [Tokens.v]. *)

From Stdlib Require Import ZArith Lia List Bool Ascii.
From stdpp Require Import base list strings gmap.
From S2P Require Import Prelude GoStrings K8s Api Runtime FakeRuntime SqlEscape.

Local Open Scope Z_scope.
Local Open Scope athos_scope.

Module Password.

Definition DefaultPasswordLength : Z := 32.
Definition DefaultAlphabet : string := "abcdefghijklmnopqrstuvwxyzABCDEFGHIJKLMNOPQRSTUVWXYZ0123456789".
Definition MinPasswordLength : Z := 16.
Definition MaxPasswordLength : Z := 128.

Record Generator := { g_alphabet : string; g_length : Z }.

(** [NewGenerator]; the two errors of the code are distinguished by their text. *)
Definition NewGenerator (alphabet : string) (length : Z) : result Generator :=
  if (length <? MinPasswordLength) || (MaxPasswordLength <? length)
  then Err (ErrNew ("password length " +:+ itoa length +:+ " is outside the allowed range [" +:+
                    itoa MinPasswordLength +:+ ", " +:+ itoa MaxPasswordLength +:+ "]"))
  else if (Z.of_nat (String.length alphabet) =? 0)
  then Err (ErrNew "alphabet must not be empty")
  else Ok {| g_alphabet := alphabet; g_length := length |}.

Definition DefaultGenerator : Generator :=
  {| g_alphabet := DefaultAlphabet; g_length := DefaultPasswordLength |}.

Section Generate.
Context {W : Type} `{Runtime W}.

(** The loop that fills [buf]; an index outside the alphabet would panic. *)
Fixpoint generate_loop (n : nat) (alphabet : string) (buf : string) : M W (result string) :=
  match n with
  | O => ret (Ok buf)
  | S n' =>
      let! r := rt_RandInt (Z.of_nat (String.length alphabet)) in
      match r with
      | Err e => ret (Err (ErrWrap "generating random byte: " e ""))
      | Ok z =>
          match String.get (Z.to_nat z) alphabet with
          | Some c => generate_loop n' alphabet (buf +:+ str1 c)
          | None => ret (Err (ErrNew "panic: index out of range"))
          end
      end
  end.

(** [Generate]. *)
Definition Generate (g : Generator) : M W (result string) :=
  generate_loop (Z.to_nat (g_length g)) (g_alphabet g) "".

End Generate.

Definition alnum (c : ascii) : bool := is_lower c || is_upper c || is_digit c.

Lemma sall_get p s i c : sall p s = true -> String.get i s = Some c -> p c = true.
Proof.
  revert i. induction s as [|d s IH]; intros i Hs Hi; simpl in *; [done|]. breflect.
  destruct i; [by injection Hi as <-|]. by eapply IH.
Qed.

Lemma get_lt s i : (i < String.length s)%nat -> is_Some (String.get i s).
Proof.
  revert i. induction s as [|d s IH]; intros i Hi; simpl in *; [lia|].
  destruct i; [by eexists|]. apply IH. lia.
Qed.

Section GenerateLemmas.
Context {W : Type} `{RuntimeLaws W}.

(** The loop appends [n] bytes of the alphabet, or returns an entropy error. *)
Lemma generate_loop_spec p n alphabet buf w r w' :
  sall p alphabet = true -> generate_loop n alphabet buf w = (r, w') ->
  (exists pw, r = Ok (buf +:+ pw) /\ String.length pw = n /\ sall p pw = true) \/
  (exists e, r = Err (ErrWrap "generating random byte: " e "")).
Proof.
  intros Hp. revert buf w. induction n as [|n IH]; intros buf w Hw; simpl in Hw.
  - injection Hw as <- <-. left. exists "". by rewrite app_nil_r_s.
  - mstep Hw. destruct a as [z|e]; [|injection Hw as <- <-; eauto].
    apply rand_range in E. destruct (get_lt alphabet (Z.to_nat z)) as [c Hc]; [lia|].
    rewrite Hc in Hw. apply IH in Hw as [(pw & -> & Hlen & Hall)|?]; [|by right].
    left. exists (String c pw). rewrite app_assoc_s, str1_app. simpl.
    rewrite (sall_get p alphabet _ c Hp Hc), Hlen, Hall. done.
Qed.

Lemma Generate_frames S g : frames S (Generate g).
Proof.
  unfold Generate. generalize "" (Z.to_nat (g_length g)). intros buf n. revert buf.
  induction n as [|n IH]; intros buf; simpl; [apply frames_ret|].
  apply frames_bind; [apply frames_RandInt|]. intros [z|e]; [|apply frames_ret].
  case_match; [apply IH|apply frames_ret].
Qed.

End GenerateLemmas.

(** Bytes that need no escaping in a URI authority, a SQL literal or a DSN. *)
Lemma alnum_neq c s : alnum c = false -> sall alnum s = true -> sall (neqc c) s = true.
Proof.
  intros Hc. apply sall_impl. intros d Hd. unfold neqc. apply negb_true_iff.
  destruct (Ascii.eqb_spec c d) as [->|]; congruence.
Qed.

(** Generated credentials.  For every runtime, the default generator returns 32
    alphanumeric bytes or reports the failure of the entropy source, and never indexes
    outside its alphabet; such a password passes [AssertSafePassword], is quoted verbatim
    by [StringLiteral], and contains none of the delimiters of a connection URI. *)
Theorem generated_password_safe (W : Type) (R : Runtime W) (L : RuntimeLaws W) (w w' : W) (r : result string) :
  Generate DefaultGenerator w = (r, w') ->
  (exists pw, r = Ok pw /\ String.length pw = 32%nat /\ sall alnum pw = true /\
     SqlEscape.AssertSafePassword pw = true /\
     SqlEscape.StringLiteral pw = str1 squote +:+ pw +:+ str1 squote /\
     Forall (fun c => sall (neqc c) pw = true) [":"; "@"; "/"; "?"; "#"; "%"; " "]%char) \/
  (exists e, r = Err (ErrWrap "generating random byte: " e "")).
Proof.
  intros Hw. apply (generate_loop_spec alnum) in Hw as [(pw & -> & Hlen & Hall)|?]; [|by right|done].
  left. exists pw. split_and!; try done.
  - unfold SqlEscape.AssertSafePassword. rewrite (proj2 (contains_byte_false _ _)); [done|].
    by apply alnum_neq.
  - unfold SqlEscape.StringLiteral. by rewrite replace_byte_none by by apply alnum_neq.
  - repeat (constructor; [by apply alnum_neq|]). constructor.
Qed.

(** A world whose entropy source yields the given numbers. *)
Definition seeded (l : list Z) : World :=
  {| w_store := empty_store; w_faults := []; w_clock := 0; w_events := []; w_rand := l;
     w_execs := []; w_commands := [] |}.

Lemma generated_password_safe_witness :
  (exists pw, (Generate DefaultGenerator (seeded (repeat 7 32))).1 = Ok pw /\
     String.length pw = 32%nat /\ sall alnum pw = true /\
     SqlEscape.AssertSafePassword pw = true /\
     SqlEscape.StringLiteral pw = str1 squote +:+ pw +:+ str1 squote /\
     Forall (fun c => sall (neqc c) pw = true) [":"; "@"; "/"; "?"; "#"; "%"; " "]%char) \/
  (exists e, (Generate DefaultGenerator (seeded (repeat 7 32))).1 = Err (ErrWrap "generating random byte: " e "")).
Proof.
  apply (generated_password_safe World _ _ (seeded (repeat 7 32))
           (Generate DefaultGenerator (seeded (repeat 7 32))).2).
  apply surjective_pairing.
Defined.

End Password.
