(* ===== verification/Pdb.v ===== *)
(** * internal/pdb: pod disruption budgets

    Construction and recommended sizing of a budget, and the number of evictions the
    eviction API allows under it. *)

From Stdlib Require Import ZArith Lia List Bool.
From stdpp Require Import base list strings gmap.
From S2P Require Import Prelude GoStrings K8s.

Local Open Scope Z_scope.

Module Pdb.

Record Spec := {
  s_Name : string;
  s_Namespace : string;
  s_Selector : gmap string string;
  s_MinAvailable : Z;
  s_MaxUnavailable : Z;
  s_Labels : gmap string string;
}.

(** [Build]. *)
Definition Build (s : Spec) : PodDisruptionBudget :=
  {| pdb_Meta := mkMeta (s_Name s) (s_Namespace s) (s_Labels s);
     pdb_Spec :=
       {| pdbs_Selector := s_Selector s;
          pdbs_MinAvailable :=
            if 0 <? s_MinAvailable s then Some (intstr_FromInt (s_MinAvailable s)) else None;
          pdbs_MaxUnavailable :=
            if 0 <? s_MinAvailable s then None
            else if 0 <? s_MaxUnavailable s then Some (intstr_FromInt (s_MaxUnavailable s))
            else Some (intstr_FromInt 1) |} |}.

(** [RecommendedFor]. *)
Definition RecommendedFor (name namespace : string) (instances : Z) (selector labels : gmap string string) : Spec :=
  {| s_Name := name; s_Namespace := namespace; s_Selector := selector;
     s_MinAvailable := if 3 <=? instances then instances - 1 else 0;
     s_MaxUnavailable := if 3 <=? instances then 0 else 1;
     s_Labels := labels |}.

(** [IsAdvisory]. *)
Definition IsAdvisory (s : Spec) : bool := (s_MinAvailable s =? 0) && (s_MaxUnavailable s =? 0).

(** Disruptions a budget allows when [healthy] of [n] pods are healthy, as the
    disruption controller computes them. *)
Definition allowed_disruptions (p : PodDisruptionBudgetSpec) (n healthy : Z) : option Z :=
  match pdbs_MinAvailable p, pdbs_MaxUnavailable p with
  | Some (IntVal m), None => Some (Z.max 0 (healthy - m))
  | None, Some (IntVal m) => Some (Z.max 0 (healthy - Z.max 0 (n - m)))
  | _, _ => None
  end.

(** Exactly one of the two fields is set. *)
Definition exclusive (p : PodDisruptionBudgetSpec) : Prop :=
  (is_Some (pdbs_MinAvailable p) /\ pdbs_MaxUnavailable p = None) \/
  (pdbs_MinAvailable p = None /\ is_Some (pdbs_MaxUnavailable p)).

Lemma Build_exclusive s : exclusive (pdb_Spec (Build s)).
Proof. unfold exclusive, Build. cbn. repeat case_match; eauto. Qed.

(** The recommended budget allows exactly one voluntary disruption.  For every
    admissible instance count, with all pods healthy the budget the operator writes sets
    exactly one of [minAvailable] and [maxUnavailable] and lets one pod be evicted; with
    one pod already down it lets none. *)
Theorem recommended_allows_one (name ns : string) (n : Z) (sel labels : gmap string string) :
  1 <= n <= max_int32 ->
  let p := pdb_Spec (Build (RecommendedFor name ns n sel labels)) in
  exclusive p /\ allowed_disruptions p n n = Some 1 /\ allowed_disruptions p n (n - 1) = Some 0.
Proof.
  intros Hn p. unfold max_int32 in Hn. split; [apply Build_exclusive|].
  unfold p, allowed_disruptions, Build, RecommendedFor. cbn.
  destruct (Z.leb_spec 3 n); cbn.
  - destruct (Z.ltb_spec 0 (n - 1)); [|lia]. unfold intstr_FromInt.
    rewrite int32_id by (unfold in_int32, min_int32, max_int32; lia). split; f_equal; lia.
  - split; f_equal; change (int32 1) with 1; lia.
Qed.

Lemma recommended_allows_one_witness :
  let p := pdb_Spec (Build (RecommendedFor "db-pdb" "prod" 3 ∅ ∅)) in
  exclusive p /\ allowed_disruptions p 3 3 = Some 1 /\ allowed_disruptions p 3 (3 - 1) = Some 0.
Proof. apply (recommended_allows_one "db-pdb" "prod" 3 ∅ ∅). unfold max_int32. lia. Defined.

End Pdb.
