(* ===== verification/ClusterController.v ===== *)
(** * internal/controller/postgrescluster_controller.go

    The reconciler of [PostgresCluster], written against the [Runtime] interface, and
    its theorems: what a successful reconcile establishes, what no reconcile ever
    touches, and how pausing and deletion behave. *)

From Stdlib Require Import ZArith Lia List Bool.
From stdpp Require Import base list strings gmap.
From S2P Require Import Prelude GoStrings K8s Api Runtime FakeRuntime Ensure PgConfig PgStatus PgResources Password Pdb.

Local Open Scope Z_scope.
Local Open Scope athos_scope.

Module Cluster.
Import Naming Labels Status Resources.

Definition mkEvent (ty reason fmt : string) (args : list EventArg) : Event :=
  {| event_Type := ty; event_Reason := reason; event_Format := fmt; event_Args := args |}.

(** The owner reference controller-runtime derives from a cluster. *)
Definition ownerRef (c : PostgresCluster) : OwnerReference :=
  {| or_Kind := "PostgresCluster"; or_Name := cluster_Name c; or_UID := om_UID (pc_Meta c); or_Controller := true |}.

Definition set_phase (p : PostgresClusterPhase) (c : PostgresCluster) : PostgresCluster :=
  let s := pc_Status c in
  {| pc_Meta := pc_Meta c; pc_Spec := pc_Spec c;
     pc_Status :=
       {| pst_Conditions := pst_Conditions s; pst_Phase := p; pst_ReadyInstances := pst_ReadyInstances s;
          pst_CurrentPrimary := pst_CurrentPrimary s; pst_WriteServiceName := pst_WriteServiceName s;
          pst_ReadServiceName := pst_ReadServiceName s; pst_PostgresVersion := pst_PostgresVersion s;
          pst_ObservedGeneration := pst_ObservedGeneration s; pst_LatestBackup := pst_LatestBackup s |} |}.

Definition set_ready (n : Z) (c : PostgresCluster) : PostgresCluster :=
  let s := pc_Status c in
  {| pc_Meta := pc_Meta c; pc_Spec := pc_Spec c;
     pc_Status :=
       {| pst_Conditions := pst_Conditions s; pst_Phase := pst_Phase s; pst_ReadyInstances := n;
          pst_CurrentPrimary := pst_CurrentPrimary s; pst_WriteServiceName := pst_WriteServiceName s;
          pst_ReadServiceName := pst_ReadServiceName s; pst_PostgresVersion := pst_PostgresVersion s;
          pst_ObservedGeneration := pst_ObservedGeneration s; pst_LatestBackup := pst_LatestBackup s |} |}.

(** The names and versions [updateStatus] writes after the phase. *)
Definition set_identity (c : PostgresCluster) : PostgresCluster :=
  let s := pc_Status c in
  {| pc_Meta := pc_Meta c; pc_Spec := pc_Spec c;
     pc_Status :=
       {| pst_Conditions := pst_Conditions s; pst_Phase := pst_Phase s;
          pst_ReadyInstances := pst_ReadyInstances s;
          pst_CurrentPrimary := PodName c 0; pst_WriteServiceName := PrimaryServiceName c;
          pst_ReadServiceName := ReplicaServiceName c;
          pst_PostgresVersion := itoa (pcs_PostgresVersion (pc_Spec c));
          pst_ObservedGeneration := om_Generation (pc_Meta c); pst_LatestBackup := pst_LatestBackup s |} |}.

Section Reconciler.
Context {W : Type} `{Runtime W}.

(** Whether the reconciler has an event recorder ([r.Recorder != nil]). *)
Context (hasRecorder : bool).

(** [recordEventf]. *)
Definition recordEventf (e : Event) : M W unit :=
  if hasRecorder then rt_Event e else ret tt.

(** [reconcileServiceAccount]. *)
Definition reconcileServiceAccount (c : PostgresCluster) : M W (option error) :=
  if negb (pcs_ServiceAccountName (pc_Spec c) =? "")%string then ret None
  else
    match rt_SetControllerReference KServiceAccount (ownerRef c) (cluster_Namespace c) (BuildServiceAccount c) with
    | Err e => ret (Some e)
    | Ok desired =>
        let! r := rt_Get KServiceAccount (key (k:=KServiceAccount) desired) in
        match r with
        | Err e => if IsNotFound e then err_of (rt_Create KServiceAccount desired) else ret (Some e)
        | Ok _ => ret None
        end
    end.

(** [reconcileCredentials]. *)
Definition reconcileCredentials (c : PostgresCluster) : M W (option error) :=
  let! r := rt_Get KSecret (nn (SecretName c) (cluster_Namespace c)) in
  match r with
  | Ok _ => ret None
  | Err e =>
      if negb (IsNotFound e) then ret (Some e)
      else
        let! g := Password.Generate Password.DefaultGenerator in
        match g with
        | Err e => ret (Some (ErrWrap "generate password: " e ""))
        | Ok pw =>
            match rt_SetControllerReference KSecret (ownerRef c) (cluster_Namespace c)
                    (BuildCredentialSecret c pw) with
            | Err e => ret (Some e)
            | Ok desired =>
                let! cr := rt_Create KSecret desired in
                match cr with
                | Err e => ret (Some e)
                | Ok _ =>
                    let! _ := recordEventf (mkEvent "Normal" "Created" "Created credentials Secret %q"
                                              [ArgStr (SecretName c)]) in
                    ret None
                end
            end
        end
  end.

Definition merge_configmap (c : PostgresCluster) (existing : ConfigMap) : ConfigMap :=
  {| cm_Meta := cm_Meta existing; cm_Data := cm_Data (BuildConfigMap c) |}.

(** [reconcileConfigMap]. *)
Definition reconcileConfigMap (c : PostgresCluster) : M W (option error) :=
  ensure (ownerRef c) (cluster_Namespace c) same same KConfigMap (BuildConfigMap c)
    (recordEventf (mkEvent "Normal" "Created" "Created ConfigMap %q" [ArgStr (ConfigMapName c)]))
    (fun _ => nothing) (merge_configmap c).

(** The mutable fields of the StatefulSet: replicas and pod template. *)
Definition merge_statefulset (c : PostgresCluster) (existing : StatefulSet) : StatefulSet :=
  let s := sts_Spec existing in
  {| sts_Meta := sts_Meta existing;
     sts_Spec :=
       {| ss_Replicas := ss_Replicas (sts_Spec (BuildStatefulSet c));
          ss_ServiceName := ss_ServiceName s; ss_PodManagementPolicy := ss_PodManagementPolicy s;
          ss_UpdateStrategy := ss_UpdateStrategy s; ss_Selector := ss_Selector s;
          ss_Template := ss_Template (sts_Spec (BuildStatefulSet c));
          ss_VolumeClaimTemplates := ss_VolumeClaimTemplates s |};
     sts_ReadyReplicas := sts_ReadyReplicas existing |}.

(** The scale event, emitted when the replica counts differ. *)
Definition scale_event (c : PostgresCluster) (existing : StatefulSet) : M W unit :=
  match ss_Replicas (sts_Spec existing), ss_Replicas (sts_Spec (BuildStatefulSet c)) with
  | Some a, Some b =>
      if negb (a =? b) then
        recordEventf (mkEvent "Normal" "Updated" "Scaling StatefulSet %q from %d to %d replicas"
                        [ArgStr (ClusterStatefulSetName c); ArgInt a; ArgInt b])
      else nothing
  | _, _ => nothing
  end.

(** [reconcileStatefulSet]. *)
Definition reconcileStatefulSet (c : PostgresCluster) : M W (option error) :=
  ensure (ownerRef c) (cluster_Namespace c) same same KStatefulSet (BuildStatefulSet c)
    (recordEventf (mkEvent "Normal" "Created" "Created StatefulSet %q with %d replicas"
                     [ArgStr (ClusterStatefulSetName c); ArgInt (pcs_Instances (pc_Spec c))]))
    (scale_event c) (merge_statefulset c).

Definition merge_service (desired existing : Service) : Service :=
  let s := svc_Spec existing in
  {| svc_Meta := svc_Meta existing;
     svc_Spec := {| svs_Type := svs_Type s; svs_ClusterIP := svs_ClusterIP s;
                    svs_PublishNotReadyAddresses := svs_PublishNotReadyAddresses s;
                    svs_Selector := svs_Selector (svc_Spec desired);
                    svs_Ports := svs_Ports (svc_Spec desired) |} |}.

Definition reconcile_service (c : PostgresCluster) (svc : Service) : M W (option error) :=
  ensure (ownerRef c) (cluster_Namespace c) same same KService svc nothing (fun _ => nothing) (merge_service svc).

Definition services (c : PostgresCluster) : list Service :=
  [BuildHeadlessService c; BuildPrimaryService c; BuildReplicaService c].

(** [reconcileServices]: the loop over the three Services. *)
Fixpoint reconcile_service_loop (c : PostgresCluster) (l : list Service) : M W (option error) :=
  match l with
  | [] => ret None
  | svc :: l' => try! reconcile_service c svc in reconcile_service_loop c l'
  end.

Definition reconcileServices (c : PostgresCluster) : M W (option error) :=
  reconcile_service_loop c (services c).

Definition desired_pdb (c : PostgresCluster) : PodDisruptionBudget :=
  Pdb.Build (Pdb.RecommendedFor (cluster_Name c +:+ "-pdb") (cluster_Namespace c)
               (pcs_Instances (pc_Spec c)) (SelectorLabels c) (CommonLabels c)).

Definition merge_pdb (c : PostgresCluster) (existing : PodDisruptionBudget) : PodDisruptionBudget :=
  {| pdb_Meta := pdb_Meta existing; pdb_Spec := pdb_Spec (desired_pdb c) |}.

(** [reconcilePDB]. *)
Definition reconcilePDB (c : PostgresCluster) : M W (option error) :=
  ensure (ownerRef c) (cluster_Namespace c) same same KPDB (desired_pdb c)
    (recordEventf (mkEvent "Normal" "Created" "Created PodDisruptionBudget %q"
                     [ArgStr (cluster_Name c +:+ "-pdb")]))
    (fun _ => nothing) (merge_pdb c).

Definition ready_message (ready desired : Z) : string :=
  itoa ready +:+ " of " +:+ itoa desired +:+ " instances are ready".

(** The phase and condition part of [updateStatus]; each condition reads the clock. *)
Definition classify (ready : Z) (c : PostgresCluster) : M W PostgresCluster :=
  let desired := pcs_Instances (pc_Spec c) in
  if ready =? 0 then
    let! t := rt_Now in
    ret (SetClusterCondition t (set_phase PhaseCreating c) ConditionReady ConditionFalse
           "NoReadyInstances" "No instances are ready yet")
  else if ready <? desired then
    let! t1 := rt_Now in
    let c1 := SetClusterCondition t1 (set_phase PhaseDegraded c) ConditionReady ConditionFalse
                "InsufficientInstances" (ready_message ready desired) in
    let! t2 := rt_Now in
    ret (SetClusterCondition t2 c1 ConditionDegraded ConditionTrue
           "InsufficientInstances" (ready_message ready desired))
  else
    let! t1 := rt_Now in
    let c1 := SetClusterCondition t1 (set_phase PhaseRunning c) ConditionReady ConditionTrue
                "AllInstancesReady" ("All " +:+ itoa desired +:+ " instances are ready") in
    let! t2 := rt_Now in
    ret (SetClusterCondition t2 c1 ConditionDegraded ConditionFalse
           "AllInstancesReady" "Cluster is fully operational").

(** [updateStatus]. *)
Definition updateStatus (c : PostgresCluster) : M W (option error) :=
  let! r := rt_Get KStatefulSet (nn (ClusterStatefulSetName c) (cluster_Namespace c)) in
  let continue := fun (observed : Z) =>
    let ready := if 0 <? observed then observed else 0 in
    let! c1 := classify ready (set_ready ready c) in
    err_of (rt_StatusUpdate KCluster (set_identity c1)) in
  match r with
  | Ok sts => continue (sts_ReadyReplicas sts)
  | Err e => if IsNotFound e then continue 0 else ret (Some e)
  end.

(** The named steps of [reconcileSubresources]. *)
Definition steps (c : PostgresCluster) : list (string * M W (option error)) :=
  [("serviceaccount", reconcileServiceAccount c);
   ("credentials", reconcileCredentials c);
   ("configmap", reconcileConfigMap c);
   ("statefulset", reconcileStatefulSet c);
   ("services", reconcileServices c);
   ("pdb", reconcilePDB c);
   ("status", updateStatus c)].

Fixpoint run_steps (l : list (string * M W (option error))) : M W (option error) :=
  match l with
  | [] => ret None
  | (name, fn) :: l' =>
      let! e := fn in
      match e with
      | Some e => ret (Some (ErrWrap ("reconcile " +:+ name +:+ ": ") e ""))
      | None => run_steps l'
      end
  end.

(** [reconcileSubresources]. *)
Definition reconcileSubresources (c : PostgresCluster) : M W (option error) := run_steps (steps c).

Definition with_finalizers (fs : list string) (c : PostgresCluster) : PostgresCluster :=
  {| pc_Meta := meta_with_finalizers fs (pc_Meta c); pc_Spec := pc_Spec c; pc_Status := pc_Status c |}.

(** [reconcileDelete]. *)
Definition reconcileDelete (c : PostgresCluster) : M W (Result * option error) :=
  let c' := with_finalizers (rt_RemoveFinalizer PostgresClusterFinalizer (om_Finalizers (pc_Meta c))) c in
  let! e := err_of (rt_Update KCluster c') in
  ret (done_result, e).

(** The pause branch of [Reconcile]. *)
Definition reconcilePaused (c : PostgresCluster) : M W (Result * option error) :=
  if bool_decide (pst_Phase (pc_Status c) = PhasePaused) then ret (done_result, None)
  else
    let! t := rt_Now in
    let c' := SetClusterCondition t (set_phase PhasePaused c) ConditionProgressing ConditionFalse
                "Paused" "Reconciliation is suspended" in
    let! u := rt_StatusUpdate KCluster c' in
    match u with
    | Err e => ret (done_result, Some e)
    | Ok _ =>
        let! _ := recordEventf (mkEvent "Warning" "Paused" "Reconciliation paused via spec.paused" []) in
        ret (done_result, None)
    end.

(** The bootstrap of the status phase on the first reconcile. *)
Definition bootstrap (c : PostgresCluster) : M W (result PostgresCluster) :=
  if bool_decide (pst_Phase (pc_Status c) = PhaseEmpty) then
    let! t := rt_Now in
    rt_StatusUpdate KCluster
      (SetClusterCondition t (set_phase PhaseInitializing c) ConditionProgressing ConditionTrue
         "Initializing" "Cluster is being initialised")
  else ret (Ok c).

(** [Reconcile]. *)
Definition Reconcile (req : NamespacedName) : M W (Result * option error) :=
  let! r := rt_Get KCluster req in
  match r with
  | Err e => if IsNotFound e then ret (done_result, None) else ret (done_result, Some e)
  | Ok c =>
      if pcs_Paused (pc_Spec c) then reconcilePaused c
      else if negb (rt_ContainsFinalizer PostgresClusterFinalizer (om_Finalizers (pc_Meta c))) then
        let c' := with_finalizers (rt_AddFinalizer PostgresClusterFinalizer (om_Finalizers (pc_Meta c))) c in
        let! u := rt_Update KCluster c' in
        match u with
        | Err e => ret (done_result, Some e)
        | Ok _ => ret (requeue, None)
        end
      else if bool_decide (is_Some (om_DeletionTimestamp (pc_Meta c))) then reconcileDelete c
      else
        let! b := bootstrap c in
        match b with
        | Err e => ret (done_result, Some e)
        | Ok c' =>
            let! e := reconcileSubresources c' in
            match e with
            | Some e => ret (done_result, Some e)
            | None => ret (requeue_after 30, None)
            end
        end
  end.

End Reconciler.

(** ** Frame lemmas *)

(** The objects of one of the kinds [ks]. *)
Definition of_kinds (ks : list Kind) : Kind -> NamespacedName -> Prop := fun k _ => k ∈ ks.

Section Lemmas.
Context {W : Type} `{RuntimeLaws W}.
Context (hasRecorder : bool).

Lemma frames_recordEventf S e : frames S (recordEventf (W:=W) hasRecorder e).
Proof. unfold recordEventf. destruct hasRecorder; [apply frames_Event|apply frames_ret]. Qed.

Lemma frames_scale_event S c x : frames S (scale_event (W:=W) hasRecorder c x).
Proof.
  unfold scale_event, nothing. repeat case_match; (apply frames_ret || apply frames_recordEventf).
Qed.

(** ** The steps *)

Section Steps.
Context (c : PostgresCluster).

Lemma reconcileServiceAccount_frames :
  frames (only KServiceAccount (nn (cluster_Name c +:+ "-sa") (cluster_Namespace c)))
    (reconcileServiceAccount (W:=W) c).
Proof.
  unfold reconcileServiceAccount.
  destruct (String.eqb_spec (pcs_ServiceAccountName (pc_Spec c)) "") as [Es|]; [|apply frames_ret].
  cbn [negb]. destruct (rt_SetControllerReference _ _ _ _) as [d|e] eqn:Er; [|apply frames_ret].
  apply setref_key in Er. apply frames_bind_Get. intros [o|e] _; [apply frames_ret|].
  case_match; [|apply frames_ret]. apply frames_err_of, frames_Create. split; [done|].
  rewrite Er. unfold key, key_of, BuildServiceAccount, ServiceAccountName. cbn. by rewrite Es.
Qed.

Lemma reconcileCredentials_frames :
  frames (only KSecret (nn (SecretName c) (cluster_Namespace c))) (reconcileCredentials (W:=W) hasRecorder c).
Proof.
  unfold reconcileCredentials. apply frames_bind_Get. intros [o|e] _; [apply frames_ret|].
  case_match; [apply frames_ret|]. apply frames_bind; [apply Password.Generate_frames|].
  intros [pw|e']; [|apply frames_ret].
  destruct (rt_SetControllerReference _ _ _ _) as [d|e'] eqn:Er; [|apply frames_ret].
  apply setref_key in Er. apply frames_bind; [apply frames_Create; split; [done|by rewrite Er]|].
  intros []; [|apply frames_ret]. apply frames_bind; [apply frames_recordEventf|]. intros. apply frames_ret.
Qed.

Lemma reconcileConfigMap_frames :
  frames (only KConfigMap (nn (ConfigMapName c) (cluster_Namespace c))) (reconcileConfigMap (W:=W) hasRecorder c).
Proof.
  apply (ensure_frames (ownerRef c) (cluster_Namespace c) same same KConfigMap (BuildConfigMap c)); [|intros; apply frames_ret|done].
  intros. apply frames_recordEventf.
Qed.

Lemma reconcileStatefulSet_frames :
  frames (only KStatefulSet (nn (cluster_Name c) (cluster_Namespace c))) (reconcileStatefulSet (W:=W) hasRecorder c).
Proof.
  apply (ensure_frames (ownerRef c) (cluster_Namespace c) same same KStatefulSet (BuildStatefulSet c)); [|intros; apply frames_scale_event|done].
  intros. apply frames_recordEventf.
Qed.

Lemma reconcile_service_frames svc :
  frames (only KService (key_of (svc_Meta svc))) (reconcile_service (W:=W) c svc).
Proof. by apply (ensure_frames (ownerRef c) (cluster_Namespace c) same same KService svc); intros; try apply frames_ret. Qed.

Lemma reconcile_service_loop_frames S l :
  (forall svc, svc ∈ l -> S KService (key_of (svc_Meta svc))) ->
  frames S (reconcile_service_loop (W:=W) c l).
Proof.
  induction l as [|svc l IH]; intros HS; cbn [reconcile_service_loop]; [apply frames_ret|].
  apply frames_mtry; [|apply IH; intros; apply HS; by right].
  eapply frames_weaken; [apply reconcile_service_frames|]. intros k n [-> ->]. apply HS. by left.
Qed.

Lemma reconcilePDB_frames :
  frames (only KPDB (nn (cluster_Name c +:+ "-pdb") (cluster_Namespace c))) (reconcilePDB (W:=W) hasRecorder c).
Proof.
  apply (ensure_frames (ownerRef c) (cluster_Namespace c) same same KPDB (desired_pdb c)); [|intros; apply frames_ret|done].
  intros. apply frames_recordEventf.
Qed.

Lemma classify_frames S ready x : frames S (classify (W:=W) ready x).
Proof. unfold classify. repeat case_match; frames_tac. Qed.

Lemma classify_inv ready x w y w' : classify (W:=W) ready x w = (y, w') ->
  pc_Meta y = pc_Meta x /\ pc_Spec y = pc_Spec x /\
  pst_ReadyInstances (pc_Status y) = pst_ReadyInstances (pc_Status x).
Proof.
  unfold classify. intros Hw.
  destruct (ready =? 0); [|destruct (ready <? _)]; repeat mstep Hw; injection Hw as <- <-; done.
Qed.

Lemma updateStatus_frames : frames (only KCluster (key_of (pc_Meta c))) (updateStatus (W:=W) c).
Proof.
  unfold updateStatus.
  assert (Hc : forall z, frames (only KCluster (key_of (pc_Meta c)))
    (let! c1 := classify (if 0 <? z then z else 0) (set_ready (if 0 <? z then z else 0) c) in
     err_of (rt_StatusUpdate (W:=W) KCluster (set_identity c1)))).
  { intros z w r w' Hw k n HS. mstep Hw. apply classify_inv in E as Hi. destruct Hi as (Hm & _).
    transitivity (stored w0 k n); [|exact (classify_frames none _ _ _ _ _ E k n (fun x => x))].
    eapply (frames_err_of (only KCluster (key_of (pc_Meta c)))); [|exact Hw|exact HS].
    apply frames_StatusUpdate. split; [done|]. unfold key. cbn. by rewrite Hm. }
  apply frames_bind_Get. intros [o|e] _; [apply Hc|]. case_match; [apply Hc|apply frames_ret].
Qed.

End Steps.

(** ** What each step establishes *)

Section StepSpecs.
Context (c : PostgresCluster).

Lemma reconcileServiceAccount_spec w w' :
  reconcileServiceAccount (W:=W) c w = (None, w') -> pcs_ServiceAccountName (pc_Spec c) = "" ->
  is_Some (stored w' KServiceAccount (nn (cluster_Name c +:+ "-sa") (cluster_Namespace c))).
Proof.
  unfold reconcileServiceAccount. intros Hw Es. rewrite Es in Hw. cbn [String.eqb negb] in Hw.
  assert (Hk : key (k:=KServiceAccount) (BuildServiceAccount c) = nn (cluster_Name c +:+ "-sa") (cluster_Namespace c)).
  { unfold key, key_of, BuildServiceAccount, ServiceAccountName. cbn. by rewrite Es. }
  destruct (rt_SetControllerReference _ _ _ _) as [d|e] eqn:Er; [|done].
  apply setref_key in Er. rewrite Hk in Er. mstep Hw. rewrite Er in E. destruct a as [o|e].
  - injection Hw as <-. rewrite (get_frame _ _ _ _ _ E). eexists. by eapply get_ok.
  - destruct (IsNotFound e); [|done]. mstep Hw. destruct a as [o|]; [|done]. injection Hw as <-.
    apply create_ok in E0 as (_ & Hpost & _). rewrite Er in Hpost. by eexists.
Qed.

Lemma reconcileCredentials_spec w w' :
  reconcileCredentials (W:=W) hasRecorder c w = (None, w') ->
  is_Some (stored w' KSecret (nn (SecretName c) (cluster_Namespace c))).
Proof.
  unfold reconcileCredentials. intros Hw. mstep Hw. destruct a as [o|e].
  - injection Hw as <-. rewrite (get_frame _ _ _ _ _ E). eexists. by eapply get_ok.
  - destruct (IsNotFound e); [|done]. cbn [negb] in Hw. mstep Hw. destruct a as [pw|]; [|done].
    destruct (rt_SetControllerReference _ _ _ _) as [d|e'] eqn:Er; [|done]. apply setref_key in Er.
    mstep Hw. destruct a as [o|]; [|done]. mstep Hw. injection Hw as <-.
    rewrite (frames_recordEventf none _ _ _ _ E2 _ _ (fun x => x)).
    apply create_ok in E1 as (_ & Hpost & _). rewrite Er in Hpost. by eexists.
Qed.

(** An existing Secret is never written. *)
Lemma reconcileCredentials_keeps n s w r w' :
  reconcileCredentials (W:=W) hasRecorder c w = (r, w') -> stored w KSecret n = Some s ->
  stored w' KSecret n = Some s.
Proof.
  unfold reconcileCredentials. intros Hw Hs. mstep Hw.
  assert (Hs1 : stored w0 KSecret n = Some s) by (by rewrite (get_frame _ _ _ _ _ E)).
  destruct a as [o|e]; [by injection Hw as <- <-|].
  destruct (IsNotFound e) eqn:Hnf; cbn [negb] in Hw; [|by injection Hw as <- <-]. mstep Hw.
  assert (Hs2 : stored w1 KSecret n = Some s) by (by rewrite (Password.Generate_frames none _ _ _ _ E0 _ _ (fun x => x))).
  destruct a as [pw|]; [|by injection Hw as <- <-].
  destruct (rt_SetControllerReference _ _ _ _) as [d|e'] eqn:Er; [|by injection Hw as <- <-].
  mstep Hw. assert (Hs3 : stored w2 KSecret n = Some s).
  { rewrite (create_frame _ _ _ _ _ E1); [done|]. right. right. by eexists. }
  destruct a as [o|]; [|by injection Hw as <- <-]. mstep Hw. injection Hw as <- <-.
  by rewrite (frames_recordEventf none _ _ _ _ E2 _ _ (fun x => x)).
Qed.

Lemma reconcileConfigMap_spec w w' :
  reconcileConfigMap (W:=W) hasRecorder c w = (None, w') ->
  exists cm, stored w' KConfigMap (nn (ConfigMapName c) (cluster_Namespace c)) = Some cm /\
    cm_Data cm = cm_Data (BuildConfigMap c).
Proof.
  intros Hw. apply ensure_spec in Hw; [|intros; apply frames_recordEventf|intros; apply frames_ret|done].
  destruct Hw as (o & Ho & [[_ Hs]|(e & _ & Hs & _)]); exists o; done.
Qed.

Lemma reconcileStatefulSet_spec w w' :
  reconcileStatefulSet (W:=W) hasRecorder c w = (None, w') ->
  exists o, stored w' KStatefulSet (nn (cluster_Name c) (cluster_Namespace c)) = Some o /\
    ((stored w KStatefulSet (nn (cluster_Name c) (cluster_Namespace c)) = None /\
      statefulset_defaulted (sts_Spec (BuildStatefulSet c)) (sts_Spec o)) \/
     (exists e, stored w KStatefulSet (nn (cluster_Name c) (cluster_Namespace c)) = Some e /\
      statefulset_defaulted (sts_Spec (merge_statefulset c e)) (sts_Spec o) /\ sts_ReadyReplicas o = sts_ReadyReplicas e)).
Proof.
  intros Hw. apply ensure_spec in Hw; [done|intros; apply frames_recordEventf|intros; apply frames_scale_event|done].
Qed.

Lemma reconcile_service_spec svc w w' :
  reconcile_service (W:=W) c svc w = (None, w') ->
  exists s, stored w' KService (key_of (svc_Meta svc)) = Some s /\
    service_defaulted (svc_Spec svc) (svc_Spec s).
Proof.
  intros Hw. apply ensure_spec in Hw; [|intros; apply frames_ret|intros; apply frames_ret|done].
  destruct Hw as (o & Ho & [[_ Hs]|(e & _ & Hs & _)]); exists o; done.
Qed.

(** A Service is in place: same selector as desired, and the same ports up to server
    defaults. *)
Definition service_in_place (w : W) (d : Service) : Prop :=
  exists s, stored w KService (key_of (svc_Meta d)) = Some s /\ service_defaulted (svc_Spec d) (svc_Spec s).

Lemma reconcile_service_loop_spec l w w' :
  NoDup ((fun s => key_of (svc_Meta s)) <$> l) ->
  reconcile_service_loop (W:=W) c l w = (None, w') -> Forall (service_in_place w') l.
Proof.
  revert w. induction l as [|svc l IH]; intros w Hnd Hw; [constructor|].
  cbn [reconcile_service_loop] in Hw. unfold mtry in Hw. mstep Hw.
  destruct a as [e|]; [done|].
  apply NoDup_cons in Hnd as [Hnin Hnd]. constructor; [|by eapply IH].
  destruct (reconcile_service_spec _ _ _ E) as (s & Hs & Hps). exists s. split; [|done].
  rewrite <- Hs.
  eapply (reconcile_service_loop_frames c (fun k n => k = KService /\ n ∈ ((fun s => key_of (svc_Meta s)) <$> l)));
    [|exact Hw|].
  - intros d Hd. split; [done|]. apply list_elem_of_fmap. eauto.
  - intros [_ Hin]. done.
Qed.

Lemma services_NoDup : NoDup ((fun s => key_of (svc_Meta s)) <$> services c).
Proof.
  unfold services. cbn. unfold key_of. cbn. unfold HeadlessServiceName, PrimaryServiceName, ReplicaServiceName.
  assert (Hinj : forall a b, a <> b -> cluster_Name c +:+ a <> cluster_Name c +:+ b).
  { intros a b Hab E. apply (inj (String.append _)) in E. done. }
  rewrite !NoDup_cons, !not_elem_of_cons.
  split_and!; try apply not_elem_of_nil; try apply NoDup_nil_2; intros E; injection E; by apply Hinj.
Qed.

Lemma reconcilePDB_spec w w' :
  reconcilePDB (W:=W) hasRecorder c w = (None, w') ->
  exists p, stored w' KPDB (nn (cluster_Name c +:+ "-pdb") (cluster_Namespace c)) = Some p /\
    pdb_Spec p = pdb_Spec (desired_pdb c).
Proof.
  intros Hw. apply ensure_spec in Hw; [|intros; apply frames_recordEventf|intros; apply frames_ret|done].
  destruct Hw as (o & Ho & [[_ Hs]|(e & _ & Hs & _)]); exists o; done.
Qed.

End StepSpecs.

(** ** Status *)

Definition phase_for (ready desired : Z) : PostgresClusterPhase :=
  if ready =? 0 then PhaseCreating else if ready <? desired then PhaseDegraded else PhaseRunning.

Definition conds (c : PostgresCluster) : list Condition := pst_Conditions (pc_Status c).

(** The status of the condition of a type, if there is one. *)
Definition cond_status (ty : string) (c : PostgresCluster) : option ConditionStatus :=
  cond_Status <$> find_cond ty (conds c).

Lemma conds_set t c ty st reason msg :
  conds (SetClusterCondition t c ty st reason msg) =
  upsert (om_Generation (pc_Meta c)) t ty st reason msg (conds c).
Proof. done. Qed.

Lemma cond_status_set t c ty st reason msg ty' :
  cond_status ty' (SetClusterCondition t c ty st reason msg) =
  if decide (ty' = ty) then Some st else cond_status ty' c.
Proof.
  unfold cond_status. rewrite conds_set. case_decide as E; subst.
  - by rewrite find_upsert_eq.
  - by rewrite find_upsert_ne.
Qed.

(** The Ready and Degraded conditions after classification. *)
Lemma classify_spec ready x w y w' : classify (W:=W) ready x w = (y, w') ->
  let phase := phase_for ready (pcs_Instances (pc_Spec x)) in
  pst_Phase (pc_Status y) = phase /\
  cond_status ConditionReady y = Some (if decide (phase = PhaseRunning) then ConditionTrue else ConditionFalse) /\
  cond_status ConditionDegraded y =
    (if ready =? 0 then cond_status ConditionDegraded x
     else Some (if decide (phase = PhaseRunning) then ConditionFalse else ConditionTrue)).
Proof.
  unfold classify, phase_for. intros Hw.
  destruct (ready =? 0); [|destruct (ready <? _)]; repeat mstep Hw; injection Hw as <- <-;
    rewrite !cond_status_set; done.
Qed.

Lemma classify_wf ready x w y w' : classify (W:=W) ready x w = (y, w') ->
  wf_conditions (conds x) -> wf_conditions (conds y).
Proof.
  unfold classify. intros Hw Hwf.
  destruct (ready =? 0); [|destruct (ready <? _)]; repeat mstep Hw; injection Hw as <- <-;
    rewrite !conds_set; by repeat apply upsert_wf.
Qed.

(** The ready replicas [updateStatus] observes. *)
Definition observed_ready (w : W) (c : PostgresCluster) : Z :=
  match stored w KStatefulSet (nn (cluster_Name c) (cluster_Namespace c)) with
  | Some s => Z.max 0 (sts_ReadyReplicas s)
  | None => 0
  end.

Definition status_reports (ready : Z) (c c' : PostgresCluster) : Prop :=
  let phase := phase_for ready (pcs_Instances (pc_Spec c)) in
  pst_Phase (pc_Status c') = phase /\
  pst_ReadyInstances (pc_Status c') = ready /\
  cond_status ConditionReady c' = Some (if decide (phase = PhaseRunning) then ConditionTrue else ConditionFalse) /\
  pst_CurrentPrimary (pc_Status c') = PodName c 0 /\
  pst_WriteServiceName (pc_Status c') = PrimaryServiceName c /\
  pst_ReadServiceName (pc_Status c') = ReplicaServiceName c /\
  pst_PostgresVersion (pc_Status c') = itoa (pcs_PostgresVersion (pc_Spec c)).

Lemma updateStatus_spec c w w' :
  updateStatus (W:=W) c w = (None, w') ->
  exists c', stored w' KCluster (key_of (pc_Meta c)) = Some c' /\
    status_reports (observed_ready w c) c c'.
Proof.
  unfold updateStatus. intros Hw. mstep Hw.
  assert (Hc : forall z, (let! c1 := classify (if 0 <? z then z else 0) (set_ready (if 0 <? z then z else 0) c) in
     err_of (rt_StatusUpdate (W:=W) KCluster (set_identity c1))) w0 = (None, w') ->
     exists c', stored w' KCluster (key_of (pc_Meta c)) = Some c' /\ status_reports (Z.max 0 z) c c').
  { intros z Hz. replace (if 0 <? z then z else 0) with (Z.max 0 z) in Hz
      by (destruct (Z.ltb_spec 0 z); lia).
    mstep Hz. mstep Hz. destruct a1 as [o|]; [|done]. injection Hz as <-.
    apply classify_inv in E0 as Hinv. destruct Hinv as (Hm & Hs & Hr).
    apply classify_spec in E0 as Hsp. destruct Hsp as (Hp & Hrd & _).
    apply status_ok in E1 as (o0 & _ & Hpost & _ & Hst & _). cbn in Hst.
    exists o. split; [unfold key in Hpost; cbn in Hpost; by rewrite Hm in Hpost|].
    unfold status_reports, cond_status, conds in *. rewrite Hst. cbn in *.
    unfold PodName, PrimaryServiceName, ReplicaServiceName, cluster_Name. rewrite Hm, Hs. done. }
  unfold observed_ready. destruct a as [s|e].
  - rewrite (get_ok _ _ _ _ _ E). by apply Hc.
  - destruct (IsNotFound e) eqn:Hnf; [|done]. rewrite (get_notfound _ _ _ _ _ E Hnf).
    apply (Hc 0). done.
Qed.

(** ** Sequencing *)

Lemma run_steps_cons name fn l w w' :
  run_steps (W:=W) ((name, fn) :: l) w = (None, w') ->
  exists w1, fn w = (None, w1) /\ run_steps l w1 = (None, w').
Proof. cbn [run_steps]. intros Hw. mstep Hw. destruct a; [done|]. eauto. Qed.

Lemma run_steps_frames S l : Forall (fun st => frames S st.2) l -> frames S (run_steps (W:=W) l).
Proof.
  induction 1 as [|[name fn] l Hf _ IH]; cbn [run_steps]; [apply frames_ret|].
  apply frames_bind; [done|]. intros []; [apply frames_ret|done].
Qed.

(** Steps that write objects of one kind only. *)
Definition writes_kind {A} (k : Kind) (m : M W A) : Prop := frames (fun k' _ => k' = k) m.

Lemma writes_kind_only {A} k n (m : M W A) : frames (only k n) m -> writes_kind k m.
Proof. intros Hm. eapply frames_weaken; [exact Hm|]. by intros k' n' [-> _]. Qed.

Lemma reconcileServices_kind c : writes_kind KService (reconcileServices (W:=W) c).
Proof. by apply reconcile_service_loop_frames. Qed.

(** No step of [l] writes objects of kind [k]. *)
Definition avoids (k : Kind) (l : list (string * M W (option error))) : Prop :=
  Forall (fun st => exists k', k' <> k /\ writes_kind k' st.2) l.

Lemma avoids_stored k l w r w' n :
  avoids k l -> run_steps l w = (r, w') -> stored w' k n = stored w k n.
Proof.
  intros Ha Hw. eapply (run_steps_frames (fun k' _ => k' <> k)); [|exact Hw|by intros Hn; apply Hn].
  eapply Forall_impl; [exact Ha|]. intros [name fn] (k' & Hne & Hf).
  eapply frames_weaken; [exact Hf|]. by intros k'' n' ->.
Qed.

(** The kinds written by the steps, in their order. *)
Lemma steps_kinds c :
  Forall2 (fun st k => writes_kind k st.2) (steps (W:=W) hasRecorder c)
    [KServiceAccount; KSecret; KConfigMap; KStatefulSet; KService; KPDB; KCluster].
Proof.
  unfold steps. repeat apply Forall2_cons_2; try apply Forall2_nil_2; cbn [snd];
    try apply reconcileServices_kind; eapply writes_kind_only.
  - apply reconcileServiceAccount_frames.
  - apply reconcileCredentials_frames.
  - apply reconcileConfigMap_frames.
  - apply reconcileStatefulSet_frames.
  - apply reconcilePDB_frames.
  - apply updateStatus_frames.
Qed.

Lemma avoids_kinds k l ks :
  Forall2 (fun st k => writes_kind k st.2) l ks -> k ∉ ks -> avoids k l.
Proof.
  induction 1 as [|st k' l ks Hst _ IH]; intros Hk; [constructor|].
  rewrite not_elem_of_cons in Hk. destruct Hk as [Hne Hk]. constructor; [|by apply IH]. eauto.
Qed.

(** Run the first step of a successful sequence; its objects are final when the
    remaining steps avoid their kind. *)
Lemma run_steps_split name fn l k ks w w' :
  Forall2 (fun st k => writes_kind k st.2) ((name, fn) :: l) (k :: ks) -> k ∉ ks ->
  run_steps ((name, fn) :: l) w = (None, w') ->
  exists w1, fn w = (None, w1) /\ run_steps l w1 = (None, w') /\
    Forall2 (fun st k => writes_kind k st.2) l ks /\
    forall n, stored w' k n = stored w1 k n.
Proof.
  intros HF Hk Hw. apply run_steps_cons in Hw as (w1 & H1 & Hw).
  inversion HF as [|? ? ? ? _ HF']; subst. exists w1. split_and!; [done..|].
  intros n. eapply avoids_stored; [|exact Hw]. by eapply avoids_kinds.
Qed.

(** What the server may store of the desired StatefulSet, created or merged into an
    existing one, has the desired replicas and, up to server defaults, the desired pods. *)
Lemma statefulset_in_place c x :
  statefulset_defaulted (sts_Spec (BuildStatefulSet c)) x \/
  (exists e, statefulset_defaulted (sts_Spec (merge_statefulset c e)) x) ->
  ss_Replicas x = Some (pcs_Instances (pc_Spec c)) /\
  template_defaulted (ss_Template (sts_Spec (BuildStatefulSet c))) (ss_Template x).
Proof.
  intros [Hd|[e Hd]]; destruct Hd as (Hr & _ & _ & _ & _ & Ht & _);
    (split; [by apply defaulted_set in Hr|exact Ht]).
Qed.

(** All objects of a cluster are in place, up to server defaults, and its status reports
    them. *)
Definition converged (c : PostgresCluster) (w : W) : Prop :=
  let at_ := fun n => nn n (cluster_Namespace c) in
  (pcs_ServiceAccountName (pc_Spec c) = "" ->
     is_Some (stored w KServiceAccount (at_ (cluster_Name c +:+ "-sa")))) /\
  is_Some (stored w KSecret (at_ (SecretName c))) /\
  (exists cm, stored w KConfigMap (at_ (ConfigMapName c)) = Some cm /\ cm_Data cm = cm_Data (BuildConfigMap c)) /\
  (exists sts, stored w KStatefulSet (at_ (cluster_Name c)) = Some sts /\
     ss_Replicas (sts_Spec sts) = Some (pcs_Instances (pc_Spec c)) /\
     template_defaulted (ss_Template (sts_Spec (BuildStatefulSet c))) (ss_Template (sts_Spec sts))) /\
  Forall (service_in_place w) (services c) /\
  (exists p, stored w KPDB (at_ (cluster_Name c +:+ "-pdb")) = Some p /\ pdb_Spec p = pdb_Spec (desired_pdb c)) /\
  (exists c', stored w KCluster (key_of (pc_Meta c)) = Some c' /\ status_reports (observed_ready w c) c c').

Lemma reconcileSubresources_spec c w w' :
  reconcileSubresources (W:=W) hasRecorder c w = (None, w') -> converged c w'.
Proof.
  unfold reconcileSubresources, steps. intros Hw. pose proof (steps_kinds c) as HF. unfold steps in HF.
  apply (run_steps_split _ _ _ _ _ _ _ HF) in Hw as (w1 & H1 & Hw & HF1 & P1); [|by apply (bool_decide_unpack _)].
  apply (run_steps_split _ _ _ _ _ _ _ HF1) in Hw as (w2 & H2 & Hw & HF2 & P2); [|by apply (bool_decide_unpack _)].
  apply (run_steps_split _ _ _ _ _ _ _ HF2) in Hw as (w3 & H3 & Hw & HF3 & P3); [|by apply (bool_decide_unpack _)].
  apply (run_steps_split _ _ _ _ _ _ _ HF3) in Hw as (w4 & H4 & Hw & HF4 & P4); [|by apply (bool_decide_unpack _)].
  apply (run_steps_split _ _ _ _ _ _ _ HF4) in Hw as (w5 & H5 & Hw & HF5 & P5); [|by apply (bool_decide_unpack _)].
  apply (run_steps_split _ _ _ _ _ _ _ HF5) in Hw as (w6 & H6 & Hw & HF6 & P6); [|by apply (bool_decide_unpack _)].
  assert (Psts : forall n, stored w' KStatefulSet n = stored w6 KStatefulSet n).
  { intros n. eapply avoids_stored; [|exact Hw]. eapply avoids_kinds; [exact HF6|by apply (bool_decide_unpack _)]. }
  apply run_steps_cons in Hw as (w7 & H7 & Hw). injection Hw as <-.
  unfold converged. split_and!.
  - rewrite P1. by eapply reconcileServiceAccount_spec.
  - rewrite P2. by eapply reconcileCredentials_spec.
  - rewrite P3. by eapply reconcileConfigMap_spec.
  - rewrite P4. destruct (reconcileStatefulSet_spec _ _ _ H4) as (o & Ho & Hs). exists o.
    split; [done|]. apply statefulset_in_place. destruct Hs as [[_ ?]|(e & _ & ? & _)]; eauto.
  - pose proof (reconcile_service_loop_spec c _ _ _ (services_NoDup c) H5) as Hsv.
    eapply Forall_impl; [exact Hsv|]. intros d. unfold service_in_place. by rewrite P5.
  - rewrite P6. by eapply reconcilePDB_spec.
  - unfold observed_ready. rewrite Psts. by apply updateStatus_spec.
Qed.

(** ** Reconcile *)

(** Everything derived from a cluster depends on its name, namespace and spec only. *)
Lemma converged_ext c c' w :
  key_of (pc_Meta c') = key_of (pc_Meta c) -> pc_Spec c' = pc_Spec c -> converged c' w -> converged c w.
Proof.
  destruct c as [[] s st], c' as [[] s' st']. unfold key_of. cbn. intros [= -> ->] ->. exact (fun x => x).
Qed.

Lemma bootstrap_key c w c' w' :
  bootstrap (W:=W) c w = (Ok c', w') -> key_of (pc_Meta c') = key_of (pc_Meta c).
Proof.
  unfold bootstrap. case_bool_decide; intros Hw; [|by injection Hw as <- <-]. mstep Hw.
  apply (status_ok KCluster) in Hw as (o0 & Hs & _ & _ & _ & (Hk & _) & _). cbn in Hk. rewrite Hk.
  apply stored_key in Hs. exact Hs.
Qed.

Lemma bootstrap_spec c w c' w' :
  stored w KCluster (key_of (pc_Meta c)) = Some c -> bootstrap (W:=W) c w = (Ok c', w') ->
  pc_Spec c' = pc_Spec c.
Proof.
  unfold bootstrap. intros Hs. case_bool_decide; intros Hw; [|by injection Hw as <- <-]. mstep Hw.
  apply (status_ok KCluster) in Hw as (o0 & Hs' & _ & Hspec & _). unfold key in Hs'. cbn in Hs', Hspec.
  rewrite (now_frame _ _ _ E) in Hs'. rewrite Hspec. congruence.
Qed.

Lemma bootstrap_frames c : frames (only KCluster (key_of (pc_Meta c))) (bootstrap (W:=W) c).
Proof.
  unfold bootstrap. case_bool_decide; [|apply frames_ret].
  apply frames_bind; [apply frames_Now|]. intros t. by apply (frames_StatusUpdate _ KCluster).
Qed.

(** The objects a request may touch: the cluster itself and the objects named after it. *)
Definition owned (req : NamespacedName) (k : Kind) (n : NamespacedName) : Prop :=
  let at_ := fun suffix => nn (nn_Name req +:+ suffix) (nn_Namespace req) in
  match k with
  | KCluster => n = req
  | KServiceAccount => n = at_ "-sa"
  | KSecret => n = at_ "-credentials"
  | KConfigMap => n = at_ "-config"
  | KStatefulSet => n = req
  | KService => n = at_ "-pods" \/ n = at_ "-primary" \/ n = at_ "-replicas"
  | KPDB => n = at_ "-pdb"
  | _ => False
  end.

Lemma steps_owned c : Forall (fun st => frames (owned (key_of (pc_Meta c))) st.2) (steps (W:=W) hasRecorder c).
Proof.
  unfold steps. repeat (apply Forall_cons; split); try apply Forall_nil_2; cbn [snd].
  - eapply frames_weaken; [apply reconcileServiceAccount_frames|]. by intros k n [-> ->].
  - eapply frames_weaken; [apply reconcileCredentials_frames|]. by intros k n [-> ->].
  - eapply frames_weaken; [apply reconcileConfigMap_frames|]. by intros k n [-> ->].
  - eapply frames_weaken; [apply reconcileStatefulSet_frames|]. by intros k n [-> ->].
  - apply reconcile_service_loop_frames. unfold services. intros svc.
    rewrite !elem_of_cons. intros [->|[->|[->|H']]]; cbn; auto. by apply elem_of_nil in H'.
  - eapply frames_weaken; [apply reconcilePDB_frames|]. by intros k n [-> ->].
  - eapply frames_weaken; [apply updateStatus_frames|]. by intros k n [-> ->].
Qed.

Lemma reconcilePaused_frames c : frames (only KCluster (key_of (pc_Meta c))) (reconcilePaused (W:=W) hasRecorder c).
Proof.
  unfold reconcilePaused. case_bool_decide; [apply frames_ret|].
  apply frames_bind; [apply frames_Now|]. intros t. apply frames_bind; [by apply frames_StatusUpdate|].
  intros []; [|apply frames_ret]. apply frames_bind; [apply frames_recordEventf|]. intros. apply frames_ret.
Qed.

(** The part of [Reconcile] after the fetch. *)
Definition reconcile_fetched (c : PostgresCluster) : M W (Result * option error) :=
  if pcs_Paused (pc_Spec c) then reconcilePaused hasRecorder c
  else if negb (rt_ContainsFinalizer PostgresClusterFinalizer (om_Finalizers (pc_Meta c))) then
    let! u := rt_Update KCluster
      (with_finalizers (rt_AddFinalizer PostgresClusterFinalizer (om_Finalizers (pc_Meta c))) c) in
    match u with Err e => ret (done_result, Some e) | Ok _ => ret (requeue, None) end
  else if bool_decide (is_Some (om_DeletionTimestamp (pc_Meta c))) then reconcileDelete c
  else
    let! b := bootstrap c in
    match b with
    | Err e => ret (done_result, Some e)
    | Ok c' =>
        let! e := reconcileSubresources hasRecorder c' in
        match e with Some e => ret (done_result, Some e) | None => ret (requeue_after 30, None) end
    end.

Lemma Reconcile_fetched req w : Reconcile (W:=W) hasRecorder req w =
  (let! r := rt_Get KCluster req in
   match r with
   | Err e => if IsNotFound e then ret (done_result, None) else ret (done_result, Some e)
   | Ok c => reconcile_fetched c
   end) w.
Proof. done. Qed.

Lemma reconcile_fetched_frames c : frames (owned (key_of (pc_Meta c))) (reconcile_fetched c).
Proof.
  assert (Hown : forall k n, only KCluster (key_of (pc_Meta c)) k n -> owned (key_of (pc_Meta c)) k n)
    by by intros k n [-> ->].
  unfold reconcile_fetched. case_match.
  { eapply frames_weaken; [apply reconcilePaused_frames|exact Hown]. }
  case_match.
  { apply frames_bind; [by apply frames_Update|]. intros []; apply frames_ret. }
  case_match.
  { apply frames_bind; [|intros; apply frames_ret]. by apply frames_err_of, frames_Update. }
  intros w r w' Hw k n HS. mstep Hw.
  assert (stored w0 k n = stored w k n) as <-
    by (eapply bootstrap_frames; [exact E|]; intros Hn; by apply HS, Hown).
  destruct a as [c'|e]; [|by injection Hw as <- <-]. apply bootstrap_key in E.
  mstep Hw. assert (stored w1 k n = stored w0 k n) as <-.
  { eapply (run_steps_frames _ _ (steps_owned c')); [exact E0|]. by rewrite E. }
  by destruct a; injection Hw as <- <-.
Qed.

Lemma Reconcile_frames req : frames (owned req) (Reconcile (W:=W) hasRecorder req).
Proof.
  intros w r w' Hw. rewrite Reconcile_fetched in Hw. revert Hw.
  apply (frames_bind_Get (owned req) KCluster req). intros [c|e] Hk.
  - specialize (Hk c eq_refl). rewrite <- Hk. apply reconcile_fetched_frames.
  - case_match; apply frames_ret.
Qed.

(** Reading the stored cluster. *)
Lemma Reconcile_inv req c w r w' :
  stored w KCluster req = Some c -> Reconcile (W:=W) hasRecorder req w = (r, w') ->
  (exists e, r = (done_result, Some e) /\ forall k n, stored w' k n = stored w k n) \/
  (exists w1, reconcile_fetched c w1 = (r, w') /\ forall k n, stored w1 k n = stored w k n).
Proof.
  intros Hs Hw. rewrite Reconcile_fetched in Hw. mstep Hw. destruct a as [c'|e].
  - right. apply get_ok in E as Hg. assert (c' = c) as -> by congruence.
    exists w0. split; [done|]. by eapply get_frame.
  - left. destruct (IsNotFound e) eqn:Hnf; [rewrite (get_notfound _ _ _ _ _ E Hnf) in Hs; done|].
    injection Hw as <- <-. exists e. split; [done|]. by eapply get_frame.
Qed.

(** The cluster is subject to normal reconciliation. *)
Definition active (c : PostgresCluster) : Prop :=
  pcs_Paused (pc_Spec c) = false /\ PostgresClusterFinalizer ∈ om_Finalizers (pc_Meta c) /\
  om_DeletionTimestamp (pc_Meta c) = None.

Lemma reconcile_fetched_active c w : active c -> reconcile_fetched c w =
  (let! b := bootstrap c in
    match b with
    | Err e => ret (done_result, Some e)
    | Ok c' =>
        let! e := reconcileSubresources hasRecorder c' in
        match e with Some e => ret (done_result, Some e) | None => ret (requeue_after 30, None) end
    end) w.
Proof.
  intros (Hp & Hf & Hd). unfold reconcile_fetched. rewrite Hp, Hd, (proj2 (contains_finalizer _ _) Hf). done.
Qed.

Lemma Reconcile_active req c w res w' :
  stored w KCluster req = Some c -> active c ->
  Reconcile (W:=W) hasRecorder req w = ((res, None), w') ->
  res = requeue_after 30 /\ converged c w'.
Proof.
  intros Hs Ha Hw. destruct (Reconcile_inv _ _ _ _ _ Hs Hw) as [(e & [=] & _)|(w1 & Hf & Heq)].
  rewrite reconcile_fetched_active in Hf by done. mstep Hf. destruct a as [c'|]; [|done].
  mstep Hf. destruct a; [done|]. injection Hf as <- <-. split; [done|].
  apply reconcileSubresources_spec in E0. eapply converged_ext; [..|exact E0].
  - by eapply bootstrap_key.
  - eapply bootstrap_spec; [|exact E]. rewrite Heq. by rewrite <- (stored_key _ _ _ _ Hs) in Hs.
Qed.

(** No step but [reconcileCredentials] writes a Secret, and it never writes an
    existing one. *)
Lemma run_steps_keeps_secret l n s w r w' :
  Forall (fun st => forall w r w', st.2 w = (r, w') -> stored w KSecret n = Some s -> stored w' KSecret n = Some s) l ->
  run_steps (W:=W) l w = (r, w') -> stored w KSecret n = Some s -> stored w' KSecret n = Some s.
Proof.
  intros Hl. revert w. induction Hl as [|[name fn] l Hf _ IH]; intros w Hw Hs; cbn [run_steps] in Hw.
  - by injection Hw as <- <-.
  - mstep Hw. apply (Hf _ _ _ E) in Hs. destruct a; [by injection Hw as <- <-|]. by eapply IH.
Qed.

Lemma steps_keep_secret c n s :
  Forall (fun st => forall w r w', st.2 w = (r, w') -> stored w KSecret n = Some s -> stored w' KSecret n = Some s)
    (steps (W:=W) hasRecorder c).
Proof.
  pose proof (steps_kinds c) as HF. unfold steps in *.
  assert (Hgen : forall k (m : M W (option error)), k <> KSecret -> writes_kind k m -> forall w r w', m w = (r, w') ->
     stored w KSecret n = Some s -> stored w' KSecret n = Some s).
  { intros k m Hk Hm w r w' Hw Hs. rewrite (Hm w r w' Hw); [done|]. congruence. }
  apply Forall2_cons_1 in HF as [F1 HF]. apply Forall2_cons_1 in HF as [_ HF].
  apply Forall_cons. split; [by eapply Hgen; [|exact F1]|].
  apply Forall_cons. split; [intros w r w'; apply reconcileCredentials_keeps|].
  repeat (apply Forall2_cons_1 in HF as [? HF]; apply Forall_cons; split; [by eapply Hgen; [|eassumption]|]).
  apply Forall_nil_2.
Qed.

(** A successful pass keeps the immutable part of an existing StatefulSet. *)
Lemma reconcileSubresources_sts c e w w' :
  stored w KStatefulSet (nn (cluster_Name c) (cluster_Namespace c)) = Some e ->
  reconcileSubresources (W:=W) hasRecorder c w = (None, w') ->
  exists o, stored w' KStatefulSet (nn (cluster_Name c) (cluster_Namespace c)) = Some o /\
    statefulset_defaulted (sts_Spec (merge_statefulset c e)) (sts_Spec o) /\ sts_ReadyReplicas o = sts_ReadyReplicas e.
Proof.
  unfold reconcileSubresources, steps. intros He Hw. pose proof (steps_kinds c) as HF. unfold steps in HF.
  do 3 (apply Forall2_cons_1 in HF as [? HF]; apply run_steps_cons in Hw as (? & ? & Hw)).
  apply (run_steps_split _ _ _ _ _ _ _ HF) in Hw as (w4 & Hsts & _ & _ & P4); [|by apply (bool_decide_unpack _)].
  rewrite P4. destruct (reconcileStatefulSet_spec _ _ _ Hsts) as (o & Ho & Hs). exists o. split; [done|].
  assert (stored x1 KStatefulSet (nn (cluster_Name c) (cluster_Namespace c)) = Some e) as Hx.
  { repeat match goal with
    | Hk : writes_kind ?k _, Hf : _ ?w = (None, ?w') |- stored ?w' _ _ = _ =>
        rewrite (Hk _ _ _ Hf) by done; clear Hk
    end. done. }
  rewrite Hx in Hs. destruct Hs as [[[=] _]|(e' & [= <-] & Hspec & Hr)]. done.
Qed.

Lemma reconcilePaused_keeps c w r w' :
  stored w KCluster (key_of (pc_Meta c)) = Some c ->
  reconcilePaused (W:=W) hasRecorder c w = (r, w') ->
  exists c', stored w' KCluster (key_of (pc_Meta c)) = Some c' /\ kept KCluster c c' /\
    (r.2 = None -> pst_Phase (pc_Status c') = PhasePaused).
Proof.
  unfold reconcilePaused. intros Hs. case_bool_decide as Hph; intros Hw.
  { injection Hw as <- <-. exists c. by split_and!; [|apply kept_refl|]. }
  mstep Hw. mstep Hw. rewrite <- (now_frame _ _ _ E) in Hs.
  destruct (status_keeps KCluster _ _ _ _ _ E0 Hs) as (c' & Hs' & Hspec & Hm & Hdel & _).
  exists c'. unfold key in Hs'. cbn in Hs'. destruct a0 as [o|]; [|by injection Hw as <- <-].
  destruct (status_ok KCluster _ _ _ _ E0) as (_ & _ & Ho & _ & Hst & _). unfold key in Ho. cbn in Ho, Hst.
  rewrite Hs' in Ho. injection Ho as <-. mstep Hw. injection Hw as <- <-.
  rewrite (frames_recordEventf none _ _ _ _ E1 _ _ (fun x => x)). split_and!; [done..|]. by rewrite Hst.
Qed.

End Lemmas.

(** No outcome modifies or deletes an existing Secret. *)
Lemma Reconcile_secrets (W : Type) (R : Runtime W) (L : RuntimeLaws W) (hasRecorder : bool)
  (req n : NamespacedName) (w w' : W) (r : Result * option error) (s : Secret) :
  Reconcile hasRecorder req w = (r, w') -> stored w KSecret n = Some s -> stored w' KSecret n = Some s.
Proof.
  intros Hw Hs. rewrite Reconcile_fetched in Hw. mstep Hw. rewrite <- (get_frame _ _ _ _ _ E) in Hs.
  destruct a as [c|e]; [|by case_match; injection Hw as <- <-].
  assert (Hother : forall A (m : M W A) w1 x w2, frames (fun k _ => k = KCluster) m -> m w1 = (x, w2) ->
     stored w1 KSecret n = Some s -> stored w2 KSecret n = Some s).
  { intros A m w1 x w2 Hm Hx Hs1. by rewrite (Hm _ _ _ Hx). }
  revert Hw. unfold reconcile_fetched. case_match; [|case_match; [|case_match]]; intros Hw.
  - eapply Hother; [|exact Hw|done]. eapply frames_weaken; [apply reconcilePaused_frames|]. by intros ? ? [-> _].
  - eapply Hother; [|exact Hw|done]. apply frames_bind; [by apply frames_Update|]. intros []; apply frames_ret.
  - eapply Hother; [|exact Hw|done].
    apply frames_bind; [by apply frames_err_of, frames_Update|]. intros; apply frames_ret.
  - mstep Hw. assert (stored w1 KSecret n = Some s) as Hs1.
    { eapply Hother; [|exact E0|done]. eapply frames_weaken; [apply bootstrap_frames|]. by intros ? ? [-> _]. }
    destruct a; [|by injection Hw as <- <-]. mstep Hw.
    apply (run_steps_keeps_secret _ _ _ _ _ _ (steps_keep_secret hasRecorder a n s) E1) in Hs1.
    by destruct a0; injection Hw as <- <-.
Qed.

(** ** Properties *)

(** C1: what a successful reconcile establishes.  For every runtime, when [Reconcile]
    returns no error on an active cluster, all sub-resources exist: the ConfigMap has the
    rendered configuration, the StatefulSet the desired replica count and pod template,
    the three Services the desired selectors and ports, the PodDisruptionBudget the
    desired spec; in templates and ports, fields the operator leaves unset may carry the
    API server's documented defaults.  The stored status reports the phase and readiness
    of the StatefulSet, and the next reconcile is scheduled in 30 seconds. *)
Theorem Reconcile_converges (W : Type) (R : Runtime W) (L : RuntimeLaws W) (hasRecorder : bool)
  (req : NamespacedName) (c : PostgresCluster) (w w' : W) (res : Result) :
  stored w KCluster req = Some c -> active c ->
  Reconcile hasRecorder req w = ((res, None), w') ->
  res = requeue_after 30 /\ converged c w'.
Proof. apply Reconcile_active. Qed.

Definition sample_active : PostgresCluster := with_finalizers [PostgresClusterFinalizer] sample_cluster.
Definition sample_req : NamespacedName := nn "db" "prod".
Definition sample_world : World := put_obj KCluster sample_active (Password.seeded (repeat 7 32)).

Lemma Reconcile_converges_witness :
  requeue_after 30 = requeue_after 30 /\
  converged sample_active (Reconcile true sample_req sample_world).2.
Proof.
  apply (Reconcile_converges World _ _ true sample_req sample_active sample_world).
  - vm_compute. reflexivity.
  - split; [reflexivity|split; [|reflexivity]]. apply (bool_decide_unpack _). vm_compute. exact I.
  - apply pair_fst. vm_compute. reflexivity.
Defined.

(** C3: isolation.  Whatever happens, on success and on every error path, [Reconcile]
    changes no object other than the requested cluster and the eight objects named after
    it; in particular it never touches another cluster. *)
Theorem Reconcile_touches_owned (W : Type) (R : Runtime W) (L : RuntimeLaws W) (hasRecorder : bool)
  (req : NamespacedName) (w w' : W) (r : Result * option error) (k : Kind) (n : NamespacedName) :
  Reconcile hasRecorder req w = (r, w') -> ~ owned req k n -> stored w' k n = stored w k n.
Proof. intros Hw. by apply (Reconcile_frames hasRecorder req w r w' Hw). Qed.

Lemma Reconcile_touches_owned_witness :
  stored (Reconcile true sample_req sample_world).2 KService (nn "other-primary" "prod") =
  stored sample_world KService (nn "other-primary" "prod").
Proof.
  apply (Reconcile_touches_owned World _ _ true sample_req sample_world _ (Reconcile true sample_req sample_world).1).
  - apply surjective_pairing.
  - cbn. intros [?|[?|?]]; discriminate.
Defined.

(** C4: credentials are never overwritten.  No outcome of [Reconcile] modifies or
    deletes an existing Secret, so a rotated password survives every reconcile. *)
Theorem Reconcile_keeps_secrets (W : Type) (R : Runtime W) (L : RuntimeLaws W) (hasRecorder : bool)
  (req n : NamespacedName) (w w' : W) (r : Result * option error) (s : Secret) :
  Reconcile hasRecorder req w = (r, w') -> stored w KSecret n = Some s -> stored w' KSecret n = Some s.
Proof. apply Reconcile_secrets. Qed.

Definition rotated_secret : Secret :=
  {| sec_Meta := mkMeta "db-credentials" "prod" ∅; sec_Type := "Opaque";
     sec_Data := {["password" := "rotated"]}; sec_StringData := ∅ |}.

Lemma Reconcile_keeps_secrets_witness :
  stored (Reconcile true sample_req (put_obj KSecret rotated_secret sample_world)).2
    KSecret (nn "db-credentials" "prod") = Some rotated_secret.
Proof.
  apply (Reconcile_keeps_secrets World _ _ true sample_req _ (put_obj KSecret rotated_secret sample_world) _
           (Reconcile true sample_req (put_obj KSecret rotated_secret sample_world)).1).
  - apply surjective_pairing.
  - vm_compute. reflexivity.
Defined.

(** C30: a paused cluster is frozen, deletion included.  While [spec.paused] is set, every
    outcome of [Reconcile] leaves all other objects as they are and of the cluster keeps
    the spec, the labels, the annotations, the finalizers, the owner references and the
    deletion timestamp, so a paused cluster whose deletion was requested is not released
    until it is resumed; a reconcile without error leaves the phase Paused. *)
Theorem paused_cluster_frozen (W : Type) (R : Runtime W) (L : RuntimeLaws W) (hasRecorder : bool)
  (req : NamespacedName) (c : PostgresCluster) (w w' : W) (r : Result * option error) :
  stored w KCluster req = Some c -> pcs_Paused (pc_Spec c) = true ->
  Reconcile hasRecorder req w = (r, w') ->
  (forall k n, ~ (k = KCluster /\ n = req) -> stored w' k n = stored w k n) /\
  exists c', stored w' KCluster req = Some c' /\
    pc_Spec c' = pc_Spec c /\ same_meta (pc_Meta c) (pc_Meta c') /\
    om_DeletionTimestamp (pc_Meta c') = om_DeletionTimestamp (pc_Meta c) /\
    (r.2 = None -> pst_Phase (pc_Status c') = PhasePaused).
Proof.
  intros Hs Hp Hw. pose proof (stored_key _ _ _ _ Hs) as Hk. unfold key in Hk. cbn in Hk.
  destruct (Reconcile_inv _ _ _ _ _ _ Hs Hw) as [(e & He & Heq)|(w1 & Hf & Heq)].
  - split; [intros k n _; apply Heq|]. exists c. rewrite Heq, He. by split_and!.
  - unfold reconcile_fetched in Hf. rewrite Hp in Hf. rewrite <- Heq, <- Hk in Hs. split.
    + intros k n Hn. rewrite <- Heq. eapply reconcilePaused_frames; [exact Hf|]. by rewrite Hk.
    + rewrite <- Hk. destruct (reconcilePaused_keeps _ _ _ _ _ Hs Hf) as (c' & ? & (? & ? & ?) & ?). by exists c'.
Qed.

(** A cluster that is paused and under deletion. *)
Definition sample_paused : PostgresCluster :=
  {| pc_Meta :=
       {| om_Name := "db"; om_Namespace := "prod"; om_UID := ""; om_Labels := ∅; om_Annotations := ∅;
          om_Finalizers := [PostgresClusterFinalizer]; om_OwnerReferences := [];
          om_DeletionTimestamp := Some 1; om_Generation := 1; om_ResourceVersion := 1 |};
     pc_Spec :=
       {| pcs_PostgresVersion := 16; pcs_Instances := 3; pcs_Storage := pcs_Storage sample_spec;
          pcs_Resources := no_resources; pcs_PostgresParameters := ∅; pcs_PostgresHBA := [];
          pcs_Backup := None; pcs_TLS := None; pcs_Monitoring := None; pcs_TopologySpreadConstraints := [];
          pcs_Affinity := None; pcs_Tolerations := []; pcs_ImagePullSecrets := [];
          pcs_ServiceAccountName := ""; pcs_PriorityClassName := ""; pcs_Paused := true |};
     pc_Status := empty_status |}.

Lemma paused_cluster_frozen_witness :
  exists c', stored (Reconcile true sample_req (put_obj KCluster sample_paused sample_world)).2
               KCluster sample_req = Some c' /\
    pc_Spec c' = pc_Spec sample_paused /\ same_meta (pc_Meta sample_paused) (pc_Meta c') /\
    om_DeletionTimestamp (pc_Meta c') = om_DeletionTimestamp (pc_Meta sample_paused) /\
    ((Reconcile true sample_req (put_obj KCluster sample_paused sample_world)).1.2 = None ->
     pst_Phase (pc_Status c') = PhasePaused).
Proof.
  apply (paused_cluster_frozen World _ _ true sample_req sample_paused
           (put_obj KCluster sample_paused sample_world) _
           (Reconcile true sample_req (put_obj KCluster sample_paused sample_world)).1).
  - vm_compute. reflexivity.
  - reflexivity.
  - apply surjective_pairing.
Defined.

(** C29: deletion releases the cluster.  When a cluster under deletion carries only the
    operator's finalizer and is not paused, a successful [Reconcile] removes the object,
    touches nothing else (dependents are left to garbage collection) and does not
    requeue. *)
Theorem deletion_releases (W : Type) (R : Runtime W) (L : RuntimeLaws W) (hasRecorder : bool)
  (req : NamespacedName) (c : PostgresCluster) (w w' : W) (res : Result) :
  stored w KCluster req = Some c -> pcs_Paused (pc_Spec c) = false ->
  is_Some (om_DeletionTimestamp (pc_Meta c)) -> om_Finalizers (pc_Meta c) = [PostgresClusterFinalizer] ->
  Reconcile hasRecorder req w = ((res, None), w') ->
  res = done_result /\ stored w' KCluster req = None /\
  forall k n, ~ (k = KCluster /\ n = req) -> stored w' k n = stored w k n.
Proof.
  intros Hs Hp Hd Hfin Hw. pose proof (stored_key _ _ _ _ Hs) as Hk. unfold key in Hk. cbn in Hk.
  destruct (Reconcile_inv _ _ _ _ _ _ Hs Hw) as [(e & [=] & _)|(w1 & Hf & Heq)].
  unfold reconcile_fetched in Hf. rewrite Hp, Hfin, bool_decide_eq_true_2 in Hf by done.
  rewrite (proj2 (contains_finalizer _ _)) in Hf by by apply list_elem_of_singleton.
  cbn [negb] in Hf. unfold reconcileDelete in Hf. mstep Hf. injection Hf as <- -> ->.
  mstep E. destruct a as [o|]; [|done]. injection E as <-.
  split; [done|]. rewrite <- Hk. split.
  - destruct (update_ok KCluster _ _ _ _ E0) as (o0 & Ho0 & _ & _ & (_ & _ & _ & Hfin' & _) & Hdel & Hpost).
    unfold key in Hpost, Ho0. cbn in Hpost, Ho0.
    cbn in Hfin', Hdel. rewrite Heq in Ho0. change (key_of (meta_with_finalizers _ (pc_Meta c))) with (key_of (pc_Meta c)) in *.
    rewrite Hpost, decide_False; [done|]. intros [Hn|Hn].
    + rewrite Hdel in Hn. rewrite Hk, Hs in Ho0. injection Ho0 as <-. rewrite Hn in Hd. by destruct Hd.
    + apply Hn. rewrite Hfin'.
      destruct (rt_RemoveFinalizer PostgresClusterFinalizer (om_Finalizers (pc_Meta c))) as [|g l] eqn:Eg; [done|].
      exfalso. assert (Hg : g ∈ g :: l) by left. rewrite <- Eg in Hg.
      apply remove_finalizer in Hg as [Hne Hin]. rewrite Hfin in Hin. by apply list_elem_of_singleton in Hin.
  - intros k n Hn. rewrite <- Heq.
    eapply (frames_Update (fun k n => k = KCluster /\ n = key_of (pc_Meta c)) KCluster); [|exact E0|exact Hn].
    done.
Qed.

Definition sample_deleting : PostgresCluster :=
  {| pc_Meta := pc_Meta sample_paused; pc_Spec := sample_spec; pc_Status := empty_status |}.

Lemma deletion_releases_witness :
  done_result = done_result /\
  stored (Reconcile true sample_req (put_obj KCluster sample_deleting sample_world)).2 KCluster sample_req = None /\
  forall k n, ~ (k = KCluster /\ n = sample_req) ->
    stored (Reconcile true sample_req (put_obj KCluster sample_deleting sample_world)).2 k n =
    stored (put_obj KCluster sample_deleting sample_world) k n.
Proof.
  apply (deletion_releases World _ _ true sample_req sample_deleting).
  - vm_compute. reflexivity.
  - reflexivity.
  - exists 1. reflexivity.
  - reflexivity.
  - apply pair_fst. vm_compute. reflexivity.
Defined.

(** Updates respect the immutable fields.  When the StatefulSet already exists, a
    successful [Reconcile] changes only its replica count and pod template: selector,
    governing Service, volume claims, policies and observed readiness are the previous
    ones, whatever the server completes. *)
Theorem statefulset_immutable_fields (W : Type) (R : Runtime W) (L : RuntimeLaws W) (hasRecorder : bool)
  (req : NamespacedName) (c : PostgresCluster) (e : StatefulSet) (w w' : W) (res : Result) :
  stored w KCluster req = Some c -> active c -> stored w KStatefulSet req = Some e ->
  ss_PodManagementPolicy (sts_Spec e) <> "" -> ss_UpdateStrategy (sts_Spec e) <> "" ->
  Reconcile hasRecorder req w = ((res, None), w') ->
  exists o, stored w' KStatefulSet req = Some o /\
    ss_Selector (sts_Spec o) = ss_Selector (sts_Spec e) /\
    ss_ServiceName (sts_Spec o) = ss_ServiceName (sts_Spec e) /\
    ss_VolumeClaimTemplates (sts_Spec o) = ss_VolumeClaimTemplates (sts_Spec e) /\
    ss_PodManagementPolicy (sts_Spec o) = ss_PodManagementPolicy (sts_Spec e) /\
    ss_UpdateStrategy (sts_Spec o) = ss_UpdateStrategy (sts_Spec e) /\
    sts_ReadyReplicas o = sts_ReadyReplicas e.
Proof.
  intros Hs Ha He Hpol Hupd Hw. pose proof (stored_key _ _ _ _ Hs) as Hk. unfold key in Hk. cbn in Hk.
  destruct (Reconcile_inv _ _ _ _ _ _ Hs Hw) as [(x & [=] & _)|(w1 & Hf & Heq)].
  rewrite reconcile_fetched_active in Hf by done. mstep Hf. destruct a as [c'|]; [|done].
  mstep Hf. destruct a; [done|]. injection Hf as <- ->.
  assert (He1 : stored w0 KStatefulSet req = Some e).
  { rewrite <- He, <- Heq. eapply bootstrap_frames; [exact E|]. by intros [? _]. }
  apply bootstrap_key in E. rewrite Hk in E.
  assert (Hreq : nn (cluster_Name c') (cluster_Namespace c') = req) by by rewrite <- E.
  rewrite <- Hreq in He1 |- *.
  destruct (reconcileSubresources_sts _ _ _ _ _ He1 E0) as (o & Ho & Hspec & Hr).
  destruct Hspec as (_ & Hsn & Hpm%defaulted_set & Hus%defaulted_set & Hsel & _ & Hv); [|done..].
  by exists o.
Qed.

Definition old_statefulset : StatefulSet :=
  {| sts_Meta := mkMeta "db" "prod" ∅;
     sts_Spec :=
       {| ss_Replicas := Some 1; ss_ServiceName := "legacy"; ss_PodManagementPolicy := "Parallel";
          ss_UpdateStrategy := "OnDelete"; ss_Selector := {["app" := "legacy"]};
          ss_Template := ss_Template (sts_Spec (BuildStatefulSet sample_cluster));
          ss_VolumeClaimTemplates := [] |};
     sts_ReadyReplicas := 1 |}.

Lemma statefulset_immutable_fields_witness :
  exists o, stored (Reconcile true sample_req (put_obj KStatefulSet old_statefulset sample_world)).2
              KStatefulSet sample_req = Some o /\
    ss_Selector (sts_Spec o) = ss_Selector (sts_Spec old_statefulset) /\
    ss_ServiceName (sts_Spec o) = ss_ServiceName (sts_Spec old_statefulset) /\
    ss_VolumeClaimTemplates (sts_Spec o) = ss_VolumeClaimTemplates (sts_Spec old_statefulset) /\
    ss_PodManagementPolicy (sts_Spec o) = ss_PodManagementPolicy (sts_Spec old_statefulset) /\
    ss_UpdateStrategy (sts_Spec o) = ss_UpdateStrategy (sts_Spec old_statefulset) /\
    sts_ReadyReplicas o = sts_ReadyReplicas old_statefulset.
Proof.
  apply (statefulset_immutable_fields World _ _ true sample_req sample_active old_statefulset
           (put_obj KStatefulSet old_statefulset sample_world) _ (requeue_after 30)).
  - vm_compute. reflexivity.
  - split; [reflexivity|split; [|reflexivity]]. apply (bool_decide_unpack _). vm_compute. exact I.
  - vm_compute. reflexivity.
  - discriminate.
  - discriminate.
  - apply pair_fst. vm_compute. reflexivity.
Defined.

(** An outage leaves the Degraded condition stale.  When no instance is ready the
    classification sets the phase to Creating and Ready to False but does not write the
    Degraded condition: a cluster last seen fully operational keeps reporting
    [Degraded=False] while nothing serves. *)
Theorem outage_keeps_degraded_false (W : Type) (R : Runtime W) (L : RuntimeLaws W)
  (x y : PostgresCluster) (w w' : W) :
  cond_status ConditionDegraded x = Some ConditionFalse -> classify 0 x w = (y, w') ->
  pst_Phase (pc_Status y) = PhaseCreating /\ cond_status ConditionReady y = Some ConditionFalse /\
  cond_status ConditionDegraded y = Some ConditionFalse.
Proof. intros Hx Hw. apply classify_spec in Hw as (Hp & Hr & Hd). cbn in *. by rewrite Hd. Qed.

Definition sample_running : PostgresCluster := (classify 3 sample_active sample_world).1.

Lemma outage_keeps_degraded_false_witness :
  pst_Phase (pc_Status (classify 0 sample_running sample_world).1) = PhaseCreating /\
  cond_status ConditionReady (classify 0 sample_running sample_world).1 = Some ConditionFalse /\
  cond_status ConditionDegraded (classify 0 sample_running sample_world).1 = Some ConditionFalse.
Proof.
  apply (outage_keeps_degraded_false World _ _ sample_running _ sample_world (classify 0 sample_running sample_world).2).
  - vm_compute. reflexivity.
  - apply surjective_pairing.
Defined.

End Cluster.
