(* ===== verification/UserController.v ===== *)
(** * internal/controller/postgresuser_controller.go

    The reconciler of [PostgresUser]: the SQL script it builds, the redaction of what
    [psql] prints, and the reconcile itself.  The script is related to a reference
    lexer of SQL statements, the redaction to the text it must hide. *)

From Stdlib Require Import ZArith Lia List Bool Ascii.
From stdpp Require Import base list strings gmap.
From S2P Require Import Prelude GoStrings SqlEscape K8s Api Runtime FakeRuntime PgConfig PgStatus.

Local Open Scope Z_scope.
Local Open Scope athos_scope.

Module User.
Import SqlEscape Naming Status.

(** ** The SQL script *)

Definition privileges : list string :=
  ["SELECT"; "INSERT"; "UPDATE"; "DELETE"; "TRUNCATE"; "REFERENCES"; "TRIGGER"; "USAGE"; "CREATE";
   "CONNECT"; "TEMPORARY"; "TEMP"; "EXECUTE"; "ALL"; "ALL PRIVILEGES"].

(** [isValidPrivilege]: the switch compares [strings.ToUpper(p)] with ASCII constants;
    the comparison is of rune sequences, to which UTF-8 strings are equivalent. *)
Definition isValidPrivilege (T : UnicodeTables) (p : string) : bool :=
  existsb (fun k => bool_decide (map (fun r => ToUpperRune T r.1) (runes p) =
                                 map byte (String.list_ascii_of_string k))) privileges.

Definition connLimit (u : PostgresUser) : Z :=
  let n := us_ConnectionLimit (pu_Spec u) in if n =? 0 then -1 else n.

(** [ CONNECTION LIMIT n] and the optional password clause, written twice. *)
Definition limit_and_password (u : PostgresUser) (password : string) : string :=
  " CONNECTION LIMIT " +:+ itoa (connLimit u) +:+
  (if (password =? "")%string then "" else " PASSWORD " +:+ StringLiteral password).

(** The body of the [DO] block, between the dollar quotes. *)
Definition do_body (u : PostgresUser) (password : string) : string :=
  " BEGIN IF NOT EXISTS (SELECT FROM pg_roles WHERE rolname = " +:+
  StringLiteral (om_Name (pu_Meta u)) +:+ ") THEN CREATE ROLE " +:+
  Identifier (om_Name (pu_Meta u)) +:+ " WITH LOGIN" +:+
  (if us_Superuser (pu_Spec u) then " SUPERUSER" else "") +:+
  limit_and_password u password +:+ "; END IF; END ".

Definition do_statement (u : PostgresUser) (password : string) : string :=
  "DO $$" +:+ do_body u password +:+ "$$".

Definition alter_statement (u : PostgresUser) (password : string) : string :=
  "ALTER ROLE " +:+ Identifier (om_Name (pu_Meta u)) +:+
  (if us_Superuser (pu_Spec u) then " SUPERUSER" else " NOSUPERUSER") +:+
  limit_and_password u password.

Definition grant_role (u : PostgresUser) (role : string) : string :=
  "GRANT " +:+ Identifier role +:+ " TO " +:+ Identifier (om_Name (pu_Meta u)).

Definition grant_connect (u : PostgresUser) (db : string) : string :=
  "GRANT CONNECT ON DATABASE " +:+ Identifier db +:+ " TO " +:+ Identifier (om_Name (pu_Meta u)).

Definition grant_tables (u : PostgresUser) (priv : string) : string :=
  "GRANT " +:+ priv +:+ " ON ALL TABLES IN SCHEMA public TO " +:+ Identifier (om_Name (pu_Meta u)).

Definition eos : string := ";" +:+ newline.

(** The loop over [spec.roles]. *)
Fixpoint write_roles (T : UnicodeTables) (u : PostgresUser) (roles : list string) : string :=
  match roles with
  | [] => ""
  | r :: l =>
      if negb (IsValidIdentifier T r) then write_roles T u l
      else grant_role u r +:+ eos +:+ write_roles T u l
  end.

Fixpoint write_privileges (T : UnicodeTables) (u : PostgresUser) (privs : list string) : string :=
  match privs with
  | [] => ""
  | p :: l =>
      if negb (isValidPrivilege T p) then write_privileges T u l
      else grant_tables u p +:+ eos +:+ write_privileges T u l
  end.

(** The loop over [spec.databases]. *)
Fixpoint write_databases (T : UnicodeTables) (u : PostgresUser) (dbs : list DatabaseGrant) : string :=
  match dbs with
  | [] => ""
  | d :: l =>
      if negb (IsValidIdentifier T (dg_Name d)) then write_databases T u l
      else grant_connect u (dg_Name d) +:+ eos +:+
           write_privileges T u (dg_Privileges d) +:+ write_databases T u l
  end.

(** [buildUserSQL]. *)
Definition buildUserSQL (T : UnicodeTables) (u : PostgresUser) (password : string) : string :=
  if negb (IsValidIdentifier T (om_Name (pu_Meta u))) then ""
  else if negb (AssertSafePassword password) then ""
  else
    do_statement u password +:+ eos +:+
    alter_statement u password +:+ eos +:+
    write_roles T u (us_Roles (pu_Spec u)) +:+
    write_databases T u (us_Databases (pu_Spec u)).

(** ** Redaction *)

(** [\s] of Go regular expressions. *)
Definition re_space (c : ascii) : bool :=
  let b := byte c in (b =? 9) || (b =? 10) || (b =? 12) || (b =? 13) || (b =? 32).

Fixpoint skip_spaces (s : string) : string :=
  match s with
  | String c s' => if re_space c then skip_spaces s' else s
  | EmptyString => ""
  end.

(** The text after the next single quote. *)
Fixpoint after_quote (s : string) : option string :=
  match s with
  | EmptyString => None
  | String c s' => if Ascii.eqb c squote then Some s' else after_quote s'
  end.

(** A match of [PASSWORD\s+'[^']*'] at the head of [s], giving the text after it. *)
Definition match_password (s : string) : option string :=
  if has_prefix "PASSWORD" s then
    match sdrop 8 s with
    | String c s' =>
        if re_space c then
          match skip_spaces s' with
          | String q s'' => if Ascii.eqb q squote then after_quote s'' else None
          | EmptyString => None
          end
        else None
    | EmptyString => None
    end
  else None.

Definition redacted : string := "PASSWORD '[REDACTED]'".

(** [ReplaceAllString]: leftmost matches, left to right.  The fuel is the length of
    the text, enough because every step consumes a byte. *)
Fixpoint redact_fuel (fuel : nat) (s : string) : string :=
  match fuel with
  | O => ""
  | S fuel' =>
      match s with
      | EmptyString => ""
      | String c s' =>
          match match_password s with
          | Some rest => redacted +:+ redact_fuel fuel' rest
          | None => String c (redact_fuel fuel' s')
          end
      end
  end.

(** [redactPassword]. *)
Definition redactPassword (s : string) : string := redact_fuel (String.length s) s.

(** ** The reconciler *)

Definition set_applied (b : bool) (u : PostgresUser) : PostgresUser :=
  {| pu_Meta := pu_Meta u; pu_Spec := pu_Spec u;
     pu_Status := {| ust_Applied := b; ust_Conditions := ust_Conditions (pu_Status u);
                     ust_ObservedGeneration := ust_ObservedGeneration (pu_Status u) |} |}.

Definition observe_generation (u : PostgresUser) : PostgresUser :=
  {| pu_Meta := pu_Meta u; pu_Spec := pu_Spec u;
     pu_Status := {| ust_Applied := ust_Applied (pu_Status u); ust_Conditions := ust_Conditions (pu_Status u);
                     ust_ObservedGeneration := om_Generation (pu_Meta u) |} |}.

Section Reconciler.
Context {W : Type} `{Runtime W}.
Context (T : UnicodeTables).

(** Whether the reconciler has a REST configuration ([r.RestConfig != nil]). *)
Context (hasRestConfig : bool).

Definition psql (namespace pod container sql : string) : ExecRequest :=
  {| ex_Namespace := namespace; ex_Pod := pod; ex_Container := container;
     ex_Command := ["psql"; "-U"; "postgres"; "-c"; sql] |}.

(** [execSQL]. *)
Definition execSQL (namespace podName containerName sql : string) : M W (option error) :=
  if negb hasRestConfig then ret None
  else
    let! x := rt_Exec (psql namespace podName containerName sql) in
    ret match x with
        | ExecClientError e => Some (ErrWrap "create kubernetes client: " e "")
        | ExecCreateError e => Some (ErrWrap "create exec: " e "")
        | ExecStreamError e stderr =>
            Some (ErrWrap "exec sql: " e (" (stderr: " +:+ redactPassword stderr +:+ ")"))
        | ExecOk => None
        end.

(** The password of the referenced Secret; a missing key is the empty password. *)
Definition resolve_password (u : PostgresUser) : M W (result string) :=
  match us_PasswordSecret (pu_Spec u) with
  | None => ret (Ok "")
  | Some name =>
      let! r := rt_Get KSecret (nn name (om_Namespace (pu_Meta u))) in
      ret match r with
          | Err e => Err (ErrWrap "fetch password secret: " e "")
          | Ok s => Ok (default "" (sec_Data s !! "password"))
          end
  end.

(** The part of [Reconcile] that follows the password: build, execute, report. *)
Definition apply_user (req : NamespacedName) (cluster : PostgresCluster) (u : PostgresUser) (password : string) :
  M W (Result * option error) :=
  let! e := execSQL (om_Namespace (pc_Meta cluster)) (PodName cluster 0) "postgres" (buildUserSQL T u password) in
  let! t := rt_Now in
  match e with
  | Some e =>
      let u1 := SetUserCondition t u "Applied" ConditionFalse "ExecFailed" (Error e) in
      let! _ := rt_StatusUpdate KUser (observe_generation (set_applied false u1)) in
      ret (requeue_after 30, None)
  | None =>
      let u1 := SetUserCondition t u "Applied" ConditionTrue "UserReconciled"
                  ("User " +:+ Quote T (nn_Name req) +:+ " has been reconciled") in
      let! r := err_of (rt_StatusUpdate KUser (observe_generation (set_applied true u1))) in
      ret (requeue_after 60, r)
  end.

(** [Reconcile]. *)
Definition Reconcile (req : NamespacedName) : M W (Result * option error) :=
  let! r := rt_Get KUser req in
  match r with
  | Err e => if IsNotFound e then ret (done_result, None) else ret (done_result, Some e)
  | Ok u =>
      let! rc := rt_Get KCluster (nn (us_ClusterName (pu_Spec u)) (om_Namespace (pu_Meta u))) in
      match rc with
      | Err e =>
          if IsNotFound e then
            let! t := rt_Now in
            let u1 := SetUserCondition t u "ClusterFound" ConditionFalse "ClusterNotFound"
                        ("PostgresCluster " +:+ Quote T (us_ClusterName (pu_Spec u)) +:+ " not found") in
            let! _ := rt_StatusUpdate KUser (observe_generation (set_applied false u1)) in
            ret (requeue_after 30, None)
          else ret (done_result, Some e)
      | Ok cluster =>
          if negb (IsClusterRunning cluster) then
            let! t := rt_Now in
            let u1 := SetUserCondition t u "ClusterReady" ConditionFalse "ClusterNotReady"
                        ("PostgresCluster " +:+ Quote T (cluster_Name cluster) +:+ " is not in Running phase") in
            let! _ := rt_StatusUpdate KUser (set_applied false u1) in
            ret (requeue_after 20, None)
          else
            let! p := resolve_password u in
            match p with
            | Err e => ret (done_result, Some e)
            | Ok password => apply_user req cluster u password
            end
      end
  end.

End Reconciler.

(** ** A reference lexer of SQL scripts *)

(** Where the lexer stands: between tokens, in a string, in a quoted identifier, in a
    dollar-quoted string, in a comment. *)
Inductive mode := Top | Quoted | Ident | Dollar | Comment.

(** Add text at the front of the first statement. *)
Definition prepend (a : string) (l : list string) : list string :=
  match l with
  | [] => [a]
  | h :: t => (a +:+ h) :: t
  end.

Definition dollar : ascii := "$".
Definition dash : ascii := "-".
Definition semicolon : ascii := ";".

(** The texts between the top-level semicolons of a script. *)
Fixpoint lex (m : mode) (s : string) : list string :=
  match s with
  | EmptyString => [""]
  | String c s' =>
      match m with
      | Top =>
          if Ascii.eqb c semicolon then "" :: lex Top s'
          else if Ascii.eqb c squote then prepend (str1 c) (lex Quoted s')
          else if Ascii.eqb c dquote then prepend (str1 c) (lex Ident s')
          else
            match s' with
            | String d s'' =>
                if Ascii.eqb c dollar && Ascii.eqb d dollar then prepend (String c (str1 d)) (lex Dollar s'')
                else if Ascii.eqb c dash && Ascii.eqb d dash then prepend (String c (str1 d)) (lex Comment s'')
                else prepend (str1 c) (lex Top s')
            | EmptyString => prepend (str1 c) (lex Top s')
            end
      | Quoted => prepend (str1 c) (lex (if Ascii.eqb c squote then Top else Quoted) s')
      | Ident => prepend (str1 c) (lex (if Ascii.eqb c dquote then Top else Ident) s')
      | Dollar =>
          match s' with
          | String d s'' =>
              if Ascii.eqb c dollar && Ascii.eqb d dollar then prepend (String c (str1 d)) (lex Top s'')
              else prepend (str1 c) (lex Dollar s')
          | EmptyString => prepend (str1 c) (lex Dollar s')
          end
      | Comment => prepend (str1 c) (lex (if byte c =? 10 then Top else Comment) s')
      end
  end.

(** The non-empty statements of a script, without leading white space. *)
Definition trim_statements (l : list string) : list string :=
  filter (fun s => s <> "") (map skip_spaces l).

Definition sql_statements (s : string) : list string := trim_statements (lex Top s).

(** Text the lexer passes over at the top level, whatever follows. *)
Definition lexes (a : string) : Prop := forall s, lex Top (a +:+ s) = prepend a (lex Top s).

Lemma lex_nonempty m s : lex m s <> [].
Proof.
  destruct s as [|c s]; [done|]. cbn [lex].
  assert (forall a l, prepend a l <> []) as Hp by by intros a [].
  destruct m; repeat case_match; done.
Qed.

Lemma prepend_app a b l : prepend (a +:+ b) l = prepend a (prepend b l).
Proof. destruct l; [done|]. simpl. by rewrite app_assoc_s. Qed.

Lemma prepend_nil l : l <> [] -> prepend "" l = l.
Proof. by destruct l. Qed.

Lemma lexes_nil : lexes "".
Proof. intros s. by rewrite prepend_nil by apply lex_nonempty. Qed.

Lemma lexes_app a b : lexes a -> lexes b -> lexes (a +:+ b).
Proof. intros Ha Hb s. by rewrite app_assoc_s, Ha, Hb, prepend_app. Qed.

(** Bytes that start no token of their own. *)
Definition plain (c : ascii) : bool :=
  neqc semicolon c && neqc squote c && neqc dquote c && neqc dollar c && neqc dash c.

Lemma lexes_plain a : sall plain a = true -> lexes a.
Proof.
  induction a as [|c a IH]; [intros _; apply lexes_nil|]. cbn [sall]. intros H. breflect.
  unfold plain, neqc in *. breflect. intros s.
  change (String c a) with (str1 c +:+ a) at 2. rewrite prepend_app, <- IH by done.
  rewrite app_cons_l. cbn [lex].
  rewrite !(Ascii.eqb_sym c), H, H4, H3, H2, H1. cbn [andb]. destruct (a +:+ s); reflexivity.
Qed.

(** A dash followed by plain text that starts with a digit. *)
Lemma lexes_negative c a : is_digit c = true -> sall plain (String c a) = true -> lexes ("-" +:+ String c a).
Proof.
  intros Hd Hp s. rewrite prepend_app, <- lexes_plain by done.
  change ((if Ascii.eqb c dash then prepend (String dash (str1 c)) (lex Comment (a +:+ s))
           else prepend "-" (lex Top (String c a +:+ s))) = prepend "-" (lex Top (String c a +:+ s))).
  destruct (Ascii.eqb_spec c dash) as [->|]; done.
Qed.

Lemma digit_plain c : is_digit c = true -> plain c = true.
Proof.
  unfold plain. intros Hd. assert (forall d, is_digit d = false -> neqc d c = true) as Hn.
  { intros d Hd'. unfold neqc. apply negb_true_iff, Ascii.eqb_neq. intros ->. congruence. }
  by rewrite !Hn.
Qed.

Lemma lexes_itoa z : lexes (itoa z).
Proof.
  assert (forall n, 0 <= n -> sall plain (digits n) = true) as Hp.
  { intros n Hn. eapply sall_impl; [apply digit_plain|]. by apply digits_all. }
  unfold itoa. destruct (Z.ltb_spec z 0) as [Hz|Hz]; [|by apply lexes_plain, Hp].
  pose proof (digits_all (- z) ltac:(lia)) as Hd. specialize (Hp (- z) ltac:(lia)).
  destruct (digits_cons (- z)) as (c & a & E). rewrite E in *. cbn [sall] in Hd. breflect.
  by apply lexes_negative.
Qed.

Lemma lex_quoted_mode s rest :
  lex Quoted (replace_byte squote (String squote (str1 squote)) s +:+ str1 squote +:+ rest) =
  prepend (replace_byte squote (String squote (str1 squote)) s +:+ str1 squote) (lex Top rest).
Proof.
  induction s as [|c s IH]; [done|]. cbn [replace_byte].
  destruct (Ascii.eqb_spec squote c) as [<-|Hne].
  - rewrite !app_assoc_s, prepend_app, <- IH.
    set (r := replace_byte squote _ s +:+ _). change (String squote (str1 squote)) with (str1 squote +:+ str1 squote).
    by rewrite prepend_app, app_assoc_s.
  - change (String c ?x) with (str1 c +:+ x). rewrite !app_assoc_s, prepend_app, <- IH, str1_app. cbn [lex].
    destruct (Ascii.eqb_spec c squote); [congruence|done].
Qed.

Lemma lexes_literal v : lexes (StringLiteral v).
Proof.
  intros s. unfold StringLiteral. rewrite !app_assoc_s, prepend_app, <- lex_quoted_mode. by rewrite str1_app.
Qed.

Lemma lex_ident_mode s rest :
  sall (neqc dquote) s = true -> lex Ident (s +:+ str1 dquote +:+ rest) = prepend (s +:+ str1 dquote) (lex Top rest).
Proof.
  induction s as [|c s IH]; [done|]. cbn [sall]. intros H. breflect. unfold neqc in H. breflect.
  change (String c s) with (str1 c +:+ s). rewrite !app_assoc_s, prepend_app, <- IH, str1_app by done.
  cbn [lex]. by rewrite Ascii.eqb_sym, H.
Qed.

Lemma lexes_ident T name : IsValidIdentifier T name = true -> lexes (Identifier name).
Proof.
  intros Hv s. rewrite (Identifier_verbatim T) by done.
  rewrite !app_assoc_s, prepend_app, <- lex_ident_mode by eauto with athos. by rewrite str1_app.
Qed.

(** ** Dollar quoting *)

(** Whether two dollar signs occur in a row. *)
Fixpoint has_dd (s : string) : bool :=
  match s with
  | EmptyString => false
  | String c s' => (Ascii.eqb c dollar && starts_with dollar s') || has_dd s'
  end.

Lemma has_dd_app a b :
  has_dd a = false -> has_dd b = false -> starts_with dollar b = false -> has_dd (a +:+ b) = false.
Proof.
  intros Ha Hb Hs. induction a as [|c a IH]; [done|]. rewrite app_cons_l. cbn [has_dd] in *. breflect.
  rewrite IH, orb_false_r by done. apply andb_false_iff in H as [->|H]; [done|].
  destruct a as [|d a]; [|rewrite app_cons_l; by apply andb_false_iff; right].
  rewrite app_nil_l_s, Hs. apply andb_false_r.
Qed.

Lemma starts_with_app d a b :
  starts_with d a = false -> starts_with d b = false -> starts_with d (a +:+ b) = false.
Proof. by destruct a. Qed.

Lemma starts_with_ident name : starts_with dollar (Identifier name) = false.
Proof. unfold Identifier. by case_match. Qed.

Lemma starts_with_ident_app name s : starts_with dollar (Identifier name +:+ s) = false.
Proof. unfold Identifier. by case_match. Qed.

Lemma has_dd_none s : sall (neqc dollar) s = true -> has_dd s = false.
Proof.
  induction s as [|c s IH]; [done|]. cbn [sall has_dd]. intros H. breflect.
  unfold neqc in H. breflect. by rewrite Ascii.eqb_sym, H, IH.
Qed.

Lemma has_dd_literal v : has_dd v = false -> has_dd (StringLiteral v) = false.
Proof.
  intros Hv. unfold StringLiteral. rewrite str1_app. cbn [has_dd]. change (Ascii.eqb squote dollar) with false.
  cbn [andb orb]. apply has_dd_app; [|done..].
  assert (starts_with dollar (replace_byte squote (String squote (str1 squote)) v) = starts_with dollar v /\
          has_dd (replace_byte squote (String squote (str1 squote)) v) = false) as [_ ?]; [|done].
  induction v as [|c v IH]; [done|]. cbn [has_dd] in Hv. breflect. destruct (IH H0) as [IH1 IH2].
  cbn [replace_byte]. destruct (Ascii.eqb_spec squote c) as [<-|Hne]; [by split|].
  split; [done|]. cbn [has_dd]. by rewrite IH1, IH2, H.
Qed.

Lemma has_dd_ident T name : IsValidIdentifier T name = true -> has_dd name = false -> has_dd (Identifier name) = false.
Proof.
  intros Hv Hn. rewrite (Identifier_verbatim T) by done. rewrite str1_app. cbn [has_dd].
  change (Ascii.eqb dquote dollar) with false. cbn [andb orb]. by apply has_dd_app.
Qed.

Lemma has_dd_itoa z : has_dd (itoa z) = false /\ starts_with dollar (itoa z) = false.
Proof.
  assert (forall n, 0 <= n -> sall (neqc dollar) (digits n) = true) as Hd.
  { intros n Hn. apply sall_digit_neq; [done|]. by apply digits_all. }
  assert (sall (neqc dollar) (itoa z) = true) as Hz.
  { unfold itoa. destruct (Z.ltb_spec z 0); [|by apply Hd]. rewrite sall_app, Hd by lia. done. }
  split; [by apply has_dd_none|]. destruct (itoa z) as [|c s]; [done|]. cbn [sall starts_with] in *. breflect.
  unfold neqc in *. breflect. by rewrite Ascii.eqb_sym.
Qed.

Lemma lex_dollar_mode b s :
  has_dd (b +:+ str1 dollar) = false -> lex Dollar (b +:+ "$$" +:+ s) = prepend (b +:+ "$$") (lex Top s).
Proof.
  induction b as [|c b IH]; [done|]. rewrite app_cons_l. cbn [has_dd]. intros H. breflect.
  change (String c b) with (str1 c +:+ b). rewrite !app_assoc_s, prepend_app, <- IH, str1_app by done.
  cbn [lex]. destruct b as [|d b]; cbn in H.
  - rewrite app_nil_l_s. rewrite andb_true_r in H. change ("$$" +:+ s) with (String "$" (String "$" s)).
    by rewrite H.
  - rewrite app_cons_l in *. cbn [starts_with] in H. by rewrite H.
Qed.

Lemma lexes_dollar b : has_dd (b +:+ str1 dollar) = false -> lexes ("DO $$" +:+ b +:+ "$$").
Proof.
  intros Hb s. rewrite prepend_app, !app_assoc_s, <- lex_dollar_mode by done.
  set (r := b +:+ "$$" +:+ s). change ("DO $$" +:+ r) with ("DO " +:+ String "$" (String "$" r)).
  by rewrite lexes_plain, (prepend_app "DO " "$$").
Qed.

(** ** The script as a list of statements *)

(** The statements a user asks for: the role itself, the roles it is a member of, and
    the grants on the databases; malformed names and unknown privileges are dropped. *)
Definition statements (T : UnicodeTables) (u : PostgresUser) (password : string) : list string :=
  do_statement u password :: alter_statement u password ::
  map (grant_role u) (filter (fun r => IsValidIdentifier T r = true) (us_Roles (pu_Spec u))) ++
  flat_map (fun d => grant_connect u (dg_Name d) ::
                     map (grant_tables u) (filter (fun p => isValidPrivilege T p = true) (dg_Privileges d)))
    (filter (fun d => IsValidIdentifier T (dg_Name d) = true) (us_Databases (pu_Spec u))).

(** A statement list written with a terminator after each. *)
Definition script (l : list string) : string := concat_s (map (fun st => st +:+ eos) l).

Lemma script_cons st l : script (st :: l) = st +:+ eos +:+ script l.
Proof. unfold script. cbn. by rewrite app_assoc_s. Qed.

Lemma script_app l1 l2 : script (l1 ++ l2) = script l1 +:+ script l2.
Proof. unfold script. by rewrite map_app, concat_s_app. Qed.

Lemma write_roles_script T u l :
  write_roles T u l = script (map (grant_role u) (filter (fun r => IsValidIdentifier T r = true) l)).
Proof.
  induction l as [|r l IH]; [done|]. cbn [write_roles]. rewrite filter_cons.
  case_decide as E; rewrite IH; [rewrite E; cbn [map]; by rewrite script_cons|].
  by destruct (IsValidIdentifier T r).
Qed.

Lemma write_privileges_script T u l :
  write_privileges T u l = script (map (grant_tables u) (filter (fun p => isValidPrivilege T p = true) l)).
Proof.
  induction l as [|p l IH]; [done|]. cbn [write_privileges]. rewrite filter_cons.
  case_decide as E; rewrite IH; [rewrite E; cbn [map]; by rewrite script_cons|].
  by destruct (isValidPrivilege T p).
Qed.

Lemma buildUserSQL_script T u pw :
  IsValidIdentifier T (om_Name (pu_Meta u)) = true -> AssertSafePassword pw = true ->
  buildUserSQL T u pw = script (statements T u pw).
Proof.
  intros Hv Hp. unfold buildUserSQL, statements. rewrite Hv, Hp. cbn [negb].
  rewrite !script_cons, script_app, write_roles_script. do 5 f_equal.
  induction (us_Databases (pu_Spec u)) as [|d l IH]; [done|]. cbn [write_databases]. rewrite filter_cons.
  case_decide as E; rewrite IH.
  - rewrite E. cbn [negb flat_map app]. by rewrite script_cons, script_app, write_privileges_script.
  - by destruct (IsValidIdentifier T (dg_Name d)).
Qed.

(** A statement the lexer passes over and that starts with a token. *)
Definition statement_ok (st : string) : Prop := lexes st /\ skip_spaces st = st /\ st <> "".

Lemma trim_prepend_nl l : l <> [] -> trim_statements (prepend newline l) = trim_statements l.
Proof. destruct l as [|h t]; [done|]. intros _. reflexivity. Qed.

Lemma trim_cons st l : skip_spaces st = st -> st <> "" -> trim_statements (st :: l) = st :: trim_statements l.
Proof. intros H1 H2. unfold trim_statements. cbn [map]. rewrite H1, filter_cons. by case_decide. Qed.

(** One statement and its terminator. *)
Lemma sql_statements_cons st rest :
  statement_ok st -> sql_statements (st +:+ eos +:+ rest) = st :: sql_statements rest.
Proof.
  intros (Hl & Hs & Hne). unfold sql_statements. rewrite Hl.
  change (lex Top (eos +:+ rest)) with ("" :: lex Top (newline +:+ rest)).
  cbn [prepend]. rewrite app_nil_r_s, trim_cons by done. f_equal.
  rewrite lexes_plain by done. apply trim_prepend_nl, lex_nonempty.
Qed.

Lemma sql_statements_script l : Forall statement_ok l -> sql_statements (script l) = l.
Proof.
  induction 1 as [|st l Hst _ IH]; [done|]. rewrite script_cons, sql_statements_cons by done. by rewrite IH.
Qed.

(** Bytes of an accepted privilege: ASCII letters, the space, or part of a multi-byte
    rune. *)
Definition privilege_byte (c : ascii) : bool :=
  (0x80 <=? byte c) || is_lower c || is_upper c || (byte c =? 32).

Lemma isValidPrivilege_bytes T p : isValidPrivilege T p = true -> sall privilege_byte p = true.
Proof.
  unfold isValidPrivilege. intros (k & Hk & Hp)%existsb_exists. breflect.
  assert (Forall (fun b => in_range 65 90 b || (b =? 32) = true) (map byte (String.list_ascii_of_string k))) as Hw.
  { revert k Hk Hp. assert (Forall (fun k => Forall (fun b => in_range 65 90 b || (b =? 32) = true)
      (map byte (String.list_ascii_of_string k))) privileges) as Hall
      by (apply (bool_decide_unpack _); vm_compute; exact I).
    intros k Hk _. rewrite Forall_forall in Hall. apply Hall. by apply list_elem_of_In. }
  rewrite <- Hp, Forall_map in Hw.
  assert (forallb (fun r => (0x80 <=? r.1) || in_range 65 90 r.1 || in_range 97 122 r.1 || (r.1 =? 32)) (runes p) = true)
    as Hr.
  { apply forallb_forall. intros r Hr%list_elem_of_In. rewrite Forall_forall in Hw. specialize (Hw r Hr). cbn in Hw.
    unfold ToUpperRune, in_range in *.
    destruct (Z.ltb_spec r.1 0x80); destruct (Z.leb_spec 0x80 r.1); try lia; try done.
    destruct ((97 <=? r.1) && (r.1 <=? 122)); [by rewrite !orb_true_r|]. cbn in *. by rewrite orb_false_r. }
  apply (runes_ascii (fun r => (0x80 <=? r) || in_range 65 90 r || in_range 97 122 r || (r =? 32))) in Hr.
  eapply sall_impl; [|exact Hr]. intros c Hc. unfold privilege_byte, is_lower, is_upper, in_range in *.
  destruct (0x80 <=? byte c); [done|]. cbn in *.
  by rewrite (orb_comm ((97 <=? byte c) && (byte c <=? 122))).
Qed.

Lemma privilege_byte_plain c : privilege_byte c = true -> plain c = true.
Proof.
  unfold plain. intros Hd. assert (forall d, privilege_byte d = false -> neqc d c = true) as Hn.
  { intros d Hd'. unfold neqc. apply negb_true_iff, Ascii.eqb_neq. intros ->. congruence. }
  by rewrite !Hn.
Qed.

Lemma lexes_privilege T p : isValidPrivilege T p = true -> lexes p.
Proof.
  intros Hp. apply lexes_plain. eapply sall_impl; [apply privilege_byte_plain|]. by eapply isValidPrivilege_bytes.
Qed.

(** Split a text at its concatenations and pass over each part. *)
Ltac lexes_tac :=
  repeat first
    [ assumption | apply lexes_literal | apply lexes_itoa | (eapply lexes_ident; eassumption)
    | (eapply lexes_privilege; eassumption) | (apply lexes_plain; reflexivity) | apply lexes_app
    | match goal with |- lexes (if ?b then _ else _) => destruct b end ].

Ltac no_dd_tac :=
  repeat match goal with
  | |- has_dd (_ +:+ _) = false => apply has_dd_app
  | |- starts_with _ ((if ?b then _ else _) +:+ _) = false => destruct b
  | |- starts_with _ (Identifier _ +:+ _) = false => apply starts_with_ident_app
  | |- starts_with _ (_ +:+ _) = false => reflexivity || apply starts_with_app
  | |- _ (if ?b then _ else _) = false => destruct b
  | |- has_dd (StringLiteral _) = false => apply has_dd_literal
  | |- has_dd (Identifier _) = false => eapply has_dd_ident; eassumption
  | |- _ (itoa _) = false => apply has_dd_itoa
  | |- starts_with _ (Identifier _) = false => apply starts_with_ident
  end; try assumption; try reflexivity.

Lemma has_dd_limit u pw : has_dd pw = false -> has_dd (limit_and_password u pw) = false.
Proof. intros Hp. unfold limit_and_password. no_dd_tac. Qed.

Lemma lexes_limit u pw : lexes (limit_and_password u pw).
Proof. unfold limit_and_password. lexes_tac. Qed.

Section Statements.
Context (T : UnicodeTables) (u : PostgresUser).
Hypothesis name_valid : IsValidIdentifier T (om_Name (pu_Meta u)) = true.

Lemma has_dd_do_body pw : has_dd (om_Name (pu_Meta u)) = false -> has_dd pw = false ->
  has_dd (do_body u pw +:+ str1 dollar) = false.
Proof using name_valid.
  intros Hn Hp. unfold do_body. rewrite !app_assoc_s.
  change ("; END IF; END " +:+ str1 dollar) with "; END IF; END $".
  pose proof (has_dd_limit u pw Hp). no_dd_tac.
Qed.

Lemma statement_ok_do pw : has_dd (om_Name (pu_Meta u)) = false -> has_dd pw = false ->
  statement_ok (do_statement u pw).
Proof using name_valid.
  intros Hn Hp. split; [|done]. apply lexes_dollar. by apply has_dd_do_body.
Qed.

Lemma statement_ok_alter pw : statement_ok (alter_statement u pw).
Proof using name_valid.
  split; [|done]. pose proof (lexes_limit u pw). unfold alter_statement. lexes_tac.
Qed.

Lemma statement_ok_role r : IsValidIdentifier T r = true -> statement_ok (grant_role u r).
Proof using name_valid. intros Hr. split; [|done]. unfold grant_role. lexes_tac. Qed.

Lemma statement_ok_connect r : IsValidIdentifier T r = true -> statement_ok (grant_connect u r).
Proof using name_valid. intros Hr. split; [|done]. unfold grant_connect. lexes_tac. Qed.

Lemma statement_ok_tables p : isValidPrivilege T p = true -> statement_ok (grant_tables u p).
Proof using name_valid. intros Hr. split; [|done]. unfold grant_tables. lexes_tac. Qed.

Lemma statements_ok pw : has_dd (om_Name (pu_Meta u)) = false -> has_dd pw = false ->
  Forall statement_ok (statements T u pw).
Proof using name_valid.
  intros Hn Hp. unfold statements.
  constructor; [by apply statement_ok_do|]. constructor; [apply statement_ok_alter|].
  apply Forall_app. split.
  - apply Forall_map, Forall_forall. intros r [Hr _]%list_elem_of_filter. by apply statement_ok_role.
  - apply Forall_flat_map, Forall_forall. intros d [Hd _]%list_elem_of_filter.
    constructor; [by apply statement_ok_connect|].
    apply Forall_map, Forall_forall. intros p [Hpr _]%list_elem_of_filter. by apply statement_ok_tables.
Qed.

End Statements.

(** C9: the SQL script is exactly the statements asked for.  For a valid user name and a
    NUL-free password, neither holding two dollar signs in a row, a PostgreSQL lexer
    (standard-conforming strings) splits the script into the DO block, the ALTER ROLE,
    one GRANT per well-formed role and database and one per whitelisted privilege, and
    nothing else, whatever quotes, semicolons, comment markers or newlines the password,
    roles, databases and privileges contain. *)
Theorem script_statements (T : UnicodeTables) (u : PostgresUser) (password : string) :
  IsValidIdentifier T (om_Name (pu_Meta u)) = true -> AssertSafePassword password = true ->
  has_dd (om_Name (pu_Meta u)) = false -> has_dd password = false ->
  sql_statements (buildUserSQL T u password) = statements T u password.
Proof.
  intros Hv Hp Hn Hd. rewrite buildUserSQL_script by done. apply sql_statements_script. by apply statements_ok.
Qed.

(** A user with hostile role, database and privilege names. *)
Definition sample_user : PostgresUser :=
  {| pu_Meta := mkMeta "app" "prod" ∅;
     pu_Spec :=
       {| us_ClusterName := "db"; us_PasswordSecret := Some "app-password";
          us_Databases := [{| dg_Name := "shop"; dg_Privileges := ["select"; "ALL; DROP TABLE t"; "All Privileges"] |}];
          us_Roles := ["readers"; "x; DROP ROLE y"]; us_Superuser := false; us_ConnectionLimit := 0 |};
     pu_Status := {| ust_Applied := false; ust_Conditions := []; ust_ObservedGeneration := 0 |} |}.

Lemma script_statements_witness :
  sql_statements (buildUserSQL ascii_tables sample_user "it's; -- $1") = statements ascii_tables sample_user "it's; -- $1" /\
  length (statements ascii_tables sample_user "it's; -- $1") = 6%nat.
Proof.
  split; [|vm_compute; reflexivity].
  apply (script_statements ascii_tables sample_user "it's; -- $1"); vm_compute; reflexivity.
Defined.

(** The text of the [DO] block before the password. *)
Definition do_before_password (u : PostgresUser) : string :=
  " BEGIN IF NOT EXISTS (SELECT FROM pg_roles WHERE rolname = " +:+
  StringLiteral (om_Name (pu_Meta u)) +:+ ") THEN CREATE ROLE " +:+
  Identifier (om_Name (pu_Meta u)) +:+ " WITH LOGIN" +:+
  (if us_Superuser (pu_Spec u) then " SUPERUSER" else "") +:+
  " CONNECTION LIMIT " +:+ itoa (connLimit u) +:+ " PASSWORD '".

Lemma plain_no_quote s : sall plain s = true -> sall (neqc squote) s = true.
Proof. apply sall_impl. intros c Hc. unfold plain in Hc. by breflect. Qed.

(** The script, cut where a dollar quote in the password ends the [DO] block. *)
Lemma buildUserSQL_breakout T u evil :
  IsValidIdentifier T (om_Name (pu_Meta u)) = true -> AssertSafePassword evil = true ->
  sall (neqc squote) evil = true ->
  exists rest, buildUserSQL T u ("$$" +:+ evil) =
    ("DO $$" +:+ do_before_password u +:+ "$$") +:+ evil +:+ rest.
Proof.
  intros Hv Hs Hq. unfold buildUserSQL. rewrite Hv.
  replace (AssertSafePassword ("$$" +:+ evil)) with true by (symmetry; exact Hs). cbn [negb].
  unfold do_statement, do_body, limit_and_password.
  change (("$$" +:+ evil) =? "")%string with false. cbv iota.
  unfold StringLiteral at 2. rewrite (replace_byte_none _ _ ("$$" +:+ evil)) by exact Hq.
  unfold do_before_password. eexists. rewrite !app_assoc_s.
  change (" PASSWORD '" +:+ ?x) with (" PASSWORD " +:+ str1 squote +:+ x). reflexivity.
Qed.

(** A dollar quote in a password escapes the quoting.  The DO block is delimited by two
    dollar signs and the password is only quoted for single quotes, so a password that
    starts with two dollar signs ends the block and the script falls apart: for a plain
    text [stmt], the password [$$;stmt;--] makes [stmt] a statement of its own.  This is
    about how the script is split only: [psql -c] sends the text as one request, whose
    first statement, the truncated DO block, fails, so that [stmt] is not executed and the
    user is never applied. *)
Theorem dollar_password_splits_script (T : UnicodeTables) (u : PostgresUser) (stmt : string) :
  IsValidIdentifier T (om_Name (pu_Meta u)) = true -> has_dd (om_Name (pu_Meta u)) = false ->
  AssertSafePassword stmt = true -> sall plain stmt = true -> skip_spaces stmt = stmt -> stmt <> "" ->
  stmt ∈ sql_statements (buildUserSQL T u ("$$;" +:+ stmt +:+ ";--")).
Proof.
  intros Hv Hn Hs Hp Hsk Hne.
  assert (Hq : sall (neqc squote) (";" +:+ stmt +:+ ";--") = true).
  { rewrite !sall_app, (plain_no_quote stmt) by done. done. }
  assert (Hs' : AssertSafePassword (";" +:+ stmt +:+ ";--") = true).
  { unfold AssertSafePassword, contains_byte in *. breflect. by rewrite !sall_app, Hs. }
  destruct (buildUserSQL_breakout T u _ Hv Hs' Hq) as [rest E].
  change ("$$;" +:+ stmt +:+ ";--") with ("$$" +:+ (";" +:+ stmt +:+ ";--")). rewrite E.
  unfold sql_statements. rewrite lexes_dollar.
  - rewrite !app_assoc_s. change (lex Top (";" +:+ ?x)) with ("" :: lex Top x). rewrite (lexes_plain stmt) by done.
    change (lex Top (";--" +:+ ?x)) with ("" :: lex Top ("--" +:+ x)). cbn [prepend]. rewrite !app_nil_r_s.
    unfold trim_statements. cbn [map]. rewrite Hsk. apply list_elem_of_filter. split; [done|].
    right. left.
  - unfold do_before_password. rewrite !app_assoc_s.
    change (" PASSWORD '" +:+ str1 dollar) with " PASSWORD '$". no_dd_tac.
Qed.

Example dollar_password_split :
  "ALTER ROLE app SUPERUSER" ∈
    sql_statements (buildUserSQL ascii_tables sample_user ("$$;" +:+ "ALTER ROLE app SUPERUSER" +:+ ";--")).
Proof. apply dollar_password_splits_script; [vm_compute; reflexivity..|discriminate]. Qed.

(** ** Redaction *)

(** Whether [PASSWORD] occurs in a text. *)
Fixpoint mentions (s : string) : bool :=
  match s with
  | EmptyString => false
  | String _ s' => has_prefix "PASSWORD" s || mentions s'
  end.

Lemma after_quote_length s rest : after_quote s = Some rest -> (String.length rest < String.length s)%nat.
Proof.
  induction s as [|c s IH]; [done|]. cbn. case_match; [intros [= <-]; lia|]. intros H'%IH. lia.
Qed.

Lemma length_skip_spaces s : (String.length (skip_spaces s) <= String.length s)%nat.
Proof. induction s as [|c s IH]; [done|]. cbn. case_match; cbn; lia. Qed.

Lemma match_password_length s rest :
  match_password s = Some rest -> (String.length rest < String.length s)%nat.
Proof.
  unfold match_password. case_match; [|done]. destruct (sdrop 8 s) as [|c s'] eqn:E; [done|].
  pose proof (length_sdrop 8 s) as Hl. rewrite E in Hl. cbn in Hl. case_match; [|done].
  pose proof (length_skip_spaces s'). destruct (skip_spaces s') as [|q s'']; [done|]. cbn [String.length] in *.
  destruct (Ascii.eqb q squote); [|done]. intros Hr%after_quote_length. lia.
Qed.

(** More fuel than the length of the text changes nothing. *)
Lemma redact_fuel_enough (fuel : nat) s :
  (String.length s <= fuel)%nat -> redact_fuel fuel s = redactPassword s.
Proof.
  unfold redactPassword. revert s. induction fuel as [fuel IH] using lt_wf_ind. intros s Hl.
  destruct s as [|c s]; [by destruct fuel|]. destruct fuel as [|fuel]; [cbn in Hl; lia|].
  cbn [String.length redact_fuel] in *. destruct (match_password (String c s)) as [rest|] eqn:E.
  - apply match_password_length in E. cbn in E.
    by rewrite (IH fuel ltac:(lia) rest ltac:(lia)), (IH (String.length s) ltac:(lia) rest ltac:(lia)).
  - by rewrite (IH fuel ltac:(lia) s ltac:(lia)).
Qed.

Lemma redactPassword_cons c s : match_password (String c s) = None ->
  redactPassword (String c s) = String c (redactPassword s).
Proof. unfold redactPassword. cbn [String.length redact_fuel]. by intros ->. Qed.

Lemma redactPassword_match s rest : match_password s = Some rest ->
  redactPassword s = redacted +:+ redactPassword rest.
Proof.
  intros Hm. pose proof (match_password_length _ _ Hm). unfold redactPassword at 1.
  destruct s as [|c s]; [done|]. cbn [String.length redact_fuel] in *. rewrite Hm.
  rewrite redact_fuel_enough; [done|lia].
Qed.

Lemma redactPassword_none s : mentions s = false -> redactPassword s = s.
Proof.
  induction s as [|c s IH]; [done|]. cbn [mentions]. intros H. breflect.
  rewrite redactPassword_cons, IH; [done..|]. unfold match_password. by rewrite H.
Qed.

(** [PASSWORD] overlaps no proper prefix of itself, so text that does not mention it
    leaves a following mention intact. *)
Lemma has_prefix_overlap c pre s :
  has_prefix "PASSWORD" (String c pre) = false ->
  has_prefix "PASSWORD" (String c pre +:+ "PASSWORD" +:+ s) = false.
Proof.
  intros H. apply not_true_is_false. intros Hc. apply has_prefix_app in Hc as [Hc|(p & Hp & Hc)]; [congruence|].
  destruct p as [|d p].
  - rewrite app_nil_r_s in Hp. rewrite <- Hp in H. done.
  - change ("PASSWORD" +:+ s) with (String "P" ("ASSWORD" +:+ s)) in Hc.
    assert (d = "P"%char) as -> by (unfold has_prefix in Hc; cbn [String.prefix] in Hc; by destruct (ascii_dec d "P")).
    rewrite app_cons_l in Hp. injection Hp as _ Hp.
    apply (f_equal (sall (neqc "P"))) in Hp. rewrite sall_app in Hp. cbn [sall] in Hp.
    by rewrite andb_false_r in Hp.
Qed.

Lemma redactPassword_skip pre s :
  mentions pre = false -> redactPassword (pre +:+ "PASSWORD" +:+ s) = pre +:+ redactPassword ("PASSWORD" +:+ s).
Proof.
  induction pre as [|c pre IH]; [done|]. cbn [mentions]. intros H. breflect.
  rewrite !(app_cons_l c pre), redactPassword_cons, IH; [done..|].
  unfold match_password. by rewrite <- (app_cons_l c pre), has_prefix_overlap.
Qed.

Lemma after_quote_app a s : sall (neqc squote) a = true -> after_quote (a +:+ str1 squote +:+ s) = Some s.
Proof.
  induction a as [|c a IH]; [done|]. cbn [sall]. intros H. breflect. unfold neqc in H. breflect.
  rewrite app_cons_l. cbn [after_quote]. rewrite Ascii.eqb_sym, H. by apply IH.
Qed.

(** A mention followed by a quoted text up to the next quote. *)
Lemma redact_clause pre a s :
  mentions pre = false -> sall (neqc squote) a = true ->
  redactPassword (pre +:+ "PASSWORD " +:+ str1 squote +:+ a +:+ str1 squote +:+ s) =
  pre +:+ redacted +:+ redactPassword s.
Proof.
  intros Hp Ha. change ("PASSWORD " +:+ ?x) with ("PASSWORD" +:+ (" " +:+ x)).
  rewrite redactPassword_skip by done. f_equal. apply redactPassword_match.
  rewrite <- (after_quote_app a s) by done. reflexivity.
Qed.

(** Redaction hides a password without quotes and leaks the others.  In any text, a
    PASSWORD clause written by the operator for a password without single quotes is
    replaced as a whole.  For a password [a'b] the clause holds a doubled quote, the
    pattern stops at the first one, and everything after it, the quoted rest of the
    password included, stays in the text. *)
Theorem redaction_stops_at_quote (pre a b post : string) :
  mentions pre = false -> sall (neqc squote) a = true ->
  redactPassword (pre +:+ "PASSWORD " +:+ StringLiteral a +:+ post) =
    pre +:+ redacted +:+ redactPassword post /\
  redactPassword (pre +:+ "PASSWORD " +:+ StringLiteral (a +:+ str1 squote +:+ b) +:+ post) =
    pre +:+ redacted +:+ redactPassword (StringLiteral b +:+ post).
Proof.
  intros Hp Ha. unfold StringLiteral. split.
  - rewrite (replace_byte_none _ _ a), !app_assoc_s by done. by apply redact_clause.
  - rewrite replace_byte_app, (replace_byte_none _ _ a), !app_assoc_s by done.
    change (replace_byte squote (String squote (str1 squote)) (str1 squote +:+ b))
      with (str1 squote +:+ str1 squote +:+ replace_byte squote (String squote (str1 squote)) b).
    rewrite !app_assoc_s. by apply redact_clause.
Qed.

Lemma redaction_stops_at_quote_witness :
  redactPassword ("ERROR: syntax error at ALTER ROLE app " +:+ "PASSWORD " +:+ StringLiteral "hunter2" +:+ ";") =
    "ERROR: syntax error at ALTER ROLE app " +:+ redacted +:+ redactPassword ";" /\
  redactPassword ("ERROR: syntax error at ALTER ROLE app " +:+ "PASSWORD " +:+
                  StringLiteral ("hunter2" +:+ str1 squote +:+ "secret") +:+ ";") =
    "ERROR: syntax error at ALTER ROLE app " +:+ redacted +:+ redactPassword (StringLiteral "secret" +:+ ";").
Proof.
  apply (redaction_stops_at_quote "ERROR: syntax error at ALTER ROLE app " "hunter2" "secret" ";"); reflexivity.
Defined.

(** ** The reconcile *)

Section ReconcileLemmas.
Context {W : Type} `{RuntimeLaws W}.
Context (T : UnicodeTables) (hasRestConfig : bool).

Lemma execSQL_frames S ns pod c sql : frames (W:=W) S (execSQL hasRestConfig ns pod c sql).
Proof. unfold execSQL. frames_tac. Qed.

Lemma resolve_password_frames S u : frames (W:=W) S (resolve_password u).
Proof. unfold resolve_password. frames_tac. Qed.

Lemma apply_user_frames req c u pw :
  frames (only KUser (key_of (pu_Meta u))) (apply_user (W:=W) T hasRestConfig req c u pw).
Proof.
  unfold apply_user. apply frames_bind; [apply execSQL_frames|]. intros e. unfold err_of. frames_tac; done.
Qed.

Lemma User_Reconcile_frames req : frames (only KUser req) (Reconcile (W:=W) T hasRestConfig req).
Proof.
  unfold Reconcile. apply frames_bind_Get. intros [u|e] Hu; [|frames_tac].
  specialize (Hu u eq_refl). change (key_of (pu_Meta u) = req) in Hu.
  apply frames_bind; [apply frames_Get|]. intros [c|e].
  - case_match; [frames_tac; done|]. apply frames_bind; [apply resolve_password_frames|].
    intros [pw|e]; [|frames_tac]. rewrite <- Hu. apply apply_user_frames.
  - frames_tac; done.
Qed.

Lemma Reconcile_keeps req k n : keeps k n (Reconcile (W:=W) T hasRestConfig req).
Proof. unfold Reconcile, resolve_password, apply_user, execSQL, err_of. keeps_tac. Qed.

(** The command that applies a user to a cluster. *)
Definition command (c : PostgresCluster) (u : PostgresUser) (pw : string) : ExecRequest :=
  psql (om_Namespace (pc_Meta c)) (PodName c 0) "postgres" (buildUserSQL T u pw).

(** Executing the script runs that command once, if there is a configuration. *)
Lemma execSQL_log ns pod c sql w e w' :
  execSQL hasRestConfig ns pod c sql w = (e, w') ->
  if hasRestConfig
  then exists x, executed w' = executed w ++ [(psql ns pod c sql, x)] /\ (e = None -> x = ExecOk)
  else executed w' = executed w.
Proof.
  unfold execSQL. destruct hasRestConfig; cbn [negb]; intros Hw; [|by injection Hw as _ <-].
  mstep Hw. apply exec_log in E. injection Hw as <- <-. exists a. split; [done|]. by destruct a.
Qed.

(** Applying a user: success is reported only if the command succeeded. *)
Lemma apply_user_log req c u pw w r w' :
  apply_user T hasRestConfig req c u pw w = (r, w') ->
  if hasRestConfig
  then exists x, executed w' = executed w ++ [(command c u pw, x)] /\ (r.1 = requeue_after 60 -> x = ExecOk)
  else executed w' = executed w.
Proof.
  unfold apply_user. intros Hw. mstep Hw. apply execSQL_log in E. mstep Hw. apply now_log in E0.
  assert (executed w' = executed w0 /\ (r.1 = requeue_after 60 -> a = None)) as [-> Hr].
  { rewrite <- E0. destruct a as [e|]; (split; [by silent_rest Hw|]); [|done].
    mstep Hw. by injection Hw as <- _. }
  destruct hasRestConfig; [|done]. destruct E as (x & Hx & Ha). exists x. auto.
Qed.

(** What a successful application of the script stores. *)
Lemma apply_user_ok req c u pw w w' u0 :
  stored w KUser (key_of (pu_Meta u)) = Some u0 ->
  apply_user T hasRestConfig req c u pw w = ((requeue_after 60, None), w') ->
  exists u', stored w' KUser (key_of (pu_Meta u)) = Some u' /\ pu_Spec u' = pu_Spec u0 /\
    ust_Applied (pu_Status u') = true /\ ust_ObservedGeneration (pu_Status u') = om_Generation (pu_Meta u).
Proof.
  unfold apply_user. intros Hs Hw. mstep Hw. mstep Hw. destruct a as [e|].
  { mstep Hw. discriminate. }
  assert (Hs0 : stored w1 KUser (key_of (pu_Meta u)) = Some u0).
  { rewrite <- Hs. rewrite (now_frame _ _ _ E0). eapply (execSQL_frames (only KSecret req)); [exact E|]. by intros [? _]. }
  mstep Hw. injection Hw as -> ->. unfold err_of in E1. mstep E1. injection E1 as E1 ->.
  destruct a as [u'|]; [|discriminate].
  destruct (status_ok KUser _ _ _ _ E2) as (o0 & Ho0 & Ho' & Hsp & Hst & _). unfold key in *. cbn in *.
  rewrite Hs0 in Ho0. injection Ho0 as <-. exists u'. rewrite Hst. by split_and!.
Qed.

(** The password the reconciler works with, read from the store. *)
Definition password_of (w : W) (u : PostgresUser) (pw : string) : Prop :=
  match us_PasswordSecret (pu_Spec u) with
  | None => pw = ""
  | Some name => exists s, stored w KSecret (nn name (om_Namespace (pu_Meta u))) = Some s /\
                   pw = default "" (sec_Data s !! "password")
  end.

Lemma resolve_password_ok u w pw w' : resolve_password u w = (Ok pw, w') -> password_of w u pw.
Proof.
  unfold resolve_password, password_of. destruct (us_PasswordSecret (pu_Spec u)); intros Hw; [|by injection Hw as <- _].
  mstep Hw. destruct a as [s'|]; [|discriminate]. injection Hw as <- _. exists s'. split; [|done].
  by eapply get_ok.
Qed.

(** A reconcile either runs no command, or fetched a running cluster and the password
    and went on to apply the user. *)
Lemma User_Reconcile_inv req w u r w' :
  stored w KUser req = Some u -> Reconcile T hasRestConfig req w = (r, w') ->
  (r <> (requeue_after 60, None) /\ executed w' = executed w) \/
  exists c pw w1,
    stored w KCluster (nn (us_ClusterName (pu_Spec u)) (om_Namespace (pu_Meta u))) = Some c /\
    IsClusterRunning c = true /\ password_of w u pw /\
    (forall k n, stored w1 k n = stored w k n) /\ executed w1 = executed w /\
    apply_user T hasRestConfig req c u pw w1 = (r, w').
Proof.
  unfold Reconcile. intros Hs Hw. mstep Hw. pose proof (get_log _ _ _ _ _ E) as L0.
  destruct a as [u'|e]; [|left; case_match; by injection Hw as <- <-].
  pose proof (get_ok _ _ _ _ _ E) as Hu. rewrite Hs in Hu. injection Hu as <-.
  pose proof (get_frame _ _ _ _ _ E) as F0. mstep Hw. pose proof (get_frame _ _ _ _ _ E0) as F1.
  pose proof (get_log _ _ _ _ _ E0) as L1. destruct a as [c|e].
  2: { left. split; [|rewrite <- L0, <- L1; by silent_rest Hw].
       case_match; [|by injection Hw as <- _]. mstep Hw. mstep Hw. by injection Hw as <- _. }
  apply get_ok in E0. rewrite F0 in E0.
  destruct (IsClusterRunning c) eqn:Hr; cbn [negb] in Hw.
  2: { left. split; [|rewrite <- L0, <- L1; by silent_rest Hw].
       mstep Hw. mstep Hw. by injection Hw as <- _. }
  mstep Hw. pose proof (resolve_password_frames (fun _ _ => False) u _ _ _ E1) as F2.
  assert (L2 : executed w2 = executed w1) by (unfold resolve_password in E1; by silent_rest E1).
  destruct a as [pw|e]; [|left; injection Hw as <- <-; split; [done|congruence]].
  right. exists c, pw, w2. apply resolve_password_ok in E1. split_and!; [done|done| | |congruence|done].
  - unfold password_of in *. case_match; [|done]. by rewrite <- F0, <- F1.
  - intros k n. by rewrite F2, F1, F0 by auto.
Qed.

(** The remote commands of a reconcile. *)
Lemma User_Reconcile_log req w u r w' :
  stored w KUser req = Some u -> Reconcile T hasRestConfig req w = (r, w') ->
  executed w' = executed w \/
  exists c pw x,
    stored w KCluster (nn (us_ClusterName (pu_Spec u)) (om_Namespace (pu_Meta u))) = Some c /\
    IsClusterRunning c = true /\ password_of w u pw /\ executed w' = executed w ++ [(command c u pw, x)].
Proof.
  intros Hu Hw. destruct (User_Reconcile_inv _ _ _ _ _ Hu Hw) as [[_ ?]|(c & pw & w1 & ? & ? & ? & _ & L1 & Ha)]; [by left|].
  apply apply_user_log in Ha. rewrite L1 in Ha. destruct hasRestConfig; [|by left].
  destruct Ha as (x & ? & _). right. by exists c, pw, x.
Qed.

End ReconcileLemmas.

(** C12: The user reconciler touches one status.  Whatever its outcome, [Reconcile] changes
    no object but the named PostgresUser, and of it neither the spec nor the labels,
    finalizers and owners; and it runs at most one remote command, the script of the user
    in the first pod of its cluster, when that cluster is running. *)
Theorem user_reconcile_scope (W : Type) (R : Runtime W) (L : RuntimeLaws W) (T : UnicodeTables)
  (hasRestConfig : bool) (req : NamespacedName) (w w' : W) (r : Result * option error) :
  Reconcile T hasRestConfig req w = (r, w') ->
  (forall k n, ~ (k = KUser /\ n = req) -> stored w' k n = stored w k n) /\
  (forall u, stored w KUser req = Some u ->
     exists u', stored w' KUser req = Some u' /\ pu_Spec u' = pu_Spec u /\
       same_meta (pu_Meta u) (pu_Meta u') /\
       om_DeletionTimestamp (pu_Meta u') = om_DeletionTimestamp (pu_Meta u) /\
       (executed w' = executed w \/
        exists c pw x,
          stored w KCluster (nn (us_ClusterName (pu_Spec u)) (om_Namespace (pu_Meta u))) = Some c /\
          IsClusterRunning c = true /\ password_of w u pw /\
          executed w' = executed w ++ [(command T c u pw, x)])).
Proof.
  intros Hw. split; [by apply User_Reconcile_frames in Hw|]. intros u Hu.
  destruct (Reconcile_keeps _ _ req KUser req _ _ _ _ Hw Hu) as (u' & ? & ? & ? & ?).
  exists u'. split_and!; [done..|]. by eapply User_Reconcile_log.
Qed.

Definition sample_req : NamespacedName := nn "app" "prod".

Definition password_secret : Secret :=
  {| sec_Meta := mkMeta "app-password" "prod" ∅; sec_Type := "Opaque";
     sec_Data := {["password" := "s3cret"]}; sec_StringData := ∅ |}.

Definition empty_world : World :=
  {| w_store := empty_store; w_faults := []; w_clock := 0; w_events := []; w_rand := []; w_execs := [];
     w_commands := [] |}.

Definition sample_world : World :=
  put_obj KUser sample_user (put_obj KCluster running_cluster (put_obj KSecret password_secret empty_world)).

Lemma user_reconcile_scope_witness :
  stored (Reconcile ascii_tables true sample_req sample_world).2 KSecret (nn "app-password" "prod") =
  stored sample_world KSecret (nn "app-password" "prod").
Proof.
  apply (user_reconcile_scope World _ _ ascii_tables true sample_req sample_world _
           (Reconcile ascii_tables true sample_req sample_world).1).
  - apply surjective_pairing.
  - intros [? _]. discriminate.
Defined.

(** C14: Applied means executed.  When a reconciler with a REST configuration reports
    success, the referenced cluster was running, exactly one remote command was run, the
    script of the user with the password of its Secret, by psql in the first pod of that
    cluster, it succeeded, and the stored user is marked applied at its current
    generation. *)
Theorem applied_means_executed (W : Type) (R : Runtime W) (L : RuntimeLaws W) (T : UnicodeTables)
  (req : NamespacedName) (u : PostgresUser) (w w' : W) :
  stored w KUser req = Some u -> Reconcile T true req w = ((requeue_after 60, None), w') ->
  exists c pw,
    stored w KCluster (nn (us_ClusterName (pu_Spec u)) (om_Namespace (pu_Meta u))) = Some c /\
    pst_Phase (pc_Status c) = PhaseRunning /\ password_of w u pw /\
    executed w' = executed w ++
      [(psql (om_Namespace (pc_Meta c)) (PodName c 0) "postgres" (buildUserSQL T u pw), ExecOk)] /\
    exists u', stored w' KUser req = Some u' /\ pu_Spec u' = pu_Spec u /\
      ust_Applied (pu_Status u') = true /\ ust_ObservedGeneration (pu_Status u') = om_Generation (pu_Meta u).
Proof.
  intros Hs Hw. pose proof (stored_key _ _ _ _ Hs) as Hk. change (key_of (pu_Meta u) = req) in Hk.
  destruct (User_Reconcile_inv _ _ _ _ _ _ _ Hs Hw) as [[? _]|(c & pw & w1 & Hc & Hr & Hp & Hf & L1 & Ha)]; [done|].
  exists c, pw. split_and!; [done|unfold IsClusterRunning in Hr; by breflect|done| |].
  - apply apply_user_log in Ha as (x & -> & Hx). by rewrite L1, (Hx eq_refl).
  - rewrite <- Hk in Hs |- *. rewrite <- Hf in Hs. by eapply apply_user_ok.
Qed.

Lemma applied_means_executed_witness :
  w_commands (Reconcile ascii_tables true sample_req sample_world).2 =
    [(psql "prod" (PodName running_cluster 0) "postgres" (buildUserSQL ascii_tables sample_user "s3cret"), ExecOk)].
Proof.
  destruct (applied_means_executed World _ _ ascii_tables sample_req sample_user sample_world
    (Reconcile ascii_tables true sample_req sample_world).2) as (c & pw & Hc & _ & Hp & He & _).
  - vm_compute. reflexivity.
  - apply pair_fst. vm_compute. reflexivity.
  - destruct Hp as (s & Hs & Hp).
    assert (Hc' : c = running_cluster) by (vm_compute in Hc; injection Hc as Hc; symmetry; exact Hc).
    assert (Hs' : s = password_secret) by (vm_compute in Hs; injection Hs as Hs; symmetry; exact Hs).
    rewrite Hs' in Hp. rewrite Hc', Hp in He. exact He.
Defined.

(** A rejected user name is reported as applied.  [buildUserSQL] returns the empty
    script for a name that fails validation, and the reconciler, which has no check of its
    own, runs psql once with the empty script and marks the user applied although no role
    was created. *)
Theorem rejected_user_applied (W : Type) (R : Runtime W) (L : RuntimeLaws W) (T : UnicodeTables)
  (req : NamespacedName) (u : PostgresUser) (w w' : W) :
  stored w KUser req = Some u -> IsValidIdentifier T (om_Name (pu_Meta u)) = false ->
  Reconcile T true req w = ((requeue_after 60, None), w') ->
  (exists c, executed w' = executed w ++
     [(psql (om_Namespace (pc_Meta c)) (PodName c 0) "postgres" "", ExecOk)]) /\
  exists u', stored w' KUser req = Some u' /\ ust_Applied (pu_Status u') = true.
Proof.
  intros Hs Hv Hw. pose proof (stored_key _ _ _ _ Hs) as Hk. change (key_of (pu_Meta u) = req) in Hk.
  destruct (User_Reconcile_inv _ _ _ _ _ _ _ Hs Hw) as [[? _]|(c & pw & w1 & _ & _ & _ & Hf & L1 & Ha)]; [done|].
  split.
  - exists c. apply apply_user_log in Ha as (x & -> & Hx). rewrite L1, (Hx eq_refl).
    unfold command, buildUserSQL. by rewrite Hv.
  - rewrite <- Hk in Hs |- *. rewrite <- Hf in Hs.
    destruct (apply_user_ok _ _ _ _ _ _ _ _ _ Hs Ha) as (u' & ? & _ & ? & _). by exists u'.
Qed.

(** A user whose name is a legal object name but longer than a PostgreSQL identifier. *)
Definition long_user : PostgresUser :=
  {| pu_Meta := mkMeta "application-user-for-the-reporting-service-of-the-sales-department" "prod" ∅;
     pu_Spec := pu_Spec sample_user; pu_Status := pu_Status sample_user |}.

Lemma rejected_user_applied_witness :
  exists u', stored (Reconcile ascii_tables true (key_of (pu_Meta long_user)) (put_obj KUser long_user sample_world)).2
               KUser (key_of (pu_Meta long_user)) = Some u' /\ ust_Applied (pu_Status u') = true.
Proof.
  apply (rejected_user_applied World _ _ ascii_tables (key_of (pu_Meta long_user)) long_user
           (put_obj KUser long_user sample_world)).
  - vm_compute. reflexivity.
  - vm_compute. reflexivity.
  - apply pair_fst. vm_compute. reflexivity.
Defined.

End User.
