(* ===== verification/BackupController.v ===== *)
(** * internal/controller/postgresbackup_controller.go

    The reconciler of [PostgresBackup] as a state machine driven by the backup Job, and
    the theorems on its life cycle. *)

From Stdlib Require Import ZArith Lia List Bool.
From stdpp Require Import base list strings gmap.
From S2P Require Import Prelude GoStrings SqlEscape K8s Api Runtime FakeRuntime PgConfig PgStatus PgResources.

Local Open Scope Z_scope.
Local Open Scope athos_scope.

Module Backup.
Import Naming Status Resources.

(** Both terminal phases. *)
Definition terminal (p : BackupPhase) : bool :=
  bool_decide (p = BackupPhaseCompleted) || bool_decide (p = BackupPhaseFailed).

Definition set_running (t : Z) (b : PostgresBackup) : PostgresBackup :=
  let s := pb_Status b in
  {| pb_Meta := pb_Meta b; pb_Spec := pb_Spec b;
     pb_Status := {| bst_Phase := BackupPhaseRunning; bst_StartTime := Some t;
                     bst_CompletionTime := bst_CompletionTime s; bst_BackupSize := bst_BackupSize s;
                     bst_DestinationPath := bst_DestinationPath s; bst_Conditions := bst_Conditions s |} |}.

Definition set_finished (p : BackupPhase) (t : Z) (b : PostgresBackup) : PostgresBackup :=
  let s := pb_Status b in
  {| pb_Meta := pb_Meta b; pb_Spec := pb_Spec b;
     pb_Status := {| bst_Phase := p; bst_StartTime := bst_StartTime s;
                     bst_CompletionTime := Some t; bst_BackupSize := bst_BackupSize s;
                     bst_DestinationPath := bst_DestinationPath s; bst_Conditions := bst_Conditions s |} |}.

Definition ownerRef (b : PostgresBackup) : OwnerReference :=
  {| or_Kind := "PostgresBackup"; or_Name := om_Name (pb_Meta b); or_UID := om_UID (pb_Meta b); or_Controller := true |}.

Definition JobComplete : string := "Complete".
Definition JobFailed : string := "Failed".

Section Reconciler.
Context {W : Type} `{Runtime W}.
Context (T : UnicodeTables).

(** [createBackupJob]. *)
Definition createBackupJob (b : PostgresBackup) (cluster : PostgresCluster) : M W (Result * option error) :=
  match rt_SetControllerReference KJob (ownerRef b) (om_Namespace (pb_Meta b)) (BuildBackupJob b cluster) with
  | Err e => ret (done_result, Some e)
  | Ok job =>
      let! r := rt_Create KJob job in
      match r with
      | Err e => ret (done_result, Some e)
      | Ok _ =>
          let! now := rt_Now in
          let! t := rt_Now in
          let b1 := SetBackupCondition t (set_running now b) "Running" ConditionTrue
                      "JobCreated" "Backup job has been created" in
          let! e := err_of (rt_StatusUpdate KBackup b1) in
          ret (requeue_after 15, e)
      end
  end.

(** The loop of [syncBackupStatus]: the first decisive condition of the Job wins. *)
Fixpoint sync_conditions (b : PostgresBackup) (cs : list JobCondition) : M W (Result * option error) :=
  match cs with
  | [] => ret (requeue_after 15, None)
  | c :: cs' =>
      if (jc_Type c =? JobComplete)%string && (jc_Status c =? "True")%string then
        let! now := rt_Now in
        let! t := rt_Now in
        let b1 := SetBackupCondition t (set_finished BackupPhaseCompleted now b) "Complete" ConditionTrue
                    "JobSucceeded" "Backup completed successfully" in
        let! e := err_of (rt_StatusUpdate KBackup b1) in
        ret (done_result, e)
      else if (jc_Type c =? JobFailed)%string && (jc_Status c =? "True")%string then
        let! now := rt_Now in
        let! t := rt_Now in
        let b1 := SetBackupCondition t (set_finished BackupPhaseFailed now b) "Complete" ConditionFalse
                    "JobFailed" "Backup job failed" in
        let! e := err_of (rt_StatusUpdate KBackup b1) in
        ret (done_result, e)
      else sync_conditions b cs'
  end.

(** [syncBackupStatus]. *)
Definition syncBackupStatus (b : PostgresBackup) (job : Job) : M W (Result * option error) :=
  sync_conditions b (job_Conditions job).

(** The part of [Reconcile] that follows the cluster checks: create the Job or read it. *)
Definition drive_job (b : PostgresBackup) (cluster : PostgresCluster) : M W (Result * option error) :=
  let! rj := rt_Get KJob (nn (BackupJobName b) (om_Namespace (pb_Meta b))) in
  match rj with
  | Err e => if IsNotFound e then createBackupJob b cluster else ret (done_result, Some e)
  | Ok job => syncBackupStatus b job
  end.

(** [Reconcile]. *)
Definition Reconcile (req : NamespacedName) : M W (Result * option error) :=
  let! r := rt_Get KBackup req in
  match r with
  | Err e => if IsNotFound e then ret (done_result, None) else ret (done_result, Some e)
  | Ok b =>
      if terminal (bst_Phase (pb_Status b)) then ret (done_result, None)
      else
        let! rc := rt_Get KCluster (nn (pbs_ClusterName (pb_Spec b)) (om_Namespace (pb_Meta b))) in
        match rc with
        | Err e =>
            if IsNotFound e then
              let! t := rt_Now in
              let b1 := SetBackupCondition t b "ClusterFound" ConditionFalse "ClusterNotFound"
                          ("PostgresCluster " +:+ Quote T (pbs_ClusterName (pb_Spec b)) +:+ " not found") in
              let! _ := rt_StatusUpdate KBackup b1 in
              ret (requeue_after 30, None)
            else ret (done_result, Some e)
        | Ok cluster =>
            if negb (IsClusterRunning cluster) then
              let! t := rt_Now in
              let b1 := SetBackupCondition t b "ClusterReady" ConditionFalse "ClusterNotReady"
                          ("PostgresCluster " +:+ Quote T (cluster_Name cluster) +:+ " is not in Running phase") in
              let! _ := rt_StatusUpdate KBackup b1 in
              ret (requeue_after 20, None)
            else drive_job b cluster
        end
  end.

End Reconciler.

(** ** The life cycle *)

Definition job_key (b : PostgresBackup) : NamespacedName := nn (BackupJobName b) (om_Namespace (pb_Meta b)).

(** The outcome a Job announces: its first condition Complete or Failed with status
    True. *)
Fixpoint verdict (cs : list JobCondition) : option BackupPhase :=
  match cs with
  | [] => None
  | c :: cs' =>
      if (jc_Type c =? JobComplete)%string && (jc_Status c =? "True")%string then Some BackupPhaseCompleted
      else if (jc_Type c =? JobFailed)%string && (jc_Status c =? "True")%string then Some BackupPhaseFailed
      else verdict cs'
  end.

(** The transitions of the state machine, with what justifies each: nothing happens to
    the phase; the Job is created; the Job announces its outcome. *)
Inductive transition {W} `{RuntimeLaws W} (w w' : W) (b : PostgresBackup) :
  PostgresBackupStatus -> Prop :=
  | stays s : bst_Phase s = bst_Phase (pb_Status b) -> bst_StartTime s = bst_StartTime (pb_Status b) ->
      bst_CompletionTime s = bst_CompletionTime (pb_Status b) -> transition w w' b s
  | starts s t : bst_Phase s = BackupPhaseRunning -> bst_StartTime s = Some t ->
      stored w KJob (job_key b) = None -> is_Some (stored w' KJob (job_key b)) -> transition w w' b s
  | finishes s t job p : stored w KJob (job_key b) = Some job -> verdict (job_Conditions job) = Some p ->
      bst_Phase s = p -> bst_CompletionTime s = Some t ->
      bst_StartTime s = bst_StartTime (pb_Status b) -> transition w w' b s.

Lemma verdict_terminal cs p : verdict cs = Some p -> terminal p = true.
Proof. induction cs as [|c cs IH]; [done|]. cbn. case_match; [by intros [= <-]|]. case_match; [by intros [= <-]|done]. Qed.

Section Lemmas.
Context {W : Type} `{RuntimeLaws W}.
Context (T : UnicodeTables).

(** A status write leaves the old status or the new one. *)
Lemma status_write b1 w e w' b :
  err_of (rt_StatusUpdate KBackup b1) w = (e, w') -> stored w KBackup (key_of (pb_Meta b1)) = Some b ->
  exists b', stored w' KBackup (key_of (pb_Meta b1)) = Some b' /\
    (pb_Status b' = pb_Status b \/ pb_Status b' = pb_Status b1) /\
    (e = None -> pb_Status b' = pb_Status b1).
Proof.
  unfold err_of. intros Hw Hs. mstep Hw. injection Hw as <- ->.
  destruct (status_keeps KBackup _ _ _ _ _ E Hs) as (b' & Hb' & _ & _ & _ & Hst).
  exists b'. split_and!; [done..|]. destruct a as [b2|]; [|done].
  destruct (status_ok KBackup _ _ _ _ E) as (_ & _ & Hb2 & _ & Hs2 & _). intros _.
  unfold key in *. cbn in *. rewrite Hb' in Hb2. by injection Hb2 as <-.
Qed.

Lemma status_write_frame b1 w e w' k n :
  err_of (rt_StatusUpdate KBackup b1) w = (e, w') -> k <> KBackup -> stored w' k n = stored w k n.
Proof. unfold err_of. intros Hw Hk. mstep Hw. injection Hw as <- ->. eapply status_frame; [done|by left]. Qed.

Lemma createBackupJob_transition b c w r w' :
  stored w KBackup (key_of (pb_Meta b)) = Some b ->
  createBackupJob b c w = (r, w') ->
  exists b', stored w' KBackup (key_of (pb_Meta b)) = Some b' /\ transition w w' b (pb_Status b').
Proof.
  unfold createBackupJob. intros Hs Hw. destruct (rt_SetControllerReference _ _ _ _) as [job|e] eqn:Er.
  2: { injection Hw as <- <-. exists b. split; [done|]. by apply stays. }
  apply setref_key in Er. change (key (BuildBackupJob b c : obj KJob)) with (job_key b) in Er.
  mstep Hw. destruct a as [j|e].
  2: { injection Hw as <- <-. destruct (keeps_Create KBackup _ _ _ _ _ _ _ E Hs) as (b' & Hb' & _).
       exists b'. split; [done|]. rewrite (create_frame _ _ _ _ _ E) in Hb' by by left.
       rewrite Hs in Hb'. injection Hb' as <-. by apply stays. }
  destruct (create_ok _ _ _ _ _ E) as (Hn & Hj & _). rewrite Er in Hn, Hj.
  rewrite <- (create_frame _ _ _ _ _ E) in Hs by by left.
  mstep Hw. rewrite <- (now_frame _ _ _ E0) in Hs. rewrite <- (now_frame _ _ _ E0) in Hj.
  mstep Hw. rewrite <- (now_frame _ _ _ E1) in Hs. rewrite <- (now_frame _ _ _ E1) in Hj.
  mstep Hw. injection Hw as <- ->.
  destruct (status_write _ _ _ _ _ E2 Hs) as (b' & Hb' & Hst & _). exists b'. split; [done|].
  destruct Hst as [->| ->]; [by apply stays|]. eapply starts; [done..|].
  rewrite (status_write_frame _ _ _ _ _ _ E2) by done. rewrite Hj. eauto.
Qed.

(** Reporting a finished Job. *)
Lemma finish_transition p b w r w' b1 b2 job (w0 : W) :
  stored w KBackup (key_of (pb_Meta b)) = Some b -> stored w0 KJob (job_key b) = Some job ->
  verdict (job_Conditions job) = Some p ->
  pb_Meta b1 = pb_Meta b -> bst_Phase (pb_Status b1) = p ->
  bst_StartTime (pb_Status b1) = bst_StartTime (pb_Status b) -> is_Some (bst_CompletionTime (pb_Status b1)) ->
  err_of (rt_StatusUpdate KBackup b1) w = (r, w') -> stored w' KBackup (key_of (pb_Meta b)) = Some b2 ->
  transition w0 w' b (pb_Status b2).
Proof.
  intros Hs Hj Hv Hm Hp Hst [t Ht] Hw Hb2. rewrite <- Hm in Hs.
  destruct (status_write _ _ _ _ _ Hw Hs) as (b' & Hb' & Hor & _). rewrite Hm, Hb2 in Hb'. injection Hb' as <-.
  destruct Hor as [->| ->]; [by apply stays|]. by eapply finishes.
Qed.

Lemma sync_transition b job cs w r w' (w0 : W) :
  stored w KBackup (key_of (pb_Meta b)) = Some b -> stored w0 KJob (job_key b) = Some job ->
  (forall p, verdict cs = Some p -> verdict (job_Conditions job) = Some p) ->
  sync_conditions b cs w = (r, w') ->
  exists b', stored w' KBackup (key_of (pb_Meta b)) = Some b' /\ transition w0 w' b (pb_Status b').
Proof.
  intros Hs Hj. induction cs as [|c cs IH]; cbn [sync_conditions verdict]; intros Hv Hw.
  { injection Hw as <- <-. exists b. split; [done|]. by apply stays. }
  case_match; [|case_match; [|by apply IH]].
  all: mstep Hw; rewrite <- (now_frame _ _ _ E) in Hs; mstep Hw; rewrite <- (now_frame _ _ _ E0) in Hs;
    mstep Hw; injection Hw as <- ->.
  all: edestruct status_write as (b' & Hb' & _); [exact E1|exact Hs|];
    exists b'; split; [exact Hb'|];
    eapply (finish_transition _ _ _ _ _ _ _ _ _ Hs Hj (Hv _ eq_refl)); [| | | |exact E1|exact Hb']; eauto.
Qed.

Lemma drive_job_transition b c w r w' :
  stored w KBackup (key_of (pb_Meta b)) = Some b -> drive_job b c w = (r, w') ->
  exists b', stored w' KBackup (key_of (pb_Meta b)) = Some b' /\ transition w w' b (pb_Status b').
Proof.
  unfold drive_job. intros Hs Hw. mstep Hw. pose proof (get_frame _ _ _ _ _ E) as F.
  destruct a as [job|e].
  - apply get_ok in E. eapply sync_transition; [|exact E| |exact Hw]; [by rewrite F|done].
  - case_match.
    + rewrite <- F in Hs. destruct (createBackupJob_transition _ _ _ _ _ Hs Hw) as (b' & Hb' & Ht).
      exists b'. split; [done|]. destruct Ht; [by apply stays|eapply starts|eapply finishes]; by rewrite <- ?F.
    + injection Hw as <- <-. exists b. rewrite F. split; [done|]. by apply stays.
Qed.

(** A write of a condition alone. *)
Lemma condition_transition t b ty reason msg w u w' (w0 : W) :
  stored w KBackup (key_of (pb_Meta b)) = Some b ->
  rt_StatusUpdate KBackup (SetBackupCondition t b ty ConditionFalse reason msg) w = (u, w') ->
  exists b', stored w' KBackup (key_of (pb_Meta b)) = Some b' /\ transition w0 w' b (pb_Status b').
Proof.
  intros Hs Hw. destruct (status_keeps KBackup _ _ _ _ b Hw Hs) as (b' & Hb' & _ & _ & _ & [Hst|Hst]);
    exists b'; (split; [done|]); cbn in Hst; rewrite Hst; by apply stays.
Qed.

Lemma Reconcile_transition req b w r w' :
  stored w KBackup req = Some b -> Reconcile T req w = (r, w') ->
  exists b', stored w' KBackup req = Some b' /\ transition w w' b (pb_Status b').
Proof.
  intros Hs Hw. pose proof (stored_key _ _ _ _ Hs) as Hk. change (key_of (pb_Meta b) = req) in Hk.
  rewrite <- Hk in *. unfold Reconcile in Hw. mstep Hw. pose proof (get_frame _ _ _ _ _ E) as F0.
  assert (Hs0 : stored w0 KBackup (key_of (pb_Meta b)) = Some b) by by rewrite F0.
  destruct a as [b0|e].
  2: { exists b. case_match; injection Hw as <- <-; (split; [done|]); by apply stays. }
  apply get_ok in E. rewrite Hs in E. injection E as <-.
  destruct (terminal _). { injection Hw as <- <-. exists b. split; [done|]. by apply stays. }
  mstep Hw. pose proof (get_frame _ _ _ _ _ E) as F1.
  assert (Hs1 : stored w1 KBackup (key_of (pb_Meta b)) = Some b) by by rewrite F1.
  destruct a as [c|e].
  - destruct (negb _).
    + mstep Hw. mstep Hw. injection Hw as <- ->. rewrite <- (now_frame _ _ _ E0) in Hs1.
      by eapply condition_transition.
    + destruct (drive_job_transition _ _ _ _ _ Hs1 Hw) as (b' & Hb' & Ht). exists b'. split; [done|].
      destruct Ht; [by apply stays|eapply starts|eapply finishes]; rewrite <- ?F0, <- ?F1; done.
  - case_match; [|injection Hw as <- <-; exists b; split; [done|]; by apply stays].
    mstep Hw. mstep Hw. injection Hw as <- ->. rewrite <- (now_frame _ _ _ E0) in Hs1.
    by eapply condition_transition.
Qed.

(** In a terminal phase the reconciler writes nothing at all. *)
Lemma Reconcile_terminal req b w r w' :
  stored w KBackup req = Some b -> terminal (bst_Phase (pb_Status b)) = true ->
  Reconcile T req w = (r, w') -> forall k n, stored w' k n = stored w k n.
Proof.
  intros Hs Ht Hw k n. unfold Reconcile in Hw. mstep Hw. rewrite <- (get_frame _ _ _ _ _ E).
  destruct a as [b0|e]; [|case_match; by injection Hw as _ <-].
  apply get_ok in E. rewrite Hs in E. injection E as <-. rewrite Ht in Hw. by injection Hw as _ <-.
Qed.

(** ** Jobs *)

(** The Job [n] is untouched, or it did not exist and is the one built for [b]. *)
Definition job_created (w w' : W) (b : PostgresBackup) (c : PostgresCluster) (n : NamespacedName) : Prop :=
  n = job_key b /\ stored w KJob n = None /\
  exists j, stored w' KJob n = Some j /\ same_spec KJob (BuildBackupJob b c) j.

Lemma createBackupJob_jobs b c w r w' n :
  createBackupJob b c w = (r, w') -> stored w' KJob n = stored w KJob n \/ job_created w w' b c n.
Proof.
  unfold createBackupJob. intros Hw. destruct (rt_SetControllerReference _ _ _ _) as [job|e] eqn:Er.
  2: { injection Hw as <- <-. by left. }
  pose proof (setref_key _ _ _ _ _ Er) as Hk. change (key (BuildBackupJob b c : obj KJob)) with (job_key b) in Hk.
  apply setref_ok in Er as (refs & -> & _). mstep Hw.
  assert (Hrest : stored w' KJob n = stored w0 KJob n).
  { destruct a; [|by injection Hw as _ <-]. mstep Hw. mstep Hw. mstep Hw. injection Hw as _ <-.
    rewrite (status_write_frame _ _ _ _ _ _ E2) by done.
    by rewrite (now_frame _ _ _ E1), (now_frame _ _ _ E0). }
  unfold job_created. rewrite Hrest. destruct (decide (n = job_key b)) as [->|Hne].
  - destruct (stored w KJob (job_key b)) as [j0|] eqn:Ej.
    + left. rewrite <- Ej. eapply create_frame; [exact E|]. right; right. rewrite Ej. eauto.
    + destruct (stored w0 KJob (job_key b)) as [j|] eqn:Ej'; [|by left]. right. split_and!; [done..|].
      exists j. split; [done|]. rewrite <- Hk in Ej, Ej'.
      destruct (create_persists _ _ _ _ _ _ E Ej Ej') as [Hsp _]. by apply (same_spec_set_owner KJob) in Hsp.
  - left. eapply create_frame; [exact E|]. right; left. by rewrite Hk.
Qed.

Lemma sync_jobs b cs w r w' n : sync_conditions b cs w = (r, w') -> stored w' KJob n = stored w KJob n.
Proof.
  revert w. induction cs as [|c cs IH]; cbn [sync_conditions]; intros w Hw; [by injection Hw as _ <-|].
  case_match; [|case_match; [|by apply IH]].
  all: mstep Hw; mstep Hw; mstep Hw; injection Hw as _ <-; rewrite (status_write_frame _ _ _ _ _ _ E1) by done;
    by rewrite (now_frame _ _ _ E0), (now_frame _ _ _ E).
Qed.

Lemma Reconcile_jobs req w r w' n :
  Reconcile T req w = (r, w') ->
  stored w' KJob n = stored w KJob n \/
  exists b c, stored w KBackup req = Some b /\ terminal (bst_Phase (pb_Status b)) = false /\
    stored w KCluster (nn (pbs_ClusterName (pb_Spec b)) (om_Namespace (pb_Meta b))) = Some c /\
    IsClusterRunning c = true /\ job_created w w' b c n.
Proof.
  unfold Reconcile. intros Hw. mstep Hw. pose proof (get_frame _ _ _ _ _ E) as F0. rewrite <- F0.
  destruct a as [b|e]; [|case_match; injection Hw as _ <-; by left].
  apply get_ok in E. destruct (terminal _) eqn:Ht; [injection Hw as _ <-; by left|].
  mstep Hw. pose proof (get_frame _ _ _ _ _ E0) as F1. rewrite <- F1. destruct a as [c|e].
  - apply get_ok in E0. rewrite F0 in E0. destruct (IsClusterRunning c) eqn:Hr; cbn [negb] in Hw.
    + unfold drive_job in Hw. mstep Hw. pose proof (get_frame _ _ _ _ _ E1) as F2. rewrite <- F2.
      destruct a as [job|e]; [left; by eapply sync_jobs|]. case_match; [|injection Hw as _ <-; by left].
      destruct (createBackupJob_jobs _ _ _ _ _ n Hw) as [|(-> & Hn & Hj)]; [by left|right].
      exists b, c. split_and!; [done..|]. split; [done|]. split; [by rewrite <- F0, <- F1, <- F2|done].
    + mstep Hw. mstep Hw. injection Hw as _ <-. left.
      rewrite (status_frame _ _ _ _ _ E2) by (left; done). by eapply now_frame.
  - case_match; [|injection Hw as _ <-; by left]. mstep Hw. mstep Hw. injection Hw as _ <-. left.
    rewrite (status_frame _ _ _ _ _ E2) by (left; done). by eapply now_frame.
Qed.

Lemma createBackupJob_frames b c :
  frames (fun k n => k = KJob \/ (k = KBackup /\ n = key_of (pb_Meta b))) (createBackupJob (W:=W) b c).
Proof.
  unfold createBackupJob. destruct (rt_SetControllerReference _ _ _ _) eqn:Er; [|apply frames_ret].
  apply setref_key in Er. unfold err_of. frames_tac; auto.
Qed.

Lemma sync_frames b cs :
  frames (fun k n => k = KJob \/ (k = KBackup /\ n = key_of (pb_Meta b))) (sync_conditions (W:=W) b cs).
Proof. induction cs as [|c cs IH]; cbn [sync_conditions]; unfold err_of; frames_tac; auto. Qed.

Lemma Backup_Reconcile_frames req :
  frames (fun k n => k = KJob \/ (k = KBackup /\ n = req)) (Reconcile (W:=W) T req).
Proof.
  unfold Reconcile. apply frames_bind_Get. intros [b|e] Hb; [|frames_tac].
  specialize (Hb b eq_refl). change (key_of (pb_Meta b) = req) in Hb. rewrite <- Hb.
  case_match; [frames_tac|]. apply frames_bind; [apply frames_Get|]. intros [c|e]; [|frames_tac; by right].
  case_match; [frames_tac; by right|]. unfold drive_job. apply frames_bind; [apply frames_Get|].
  intros [j|e]; [apply sync_frames|]. case_match; [apply createBackupJob_frames|apply frames_ret].
Qed.

End Lemmas.

(** C11: every phase change of a backup is justified.  Whatever the outcome of [Reconcile],
    the backup is still there and its phase, start and completion times are unchanged, or
    it entered Running because its Job did not exist and was created, or it entered
    Completed or Failed, keeping its start time, because the first decisive condition of
    its Job says so. *)
Theorem backup_transitions (W : Type) (R : Runtime W) (L : RuntimeLaws W) (T : UnicodeTables)
  (req : NamespacedName) (b : PostgresBackup) (w w' : W) (r : Result * option error) :
  stored w KBackup req = Some b -> Reconcile T req w = (r, w') ->
  exists b', stored w' KBackup req = Some b' /\ transition w w' b (pb_Status b').
Proof. apply Reconcile_transition. Qed.

Definition sample_backup : PostgresBackup :=
  {| pb_Meta := mkMeta "nightly" "prod" ∅;
     pb_Spec := {| pbs_ClusterName := "db"; pbs_Method := BackupMethodBaseBackup; pbs_Online := true |};
     pb_Status := {| bst_Phase := BackupPhaseEmpty; bst_StartTime := None; bst_CompletionTime := None;
                     bst_BackupSize := 0; bst_DestinationPath := ""; bst_Conditions := [] |} |}.

Definition sample_world : World :=
  put_obj KBackup sample_backup (put_obj KCluster running_cluster
    {| w_store := empty_store; w_faults := []; w_clock := 0; w_events := []; w_rand := []; w_execs := [];
       w_commands := [] |}).

Definition sample_req : NamespacedName := nn "nightly" "prod".

Lemma backup_transitions_witness :
  exists b', stored (Reconcile ascii_tables sample_req sample_world).2 KBackup sample_req = Some b' /\
    transition sample_world (Reconcile ascii_tables sample_req sample_world).2 sample_backup (pb_Status b').
Proof.
  apply (backup_transitions World _ _ ascii_tables sample_req sample_backup sample_world _
           (Reconcile ascii_tables sample_req sample_world).1).
  - vm_compute. reflexivity.
  - apply surjective_pairing.
Defined.

(** C13: a backup runs one Job.  [Reconcile] changes no object but the named backup and,
    possibly, one Job; an existing Job is never modified, and a Job appears only while
    the backup is not terminal and its cluster is running, under the name derived from
    the backup and with the pod built for it. *)
Theorem backup_runs_one_job (W : Type) (R : Runtime W) (L : RuntimeLaws W) (T : UnicodeTables)
  (req : NamespacedName) (w w' : W) (r : Result * option error) :
  Reconcile T req w = (r, w') ->
  (forall k n, k <> KJob -> ~ (k = KBackup /\ n = req) -> stored w' k n = stored w k n) /\
  (forall n, stored w' KJob n = stored w KJob n \/
     exists b c, stored w KBackup req = Some b /\ terminal (bst_Phase (pb_Status b)) = false /\
       stored w KCluster (nn (pbs_ClusterName (pb_Spec b)) (om_Namespace (pb_Meta b))) = Some c /\
       IsClusterRunning c = true /\ job_created w w' b c n).
Proof.
  intros Hw. split; [|intros n; by eapply Reconcile_jobs].
  intros k n Hk Hn. eapply Backup_Reconcile_frames; [exact Hw|]. by intros [?|?].
Qed.

Lemma backup_runs_one_job_witness :
  stored (Reconcile ascii_tables sample_req sample_world).2 KCluster (nn "db" "prod") =
  stored sample_world KCluster (nn "db" "prod").
Proof.
  apply (backup_runs_one_job World _ _ ascii_tables sample_req sample_world _
           (Reconcile ascii_tables sample_req sample_world).1).
  - apply surjective_pairing.
  - discriminate.
  - intros [? _]. discriminate.
Defined.

(** The start time is recorded only by the pass that creates the Job: when that status
    write fails, later passes find the Job, and the backup completes without one. *)
Example start_time_lost :
  let w1 := (Reconcile ascii_tables sample_req
               (with_faults [None; None; None; None; Some FaultConflict] sample_world)).2 in
  let job := {| job_Meta := mkMeta "nightly-backup" "prod" ∅;
                job_Spec := job_Spec (BuildBackupJob sample_backup running_cluster);
                job_Conditions := [{| jc_Type := JobComplete; jc_Status := "True" |}] |} in
  let w2 := (Reconcile ascii_tables sample_req (put_obj KJob job w1)).2 in
  option_map (fun b => (bst_Phase (pb_Status b), bst_StartTime (pb_Status b), bst_CompletionTime (pb_Status b)))
    (lookup_obj w2 KBackup sample_req) = Some (BackupPhaseCompleted, None, Some 2).
Proof. vm_compute. reflexivity. Qed.

End Backup.
