(* ===== verification/Pgbouncer.v ===== *)
(** * internal/portmap, internal/pgbouncer: connection pooler files

    Named ports, the pooler configuration and the text of [pgbouncer.ini], with a
    reader of INI text the rendered file is checked against. *)

From Stdlib Require Import ZArith Lia List Bool Ascii.
From stdpp Require Import base list strings gmap sorting.
From S2P Require Import Prelude GoStrings K8s Api PgConfig.

Local Open Scope Z_scope.

Module Portmap.

Definition PostgresPort : Z := 5432.
Definition PgBouncerPort : Z := 6432.
Definition MetricsPort : Z := 9187.
Definition ManagerMetricsPort : Z := 8443.
Definition ManagerHealthPort : Z := 8081.

Record Port := { port_Name : string; port_Port : Z }.

(** [All]. *)
Definition All : list Port :=
  [{| port_Name := "postgres"; port_Port := PostgresPort |};
   {| port_Name := "pgbouncer"; port_Port := PgBouncerPort |};
   {| port_Name := "metrics"; port_Port := MetricsPort |};
   {| port_Name := "manager-metrics"; port_Port := ManagerMetricsPort |};
   {| port_Name := "health"; port_Port := ManagerHealthPort |}].

Definition PostgresOnly : list Port := [{| port_Name := "postgres"; port_Port := PostgresPort |}].

(** [Find]; the boolean result is the option. *)
Definition Find (name : string) : option Port :=
  List.find (fun p => (port_Name p =? name)%string) All.

Definition IsWellKnown (port : Z) : bool := existsb (fun p => port_Port p =? port) All.

Definition SortedNames : list string := sort_strings (map port_Name All).

(** [SafeInt32]: out-of-range ports collapse to zero. *)
Definition SafeInt32 (port : Z) : Z :=
  if (port <? 0) || (65535 <? port) then 0 else int32 port.

(** The narrowing never wraps. *)
Lemma SafeInt32_cases port : SafeInt32 port = if (0 <=? port) && (port <=? 65535) then port else 0.
Proof.
  unfold SafeInt32. destruct (Z.ltb_spec port 0), (Z.ltb_spec 65535 port), (Z.leb_spec 0 port), (Z.leb_spec port 65535);
    cbn; try lia. apply int32_id. unfold in_int32, min_int32, max_int32. lia.
Qed.

Lemma SafeInt32_id port : 0 <= port <= 65535 -> SafeInt32 port = port.
Proof. intros Hp. rewrite SafeInt32_cases. by destruct (Z.leb_spec 0 port), (Z.leb_spec port 65535); try lia. Qed.

End Portmap.

Module Pgbouncer.
Import Config HBA.

Definition DefaultListenPort : Z := 5432.
Definition AdminListenPort : Z := 6432.
Definition DefaultMaxClientConn : Z := 1000.
Definition DefaultDefaultPoolSize : Z := 20.
Definition DefaultMinPoolSize : Z := 0.
Definition DefaultReservePoolSize : Z := 5.
Definition DefaultReservePoolTimeout : Z := 5.
Definition DefaultServerIdleTimeout : Z := 600.
Definition DefaultServerLifetime : Z := 3600.
Definition DefaultQueryTimeout : Z := 0.
Definition DefaultClientIdleTimeout : Z := 0.
Definition DefaultLogConnections : Z := 0.
Definition DefaultLogDisconnections : Z := 0.
Definition DefaultLogPoolerErrors : Z := 1.
Definition Image : string := "pgbouncer/pgbouncer:1.22.1".

Definition PoolModeSession : string := "session".
Definition PoolModeTransaction : string := "transaction".
Definition PoolModeStatement : string := "statement".

Record Config := {
  ListenPort : Z;
  PoolMode : string;
  MaxClientConn : Z;
  DefaultPoolSize : Z;
  MinPoolSize : Z;
  ReservePoolSize : Z;
  ReservePoolTimeout : Z;
  ServerIdleTimeout : Z;
  ServerLifetime : Z;
  QueryTimeout : Z;
  ClientIdleTimeout : Z;
}.

Definition DefaultConfig : Config :=
  {| ListenPort := DefaultListenPort; PoolMode := PoolModeTransaction; MaxClientConn := DefaultMaxClientConn;
     DefaultPoolSize := DefaultDefaultPoolSize; MinPoolSize := DefaultMinPoolSize;
     ReservePoolSize := DefaultReservePoolSize; ReservePoolTimeout := DefaultReservePoolTimeout;
     ServerIdleTimeout := DefaultServerIdleTimeout; ServerLifetime := DefaultServerLifetime;
     QueryTimeout := DefaultQueryTimeout; ClientIdleTimeout := DefaultClientIdleTimeout |}.

(** A setting of the [pgbouncer] section. *)
Definition setting (key value : string) : string := key +:+ " = " +:+ value.
Definition int_setting (key : string) (z : Z) : string := setting key (itoa z).

(** The lines [INI] writes, in order. *)
Definition database_lines (primaryHost database : string) : list string :=
  [database +:+ " = host=" +:+ primaryHost +:+ " port=5432 dbname=" +:+ database;
   "* = host=" +:+ primaryHost +:+ " port=5432"; ""].

Definition pgbouncer_settings (c : Config) (clusterName : string) : list (string * string) :=
  [("listen_port", itoa (ListenPort c)); ("listen_addr", "*"); ("pool_mode", PoolMode c);
   ("max_client_conn", itoa (MaxClientConn c)); ("default_pool_size", itoa (DefaultPoolSize c));
   ("min_pool_size", itoa (MinPoolSize c)); ("reserve_pool_size", itoa (ReservePoolSize c));
   ("reserve_pool_timeout", itoa (ReservePoolTimeout c)); ("server_idle_timeout", itoa (ServerIdleTimeout c));
   ("server_lifetime", itoa (ServerLifetime c))] ++
  (if 0 <? QueryTimeout c then [("query_timeout", itoa (QueryTimeout c))] else []) ++
  (if 0 <? ClientIdleTimeout c then [("client_idle_timeout", itoa (ClientIdleTimeout c))] else []) ++
  [("auth_type", "scram-sha-256"); ("auth_file", "/etc/pgbouncer/userlist.txt");
   ("admin_users", "pgbouncer_admin"); ("stats_users", clusterName +:+ "_stats");
   ("server_tls_sslmode", "prefer"); ("log_connections", itoa DefaultLogConnections);
   ("log_disconnections", itoa DefaultLogDisconnections); ("log_pooler_errors", itoa DefaultLogPoolerErrors);
   ("ignore_startup_parameters", "extra_float_digits")].

(** [INI]. *)
Definition INI (c : Config) (clusterName primaryHost database : string) : string :=
  write_lines (("[databases]" :: database_lines primaryHost database) ++
               ("[pgbouncer]" :: map (fun kv => setting kv.1 kv.2) (pgbouncer_settings c clusterName))).

(** [UserList], given the order in which the map is iterated. *)
Definition UserList (T : UnicodeTables) (users : list (string * string)) : string :=
  write_lines (map (fun u => Quote T u.1 +:+ " " +:+ Quote T u.2) users).

Definition ServiceName (clusterName : string) : string := clusterName +:+ "-pooler".
Definition DeploymentName (clusterName : string) : string := clusterName +:+ "-pooler".
Definition ConfigMapName (clusterName : string) : string := clusterName +:+ "-pgbouncer-config".
Definition SecretName (clusterName : string) : string := clusterName +:+ "-pgbouncer-users".
Definition ListenAddr (c : Config) : string := ":" +:+ itoa (ListenPort c).

(** ** Reading INI text *)

(** The lines after a section header. *)
Fixpoint ini_section (name : string) (ls : list string) : list string :=
  match ls with
  | [] => []
  | l :: ls' => if (l =? "[" +:+ name +:+ "]")%string then ls' else ini_section name ls'
  end.

(** The value of the first line [key = value]. *)
Fixpoint ini_key (key : string) (ls : list string) : option string :=
  match ls with
  | [] => None
  | l :: ls' =>
      if has_prefix (key +:+ " = ") l then Some (sdrop (String.length key + 3) l) else ini_key key ls'
  end.

Definition ini_get (section key text : string) : option string :=
  ini_key key (ini_section section (split_byte "010" text)).

Lemma has_prefix_refl a b : has_prefix a (a +:+ b) = true.
Proof.
  unfold has_prefix. induction a as [|c a IH]; [by destruct b|]. rewrite app_cons_l. cbn [String.prefix].
  by destruct (ascii_dec c c).
Qed.

(** A key without a space is a prefix of a setting only of the same key. *)
Lemma setting_prefix k k' v :
  sall (neqc " ") k = true -> sall (neqc " ") k' = true ->
  has_prefix (k +:+ " = ") (setting k' v) = true -> k = k'.
Proof.
  unfold has_prefix, setting. revert k'. induction k as [|c k IH]; intros [|d k'] Hk Hk' H.
  - done.
  - cbn [sall] in Hk'. breflect. unfold neqc in H0. breflect.
    rewrite app_nil_l_s, app_cons_l in H. cbn [String.prefix] in H.
    destruct (ascii_dec " " d) as [<-|]; [|done]. done.
  - cbn [sall] in Hk. breflect. unfold neqc in H0. breflect.
    rewrite app_nil_l_s, app_cons_l in H. change (" = " +:+ v) with (String " " ("= " +:+ v)) in H.
    cbn [String.prefix] in H. destruct (ascii_dec c " ") as [->|]; [|done]. done.
  - cbn [sall] in Hk, Hk'. breflect. rewrite !app_cons_l in H. cbn [String.prefix] in H.
    destruct (ascii_dec c d) as [->|]; [|done]. f_equal. by apply IH.
Qed.

Lemma ini_key_settings k (kvs : list (string * string)) rest :
  sall (neqc " ") k = true -> Forall (fun kv => sall (neqc " ") kv.1 = true) kvs ->
  ini_key k (map (fun kv => setting kv.1 kv.2) kvs ++ rest) =
  match List.find (fun kv => (kv.1 =? k)%string) kvs with
  | Some kv => Some kv.2
  | None => ini_key k rest
  end.
Proof.
  intros Hk. induction 1 as [|[k' v] kvs Hk' _ IH]; [done|]. cbn [map app ini_key List.find fst snd] in *.
  destruct (String.eqb_spec k' k) as [->|Hne].
  - unfold setting. rewrite <- app_assoc_s, has_prefix_refl, sdrop_app; [done|]. rewrite length_app_s. simpl. lia.
  - destruct (has_prefix (k +:+ " = ") (setting k' v)) eqn:E; [|done].
    apply setting_prefix in E; [congruence|done..].
Qed.

Lemma settings_keys c n : Forall (fun kv => sall (neqc " ") kv.1 = true) (pgbouncer_settings c n).
Proof. unfold pgbouncer_settings. repeat case_match; repeat constructor. Qed.

Lemma itoa_no_newline z : sall (neqc "010") (itoa z) = true.
Proof.
  unfold itoa. destruct (Z.ltb_spec z 0); [rewrite sall_app; apply andb_true_intro; split; [done|]|];
    (apply sall_digit_neq; [done|]; apply digits_all; lia).
Qed.

(** The text has the lines it was written with. *)
Lemma INI_lines c n h d :
  sall (neqc "010") (PoolMode c) = true -> sall (neqc "010") n = true -> sall (neqc "010") h = true ->
  sall (neqc "010") d = true ->
  split_byte "010" (INI c n h d) =
  "[databases]" :: database_lines h d ++
  "[pgbouncer]" :: map (fun kv => setting kv.1 kv.2) (pgbouncer_settings c n) ++ [""].
Proof.
  intros Hm Hn Hh Hd. unfold INI, write_lines. rewrite split_newline_lines.
  - rewrite <- !app_comm_cons, <- app_assoc. done.
  - apply Forall_app. split; [repeat constructor; by rewrite ?sall_app, ?Hh, ?Hd|].
    constructor; [done|]. apply Forall_map. unfold pgbouncer_settings, setting.
    repeat (apply Forall_app; split); repeat case_match; repeat constructor; cbn [fst snd];
      rewrite ?sall_app, ?itoa_no_newline, ?Hm, ?Hn; done.
Qed.

Lemma has_bracket_neq d h : (d +:+ " = host=" +:+ h =? "[pgbouncer]")%string = false.
Proof.
  apply String.eqb_neq. intros H. apply (f_equal (sall (neqc "="))) in H. rewrite sall_app in H.
  change (sall (neqc "=") (" = host=" +:+ h)) with false in H. by rewrite andb_false_r in H.
Qed.

(** Looking a setting up in the rendered file. *)
Lemma INI_get c n h d k :
  sall (neqc "010") (PoolMode c) = true -> sall (neqc "010") n = true -> sall (neqc "010") h = true ->
  sall (neqc "010") d = true -> sall (neqc " ") k = true ->
  ini_get "pgbouncer" k (INI c n h d) =
  snd <$> List.find (fun kv => (kv.1 =? k)%string) (pgbouncer_settings c n).
Proof.
  intros Hm Hn Hh Hd Hk. unfold ini_get. rewrite INI_lines by done.
  cbn [ini_section app database_lines]. change ("[" +:+ "pgbouncer" +:+ "]") with "[pgbouncer]".
  change ("[databases]" =? "[pgbouncer]")%string with false. cbv iota.
  change ("* = host=" +:+ ?x) with ("*" +:+ " = host=" +:+ x). rewrite !has_bracket_neq, String.eqb_refl.
  change ("" =? "[pgbouncer]")%string with false. cbv iota.
  rewrite ini_key_settings by (done || apply settings_keys).
  destruct (List.find _ _); [done|]. cbn [ini_key].
  destruct (has_prefix (k +:+ " = ") "") eqn:E; [|done]. destruct k; done.
Qed.

(** The rendered pgbouncer.ini reads back as the configuration.  For names, host and
    pool mode without line breaks, an INI reader finds in the [pgbouncer] section the
    listen port, the pool mode and the sizes of the configuration, and the two optional
    timeouts exactly when they are positive. *)
Theorem INI_reads_back (c : Config) (clusterName primaryHost database : string) :
  sall (neqc "010") (PoolMode c) = true -> sall (neqc "010") clusterName = true ->
  sall (neqc "010") primaryHost = true -> sall (neqc "010") database = true ->
  let get key := ini_get "pgbouncer" key (INI c clusterName primaryHost database) in
  get "listen_port" = Some (itoa (ListenPort c)) /\ get "pool_mode" = Some (PoolMode c) /\
  get "max_client_conn" = Some (itoa (MaxClientConn c)) /\
  get "default_pool_size" = Some (itoa (DefaultPoolSize c)) /\
  get "min_pool_size" = Some (itoa (MinPoolSize c)) /\
  get "reserve_pool_size" = Some (itoa (ReservePoolSize c)) /\
  get "server_lifetime" = Some (itoa (ServerLifetime c)) /\
  get "query_timeout" = (if 0 <? QueryTimeout c then Some (itoa (QueryTimeout c)) else None) /\
  get "client_idle_timeout" = (if 0 <? ClientIdleTimeout c then Some (itoa (ClientIdleTimeout c)) else None) /\
  get "stats_users" = Some (clusterName +:+ "_stats").
Proof.
  intros Hm Hn Hh Hd get. unfold get. rewrite !INI_get by done. unfold pgbouncer_settings.
  destruct (0 <? QueryTimeout c), (0 <? ClientIdleTimeout c); by split_and!.
Qed.

Lemma INI_reads_back_witness :
  ini_get "pgbouncer" "listen_port" (INI DefaultConfig "db" "db-primary" "db") = Some (itoa 5432).
Proof. apply (INI_reads_back DefaultConfig "db" "db-primary" "db"); reflexivity. Defined.

End Pgbouncer.
