(* ===== verification/PoolerController.v ===== *)
(** * internal/controller/postgrespooler_controller.go

    The reconciler of the PgBouncer pooler of a cluster: the objects it builds, the
    reconcile, and how the pooler objects relate to each other and to the database's. *)

From Stdlib Require Import ZArith Lia List Bool Ascii.
From stdpp Require Import base list strings gmap.
From S2P Require Import Prelude GoStrings K8s Api Runtime FakeRuntime Ensure PgConfig PgStatus PgResources Pgbouncer.
From S2P Require Import ClusterController.

Local Open Scope Z_scope.
Local Open Scope athos_scope.

Module Pooler.
Import Naming Labels Pgbouncer.

Definition poolerConfigMap (c : PostgresCluster) (cfg : Config) (primarySvc : string) : ConfigMap :=
  {| cm_Meta := mkMeta (Pgbouncer.ConfigMapName (cluster_Name c)) (cluster_Namespace c) (CommonLabels c);
     cm_Data := {["pgbouncer.ini" := INI cfg (cluster_Name c) primarySvc (cluster_Name c)]} |}.

Definition poolerLabels (c : PostgresCluster) : gmap string string :=
  list_to_map [("app.kubernetes.io/component", "pooler"); ("pg.athos.io/cluster", cluster_Name c)].

Definition poolerContainer (cfg : Config) : Container :=
  {| c_Name := "pgbouncer"; c_Image := Image; c_ImagePullPolicy := ""; c_Command := [];
     c_SecurityContext := None;
     c_Ports := [{| cp_Name := "pgbouncer"; cp_ContainerPort := Portmap.SafeInt32 (ListenPort cfg);
                    cp_Protocol := "TCP" |}];
     c_Env := []; c_EnvFromSecrets := [];
     c_VolumeMounts := [{| vm_Name := "pgbouncer-config"; vm_MountPath := "/etc/pgbouncer" |}];
     c_Resources := no_resources; c_ReadinessProbe := None;
     c_LivenessProbe :=
       Some {| pr_Handler := TCPSocketAction (intstr_FromInt32 (Portmap.SafeInt32 (ListenPort cfg)));
               pr_InitialDelaySeconds := 5; pr_PeriodSeconds := 10; pr_TimeoutSeconds := 0;
               pr_SuccessThreshold := 0; pr_FailureThreshold := 0 |} |}.

Definition poolerPod (c : PostgresCluster) (cfg : Config) : PodSpec :=
  {| ps_ServiceAccountName := ""; ps_RestartPolicy := ""; ps_Containers := [poolerContainer cfg];
     ps_TopologySpreadConstraints := []; ps_Affinity := None; ps_Tolerations := []; ps_ImagePullSecrets := [];
     ps_PriorityClassName := ""; ps_TerminationGracePeriodSeconds := None; ps_SecurityContext := None;
     ps_Volumes := [{| v_Name := "pgbouncer-config";
                       v_Source := ConfigMapVolume (Pgbouncer.ConfigMapName (cluster_Name c)) |}] |}.

Definition poolerDeployment (c : PostgresCluster) (cfg : Config) : Deployment :=
  {| dep_Meta := mkMeta (DeploymentName (cluster_Name c)) (cluster_Namespace c) (CommonLabels c);
     dep_Spec := {| ds_Replicas := Some 2; ds_Selector := poolerLabels c;
                    ds_Template := {| pts_Labels := poolerLabels c; pts_Spec := poolerPod c cfg |} |} |}.

Definition poolerService (c : PostgresCluster) (cfg : Config) : Service :=
  {| svc_Meta := mkMeta (ServiceName (cluster_Name c)) (cluster_Namespace c) (CommonLabels c);
     svc_Spec :=
       {| svs_Type := "ClusterIP"; svs_ClusterIP := ""; svs_PublishNotReadyAddresses := false;
          svs_Selector := poolerLabels c;
          svs_Ports := [{| sp_Name := "pgbouncer"; sp_Port := Portmap.SafeInt32 (ListenPort cfg);
                           sp_TargetPort := intstr_FromInt32 (Portmap.SafeInt32 (ListenPort cfg));
                           sp_Protocol := "TCP" |}] |} |}.

Definition merge_configmap (desired existing : ConfigMap) : ConfigMap :=
  {| cm_Meta := cm_Meta existing; cm_Data := cm_Data desired |}.
Definition merge_deployment (desired existing : Deployment) : Deployment :=
  {| dep_Meta := dep_Meta existing; dep_Spec := dep_Spec desired |}.
(** Only the ports of an existing Service are updated. *)
Definition merge_service (desired existing : Service) : Service :=
  let s := svc_Spec existing in
  {| svc_Meta := svc_Meta existing;
     svc_Spec := {| svs_Type := svs_Type s; svs_ClusterIP := svs_ClusterIP s;
                    svs_PublishNotReadyAddresses := svs_PublishNotReadyAddresses s;
                    svs_Selector := svs_Selector s; svs_Ports := svs_Ports (svc_Spec desired) |} |}.

Definition wrap_ref (what : string) (e : error) : error :=
  ErrWrap ("setting controller reference on pooler " +:+ what +:+ ": ") e "".
Definition wrap_get (what : string) (e : error) : error := ErrWrap ("getting pooler " +:+ what +:+ ": ") e "".

Section Reconciler.
Context {W : Type} `{Runtime W}.

(** [reconcilePoolerConfigMap]. *)
Definition reconcilePoolerConfigMap (c : PostgresCluster) (cfg : Config) (primarySvc : string) : M W (option error) :=
  ensure (Cluster.ownerRef c) (cluster_Namespace c) (wrap_ref "ConfigMap") (wrap_get "ConfigMap") KConfigMap
    (poolerConfigMap c cfg primarySvc) nothing (fun _ => nothing) (merge_configmap (poolerConfigMap c cfg primarySvc)).

(** [reconcilePoolerDeployment]. *)
Definition reconcilePoolerDeployment (c : PostgresCluster) (cfg : Config) : M W (option error) :=
  ensure (Cluster.ownerRef c) (cluster_Namespace c) (wrap_ref "Deployment") (wrap_get "Deployment") KDeployment
    (poolerDeployment c cfg) nothing (fun _ => nothing) (merge_deployment (poolerDeployment c cfg)).

(** [reconcilePoolerService]. *)
Definition reconcilePoolerService (c : PostgresCluster) (cfg : Config) : M W (option error) :=
  ensure (Cluster.ownerRef c) (cluster_Namespace c) (wrap_ref "Service") (wrap_get "Service") KService
    (poolerService c cfg) nothing (fun _ => nothing) (merge_service (poolerService c cfg)).

(** The three steps of [Reconcile]. *)
Definition reconcilePooler (c : PostgresCluster) : M W (option error) :=
  let cfg := DefaultConfig in
  try! reconcilePoolerConfigMap c cfg (PrimaryServiceName c) in
  try! reconcilePoolerDeployment c cfg in
  reconcilePoolerService c cfg.

Definition enabled (c : PostgresCluster) : bool :=
  bool_decide (om_Annotations (pc_Meta c) !! "pg.athos.io/enable-pooler" = Some "true").

(** [Reconcile]. *)
Definition Reconcile (req : NamespacedName) : M W (Result * option error) :=
  let! r := rt_Get KCluster req in
  match r with
  | Err e =>
      if IsNotFound e then ret (done_result, None)
      else ret (done_result, Some (ErrWrap "getting PostgresCluster: " e ""))
  | Ok c =>
      if bool_decide (is_Some (om_DeletionTimestamp (pc_Meta c))) || pcs_Paused (pc_Spec c)
      then ret (done_result, None)
      else if negb (enabled c) then ret (done_result, None)
      else let! e := reconcilePooler c in ret (done_result, e)
  end.

End Reconciler.

(** ** The objects *)

Lemma poolerLabels_lookup c k :
  poolerLabels c !! k = if decide (k = LabelComponent) then Some "pooler"
                        else if decide (k = LabelCluster) then Some (cluster_Name c) else None.
Proof.
  unfold poolerLabels. simpl. rewrite !lookup_insert, lookup_empty. unfold LabelComponent, LabelCluster.
  repeat case_decide; congruence.
Qed.

(** The pooler is wired consistently and kept apart from the database.  The Service
    selects the pooler pods and targets the port the container exposes, which is the
    port PgBouncer is told to listen on; the pod mounts the generated ConfigMap; the
    Deployment selects its own pods; no selector of the pooler matches a database pod
    and no selector of the database matches a pooler pod. *)
Theorem pooler_objects_consistent (c : PostgresCluster) (cfg : Config) :
  0 <= ListenPort cfg <= 65535 -> sall (neqc "010") (PoolMode cfg) = true ->
  sall (neqc "010") (cluster_Name c) = true ->
  let pod := pts_Labels (ds_Template (dep_Spec (poolerDeployment c cfg))) in
  let dbpod := pts_Labels (ss_Template (sts_Spec (Resources.BuildStatefulSet c))) in
  let cm := poolerConfigMap c cfg (PrimaryServiceName c) in
  selects (ds_Selector (dep_Spec (poolerDeployment c cfg))) pod /\
  selects (svs_Selector (svc_Spec (poolerService c cfg))) pod /\
  ~ selects (svs_Selector (svc_Spec (poolerService c cfg))) dbpod /\
  Forall (fun svc => ~ selects (svs_Selector (svc_Spec svc)) pod)
    [Resources.BuildHeadlessService c; Resources.BuildPrimaryService c; Resources.BuildReplicaService c] /\
  (sp_TargetPort <$> svs_Ports (svc_Spec (poolerService c cfg))) =
    ((fun p => IntVal (cp_ContainerPort p)) <$> c_Ports (poolerContainer cfg)) /\
  (exists ini, cm_Data cm !! "pgbouncer.ini" = Some ini /\
     (Atoi <$> ini_get "pgbouncer" "listen_port" ini) =
       (fun p => Some (cp_ContainerPort p)) <$> head (c_Ports (poolerContainer cfg))) /\
  (v_Source <$> ps_Volumes (poolerPod c cfg)) = [ConfigMapVolume (om_Name (cm_Meta cm))].
Proof.
  intros Hp Hm Hn pod dbpod cm. split_and!.
  - done.
  - done.
  - intros Hs. apply (lookup_weaken _ _ LabelComponent "pooler") in Hs; [|done].
    change (Resources.podLabels c !! LabelComponent = Some "pooler") in Hs.
    rewrite Resources.podLabels_lookup_ne, CommonLabels_lookup in Hs by done. discriminate.
  - repeat constructor; intros Hs.
    + apply (lookup_weaken _ _ LabelName OperatorName) in Hs; [|done]. discriminate.
    + apply (lookup_weaken _ _ LabelRole RolePrimary) in Hs; [|done]. discriminate.
    + apply (lookup_weaken _ _ LabelRole RoleReplica) in Hs; [|done]. discriminate.
  - done.
  - eexists. split; [apply lookup_singleton_eq|].
    rewrite INI_get by (try done; unfold PrimaryServiceName; by rewrite ?sall_app, ?Hn).
    cbn. rewrite Portmap.SafeInt32_id by done. rewrite Atoi_itoa; [done|].
    unfold in_int64, min_int64, max_int64. lia.
  - done.
Qed.

Lemma pooler_objects_consistent_witness :
  selects (svs_Selector (svc_Spec (poolerService Status.sample_cluster DefaultConfig)))
          (pts_Labels (ds_Template (dep_Spec (poolerDeployment Status.sample_cluster DefaultConfig)))).
Proof.
  apply (pooler_objects_consistent Status.sample_cluster DefaultConfig); [split; discriminate|reflexivity..].
Defined.

(** The user list of the pooler does not exist.  pgbouncer.ini names
    [/etc/pgbouncer/userlist.txt] as its authentication file and the pod mounts the
    generated ConfigMap at [/etc/pgbouncer], but the ConfigMap has no such key and the
    pod has no other volume, so no client can authenticate. *)
Theorem pooler_userlist_missing (c : PostgresCluster) (cfg : Config) :
  sall (neqc "010") (PoolMode cfg) = true -> sall (neqc "010") (cluster_Name c) = true ->
  let cm := poolerConfigMap c cfg (PrimaryServiceName c) in
  (exists ini, cm_Data cm !! "pgbouncer.ini" = Some ini /\
     ini_get "pgbouncer" "auth_file" ini = Some "/etc/pgbouncer/userlist.txt") /\
  (vm_MountPath <$> c_VolumeMounts (poolerContainer cfg)) = ["/etc/pgbouncer"] /\
  (v_Source <$> ps_Volumes (poolerPod c cfg)) = [ConfigMapVolume (om_Name (cm_Meta cm))] /\
  cm_Data cm !! "userlist.txt" = None.
Proof.
  intros Hm Hn cm. split_and!; [|done..].
  eexists. split; [apply lookup_singleton_eq|].
  rewrite INI_get by (try done; unfold PrimaryServiceName; by rewrite ?sall_app, ?Hn).
  unfold pgbouncer_settings. by destruct (0 <? QueryTimeout cfg), (0 <? ClientIdleTimeout cfg).
Qed.

Lemma pooler_userlist_missing_witness :
  cm_Data (poolerConfigMap Status.sample_cluster DefaultConfig "db-primary") !! "userlist.txt" = None.
Proof. apply (pooler_userlist_missing Status.sample_cluster DefaultConfig); reflexivity. Defined.

(** ** The reconcile *)

Section Lemmas.
Context {W : Type} `{RuntimeLaws W}.

Definition pooler_object (c : PostgresCluster) (k : Kind) (n : NamespacedName) : Prop :=
  (k = KConfigMap /\ n = nn (Pgbouncer.ConfigMapName (cluster_Name c)) (cluster_Namespace c)) \/
  (k = KDeployment /\ n = nn (DeploymentName (cluster_Name c)) (cluster_Namespace c)) \/
  (k = KService /\ n = nn (ServiceName (cluster_Name c)) (cluster_Namespace c)).

Lemma configmap_frames c cfg svc : frames (only KConfigMap (key (poolerConfigMap c cfg svc : obj KConfigMap)))
  (reconcilePoolerConfigMap (W:=W) c cfg svc).
Proof. apply ensure_frames; intros; (apply frames_ret || done). Qed.

Lemma deployment_frames c cfg : frames (only KDeployment (key (poolerDeployment c cfg : obj KDeployment)))
  (reconcilePoolerDeployment (W:=W) c cfg).
Proof. apply ensure_frames; intros; (apply frames_ret || done). Qed.

Lemma service_frames c cfg : frames (only KService (key (poolerService c cfg : obj KService)))
  (reconcilePoolerService (W:=W) c cfg).
Proof. apply ensure_frames; intros; (apply frames_ret || done). Qed.

Lemma reconcilePooler_frames c : frames (pooler_object c) (reconcilePooler (W:=W) c).
Proof.
  unfold reconcilePooler. apply frames_mtry; [|apply frames_mtry].
  - eapply frames_weaken; [apply configmap_frames|]. intros k n [-> ->]. by left.
  - eapply frames_weaken; [apply deployment_frames|]. intros k n [-> ->]. by right; left.
  - eapply frames_weaken; [apply service_frames|]. intros k n [-> ->]. by right; right.
Qed.

(** A successful run of the three steps. *)
Lemma reconcilePooler_ok c w w' :
  reconcilePooler c w = (None, w') ->
  (exists m, stored w' KConfigMap (nn (Pgbouncer.ConfigMapName (cluster_Name c)) (cluster_Namespace c)) = Some m /\
     cm_Data m = cm_Data (poolerConfigMap c DefaultConfig (PrimaryServiceName c))) /\
  (exists d, stored w' KDeployment (nn (DeploymentName (cluster_Name c)) (cluster_Namespace c)) = Some d /\
     deployment_defaulted (dep_Spec (poolerDeployment c DefaultConfig)) (dep_Spec d)) /\
  (exists s, stored w' KService (nn (ServiceName (cluster_Name c)) (cluster_Namespace c)) = Some s /\
     svs_Ports (svc_Spec s) = svs_Ports (svc_Spec (poolerService c DefaultConfig)) /\
     svs_Selector (svc_Spec s) =
       match stored w KService (nn (ServiceName (cluster_Name c)) (cluster_Namespace c)) with
       | None => poolerLabels c
       | Some s0 => svs_Selector (svc_Spec s0)
       end).
Proof.
  unfold reconcilePooler, mtry. intros Hw. mstep Hw. destruct a; [done|]. mstep Hw. destruct a; [done|].
  pose proof (configmap_frames _ _ _ _ _ _ E) as F1. pose proof (deployment_frames _ _ _ _ _ E0) as F2.
  pose proof (service_frames _ _ _ _ _ Hw) as F3.
  apply ensure_spec in E; [|intros; apply frames_ret..|done]. destruct E as (m & Hm & Hms).
  apply ensure_spec in E0; [|intros; apply frames_ret..|done]. destruct E0 as (d & Hd & Hds).
  apply ensure_spec in Hw; [|intros; apply frames_ret..|done]. destruct Hw as (s & Hs & Hss).
  split_and!.
  - exists m. split.
    + rewrite F3, F2; [done|by intros [? _]..].
    + by destruct Hms as [[_ ?]|(e & _ & ? & _)].
  - exists d. split; [rewrite F3; [done|by intros [? _]]|].
    by destruct Hds as [[_ ?]|(e & _ & ? & _)].
  - exists s. split; [done|]. rewrite <- F1, <- F2 by by intros [? _].
    destruct Hss as [[He Hsp]|(e & He & Hsp & _)]; cbn in He, Hsp; destruct Hsp as [Hsel Hp];
      (split; [by apply serviceports_set in Hp; [|repeat constructor; set_solver]|by setoid_rewrite He]).
Qed.

End Lemmas.

(** C16: the pooler converges and leaves the rest alone.  [Reconcile] changes nothing but
    the three pooler objects of the named cluster, and nothing at all when the cluster is
    paused, under deletion or not annotated; when it succeeds on an annotated cluster,
    the ConfigMap holds the rendered configuration, the Deployment has the desired spec
    up to the API server's defaults for unset fields, and the Service has the desired
    ports; its selector is the desired one if the Service was absent and otherwise the
    selector it had, which the code does not update. *)
Theorem pooler_converges (W : Type) (R : Runtime W) (L : RuntimeLaws W) (req : NamespacedName)
  (c : PostgresCluster) (w w' : W) (r : Result) (e : option error) :
  stored w KCluster req = Some c -> Reconcile req w = ((r, e), w') ->
  (forall k n, ~ pooler_object c k n -> stored w' k n = stored w k n) /\
  (enabled c = false \/ pcs_Paused (pc_Spec c) = true \/ is_Some (om_DeletionTimestamp (pc_Meta c)) ->
     forall k n, stored w' k n = stored w k n) /\
  (enabled c = true -> pcs_Paused (pc_Spec c) = false -> om_DeletionTimestamp (pc_Meta c) = None -> e = None ->
   (exists m, stored w' KConfigMap (nn (Pgbouncer.ConfigMapName (cluster_Name c)) (cluster_Namespace c)) = Some m /\
      cm_Data m = cm_Data (poolerConfigMap c DefaultConfig (PrimaryServiceName c))) /\
   (exists d, stored w' KDeployment (nn (DeploymentName (cluster_Name c)) (cluster_Namespace c)) = Some d /\
      deployment_defaulted (dep_Spec (poolerDeployment c DefaultConfig)) (dep_Spec d)) /\
   (exists s, stored w' KService (nn (ServiceName (cluster_Name c)) (cluster_Namespace c)) = Some s /\
      svs_Ports (svc_Spec s) = svs_Ports (svc_Spec (poolerService c DefaultConfig)) /\
      svs_Selector (svc_Spec s) =
        match stored w KService (nn (ServiceName (cluster_Name c)) (cluster_Namespace c)) with
        | None => poolerLabels c
        | Some s0 => svs_Selector (svc_Spec s0)
        end)).
Proof.
  intros Hs Hw. unfold Reconcile in Hw. mstep Hw. pose proof (get_frame _ _ _ _ _ E) as F.
  destruct a as [c0|e0]; cycle 1.
  { assert (w0 = w' /\ (e = None -> IsNotFound e0 = true)) as [-> Hn].
    { destruct (IsNotFound e0); injection Hw as _ <- ->; by split. }
    split_and!; [intros; apply F..|]. intros _ _ _ He. specialize (Hn He).
    by rewrite (get_notfound _ _ _ _ _ E Hn) in Hs. }
  apply get_ok in E. rewrite Hs in E. injection E as <-. rewrite <- F.
  destruct (bool_decide (is_Some (om_DeletionTimestamp (pc_Meta c)))) eqn:Hd; breflect.
  { injection Hw as _ _ ->. split_and!; [intros; apply F..|]. intros _ _ Hdn. rewrite Hdn in Hd. by destruct Hd. }
  destruct (pcs_Paused (pc_Spec c)). { injection Hw as _ _ ->. split_and!; [intros; apply F..|done]. }
  destruct (enabled c); cbn [orb negb] in Hw; [|injection Hw as _ _ ->; split_and!; [intros; apply F..|done]].
  mstep Hw. injection Hw as _ <- ->. split_and!.
  - intros k n Hn. rewrite <- F. by eapply reconcilePooler_frames.
  - by intros [?|[?|?]].
  - intros _ _ _ ->. by apply reconcilePooler_ok.
Qed.

(** A cluster that asks for a pooler. *)
Definition pooled_cluster : PostgresCluster :=
  {| pc_Meta :=
       {| om_Name := "db"; om_Namespace := "prod"; om_UID := "u1"; om_Labels := ∅;
          om_Annotations := {["pg.athos.io/enable-pooler" := "true"]};
          om_Finalizers := []; om_OwnerReferences := [];
          om_DeletionTimestamp := None; om_Generation := 1; om_ResourceVersion := 1 |};
     pc_Spec := Status.sample_spec; pc_Status := Status.empty_status |}.

Definition sample_world : World :=
  put_obj KCluster pooled_cluster
    {| w_store := empty_store; w_faults := []; w_clock := 0; w_events := []; w_rand := []; w_execs := [];
       w_commands := [] |}.

Lemma pooler_converges_witness :
  exists d, stored (Reconcile (nn "db" "prod") sample_world).2 KDeployment (nn "db-pooler" "prod") = Some d /\
    deployment_defaulted (dep_Spec (poolerDeployment pooled_cluster DefaultConfig)) (dep_Spec d).
Proof.
  apply (pooler_converges World _ _ (nn "db" "prod") pooled_cluster sample_world _ done_result None).
  - vm_compute. reflexivity.
  - apply pair_fst. vm_compute. reflexivity.
  - apply (bool_decide_unpack _). vm_compute. exact I.
  - reflexivity.
  - reflexivity.
  - reflexivity.
Defined.

End Pooler.
