(* ===== verification/Rollout.v ===== *)
(** * internal/rolerollout: the order of a rolling upgrade

    The planner that picks the next pod to restart.  [sort.Slice] does not specify the
    order of equal elements, so the planner takes the sorting function as an argument and
    the theorems hold for every function that sorts. *)

From Stdlib Require Import ZArith Lia List Bool.
From stdpp Require Import base list strings sorting.
From S2P Require Import Prelude GoStrings.

Local Open Scope Z_scope.

Module Rollout.

Record Pod := {
  Name : string;
  Ordinal : Z;
  IsPrimary : bool;
  HealthyOK : bool;
  OnDesiredImage : bool;
}.

#[export] Instance Pod_eq_dec : EqDecision Pod.
Proof. solve_decision. Defined.

(** The order [sort.Slice] is given: descending ordinals. *)
Definition desc (a b : Pod) : Prop := Ordinal b <= Ordinal a.

#[export] Instance desc_dec : RelDecision desc.
Proof. intros a b. unfold desc. apply _. Defined.

(** What [sort.Slice] promises. *)
Definition sorts (sort : list Pod -> list Pod) : Prop :=
  forall l, sort l ≡ₚ l /\ StronglySorted desc (sort l).

(** The loop of [Plan]: the pending replicas and the last pending primary. *)
Fixpoint plan_loop (pods : list Pod) (pending : list Pod) (primary : option Pod) : list Pod * option Pod :=
  match pods with
  | [] => (pending, primary)
  | p :: pods' =>
      if OnDesiredImage p then plan_loop pods' pending primary
      else if IsPrimary p then plan_loop pods' pending (Some p)
      else plan_loop pods' (pending ++ [p]) primary
  end.

(** [Plan]. *)
Definition Plan (sort : list Pod -> list Pod) (pods : list Pod) : list Pod :=
  let '(pending, primary) := plan_loop pods [] None in
  sort pending ++ match primary with Some p => [p] | None => [] end.

(** [CanProceed]. *)
Definition CanProceed (pods : list Pod) : bool :=
  forallb (fun p => negb (OnDesiredImage p && negb (HealthyOK p))) pods.

(** [IsComplete]. *)
Definition IsComplete (pods : list Pod) : bool :=
  match pods with
  | [] => false
  | _ => forallb (fun p => OnDesiredImage p && HealthyOK p) pods
  end.

(** [PendingCount]. *)
Definition PendingCount (pods : list Pod) : nat := length (filter (fun p => OnDesiredImage p = false) pods).

(** [Next]. *)
Definition Next (sort : list Pod -> list Pod) (pods : list Pod) : option Pod :=
  match Plan sort pods with
  | [] => None
  | first :: _ => if negb (CanProceed pods) then None else Some first
  end.

(** ** The plan *)

Definition pending_replicas (pods : list Pod) : list Pod :=
  filter (fun p => OnDesiredImage p = false /\ IsPrimary p = false) pods.
Definition pending_primaries (pods : list Pod) : list Pod :=
  filter (fun p => OnDesiredImage p = false /\ IsPrimary p = true) pods.

Definition last_or (d : option Pod) (l : list Pod) : option Pod :=
  match last l with Some p => Some p | None => d end.

Lemma plan_loop_spec pods pending primary :
  plan_loop pods pending primary = (pending ++ pending_replicas pods, last_or primary (pending_primaries pods)).
Proof.
  unfold pending_replicas, pending_primaries, last_or. revert pending primary.
  induction pods as [|p pods IH]; intros pending primary; cbn [plan_loop]; [by rewrite app_nil_r|].
  rewrite !filter_cons. destruct (OnDesiredImage p) eqn:Ed, (IsPrimary p) eqn:Ep.
  - rewrite !decide_False by (by intros []). apply IH.
  - rewrite !decide_False by (by intros []). apply IH.
  - rewrite decide_False, decide_True by (by intros [] || done). rewrite IH, last_cons.
    f_equal. by destruct (last _).
  - rewrite decide_True, decide_False by (done || by intros []). by rewrite IH, <- app_assoc.
Qed.

Lemma Plan_spec sort pods :
  Plan sort pods = sort (pending_replicas pods) ++
    match last (pending_primaries pods) with Some p => [p] | None => [] end.
Proof. unfold Plan. rewrite plan_loop_spec. cbn. unfold last_or. by destruct (last _). Qed.

Lemma elem_of_Plan sort pods p :
  sorts sort -> p ∈ Plan sort pods -> p ∈ pods /\ OnDesiredImage p = false.
Proof.
  intros Hs. rewrite Plan_spec, elem_of_app. destruct (Hs (pending_replicas pods)) as [Hp0 _].
  rewrite Hp0. intros [[[? _] ?]%list_elem_of_filter|Hp]; [done|].
  destruct (last (pending_primaries pods)) as [q|] eqn:E; [|by apply not_elem_of_nil in Hp].
  apply list_elem_of_singleton in Hp as ->. apply last_Some in E as [l E].
  assert (q ∈ pending_primaries pods) as [[? _] ?]%list_elem_of_filter; [|done].
  rewrite E. apply elem_of_app. right. by apply list_elem_of_singleton.
Qed.

Lemma pending_split pods :
  filter (fun p => OnDesiredImage p = false) pods ≡ₚ pending_replicas pods ++ pending_primaries pods.
Proof.
  unfold pending_replicas, pending_primaries. induction pods as [|p pods IH]; [done|]. rewrite !filter_cons.
  destruct (OnDesiredImage p), (IsPrimary p).
  - by rewrite !decide_False by (done || by intros []).
  - by rewrite !decide_False by (done || by intros []).
  - rewrite decide_True, decide_False, decide_True by (done || by intros []).
    by rewrite IH, Permutation_middle.
  - rewrite decide_True, decide_True, decide_False by (done || by intros []). by rewrite IH.
Qed.

(** The plan is empty only when nothing is pending. *)
Lemma Plan_nil sort pods : sorts sort -> Plan sort pods = [] -> PendingCount pods = 0%nat.
Proof.
  intros Hs. rewrite Plan_spec. intros [H1 H2]%app_nil.
  destruct (Hs (pending_replicas pods)) as [Hp _]. rewrite H1 in Hp. apply Permutation_length in Hp.
  unfold PendingCount. rewrite pending_split, length_app, <- Hp.
  destruct (pending_primaries pods) as [|q l]; [done|]. by rewrite last_cons in H2; destruct (last l).
Qed.

Lemma CanProceed_spec pods :
  CanProceed pods = true <-> forall p, p ∈ pods -> OnDesiredImage p = true -> HealthyOK p = true.
Proof.
  unfold CanProceed. rewrite forallb_forall. split; intros H p Hp.
  - intros Hd. apply list_elem_of_In, H in Hp. rewrite Hd in Hp. by destruct (HealthyOK p).
  - apply list_elem_of_In in Hp. specialize (H p Hp). destruct (OnDesiredImage p); [by rewrite H|done].
Qed.

Lemma Next_inv sort pods p :
  Next sort pods = Some p -> CanProceed pods = true /\ exists l, Plan sort pods = p :: l.
Proof.
  unfold Next. destruct (Plan sort pods) as [|q l]; [done|]. destruct (CanProceed pods); [|done].
  intros [= ->]. eauto.
Qed.

(** The upgrade plan.  For every sorting function and every set of pods with at most one
    primary, the plan lists exactly the pods not yet on the desired image, the replicas
    before the primary and in descending ordinal order; and a pod is released for restart
    only when every pod already upgraded is healthy, the primary only when every replica
    is upgraded and healthy. *)
Theorem rollout_order (sort : list Pod -> list Pod) (pods : list Pod) :
  sorts sort -> (length (filter (fun p => IsPrimary p = true) pods) <= 1)%nat ->
  Plan sort pods ≡ₚ filter (fun p => OnDesiredImage p = false) pods /\
  (exists l1 l2, Plan sort pods = l1 ++ l2 /\ Forall (fun p => IsPrimary p = false) l1 /\
     StronglySorted desc l1 /\ Forall (fun p => IsPrimary p = true) l2) /\
  (forall p, Next sort pods = Some p ->
     (forall q, q ∈ pods -> OnDesiredImage q = true -> HealthyOK q = true) /\
     (IsPrimary p = true -> forall q, q ∈ pods -> IsPrimary q = false ->
        OnDesiredImage q = true /\ HealthyOK q = true)).
Proof.
  intros Hs Hone. destruct (Hs (pending_replicas pods)) as [Hperm Hsort].
  assert (Hlast : match last (pending_primaries pods) with Some p => [p] | None => [] end = pending_primaries pods).
  { assert (length (pending_primaries pods) <= 1)%nat.
    { etrans; [|exact Hone]. unfold pending_primaries. clear. induction pods as [|p pods IH]; [done|].
      rewrite !filter_cons. repeat case_decide; cbn; naive_solver lia. }
    destruct (pending_primaries pods) as [|q [|q' l]]; [done..|]. cbn in *. lia. }
  pose proof (Plan_spec sort pods) as HP. rewrite Hlast in HP. split_and!.
  - rewrite HP, Hperm. symmetry. apply pending_split.
  - exists (sort (pending_replicas pods)), (pending_primaries pods). split_and!; [done| |done|].
    + rewrite Hperm. apply Forall_forall. by intros q [[_ ?] _]%list_elem_of_filter.
    + apply Forall_forall. by intros q [[_ ?] _]%list_elem_of_filter.
  - intros p (Hc & l & Hl)%Next_inv. rewrite CanProceed_spec in Hc. split; [done|]. intros Hp q Hq Hqr.
    assert (OnDesiredImage q = true) as Hd; [|by auto].
    apply not_false_iff_true. intros Hd.
    assert (q ∈ sort (pending_replicas pods)) as Hin by (rewrite Hperm; by apply list_elem_of_filter).
    destruct (sort (pending_replicas pods)) as [|x xs]; [by apply not_elem_of_nil in Hin|].
    rewrite HP in Hl. injection Hl as -> _.
    assert (p ∈ pending_replicas pods) as [[_ ?] _]%list_elem_of_filter by (rewrite <- Hperm; left). congruence.
Qed.

Definition stable_sort : list Pod -> list Pod := merge_sort desc.

#[export] Instance desc_trans : Transitive desc.
Proof. intros a b c. unfold desc. lia. Qed.

#[export] Instance desc_total : Total desc.
Proof. intros a b. unfold desc. lia. Qed.

Lemma stable_sort_sorts : sorts stable_sort.
Proof.
  intros l. split; [apply merge_sort_Permutation|]. apply (StronglySorted_merge_sort desc).
Qed.

Definition mkPod (name : string) (n : Z) (primary healthy desired : bool) : Pod :=
  {| Name := name; Ordinal := n; IsPrimary := primary; HealthyOK := healthy; OnDesiredImage := desired |}.

Definition sample_pods : list Pod :=
  [mkPod "pg-0" 0 true true false; mkPod "pg-1" 1 false true false; mkPod "pg-2" 2 false true true].

Lemma rollout_order_witness :
  Plan stable_sort sample_pods ≡ₚ filter (fun p => OnDesiredImage p = false) sample_pods.
Proof. apply (rollout_order stable_sort sample_pods stable_sort_sorts). vm_compute. lia. Defined.

(** ** Running the plan *)

(** The pod [name] has been restarted on the desired image and is healthy again. *)
Definition restart (name : string) (p : Pod) : Pod :=
  if (Name p =? name)%string
  then {| Name := Name p; Ordinal := Ordinal p; IsPrimary := IsPrimary p; HealthyOK := true; OnDesiredImage := true |}
  else p.

(** Restart the pod [Next] selects, [n] times. *)
Fixpoint run (sort : list Pod -> list Pod) (n : nat) (pods : list Pod) : list Pod :=
  match n with
  | O => pods
  | S n' =>
      match Next sort pods with
      | None => pods
      | Some p => run sort n' (map (restart (Name p)) pods)
      end
  end.

Lemma restart_CanProceed name pods : CanProceed pods = true -> CanProceed (map (restart name) pods) = true.
Proof.
  rewrite !CanProceed_spec. intros Hc p (q & -> & Hq)%list_elem_of_fmap. unfold restart. case_match; [done|].
  by apply Hc.
Qed.

Lemma restart_names name pods : map Name (map (restart name) pods) = map Name pods.
Proof. rewrite map_map. apply map_ext. intros p. unfold restart. by case_match. Qed.

Lemma restart_others name pods : name ∉ map Name pods -> map (restart name) pods = pods.
Proof.
  induction pods as [|p pods IH]; [done|]. cbn [map]. intros [Hne Hni]%not_elem_of_cons.
  rewrite IH by done. f_equal. unfold restart. by destruct (String.eqb_spec (Name p) name).
Qed.

Lemma restart_PendingCount p pods :
  NoDup (map Name pods) -> p ∈ pods -> OnDesiredImage p = false ->
  PendingCount pods = S (PendingCount (map (restart (Name p)) pods)).
Proof.
  unfold PendingCount. induction pods as [|q pods IH]; intros Hnd Hin Hd; [by apply not_elem_of_nil in Hin|].
  cbn [map] in *. apply NoDup_cons in Hnd as [Hni Hnd]. apply elem_of_cons in Hin as [->|Hin].
  - rewrite restart_others by done. rewrite !filter_cons, decide_True, decide_False; [done| |done].
    unfold restart. by rewrite String.eqb_refl.
  - replace (restart (Name p) q) with q; [rewrite !filter_cons; case_decide; cbn; by rewrite IH|].
    unfold restart. destruct (String.eqb_spec (Name q) (Name p)) as [E|Hne]; [|done].
    exfalso. apply Hni. rewrite E. by apply list_elem_of_fmap_2.
Qed.

Lemma run_complete sort n pods :
  sorts sort -> NoDup (map Name pods) -> CanProceed pods = true -> PendingCount pods = n ->
  CanProceed (run sort n pods) = true /\ PendingCount (run sort n pods) = 0%nat /\
  length (run sort n pods) = length pods.
Proof.
  intros Hs. revert pods. induction n as [|n IH]; intros pods Hnd Hc Hn; [done|]. cbn [run].
  unfold Next. destruct (Plan sort pods) as [|p l] eqn:EP.
  - apply Plan_nil in EP; [lia|done].
  - rewrite Hc. cbn [negb].
    assert (p ∈ pods /\ OnDesiredImage p = false) as [Hin Hd]
      by (apply (elem_of_Plan sort); [done|rewrite EP; left]).
    destruct (IH (map (restart (Name p)) pods)) as (H1 & H2 & H3).
    + by rewrite restart_names.
    + by apply restart_CanProceed.
    + rewrite (restart_PendingCount p) in Hn by done. lia.
    + rewrite H3, length_map. done.
Qed.

(** The next replica is one with the greatest ordinal. *)
Lemma Next_descending sort pods p q :
  sorts sort -> (length (filter (fun p => IsPrimary p = true) pods) <= 1)%nat ->
  Next sort pods = Some p -> q ∈ pods -> OnDesiredImage q = false -> IsPrimary q = false ->
  IsPrimary p = false /\ Ordinal q <= Ordinal p.
Proof.
  intros Hs Hone (_ & l & Hl)%Next_inv Hq Hqd Hqr.
  destruct (rollout_order sort pods Hs Hone) as (Hperm & (l1 & l2 & HP & H1 & Hsorted & H2) & _).
  assert (q ∈ l1) as Hin.
  { assert (q ∈ Plan sort pods) as Hin by (rewrite Hperm; by apply list_elem_of_filter).
    rewrite HP in Hin. apply elem_of_app in Hin as [?|Hin]; [done|]. rewrite Forall_forall in H2.
    specialize (H2 q Hin). cbn in H2. congruence. }
  destruct l1 as [|x l1]; [by apply not_elem_of_nil in Hin|]. rewrite HP in Hl. injection Hl as -> _.
  split; [by apply Forall_cons in H1 as [? _]|].
  apply elem_of_cons in Hin as [->|Hin]; [done|]. apply StronglySorted_inv in Hsorted as [_ Hf].
  rewrite Forall_forall in Hf. by apply Hf.
Qed.

Lemma run_IsComplete sort pods :
  sorts sort -> NoDup (map Name pods) -> pods <> [] -> CanProceed pods = true ->
  IsComplete (run sort (PendingCount pods) pods) = true.
Proof.
  intros Hs Hnd Hne Hc. destruct (run_complete sort (PendingCount pods) pods Hs Hnd Hc eq_refl) as (H1 & H2 & H3).
  set (r := run sort (PendingCount pods) pods) in *. unfold IsComplete.
  assert (forallb (fun p => OnDesiredImage p && HealthyOK p) r = true) as Hall.
  { apply forallb_forall. intros p Hp%list_elem_of_In. rewrite CanProceed_spec in H1.
    assert (OnDesiredImage p = true) as Hd; [|rewrite Hd; by apply H1].
    apply not_false_iff_true. intros Hd. unfold PendingCount in H2. apply length_zero_iff_nil in H2.
    assert (p ∈ @nil Pod) as []%not_elem_of_nil. rewrite <- H2. by apply list_elem_of_filter. }
  destruct r; [|done]. by destruct pods.
Qed.

(** C31: the rolling upgrade is safe and terminates.  For pods of which at most one is a
    primary: [Next] selects a pod only while every pod already on the desired image is
    healthy, and then one that is not on it: as long as replicas are pending a replica,
    none of a greater ordinal being pending, and the primary only when every replica is
    upgraded and healthy.  And when the pods have distinct names, there is at least one and
    every pod already upgraded is healthy, restarting the pod [Next] selects, as many times
    as there are pending pods, leaves every pod on the desired image and healthy, if each
    restarted pod comes back healthy. *)
Theorem rollout_completes (sort : list Pod -> list Pod) (pods : list Pod) :
  sorts sort -> (length (filter (fun p => IsPrimary p = true) pods) <= 1)%nat ->
  (forall p, Next sort pods = Some p ->
     (forall q, q ∈ pods -> OnDesiredImage q = true -> HealthyOK q = true) /\
     p ∈ pods /\ OnDesiredImage p = false /\
     (forall q, q ∈ pods -> OnDesiredImage q = false -> IsPrimary q = false ->
        IsPrimary p = false /\ Ordinal q <= Ordinal p) /\
     (IsPrimary p = true -> forall q, q ∈ pods -> IsPrimary q = false ->
        OnDesiredImage q = true /\ HealthyOK q = true)) /\
  (NoDup (map Name pods) -> pods <> [] -> CanProceed pods = true ->
     IsComplete (run sort (PendingCount pods) pods) = true).
Proof.
  intros Hs Hone. split; [|by apply run_IsComplete]. intros p Hp.
  destruct (rollout_order sort pods Hs Hone) as (_ & _ & Hnext). destruct (Hnext p Hp) as [Hc Hprim].
  destruct (Next_inv _ _ _ Hp) as (_ & l & Hl).
  destruct (elem_of_Plan sort pods p Hs) as [Hin Hd]; [rewrite Hl; left|].
  split_and!; [done..| |done]. intros q Hq Hqd Hqr. by eapply Next_descending.
Qed.

Lemma rollout_completes_witness :
  IsComplete (run stable_sort (PendingCount sample_pods) sample_pods) = true.
Proof.
  apply (rollout_completes stable_sort sample_pods stable_sort_sorts).
  - vm_compute. lia.
  - apply (bool_decide_unpack _). vm_compute. exact I.
  - discriminate.
  - reflexivity.
Defined.

(** Of two pods that claim to be primary only the last is planned. *)
Example plan_drops_primary :
  map Name (Plan stable_sort [mkPod "pg-0" 0 true true false; mkPod "pg-1" 1 true true false]) = ["pg-1"].
Proof. reflexivity. Qed.

End Rollout.
