(* ===== verification/Decisions.v ===== *)
(** * internal/ha, internal/upgrade, internal/clusterstate, internal/poolerstate

    The pure decision packages: cluster topology and pod ordinals, upgrade
    classification, and the next reconcile action of a cluster and of a pooler. *)

From Stdlib Require Import ZArith Lia List Bool Ascii.
From stdpp Require Import base list strings gmap.
From S2P Require Import Prelude GoStrings K8s Api PgConfig PgStatus.

Local Open Scope Z_scope.

(** ** internal/ha *)

Module HA.

Definition AnnotationFailoverTarget : string := "pg.athos.io/failover-target".
Definition AnnotationSwitchoverTarget : string := "pg.athos.io/switchover-target".
Definition MinInstancesForHA : Z := 3.

Record TopologyInfo := { PrimaryPod : string; ReplicaPods : list string; Instances : Z }.

Definition IsHA (t : TopologyInfo) : bool := MinInstancesForHA <=? Instances t.
Definition HasReplicas (t : TopologyInfo) : bool := negb (bool_decide (ReplicaPods t = [])).
Definition CanFailover (t : TopologyInfo) : bool :=
  negb (PrimaryPod t =? "")%string && negb (bool_decide (ReplicaPods t = [])).

(** [FailoverCandidate]; [None] stands for the error. *)
Definition FailoverCandidate (t : TopologyInfo) : option string :=
  if negb (CanFailover t) then None else head (ReplicaPods t).

Definition FailoverRequested (c : PostgresCluster) : bool :=
  let a := om_Annotations (pc_Meta c) in
  bool_decide (is_Some (a !! AnnotationFailoverTarget)) || bool_decide (is_Some (a !! AnnotationSwitchoverTarget)).

Definition FailoverTarget (c : PostgresCluster) : string :=
  default "" (om_Annotations (pc_Meta c) !! AnnotationFailoverTarget).
Definition SwitchoverTarget (c : PostgresCluster) : string :=
  default "" (om_Annotations (pc_Meta c) !! AnnotationSwitchoverTarget).

(** [ClearFailoverAnnotations] on a non-nil map. *)
Definition ClearFailoverAnnotations (a : gmap string string) : gmap string string :=
  delete AnnotationSwitchoverTarget (delete AnnotationFailoverTarget a).

(** The trailing digits of a name and what precedes them, both from the last byte. *)
Fixpoint span_digits (l : list ascii) : list ascii * list ascii :=
  match l with
  | [] => ([], [])
  | c :: l' => if is_digit c then let '(ds, rest) := span_digits l' in (c :: ds, rest) else ([], l)
  end.

(** The loop over the digits, least significant first, in 64-bit arithmetic. *)
Fixpoint ordinal_loop (ds : list ascii) (ordinal mul : Z) : Z :=
  match ds with
  | [] => ordinal
  | c :: ds' => ordinal_loop ds' (int64 (ordinal + int64 ((byte c - 48) * mul))) (int64 (mul * 10))
  end.

(** [PodOrdinal]; [None] stands for the run-time panic of an index out of range. *)
Definition PodOrdinal (podName : string) : option Z :=
  match rev (String.list_ascii_of_string podName) with
  | [] => Some (-1)
  | l =>
      let '(ds, rest) := span_digits l in
      match ds with
      | [] => Some (-1)
      | _ =>
          match rest with
          | [] => None
          | c :: _ => if Ascii.eqb c "-" then Some (ordinal_loop ds 0 1) else Some (-1)
          end
      end
  end.

(** *** Ordinals *)

(** The value of digits, least significant first. *)
Fixpoint digits_value (ds : list ascii) : Z :=
  match ds with
  | [] => 0
  | c :: ds' => (byte c - 48) + 10 * digits_value ds'
  end.

Lemma ordinal_loop_spec ds o m :
  in_int64 o = true -> ordinal_loop ds o m = int64 (o + m * digits_value ds).
Proof.
  revert o m. induction ds as [|c ds IH]; intros o m Ho; cbn [ordinal_loop digits_value].
  - rewrite Z.mul_0_r, Z.add_0_r. by rewrite int64_id.
  - rewrite IH by apply int64_in. apply int64_ext.
    destruct (int64_shift ((byte c - 48) * m)) as [k1 ->].
    destruct (int64_shift (o + ((byte c - 48) * m + k1 * 2 ^ 64))) as [k2 ->].
    destruct (int64_shift (m * 10)) as [k3 ->].
    rewrite <- (Z_mod_plus_full (o + m * _) (k1 + k2 + k3 * digits_value ds)). f_equal. ring.
Qed.

Lemma digits_value_app a b :
  digits_value (a ++ b) = digits_value a + 10 ^ Z.of_nat (length a) * digits_value b.
Proof.
  induction a as [|c a IH]; [change (digits_value b = 0 + 1 * digits_value b); ring|]. cbn [app digits_value length]. rewrite IH, Nat2Z.inj_succ, Z.pow_succ_r by lia.
  ring.
Qed.

Lemma parse_digits_value s acc z :
  parse_digits acc s = Some z ->
  z = acc * 10 ^ Z.of_nat (String.length s) + digits_value (rev (String.list_ascii_of_string s)).
Proof.
  revert acc. induction s as [|c s IH]; intros acc H; cbn [parse_digits] in H.
  - injection H as <-. change (acc = acc * 1 + 0). ring.
  - destruct (is_digit c); [|done]. apply IH in H. rewrite H. cbn [String.list_ascii_of_string rev String.length].
    rewrite digits_value_app, length_rev, Nat2Z.inj_succ, Z.pow_succ_r by lia. cbn [digits_value].
    replace (length (String.list_ascii_of_string s)) with (String.length s); [ring|].
    clear. induction s as [|d s IH]; [done|]. cbn. by rewrite IH.
Qed.

Lemma span_digits_app ds c rest :
  Forall (fun d => is_digit d = true) ds -> is_digit c = false ->
  span_digits (ds ++ c :: rest) = (ds, c :: rest).
Proof.
  intros Hd Hc. induction Hd as [|d ds Hdd _ IH]; cbn [app span_digits]; [by rewrite Hc|]. by rewrite Hdd, IH.
Qed.

Lemma span_digits_all ds : Forall (fun d => is_digit d = true) ds -> span_digits ds = (ds, []).
Proof. induction 1 as [|d ds Hd _ IH]; cbn [span_digits]; [done|]. by rewrite Hd, IH. Qed.

Lemma sall_list p s : sall p s = true <-> Forall (fun c => p c = true) (String.list_ascii_of_string s).
Proof.
  induction s as [|c s IH]; cbn [sall String.list_ascii_of_string]; [split; [constructor|done]|].
  rewrite Forall_cons, <- IH. apply andb_true_iff.
Qed.

Lemma list_ascii_app a b :
  String.list_ascii_of_string (a +:+ b) = String.list_ascii_of_string a ++ String.list_ascii_of_string b.
Proof. induction a as [|c a IH]; [done|]. rewrite app_cons_l. cbn. by rewrite IH. Qed.

(** The trailing digits of a printed ordinal give it back. *)
Lemma span_digits_printed n rest c :
  0 <= n -> is_digit c = false ->
  exists d ds, rev (String.list_ascii_of_string (digits n)) = d :: ds /\
    span_digits (rev (String.list_ascii_of_string (digits n)) ++ c :: rest) = (d :: ds, c :: rest).
Proof.
  intros Hn Hc. pose proof (digits_all n Hn) as Hd. apply sall_list, Forall_rev in Hd.
  destruct (rev (String.list_ascii_of_string (digits n))) as [|d ds] eqn:Er.
  - destruct (digits_cons n) as (c0 & s0 & E). rewrite E in Er. cbn in Er. by apply app_nil in Er as [_ ?].
  - exists d, ds. split; [done|]. by apply span_digits_app.
Qed.

Lemma ordinal_loop_printed n :
  0 <= n -> in_int64 n = true -> ordinal_loop (rev (String.list_ascii_of_string (digits n))) 0 1 = n.
Proof.
  intros Hn Hin. pose proof (parse_uint_digits n Hn) as Hp. destruct (digits_cons n) as (c0 & s0 & E).
  unfold parse_uint in Hp. rewrite E in Hp. rewrite <- E in Hp. apply parse_digits_value in Hp.
  rewrite ordinal_loop_spec by done. rewrite Z.add_0_l, Z.mul_1_l.
  rewrite Z.mul_0_l, Z.add_0_l in Hp. rewrite <- Hp. by apply int64_id.
Qed.

(** Pod names and ordinals are inverse.  For every cluster and every ordinal that fits
    the integer type, [PodOrdinal] recovers the ordinal from the name [PodName] builds;
    on a name made of digits only it does not return -1 as documented but indexes the
    byte before the first and panics. *)
Theorem PodOrdinal_PodName (c : PostgresCluster) (n : Z) (s : string) :
  0 <= n -> in_int64 n = true -> sall is_digit s = true -> s <> "" ->
  PodOrdinal (Naming.PodName c n) = Some n /\ PodOrdinal s = None.
Proof.
  intros Hn Hin Hs Hne. split.
  - unfold PodOrdinal, Naming.PodName, itoa. destruct (Z.ltb_spec n 0) as [|_]; [lia|].
    rewrite !list_ascii_app, !rev_app_distr, <- app_assoc.
    change (rev (String.list_ascii_of_string "-")) with ["-"%char]. cbn [app].
    destruct (span_digits_printed n (rev (String.list_ascii_of_string (Naming.cluster_Name c))) "-" Hn eq_refl)
      as (d & ds & Er & Es).
    pose proof (ordinal_loop_printed n Hn Hin) as Ho. rewrite Er in Es, Ho |- *. cbn [app] in *.
    rewrite Es. change (Ascii.eqb "-" "-") with true. cbv iota. by rewrite Ho.
  - unfold PodOrdinal. apply sall_list, Forall_rev in Hs.
    destruct (rev (String.list_ascii_of_string s)) as [|d ds] eqn:Er.
    + destruct s as [|c0 s0]; [done|]. cbn in Er. by apply app_nil in Er as [_ ?].
    + rewrite span_digits_all by done. done.
Qed.

Lemma PodOrdinal_PodName_witness :
  PodOrdinal (Naming.PodName Status.sample_cluster 12) = Some 12 /\ PodOrdinal "404" = None.
Proof.
  apply (PodOrdinal_PodName Status.sample_cluster 12 "404"); [discriminate|reflexivity|reflexivity|discriminate].
Defined.

End HA.

(** ** internal/upgrade *)

Module Upgrade.

Definition MinSupportedVersion : Z := 14.
Definition MaxSupportedVersion : Z := 17.
Definition AnnotationUpgradeApproved : string := "pg.athos.io/upgrade-approved".
Definition LabelUpgradeInProgress : string := "pg.athos.io/upgrade-in-progress".

Inductive Kind := KindNone | KindMinor | KindMajor.

Definition Kind_String (k : Kind) : string :=
  match k with KindMinor => "minor" | KindMajor => "major" | KindNone => "none" end.

Record Plan := { plan_Kind : Kind; FromVersion : Z; ToVersion : Z }.

(** [ValidateVersion]. *)
Definition ValidateVersion (version : Z) : option error :=
  if (version <? MinSupportedVersion) || (MaxSupportedVersion <? version)
  then Some (ErrNew ("PostgreSQL major version " +:+ itoa version +:+ " is not supported; supported range is [" +:+
                     itoa MinSupportedVersion +:+ ", " +:+ itoa MaxSupportedVersion +:+ "]"))
  else None.

(** [Classify]; versions are 32-bit, so the subtraction wraps. *)
Definition Classify (c : PostgresCluster) (currentVersion : Z) : result Plan :=
  let target := pcs_PostgresVersion (pc_Spec c) in
  let plan k := Ok {| plan_Kind := k; FromVersion := currentVersion; ToVersion := target |} in
  match ValidateVersion target with
  | Some e => Err e
  | None =>
      if target =? currentVersion then plan KindNone
      else if target <? currentVersion
      then Err (ErrNew ("downgrading PostgreSQL from version " +:+ itoa currentVersion +:+ " to " +:+
                        itoa target +:+ " is not supported"))
      else if int32 (target - currentVersion) =? 0 then plan KindNone
      else if Z.quot currentVersion 1 =? Z.quot target 1 then plan KindMinor
      else plan KindMajor
  end.

Definition MajorUpgradeApproved (c : PostgresCluster) : bool :=
  bool_decide (om_Annotations (pc_Meta c) !! AnnotationUpgradeApproved = Some "true").
Definition UpgradeInProgress (c : PostgresCluster) : bool :=
  bool_decide (om_Labels (pc_Meta c) !! LabelUpgradeInProgress = Some "true").

Definition ImageTag (v : Z) : string := "postgres:" +:+ itoa v.
Definition ImageTagAlpine (v : Z) : string := "postgres:" +:+ itoa v +:+ "-alpine".
Definition UpgradeJobName (clusterName : string) (from to : Z) : string :=
  clusterName +:+ "-upgrade-" +:+ itoa from +:+ "-to-" +:+ itoa to.

(** The loop of [SupportedVersions]; the fuel is the number of iterations. *)
Fixpoint versions_from (fuel : nat) (v : Z) : list Z :=
  match fuel with
  | O => []
  | S fuel' => if v <=? MaxSupportedVersion then v :: versions_from fuel' (v + 1) else []
  end.

Definition SupportedVersions : list Z :=
  versions_from (Z.to_nat (MaxSupportedVersion - MinSupportedVersion + 1)) MinSupportedVersion.

(** The upgrade classifier.  For 32-bit versions, an upgrade is planned exactly when the
    target is a supported version not older than the current one; the plan says none when
    they are equal and major otherwise.  The kind minor, which the package documents for
    image bumps, is never produced. *)
Theorem Classify_spec (c : PostgresCluster) (current : Z) :
  in_int32 current = true ->
  let target := pcs_PostgresVersion (pc_Spec c) in
  (is_ok (Classify c current) = true <-> target ∈ SupportedVersions /\ current <= target) /\
  (forall p, Classify c current = Ok p ->
     FromVersion p = current /\ ToVersion p = target /\
     plan_Kind p = (if target =? current then KindNone else KindMajor)).
Proof.
  intros Hc target. unfold Classify. fold target.
  assert (Hv : (ValidateVersion target = None) <-> target ∈ SupportedVersions).
  { unfold ValidateVersion, MinSupportedVersion, MaxSupportedVersion. change SupportedVersions with [14; 15; 16; 17].
    assert (target ∈ [14; 15; 16; 17] <-> 14 <= target <= 17) as ->.
    { rewrite !elem_of_cons. split; [|lia]. intros [?|[?|[?|[?|[]%not_elem_of_nil]]]]; lia. }
    destruct (Z.ltb_spec target 14), (Z.ltb_spec 17 target); cbn; split; (done || lia). }
  destruct (ValidateVersion target) as [e|] eqn:Ev.
  { split; [|done]. cbn. split; [done|]. intros [H%Hv _]. done. }
  assert (target ∈ SupportedVersions) as Hin by by apply Hv.
  destruct (Z.eqb_spec target current) as [E|Hne].
  { split; [cbn; split; [intros _; split; [done|lia]|done]|]. by intros p [= <-]. }
  destruct (Z.ltb_spec target current) as [Hlt|Hge].
  { split; [cbn; split; [done|intros [_ ?]; lia]|done]. }
  rewrite !Z.quot_1_r. destruct (Z.eqb_spec current target); [lia|].
  assert (Hsub : int32 (target - current) <> 0).
  { assert (14 <= target <= 17) as Ht.
    { unfold ValidateVersion, MinSupportedVersion, MaxSupportedVersion in Ev.
      destruct (Z.ltb_spec target 14), (Z.ltb_spec 17 target); try done; lia. }
    unfold in_int32, min_int32, max_int32 in Hc. breflect. unfold int32, wrap. change (32 - 1) with 31.
    intros Hz. assert (((target - current + 2 ^ 31) mod 2 ^ 32) = 2 ^ 31) as Hm by lia.
    pose proof (Z.div_mod (target - current + 2 ^ 31) (2 ^ 32) ltac:(done)) as Hdm. lia. }
  destruct (Z.eqb_spec (int32 (target - current)) 0); [done|]. split.
  - cbn. split; [intros _; split; [done|lia]|done].
  - by intros p [= <-].
Qed.

Lemma Classify_spec_witness :
  is_ok (Classify Status.sample_cluster 15) = true <->
  16 ∈ SupportedVersions /\ 15 <= 16.
Proof. apply (Classify_spec Status.sample_cluster 15). reflexivity. Defined.

End Upgrade.

(** ** internal/clusterstate *)

Module ClusterState.

Inductive Action :=
  | ActionNothing | ActionScaleUp | ActionScaleDown | ActionUpdateImage | ActionFailover | ActionAwaitReady
  | ActionRecover.

#[export] Instance Action_eq_dec : EqDecision Action.
Proof. solve_decision. Defined.

Record Observed := {
  DesiredReplicas : Z;
  CurrentReplicas : Z;
  ReadyReplicas : Z;
  DesiredImage : string;
  CurrentImage : string;
  PrimaryHealthy : bool;
  HasPersistedData : bool;
}.

Record Decision := { dec_Action : Action; dec_Reason : string }.

(** [Evaluate]. *)
Definition Evaluate (T : UnicodeTables) (o : Observed) : Decision :=
  if negb (HasPersistedData o) && (0 <? CurrentReplicas o) then
    {| dec_Action := ActionRecover;
       dec_Reason := "PVCs exist but contain no PostgreSQL data; restore from backup" |}
  else if negb (PrimaryHealthy o) && (0 <? ReadyReplicas o) then
    {| dec_Action := ActionFailover; dec_Reason := "primary is unhealthy and at least one replica is ready" |}
  else if negb (CurrentImage o =? "")%string && negb (DesiredImage o =? "")%string
          && negb (CurrentImage o =? DesiredImage o)%string then
    {| dec_Action := ActionUpdateImage;
       dec_Reason := "image change from " +:+ Quote T (CurrentImage o) +:+ " to " +:+ Quote T (DesiredImage o) |}
  else if CurrentReplicas o <? DesiredReplicas o then
    {| dec_Action := ActionScaleUp;
       dec_Reason := itoa (CurrentReplicas o) +:+ "/" +:+ itoa (DesiredReplicas o) +:+ " replicas present" |}
  else if DesiredReplicas o <? CurrentReplicas o then
    {| dec_Action := ActionScaleDown;
       dec_Reason := "scale from " +:+ itoa (CurrentReplicas o) +:+ " to " +:+ itoa (DesiredReplicas o) +:+
                     " replicas" |}
  else if ReadyReplicas o <? DesiredReplicas o then
    {| dec_Action := ActionAwaitReady;
       dec_Reason := "waiting for " +:+ itoa (int32 (DesiredReplicas o - ReadyReplicas o)) +:+
                     " more replicas to become ready" |}
  else {| dec_Action := ActionNothing; dec_Reason := "cluster is in the desired state" |}.

(** [IsTerminal]. *)
Definition IsTerminal (d : Decision) : bool :=
  match dec_Action d with ActionNothing | ActionAwaitReady => true | _ => false end.

Definition Action_String (a : Action) : string :=
  match a with
  | ActionNothing => "Nothing" | ActionScaleUp => "ScaleUp" | ActionScaleDown => "ScaleDown"
  | ActionUpdateImage => "UpdateImage" | ActionFailover => "Failover" | ActionAwaitReady => "AwaitReady"
  | ActionRecover => "Recover"
  end.

(** [String]. *)
Definition Decision_String (d : Decision) : string := Action_String (dec_Action d) +:+ ": " +:+ dec_Reason d.

End ClusterState.

(** ** internal/poolerstate *)

Module PoolerState.

Inductive Action := ActionNothing | ActionCreate | ActionScale | ActionUpdateConfig | ActionAwaitReady.

Record Observed := {
  DesiredReplicas : Z;
  CurrentReplicas : Z;
  ReadyReplicas : Z;
  DesiredConfig : string;
  CurrentConfig : string;
  DeploymentReady : bool;
  ConfigMapExists : bool;
  ServiceExists : bool;
}.

Record Decision := { dec_Action : Action; dec_Reason : string }.

(** [Evaluate]. *)
Definition Evaluate (o : Observed) : Decision :=
  if negb (ConfigMapExists o) || negb (ServiceExists o) then
    {| dec_Action := ActionCreate; dec_Reason := "missing config map or service" |}
  else if negb (DesiredConfig o =? "")%string && negb (DesiredConfig o =? CurrentConfig o)%string then
    {| dec_Action := ActionUpdateConfig; dec_Reason := "config drift detected" |}
  else if negb (DesiredReplicas o =? CurrentReplicas o) then
    {| dec_Action := ActionScale;
       dec_Reason := "scale from " +:+ itoa (CurrentReplicas o) +:+ " to " +:+ itoa (DesiredReplicas o) +:+
                     " replicas" |}
  else if negb (DeploymentReady o) || (ReadyReplicas o <? DesiredReplicas o) then
    {| dec_Action := ActionAwaitReady;
       dec_Reason := itoa (ReadyReplicas o) +:+ "/" +:+ itoa (DesiredReplicas o) +:+ " replicas ready" |}
  else {| dec_Action := ActionNothing; dec_Reason := "pooler is in the desired state" |}.

(** [IsTerminal]. *)
Definition IsTerminal (d : Decision) : bool :=
  match dec_Action d with ActionNothing | ActionAwaitReady => true | _ => false end.

Definition Action_String (a : Action) : string :=
  match a with
  | ActionNothing => "Nothing" | ActionCreate => "Create" | ActionScale => "Scale"
  | ActionUpdateConfig => "UpdateConfig" | ActionAwaitReady => "AwaitReady"
  end.

(** [String]. *)
Definition Decision_String (d : Decision) : string := Action_String (dec_Action d) +:+ ": " +:+ dec_Reason d.

End PoolerState.
