(* ===== verification/Store.v ===== *)
(** * internal/store/connstr.go: libpq connection strings

    Rendering connection parameters as a keyword/value string and parsing them back. *)

From Stdlib Require Import ZArith Lia List Bool Ascii.
From stdpp Require Import base list strings gmap sorting.
From S2P Require Import Prelude GoStrings.

Local Open Scope Z_scope.

Module Store.

Definition defaultPort : Z := 5432.
Definition defaultSSLMode : string := "require".
Definition defaultUser : string := "postgres".
Definition defaultDatabase : string := "postgres".

Record ConnParams := {
  Host : string;
  Port : Z;
  User : string;
  Password : string;
  Database : string;
  SSLMode : string;
  Extra : gmap string string;
}.

Definition DefaultConnParams (host : string) : ConnParams :=
  {| Host := host; Port := defaultPort; User := defaultUser; Password := ""; Database := defaultDatabase;
     SSLMode := defaultSSLMode; Extra := ∅ |}.

Definition port (c : ConnParams) : Z := if Port c =? 0 then defaultPort else Port c.
Definition user (c : ConnParams) : string := if (User c =? "")%string then defaultUser else User c.
Definition database (c : ConnParams) : string := if (Database c =? "")%string then defaultDatabase else Database c.
Definition sslMode (c : ConnParams) : string := if (SSLMode c =? "")%string then defaultSSLMode else SSLMode c.

(** [baseKV]: the standard keys, the password when there is one, then the extra keys,
    which override. *)
Definition baseKV (c : ConnParams) : gmap string string :=
  let kv : gmap string string :=
    list_to_map [("host", Host c); ("port", itoa (port c)); ("user", user c); ("dbname", database c);
                 ("sslmode", sslMode c)] in
  Extra c ∪ (if (Password c =? "")%string then kv else <["password" := Password c]> kv).

(** A value as [kvString] writes it. *)
Definition quote_value (v : string) : string :=
  if contains_byte " " v || contains_byte squote v || contains_byte bslash v
  then str1 squote +:+ replace_byte squote (String bslash (str1 squote)) v +:+ str1 squote
  else v.

Definition kv_part (kv : gmap string string) (k : string) : string :=
  k +:+ "=" +:+ quote_value (default "" (kv !! k)).

(** [kvString]; the keys are sorted, so the order of the map iteration is immaterial. *)
Definition kvString (kv : gmap string string) : string :=
  strings_join " " (map (kv_part kv) (sort_strings (map_to_list kv).*1)).

Definition DSN (c : ConnParams) : string := kvString (baseKV c).

Definition WithDatabase (db : string) (c : ConnParams) : ConnParams :=
  {| Host := Host c; Port := Port c; User := User c; Password := Password c; Database := db;
     SSLMode := SSLMode c; Extra := Extra c |}.
Definition WithUser (u pw : string) (c : ConnParams) : ConnParams :=
  {| Host := Host c; Port := Port c; User := u; Password := pw; Database := Database c;
     SSLMode := SSLMode c; Extra := Extra c |}.
Definition WithSSLMode (mode : string) (c : ConnParams) : ConnParams :=
  {| Host := Host c; Port := Port c; User := User c; Password := Password c; Database := Database c;
     SSLMode := mode; Extra := Extra c |}.
Definition WithExtra (k v : string) (c : ConnParams) : ConnParams :=
  {| Host := Host c; Port := Port c; User := User c; Password := Password c; Database := Database c;
     SSLMode := SSLMode c; Extra := <[k := v]> (Extra c) |}.

Definition ReplicationDSN (host : string) (p : Z) (u pw : string) : string :=
  DSN {| Host := host; Port := p; User := u; Password := pw; Database := "replication";
         SSLMode := defaultSSLMode; Extra := ∅ |}.
Definition SuperuserDSN (host : string) (p : Z) (pw : string) : string :=
  DSN {| Host := host; Port := p; User := defaultUser; Password := pw; Database := defaultDatabase;
         SSLMode := defaultSSLMode; Extra := ∅ |}.

(** ** Parsing *)

(** The cut set of [TrimLeft] and [IndexAny]. *)
Definition ws (c : ascii) : bool := let b := byte c in (b =? 32) || (b =? 9) || (b =? 10) || (b =? 13).

Fixpoint trim_left (s : string) : string :=
  match s with
  | String c s' => if ws c then trim_left s' else s
  | EmptyString => ""
  end.

(** The text before the first white space and the rest from there on. *)
Fixpoint span_value (s : string) : string * string :=
  match s with
  | EmptyString => ("", "")
  | String c s' => if ws c then ("", s) else let '(a, b) := span_value s' in (String c a, b)
  end.

(** The loop of [tokenizeDSN]; every iteration consumes a byte, so the length of the text
    is enough fuel. *)
Fixpoint tokenize_loop (T : UnicodeTables) (fuel : nat) (s : string) (acc : gmap string string) :
  result (gmap string string) :=
  match fuel with
  | O => Ok acc
  | S fuel' =>
      let s := trim_left s in
      if (s =? "")%string then Ok acc
      else
        match index_byte "=" s with
        | None => Err (ErrNew ("malformed DSN near " +:+ Quote T s +:+ ": missing '='"))
        | Some eq =>
            let key := TrimSpace (stake eq s) in
            let s := sdrop (S eq) s in
            if has_prefix (str1 squote) s then
              match index_byte squote (sdrop 1 s) with
              | None => Err (ErrNew ("unterminated quoted value for key " +:+ Quote T key))
              | Some e => tokenize_loop T fuel' (sdrop (e + 2) s) (<[key := stake e (sdrop 1 s)]> acc)
              end
            else
              let '(value, rest) := span_value s in
              tokenize_loop T fuel' rest (<[key := value]> acc)
        end
  end.

Lemma length_trim_left s : (String.length (trim_left s) <= String.length s)%nat.
Proof. induction s as [|c s IH]; simpl; [done|]. case_match; simpl; lia. Qed.

Lemma length_span_value s : (String.length (span_value s).2 <= String.length s)%nat.
Proof. induction s as [|c s IH]; simpl; [done|]. case_match; [done|]. destruct (span_value s); simpl in *; lia. Qed.

(** Fuel at least the length of the text is enough, and more changes nothing. *)
Lemma tokenize_fuel T f1 f2 s acc :
  (String.length s <= f1)%nat -> (String.length s <= f2)%nat ->
  tokenize_loop T f1 s acc = tokenize_loop T f2 s acc.
Proof.
  revert f2 s acc. induction f1 as [|f1 IH]; intros [|f2] s acc H1 H2.
  - done.
  - destruct s; [done|simpl in H1; lia].
  - destruct s; [done|simpl in H2; lia].
  - cbn [tokenize_loop]. pose proof (length_trim_left s) as Ht. set (t := trim_left s) in *.
    case_match eqn:Et; [done|]. destruct (index_byte "=" t) as [e|]; [|done].
    assert (0 < String.length t)%nat by (destruct t; [done|simpl; lia]).
    case_match.
    + destruct (index_byte squote _) as [q|]; [|done]. apply IH; rewrite !length_sdrop; lia.
    + pose proof (length_span_value (sdrop (S e) t)) as Hv. rewrite length_sdrop in Hv.
      destruct (span_value (sdrop (S e) t)) as [v r]. simpl in Hv. apply IH; lia.
Qed.

(** [tokenizeDSN]. *)
Definition tokenizeDSN (T : UnicodeTables) (dsn : string) : result (gmap string string) :=
  let s := TrimSpace dsn in tokenize_loop T (String.length s) s ∅.

(** [fmt.Sscanf(v, "%d", &p)]: leading spaces but no line break, an optional sign, at
    least one digit; text after the digits is ignored. *)
Fixpoint skip_space (l : list (Z * string)) : option (list (Z * string)) :=
  match l with
  | [] => Some []
  | (r, b) :: l' =>
      if r =? 10 then None
      else if (r =? 13) && match l' with (r', _) :: _ => r' =? 10 | [] => false end then None
      else if IsSpace r then skip_space l' else Some l
  end.

Fixpoint take_digits (s : string) : string :=
  match s with
  | String c s' => if is_digit c then String c (take_digits s') else ""
  | EmptyString => ""
  end.

Definition scan_d (v : string) : option Z :=
  match skip_space (runes v) with
  | None => None
  | Some l =>
      let s := concat_s (map snd l) in
      let '(neg, ds) := match s with
                        | String c s' => if Ascii.eqb c "-" then (true, s') else if Ascii.eqb c "+" then (false, s')
                                         else (false, s)
                        | EmptyString => (false, s)
                        end in
      match parse_uint (take_digits ds) with
      | Some z => let z := if neg : bool then - z else z in if in_int64 z then Some z else None
      | None => None
      end
  end.

Definition standard_keys : list string := ["host"; "port"; "user"; "password"; "dbname"; "sslmode"].

(** [ParseDSN]: the switch on the keys; only the port can fail. *)
Definition ParseDSN (T : UnicodeTables) (dsn : string) : result ConnParams :=
  match tokenizeDSN T dsn with
  | Err e => Err e
  | Ok kv =>
      let get k := default "" (kv !! k) in
      match match kv !! "port" with Some v => scan_d v | None => Some 0 end with
      | None => Err (ErrWrap ("invalid port " +:+ Quote T (get "port") +:+ ": ") (ErrNew "expected integer") "")
      | Some p =>
          Ok {| Host := get "host"; Port := p; User := get "user"; Password := get "password";
                Database := get "dbname"; SSLMode := get "sslmode";
                Extra := filter (fun kv => kv.1 ∉ standard_keys) kv |}
      end
  end.

(** ** Round trip *)

(** Keys without spaces or equals signs, values without single quotes, in printable
    ASCII. *)
Definition safe_key (k : string) : bool := sall (fun c => graphic c && neqc "=" c) k.
Definition safe_value (v : string) : bool := sall (fun c => printable c && neqc squote c) v.

Lemma graphic_not_ws c : graphic c = true -> ws c = false.
Proof. unfold graphic, ws, in_range. intros H. breflect. repeat apply orb_false_intro; apply Z.eqb_neq; lia. Qed.

Lemma safe_key_graphic k : safe_key k = true -> sall graphic k = true.
Proof. apply sall_impl. intros c H. by breflect. Qed.

Lemma TrimSpace_key k : safe_key k = true -> TrimSpace k = k.
Proof.
  intros H%safe_key_graphic. destruct k as [|c k]; [done|]. apply TrimSpace_id.
  - eapply sall_impl; [|exact H]. apply graphic_printable.
  - cbn [sall] in H. breflect. by exists c, k.
  - by apply ends_ok_sall.
Qed.

(** The text that may follow a value. *)
Definition boundary (rest : string) : Prop := rest = "" \/ exists s, rest = String " " s.

Lemma trim_left_key k t : safe_key k = true -> trim_left (k +:+ "=" +:+ t) = k +:+ "=" +:+ t.
Proof.
  intros H%safe_key_graphic. destruct k as [|c k]; [done|]. cbn [sall] in H. breflect.
  rewrite app_cons_l. cbn [trim_left]. by rewrite graphic_not_ws.
Qed.

Lemma span_value_app v rest :
  sall (fun c => negb (ws c)) v = true -> boundary rest -> span_value (v +:+ rest) = (v, rest).
Proof.
  intros Hv Hr. induction v as [|c v IH].
  - destruct Hr as [->|[s ->]]; done.
  - cbn [sall] in Hv. breflect. rewrite app_cons_l. cbn [span_value]. by rewrite H, IH.
Qed.

(** One iteration of the tokenizer on one rendered pair. *)
Lemma tokenize_pair T fuel k v rest acc :
  safe_key k = true -> safe_value v = true -> boundary rest ->
  tokenize_loop T (S fuel) (k +:+ "=" +:+ quote_value v +:+ rest) acc = tokenize_loop T fuel rest (<[k := v]> acc).
Proof.
  intros Hk Hv Hr. cbn [tokenize_loop]. rewrite trim_left_key by done.
  assert ((k +:+ "=" +:+ quote_value v +:+ rest =? "")%string = false) as ->.
  { by destruct k. }
  change ("=" +:+ ?x) with (String "=" x). rewrite index_byte_app.
  2: { revert Hk. apply sall_impl. intros c H. by breflect. }
  rewrite stake_app, TrimSpace_key, sdrop_past by done.
  assert (Hq : sall (neqc squote) v = true) by (revert Hv; apply sall_impl; intros c H; by breflect).
  unfold quote_value. rewrite (proj2 (contains_byte_false squote v)) by done. rewrite orb_false_r.
  destruct (contains_byte " " v || contains_byte bslash v) eqn:E.
  - rewrite replace_byte_none, !app_assoc_s, str1_app by done. cbn [has_prefix]. 
    change (has_prefix (str1 squote) (String squote ?x)) with (String.prefix "" x).
    replace (String.prefix "" (v +:+ str1 squote +:+ rest)) with true by by destruct (v +:+ _).
    change (sdrop 1 (String squote ?x)) with (sdrop 0 x). rewrite (str1_app squote rest).
    replace (sdrop 0 (v +:+ String squote rest)) with (v +:+ String squote rest) by by destruct (v +:+ _).
    rewrite index_byte_app, stake_app by done. replace (String.length v + 2)%nat with (S (S (String.length v))) by lia.
    change (sdrop (S (S ?n)) (String squote ?x)) with (sdrop (S n) x). by rewrite sdrop_past.
  - breflect.
    assert (Hw : sall (fun c => negb (ws c)) v = true).
    { rewrite contains_byte_false in H. clear -Hv H. unfold safe_value in Hv.
      induction v as [|c v IH]; [done|]. cbn [sall] in *. breflect. rewrite IH, andb_true_r by done.
      unfold printable, in_range, neqc, ws in *. breflect.
      assert (byte c <> 32).
      { intros E. apply (byte_inj c " ") in E. subst. done. }
      rewrite !(proj2 (Z.eqb_neq _ _)) by lia. done. }
    assert (has_prefix (str1 squote) (v +:+ rest) = false) as ->.
    { destruct v as [|c v].
      - destruct Hr as [->|[x ->]]; done.
      - cbn [sall] in Hq. breflect. unfold neqc in *. breflect. rewrite app_cons_l. unfold has_prefix, str1.
        cbn [String.prefix]. destruct (ascii_dec squote c) as [<-|]; [|done]. done. }
    by rewrite span_value_app.
Qed.

Lemma tokenize_space T fuel s acc :
  tokenize_loop T fuel (String " " s) acc = tokenize_loop T fuel s acc.
Proof. by destruct fuel. Qed.

Definition pair_part (p : string * string) : string := p.1 +:+ "=" +:+ quote_value p.2.

Lemma tokenize_pairs T fuel l acc :
  Forall (fun p => safe_key p.1 = true /\ safe_value p.2 = true) l -> (length l <= fuel)%nat ->
  tokenize_loop T fuel (strings_join " " (map pair_part l)) acc =
  Ok (foldl (fun m p => <[p.1 := p.2]> m) acc l).
Proof.
  revert fuel acc. induction l as [|[k v] l IH]; intros fuel acc Hl Hf.
  { by destruct fuel. }
  apply Forall_cons in Hl as [[Hk Hv] Hl]. cbn in Hk, Hv. destruct fuel as [|fuel]; [cbn in Hf; lia|]. cbn in Hf.
  destruct l as [|p l].
  - cbn [map strings_join foldl]. rewrite <- (app_nil_r_s (pair_part (k, v))). unfold pair_part. cbn [fst snd].
    rewrite !app_assoc_s, tokenize_pair by (done || by left). by destruct fuel.
  - change (strings_join " " (map pair_part ((k, v) :: p :: l)))
      with (pair_part (k, v) +:+ " " +:+ strings_join " " (map pair_part (p :: l))).
    unfold pair_part at 1. cbn [fst snd]. rewrite !app_assoc_s, tokenize_pair by (done || (right; eauto)).
    change (" " +:+ ?x) with (String " " x). rewrite tokenize_space, IH; [done|done|cbn in *; lia].
Qed.

Lemma foldl_insert (l : list (string * string)) (acc : gmap string string) :
  NoDup l.*1 -> foldl (fun m p => <[p.1 := p.2]> m) acc l = list_to_map l ∪ acc.
Proof.
  revert acc. induction l as [|[k v] l IH]; intros acc Hnd.
  - cbn. by rewrite map_empty_union.
  - cbn [foldl fst snd]. rewrite list_to_map_cons. rewrite fmap_cons in Hnd. apply NoDup_cons in Hnd as [Hni Hnd]. rewrite IH by done.
    rewrite <- insert_union_l, insert_union_r; [done|]. by apply not_elem_of_list_to_map_1.
Qed.

(** The pairs in the order they are rendered. *)
Definition sorted_pairs (kv : gmap string string) : list (string * string) :=
  map (fun k => (k, default "" (kv !! k))) (sort_strings (map_to_list kv).*1).

Lemma sorted_pairs_perm kv : sorted_pairs kv ≡ₚ map_to_list kv.
Proof.
  unfold sorted_pairs. etrans; [apply Permutation_map, sort_strings_permutation|].
  apply reflexive_eq. rewrite map_map. rewrite <- (map_id (map_to_list kv)) at 2.
  apply map_ext_in. intros [k v] Hin%list_elem_of_In. apply elem_of_map_to_list in Hin. cbn. by rewrite Hin.
Qed.

Definition safe_map (kv : gmap string string) : Prop :=
  map_Forall (fun k v => safe_key k = true /\ safe_value v = true) kv.

Lemma safe_map_pairs kv :
  safe_map kv -> Forall (fun p => safe_key p.1 = true /\ safe_value p.2 = true) (sorted_pairs kv).
Proof.
  intros Hs. rewrite sorted_pairs_perm. apply Forall_forall. intros [k v] Hin%elem_of_map_to_list. by apply Hs.
Qed.

Lemma sall_join p l : p " "%char = true -> Forall (fun s => sall p s = true) l -> sall p (strings_join " " l) = true.
Proof.
  intros Hp. induction 1 as [|x l Hx Hl IH]; [done|]. destruct l as [|y l]; [done|].
  change (strings_join " " (x :: y :: l)) with (x +:+ " " +:+ strings_join " " (y :: l)).
  rewrite !sall_app, Hx, IH. cbn. by rewrite Hp.
Qed.

Lemma ends_ok_join l : l <> [] -> Forall ends_ok l -> ends_ok (strings_join " " l).
Proof.
  intros Hne Hl. induction Hl as [|x l Hx Hl IH]; [done|]. destruct l as [|y l]; [done|].
  change (strings_join " " (x :: y :: l)) with (x +:+ " " +:+ strings_join " " (y :: l)).
  apply ends_ok_app, ends_ok_app. by apply IH.
Qed.

Lemma pair_part_printable k v :
  safe_key k = true -> safe_value v = true -> sall printable (pair_part (k, v)) = true.
Proof.
  intros Hk%safe_key_graphic Hv. unfold pair_part. cbn [fst snd]. rewrite !sall_app.
  rewrite (sall_impl graphic printable k graphic_printable Hk). cbn.
  assert (Hp : sall printable v = true) by (revert Hv; apply sall_impl; intros c H; by breflect).
  assert (Hq : sall (neqc squote) v = true) by (revert Hv; apply sall_impl; intros c H; by breflect).
  unfold quote_value. case_match; [|done]. by rewrite replace_byte_none, !sall_app, Hp by done.
Qed.

Lemma pair_part_ends k v : safe_value v = true -> ends_ok (pair_part (k, v)).
Proof.
  intros Hv. unfold pair_part. cbn [fst snd]. apply ends_ok_app. unfold quote_value.
  destruct (contains_byte " " v || contains_byte squote v || contains_byte bslash v) eqn:E.
  - do 3 apply ends_ok_app. by exists "", squote.
  - breflect. destruct v as [|c v]; [by exists "", "="%char|]. apply ends_ok_app, ends_ok_sall; [done|].
    rewrite contains_byte_false in H. clear -Hv H. unfold safe_value in Hv.
    induction (String c v) as [|d s IH]; [done|]. cbn [sall] in *. breflect. rewrite IH, andb_true_r by done.
    unfold printable, graphic, in_range, neqc in *. breflect.
    assert (byte d <> 32). { intros E. apply (byte_inj d " ") in E. subst. done. }
    apply andb_true_intro. split; apply Z.leb_le; lia.
Qed.

Lemma kvString_pairs kv : kvString kv = strings_join " " (map pair_part (sorted_pairs kv)).
Proof. unfold kvString, sorted_pairs. by rewrite map_map. Qed.

Lemma TrimSpace_pairs l :
  Forall (fun p => safe_key p.1 = true /\ safe_value p.2 = true) l ->
  TrimSpace (strings_join " " (map pair_part l)) = strings_join " " (map pair_part l).
Proof.
  intros Hl. destruct l as [|[k v] l]; [done|]. apply Forall_cons in Hl as [[Hk Hv] Hl]. cbn in Hk, Hv.
  apply TrimSpace_id.
  - apply sall_join; [done|]. apply Forall_map. constructor; [by apply pair_part_printable|].
    eapply Forall_impl; [exact Hl|]. intros [k' v'] [? ?]. by apply pair_part_printable.
  - assert (starts_ok (pair_part (k, v))) as (c & a & E & Hc).
    { unfold pair_part. cbn [fst snd]. apply safe_key_graphic in Hk. destruct k as [|c k]; [by eexists "="%char, _|].
      cbn [sall] in Hk. breflect. by eexists c, _. }
    cbn [map strings_join]. destruct (map pair_part l) as [|y l'].
    + by exists c, a.
    + rewrite E, app_cons_l. by eexists c, _.
  - apply ends_ok_join; [done|]. apply Forall_map. constructor; [by apply pair_part_ends|].
    eapply Forall_impl; [exact Hl|]. intros [k' v'] [? ?]. by apply pair_part_ends.
Qed.

Lemma length_pairs l : (length l <= String.length (strings_join " " (map pair_part l)))%nat.
Proof.
  induction l as [|p l IH]; [cbn; lia|]. destruct l as [|q l].
  - cbn [map strings_join length]. unfold pair_part. rewrite !length_app_s. cbn. lia.
  - change (strings_join " " (map pair_part (p :: q :: l)))
      with (pair_part p +:+ " " +:+ strings_join " " (map pair_part (q :: l))).
    rewrite !length_app_s. cbn [length] in *. cbn [String.length]. lia.
Qed.

(** Rendered pairs are read in order, a later one replacing an earlier one of the same key. *)
Lemma tokenizeDSN_pairs T l :
  Forall (fun p => safe_key p.1 = true /\ safe_value p.2 = true) l ->
  tokenizeDSN T (strings_join " " (map pair_part l)) = Ok (foldl (fun m p => <[p.1 := p.2]> m) ∅ l).
Proof.
  intros Hl. unfold tokenizeDSN. rewrite TrimSpace_pairs by done.
  apply tokenize_pairs; [done|apply length_pairs].
Qed.

Lemma tokenizeDSN_kvString T kv : safe_map kv -> tokenizeDSN T (kvString kv) = Ok kv.
Proof.
  intros Hs. rewrite kvString_pairs, tokenizeDSN_pairs by by apply safe_map_pairs.
  rewrite foldl_insert; [|rewrite sorted_pairs_perm; apply NoDup_fst_map_to_list].
  rewrite map_union_empty. f_equal. rewrite <- (list_to_map_to_list kv) at 2.
  apply list_to_map_proper; [rewrite sorted_pairs_perm; apply NoDup_fst_map_to_list|apply sorted_pairs_perm].
Qed.

Lemma take_digits_all s : sall is_digit s = true -> take_digits s = s.
Proof. induction s as [|c s IH]; [done|]. cbn. intros H. breflect. by rewrite H, IH. Qed.

Lemma scan_d_itoa z : in_int64 z = true -> scan_d (itoa z) = Some z.
Proof.
  intros Hz. unfold scan_d.
  pose proof (itoa_graphic z) as Ha.
  rewrite runes_all_ascii.
  2: { eapply sall_impl; [|exact Ha]. intros c. unfold graphic, in_range. lia. }
  assert (skip_space (map (fun c => (byte c, str1 c)) (String.list_ascii_of_string (itoa z))) =
          Some (map (fun c => (byte c, str1 c)) (String.list_ascii_of_string (itoa z)))) as ->.
  { destruct (itoa z) as [|c s]; [done|]. cbn [sall] in Ha. breflect. cbn [String.list_ascii_of_string map skip_space].
    rewrite graphic_not_space by done. unfold graphic, in_range in H. breflect.
    rewrite !(proj2 (Z.eqb_neq _ _)) by lia. done. }
  rewrite concat_str1. unfold itoa. destruct (Z.ltb_spec z 0) as [Hneg|Hpos].
  - change ("-" +:+ digits (- z)) with (String "-" (digits (- z))). cbv iota. rewrite Ascii.eqb_refl.
    rewrite take_digits_all, parse_uint_digits, Z.opp_involutive, Hz by (lia || (apply digits_all; lia)). done.
  - destruct (digits_cons z) as (c & s & E). pose proof (digits_all z Hpos) as Hd.
    pose proof (parse_uint_digits z Hpos) as Hp. rewrite E in *. cbn [sall] in Hd. breflect.
    assert (Ascii.eqb c "-" = false) as -> by (apply Ascii.eqb_neq; intros ->; done).
    assert (Ascii.eqb c "+" = false) as -> by (apply Ascii.eqb_neq; intros ->; done).
    rewrite take_digits_all by (cbn [sall]; by rewrite H, H0). by rewrite Hp, Hz.
Qed.

(** The parameters with the defaults filled in. *)
Definition normalize (c : ConnParams) : ConnParams :=
  {| Host := Host c; Port := port c; User := user c; Password := Password c; Database := database c;
     SSLMode := sslMode c; Extra := Extra c |}.

(** Parameters the keyword/value syntax of this package can carry. *)
Record safe_params (c : ConnParams) : Prop := {
  safe_port : in_int64 (Port c) = true;
  safe_host : safe_value (Host c) = true;
  safe_user : safe_value (User c) = true;
  safe_password : safe_value (Password c) = true;
  safe_database : safe_value (Database c) = true;
  safe_sslmode : safe_value (SSLMode c) = true;
  safe_extra : safe_map (Extra c);
  extra_apart : Forall (fun k => Extra c !! k = None) standard_keys;
}.

Lemma baseKV_lookup c k :
  baseKV c !! k =
  match Extra c !! k with
  | Some v => Some v
  | None =>
      if decide (k = "password") then (if (Password c =? "")%string then None else Some (Password c))
      else if decide (k = "host") then Some (Host c)
      else if decide (k = "port") then Some (itoa (port c))
      else if decide (k = "user") then Some (user c)
      else if decide (k = "dbname") then Some (database c)
      else if decide (k = "sslmode") then Some (sslMode c)
      else None
  end.
Proof.
  unfold baseKV. destruct (Extra c !! k) as [v|] eqn:E.
  - by apply lookup_union_Some_l.
  - rewrite lookup_union_r by done. simpl. destruct (Password c =? "")%string; rewrite ?lookup_insert, ?lookup_empty;
      repeat case_decide; congruence.
Qed.

Lemma safe_itoa z : safe_value (itoa z) = true.
Proof.
  assert (forall n, 0 <= n -> safe_value (digits n) = true) as Hd.
  { intros n Hn. unfold safe_value. eapply sall_impl; [|by apply digits_all]. intros c Hc.
    apply andb_true_intro. split.
    - unfold is_digit, printable, in_range in *. lia.
    - unfold neqc. apply negb_true_iff, Ascii.eqb_neq. intros <-. done. }
  unfold itoa. destruct (Z.ltb_spec z 0); [|by apply Hd]. unfold safe_value in *. rewrite sall_app, Hd by lia. done.
Qed.

Lemma baseKV_safe c : safe_params c -> safe_map (baseKV c).
Proof.
  intros [Hport Hhost Huser Hpw Hdb Hssl Hex _] k v. rewrite baseKV_lookup.
  destruct (Extra c !! k) as [v'|] eqn:E; [intros [= <-]; by apply Hex|].
  repeat case_decide; subst; try case_match; intros [= <-]; (split; [reflexivity|]);
    try done; try apply safe_itoa; unfold user, database, sslMode; by case_match.
Qed.


Definition sample_params : ConnParams :=
  {| Host := "db-primary.prod.svc"; Port := 0; User := "app"; Password := "p w\d"; Database := "";
     SSLMode := "verify-full"; Extra := {["connect_timeout" := "10"]} |}.


(** A quote in a value is escaped by the writer and not by the reader: the value is cut
    and the keys that follow are misread. *)
Example quote_breaks_dsn :
  let c := WithUser "app" "it's" (DefaultConnParams "h") in
  (fun p => (Password p, Port p, User p)) <$> (match ParseDSN ascii_tables (DSN c) with Ok p => Some p | Err _ => None end)
  = Some ("it" +:+ str1 bslash, 0, "app").
Proof. vm_compute. reflexivity. Qed.

End Store.
