(* ===== verification/Scheduler.v ===== *)
(** * internal/scheduler: backup schedules and retention

    The five-field cron parser, the due check and the retention policy.  Times are
    nanoseconds since the epoch; a due check uses the calendar fields of a UTC time. *)

From Stdlib Require Import ZArith Lia List Bool Ascii.
From stdpp Require Import base list strings.
From S2P Require Import Prelude GoStrings.

Local Open Scope Z_scope.

Module Scheduler.

Definition ScheduleHourly : string := "0 * * * *".
Definition ScheduleDaily : string := "0 0 * * *".
Definition ScheduleWeekly : string := "0 0 * * 0".
Definition ScheduleMonthly : string := "0 0 1 * *".

(** ** Retention *)

Record RetentionPolicy := { Days : Z; Count : Z }.

(** [ParseRetentionPolicy]. *)
Definition ParseRetentionPolicy (T : UnicodeTables) (s : string) : result RetentionPolicy :=
  let s := TrimSpace s in
  if (s =? "")%string then Err (ErrNew "empty retention policy")
  else if has_suffix_byte "d" s then
    match Atoi (trim_suffix_byte "d" s) with
    | Some days => if days <=? 0 then Err (ErrNew ("invalid day-based retention policy " +:+ Quote T s))
                   else Ok {| Days := days; Count := 0 |}
    | None => Err (ErrNew ("invalid day-based retention policy " +:+ Quote T s))
    end
  else
    match Atoi s with
    | Some count => if count <=? 0 then Err (ErrNew ("invalid count-based retention policy " +:+ Quote T s))
                    else Ok {| Days := 0; Count := count |}
    | None => Err (ErrNew ("invalid count-based retention policy " +:+ Quote T s))
    end.

Definition hour : Z := 3600 * 1000000000.

(** [time.Duration(r.Days) * 24 * time.Hour]: 64-bit products. *)
Definition retention_duration (days : Z) : Z := int64 (int64 (days * 24) * hour).

(** [ExpiresAt]. *)
Definition ExpiresAt (r : RetentionPolicy) (startTime : Z) : result Z :=
  if 0 <? Days r then Ok (startTime + retention_duration (Days r))
  else Err (ErrNew "count-based retention does not have a fixed expiry time").

(** [IsExpired]. *)
Definition IsExpired (r : RetentionPolicy) (startTime now : Z) : bool :=
  if 0 <? Days r then startTime + retention_duration (Days r) <? now else false.

(** ** Schedules *)

Record Schedule := { raw : string; f_minute : string; f_hour : string; f_dom : string; f_month : string; f_dow : string }.

Definition field_error (T : UnicodeTables) (name part : string) (lo hi : Z) : option error :=
  match Atoi (TrimSpace part) with
  | None => Some (ErrWrap ("cron field " +:+ Quote T name +:+ " has invalid value " +:+ Quote T part +:+ ": ")
                          (ErrNew "strconv.Atoi") "")
  | Some v =>
      if (v <? lo) || (hi <? v)
      then Some (ErrNew ("cron field " +:+ Quote T name +:+ " value " +:+ itoa v +:+ " is out of range [" +:+
                         itoa lo +:+ ", " +:+ itoa hi +:+ "]"))
      else None
  end.

Fixpoint first_field_error (T : UnicodeTables) (name : string) (lo hi : Z) (parts : list string) : option error :=
  match parts with
  | [] => None
  | p :: ps => match field_error T name p lo hi with
               | Some e => Some e
               | None => first_field_error T name lo hi ps
               end
  end.

(** [validateField]. *)
Definition validateField (T : UnicodeTables) (field : string) (lo hi : Z) (name : string) : option error :=
  if (field =? "*")%string then None else first_field_error T name lo hi (split_byte "," field).

(** [Parse]. *)
Definition Parse (T : UnicodeTables) (expr : string) : result Schedule :=
  match Fields expr with
  | [m; h; d; mo; w] =>
      match validateField T m 0 59 "minute" with Some e => Err e | None =>
      match validateField T h 0 23 "hour" with Some e => Err e | None =>
      match validateField T d 1 31 "day-of-month" with Some e => Err e | None =>
      match validateField T mo 1 12 "month" with Some e => Err e | None =>
      match validateField T w 0 7 "day-of-week" with Some e => Err e | None =>
        Ok {| raw := expr; f_minute := m; f_hour := h; f_dom := d; f_month := mo; f_dow := w |}
      end end end end end
  | _ => Err (ErrNew ("cron expression " +:+ Quote T expr +:+ " must have exactly 5 fields"))
  end.

(** The calendar fields of a time in UTC; Sunday is 0. *)
Record UTC := { t_Minute : Z; t_Hour : Z; t_Day : Z; t_Month : Z; t_Weekday : Z }.

(** [matchField]. *)
Definition matchField (field : string) (value : Z) : bool :=
  if (field =? "*")%string then true
  else existsb (fun part => match Atoi (TrimSpace part) with Some v => v =? value | None => false end)
         (split_byte "," field).

(** [DueAt]. *)
Definition DueAt (s : Schedule) (t : UTC) : bool :=
  if negb (matchField (f_minute s) (t_Minute t)) then false
  else if negb (matchField (f_hour s) (t_Hour t)) then false
  else if negb (matchField (f_dom s) (t_Day t)) then false
  else if negb (matchField (f_month s) (t_Month t)) then false
  else if negb (matchField (f_dow s) (t_Weekday t)) then
    (f_dow s =? "7")%string && (t_Weekday t =? 0)
  else true.

(** ** Retention in time *)

Definition day : Z := 24 * hour.

(** The longest retention that fits 64 bits of nanoseconds. *)
Definition max_days : Z := 106751.

Lemma retention_duration_small d : 0 <= d <= max_days -> retention_duration d = d * day.
Proof.
  unfold max_days, retention_duration, day, hour. intros Hd.
  rewrite (int64_id (d * 24)), int64_id; [ring|..]; unfold in_int64, min_int64, max_int64;
    apply andb_true_intro; split; apply Z.leb_le; lia.
Qed.

Lemma retention_duration_wraps d : max_days < d <= 2 * max_days + 1 -> retention_duration d < 0.
Proof.
  unfold max_days, retention_duration, day, hour. intros Hd.
  rewrite (int64_id (d * 24)).
  2: { unfold in_int64, min_int64, max_int64. apply andb_true_intro. split; apply Z.leb_le; lia. }
  unfold int64, wrap. change (64 - 1) with 63.
  pose proof (Z.div_mod (d * 24 * (3600 * 1000000000) + 2 ^ 63) (2 ^ 64) ltac:(done)).
  pose proof (Z.mod_pos_bound (d * 24 * (3600 * 1000000000) + 2 ^ 63) (2 ^ 64) ltac:(done)). lia.
Qed.

Lemma trim_suffix_app s c : trim_suffix_byte c (s +:+ str1 c) = s.
Proof.
  induction s as [|d s IH]; [rewrite app_nil_l_s; unfold str1; cbn [trim_suffix_byte]; by rewrite Ascii.eqb_refl|].
  rewrite app_cons_l. cbn [trim_suffix_byte].
  destruct (s +:+ str1 c) eqn:E; [by destruct s|]. by rewrite IH.
Qed.

Lemma has_suffix_app s c : has_suffix_byte c (s +:+ str1 c) = true.
Proof.
  induction s as [|d s IH]; [rewrite app_nil_l_s; unfold str1; cbn [has_suffix_byte]; by rewrite Ascii.eqb_refl|].
  rewrite app_cons_l. cbn [has_suffix_byte].
  destruct (s +:+ str1 c) eqn:E; [by destruct s|]. done.
Qed.

(** A positive number of days is read back. *)
Lemma ParseRetentionPolicy_days T n :
  0 < n -> in_int64 n = true -> ParseRetentionPolicy T (itoa n +:+ "d") = Ok {| Days := n; Count := 0 |}.
Proof.
  intros Hn Hi. unfold ParseRetentionPolicy. change (itoa n +:+ "d") with (itoa n +:+ str1 "d").
  rewrite TrimSpace_id.
  - destruct (String.eqb_spec (itoa n +:+ str1 "d") "") as [E|_]; [by destruct (itoa n)|].
    rewrite has_suffix_app, trim_suffix_app, Atoi_itoa by done. by destruct (Z.leb_spec n 0); [lia|].
  - rewrite sall_app. apply andb_true_intro. split; [|done].
    eapply sall_impl; [apply graphic_printable|apply itoa_graphic].
  - pose proof (itoa_graphic n) as Hg. unfold itoa in *. destruct (Z.ltb_spec n 0); [lia|].
    destruct (digits_cons n) as (c & a & E). rewrite E in *. cbn [sall] in Hg. breflect.
    rewrite app_cons_l. by eexists c, _.
  - by exists (itoa n), "d"%char.
Qed.

(** C39: day-based retention and its bound.  A policy of [n] days is parsed back as [n]; up to
    106751 days a backup expires exactly [n] days after it started; from 106752 to 213503
    days the duration overflows 64 bits of nanoseconds and becomes negative, so a backup
    counts as expired the moment it starts. *)
Theorem retention_expiry (T : UnicodeTables) (n startTime now : Z) :
  0 < n <= 2 * max_days + 1 ->
  exists p, ParseRetentionPolicy T (itoa n +:+ "d") = Ok p /\
    (n <= max_days -> (IsExpired p startTime now = true <-> startTime + n * day < now) /\
                      ExpiresAt p startTime = Ok (startTime + n * day)) /\
    (max_days < n -> IsExpired p startTime startTime = true).
Proof.
  intros Hn. exists {| Days := n; Count := 0 |}.
  split; [apply ParseRetentionPolicy_days; [lia|]|].
  { unfold in_int64, min_int64, max_int64, max_days in *. apply andb_true_intro; split; apply Z.leb_le; lia. }
  unfold IsExpired, ExpiresAt. cbn [Days]. destruct (Z.ltb_spec 0 n); [|lia]. split.
  - intros Hm. rewrite retention_duration_small by lia. split; [apply Z.ltb_lt|done].
  - intros Hm. pose proof (retention_duration_wraps n ltac:(lia)). apply Z.ltb_lt. lia.
Qed.

Lemma retention_expiry_witness :
  exists p, ParseRetentionPolicy ascii_tables (itoa 7 +:+ "d") = Ok p /\
    (7 <= max_days -> (IsExpired p 0 (8 * day) = true <-> 0 + 7 * day < 8 * day) /\ ExpiresAt p 0 = Ok (0 + 7 * day)) /\
    (max_days < 7 -> IsExpired p 0 0 = true).
Proof. apply (retention_expiry ascii_tables 7 0 (8 * day)). split; [reflexivity|discriminate]. Defined.

(** ** Due times *)

(** The values a field lists. *)
Definition values (field : string) : list Z := omap (fun part => Atoi (TrimSpace part)) (split_byte "," field).

(** Whether a field admits a value. *)
Definition admits (field : string) (v : Z) : Prop := field = "*" \/ v ∈ values field.

#[export] Instance admits_dec field v : Decision (admits field v).
Proof. unfold admits. apply _. Defined.

Lemma matchField_spec field v : matchField field v = true <-> admits field v.
Proof.
  unfold matchField, admits, values. destruct (String.eqb_spec field "*") as [->|Hne]; [tauto|].
  rewrite existsb_exists, list_elem_of_omap. split.
  - intros (p & Hp & Hv). right. exists p. split; [by apply list_elem_of_In|].
    destruct (Atoi (TrimSpace p)); [|done]. apply Z.eqb_eq in Hv. by subst.
  - intros [?|(p & Hp & Hv)]; [done|]. exists p. split; [by apply list_elem_of_In|]. rewrite Hv. apply Z.eqb_refl.
Qed.

(** An accepted field lists only values in its range. *)
Lemma validateField_values T f lo hi name :
  validateField T f lo hi name = None -> Forall (fun v => lo <= v <= hi) (values f).
Proof.
  unfold validateField, values. destruct (String.eqb_spec f "*") as [->|_]; [constructor|].
  induction (split_byte "," f) as [|p ps IH]; [constructor|]. cbn [first_field_error]. unfold field_error.
  destruct (Atoi (TrimSpace p)) as [v|] eqn:E; [|done].
  destruct (Z.ltb_spec v lo), (Z.ltb_spec hi v); try done. cbn [orb]. intros H'%IH.
  cbn [omap list_omap]. rewrite E. constructor; [lia|exact H'].
Qed.

Lemma Parse_inv T expr s :
  Parse T expr = Ok s ->
  Forall (fun v => 0 <= v <= 59) (values (f_minute s)) /\ Forall (fun v => 0 <= v <= 23) (values (f_hour s)) /\
  Forall (fun v => 1 <= v <= 31) (values (f_dom s)) /\ Forall (fun v => 1 <= v <= 12) (values (f_month s)) /\
  Forall (fun v => 0 <= v <= 7) (values (f_dow s)).
Proof.
  unfold Parse. destruct (Fields expr) as [|m [|h [|d [|mo [|w [|]]]]]]; try done.
  destruct (validateField T m _ _ _) eqn:E1; [done|]. destruct (validateField T h _ _ _) eqn:E2; [done|].
  destruct (validateField T d _ _ _) eqn:E3; [done|]. destruct (validateField T mo _ _ _) eqn:E4; [done|].
  destruct (validateField T w _ _ _) eqn:E5; [done|]. intros [= <-].
  split_and!; by eapply validateField_values.
Qed.

(** When a schedule is due.  A parsed schedule lists only values in the range of each
    field.  It fires at a time exactly when all five fields admit it, where a field
    admits a value if it is the wildcard or lists the value, and Sunday may be written 0
    or 7, provided 7 is written alone: a list such as [5,7] passes the parser but never
    fires on Sunday. *)
Theorem DueAt_spec (T : UnicodeTables) (expr : string) (s : Schedule) (t : UTC) :
  Parse T expr = Ok s ->
  (Forall (fun v => 0 <= v <= 59) (values (f_minute s)) /\ Forall (fun v => 0 <= v <= 23) (values (f_hour s)) /\
   Forall (fun v => 1 <= v <= 31) (values (f_dom s)) /\ Forall (fun v => 1 <= v <= 12) (values (f_month s)) /\
   Forall (fun v => 0 <= v <= 7) (values (f_dow s))) /\
  (f_dow s = "7" \/ 7 ∉ values (f_dow s) ->
   (DueAt s t = true <->
    admits (f_minute s) (t_Minute t) /\ admits (f_hour s) (t_Hour t) /\ admits (f_dom s) (t_Day t) /\
    admits (f_month s) (t_Month t) /\
    (admits (f_dow s) (t_Weekday t) \/ (t_Weekday t = 0 /\ 7 ∈ values (f_dow s))))) /\
  (7 ∈ values (f_dow s) -> f_dow s <> "7" -> ~ admits (f_dow s) 0 -> t_Weekday t = 0 -> DueAt s t = false).
Proof.
  intros HP. split; [by eapply Parse_inv|]. unfold DueAt. split.
  - intros H7. rewrite <- !matchField_spec.
    destruct (matchField (f_minute s) _), (matchField (f_hour s) _), (matchField (f_dom s) _),
      (matchField (f_month s) _), (matchField (f_dow s) _); cbn; try tauto; try naive_solver.
    destruct (String.eqb_spec (f_dow s) "7") as [E|Hne]; cbn.
    + rewrite E in *. rewrite Z.eqb_eq. split; [intros Hz|naive_solver]. split_and!; [done..|]. right. split; [done|].
      vm_compute. left.
    + split; [done|]. intros (_ & _ & _ & _ & [?|[_ Hin]]); [done|]. by destruct H7.
  - intros Hin Hne Hna Hz. rewrite <- matchField_spec in Hna. rewrite Hz. apply not_true_is_false in Hna. rewrite Hna.
    cbn [negb]. destruct (String.eqb_spec (f_dow s) "7"); [done|]. cbn. by repeat case_match.
Qed.

Definition sunday : UTC := {| t_Minute := 0; t_Hour := 0; t_Day := 4; t_Month := 1; t_Weekday := 0 |}.

Lemma DueAt_spec_witness :
  DueAt {| raw := "0 0 * * 5,7"; f_minute := "0"; f_hour := "0"; f_dom := "*"; f_month := "*"; f_dow := "5,7" |}
    sunday = false.
Proof.
  apply (DueAt_spec ascii_tables "0 0 * * 5,7").
  - vm_compute. reflexivity.
  - apply (bool_decide_unpack _). vm_compute. exact I.
  - discriminate.
  - apply (bool_decide_unpack _). vm_compute. exact I.
  - reflexivity.
Defined.

End Scheduler.
