(* ===== verification/Liveness.v ===== *)
(** * Progress of the cluster controller

    What the controller achieves when the API server is up: the class [RuntimeUp] says
    when calls succeed.  A write succeeds only for an object the server's validation
    accepts, with the current resource version and the immutable fields unchanged.  The
    in-memory runtime without scripted faults satisfies the class, and against it a new
    cluster whose objects the server accepts is fully provisioned by two reconciles. *)

From Stdlib Require Import ZArith Lia List Bool.
From stdpp Require Import base list strings gmap.
From S2P Require Import Prelude GoStrings K8s Api Runtime FakeRuntime Ensure PgConfig PgStatus PgResources Password Pdb.
From S2P Require Import ClusterController.

Local Open Scope Z_scope.
Local Open Scope athos_scope.

Module Liveness.
Import Naming Labels Status Resources Cluster.

(** ** A working API server *)

(** [mutable k o0 o]: an update of [o0] to [o] leaves the fields alone that the API
    documents as immutable. *)
Definition mutable (k : Kind) : obj k -> obj k -> Prop :=
  match k return obj k -> obj k -> Prop with
  | KStatefulSet => fun o0 o =>
      ss_Selector (sts_Spec o) = ss_Selector (sts_Spec o0) /\
      ss_ServiceName (sts_Spec o) = ss_ServiceName (sts_Spec o0) /\
      ss_PodManagementPolicy (sts_Spec o) = ss_PodManagementPolicy (sts_Spec o0) /\
      ss_VolumeClaimTemplates (sts_Spec o) = ss_VolumeClaimTemplates (sts_Spec o0)
  | KDeployment => fun o0 o => ds_Selector (dep_Spec o) = ds_Selector (dep_Spec o0)
  | KJob => fun o0 o => js_Template (job_Spec o) = js_Template (job_Spec o0)
  | KSecret => fun o0 o => sec_Type o = sec_Type o0
  | KService => fun o0 o => svs_ClusterIP (svc_Spec o) = svs_ClusterIP (svc_Spec o0)
  | _ => fun _ _ => True
  end.

(** [up w]: from [w] on, the server answers.  [valid k o]: its validation and admission
    accept [o] (well-formed names and values, no policy against it).  A create succeeds
    when the name is free and the object valid; an update when the object exists, the
    client presents its current resource version, the new object is valid and the
    immutable fields are unchanged; a controller reference can be set on an object of the
    same namespace that has no owner. *)
Class RuntimeUp (W : Type) `{RuntimeLaws W} := {
  up : W -> Prop;
  valid : forall k, obj k -> Prop;
  up_get : forall k n w, up w -> exists r w', rt_Get k n w = (r, w') /\ up w' /\
    match stored w k n with Some o => r = Ok o | None => exists e, r = Err e /\ IsNotFound e = true end;
  up_create : forall k o w, up w -> stored w k (key o) = None -> valid k o ->
    exists o' w', rt_Create k o w = (Ok o', w') /\ up w';
  up_update : forall k o o0 w, up w -> stored w k (key o) = Some o0 ->
    om_ResourceVersion (meta k o) = om_ResourceVersion (meta k o0) -> valid k o -> mutable k o0 o ->
    exists o' w', rt_Update k o w = (Ok o', w') /\ up w';
  up_status : forall k o o0 w, up w -> stored w k (key o) = Some o0 ->
    om_ResourceVersion (meta k o) = om_ResourceVersion (meta k o0) -> valid k o ->
    exists o' w', rt_StatusUpdate k o w = (Ok o', w') /\ up w';
  up_now : forall w, up w -> exists t w', rt_Now w = (t, w') /\ up w';
  up_event : forall e w, up w -> exists u w', rt_Event e w = (u, w') /\ up w';
  up_rand : forall b w, up w -> 0 < b -> exists z w', rt_RandInt b w = (Ok z, w') /\ up w';
  up_setref : forall k ref ns o, om_Namespace (meta k o) = ns -> om_OwnerReferences (meta k o) = [] ->
    exists o', rt_SetControllerReference k ref ns o = Ok o';
}.

(** The in-memory runtime is up when no fault is scripted. *)
#[export] Program Instance fake_up : RuntimeUp World :=
  {| up := fun w => w_faults w = [] /\ w_rand w = []; valid := fun k o => om_Name (meta k o) <> "" |}.
Next Obligation.
  intros k n w [Hf Hr]. cbn. unfold fake_Get, faulty. rewrite Hf.
  destruct (lookup_obj w k n); eauto 10.
Qed.
Next Obligation.
  intros k o w [Hf Hr] Hn _. cbn in *. unfold fake_Create, faulty. rewrite Hf, Hn. eauto.
Qed.
Next Obligation.
  intros k o o0 w [Hf Hr] Ho _ _ _. cbn in *. unfold fake_Update, faulty. rewrite Hf, Ho. eauto.
Qed.
Next Obligation.
  intros k o o0 w [Hf Hr] Ho _ _. cbn in *. unfold fake_StatusUpdate, faulty. rewrite Hf, Ho. eauto.
Qed.
Next Obligation. intros w [Hf Hr]. cbn. eauto. Qed.
Next Obligation. intros e w [Hf Hr]. cbn. eauto. Qed.
Next Obligation.
  intros b w [Hf Hr] Hb. cbn. rewrite Hr, (proj2 (Z.ltb_lt _ _) Hb). eauto.
Qed.
Next Obligation.
  intros k ref ns o <- Ho. cbn. unfold fake_SetControllerReference. rewrite String.eqb_refl, Ho. cbn. eauto.
Qed.

(** ** Total code *)

(** [runs P m Q]: from a world that is up and satisfies [P], [m] ends in a world that is
    up, with a result and world in [Q]. *)
Definition runs {W A} `{RuntimeUp W} (P : W -> Prop) (m : M W A) (Q : A -> W -> Prop) : Prop :=
  forall w, up w -> P w -> exists a w', m w = (a, w') /\ up w' /\ Q a w'.

Definition anywhere {W} : W -> Prop := fun _ => True.

(** Code that always ends in a world that is up. *)
Definition total {W A} `{RuntimeUp W} (m : M W A) : Prop := runs anywhere m (fun _ _ => True).

(** Code that reports no error. *)
Definition succeeds {W} `{RuntimeUp W} (P : W -> Prop) (m : M W (option error)) : Prop :=
  runs P m (fun e _ => e = None).

Section Total.
Context {W : Type} `{RuntimeUp W}.

Lemma runs_bind {A B} P (m : M W A) (f : A -> M W B) Q S :
  runs P m Q -> (forall a, runs (Q a) (f a) S) -> runs P (bind m f) S.
Proof.
  intros Hm Hf w Hu HP. destruct (Hm w Hu HP) as (a & w1 & E & Hu1 & HQ).
  destruct (Hf a w1 Hu1 HQ) as (b & w2 & E2 & Hu2 & HS). exists b, w2. unfold bind. by rewrite E.
Qed.

Lemma runs_ret {A} (P : W -> Prop) (a : A) (Q : A -> W -> Prop) :
  (forall w, P w -> Q a w) -> runs P (ret a) Q.
Proof. intros HQ w Hu HP. exists a, w. by split_and!; [|done|apply HQ]. Qed.

Lemma runs_weaken {A} (P P' : W -> Prop) (m : M W A) (Q Q' : A -> W -> Prop) :
  runs P m Q -> (forall w, P' w -> P w) -> (forall a w, Q a w -> Q' a w) -> runs P' m Q'.
Proof.
  intros Hm HP HQ w Hu Hw. destruct (Hm w Hu (HP w Hw)) as (a & w' & ? & ? & ?). exists a, w'. eauto.
Qed.

(** A frame turns a total run into one that keeps what is stored outside it. *)
Lemma runs_frame {A} (m : M W A) (S : Kind -> NamespacedName -> Prop) k n o :
  total m -> frames S m -> ~ S k n ->
  runs (fun w => stored w k n = o) m (fun _ w' => stored w' k n = o).
Proof.
  intros Hm HS Hn w Hu Ho. destruct (Hm w Hu I) as (a & w' & E & Hu' & _). exists a, w'.
  split_and!; [done..|]. by rewrite (HS _ _ _ E).
Qed.

Lemma total_Now : total (W:=W) rt_Now.
Proof. intros w Hu _. destruct (up_now w Hu) as (t & w' & ? & ?). by exists t, w'. Qed.

Lemma total_recordEventf b e : total (recordEventf (W:=W) b e).
Proof.
  unfold recordEventf. destruct b; [|by apply runs_ret].
  intros w Hu _. destruct (up_event e w Hu) as (u & w' & ? & ?). by exists u, w'.
Qed.

Lemma total_nothing : total (W:=W) nothing.
Proof. by apply runs_ret. Qed.

(** ** Create or update *)

(** In [w] the server accepts the object [desired] if it is to be created with its owner;
    and also the merged object if one exists. *)
Definition creates (ref : OwnerReference) (ns : string) (k : Kind) (desired : obj k) (w : W) : Prop :=
  forall d, stored w k (key desired) = None -> rt_SetControllerReference k ref ns desired = Ok d -> valid k d.

Definition accepts (ref : OwnerReference) (ns : string) (k : Kind) (desired : obj k) (merge : obj k -> obj k)
  (w : W) : Prop :=
  creates ref ns k desired w /\
  (forall e, stored w k (key desired) = Some e -> valid k (merge e)).

Lemma succeeds_ensure ref ns wref wget k (desired : obj k) created before merge :
  om_Namespace (meta k desired) = ns -> om_OwnerReferences (meta k desired) = [] ->
  total created -> (forall o, total (before o)) -> (forall S o, frames S (before o)) ->
  (forall e, meta k (merge e) = meta k e) -> (forall e, mutable k e (merge e)) ->
  succeeds (accepts ref ns k desired merge) (ensure ref ns wref wget k desired created before merge).
Proof.
  intros Hns Hor Hc Hb Hbf Hm Himm w Hu [Hcreate Hmerge]. unfold ensure.
  destruct (up_setref k ref ns desired Hns Hor) as [d Ed]. rewrite Ed.
  pose proof (setref_key _ _ _ _ _ Ed) as Hkd.
  destruct (up_get k (key d) w Hu) as (r & w1 & Eg & Hu1 & Hr). pose proof (get_frame _ _ _ _ _ Eg) as F1.
  unfold bind at 1. rewrite Eg. destruct (stored w k (key d)) as [o|] eqn:Es.
  - subst r. destruct (Hb o w1 Hu1 I) as (u & w2 & Eb & Hu2 & _). pose proof (Hbf none o _ _ _ Eb) as F2.
    pose proof (stored_key _ _ _ _ Es) as Hk. unfold bind at 1. rewrite Eb.
    destruct (up_update k (merge o) o w2 Hu2) as (o' & w3 & Eu & Hu3).
    + rewrite key_merge, Hk, F2, F1 by auto. done.
    + by rewrite Hm.
    + apply Hmerge. by rewrite <- Hkd.
    + apply Himm.
    + exists None, w3. unfold err_of, bind. by rewrite Eu.
  - destruct Hr as (e & -> & ->).
    destruct (up_create k d w1 Hu1) as (o' & w2 & Ec & Hu2); [by rewrite F1|by apply Hcreate; rewrite <- ?Hkd|].
    unfold bind at 1. rewrite Ec.
    destruct (Hc w2 Hu2 I) as (u & w3 & Eb & Hu3 & _). exists None, w3. unfold bind. by rewrite Eb.
Qed.

End Total.

(** ** The steps of the cluster controller *)

Section Steps.
Context {W : Type} `{RuntimeUp W}.
Context (hasRecorder : bool) (c : PostgresCluster).

Lemma total_generate n alphabet buf : (0 < String.length alphabet)%nat ->
  runs anywhere (Password.generate_loop (W:=W) n alphabet buf) (fun r _ => is_ok r = true).
Proof.
  intros Ha. revert buf. induction n as [|n IH]; intros buf; simpl; [by apply runs_ret|].
  intros w Hu _. destruct (up_rand (Z.of_nat (String.length alphabet)) w Hu) as (z & w1 & E & Hu1); [lia|].
  unfold bind. rewrite E. apply rand_range in E. destruct (Password.get_lt alphabet (Z.to_nat z)) as [a ->]; [lia|].
  by apply IH.
Qed.

Lemma succeeds_serviceaccount :
  succeeds (fun w => pcs_ServiceAccountName (pc_Spec c) = "" ->
              creates (ownerRef c) (cluster_Namespace c) KServiceAccount (BuildServiceAccount c) w)
    (reconcileServiceAccount (W:=W) c).
Proof.
  unfold reconcileServiceAccount. destruct (String.eqb_spec (pcs_ServiceAccountName (pc_Spec c)) "") as [Esa|];
    cbn [negb]; [|by apply runs_ret].
  intros w Hu Hv. specialize (Hv Esa).
  destruct (up_setref KServiceAccount (ownerRef c) (cluster_Namespace c) (BuildServiceAccount c)) as [d Ed]; [done..|].
  rewrite Ed. destruct (up_get KServiceAccount (key (k:=KServiceAccount) d) w Hu) as (r & w1 & Eg & Hu1 & Hr).
  pose proof (get_frame _ _ _ _ _ Eg) as F1. unfold bind at 1. rewrite Eg.
  destruct (stored w KServiceAccount _) as [o|] eqn:Es; [subst r; by exists None, w1|].
  destruct Hr as (e & -> & ->).
  destruct (up_create KServiceAccount d w1 Hu1) as (o' & w2 & Ec & Hu2); [by rewrite F1| |].
  { apply Hv; [|done]. apply setref_key in Ed. by rewrite <- Ed. }
  exists None, w2. unfold err_of, bind. by rewrite Ec.
Qed.

Lemma succeeds_credentials :
  succeeds (fun w => forall pw, String.length pw = 32%nat -> sall Password.alnum pw = true ->
              creates (ownerRef c) (cluster_Namespace c) KSecret (BuildCredentialSecret c pw) w)
    (reconcileCredentials (W:=W) hasRecorder c).
Proof.
  intros w Hu Hv. unfold reconcileCredentials.
  destruct (up_get KSecret (nn (SecretName c) (cluster_Namespace c)) w Hu) as (r & w1 & Eg & Hu1 & Hr).
  pose proof (get_frame _ _ _ _ _ Eg) as F1. unfold bind at 1. rewrite Eg.
  destruct (stored w KSecret _) as [o|] eqn:Es; [subst r; by exists None, w1|].
  destruct Hr as (e & -> & ->). cbn [negb].
  destruct (total_generate 32 Password.DefaultAlphabet "" ltac:(cbn; lia) w1 Hu1 I) as (g & w2 & Ep & Hu2 & Hg).
  pose proof (Password.Generate_frames none Password.DefaultGenerator _ _ _ Ep) as F2.
  unfold bind at 1. change (Password.Generate Password.DefaultGenerator w1) with
    (Password.generate_loop 32 Password.DefaultAlphabet "" w1). rewrite Ep. destruct g as [pw|]; [|done].
  apply (Password.generate_loop_spec Password.alnum) in Ep as [(pw' & [= ->] & Hlen & Hall)|(? & [=])]; [|done].
  change ("" +:+ pw') with pw'.
  destruct (up_setref KSecret (ownerRef c) (cluster_Namespace c) (BuildCredentialSecret c pw')) as [d Ed]; [done..|].
  rewrite Ed. destruct (up_create KSecret d w2 Hu2) as (o' & w3 & Ec & Hu3).
  { apply setref_key in Ed. rewrite Ed, F2, F1 by auto. exact Es. }
  { by apply (Hv pw'). }
  unfold bind at 1. rewrite Ec.
  destruct (total_recordEventf hasRecorder (mkEvent "Normal" "Created" "Created credentials Secret %q"
    [ArgStr (SecretName c)]) w3 Hu3 I) as (u & w4 & Ee & Hu4 & _). exists None, w4. unfold bind. by rewrite Ee.
Qed.

Lemma succeeds_configmap :
  succeeds (accepts (ownerRef c) (cluster_Namespace c) KConfigMap (BuildConfigMap c) (merge_configmap c))
    (reconcileConfigMap (W:=W) hasRecorder c).
Proof.
  apply succeeds_ensure; try done; intros; [apply total_recordEventf|apply total_nothing|apply frames_ret].
Qed.

Lemma succeeds_statefulset :
  succeeds (accepts (ownerRef c) (cluster_Namespace c) KStatefulSet (BuildStatefulSet c) (merge_statefulset c))
    (reconcileStatefulSet (W:=W) hasRecorder c).
Proof.
  apply succeeds_ensure; try done; intros; [apply total_recordEventf| |apply frames_scale_event].
  unfold scale_event. repeat case_match; (apply total_nothing || apply total_recordEventf).
Qed.

Lemma succeeds_pdb :
  succeeds (accepts (ownerRef c) (cluster_Namespace c) KPDB (desired_pdb c) (merge_pdb c))
    (reconcilePDB (W:=W) hasRecorder c).
Proof.
  apply succeeds_ensure; try done; intros; [apply total_recordEventf|apply total_nothing|apply frames_ret].
Qed.

Lemma succeeds_service_loop l :
  NoDup ((fun s => key_of (svc_Meta s)) <$> l) ->
  Forall (fun s => om_Namespace (svc_Meta s) = cluster_Namespace c /\ om_OwnerReferences (svc_Meta s) = []) l ->
  succeeds (fun w => Forall (fun s => accepts (ownerRef c) (cluster_Namespace c) KService s (merge_service s) w) l)
    (reconcile_service_loop (W:=W) c l).
Proof.
  induction l as [|svc l IH]; intros Hnd Hl; [by apply runs_ret|].
  apply NoDup_cons in Hnd as [Hnin Hnd]. apply Forall_cons in Hl as [[Hns Hor] Hl].
  intros w Hu Hacc. apply Forall_cons in Hacc as [Hacc Haccl]. cbn [reconcile_service_loop].
  destruct (succeeds_ensure (ownerRef c) (cluster_Namespace c) same same KService svc nothing (fun _ => nothing)
    (merge_service svc)) with (w := w) as (e & w1 & E & Hu1 & ->); try done; intros;
    [apply total_nothing..|apply frames_ret|].
  unfold mtry, bind. change (ensure _ _ _ _ _ _ _ _ _ w) with (reconcile_service c svc w) in E. rewrite E.
  apply IH; [done..|]. eapply Forall_impl; [apply Forall_and; split; [exact Haccl|apply Forall_forall, (fun _ H => H)]|].
  intros s [Ha Hin]. unfold accepts, creates in *.
  change (key (k:=KService) s) with (key_of (svc_Meta s)) in *.
  rewrite (reconcile_service_frames _ _ _ _ _ E); [done|]. intros [_ Hk]. apply Hnin.
  rewrite <- Hk. apply list_elem_of_fmap. eauto.
Qed.

Lemma succeeds_services :
  succeeds (fun w => Forall (fun s => accepts (ownerRef c) (cluster_Namespace c) KService s (merge_service s) w)
                       (services c)) (reconcileServices (W:=W) c).
Proof. apply succeeds_service_loop; [apply services_NoDup|by repeat constructor]. Qed.

(** The objects of a status write for the cluster [x]: the one that starts the life of the
    cluster and the ones that report its readiness. *)
Definition status_written (x y : PostgresCluster) : Prop :=
  (exists t, y = SetClusterCondition t (set_phase PhaseInitializing x) ConditionProgressing ConditionTrue
                   "Initializing" "Cluster is being initialised") \/
  (exists ready w c1 w', classify (W:=W) ready (set_ready ready x) w = (c1, w') /\ y = set_identity c1).

(** The server accepts what the operator writes for the cluster in [w]: the objects it
    creates or merges, and the status of every stored version of the cluster. *)
Definition accepted (w : W) : Prop :=
  let ref := ownerRef c in
  let ns := cluster_Namespace c in
  (pcs_ServiceAccountName (pc_Spec c) = "" -> creates ref ns KServiceAccount (BuildServiceAccount c) w) /\
  (forall pw, String.length pw = 32%nat -> sall Password.alnum pw = true ->
     creates ref ns KSecret (BuildCredentialSecret c pw) w) /\
  accepts ref ns KConfigMap (BuildConfigMap c) (merge_configmap c) w /\
  accepts ref ns KStatefulSet (BuildStatefulSet c) (merge_statefulset c) w /\
  Forall (fun s => accepts ref ns KService s (merge_service s) w) (services c) /\
  accepts ref ns KPDB (desired_pdb c) (merge_pdb c) w.

(** The stored cluster is the version the controller works with. *)
Definition current (w : W) : Prop :=
  exists o, stored w KCluster (key_of (pc_Meta c)) = Some o /\
    om_ResourceVersion (pc_Meta o) = om_ResourceVersion (pc_Meta c).

Lemma classify_total ready x : total (classify (W:=W) ready x).
Proof.
  unfold classify. repeat case_match;
    repeat (eapply runs_bind; [apply total_Now|intros; cbv beta zeta]); by apply runs_ret.
Qed.

Lemma succeeds_status : (forall x, status_written c x -> valid KCluster x) -> succeeds current (updateStatus (W:=W) c).
Proof.
  intros Hv w Hu (o & Ho & Hvers). unfold updateStatus.
  destruct (up_get KStatefulSet (nn (ClusterStatefulSetName c) (cluster_Namespace c)) w Hu) as (r & w1 & Eg & Hu1 & Hr).
  pose proof (get_frame _ _ _ _ _ Eg) as F1. unfold bind at 1. rewrite Eg.
  assert (Hgo : forall ready, exists e w', (let! c1 := classify ready (set_ready ready c) in
    err_of (rt_StatusUpdate KCluster (set_identity c1))) w1 = (e, w') /\ up w' /\ e = None).
  { intros ready. destruct (classify_total ready (set_ready ready c) w1 Hu1 I) as (c1 & w2 & Ec & Hu2 & _).
    pose proof (classify_frames none _ _ _ _ _ Ec) as F2. apply classify_inv in Ec as Hc1. destruct Hc1 as [Hm _].
    destruct (up_status KCluster (set_identity c1) o w2 Hu2) as (o' & w3 & Es & Hu3).
    - unfold key. cbn. rewrite Hm, F2, F1 by auto. exact Ho.
    - cbn. by rewrite Hm.
    - apply Hv. right. by exists ready, w1, c1, w2.
    - exists None, w3. unfold err_of, bind. by rewrite Ec, Es. }
  destruct (stored w KStatefulSet _) as [s|]; [subst r; apply Hgo|].
  destruct Hr as (e & -> & ->). apply Hgo.
Qed.

End Steps.

(** ** The reconcile *)

Section Reconcile.
Context {W : Type} `{RuntimeUp W}.
Context (hasRecorder : bool).

Lemma succeeds_run_steps_cons P P' name fn l :
  runs P fn (fun e w => e = None /\ P' w) -> succeeds P' (run_steps (W:=W) l) ->
  succeeds P (run_steps ((name, fn) :: l)).
Proof.
  intros Hfn Hl. cbn [run_steps]. eapply runs_bind; [exact Hfn|]. cbv beta. intros e w Hu [-> HP]. by apply Hl.
Qed.

(** The stored cluster is current and the kinds [ks], still to be written, are as in [w0]. *)
Definition pending c (w0 : W) (ks : list Kind) (w : W) : Prop :=
  current c w /\ forall k n, k ∈ ks -> stored w k n = stored w0 k n.

(** A step on one of them keeps the cluster current and the others unwritten. *)
Lemma runs_pending c w0 k ks (P : W -> Prop) (m : M W (option error)) :
  succeeds P m -> writes_kind k m -> k <> KCluster -> k ∉ ks ->
  (forall w, (forall n, stored w k n = stored w0 k n) -> P w) ->
  runs (pending c w0 (k :: ks)) m (fun e w => e = None /\ pending c w0 ks w).
Proof.
  intros Hm Hk Hne Hks HP w Hu ((o & Ho & Hv) & Hst).
  destruct (Hm w Hu) as (e & w' & E & Hu' & ->); [apply HP; intros; apply Hst; by left|].
  exists None, w'. split_and!; [done..|]. split.
  - exists o. split; [|done]. by rewrite (Hk _ _ _ E) by congruence.
  - intros k' n Hin. rewrite (Hk _ _ _ E); [apply Hst; by right|]. by intros ->.
Qed.

Lemma succeeds_subresources c w0 : accepted c w0 -> (forall x, status_written c x -> valid KCluster x) ->
  succeeds (pending c w0 [KServiceAccount; KSecret; KConfigMap; KStatefulSet; KService; KPDB])
    (reconcileSubresources (W:=W) hasRecorder c).
Proof.
  intros (A1 & A2 & A3 & A4 & A5 & A6) Hv. unfold reconcileSubresources, steps.
  pose proof (steps_kinds (W:=W) hasRecorder c) as Hk. unfold steps in Hk.
  repeat (apply Forall2_cons_1 in Hk as [? Hk]). cbn [snd] in *.
  repeat (eapply succeeds_run_steps_cons;
    [eapply runs_pending; [|eassumption|done|by apply (bool_decide_unpack _)|]|]).
  - apply succeeds_serviceaccount.
  - intros w Hw. unfold creates in *. by setoid_rewrite Hw.
  - apply succeeds_credentials.
  - intros w Hw. unfold creates in *. by setoid_rewrite Hw.
  - apply succeeds_configmap.
  - intros w Hw. unfold accepts, creates in *. by setoid_rewrite Hw.
  - apply succeeds_statefulset.
  - intros w Hw. unfold accepts, creates in *. by setoid_rewrite Hw.
  - apply succeeds_services.
  - intros w Hw. eapply Forall_impl; [exact A5|]. intros s. unfold accepts, creates. by setoid_rewrite Hw.
  - apply succeeds_pdb.
  - intros w Hw. unfold accepts, creates in *. by setoid_rewrite Hw.
  - cbn [run_steps]. eapply runs_bind.
    + eapply runs_weaken; [by apply succeeds_status|by intros w [? _]|exact (fun _ _ H => H)].
    + cbv beta. intros e w Hu ->. by exists None, w.
Qed.

Lemma bootstrap_live c w : up w -> stored w KCluster (key_of (pc_Meta c)) = Some c ->
  (forall x, status_written (W:=W) c x -> valid KCluster x) ->
  exists c' w', bootstrap (W:=W) c w = (Ok c', w') /\ up w' /\ current c' w' /\
    stored w' KCluster (key_of (pc_Meta c)) = Some c'.
Proof.
  intros Hu Hs Hv. unfold bootstrap. case_bool_decide; [|exists c, w; split_and!; [done..|by exists c|done]].
  destruct (up_now w Hu) as (t & w1 & En & Hu1). unfold bind. rewrite En.
  edestruct (up_status KCluster (SetClusterCondition t (set_phase PhaseInitializing c) ConditionProgressing
    ConditionTrue "Initializing" "Cluster is being initialised") c w1 Hu1) as (c' & w2 & Es & Hu2); [|done| |].
  { rewrite (now_frame _ _ _ En). exact Hs. }
  { apply Hv. left. by exists t. }
  exists c', w2. apply status_ok in Es as Hok. destruct Hok as (o0 & _ & Ho & _).
  split_and!; [done..| |exact Ho].
  exists c'. split; [|done]. rewrite <- Ho. f_equal. by apply stored_key in Ho.
Qed.

(** The server accepts what the operator writes for a cluster [req] with spec [s]: for every
    version of it that the server stores, the sub-resources of that version as they are
    created or merged in [w], and its status writes. *)
Definition acceptable (req : NamespacedName) (s : PostgresClusterSpec) (w : W) : Prop :=
  forall w1 c1, up w1 -> stored w1 KCluster req = Some c1 -> pc_Spec c1 = s ->
    accepted c1 w /\ forall x, status_written (W:=W) c1 x -> valid KCluster x.

(** Acceptance is about the sub-resources that exist, not about the cluster object. *)
Lemma acceptable_frame req s w w' :
  (forall k n, k <> KCluster -> stored w' k n = stored w k n) -> acceptable req s w -> acceptable req s w'.
Proof.
  intros HF Hacc w1 c1 Hu Hs Hsp. destruct (Hacc w1 c1 Hu Hs Hsp) as [(A1 & A2 & A3 & A4 & A5 & A6) Hv].
  split; [|exact Hv].
  split_and!; unfold accepts, creates in *; try (by setoid_rewrite HF).
Qed.

(** With the API server up, the reconcile of an active cluster succeeds. *)
Lemma Reconcile_active_live req c w : up w -> stored w KCluster req = Some c -> active c -> acceptable req (pc_Spec c) w ->
  exists w', Reconcile (W:=W) hasRecorder req w = ((requeue_after 30, None), w') /\ up w' /\ converged c w'.
Proof.
  intros Hu Hs Ha Hacc. destruct (up_get KCluster req w Hu) as (r & w1 & Eg & Hu1 & Hr). rewrite Hs in Hr. subst r.
  pose proof (stored_key _ _ _ _ Hs) as Hk. unfold key in Hk. cbn in Hk.
  pose proof (get_frame _ _ _ _ _ Eg) as F1.
  destruct (Hacc w c Hu Hs eq_refl) as [_ Hst].
  assert (Hs1 : stored w1 KCluster (key_of (pc_Meta c)) = Some c) by by rewrite F1, Hk.
  destruct (bootstrap_live c w1 Hu1 Hs1 Hst) as (c' & w2 & Eb & Hu2 & Hc & Hs2).
  pose proof (bootstrap_spec _ _ _ _ Hs1 Eb) as Hsp. rewrite Hk in Hs2.
  destruct (Hacc w2 c' Hu2 Hs2 Hsp) as [Hobj Hst'].
  destruct (succeeds_subresources c' w Hobj Hst' w2 Hu2) as (e & w3 & Er & Hu3 & ->).
  { split; [done|]. intros k n Hin. rewrite (bootstrap_frames _ _ _ _ Eb), F1; [done|]. intros [-> _].
    revert Hin. apply (bool_decide_unpack (KCluster ∉ _)). done. }
  assert (E : Reconcile hasRecorder req w = ((requeue_after 30, None), w3)).
  { rewrite Reconcile_fetched. unfold bind at 1. rewrite Eg, reconcile_fetched_active by done.
    unfold bind at 1. rewrite Eb. unfold bind. by rewrite Er. }
  exists w3. split_and!; [done..|]. by apply (Reconcile_active _ _ _ _ _ _ Hs Ha E).
Qed.

(** The first reconcile of a new cluster adds the finalizer. *)
Lemma Reconcile_adds_finalizer req c w : up w -> stored w KCluster req = Some c ->
  pcs_Paused (pc_Spec c) = false -> om_DeletionTimestamp (pc_Meta c) = None ->
  PostgresClusterFinalizer ∉ om_Finalizers (pc_Meta c) ->
  valid KCluster (with_finalizers (rt_AddFinalizer PostgresClusterFinalizer (om_Finalizers (pc_Meta c))) c) ->
  exists c' w', Reconcile (W:=W) hasRecorder req w = ((requeue, None), w') /\ up w' /\
    stored w' KCluster req = Some c' /\ Webhook.spec_defaulted (pc_Spec c) (pc_Spec c') /\ active c' /\
    (forall k n, k <> KCluster -> stored w' k n = stored w k n).
Proof.
  intros Hu Hs Hp Hd Hf Hv. destruct (up_get KCluster req w Hu) as (r & w1 & Eg & Hu1 & Hr). rewrite Hs in Hr. subst r.
  pose proof (stored_key _ _ _ _ Hs) as Hk. pose proof (get_frame _ _ _ _ _ Eg) as F1.
  destruct (up_update KCluster (with_finalizers (rt_AddFinalizer PostgresClusterFinalizer
    (om_Finalizers (pc_Meta c))) c) c w1 Hu1) as (c' & w2 & Eu & Hu2); [|done..|].
  { rewrite F1, <- Hs. f_equal. exact Hk. }
  destruct (update_ok _ _ _ _ _ Eu) as (o0 & Ho & Hsp & _ & (_ & _ & _ & Hfin & _) & Hdel & Hst).
  rewrite F1 in Ho. change (stored w KCluster (key (k:=KCluster) c) = Some o0) in Ho.
  rewrite Hk, Hs in Ho. injection Ho as <-. cbn in Hfin, Hdel. rewrite Hd in Hdel.
  rewrite decide_True in Hst by (left; exact Hdel).
  change (stored w2 KCluster (key (k:=KCluster) c) = Some c') in Hst. rewrite Hk in Hst.
  exists c', w2. split_and!; [|done|done|exact Hsp| |].
  - rewrite Reconcile_fetched. unfold bind at 1. rewrite Eg. unfold reconcile_fetched. rewrite Hp.
    destruct (rt_ContainsFinalizer _ _) eqn:Ec; [by apply contains_finalizer in Ec|]. cbn [negb].
    unfold bind. by rewrite Eu.
  - split_and!; [|rewrite Hfin; apply add_finalizer; by left|done].
    destruct Hsp as (_ & _ & _ & _ & _ & _ & _ & _ & _ & _ & _ & _ & _ & _ & _ & _ & _ & ->). exact Hp.
  - intros k n Hne. rewrite <- F1. eapply update_frame; [exact Eu|]. by left.
Qed.

End Reconcile.

(** C2: a cluster comes up.  While the API server is up and accepts what the operator
    writes for the cluster, for every stored cluster that is neither paused nor under
    deletion a reconcile succeeds: if the operator's finalizer is missing it is added and a
    second reconcile is requested, and the reconcile that finds the finalizer provisions
    all sub-resources and reports the status, without conflicts on the versions of the
    objects it writes and without touching immutable fields of existing ones. *)
Theorem cluster_comes_up (W : Type) (R : Runtime W) (L : RuntimeLaws W) (U : RuntimeUp W) (hasRecorder : bool)
  (req : NamespacedName) (c : PostgresCluster) (w : W) :
  up w -> stored w KCluster req = Some c -> pcs_Paused (pc_Spec c) = false ->
  om_DeletionTimestamp (pc_Meta c) = None ->
  (forall s, Webhook.spec_defaulted (pc_Spec c) s -> acceptable req s w) ->
  (PostgresClusterFinalizer ∈ om_Finalizers (pc_Meta c) ->
   exists w1, Reconcile hasRecorder req w = ((requeue_after 30, None), w1) /\ up w1 /\ converged c w1) /\
  (PostgresClusterFinalizer ∉ om_Finalizers (pc_Meta c) ->
   valid KCluster (with_finalizers (rt_AddFinalizer PostgresClusterFinalizer (om_Finalizers (pc_Meta c))) c) ->
   exists c1 w1 w2, Reconcile hasRecorder req w = ((requeue, None), w1) /\
     stored w1 KCluster req = Some c1 /\ Webhook.spec_defaulted (pc_Spec c) (pc_Spec c1) /\
     Reconcile hasRecorder req w1 = ((requeue_after 30, None), w2) /\ up w2 /\ converged c1 w2).
Proof.
  intros Hu Hs Hp Hd Hacc. split; intros Hf.
  { apply Reconcile_active_live; [done..|]. apply Hacc, Webhook.spec_defaulted_refl. }
  intros Hv.
  destruct (Reconcile_adds_finalizer hasRecorder _ _ _ Hu Hs Hp Hd Hf Hv) as (c1 & w1 & E1 & Hu1 & Hs1 & Hsp & Ha & F1).
  destruct (Reconcile_active_live hasRecorder _ _ _ Hu1 Hs1 Ha) as (w2 & ? & ? & ?); [|by exists c1, w1, w2].
  eapply acceptable_frame; [|by apply Hacc]. exact F1.
Qed.

(** A new cluster in an empty namespace. *)
Definition new_world : World := put_obj KCluster sample_cluster (Password.seeded []).

(** The in-memory server, which refuses objects without a name, accepts the writes for
    every named cluster. *)
Lemma fake_creates ref ns k (desired : obj k) (w : World) :
  om_Name (meta k desired) <> "" -> creates ref ns k desired w.
Proof. intros Hn d _ (refs & -> & _)%setref_ok. cbn. unfold set_owner. by rewrite meta_set_meta. Qed.

Lemma fake_accepts ref ns k (desired : obj k) merge (w : World) :
  om_Name (meta k desired) <> "" -> (forall e, meta k (merge e) = meta k e) -> accepts ref ns k desired merge w.
Proof.
  intros Hn Hm. split; [by apply fake_creates|]. intros e He. cbn. rewrite Hm.
  apply stored_key in He. unfold key, key_of in He. by injection He as ->.
Qed.

Lemma append_nonempty a b : a <> "" -> a +:+ b <> "".
Proof. by destruct a. Qed.

Lemma fake_acceptable req s (w : World) : nn_Name req <> "" -> acceptable req s w.
Proof.
  intros Hn w1 c1 _ Hs _. apply stored_key in Hs. unfold key in Hs. cbn in Hs.
  assert (Hc : cluster_Name c1 <> "") by by rewrite <- Hs in Hn.
  split.
  - split_and!; try apply fake_accepts; try done; intros; try apply fake_creates; cbn.
    + unfold ServiceAccountName. case_match; [by destruct (String.eqb_spec (pcs_ServiceAccountName (pc_Spec c1)) "")|].
      by apply append_nonempty.
    + by apply append_nonempty.
    + by apply append_nonempty.
    + repeat (constructor; [apply fake_accepts; [by apply append_nonempty|done]|]). constructor.
    + by apply append_nonempty.
  - intros x [[t ->]|(ready & w2 & c2 & w3 & Ec & ->)]; cbn; [done|].
    apply classify_inv in Ec as [Hm _]. by rewrite Hm.
Qed.

Lemma cluster_comes_up_witness :
  exists c1 w1 w2, Reconcile true sample_req new_world = ((requeue, None), w1) /\
    stored w1 KCluster sample_req = Some c1 /\
    Reconcile true sample_req w1 = ((requeue_after 30, None), w2) /\ converged c1 w2.
Proof.
  destruct (cluster_comes_up World _ _ _ true sample_req sample_cluster new_world) as [_ Hn].
  - split; reflexivity.
  - vm_compute. reflexivity.
  - reflexivity.
  - reflexivity.
  - intros s _. apply fake_acceptable. discriminate.
  - destruct Hn as (c1 & w1 & w2 & H1 & H2 & _ & H3 & _ & H4).
    + apply (bool_decide_unpack _). vm_compute. exact I.
    + discriminate.
    + exists c1, w1, w2. exact (conj H1 (conj H2 (conj H3 H4))).
Defined.

End Liveness.
