(* ===== verification/EventBus.v ===== *)
(** * The in-process event bus (internal/eventbus/eventbus.go)

    The bus keeps, per topic, the slice of handlers; [Subscribe] returns a closure that
    remembers the index the handler had.  A handler is represented by its identity, a nil
    handler by [None].  [run] executes sequences of operations on the bus together with
    the closures handed out so far.  The specification is a bus whose subscriptions have
    an identity of their own; the code refines it as long as, topic by topic, the latest
    subscription is cancelled first. *)

From Stdlib Require Import ZArith Lia List Bool.
From stdpp Require Import base list strings gmap.
From S2P Require Import Prelude GoStrings.

Module EventBus.

Definition Topic := string.

Definition TopicClusterReady : Topic := "cluster.ready".
Definition TopicClusterDegraded : Topic := "cluster.degraded".
Definition TopicBackupCompleted : Topic := "backup.completed".
Definition TopicBackupFailed : Topic := "backup.failed".
Definition TopicUserReconciled : Topic := "user.reconciled".

(** [Time] is in nanoseconds; [None] is the zero time. *)
Record Event := {
  ev_Topic : Topic;
  ev_Cluster : string;
  ev_Namespace : string;
  ev_Time : option Z;
  ev_Payload : gmap string string;
}.

Definition Handler := nat.

(** The map of handlers; [None] is the nil map of the zero value. *)
Record Bus := { handlers : option (gmap Topic (list (option Handler))) }.

Definition New : Bus := {| handlers := None |}.

(** [b.handlers[topic]]: a missing entry reads as the empty slice. *)
Definition hs_of (b : Bus) (t : Topic) : list (option Handler) :=
  match handlers b with Some m => default [] (m !! t) | None => [] end.

Definition set_hs (b : Bus) (t : Topic) (l : list (option Handler)) : Bus :=
  {| handlers := Some (<[t := l]> (default ∅ (handlers b))) |}.

(** What the closure returned by [Subscribe] captures. *)
Record Closure := { cl_topic : Topic; cl_idx : nat }.

Definition Subscribe (b : Bus) (topic : Topic) (handler : option Handler) : Closure * Bus :=
  let b' := set_hs b topic (hs_of b topic ++ [handler]) in
  ({| cl_topic := topic; cl_idx := length (hs_of b' topic) - 1 |}, b').

(** Calling the closure: overwrite the remembered slot with nil, then keep the handlers
    that are not nil. *)
Definition unsubscribe (b : Bus) (c : Closure) : Bus :=
  let hs := hs_of b (cl_topic c) in
  if (length hs <=? cl_idx c)%nat then b
  else set_hs b (cl_topic c) (filter (fun h => is_Some h) (<[cl_idx c := None]> hs)).

(** [now] is the reading of the clock; the result is the sequence of calls. *)
Definition Publish (b : Bus) (now : Z) (e : Event) : list (option Handler * Event) :=
  let e' := {| ev_Topic := ev_Topic e; ev_Cluster := ev_Cluster e;
               ev_Namespace := ev_Namespace e; ev_Payload := ev_Payload e;
               ev_Time := match ev_Time e with None => Some now | Some t => Some t end |} in
  map (fun h => (h, e')) (hs_of b (ev_Topic e)).

Definition SubscriberCount (b : Bus) (t : Topic) : nat := length (hs_of b t).

Definition Reset (b : Bus) : Bus := {| handlers := None |}.

(** ** Sequences of operations *)

(** [OpUnsubscribe n] calls the closure returned by the [n]th subscription. *)
Inductive Op :=
  | OpSubscribe (t : Topic) (h : Handler)
  | OpUnsubscribe (n : nat)
  | OpPublish (now : Z) (e : Event)
  | OpCount (t : Topic).

Inductive Obs :=
  | ODone
  | OCalls (l : list (option Handler * Event))
  | OCount (n : nat).

Record St := { bus : Bus; closures : list Closure }.
Definition init : St := {| bus := New; closures := [] |}.

Definition step (s : St) (o : Op) : St * Obs :=
  match o with
  | OpSubscribe t h =>
      let '(c, b) := Subscribe (bus s) t (Some h) in
      ({| bus := b; closures := closures s ++ [c] |}, ODone)
  | OpUnsubscribe n =>
      match closures s !! n with
      | Some c => ({| bus := unsubscribe (bus s) c; closures := closures s |}, ODone)
      | None => (s, ODone)
      end
  | OpPublish now e => (s, OCalls (Publish (bus s) now e))
  | OpCount t => (s, OCount (SubscriberCount (bus s) t))
  end.

Fixpoint run (s : St) (l : list Op) : St * list Obs :=
  match l with
  | [] => (s, [])
  | o :: l' => let '(s1, x) := step s o in let '(s2, xs) := run s1 l' in (s2, x :: xs)
  end.

(** ** Specification: subscriptions with an identity *)

Record Sub := { sub_id : nat; sub_topic : Topic; sub_handler : Handler }.

#[export] Instance Sub_eq_dec : EqDecision Sub.
Proof. solve_decision. Defined.

(** The live subscriptions in the order they were made, and the next identity. *)
Record Spec := { live : list Sub; next : nat }.
Definition spec_init : Spec := {| live := []; next := 0 |}.

Definition on_topic (t : Topic) (l : list Sub) : list Sub :=
  filter (fun s => sub_topic s = t) l.

Definition deliver (now : Z) (e : Event) : Event :=
  {| ev_Topic := ev_Topic e; ev_Cluster := ev_Cluster e; ev_Namespace := ev_Namespace e;
     ev_Time := Some (default now (ev_Time e)); ev_Payload := ev_Payload e |}.

(** [n] is the latest live subscription of its topic. *)
Definition latest (l : list Sub) (n : nat) : option Sub :=
  match list_find (fun s => sub_id s = n) l with
  | Some (_, s) =>
      if bool_decide (last (on_topic (sub_topic s) l) = Some s) then Some s else None
  | None => None
  end.

Definition remove_sub (n : nat) (l : list Sub) : list Sub := filter (fun s => sub_id s <> n) l.

(** One operation of the specification; [None] when the caller breaks the discipline. *)
Definition spec_step (a : Spec) (o : Op) : option (Spec * Obs) :=
  match o with
  | OpSubscribe t h =>
      Some ({| live := live a ++ [{| sub_id := next a; sub_topic := t; sub_handler := h |}];
               next := S (next a) |}, ODone)
  | OpUnsubscribe n =>
      match latest (live a) n with
      | Some _ => Some ({| live := remove_sub n (live a); next := next a |}, ODone)
      | None => None
      end
  | OpPublish now e =>
      Some (a, OCalls (map (fun s => (Some (sub_handler s), deliver now e))
                         (on_topic (ev_Topic e) (live a))))
  | OpCount t => Some (a, OCount (length (on_topic t (live a))))
  end.

Fixpoint spec_run (a : Spec) (l : list Op) : option (Spec * list Obs) :=
  match l with
  | [] => Some (a, [])
  | o :: l' =>
      match spec_step a o with
      | Some (a1, x) =>
          match spec_run a1 l' with Some (a2, xs) => Some (a2, x :: xs) | None => None end
      | None => None
      end
  end.

(** ** Lemmas on the bus *)

Lemma hs_of_set b t l u : hs_of (set_hs b t l) u = if decide (u = t) then l else hs_of b u.
Proof.
  unfold hs_of, set_hs. cbn [handlers]. case_decide as E.
  - subst. by rewrite lookup_insert_eq.
  - rewrite lookup_insert_ne by congruence. by destruct (handlers b).
Qed.

Lemma filter_Some_all (l : list Handler) : filter (fun h => is_Some h) (Some <$> l) = Some <$> l.
Proof.
  induction l as [|x l IH]; [done|]. rewrite fmap_cons, filter_cons_True by done. by rewrite IH.
Qed.

(** On a slice without nil handlers, a call of a closure removes the handler that now
    sits at the remembered index, whoever subscribed it, and touches no other topic. *)
Lemma unsubscribe_deletes b c (l : list Handler) u :
  hs_of b (cl_topic c) = Some <$> l ->
  hs_of (unsubscribe b c) u =
    if decide (u = cl_topic c) then Some <$> delete (cl_idx c) l else hs_of b u.
Proof.
  intros Hl. unfold unsubscribe. rewrite Hl, length_fmap.
  destruct (Nat.leb_spec (length l) (cl_idx c)) as [Hle|Hlt].
  - case_decide; [|done]. subst. rewrite Hl, delete_take_drop.
    by rewrite take_ge, drop_ge, app_nil_r by lia.
  - rewrite hs_of_set. case_decide; [|done].
    rewrite insert_take_drop by (by rewrite length_fmap).
    rewrite filter_app, filter_cons_False by (intros [? ?]; done).
    by rewrite <- fmap_take, <- fmap_drop, !filter_Some_all, delete_take_drop, fmap_app.
Qed.

(** ** The simulation *)

Record sim (a : Spec) (s : St) : Prop := {
  sim_next : length (closures s) = next a;
  sim_ids : NoDup (sub_id <$> live a);
  sim_fresh : Forall (fun x => (sub_id x < next a)%nat) (live a);
  sim_handlers : forall t, hs_of (bus s) t = Some <$> (sub_handler <$> on_topic t (live a));
  sim_slots : forall t p x, on_topic t (live a) !! p = Some x ->
    closures s !! sub_id x = Some {| cl_topic := t; cl_idx := p |};
}.

Lemma sim_init : sim spec_init init.
Proof. split; try done. by constructor. Qed.

Lemma on_topic_app t l1 l2 : on_topic t (l1 ++ l2) = on_topic t l1 ++ on_topic t l2.
Proof. apply filter_app. Qed.

Lemma sim_subscribe a s t h :
  sim a s -> exists a1, spec_step a (OpSubscribe t h) = Some (a1, ODone) /\
    sim a1 (step s (OpSubscribe t h)).1.
Proof.
  intros [Hn Hids Hfr Hh Hsl]. eexists. split; [done|]. cbn [step Subscribe fst].
  split; cbn [bus closures live next].
  - rewrite length_app, Hn. cbn. lia.
  - rewrite fmap_app. apply NoDup_app. split_and!; [done| |apply NoDup_singleton].
    intros i (x & -> & Hx)%list_elem_of_fmap E%list_elem_of_singleton. cbn in E.
    rewrite Forall_forall in Hfr. specialize (Hfr x Hx). cbn in Hfr. lia.
  - apply Forall_app. split; [eapply Forall_impl; [done|]; cbn; lia|repeat constructor].
  - intros u. rewrite hs_of_set, on_topic_app. unfold on_topic at 2.
    case_decide as E.
    + subst. by rewrite filter_cons_True, filter_nil, !fmap_app, <- Hh.
    + by rewrite filter_cons_False, filter_nil, app_nil_r by (cbn; congruence).
  - intros u p x. rewrite on_topic_app. intros Hx.
    assert (Hlen : forall v, length (hs_of (bus s) v) = length (on_topic v (live a))).
    { intros v. by rewrite Hh, !length_fmap. }
    destruct (decide (u = t)) as [->|Hne]; unfold on_topic at 2 in Hx.
    + rewrite filter_cons_True, filter_nil in Hx by done.
      apply lookup_app_Some in Hx as [Hx|[Hp Hx]].
      * by apply lookup_app_l_Some, Hsl.
      * apply list_lookup_singleton_Some in Hx as [Hp0 <-]. cbn [sub_id].
        rewrite lookup_app_r, Hn, Nat.sub_diag by lia.
        rewrite hs_of_set, decide_True, length_app, Hlen by done. cbn. do 2 f_equal. lia.
    + rewrite filter_cons_False, filter_nil, app_nil_r in Hx by (cbn; congruence).
      by apply lookup_app_l_Some, Hsl.
Qed.

Lemma filter_ext_in {A} (P Q : A -> Prop) `{!forall x, Decision (P x)} `{!forall x, Decision (Q x)} (l : list A) :
  (forall x, x ∈ l -> P x <-> Q x) -> filter P l = filter Q l.
Proof.
  induction l as [|x l IH]; intros Hin; [done|]. rewrite !filter_cons, IH; [|intros; apply Hin; by right].
  assert (P x <-> Q x) by (apply Hin; left). repeat case_decide; tauto.
Qed.

Lemma filter_id_in {A} (P : A -> Prop) `{!forall x, Decision (P x)} (l : list A) :
  (forall x, x ∈ l -> P x) -> filter P l = l.
Proof.
  induction l as [|x l IH]; intros Hin; [done|]. rewrite filter_cons_True, IH; set_solver.
Qed.

Lemma NoDup_fmap_sublist {A B} (f : A -> B) (l1 l2 : list A) :
  l1 `sublist_of` l2 -> NoDup (f <$> l2) -> NoDup (f <$> l1).
Proof.
  induction 1 as [|x l1 l2 Hs IH|x l1 l2 Hs IH]; [done| |];
    rewrite !fmap_cons, ?NoDup_cons; intros [Hx Hnd]; [|by apply IH].
  split; [|by apply IH]. intros (y & E & Hy)%list_elem_of_fmap. apply Hx.
  rewrite E. apply list_elem_of_fmap_2. by eapply elem_of_sublist.
Qed.

(** Removing the latest subscription of a topic drops the end of that topic's list and
    leaves the lists of the other topics. *)
Lemma remove_latest l n x :
  NoDup (sub_id <$> l) -> latest l n = Some x ->
  sub_id x = n /\ (exists l0, on_topic (sub_topic x) l = l0 ++ [x] /\
    on_topic (sub_topic x) (remove_sub n l) = l0) /\
  (forall t, t <> sub_topic x -> on_topic t (remove_sub n l) = on_topic t l).
Proof.
  intros Hnd. unfold latest. destruct (list_find _ l) as [[i y]|] eqn:Hf; [|done].
  case_bool_decide as Hl; [|done]. intros [= ->].
  apply list_find_Some in Hf as (Hi & <- & _).
  assert (Huniq : forall z, z ∈ l -> sub_id z = sub_id x -> z = x).
  { intros z Hz E. apply list_elem_of_lookup in Hz as [j Hj].
    assert (i = j) as ->; [|congruence].
    eapply NoDup_lookup; [exact Hnd|rewrite list_lookup_fmap, Hi; done|].
    by rewrite list_lookup_fmap, Hj, <- E. }
  split; [done|]. split.
  - apply last_Some in Hl as [l0 El]. exists l0. split; [done|].
    unfold on_topic, remove_sub in *. rewrite list_filter_filter.
    transitivity (filter (fun s => sub_id s <> sub_id x) (l0 ++ [x])).
    { rewrite <- El, list_filter_filter. apply list_filter_iff. tauto. }
    rewrite filter_app, (filter_cons_False _ x) by tauto. rewrite filter_nil, app_nil_r.
    apply filter_id_in. intros z Hz E.
    assert (z ∈ l) as Hzl.
    { eapply list_elem_of_filter. rewrite El. apply elem_of_app. by left. }
    rewrite (Huniq z Hzl E) in Hz.
    assert (NoDup (l0 ++ [x])) as Hnd2.
    { rewrite <- El. apply NoDup_filter. by eapply NoDup_fmap_1. }
    apply NoDup_app in Hnd2 as (_ & Hd & _). by apply (Hd x Hz), list_elem_of_singleton.
  - intros t Ht. unfold on_topic, remove_sub. rewrite list_filter_filter.
    apply filter_ext_in. intros z Hz. split; [tauto|].
    intros Et. split; [done|]. intros E. rewrite (Huniq z Hz E) in Et. by apply Ht.
Qed.

Lemma sim_unsubscribe a s n a1 x :
  sim a s -> spec_step a (OpUnsubscribe n) = Some (a1, x) ->
  x = ODone /\ sim a1 (step s (OpUnsubscribe n)).1 /\ (step s (OpUnsubscribe n)).2 = ODone.
Proof.
  intros [Hn Hids Hfr Hh Hsl]. cbn [spec_step].
  destruct (latest (live a) n) as [y|] eqn:Hlat; [|done]. intros [= <- <-]. split; [done|].
  destruct (remove_latest _ _ _ Hids Hlat) as (<- & (l0 & El & El0) & Hoth).
  assert (Hcl : closures s !! sub_id y = Some {| cl_topic := sub_topic y; cl_idx := length l0 |}).
  { apply Hsl. by rewrite El, lookup_app_r, Nat.sub_diag by lia. }
  cbn [step]. rewrite Hcl. cbn [fst snd]. split; [|done].
  split; cbn [bus closures live next].
  - done.
  - eapply NoDup_fmap_sublist; [|exact Hids]. apply sublist_filter.
  - rewrite Forall_forall in *. intros z [_ Hz]%list_elem_of_filter. by apply Hfr.
  - intros u. erewrite unsubscribe_deletes; [|apply Hh]. cbn [cl_topic cl_idx].
    case_decide as E; [|by rewrite Hoth, Hh].
    rewrite E, El, El0, fmap_app. cbn. by rewrite <- (length_fmap sub_handler), delete_middle, app_nil_r.
  - intros u p z Hz. apply Hsl. destruct (decide (u = sub_topic y)) as [->|Hne].
    + rewrite El0 in Hz. rewrite El. by apply lookup_app_l_Some.
    + by rewrite <- Hoth.
Qed.

Lemma sim_step a s o a1 x :
  sim a s -> spec_step a o = Some (a1, x) -> sim a1 (step s o).1 /\ (step s o).2 = x.
Proof.
  intros Hsim Hstep. destruct o as [t h|n|now e|t].
  - destruct (sim_subscribe a s t h Hsim) as (a' & E & Hs). rewrite E in Hstep.
    injection Hstep as <- <-. split; [done|]. cbn. done.
  - by destruct (sim_unsubscribe a s n a1 x Hsim Hstep) as (-> & ? & ?).
  - injection Hstep as <- <-. split; [done|]. cbn [step snd]. unfold Publish.
    rewrite (sim_handlers _ _ Hsim). f_equal.
    induction (on_topic (ev_Topic e) (live a)) as [|y l IH]; [done|]. cbn. rewrite IH.
    do 2 f_equal. unfold deliver. by destruct (ev_Time e).
  - injection Hstep as <- <-. split; [done|]. cbn [step snd]. unfold SubscriberCount.
    by rewrite (sim_handlers _ _ Hsim), !length_fmap.
Qed.

(** C17: The event bus refines the bus of named subscriptions: for every sequence of
    operations in which a subscription is cancelled once and only while it is the latest
    live one of its topic, the code produces the same observations (deliveries in the
    order of subscription with the time filled in, and counts) as the specification. *)
Theorem bus_refines_subscriptions ops a s a' xs :
  sim a s -> spec_run a ops = Some (a', xs) ->
  exists s', run s ops = (s', xs) /\ sim a' s'.
Proof.
  revert a s xs. induction ops as [|o ops IH]; intros a s xs Hsim; cbn [spec_run run].
  { intros [= <- <-]. by exists s. }
  destruct (spec_step a o) as [[a1 x]|] eqn:Es; [|done].
  destruct (spec_run a1 ops) as [[a2 xs']|] eqn:Er; [|done]. intros [= <- <-].
  destruct (sim_step _ _ _ _ _ Hsim Es) as [Hs1 Ex].
  destruct (step s o) as [s1 x']. cbn in *. subst.
  destruct (IH _ _ _ Hs1 Er) as (s' & E & Hs'). rewrite E. by exists s'.
Qed.

Definition ops_witness : list Op :=
  let e := {| ev_Topic := TopicClusterReady; ev_Cluster := "db"; ev_Namespace := "prod";
              ev_Time := None; ev_Payload := ∅ |} in
  [OpSubscribe TopicClusterReady 7; OpSubscribe TopicBackupFailed 8;
   OpSubscribe TopicClusterReady 9; OpPublish 5 e; OpUnsubscribe 2; OpPublish 6 e;
   OpUnsubscribe 0; OpCount TopicClusterReady; OpCount TopicBackupFailed].

Lemma bus_refines_subscriptions_witness :
  exists a' xs s', run init ops_witness = (s', xs) /\ sim a' s'.
Proof.
  destruct (spec_run spec_init ops_witness) as [[a' xs]|] eqn:E; [|vm_compute in E; discriminate E].
  exists a', xs. exact (bus_refines_subscriptions _ _ _ _ _ sim_init E).
Defined.

(** Outside that discipline the promise of Subscribe breaks: with three subscribers
    of a topic, cancelling the first and then the second removes the first and the third.
    The second keeps receiving events and the third no longer does. *)
Theorem stale_index_removes_other t h1 h2 h3 :
  hs_of (bus (run init [OpSubscribe t h1; OpSubscribe t h2; OpSubscribe t h3;
                        OpUnsubscribe 0; OpUnsubscribe 1]).1) t = [Some h2].
Proof.
  assert (Hs : forall b l h, hs_of b t = Some <$> l ->
    hs_of (Subscribe b t (Some h)).2 t = Some <$> (l ++ [h])).
  { intros b l h E. cbn [Subscribe snd]. by rewrite hs_of_set, decide_True, E, fmap_app by done. }
  set (b3 := (Subscribe (Subscribe (Subscribe New t (Some h1)).2 t (Some h2)).2 t (Some h3)).2).
  assert (hs_of b3 t = Some <$> [h1; h2; h3]) as E3.
  { apply (Hs _ [h1; h2]), (Hs _ [h1]), (Hs _ []). done. }
  assert (hs_of (unsubscribe b3 {| cl_topic := t; cl_idx := 0 |}) t = Some <$> [h2; h3]) as E2.
  { erewrite unsubscribe_deletes; [|exact E3]. by rewrite decide_True. }
  transitivity (hs_of (unsubscribe (unsubscribe b3 {| cl_topic := t; cl_idx := 0 |})
                         {| cl_topic := t; cl_idx := 1 |}) t).
  { cbn -[unsubscribe hs_of set_hs length]. rewrite !hs_of_set, !decide_True by done. done. }
  erewrite unsubscribe_deletes; [|exact E2]. by rewrite decide_True.
Qed.

End EventBus.
