(* ===== verification/JsonPatch.v ===== *)
(** * Merge patches and owner references (internal/patcher/patcher.go)

    Decoded JSON as encoding/json produces it for [interface{}]: a float64 is identified
    with its shortest text, which is what the verb [%v] prints.  [diffMaps] is the
    source's; [merge_patch] is the reference, the algorithm of RFC 7386 a server runs. *)

From Stdlib Require Import ZArith Lia List Bool Btauto.
From stdpp Require Import base list strings gmap.
From S2P Require Import Prelude GoStrings.

Module Patcher.

#[warnings="-register-all"]
Inductive json :=
  | JNull
  | JBool (b : bool)
  | JNum (text : string)
  | JStr (s : string)
  | JArr (l : list json)
  | JObj (m : gmap string json).

Definition is_obj (j : json) : bool := match j with JObj _ => true | _ => false end.

(** [fmt.Sprintf("%v", j)]: maps print with their keys sorted. *)
Definition sprint_map (m : gmap string string) : string :=
  "map[" +:+ strings_join " "
    (map (fun k => k +:+ ":" +:+ default "" (m !! k)) (sort_strings (map fst (map_to_list m)))) +:+ "]".

Fixpoint sprint (j : json) : string :=
  match j with
  | JNull => "<nil>"
  | JBool b => if b then "true" else "false"
  | JNum t => t
  | JStr s => s
  | JArr l => "[" +:+ strings_join " " (map sprint l) +:+ "]"
  | JObj m => sprint_map (map_imap (fun _ v => Some (sprint v)) m)
  end.

(** The keys of the original that the modified object lacks, marked as null. *)
Definition removed_keys (original modified : gmap string json) : gmap string json :=
  map_imap (fun k _ => match modified !! k with None => Some JNull | Some _ => None end) original.

(** [diffMaps(original, modified)]; the recursion is on the modified object. *)
Fixpoint diff_value (original : gmap string json) (modified : json) : gmap string json :=
  match modified with
  | JObj m =>
      map_imap (fun key modVal =>
        match original !! key with
        | None => Some modVal
        | Some origVal =>
            match origVal, modVal with
            | JObj origMap, JObj _ =>
                let sub := diff_value origMap modVal in
                if (0 <? size sub)%nat then Some (JObj sub) else None
            | _, _ => if (sprint origVal =? sprint modVal)%string then None else Some modVal
            end
        end) m ∪ removed_keys original m
  | _ => ∅
  end.

Definition diffMaps (original modified : gmap string json) : gmap string json :=
  diff_value original (JObj modified).

(** [json.Unmarshal] into a map: null leaves the map nil, other non-objects fail. *)
Definition unmarshal_map (what : string) (j : result json) : result (gmap string json) :=
  match j with
  | Ok (JObj m) => Ok m
  | Ok JNull => Ok ∅
  | Ok _ => Err (ErrWrap what (ErrNew "json: cannot unmarshal into Go value of type map[string]interface {}") "")
  | Err e => Err (ErrWrap what e "")
  end.

Definition createMergePatch (original modified : result json) : result (gmap string json) :=
  match unmarshal_map "unmarshal original: " original with
  | Err e => Err e
  | Ok o =>
      match unmarshal_map "unmarshal modified: " modified with
      | Err e => Err e
      | Ok m => Ok (diffMaps o m)
      end
  end.

(** What [Patch] does with the objects' JSON, or the error of marshalling them. *)
Inductive PatchAction :=
  | PatchError (e : error)
  | PatchNothing
  | PatchSend (patch : gmap string json) (fieldOwner : string).

Definition Patch (base modified : result json) (fieldOwner : string) : PatchAction :=
  match base, modified with
  | Err e, _ => PatchError (ErrWrap "marshal base object: " e "")
  | Ok _, Err e => PatchError (ErrWrap "marshal modified object: " e "")
  | Ok _, Ok _ =>
      match createMergePatch base modified with
      | Err e => PatchError (ErrWrap "compute merge patch: " e "")
      | Ok patch => if (size patch =? 0)%nat then PatchNothing else PatchSend patch fieldOwner
      end
  end.

(** What [Apply] sends: the whole object as a server-side apply patch, taking ownership of
    the fields it carries. *)
Record ApplyRequest := { ar_Object : json; ar_FieldOwner : string; ar_Force : bool }.

Definition Apply (client_Patch : ApplyRequest -> option error) (obj : result json) (fieldOwner : string) : option error :=
  match obj with
  | Err e => Some (ErrWrap "marshal object for server-side apply: " e "")
  | Ok data => client_Patch {| ar_Object := data; ar_FieldOwner := fieldOwner; ar_Force := true |}
  end.

(** ** Owner references *)

Record OwnerRef := {
  ref_APIVersion : string; ref_Kind : string; ref_Name : string; ref_UID : string;
  ref_Controller : bool; ref_BlockOwnerDeletion : bool;
}.

Record GVK := { gvk_GroupVersion : string; gvk_Kind : string }.

Definition setOwnerReference (existing : list OwnerRef) (name uid : string) (gvk : GVK) : list OwnerRef :=
  let ref := {| ref_APIVersion := gvk_GroupVersion gvk; ref_Kind := gvk_Kind gvk; ref_Name := name;
                ref_UID := uid; ref_Controller := true; ref_BlockOwnerDeletion := true |} in
  if existsb (fun r => (ref_UID r =? ref_UID ref)%string) existing then existing
  else existing ++ [ref].

(** [kinds] is absent when the owner is no runtime object; otherwise it is the scheme's
    answer for the owner, or its error. *)
Definition EnsureOwnerRef (existing : list OwnerRef) (name uid : string) (kinds : option (result (list GVK)))
  : result (list OwnerRef) :=
  match kinds with
  | None => Err (ErrNew "owner does not implement runtime.Object")
  | Some (Err e) => Err (ErrWrap "resolve GVK for owner: " e "")
  | Some (Ok []) => Err (ErrNew "no GVK found for owner type")
  | Some (Ok (gvk :: _)) => Ok (setOwnerReference existing name uid gvk)
  end.

(** ** Reference: JSON merge patch, RFC 7386 *)

Fixpoint merge_patch (target patch : json) {struct patch} : json :=
  match patch with
  | JObj p =>
      let m := match target with JObj m => m | _ => ∅ end in
      JObj (map_imap (fun k v => match v with
                                 | JNull => None
                                 | _ => Some (merge_patch (default JNull (m !! k)) v)
                                 end) p
            ∪ map_imap (fun k v => match p !! k with None => Some v | Some _ => None end) m)
  | _ => patch
  end.

(** No null below the object structure; arrays are replaced as a whole. *)
Fixpoint no_nulls (j : json) : bool :=
  match j with
  | JNull => false
  | JObj m => map_fold (fun _ v b => no_nulls v && b) true m
  | _ => true
  end.

(** Values that are compared by their text differ in their text when they differ. *)
Inductive text_faithful : gmap string json -> gmap string json -> Prop :=
  | text_faithful_intro o m :
      (forall k ov mv, o !! k = Some ov -> m !! k = Some mv -> is_obj ov && is_obj mv = false ->
         sprint ov = sprint mv -> ov = mv) ->
      (forall k om mm, o !! k = Some (JObj om) -> m !! k = Some (JObj mm) -> text_faithful om mm) ->
      text_faithful o m.

(** ** Lemmas *)

Fixpoint jsize (j : json) : nat :=
  match j with
  | JObj m => S (map_fold (fun _ v n => jsize v + n) 0 m)
  | _ => 1
  end.

Lemma jsize_lookup m k v : m !! k = Some v -> jsize v < jsize (JObj m).
Proof.
  intros H. cbn [jsize]. rewrite (map_fold_delete_L _ _ k v m); [lia| |done]. intros. lia.
Qed.

(** Induction over the entries of nested objects. *)
Lemma obj_ind (P : gmap string json -> Prop) :
  (forall m, (forall k mm, m !! k = Some (JObj mm) -> P mm) -> P m) -> forall m, P m.
Proof.
  intros IH m. remember (jsize (JObj m)) as n eqn:E. revert m E.
  induction (lt_wf n) as [n _ IHn]. intros m ->. apply IH. intros k mm Hk.
  eapply IHn; [|done]. by apply jsize_lookup in Hk.
Qed.

Lemma no_nulls_lookup m k v : no_nulls (JObj m) = true -> m !! k = Some v -> no_nulls v = true.
Proof.
  cbn [no_nulls]. intros H Hk. rewrite (map_fold_delete_L _ _ k v m) in H; [|intros; btauto|done].
  by breflect.
Qed.

Lemma lookup_diffMaps o m k :
  diffMaps o m !! k =
    match m !! k, o !! k with
    | Some v, None => Some v
    | Some (JObj mm), Some (JObj om) =>
        if (0 <? size (diffMaps om mm))%nat then Some (JObj (diffMaps om mm)) else None
    | Some v, Some ov => if (sprint ov =? sprint v)%string then None else Some v
    | None, Some _ => Some JNull
    | None, None => None
    end.
Proof.
  unfold diffMaps at 1. cbn [diff_value]. rewrite lookup_union, map_lookup_imap.
  unfold removed_keys. rewrite map_lookup_imap.
  destruct (m !! k) as [v|] eqn:Em, (o !! k) as [ov|] eqn:Eo; cbn; rewrite ?Em, ?Eo; cbn; try done.
  - rewrite (right_id_L None (∪)). by destruct ov, v.
  - by destruct v.
Qed.

Lemma lookup_merge m p k :
  match merge_patch (JObj m) (JObj p) with JObj r => r !! k | _ => None end =
    match p !! k with
    | Some JNull => None
    | Some v => Some (merge_patch (default JNull (m !! k)) v)
    | None => m !! k
    end.
Proof.
  cbn [merge_patch]. rewrite lookup_union, !map_lookup_imap.
  destruct (p !! k) as [v|] eqn:Ep; cbn.
  - destruct (m !! k); cbn; rewrite ?Ep; by destruct v.
  - destruct (m !! k); cbn; rewrite ?Ep; done.
Qed.

Lemma map_size_pos (m : gmap string json) : (0 <? size m)%nat = negb (bool_decide (m = ∅)).
Proof.
  case_bool_decide as E; [by subst|]. apply map_size_non_empty_iff in E.
  destruct (Nat.ltb_spec 0 (size m)); [done|lia].
Qed.

(** Patching an absent or scalar value with null-free JSON yields that JSON. *)
Lemma merge_patch_fresh m t :
  no_nulls (JObj m) = true -> is_obj t = false -> merge_patch t (JObj m) = JObj m.
Proof.
  revert t. induction m as [m IH] using obj_ind. intros t Hnn Ht.
  assert (merge_patch t (JObj m) = merge_patch (JObj ∅) (JObj m)) as ->.
  { cbn. by destruct t. }
  pose proof (lookup_merge ∅ m) as Hl. cbn [merge_patch] in *. f_equal. apply map_eq. intros k.
  rewrite Hl, lookup_empty. cbn [default]. destruct (m !! k) as [v|] eqn:Em; [|done].
  pose proof (no_nulls_lookup _ _ _ Hnn Em) as Hv.
  destruct v; try done. f_equal. by apply (IH k).
Qed.

(** Applying the computed patch to the original gives the modified object. *)
Lemma merge_patch_diffMaps o m :
  no_nulls (JObj m) = true -> text_faithful o m ->
  merge_patch (JObj o) (JObj (diffMaps o m)) = JObj m.
Proof.
  revert o. induction m as [m IH] using obj_ind. intros o Hnn Hf.
  inversion Hf as [? ? Hleaf Hobj]; subst.
  pose proof (lookup_merge o (diffMaps o m)) as Hl. cbn [merge_patch] in *.
  f_equal. apply map_eq. intros k. rewrite Hl. clear Hl. rewrite lookup_diffMaps.
  destruct (m !! k) as [v|] eqn:Em, (o !! k) as [ov|] eqn:Eo; try done.
  - pose proof (no_nulls_lookup _ _ _ Hnn Em) as Hv.
    destruct (is_obj ov && is_obj v) eqn:Eb.
    + destruct ov as [| | | | |om]; try done. destruct v as [| | | | |mm]; try done.
      pose proof (IH _ _ Em om Hv (Hobj _ _ _ Eo Em)) as E. rewrite map_size_pos.
      case_bool_decide as Ee; cbn [negb default]; [|by f_equal].
      rewrite Ee in E. f_equal. rewrite <- E. cbn [merge_patch]. f_equal.
      apply map_eq. intros j. rewrite lookup_union, !map_lookup_imap, lookup_empty. cbn.
      destruct (om !! j); cbn; by rewrite ?lookup_empty.
    + assert (match (if (sprint ov =? sprint v)%string then None else Some v) with
              | Some JNull => None
              | Some v0 => Some (merge_patch ov v0)
              | None => Some ov
              end = Some v) as E.
      { destruct (String.eqb_spec (sprint ov) (sprint v)) as [Es|].
        - f_equal. by eapply Hleaf.
        - destruct v; try done. f_equal. apply merge_patch_fresh; [done|].
          by destruct ov. }
      destruct ov, v; done.
  - pose proof (no_nulls_lookup _ _ _ Hnn Em) as Hv. cbn [default].
    destruct v; try done. f_equal. by apply merge_patch_fresh.
Qed.

(** ** Objects whose common fields keep their scalar type *)

Fixpoint same_kinds (ov mv : json) {struct mv} : bool :=
  match ov, mv with
  | JObj om, JObj m =>
      map_fold (fun k v b => match om !! k with Some x => same_kinds x v | None => true end && b) true m
  | JBool _, JBool _ | JNum _, JNum _ | JStr _, JStr _ => true
  | _, _ => false
  end.

Lemma same_kinds_lookup om m k ov mv :
  same_kinds (JObj om) (JObj m) = true -> om !! k = Some ov -> m !! k = Some mv ->
  same_kinds ov mv = true.
Proof.
  cbn [same_kinds]. intros H Ho Hm.
  rewrite (map_fold_delete_L _ _ k mv m) in H; [|intros; btauto|done].
  rewrite Ho in H. by breflect.
Qed.

Lemma same_kinds_faithful o m : same_kinds (JObj o) (JObj m) = true -> text_faithful o m.
Proof.
  revert o. induction m as [m IH] using obj_ind. intros o Hk. constructor.
  - intros k ov mv Ho Hm Hb Hs. pose proof (same_kinds_lookup _ _ _ _ _ Hk Ho Hm) as E.
    destruct ov as [|[]| | | |], mv as [|[]| | | |]; try done; by cbn in Hs; f_equal.
  - intros k om mm Ho Hm. apply (IH k); [done|]. by eapply same_kinds_lookup.
Qed.

Definition orig_witness : gmap string json :=
  {[ "kind" := JStr "ConfigMap"; "spec" := JObj {[ "replicas" := JNum "1"; "paused" := JBool false ]};
     "old" := JStr "x"; "args" := JArr [JNull] ]}.
Definition mod_witness : gmap string json :=
  {[ "kind" := JStr "ConfigMap"; "spec" := JObj {[ "replicas" := JNum "3"; "paused" := JBool false ]};
     "new" := JObj {[ "a" := JArr [JNull] ]} ]}.

Lemma diffMaps_refl m : diffMaps m m = ∅.
Proof.
  induction m as [m IH] using obj_ind. apply map_eq. intros k.
  rewrite lookup_diffMaps, lookup_empty. destruct (m !! k) as [v|] eqn:E; [|done].
  assert ((if (sprint v =? sprint v)%string then None else Some v) = None) as Ev.
  { by rewrite String.eqb_refl. }
  destruct v as [| | | | |mm]; try exact Ev. by rewrite (IH k mm E).
Qed.

(** C18: The merge patch computed from the base and the modified object is exactly the
    change between them: a server that applies it by RFC 7386 to the base obtains the
    modified object, nested objects and removed keys included, and Patch sends no request
    if and only if nothing changed; provided the modified object holds no null and the
    printed text tells apart the values that are compared by it. *)
Theorem merge_patch_of_diff o m owner :
  no_nulls (JObj m) = true -> text_faithful o m ->
  merge_patch (JObj o) (JObj (diffMaps o m)) = JObj m /\
  (Patch (Ok (JObj o)) (Ok (JObj m)) owner = PatchNothing <-> o = m).
Proof.
  intros Hn Hf. pose proof (merge_patch_diffMaps o m Hn Hf) as H. split; [done|].
  unfold Patch, createMergePatch, unmarshal_map. split.
  - destruct (Nat.eqb_spec (size (diffMaps o m)) 0) as [E|]; [|done]. intros _.
    apply map_size_empty_inv in E. rewrite E in H.
    pose proof (lookup_merge o ∅) as Hl. rewrite H in Hl.
    apply map_eq. intros k. by rewrite Hl.
  - intros ->. by rewrite diffMaps_refl.
Qed.

Lemma merge_patch_of_diff_witness :
  merge_patch (JObj orig_witness) (JObj (diffMaps orig_witness mod_witness)) = JObj mod_witness /\
  (Patch (Ok (JObj orig_witness)) (Ok (JObj mod_witness)) "athos" = PatchNothing <->
   orig_witness = mod_witness).
Proof.
  apply merge_patch_of_diff; [vm_compute; reflexivity|].
  apply same_kinds_faithful. vm_compute. reflexivity.
Defined.

(** Values of different types, or arrays split differently, that print alike are
    taken as equal: replacing the number 1 by the string 1, or the one argument [a b] by
    the two arguments [a] and [b], yields an empty patch and the change is lost. *)
Theorem lookalike_change_dropped k owner :
  Patch (Ok (JObj {[ k := JNum "1" ]})) (Ok (JObj {[ k := JStr "1" ]})) owner = PatchNothing /\
  Patch (Ok (JObj {[ k := JArr [JStr "a b"] ]})) (Ok (JObj {[ k := JArr [JStr "a"; JStr "b"] ]})) owner
    = PatchNothing.
Proof.
  assert (H : forall a b, is_obj a && is_obj b = false -> sprint a = sprint b ->
    Patch (Ok (JObj {[ k := a ]})) (Ok (JObj {[ k := b ]})) owner = PatchNothing).
  { intros a b Hab Hs. unfold Patch, createMergePatch, unmarshal_map.
    assert (diffMaps {[k := a]} {[k := b]} = ∅) as ->; [|done].
    apply map_eq. intros j. rewrite lookup_diffMaps, lookup_empty.
    destruct (decide (k = j)) as [->|Hne]; [|by rewrite !lookup_singleton_ne].
    rewrite !lookup_singleton_eq. apply String.eqb_eq in Hs. rewrite Hs.
    destruct a, b; done. }
  split; by apply H.
Qed.

(** An owner is recorded once, and every other reference is kept. *)
Lemma setOwnerReference_idem l name uid gvk :
  setOwnerReference (setOwnerReference l name uid gvk) name uid gvk = setOwnerReference l name uid gvk.
Proof.
  unfold setOwnerReference. cbn [ref_UID].
  destruct (existsb _ l) eqn:E; [by rewrite E|].
  rewrite existsb_app. cbn. by rewrite String.eqb_refl, orb_true_r.
Qed.

End Patcher.
