(* ===== verification/Durations.v ===== *)
(** * Durations, times and retry schedules

    Module [GoTime] is the part of package time the code uses: units, the grammar of
    time.ParseDuration and IEEE double arithmetic (Stdlib's [SpecFloat], 53 bits of
    precision, exponents below 1024).  [Duration] is internal/duration/duration.go,
    [TimeUtil] internal/timeutil/timeutil.go and [Backoff] internal/backoff/backoff.go.
    Durations are nanoseconds in 64 bits. *)

From Stdlib Require Import ZArith Lia List Bool Ascii.
From Stdlib Require Import SpecFloat.
From stdpp Require Import base list strings gmap.
From S2P Require Import Prelude GoStrings.

Local Open Scope Z_scope.

Module GoTime.

Definition Nanosecond : Z := 1.
Definition Microsecond : Z := 1000.
Definition Millisecond : Z := 1000000.
Definition Second : Z := 1000000000.
Definition Minute : Z := 60000000000.
Definition Hour : Z := 3600000000000.

(** ** Double precision *)

Definition f64_of_Z (z : Z) : spec_float := binary_normalize 53 1024 z 0 false.
Definition f64_mul (a b : spec_float) : spec_float := SFmul 53 1024 a b.
Definition f64_div (a b : spec_float) : spec_float := SFdiv 53 1024 a b.

(** Conversion to an integer truncates toward zero; [None] for infinities and NaN. *)
Definition f64_trunc (f : spec_float) : option Z :=
  match f with
  | S754_zero _ => Some 0
  | S754_finite s m e =>
      let a := if 0 <=? e then Z.pos m * 2 ^ e else Z.pos m / 2 ^ (- e) in
      Some (if s then - a else a)
  | _ => None
  end.

(** ** time.ParseDuration *)

Definition micro_sign : string := String "194" (String "181" "s").
Definition greek_mu : string := String "206" (String "188" "s").

Definition unitMap (u : string) : option Z :=
  if (u =? "ns")%string then Some Nanosecond
  else if (u =? "us")%string || (u =? micro_sign)%string || (u =? greek_mu)%string then Some Microsecond
  else if (u =? "ms")%string then Some Millisecond
  else if (u =? "s")%string then Some Second
  else if (u =? "m")%string then Some Minute
  else if (u =? "h")%string then Some Hour
  else None.

(** The leading decimal digits and the rest. *)
Fixpoint span_digits (s : string) : string * string :=
  match s with
  | String c s' => if is_digit c then let '(a, b) := span_digits s' in (String c a, b) else ("", s)
  | EmptyString => ("", "")
  end.

(** [leadingInt]: the value of the leading digits, an error beyond [2^63]. *)
Definition leadingInt (s : string) : option (Z * string) :=
  let '(ds, rest) := span_digits s in
  match parse_digits 0 ds with
  | Some v => if 2 ^ 63 <? v then None else Some (v, rest)
  | None => None
  end.

(** [leadingFraction]: the digits that fit, and ten to their number as a double. *)
Fixpoint leadingFraction (x : Z) (scale : spec_float) (overflow : bool) (s : string)
  : Z * spec_float * string :=
  match s with
  | String c s' =>
      if is_digit c then
        if overflow then leadingFraction x scale true s'
        else if (2 ^ 63 - 1) / 10 <? x then leadingFraction x scale true s'
        else
          let y := x * 10 + (byte c - 48) in
          if 2 ^ 63 <? y then leadingFraction x scale true s'
          else leadingFraction y (f64_mul scale (f64_of_Z 10)) false s'
      else (x, scale, s)
  | EmptyString => (x, scale, "")
  end.

(** The unit runs up to the next digit or period. *)
Fixpoint span_unit (s : string) : string * string :=
  match s with
  | String c s' =>
      if is_digit c || Ascii.eqb c "." then ("", s)
      else let '(a, b) := span_unit s' in (String c a, b)
  | EmptyString => ("", "")
  end.

(** The fraction after a period: its digits, their scale, the rest, and whether there
    was a digit. *)
Definition parse_fraction (s : string) : Z * spec_float * string * bool :=
  match s with
  | String c s' =>
      if Ascii.eqb c "." then
        let '(f, scale, s2) := leadingFraction 0 (f64_of_Z 1) false s' in
        (f, scale, s2, negb (String.length s' =? String.length s2)%nat)
      else (0, f64_of_Z 1, s, false)
  | EmptyString => (0, f64_of_Z 1, "", false)
  end.

(** One round of the loop: the nanoseconds of a segment and the rest. *)
Definition parse_part (s : string) : option (Z * string) :=
  match s with
  | EmptyString => None
  | String c _ =>
      if negb (Ascii.eqb c "." || is_digit c) then None else
      match leadingInt s with
      | None => None
      | Some (v, s1) =>
          let pre := negb (String.length s =? String.length s1)%nat in
          let '(f, scale, s2, post) := parse_fraction s1 in
          if negb pre && negb post then None else
          let '(u, s3) := span_unit s2 in
          if (u =? "")%string then None else
          match unitMap u with
          | None => None
          | Some unit =>
              if 2 ^ 63 / unit <? v then None else
              let v1 := v * unit in
              if 0 <? f then
                match f64_trunc (f64_mul (f64_of_Z f) (f64_div (f64_of_Z unit) scale)) with
                | Some frac => if 2 ^ 63 <? v1 + frac then None else Some (v1 + frac, s3)
                | None => None
                end
              else Some (v1, s3)
          end
      end
  end.

(** The loop, one unit of fuel per segment; every segment consumes a byte. *)
Fixpoint parse_parts (fuel : nat) (d : Z) (s : string) : option Z :=
  match fuel with
  | O => None
  | S fuel' =>
      match s with
      | EmptyString => Some d
      | String _ _ =>
          match parse_part s with
          | None => None
          | Some (v, rest) =>
              let d' := (d + v) mod 2 ^ 64 in
              if 2 ^ 63 <? d' then None else parse_parts fuel' d' rest
          end
      end
  end.

(** An optional sign at the front: whether it is a minus, and the rest. *)
Definition split_sign (s : string) : bool * string :=
  match s with
  | String c s' =>
      if Ascii.eqb c "-" then (true, s') else if Ascii.eqb c "+" then (false, s') else (false, s)
  | EmptyString => (false, "")
  end.

Lemma split_sign_digit c s : is_digit c = true -> split_sign (String c s) = (false, String c s).
Proof. by destruct c as [[] [] [] [] [] [] [] []]. Qed.

(** [time.ParseDuration]; [None] stands for its error. *)
Definition ParseDuration (s : string) : option Z :=
  let '(neg, s1) := split_sign s in
  if (s1 =? "0")%string then Some 0
  else if (s1 =? "")%string then None
  else match parse_parts (S (String.length s1)) 0 s1 with
       | None => None
       | Some d =>
           if neg then Some (int64 (- d))
           else if 2 ^ 63 - 1 <? d then None else Some d
       end.

(** *** Segments written as digits and a unit *)

Lemma span_digits_app_digits ds rest :
  sall is_digit ds = true -> (forall c r, rest = String c r -> is_digit c = false) ->
  span_digits (ds +:+ rest) = (ds, rest).
Proof.
  intros Hd Hr. induction ds as [|c ds IH].
  - rewrite app_nil_l_s. destruct rest as [|c r]; [done|]. cbn. by rewrite (Hr c r).
  - rewrite app_cons_l. cbn in *. breflect. by rewrite H, IH.
Qed.

Lemma span_unit_app u rest :
  sall (fun c => negb (is_digit c || Ascii.eqb c ".")) u = true ->
  (forall c r, rest = String c r -> is_digit c = true) ->
  span_unit (u +:+ rest) = (u, rest).
Proof.
  intros Hu Hr. induction u as [|c u IH].
  - rewrite app_nil_l_s. destruct rest as [|c r]; [done|]. cbn. by rewrite (Hr c r).
  - rewrite app_cons_l. cbn [sall span_unit] in *. breflect. rewrite H, H1, IH by done. done.
Qed.

(** A whole number of a unit that fits parses to its nanoseconds. *)
Lemma parse_part_digits n u unit :
  0 <= n -> unitMap u = Some unit -> 0 < unit -> n * unit <= 2 ^ 63 -> u <> "" ->
  sall (fun c => negb (is_digit c || Ascii.eqb c ".")) u = true ->
  parse_part (digits n +:+ u) = Some (n * unit, "").
Proof.
  intros Hn Hm Hu Hfit Hne Hall. unfold parse_part.
  assert (Hhd : forall c r, u = String c r -> is_digit c = false /\ Ascii.eqb c "." = false).
  { intros c r ->. cbn [sall] in Hall. by breflect. }
  assert (Hle : n <= 2 ^ 63) by nia.
  destruct (digits_cons n) as (c & ds & Ed). pose proof (digits_all n Hn) as Hds.
  rewrite Ed, app_cons_l. rewrite Ed in Hds. cbn [sall] in Hds.
  apply andb_prop in Hds as [Hc Hds]. rewrite Hc, orb_true_r. cbn [negb].
  rewrite <- app_cons_l, <- Ed. unfold leadingInt.
  rewrite span_digits_app_digits; [|by apply digits_all|intros ?? E; by apply Hhd in E as []].
  pose proof (parse_uint_digits n Hn) as Hp. unfold parse_uint in Hp. rewrite Ed in Hp.
  rewrite Ed at 1. rewrite Hp.
  replace (2 ^ 63 <? n) with false by (symmetry; apply Z.ltb_ge; lia).
  assert ((String.length (digits n +:+ u) =? String.length u)%nat = false) as ->.
  { apply Nat.eqb_neq. rewrite length_app_s, Ed. cbn. lia. }
  destruct u as [|x u]; [done|]. destruct (Hhd x u eq_refl) as [_ Hx].
  cbn [parse_fraction]. rewrite Hx.
  cbn [negb andb]. pose proof (span_unit_app (String x u) "" Hall ltac:(done)) as Hs.
  rewrite app_nil_r_s in Hs. rewrite Hs.
  replace ((String x u =? "")%string) with false by done. rewrite Hm.
  replace (2 ^ 63 / unit <? n) with false; [done|].
  symmetry. apply Z.ltb_ge, Z.div_le_lower_bound; lia.
Qed.

Lemma ParseDuration_digits n u unit :
  0 <= n -> unitMap u = Some unit -> 0 < unit -> n * unit < 2 ^ 63 -> u <> "" ->
  sall (fun c => negb (is_digit c || Ascii.eqb c ".")) u = true ->
  ParseDuration (digits n +:+ u) = Some (n * unit).
Proof.
  intros Hn Hm Hu Hfit Hne Hall.
  pose proof (parse_part_digits n u unit Hn Hm Hu ltac:(lia) Hne Hall) as Hp.
  destruct (digits_cons n) as (c & ds & Ed). pose proof (digits_all n Hn) as Hds.
  rewrite Ed in Hds. cbn [sall] in Hds. apply andb_prop in Hds as [Hc _].
  unfold ParseDuration. rewrite Ed in *. rewrite app_cons_l in *.
  rewrite split_sign_digit by done.
  assert ((String c (ds +:+ u) =? "0")%string = false) as ->.
  { apply String.eqb_neq. intros [= _ E]. destruct ds; [by destruct u|done]. }
  replace ((String c (ds +:+ u) =? "")%string) with false by done.
  cbn [String.length parse_parts]. rewrite Hp.
  rewrite Z.add_0_l, Z.mod_small by (split; [nia|]; lia).
  replace (2 ^ 63 <? n * unit) with false by (symmetry; apply Z.ltb_ge; lia).
  replace (2 ^ 63 - 1 <? n * unit) with false by (symmetry; apply Z.ltb_ge; lia).
  done.
Qed.

End GoTime.

(** ** internal/duration *)
Module Duration.
Import GoTime.

Definition Day : Z := 24 * Hour.
Definition Week : Z := 7 * Day.
Definition Month : Z := 30 * Day.

Definition extendedUnits (u : string) : option Z :=
  if (u =? "d")%string then Some Day
  else if (u =? "w")%string then Some Week
  else if (u =? "mo")%string then Some Month
  else None.

Definition isDigit (b : ascii) : bool := is_digit b.
Definition isLetter (b : ascii) : bool := is_lower b || is_upper b.

Fixpoint scan_digits (n : Z) (s : string) : option Z :=
  match s with
  | EmptyString => Some n
  | String c s' => if is_digit c then scan_digits (int64 (int64 (n * 10) + (byte c - 48))) s' else None
  end.

(** [scanInt]: the arithmetic wraps around silently. *)
Definition scanInt (s : string) : option Z :=
  let '(neg, s1) := split_sign s in
  let sign := if neg then -1 else 1 in
  if (s1 =? "")%string then None
  else match scan_digits 0 s1 with Some n => Some (int64 (n * sign)) | None => None end.

(** [parseSegment]: the duration of the first segment and what follows it.  The text of
    library errors is not reproduced. *)
Definition parseSegment (T : UnicodeTables) (rest : string) : result (Z * string) :=
  let '(num, r1) := span (fun c => isDigit c || Ascii.eqb c "-" || Ascii.eqb c "+") rest in
  if (num =? "")%string then Err (ErrNew ("missing number in " +:+ Quote T rest)) else
  let '(unit, r2) := span isLetter r1 in
  if (unit =? "")%string then Err (ErrNew ("missing unit in " +:+ Quote T rest)) else
  let key := smap lower_byte unit in
  match extendedUnits key with
  | Some mult =>
      match scanInt num with
      | None => Err (ErrNew "invalid number")
      | Some n => Ok (int64 (n * mult), r2)
      end
  | None =>
      match ParseDuration (num +:+ unit) with
      | None => Err (ErrNew "time: invalid duration")
      | Some d => Ok (d, r2)
      end
  end.

(** The loop of [Parse], one unit of fuel per segment. *)
Fixpoint parse_loop (T : UnicodeTables) (fuel : nat) (total : Z) (rest : string) : result Z :=
  match rest with
  | EmptyString => Ok total
  | String _ _ =>
      match fuel with
      | O => Err (ErrNew "out of fuel")
      | S fuel' =>
          match parseSegment T rest with
          | Err e => Err (ErrWrap "duration: " e "")
          | Ok (parsed, r) => parse_loop T fuel' (int64 (total + parsed)) r
          end
      end
  end.

Definition Parse (T : UnicodeTables) (s : string) : result Z :=
  if (s =? "")%string then Err (ErrNew "duration: empty input")
  else parse_loop T (String.length s) 0 s.

(** [MustParse]; [None] is the panic. *)
Definition MustParse (T : UnicodeTables) (s : string) : option Z :=
  match Parse T s with Ok d => Some d | Err _ => None end.

Definition Format (d0 : Z) : string :=
  if d0 =? 0 then "0s" else
  let negative := d0 <? 0 in
  let d := if negative then int64 (- d0) else d0 in
  let days := Z.quot d Day in
  let d := d - days * Day in
  let hours := Z.quot d Hour in
  let d := d - hours * Hour in
  let minutes := Z.quot d Minute in
  let d := d - minutes * Minute in
  let seconds := Z.quot d Second in
  let parts := (if days =? 0 then [] else [itoa days +:+ "d"])
            ++ (if hours =? 0 then [] else [itoa hours +:+ "h"])
            ++ (if minutes =? 0 then [] else [itoa minutes +:+ "m"]) in
  let parts := if negb (seconds =? 0) || bool_decide (parts = []) then parts ++ [itoa seconds +:+ "s"] else parts in
  let out := concat_s parts in
  if negative then "-" +:+ out else out.

(** *** Lemmas *)

Lemma parse_digits_mono acc s v : 0 <= acc -> parse_digits acc s = Some v -> acc <= v.
Proof.
  revert acc. induction s as [|c s IH]; intros acc Ha; cbn; [intros [= <-]; lia|].
  destruct (is_digit c) eqn:E; [|done]. intros H. apply IH in H; unfold is_digit in E; breflect; lia.
Qed.

(** Without overflow the wrapping scan reads the number. *)
Lemma scan_digits_parse acc s v :
  0 <= acc -> parse_digits acc s = Some v -> v < 2 ^ 63 -> scan_digits acc s = Some v.
Proof.
  revert acc. induction s as [|c s IH]; intros acc Ha; cbn; [done|].
  destruct (is_digit c) eqn:E; [|done]. intros H Hv.
  assert (0 <= byte c - 48 <= 9) by (unfold is_digit in E; breflect; lia).
  assert (acc * 10 + (byte c - 48) <= v) by (apply (parse_digits_mono _ s); [lia|done]).
  rewrite (int64_id (acc * 10)), int64_id by (unfold in_int64, min_int64, max_int64; lia).
  apply IH; [lia|done..].
Qed.

Lemma scanInt_digits (neg : bool) n :
  0 <= n < 2 ^ 63 -> scanInt ((if neg then "-" else "") +:+ digits n) = Some (if neg then - n else n).
Proof.
  intros Hn. destruct (digits_cons n) as (c & ds & Ed).
  pose proof (digits_all n ltac:(lia)) as Hds. pose proof (parse_uint_digits n ltac:(lia)) as Hp.
  rewrite Ed in *. cbn [sall] in Hds. breflect.
  assert (scan_digits 0 (String c ds) = Some n) as Hsc by (apply scan_digits_parse; [done|exact Hp|lia]).
  unfold scanInt. destruct neg.
  - rewrite app_cons_l, app_nil_l_s. cbn [split_sign Ascii.eqb Bool.eqb].
    replace ((String c ds =? "")%string) with false by done. rewrite Hsc. f_equal.
    rewrite int64_id; [lia|unfold in_int64, min_int64, max_int64; lia].
  - rewrite app_nil_l_s, split_sign_digit by done.
    replace ((String c ds =? "")%string) with false by done. rewrite Hsc. f_equal.
    rewrite int64_id; [lia|unfold in_int64, min_int64, max_int64; lia].
Qed.

(** What may follow a segment: nothing, or the digits of the next one. *)
Definition seg_end (rest : string) : Prop :=
  forall c r, rest = String c r -> is_digit c = true.

Lemma digit_not_letter c : is_digit c = true -> isLetter c = false.
Proof. unfold is_digit, isLetter, is_lower, is_upper. lia. Qed.

Lemma parseSegment_spec T (neg : bool) n u mult rest :
  0 <= n -> seg_end rest -> n * mult < 2 ^ 63 ->
  (u = "d" /\ mult = Day) \/
    (neg = false /\ ((u = "h" /\ mult = Hour) \/ (u = "m" /\ mult = Minute) \/ (u = "s" /\ mult = Second))) ->
  parseSegment T (((if neg then "-" else "") +:+ digits n) +:+ u +:+ rest)
    = Ok (if neg then - (n * mult) else n * mult, rest).
Proof.
  intros Hn Hr Hfit Hu. unfold parseSegment.
  set (num := (if neg then "-" else "") +:+ digits n).
  assert (Hnum : sall (fun c => isDigit c || Ascii.eqb c "-" || Ascii.eqb c "+") num = true).
  { unfold num. rewrite sall_app. apply andb_true_intro. split; [by destruct neg|].
    eapply sall_impl; [|by apply digits_all]. intros c Hc. unfold isDigit. by rewrite Hc. }
  assert (Hne : (num =? "")%string = false).
  { apply String.eqb_neq. unfold num. destruct (digits_cons n) as (c & ds & ->). by destruct neg. }
  assert (Hlet : exists c, u = str1 c /\ isLetter c = true /\
    isDigit c || Ascii.eqb c "-" || Ascii.eqb c "+" = false /\ lower_byte c = c).
  { destruct Hu as [[-> _]|[_ [[-> _]|[[-> _]|[-> _]]]]]; by eexists. }
  destruct Hlet as (c & -> & Hc & Hnd & Hlow).
  rewrite span_app; [|done|]. 2: { rewrite str1_app. by intros ?? [= <- <-]. }
  rewrite Hne. rewrite span_app; [|by cbn; rewrite Hc|].
  2: { intros x r ->. by apply digit_not_letter, (Hr x r). }
  replace ((str1 c =? "")%string) with false by done.
  replace (smap lower_byte (str1 c)) with (str1 c) by (cbn; by rewrite Hlow).
  destruct Hu as [[E ->]|[-> Hu]].
  - rewrite E. cbn [extendedUnits String.eqb Ascii.eqb Bool.eqb].
    unfold num. rewrite scanInt_digits by (unfold Day, Hour in Hfit; lia).
    do 2 f_equal. destruct neg; rewrite int64_id; unfold in_int64, min_int64, max_int64, Day, Hour in *; lia.
  - unfold num. rewrite app_nil_l_s.
    destruct Hu as [[E ->]|[[E ->]|[E ->]]]; rewrite E; cbn [extendedUnits String.eqb Ascii.eqb Bool.eqb];
      erewrite ParseDuration_digits; (done || reflexivity).
Qed.

(** *** Round trip *)

(** Segments as a count, a unit name and the length of the unit. *)
Definition seg_text (g : Z * string * Z) : string := digits g.1.1 +:+ g.1.2.
Definition seg_value (g : Z * string * Z) : Z := g.1.1 * g.2.
Definition seg_ok (g : Z * string * Z) : Prop :=
  0 <= g.1.1 /\ (g.1.2, g.2) ∈ [("d", Day); ("h", Hour); ("m", Minute); ("s", Second)].
Definition segs_value (l : list (Z * string * Z)) : Z := foldr Z.add 0 (map seg_value l).

Lemma seg_ok_intro n u m :
  0 <= n -> bool_decide ((u, m) ∈ [("d", Day); ("h", Hour); ("m", Minute); ("s", Second)]) = true ->
  seg_ok (n, u, m).
Proof. intros Hn Hu. split; [done|]. by apply bool_decide_eq_true in Hu. Qed.

Lemma seg_value_nonneg g : seg_ok g -> 0 <= seg_value g.
Proof.
  intros [Hn Hu]. unfold seg_value. apply Z.mul_nonneg_nonneg; [done|].
  destruct g as [[n u] m]. cbn [fst snd] in *. set_unfold.
  destruct Hu as [[= _ ->]|[[= _ ->]|[[= _ ->]|[[= _ ->]|[]]]]]; done.
Qed.

Lemma segs_value_nonneg l : Forall seg_ok l -> 0 <= segs_value l.
Proof.
  unfold segs_value. induction 1 as [|g l Hg Hl IH]; cbn; [done|].
  apply seg_value_nonneg in Hg. lia.
Qed.

Lemma segs_value_app l1 l2 : segs_value (l1 ++ l2) = segs_value l1 + segs_value l2.
Proof. induction l1 as [|g l1 IH]; [done|]. unfold segs_value in *. cbn. rewrite IH. lia. Qed.

Lemma segs_end l : Forall seg_ok l -> seg_end (concat_s (map seg_text l)).
Proof.
  intros Hl c r E. destruct Hl as [|g l [Hn _] Hl]; cbn in E; [done|].
  unfold seg_text in E. destruct (digits_cons g.1.1) as (x & ds & Ed).
  pose proof (digits_all _ Hn) as Hd. rewrite Ed in *. rewrite !app_cons_l in E.
  injection E as <- _. cbn in Hd. by breflect.
Qed.

Lemma parse_loop_segs T l : forall fuel total,
  Forall seg_ok l -> 0 <= total -> total + segs_value l < 2 ^ 63 -> (length l <= fuel)%nat ->
  parse_loop T fuel total (concat_s (map seg_text l)) = Ok (total + segs_value l).
Proof.
  induction l as [|g l IH]; intros fuel total Hok Ht Hb Hf.
  { unfold segs_value. cbn [map foldr]. rewrite Z.add_0_r. by destruct fuel. }
  inversion Hok as [|? ? Hg Hl]; subst. pose proof (segs_value_nonneg _ Hl) as Hnn.
  pose proof (seg_value_nonneg _ Hg) as Hgn.
  change (segs_value (g :: l)) with (seg_value g + segs_value l) in *.
  change (concat_s (map seg_text (g :: l))) with (seg_text g +:+ concat_s (map seg_text l)).
  destruct fuel as [|fuel]; [cbn in Hf; lia|]. destruct g as [[n u] m].
  unfold seg_text at 1. cbn [fst snd]. rewrite app_assoc_s.
  destruct Hg as [Hn Hu]. unfold seg_value in *. cbn [fst snd] in *.
  assert (Hps : parseSegment T (digits n +:+ u +:+ concat_s (map seg_text l)) =
    Ok (n * m, concat_s (map seg_text l))).
  { rewrite <- (app_nil_l_s (digits n)). apply (parseSegment_spec T false); [done|by apply segs_end|lia|].
    set_unfold. destruct Hu as [[= -> ->]|[[= -> ->]|[[= -> ->]|[[= -> ->]|[]]]]]; [by left|right; tauto..]. }
  destruct (digits_cons n) as (c & ds & Ed). rewrite Ed in *. rewrite !app_cons_l in *.
  cbn [parse_loop]. rewrite Hps. rewrite int64_id by (unfold in_int64, min_int64, max_int64; lia).
  rewrite IH; [f_equal; lia|done|lia|lia|cbn in Hf; lia].
Qed.

Definition opt_seg (n : Z) (u : string) (m : Z) : list (Z * string * Z) :=
  if n =? 0 then [] else [(n, u, m)].

Lemma opt_seg_ok n u m :
  0 <= n -> bool_decide ((u, m) ∈ [("d", Day); ("h", Hour); ("m", Minute); ("s", Second)]) = true ->
  Forall seg_ok (opt_seg n u m).
Proof.
  intros Hn Hu. unfold opt_seg. destruct (n =? 0); [by constructor|].
  constructor; [by apply seg_ok_intro|by constructor].
Qed.

Lemma Format_segs d :
  0 < d -> exists l, Format d = concat_s (map seg_text l) /\ l <> [] /\ Forall seg_ok l /\
    segs_value l = d - d mod Second.
Proof.
  intros Hd. unfold Format. rewrite (proj2 (Z.eqb_neq d 0)) by lia.
  rewrite (proj2 (Z.ltb_ge d 0)) by lia.
  set (days := Z.quot d Day). set (d1 := d - days * Day).
  set (hours := Z.quot d1 Hour). set (d2 := d1 - hours * Hour).
  set (mins := Z.quot d2 Minute). set (d3 := d2 - mins * Minute).
  set (secs := Z.quot d3 Second).
  assert (Hq : forall a b, 0 <= a -> 0 < b -> 0 <= Z.quot a b /\ 0 <= a - Z.quot a b * b < b /\
     Z.quot a b * b + (a - Z.quot a b * b) = a).
  { intros a b Ha Hb. rewrite Z.quot_div_nonneg by lia.
    pose proof (Z.div_mod a b ltac:(lia)). pose proof (Z.mod_pos_bound a b ltac:(lia)).
    pose proof (Z.div_pos a b ltac:(lia) Hb). lia. }
  assert (0 <= days /\ 0 <= d1 < Day /\ days * Day + d1 = d) as (Hd1 & Hr1 & E1) by (apply Hq; [lia|done]).
  assert (0 <= hours /\ 0 <= d2 < Hour /\ hours * Hour + d2 = d1) as (Hd2 & Hr2 & E2) by (apply Hq; [lia|done]).
  assert (0 <= mins /\ 0 <= d3 < Minute /\ mins * Minute + d3 = d2) as (Hd3 & Hr3 & E3) by (apply Hq; [lia|done]).
  assert (0 <= secs /\ 0 <= d3 - secs * Second < Second) as (Hd4 & Hr4) by (destruct (Hq d3 Second) as (? & ? & _); [lia|done..]).
  clearbody days hours mins secs d1 d2 d3.
  assert (Hsum : days * Day + hours * Hour + mins * Minute + secs * Second = d - d mod Second).
  { assert (d mod Second = d3 - secs * Second); [|lia]. symmetry.
    apply (Z.mod_unique_pos d Second (days * 86400 + hours * 3600 + mins * 60 + secs)); [done|].
    unfold Day, Hour, Minute, Second in *. lia. }
  assert (Hit : forall n, 0 <= n -> itoa n = digits n).
  { intros n Hn. unfold itoa. by rewrite (proj2 (Z.ltb_ge n 0)). }
  rewrite !Hit by done.
  set (pre := opt_seg days "d" Day ++ opt_seg hours "h" Hour ++ opt_seg mins "m" Minute).
  assert (Hpre : ((if days =? 0 then [] else [digits days +:+ "d"]) ++
    (if hours =? 0 then [] else [digits hours +:+ "h"]) ++
    (if mins =? 0 then [] else [digits mins +:+ "m"])) = map seg_text pre).
  { unfold pre, opt_seg. rewrite !map_app. by destruct (days =? 0), (hours =? 0), (mins =? 0). }
  rewrite Hpre.
  assert (Hok : Forall seg_ok pre).
  { unfold pre. apply Forall_app_2; [|apply Forall_app_2]; by apply opt_seg_ok. }
  assert (Hv : segs_value pre = days * Day + hours * Hour + mins * Minute).
  { unfold pre, opt_seg, segs_value, seg_value.
    destruct (Z.eqb_spec days 0), (Z.eqb_spec hours 0), (Z.eqb_spec mins 0); cbn [map foldr app fst snd]; lia. }
  destruct (negb (secs =? 0) || bool_decide (map seg_text pre = [])) eqn:Eb.
  - exists (pre ++ [(secs, "s", Second)]). rewrite map_app. split; [done|].
    split; [by destruct pre|]. split.
    + apply Forall_app_2; [done|]. constructor; [by apply seg_ok_intro|by constructor].
    + rewrite segs_value_app, Hv, <- Hsum. unfold segs_value, seg_value. cbn [map foldr fst snd]. lia.
  - breflect. exists pre. split; [done|]. split; [by intros ->|]. split; [done|]. lia.
Qed.

(** Parse inverts Format on non-negative durations: reading back the rendered text
    gives the duration without its fraction of a second, and never fails. *)
Theorem Format_Parse_roundtrip T d :
  0 <= d < 2 ^ 63 -> Parse T (Format d) = Ok (d - d mod Second).
Proof.
  intros Hd. destruct (Z.eq_dec d 0) as [->|Hne].
  { pose proof (parse_loop_segs T [(0, "s", Second)] 2%nat 0) as H. apply H; cbn; try done; try lia.
    constructor; [by apply seg_ok_intro|done]. }
  destruct (Format_segs d ltac:(lia)) as (l & -> & Hl & Hok & Hv).
  unfold Parse.
  assert (Hlen : (length l <= String.length (concat_s (map seg_text l)))%nat).
  { clear -Hok. induction l as [|g l IH]; [done|]. inversion Hok; subst. cbn.
    rewrite length_app_s. specialize (IH ltac:(done)).
    unfold seg_text at 1. destruct (digits_cons g.1.1) as (c & ds & ->). rewrite app_cons_l. cbn.
    unfold concat_s in IH. lia. }
  destruct (concat_s (map seg_text l)) as [|c r] eqn:E; [destruct l; [done|cbn in Hlen; lia]|].
  replace ((String c r =? "")%string) with false by done. rewrite <- E in *.
  rewrite parse_loop_segs; [f_equal; lia|done|lia| |done].
  pose proof (Z.mod_pos_bound d Second ltac:(done)). lia.
Qed.

(** What [Format] prints never makes [MustParse] panic. *)
Lemma MustParse_Format T d : 0 <= d < 2 ^ 63 -> MustParse T (Format d) = Some (d - d mod Second).
Proof. intros Hd. unfold MustParse. by rewrite Format_Parse_roundtrip. Qed.

Lemma Format_Parse_roundtrip_witness :
  Parse ascii_tables (Format 93784000000005) = Ok 93784000000000.
Proof. apply (Format_Parse_roundtrip ascii_tables 93784000000005). lia. Defined.

Lemma Format_opp d : 0 < d < 2 ^ 63 -> Format (- d) = "-" +:+ Format d.
Proof.
  intros Hd. unfold Format. rewrite (proj2 (Z.eqb_neq (- d) 0)), (proj2 (Z.eqb_neq d 0)) by lia.
  rewrite (proj2 (Z.ltb_lt (- d) 0)), (proj2 (Z.ltb_ge d 0)) by lia. cbv zeta.
  rewrite Z.opp_involutive, int64_id by (unfold in_int64, min_int64, max_int64; lia). done.
Qed.

Lemma Format_days_hours days hours :
  0 < days -> 0 < hours < 24 ->
  Format (days * Day + hours * Hour) = digits days +:+ "d" +:+ digits hours +:+ "h".
Proof.
  intros Hd Hh. unfold Format.
  rewrite (proj2 (Z.eqb_neq _ 0)), (proj2 (Z.ltb_ge _ 0)) by (unfold Day, Hour; lia). cbv zeta.
  assert (Z.quot (days * Day + hours * Hour) Day = days) as ->.
  { symmetry. apply (Z.quot_unique _ _ _ (hours * Hour)); unfold Day, Hour; lia. }
  replace (days * Day + hours * Hour - days * Day) with (hours * Hour) by lia.
  rewrite Z.quot_mul by done. rewrite Z.sub_diag.
  rewrite (proj2 (Z.eqb_neq days 0)), (proj2 (Z.eqb_neq hours 0)) by lia.
  change (Z.quot 0 Minute) with 0. cbn [Z.eqb app]. rewrite Z.mul_0_l, Z.sub_0_r.
  change (Z.quot 0 Second) with 0. cbn [Z.eqb negb orb]. rewrite bool_decide_eq_false_2 by done.
  unfold itoa. rewrite (proj2 (Z.ltb_ge days 0)), (proj2 (Z.ltb_ge hours 0)) by lia.
  cbn [concat_s foldr]. by rewrite app_nil_r_s, app_assoc_s.
Qed.

(** The text of a negative duration does not read back: Format writes one minus sign
    in front of all segments, Parse applies it to the first segment only, so minus one
    day and two hours comes back as minus one day plus two hours. *)
Theorem negative_duration_misread T days hours :
  0 < days <= 100000 -> 0 < hours < 24 ->
  Parse T (Format (- (days * Day + hours * Hour))) = Ok (- (days * Day) + hours * Hour).
Proof.
  intros Hd Hh. rewrite Format_opp by (unfold Day, Hour; lia).
  rewrite Format_days_hours by lia. unfold Parse.
  assert (H1 : parseSegment T ("-" +:+ digits days +:+ "d" +:+ digits hours +:+ "h") =
    Ok (- (days * Day), digits hours +:+ "h")).
  { rewrite <- app_assoc_s. apply (parseSegment_spec T true days "d" Day); [lia| |unfold Day, Hour; lia|by left].
    intros c r E. destruct (digits_cons hours) as (x & ds & Ed). rewrite Ed in E. rewrite app_cons_l in E.
    pose proof (digits_all hours ltac:(lia)) as Ha. rewrite Ed in Ha. cbn in Ha. injection E as <- _. by breflect. }
  assert (H3 : parseSegment T (digits hours +:+ "h") = Ok (hours * Hour, "")).
  { pose proof (parseSegment_spec T false hours "h" Hour "" ltac:(lia)) as H. rewrite app_nil_r_s in H.
    apply H; [done|unfold Hour; lia|right; tauto]. }
  destruct (digits_cons days) as (x & ds & Ed). destruct (digits_cons hours) as (y & es & Eh).
  rewrite Ed, Eh in *. rewrite ?app_cons_l, ?app_nil_l_s, ?app_cons_l in *.
  replace ((_ =? "")%string) with false by done.
  cbn [String.length parse_loop]. rewrite H1.
  destruct (String.length (ds +:+ String "d" (String y (es +:+ "h")))) as [|n] eqn:El.
  { exfalso. rewrite length_app_s in El. cbn in El. lia. }
  cbn [parse_loop]. rewrite H3.
  rewrite (int64_id (0 + _)), int64_id by (unfold in_int64, min_int64, max_int64, Day, Hour; lia).
  cbn [parse_loop]. f_equal; lia.
Qed.

Lemma negative_duration_misread_witness :
  Parse ascii_tables (Format (- (1 * Day + 2 * Hour))) = Ok (- (22 * Hour)).
Proof. apply (negative_duration_misread ascii_tables 1 2); lia. Defined.

(** The fuel of [Parse] is enough: each segment consumes at least one byte. *)
Lemma parseSegment_shorter T rest d r :
  parseSegment T rest = Ok (d, r) -> (String.length r < String.length rest)%nat.
Proof.
  unfold parseSegment. destruct (span _ rest) as [num r1] eqn:E1.
  pose proof (span_split (fun c => isDigit c || Ascii.eqb c "-" || Ascii.eqb c "+") rest) as H1.
  rewrite E1 in H1. cbn in H1.
  destruct (num =? "")%string eqn:En; [done|]. destruct (span isLetter r1) as [u r2] eqn:E2.
  pose proof (span_split isLetter r1) as H2. rewrite E2 in H2. cbn in H2.
  assert (String.length r2 < String.length rest)%nat.
  { rewrite <- H1, <- H2, !length_app_s. destruct num; [done|]. cbn. lia. }
  intros H3. repeat case_match; simplify_eq; done.
Qed.

Lemma parse_loop_fuel T f1 : forall rest f2 total,
  (String.length rest <= f1)%nat -> (String.length rest <= f2)%nat ->
  parse_loop T f1 total rest = parse_loop T f2 total rest.
Proof.
  induction f1 as [|f1 IH]; intros [|c r] [|f2] total H1 H2; cbn in H1, H2; try (done || lia).
  cbn [parse_loop]. destruct (parseSegment T (String c r)) as [[d r']|e] eqn:E; [|done].
  apply parseSegment_shorter in E. cbn in E. apply IH; lia.
Qed.

End Duration.
