(* ===== verification/Backoff.v ===== *)
(** * Retry schedules (internal/backoff/backoff.go)

    [Schedule] is the Go interface; [ScheduleLaws] states what [Retry] relies on: how many
    more delays a schedule has.  [Exponential] and [Constant] are its instances, and the
    theorem on [Retry] is proved against the laws only.  Products with the factor are IEEE
    doubles; what a conversion to int64 yields out of range is left open by the language
    and is the argument [ovf]. *)

From Stdlib Require Import ZArith Lia List Bool.
From Stdlib Require Import SpecFloat.
From stdpp Require Import base list strings.
From S2P Require Import Prelude GoStrings Durations.

Local Open Scope Z_scope.

Module Backoff.
Import GoTime.

Class Schedule (S : Type) := {
  Next : S -> (Z * bool) * S;
  Reset : S -> S;
}.

(** [remaining s] is the number of delays [s] still grants, [None] without a limit. *)
Class ScheduleLaws (S : Type) `{Schedule S} := {
  valid : S -> Prop;
  remaining : S -> option nat;
  limit : S -> option nat;
  valid_Reset s : valid s -> valid (Reset s);
  valid_Next s : valid s -> valid (Next s).2;
  remaining_Reset s : valid s -> remaining (Reset s) = limit s;
  Next_exhausted s : valid s -> remaining s = Some 0%nat -> (Next s).1.2 = false;
  Next_some s n : valid s -> remaining s = Some (Datatypes.S n) ->
    (Next s).1.2 = true /\ remaining (Next s).2 = Some n;
  Next_unlimited s : valid s -> remaining s = None ->
    (Next s).1.2 = true /\ remaining (Next s).2 = None;
}.

(** ** Exponential *)

Record Exponential := {
  Initial : Z;
  Factor : spec_float;
  Cap : Z;
  MaxRetries : Z;
  current : Z;
  count : Z;
}.

Definition two : spec_float := f64_of_Z 2.

Definition factor (e : Exponential) : spec_float :=
  if SFleb (Factor e) (S754_zero false) then two else Factor e.

(** [time.Duration(f)]. *)
Definition duration_of_f64 (ovf : Z) (f : spec_float) : Z :=
  match f64_trunc f with Some z => if in_int64 z then z else ovf | None => ovf end.

Definition with_state (e : Exponential) (cur cnt : Z) : Exponential :=
  {| Initial := Initial e; Factor := Factor e; Cap := Cap e; MaxRetries := MaxRetries e;
     current := cur; count := cnt |}.

Definition exp_Next (ovf : Z) (e : Exponential) : (Z * bool) * Exponential :=
  if (0 <? MaxRetries e) && (MaxRetries e <=? count e) then ((0, false), e)
  else
    let cur :=
      if current e =? 0 then (if Initial e =? 0 then Second else Initial e)
      else
        let next := duration_of_f64 ovf (f64_mul (f64_of_Z (current e)) (factor e)) in
        if (0 <? Cap e) && (Cap e <? next) then Cap e else next in
    ((cur, true), with_state e cur (int64 (count e + 1))).

Definition exp_Reset (e : Exponential) : Exponential := with_state e 0 0.

(** ** Constant *)

Record Constant := { Delay : Z; c_MaxRetries : Z; c_count : Z }.

Definition const_Next (c : Constant) : (Z * bool) * Constant :=
  if (0 <? c_MaxRetries c) && (c_MaxRetries c <=? c_count c) then ((0, false), c)
  else ((Delay c, true),
        {| Delay := Delay c; c_MaxRetries := c_MaxRetries c; c_count := int64 (c_count c + 1) |}).

Definition const_Reset (c : Constant) : Constant :=
  {| Delay := Delay c; c_MaxRetries := c_MaxRetries c; c_count := 0 |}.

#[export] Instance Exponential_Schedule (ovf : Z) : Schedule Exponential :=
  {| Next := exp_Next ovf; Reset := exp_Reset |}.

#[export] Instance Constant_Schedule : Schedule Constant :=
  {| Next := const_Next; Reset := const_Reset |}.

(** Delays left of a counter under a maximum. *)
Definition left_of (max cnt : Z) : option nat :=
  if 0 <? max then Some (Z.to_nat (max - cnt)) else None.

Lemma left_of_zero max cnt : left_of max cnt = Some 0%nat -> (0 <? max) && (max <=? cnt) = true.
Proof.
  unfold left_of. destruct (0 <? max); [|done]. intros [= H]. cbn. apply Z.leb_le. lia.
Qed.

Lemma left_of_succ max cnt n :
  in_int64 max = true -> 0 <= cnt -> left_of max cnt = Some (S n) ->
  (0 <? max) && (max <=? cnt) = false /\ left_of max (int64 (cnt + 1)) = Some n.
Proof.
  unfold in_int64, min_int64, max_int64, left_of. intros Hm Hc. breflect.
  destruct (Z.ltb_spec 0 max); [|done]. intros [= E]. cbn. split; [apply Z.leb_gt; lia|].
  rewrite int64_id by (unfold in_int64, min_int64, max_int64; lia). f_equal. lia.
Qed.

Lemma left_of_none max cnt : left_of max cnt = None -> (0 <? max) = false.
Proof. unfold left_of. by destruct (0 <? max). Qed.

Lemma left_of_unlimited max c1 c2 : left_of max c1 = None -> left_of max c2 = None.
Proof. unfold left_of. by destruct (0 <? max). Qed.

(** A count that matters, one below the maximum, is never negative. *)
Definition counter_ok (max cnt : Z) : Prop := in_int64 max = true /\ (0 < max -> 0 <= cnt).

Lemma counter_ok_succ max cnt :
  counter_ok max cnt -> (0 <? max) && (max <=? cnt) = false -> counter_ok max (int64 (cnt + 1)).
Proof.
  intros [Hm Hc] H. split; [done|]. intros Hp. specialize (Hc Hp).
  unfold in_int64, min_int64, max_int64 in Hm. breflect.
  rewrite (proj2 (Z.ltb_lt 0 max) Hp) in H. cbn in H. breflect.
  rewrite int64_id by (unfold in_int64, min_int64, max_int64; lia). lia.
Qed.

#[export] Instance Exponential_laws (ovf : Z) : @ScheduleLaws Exponential (Exponential_Schedule ovf).
Proof.
  refine {| valid e := counter_ok (MaxRetries e) (count e);
            remaining e := left_of (MaxRetries e) (count e);
            limit e := left_of (MaxRetries e) 0 |}; cbn; unfold exp_Next.
  - intros e [Hm _]. by split.
  - intros e Hv. destruct (_ && _) eqn:E; [done|]. by apply counter_ok_succ.
  - done.
  - intros e _ H. by rewrite (left_of_zero _ _ H).
  - intros e n [Hm Hc] H. destruct (left_of_succ (MaxRetries e) (count e) n) as [-> ?]; try done.
    apply Hc. unfold left_of in H. destruct (Z.ltb_spec 0 (MaxRetries e)); [lia|done].
  - intros e _ H. rewrite (left_of_none _ _ H). cbn. split; [done|]. by eapply left_of_unlimited.
Defined.

#[export] Instance Constant_laws : ScheduleLaws Constant.
Proof.
  refine {| valid c := counter_ok (c_MaxRetries c) (c_count c);
            remaining c := left_of (c_MaxRetries c) (c_count c);
            limit c := left_of (c_MaxRetries c) 0 |}; cbn; unfold const_Next.
  - intros c [Hm _]. by split.
  - intros c Hv. destruct (_ && _) eqn:E; [done|]. by apply counter_ok_succ.
  - done.
  - intros c _ H. by rewrite (left_of_zero _ _ H).
  - intros c n [Hm Hc] H. destruct (left_of_succ (c_MaxRetries c) (c_count c) n) as [-> ?]; try done.
    apply Hc. unfold left_of in H. destruct (Z.ltb_spec 0 (c_MaxRetries c)); [lia|done].
  - intros c _ H. rewrite (left_of_none _ _ H). cbn. split; [done|]. by eapply left_of_unlimited.
Defined.

Definition ErrAborted : error := ErrNew "backoff: aborted".

(** ** Retry *)

Section Retry.
Context {S W : Type} `{Schedule S}.
(** The operation and the sleep act on a world. *)
Variable op : W -> option error * W.
Variable sleep : Z -> W -> W.

(** The loop with one unit of fuel per attempt; [None] when the fuel is spent. *)
Fixpoint retry_loop (fuel : nat) (s : S) (w : W) : option (option error * W) :=
  match fuel with
  | O => None
  | Datatypes.S fuel' =>
      match op w with
      | (None, w1) => Some (None, w1)
      | (Some err, w1) =>
          match Next s with
          | ((d, true), s1) => retry_loop fuel' s1 (sleep d w1)
          | ((_, false), _) => Some (Some err, w1)
          end
      end
  end.

Definition Retry (fuel : nat) (s : option S) (w : W) : option (option error * W) :=
  match s with
  | None => Some (op w)
  | Some s => retry_loop fuel (Reset s) w
  end.

(** Reference: one attempt, then one more after each of the given delays until an
    attempt succeeds. *)
Fixpoint attempts (delays : list Z) (w : W) : option error * W :=
  match op w with
  | (None, w1) => (None, w1)
  | (Some err, w1) =>
      match delays with
      | [] => (Some err, w1)
      | d :: ds => attempts ds (sleep d w1)
      end
  end.

(** The next [n] delays of a schedule. *)
Fixpoint delays (n : nat) (s : S) : list Z :=
  match n with
  | O => []
  | Datatypes.S n' => let '((d, _), s1) := Next s in d :: delays n' s1
  end.

Context `{!ScheduleLaws S}.

Lemma retry_loop_attempts n : forall fuel s w,
  valid s -> remaining s = Some n -> (n < fuel)%nat ->
  retry_loop fuel s w = Some (attempts (delays n s) w).
Proof.
  induction n as [|n IH]; intros fuel s w Hv Hr Hf; (destruct fuel as [|fuel]; [lia|]); cbn [retry_loop delays].
  - cbn [attempts]. destruct (op w) as [[err|] w1]; [|done].
    pose proof (Next_exhausted s Hv Hr) as E. destruct (Next s) as [[d []] s1]; done.
  - destruct (Next_some s n Hv Hr) as [Ho Hn]. pose proof (valid_Next s Hv) as Hv1.
    destruct (Next s) as [[d ok] s1]. cbn in *. subst ok.
    destruct (op w) as [[err|] w1]; [|done]. apply IH; [done..|lia].
Qed.

Lemma retry_loop_unlimited fuel : forall s w,
  (forall v, exists e v', op v = (Some e, v')) -> valid s -> remaining s = None ->
  retry_loop fuel s w = None.
Proof.
  induction fuel as [|fuel IH]; intros s w Hop Hv Hr; [done|]. cbn [retry_loop].
  destruct (Hop w) as (e & w1 & ->). destruct (Next_unlimited s Hv Hr) as [Ho Hn].
  pose proof (valid_Next s Hv) as Hv1. destruct (Next s) as [[d ok] s1]. cbn in *. subst. by apply IH.
Qed.

(** C22: Retry with a schedule of n delays terminates and makes at most n + 1 attempts:
    it behaves as the reference that attempts, sleeps each delay in turn and stops at the
    first success, and it returns the last error otherwise.  With a schedule that has no
    limit it does not return as long as the operation fails. *)
Theorem Retry_terminates s w :
  valid s ->
  (forall n fuel, limit s = Some n -> (n < fuel)%nat ->
     Retry fuel (Some s) w = Some (attempts (delays n (Reset s)) w)) /\
  (limit s = None -> (forall v, exists e v', op v = (Some e, v')) ->
     forall fuel, Retry fuel (Some s) w = None).
Proof.
  intros Hv. pose proof (valid_Reset s Hv) as Hv'. pose proof (remaining_Reset s Hv) as Hr.
  split; cbn [Retry].
  - intros n fuel Hl Hf. apply retry_loop_attempts; [done|congruence|done].
  - intros Hl Hop fuel. apply retry_loop_unlimited; [done..|congruence].
Qed.

End Retry.

(** An operation that fails twice, in a world that counts attempts and records delays. *)
Definition op_sample (w : nat * list Z) : option error * (nat * list Z) :=
  (if (w.1 <? 2)%nat then Some (ErrNew "busy") else None, (S w.1, w.2)).
Definition sleep_sample (d : Z) (w : nat * list Z) : nat * list Z := (w.1, w.2 ++ [d]).
Definition exp_sample : Exponential :=
  {| Initial := 0; Factor := S754_zero false; Cap := 3 * Second; MaxRetries := 5; current := 7; count := 4 |}.

Lemma Retry_terminates_witness :
  let H := Exponential_Schedule 0 in
  Retry op_sample sleep_sample 6 (Some exp_sample) (0%nat, []) = Some (None, (3%nat, [Second; 2 * Second])).
Proof.
  cbv zeta.
  destruct (Retry_terminates (H := Exponential_Schedule 0) (ScheduleLaws0 := Exponential_laws 0)
    op_sample sleep_sample exp_sample (0%nat, [])) as [Hb _].
  { split; [vm_compute; reflexivity|cbn; lia]. }
  rewrite (Hb 5%nat 6%nat); [|vm_compute; reflexivity|lia]. vm_compute. reflexivity.
Defined.

(** ** Bounds of the exponential schedule *)

Definition first_delay (e : Exponential) : Z := if Initial e =? 0 then Second else Initial e.

Lemma exp_Next_capped ovf e d ok e' :
  0 < Cap e -> first_delay e <= Cap e -> exp_Next ovf e = ((d, ok), e') ->
  d <= Cap e /\ Cap e' = Cap e /\ first_delay e' = first_delay e.
Proof.
  unfold exp_Next, first_delay. intros Hc Hi. destruct (_ && (MaxRetries e <=? _)).
  { intros [= <- <- <-]. split; [lia|done]. }
  intros [= <- <- <-]. split; [|done].
  destruct (current e =? 0); [done|]. rewrite (proj2 (Z.ltb_lt 0 (Cap e)) Hc). cbn [andb].
  destruct (Z.ltb_spec (Cap e) (duration_of_f64 ovf (f64_mul (f64_of_Z (current e)) (factor e)))); lia.
Qed.

(** With a positive Cap that is not below the first delay, no delay of an exponential
    schedule exceeds the Cap, whatever the factor and whatever the float conversion
    yields out of range.  The first delay itself is not capped: it is Initial, or one
    second when Initial is zero, even above the Cap. *)
Theorem exponential_delays_capped ovf e n :
  0 < Cap e ->
  (first_delay e <= Cap e ->
     Forall (fun d => d <= Cap e) (delays (H := Exponential_Schedule ovf) n (exp_Reset e))) /\
  head (delays (H := Exponential_Schedule ovf) (S n) (exp_Reset e)) = Some (first_delay e).
Proof.
  intros Hc. split.
  - intros Hi. assert (Hg : forall m x, Cap x = Cap e -> first_delay x = first_delay e ->
      Forall (fun d => d <= Cap e) (delays (H := Exponential_Schedule ovf) m x)).
    { induction m as [|m IH]; intros x Hx Hf; cbn [delays]; [by constructor|]. cbn [Next Exponential_Schedule].
      destruct (exp_Next ovf x) as [[d ok] x'] eqn:E.
      destruct (exp_Next_capped ovf x d ok x') as (? & ? & ?); [lia|congruence|done|].
      constructor; [lia|]. apply IH; congruence. }
    by apply Hg.
  - cbn. unfold exp_Next, first_delay. cbn.
    destruct (0 <? MaxRetries e) eqn:E; [|done]. breflect. cbn.
    rewrite (proj2 (Z.leb_gt (MaxRetries e) 0)) by lia. done.
Qed.

Lemma exponential_delays_capped_witness :
  Forall (fun d => d <= Cap exp_sample)
    (delays (H := Exponential_Schedule 0) 5 (exp_Reset exp_sample)).
Proof. apply (exponential_delays_capped 0 exp_sample 5); [reflexivity|discriminate]. Defined.

End Backoff.
