(* ===== verification/TimeUtil.v ===== *)
(** * Time helpers (internal/timeutil/timeutil.go)

    Instants are nanoseconds since the epoch, [None] the zero time.  A location is a fixed
    offset from UTC; zones that change their offset are not modelled. *)

From Stdlib Require Import ZArith Lia List Bool Ascii.
From Stdlib Require Import SpecFloat.
From stdpp Require Import base list strings.
From S2P Require Import Prelude GoStrings Durations.

Local Open Scope Z_scope.

Module TimeUtil.
Import GoTime.

Definition Day : Z := 24 * Hour.
Definition Week : Z := 7 * Day.

Definition ErrEmptyDuration : error := ErrNew "timeutil: empty duration string".
Definition ErrInvalidDuration : error := ErrNew "timeutil: invalid duration".

(** ** strconv.ParseFloat on decimal digits with an optional period and minus sign *)

(** The double nearest to [m / 10^k]: the quotient is computed with enough bits and a
    sticky bit, then rounded once. *)
Definition f64_of_decimal (m : Z) (k : nat) : spec_float :=
  let p := 10 ^ Z.of_nat k in
  let s := 64 + 4 * Z.of_nat k in
  let q := (m * 2 ^ s) / p in
  let sticky := if (m * 2 ^ s) mod p =? 0 then 0 else 1 in
  binary_normalize 53 1024 (2 * q + sticky) (- (s + 1)) false.

(** [None] stands for the error, of syntax or of range. *)
Definition ParseFloat (s : string) : option spec_float :=
  let '(neg, s1) := split_sign s in
  let '(a, r) := span_digits s1 in
  let b := match r with
           | EmptyString => Some ""
           | String c r' => if Ascii.eqb c "." && sall is_digit r' then Some r' else None
           end in
  match b with
  | None => None
  | Some b =>
      if (a =? "")%string && (b =? "")%string then None else
      match parse_digits 0 (a +:+ b) with
      | None => None
      | Some m =>
          match f64_of_decimal m (String.length b) with
          | S754_infinity _ => None
          | f => Some (if neg then SFopp f else f)
          end
      end
  end.

(** [time.Duration(f)]; [ovf] is the result out of range. *)
Definition duration_of (ovf : Z) (f : spec_float) : Z :=
  match f64_trunc f with Some z => if in_int64 z then z else ovf | None => ovf end.

(** ** ParseDuration *)

Definition isNumberByte (c : ascii) (atStart : bool) : bool :=
  is_digit c || Ascii.eqb c "." || (Ascii.eqb c "-" && atStart).

(** The bytes the loop skips from the start of a number, and the rest. *)
Fixpoint scan_number (atStart : bool) (s : string) : string * string :=
  match s with
  | String c s' =>
      if isNumberByte c atStart then let '(a, b) := scan_number false s' in (String c a, b) else ("", s)
  | EmptyString => ("", "")
  end.

(** [scanUnitEnd]: the unit that starts here, and the rest. *)
Fixpoint scanUnitEnd (s : string) : string * string :=
  match s with
  | String c s' =>
      if is_digit c || Ascii.eqb c "." || Ascii.eqb c "-" then ("", s)
      else let '(a, b) := scanUnitEnd s' in (String c a, b)
  | EmptyString => ("", "")
  end.

Definition parseSegment (T : UnicodeTables) (ovf : Z) (num unit : string) : result Z :=
  let scaled (u : Z) :=
    match ParseFloat num with
    | None => Err (ErrWrap "" ErrInvalidDuration (": bad number " +:+ Quote T num))
    | Some v => Ok (duration_of ovf (f64_mul v (f64_of_Z u)))
    end in
  if (unit =? "d")%string then scaled Day
  else if (unit =? "w")%string then scaled Week
  else match ParseDuration (num +:+ unit) with
       | None => Err (ErrWrap "" ErrInvalidDuration (": " +:+ num +:+ unit +:+ ": time: invalid duration"))
       | Some d => Ok d
       end.

Definition decodeSegment (T : UnicodeTables) (ovf : Z) (num unit : string) : result Z :=
  if (num =? "")%string
  then Err (ErrWrap "" ErrInvalidDuration (": missing number before " +:+ Quote T unit))
  else parseSegment T ovf num unit.

(** The loop of [parseExtendedDuration] at the start of a segment; [sawAny] holds after
    the first segment.  Each segment consumes at least one byte of the fuel. *)
Fixpoint extended_loop (T : UnicodeTables) (ovf : Z) (orig : string) (fuel : nat)
    (total : Z) (sawAny : bool) (s : string) : result Z :=
  let invalid := Err (ErrWrap "" ErrInvalidDuration (": " +:+ Quote T orig)) in
  match s with
  | EmptyString => if sawAny then Ok total else invalid
  | String _ _ =>
      match fuel with
      | O => invalid
      | S fuel' =>
          match scan_number true s with
          | (_, EmptyString) => invalid
          | (num, r) =>
              let '(unit, rest) := scanUnitEnd r in
              match decodeSegment T ovf num unit with
              | Err e => Err e
              | Ok seg => extended_loop T ovf orig fuel' (int64 (total + seg)) true rest
              end
          end
      end
  end.

Definition parseExtendedDuration (T : UnicodeTables) (ovf : Z) (s : string) : result Z :=
  extended_loop T ovf s (String.length s) 0 false s.

Definition ParseDuration (T : UnicodeTables) (ovf : Z) (s : string) : result Z :=
  if (s =? "")%string then Err ErrEmptyDuration
  else match GoTime.ParseDuration s with
       | Some d => Ok d
       | None => parseExtendedDuration T ovf s
       end.

(** The fuel is enough: a segment without a number is an error, so each one that decodes
    consumes a byte. *)
Lemma scan_number_split b s : (scan_number b s).1 +:+ (scan_number b s).2 = s.
Proof.
  revert b. induction s as [|c s IH]; intros b; [done|]. cbn. destruct (isNumberByte c b); [|done].
  specialize (IH false). destruct (scan_number false s). cbn in *. by rewrite app_cons_l, IH.
Qed.

Lemma scanUnitEnd_split s : (scanUnitEnd s).1 +:+ (scanUnitEnd s).2 = s.
Proof.
  induction s as [|c s IH]; [done|]. cbn. destruct (_ || _ || _); [done|].
  destruct (scanUnitEnd s). cbn in *. by rewrite app_cons_l, IH.
Qed.

Lemma extended_loop_fuel T ovf orig f1 : forall f2 total saw s,
  (String.length s <= f1)%nat -> (String.length s <= f2)%nat ->
  extended_loop T ovf orig f1 total saw s = extended_loop T ovf orig f2 total saw s.
Proof.
  induction f1 as [|f1 IH]; intros [|f2] total saw [|c s] H1 H2; cbn in H1, H2; try (done || lia).
  cbn [extended_loop]. pose proof (scan_number_split true (String c s)) as Hs.
  destruct (scan_number true (String c s)) as [num r]. cbn in Hs. destruct r as [|x r]; [done|].
  pose proof (scanUnitEnd_split (String x r)) as Hu. destruct (scanUnitEnd (String x r)) as [u rest].
  cbn in Hu. unfold decodeSegment. destruct (String.eqb_spec num "") as [|Hne]; [done|].
  destruct (parseSegment T ovf num u); [|done].
  apply (f_equal String.length) in Hs, Hu. rewrite length_app_s in Hs, Hu. cbn in Hs, Hu.
  destruct num; [done|]. cbn in Hs. apply IH; lia.
Qed.

(** ** HumanizeDuration *)

Fixpoint trim_zeros (s : string) : string :=
  match s with
  | EmptyString => ""
  | String c s' =>
      match trim_zeros s' with
      | EmptyString => if Ascii.eqb c "0" then "" else str1 c
      | t => String c t
      end
  end.

(** [v / 10^prec] without trailing zeros. *)
Definition with_frac (v : Z) (prec : nat) : string :=
  let f := trim_zeros (padded prec v) in
  itoa (v / 10 ^ Z.of_nat prec) +:+ (if (f =? "")%string then "" else "." +:+ f).

(** [time.Duration.String]. *)
Definition duration_String (d : Z) : string :=
  let u := Z.abs d in
  let body :=
    if u =? 0 then "0s"
    else if u <? Microsecond then itoa u +:+ "ns"
    else if u <? Millisecond then with_frac u 3 +:+ micro_sign
    else if u <? Second then with_frac u 6 +:+ "ms"
    else
      let h := u / Hour in
      let m := (u / Minute) mod 60 in
      let s := with_frac (u mod Minute) 9 +:+ "s" in
      if u <? Minute then s
      else if u <? Hour then itoa m +:+ "m" +:+ s
      else itoa h +:+ "h" +:+ itoa m +:+ "m" +:+ s in
  if d <? 0 then "-" +:+ body else body.

(** One unit of the rendering: the parts so far and the rest of the duration. *)
Definition take_unit (size : Z) (name : string) (st : list string * Z) : list string * Z :=
  let '(parts, d) := st in
  if size <=? d then (parts ++ [itoa (d / size) +:+ name], d - d / size * size) else st.

Definition humanize_parts (d : Z) : list string :=
  (take_unit Second "s" (take_unit Minute "m" (take_unit Hour "h"
     (take_unit Day "d" (take_unit Week "w" ([], d)))))).1.

Definition HumanizeDuration (d0 : Z) : string :=
  if d0 =? 0 then "0s" else
  let negative := d0 <? 0 in
  let d := if negative then int64 (- d0) else d0 in
  let out := if d <? Second then duration_String d else strings_join " " (humanize_parts d) in
  if negative then "-" +:+ out else out.

(** ** Instants *)

Definition Time := option Z.

Fixpoint best_of (better : Z -> Z -> bool) (best : Time) (times : list Time) : Time :=
  match times with
  | [] => best
  | None :: ts => best_of better best ts
  | Some t :: ts =>
      match best with
      | None => best_of better (Some t) ts
      | Some b => best_of better (if better t b then Some t else Some b) ts
      end
  end.

Definition Earliest (times : list Time) : Time := best_of (fun t b => t <? b) None times.
Definition Latest (times : list Time) : Time := best_of (fun t b => b <? t) None times.

(** [time.Date] at the day of an instant in the zone with offset [off]. *)
Definition date_on (off t hour minute : Z) : Z :=
  (t + off) / Day * Day + hour * Hour + minute * Minute - off.

Definition NextOccurrence (off from hour minute : Z) : Z :=
  let candidate := date_on off from hour minute in
  if negb (from <? candidate) then candidate + Day else candidate.

Definition TruncateToDay (off t : Z) : Z := date_on off t 0 0.
Definition TruncateToHour (off t : Z) : Z := date_on off t (((t + off) mod Day) / Hour) 0.

(** The time of day an instant shows in the zone. *)
Definition wall_clock (off t : Z) : Z := (t + off) mod Day.

(** *** Properties *)

(** For an hour and minute in range, NextOccurrence is the first instant strictly
    after the given one at which the clock of the zone shows that hour and minute.  An
    instant that itself shows the requested time yields the next day. *)
Theorem NextOccurrence_least off from hour minute :
  0 <= hour < 24 -> 0 <= minute < 60 ->
  let r := NextOccurrence off from hour minute in
  from < r /\ wall_clock off r = hour * Hour + minute * Minute /\
  (forall t, from < t -> wall_clock off t = hour * Hour + minute * Minute -> r <= t) /\
  (wall_clock off from = hour * Hour + minute * Minute -> r = from + Day).
Proof.
  intros Hh Hm. cbv zeta. unfold NextOccurrence, date_on, wall_clock.
  set (q := (from + off) / Day). set (w := hour * Hour + minute * Minute).
  assert (Hw : 0 <= w < Day) by (unfold w, Day, Hour, Minute; lia).
  pose proof (Z.div_mod (from + off) Day ltac:(done)) as Hdm. fold q in Hdm.
  pose proof (Z.mod_pos_bound (from + off) Day ltac:(done)) as Hb.
  replace (q * Day + hour * Hour + minute * Minute - off) with (q * Day + w - off) by (unfold w; lia).
  assert (Hmod : forall k, (k * Day + w - off + off) mod Day = w).
  { intros k. replace (k * Day + w - off + off) with (w + k * Day) by lia.
    rewrite Z.mod_add by done. by apply Z.mod_small. }
  assert (Hleast : forall k t, (k - 1) * Day + w - off <= from -> from < t -> (t + off) mod Day = w -> k * Day + w - off <= t).
  { intros k t Hk Ht E. pose proof (Z.div_mod (t + off) Day ltac:(done)) as Ed. rewrite E in Ed.
    clear -Hk Ht Ed. unfold Day, Hour in *. lia. }
  assert (0 < Day) by done.
  destruct (Z.ltb_spec from (q * Day + w - off)) as [Hlt|Hge]; cbn [negb].
  - split; [lia|]. split; [apply Hmod|]. split; [intros; apply Hleast; [lia|done..]|].
    intros E. rewrite E in Hdm. lia.
  - replace (q * Day + w - off + Day) with ((q + 1) * Day + w - off) by lia.
    split; [lia|]. split; [apply Hmod|]. split; [intros; apply Hleast; [lia|done..]|].
    intros E. rewrite E in Hdm. lia.
Qed.

Lemma NextOccurrence_least_witness :
  let r := NextOccurrence (2 * Hour) (5 * Day + 7 * Hour) 9 0 in
  5 * Day + 7 * Hour < r /\ r = 6 * Day + 7 * Hour.
Proof.
  destruct (NextOccurrence_least (2 * Hour) (5 * Day + 7 * Hour) 9 0 ltac:(lia) ltac:(lia))
    as (H1 & _ & _ & H2).
  split; [exact H1|]. rewrite H2; vm_compute; reflexivity.
Defined.

Lemma best_of_spec (better : Z -> Z -> bool) times : forall best,
  match best_of better best times with
  | None => best = None /\ Forall (eq None) times
  | Some r => Some r = best \/ Some r ∈ times
  end.
Proof.
  induction times as [|[t|] ts IH]; intros best; cbn [best_of].
  - destruct best; [by left|]. split; [done|by constructor].
  - destruct best as [b|].
    + specialize (IH (if better t b then Some t else Some b)).
      destruct (best_of better _ ts); [|by destruct (better t b), IH].
      destruct IH as [->|H]; [|right; by right]. destruct (better t b); [right; by left|by left].
    + specialize (IH (Some t)). destruct (best_of better (Some t) ts); [|by destruct IH].
      destruct IH as [->|H]; right; [by left|by right].
  - specialize (IH best). destruct (best_of better best ts) as [r|].
    + destruct IH as [H|H]; [by left|right; by right].
    + destruct IH as [-> H]. split; [done|]. by constructor.
Qed.

Lemma best_of_bound (sgn : Z) (Hs : sgn = 1 \/ sgn = -1) times : forall best r,
  best_of (fun t b => sgn * t <? sgn * b) best times = Some r ->
  (forall t, Some t ∈ times -> sgn * r <= sgn * t) /\ (forall b, best = Some b -> sgn * r <= sgn * b).
Proof.
  induction times as [|[t|] ts IH]; intros best r; cbn [best_of].
  - intros ->. split; [intros t H; by apply not_elem_of_nil in H|]. intros b [= <-]. lia.
  - destruct best as [b|]; intros H; apply IH in H as [H1 H2].
    + destruct (Z.ltb_spec (sgn * t) (sgn * b)).
      * specialize (H2 t eq_refl). split; [|intros ? [= <-]; lia].
        intros x [[= ->]|Hx]%elem_of_cons; [lia|by apply H1].
      * specialize (H2 b eq_refl). split; [|intros ? [= <-]; lia].
        intros x [[= ->]|Hx]%elem_of_cons; [lia|by apply H1].
    + specialize (H2 t eq_refl). split; [|done].
      intros x [[= ->]|Hx]%elem_of_cons; [lia|by apply H1].
  - intros H. apply IH in H as [H1 H2]. split; [|done].
    intros x [H|Hx]%elem_of_cons; [done|by apply H1].
Qed.

Lemma best_of_ext (f g : Z -> Z -> bool) times : (forall a b, f a b = g a b) -> forall best,
  best_of f best times = best_of g best times.
Proof. intros H. induction times as [|[t|] ts IH]; intros best; cbn; [done| |done]. by destruct best; rewrite ?H, IH. Qed.

(** Earliest and Latest pick the extreme of the non-zero times, and the zero time exactly
    when there is none. *)
Lemma Earliest_spec times :
  match Earliest times with
  | None => Forall (eq None) times
  | Some r => Some r ∈ times /\ forall t, Some t ∈ times -> r <= t
  end.
Proof.
  pose proof (best_of_spec (fun t b => t <? b) times None) as H.
  pose proof (best_of_bound 1 ltac:(by left) times None) as Hb. unfold Earliest.
  rewrite (best_of_ext _ (fun t b => t <? b)) in Hb by (intros; f_equal; lia).
  destruct (best_of _ None times) as [r|]; [|tauto]. destruct H as [H|H]; [done|].
  split; [done|]. intros t Ht. pose proof (proj1 (Hb r eq_refl) t Ht). lia.
Qed.

Lemma Latest_spec times :
  match Latest times with
  | None => Forall (eq None) times
  | Some r => Some r ∈ times /\ forall t, Some t ∈ times -> t <= r
  end.
Proof.
  pose proof (best_of_spec (fun t b => b <? t) times None) as H.
  pose proof (best_of_bound (-1) ltac:(by right) times None) as Hb. unfold Latest.
  rewrite (best_of_ext _ (fun t b => b <? t)) in Hb.
  2: { intros a b. destruct (Z.ltb_spec (-1 * a) (-1 * b)), (Z.ltb_spec b a); lia. }
  destruct (best_of _ None times) as [r|]; [|tauto]. destruct H as [H|H]; [done|].
  split; [done|]. intros t Ht. pose proof (proj1 (Hb r eq_refl) t Ht). lia.
Qed.

Example ParseDuration_examples :
  ParseDuration ascii_tables 0 "1w2d" = Ok (Week + 2 * Day) /\
  ParseDuration ascii_tables 0 "1.5d" = Ok (36 * Hour) /\
  ParseDuration ascii_tables 0 "1d12h" = Ok (36 * Hour) /\
  is_ok (ParseDuration ascii_tables 0 "1d2") = false /\
  HumanizeDuration (Week + Day + 500) = "1w 1d" /\
  HumanizeDuration (- (Hour + 30 * Minute)) = "-1h 30m" /\
  HumanizeDuration (500 * Millisecond) = "500ms".
Proof. repeat split; vm_compute; reflexivity. Qed.

End TimeUtil.
