(* ===== verification/ConfFile.v ===== *)
(** * Configuration file builders (internal/configfile/postgresql.go)

    [PostgreSQLConf] and [PgHBAConf] with their helpers, and readers to compare them with:
    [read_line] and [read_value] follow PostgreSQL's configuration lexer (guc-file.l) for a
    parameter name and its value (numbers with a unit, bare words, and quoted strings with
    doubled quotes and backslash escapes). *)

From Stdlib Require Import ZArith Lia List Bool Ascii.
From stdpp Require Import base list strings gmap.
From S2P Require Import Prelude GoStrings PgConfig.

Local Open Scope Z_scope.

Module ConfFile.
Import Config HBA.

(** ** postgresql.conf *)

Definition isDigitOrUnit (c : ascii) : bool :=
  is_digit c || existsb (Ascii.eqb c) [".";"-";"k";"K";"M";"G";"B";"s";"m";"h";"d"]%char.

Definition special (c : ascii) : bool :=
  existsb (Ascii.eqb c) [" "; "009"; squote; dquote; "#"; bslash]%char.

(** Bytes stand for runes here: the tests single out ASCII characters, and the lower case
    of a word is one of the listed ones only when the word is ASCII. *)
Definition needsQuote (v : string) : bool :=
  if (v =? "")%string then true
  else if existsb (String.eqb (smap lower_byte v)) ["on"; "off"; "true"; "false"; "yes"; "no"] then false
  else if negb (sall (fun c => negb (special c)) v) then true
  else negb (sall isDigitOrUnit v).

Definition escapeValue (v : string) : string := replace_byte squote (str1 squote +:+ str1 squote) v.

Definition render_value (v : string) : string :=
  if needsQuote v then str1 squote +:+ escapeValue v +:+ str1 squote else v.

Definition em_dash : string := String "226" (String "128" (String "148" "")).
Definition generated_header : string :=
  "# Generated by Athos Kubernetes operator " +:+ em_dash +:+ " do not edit manually.".

Definition param_line (params : gmap string string) (k : string) : string :=
  k +:+ " = " +:+ render_value (default "" (params !! k)).

Definition PostgreSQLConf (params : gmap string string) : string :=
  write_lines ([generated_header; ""] ++ map (param_line params) (sort_strings (map_to_list params).*1)).

Definition MergeParams (sources : list (gmap string string)) : gmap string string :=
  foldl (fun result src => src ∪ result) ∅ sources.

Definition RequiredParams (port maxConn : Z) : gmap string string :=
  list_to_map [("listen_addresses", "*"); ("port", itoa port); ("max_connections", itoa maxConn);
               ("superuser_reserved_connections", "3"); ("logging_collector", "off");
               ("log_destination", "stderr")].

Definition WALStreamingParams (maxWALSenders maxSlots : Z) : gmap string string :=
  list_to_map [("wal_level", "replica"); ("max_wal_senders", itoa maxWALSenders);
               ("max_replication_slots", itoa maxSlots); ("hot_standby", "on");
               ("hot_standby_feedback", "on")].

Definition ArchiveParams (archiveCmd : string) : gmap string string :=
  list_to_map [("archive_mode", "on"); ("archive_command", archiveCmd); ("archive_timeout", "300")].

Definition TLSParams (certDir : string) : gmap string string :=
  list_to_map [("ssl", "on"); ("ssl_cert_file", certDir +:+ "/server.crt");
               ("ssl_key_file", certDir +:+ "/server.key")].

(** ** pg_hba.conf *)

Record HBARule := {
  r_Type : string; r_Database : string; r_User : string;
  r_Address : string; r_Method : string; r_Options : string;
}.

Definition rule_parts (r : HBARule) : list string :=
  [r_Type r; r_Database r; r_User r]
  ++ (if negb (r_Type r =? "local")%string
      then [if (r_Address r =? "")%string then "0.0.0.0/0" else r_Address r] else [])
  ++ [r_Method r]
  ++ (if negb (r_Options r =? "")%string then [r_Options r] else []).

Definition tab : string := str1 "009".
Definition rule_String (r : HBARule) : string := strings_join tab (rule_parts r).

Definition hba_comments : list string :=
  [generated_header; "#"; "# TYPE  DATABASE        USER            ADDRESS                 METHOD"; ""].
Definition deny_all : string := "host    all             all             0.0.0.0/0               reject".

Definition PgHBAConf (rules : list HBARule) : string :=
  write_lines hba_comments +:+ write_lines (map rule_String rules)
  +:+ write_lines ["# Deny all other connections."; deny_all].

Definition DefaultRules (clusterCIDR : string) : list HBARule :=
  [ {| r_Type := "local"; r_Database := "all"; r_User := "postgres"; r_Address := ""; r_Method := "peer"; r_Options := "" |};
    {| r_Type := "local"; r_Database := "replication"; r_User := "postgres"; r_Address := ""; r_Method := "peer"; r_Options := "" |};
    {| r_Type := "local"; r_Database := "all"; r_User := "all"; r_Address := ""; r_Method := "scram-sha-256"; r_Options := "" |};
    {| r_Type := "host"; r_Database := "all"; r_User := "all"; r_Address := "127.0.0.1/32"; r_Method := "scram-sha-256"; r_Options := "" |};
    {| r_Type := "host"; r_Database := "all"; r_User := "all"; r_Address := "::1/128"; r_Method := "scram-sha-256"; r_Options := "" |};
    {| r_Type := "host"; r_Database := "replication"; r_User := "postgres"; r_Address := clusterCIDR; r_Method := "scram-sha-256"; r_Options := "" |};
    {| r_Type := "host"; r_Database := "all"; r_User := "all"; r_Address := clusterCIDR; r_Method := "scram-sha-256"; r_Options := "" |} ].

(** ** Reading the files *)

(** PostgreSQL's unescaping of a quoted configuration value, after the opening quote. *)
Definition octal (c : ascii) : option Z := if in_range 48 55 (byte c) then Some (byte c - 48) else None.

Definition simple_escape (c : ascii) : ascii :=
  match c with
  | "b"%char => "008" | "f"%char => "012" | "n"%char => "010" | "r"%char => "013" | "t"%char => "009"
  | _ => c
  end%char.

Fixpoint unquote (s : string) : option string :=
  match s with
  | EmptyString => None
  | String c r =>
      if Ascii.eqb c squote then
        match r with
        | EmptyString => Some ""
        | String d r' => if Ascii.eqb d squote then String squote <$> unquote r' else None
        end
      else if Ascii.eqb c bslash then
        match r with
        | EmptyString => None
        | String d1 r1 =>
            match octal d1, r1 with
            | Some o1, String d2 r2 =>
                match octal d2, r2 with
                | Some o2, String d3 r3 =>
                    match octal d3 with
                    | Some o3 => String (chr (o1 * 64 + o2 * 8 + o3)) <$> unquote r3
                    | None => String (chr (o1 * 8 + o2)) <$> unquote r2
                    end
                | Some o2, EmptyString => None
                | None, _ => String (chr o1) <$> unquote r1
                end
            | Some _, EmptyString => None
            | None, _ => String (simple_escape d1) <$> unquote r1
            end
        end
      else String c <$> unquote r
  end.

(** Unquoted values: a number with unit letters, a decimal fraction, or a bare word. *)
Definition letter (c : ascii) : bool := is_lower c || is_upper c || Ascii.eqb c "_" || (0x80 <=? byte c).
Definition strip_sign (s : string) : string :=
  match s with String c s' => if Ascii.eqb c "-" || Ascii.eqb c "+" then s' else s | _ => s end.

Definition integer_token (s : string) : bool :=
  let '(ds, u) := span is_digit (strip_sign s) in
  negb (ds =? "")%string && sall (fun c => is_lower c || is_upper c) u.
Definition real_token (s : string) : bool :=
  let '(a, r) := span is_digit (strip_sign s) in
  match r with String c b => Ascii.eqb c "." && sall is_digit b | EmptyString => false end.
Definition word_token (s : string) : bool :=
  match s with
  | String c s' => letter c && sall (fun d => letter d || is_digit d || existsb (Ascii.eqb d) ["-"; "."; ":"; "/"]%char) s'
  | EmptyString => false
  end.

(** Parameter names: an identifier, or two joined by a dot.  A value that has the form of
    such a pair is refused. *)
Definition id_token (s : string) : bool :=
  match s with String c s' => letter c && sall (fun d => letter d || is_digit d) s' | EmptyString => false end.
Definition qualified_token (s : string) : bool :=
  match split_byte "." s with [a; b] => id_token a && id_token b | _ => false end.
Definition name_token (s : string) : bool := id_token s || qualified_token s.

Definition bare_token (s : string) : bool :=
  (integer_token s || real_token s || word_token s) && negb (qualified_token s).

(** Names that are directives of the file and not parameters. *)
Definition directive (s : string) : bool :=
  existsb (String.eqb (smap lower_byte s)) ["include"; "include_if_exists"; "include_dir"].

Definition read_value (s : string) : option string :=
  match s with
  | String c r => if Ascii.eqb c squote then unquote r else if bare_token s then Some s else None
  | EmptyString => None
  end.

(** One line of the file: a comment or blank line holds no setting; directives are not
    followed. *)
Inductive ConfLine := Skip | Setting (key value : string) | Malformed.

Definition read_line (l : string) : ConfLine :=
  match l with
  | EmptyString => Skip
  | String c _ =>
      if Ascii.eqb c "#" then Skip else
      let '(k, r) := span (neqc " ") l in
      if has_prefix " = " r && name_token k && negb (directive k) then
        match read_value (sdrop 3 r) with Some v => Setting k v | None => Malformed end
      else Malformed
  end.

Fixpoint read_lines (ls : list string) : option (list (string * string)) :=
  match ls with
  | [] => Some []
  | l :: ls' =>
      match read_line l with
      | Skip => read_lines ls'
      | Setting k v => (fun rest => (k, v) :: rest) <$> read_lines ls'
      | Malformed => None
      end
  end.

Definition read_conf (text : string) : option (list (string * string)) :=
  read_lines (split_byte "010" text).

(** The records of pg_hba.conf: the fields of every line that is neither blank nor a
    comment. *)
Definition hba_record (l : string) : option (list string) :=
  match l with
  | EmptyString => None
  | String c _ => if Ascii.eqb c "#" then None else Some (Fields l)
  end.
Definition read_hba (text : string) : list (list string) :=
  omap hba_record (split_byte "010" text).

(** ** The settings read back *)

Lemma unquote_escape v :
  sall (neqc bslash) v = true -> unquote (escapeValue v +:+ str1 squote) = Some v.
Proof.
  unfold escapeValue. induction v as [|c v IH]; [done|]. cbn [sall replace_byte]. intros H. breflect.
  destruct (Ascii.eqb_spec squote c) as [<-|Hq].
  - specialize (IH H0).
    change (unquote (String squote (String squote
      (replace_byte squote (str1 squote +:+ str1 squote) v +:+ str1 squote))) = Some (String squote v)).
    cbn [unquote]. by rewrite Ascii.eqb_refl, IH.
  - rewrite app_cons_l. cbn [unquote].
    destruct (Ascii.eqb_spec c squote); [congruence|]. unfold neqc in H. breflect.
    rewrite Ascii.eqb_sym, H, IH by done. done.
Qed.

(** Values the format carries: no backslash, line break or NUL, and unquoted only where the
    lexer takes the value as one token. *)
Definition conf_value_ok (v : string) : bool :=
  sall (neqc bslash) v && sall (neqc "010") v && sall (neqc "000") v && (needsQuote v || bare_token v).
Definition conf_key_ok (k : string) : bool := name_token k && negb (directive k).

Lemma read_render v : conf_value_ok v = true -> read_value (render_value v) = Some v.
Proof.
  unfold conf_value_ok, render_value. intros H. breflect. destruct (needsQuote v) eqn:En.
  - rewrite str1_app. cbn [read_value]. rewrite Ascii.eqb_refl. by apply unquote_escape.
  - cbn in H0. destruct v as [|c v]; [done|]. cbn [read_value]. rewrite H0.
    destruct (Ascii.eqb_spec c squote) as [->|]; [|done]. done.
Qed.

Lemma render_one_line v : sall (neqc "010") v = true -> sall (neqc "010") (render_value v) = true.
Proof.
  intros H. unfold render_value. destruct (needsQuote v); [|done].
  rewrite !sall_app. cbn. rewrite andb_true_r. unfold escapeValue.
  induction v as [|c v IH]; [done|]. cbn [sall replace_byte] in *. breflect.
  destruct (Ascii.eqb squote c); [rewrite sall_app; cbn; by apply IH|]. cbn. by rewrite H, IH.
Qed.

Definition name_byte (c : ascii) : bool := letter c || is_digit c || Ascii.eqb c ".".

Lemma id_token_bytes s : id_token s = true -> sall name_byte s = true /\ exists c r, s = String c r /\ letter c = true.
Proof.
  destruct s as [|c s]; [done|]. cbn [id_token sall]. intros H. breflect. split; [|by exists c, s].
  unfold name_byte at 1. rewrite H. eapply sall_impl; [|exact H0]. intros d Hd. unfold name_byte. by rewrite Hd.
Qed.

Lemma name_token_bytes s : name_token s = true -> sall name_byte s = true /\ exists c r, s = String c r /\ letter c = true.
Proof.
  unfold name_token, qualified_token. intros H. apply orb_true_iff in H as [H|H]; [by apply id_token_bytes|].
  pose proof (join_split_byte "." s) as E. destruct (split_byte "." s) as [|a [|b [|]]]; try done. cbn [strings_join] in E.
  apply andb_true_iff in H as [Ha Hb]. destruct (id_token_bytes a Ha) as (Ha' & c & r & -> & Hc).
  destruct (id_token_bytes b Hb) as (Hb' & _). rewrite <- E. split.
  - by rewrite !sall_app, Ha', Hb'.
  - rewrite app_cons_l. by eexists _, _.
Qed.

(** The bytes of a key: none is a space or a line break, the first is no comment sign. *)
Lemma key_bytes k :
  conf_key_ok k = true -> sall (neqc " ") k = true /\ sall (neqc "010") k = true /\
    exists c r, k = String c r /\ Ascii.eqb c "#" = false.
Proof.
  unfold conf_key_ok. intros [Hk _]%andb_true_iff. destruct (name_token_bytes k Hk) as (Hb & c & r & -> & Hc).
  assert (Hall : forall x, name_byte x = false -> sall (neqc x) (String c r) = true).
  { intros x Hx. eapply sall_impl; [|exact Hb]. intros d Hd. unfold neqc.
    destruct (Ascii.eqb_spec x d) as [->|]; [congruence|done]. }
  split_and!; [by apply Hall..|]. exists c, r. split; [done|].
  destruct (Ascii.eqb_spec c "#") as [->|]; done.
Qed.

Lemma read_param_line params k v :
  params !! k = Some v -> conf_key_ok k = true -> conf_value_ok v = true ->
  read_line (param_line params k) = Setting k v.
Proof.
  intros Hv Hk Hok. destruct (key_bytes k Hk) as (Hsp & _ & c & r & -> & Hc).
  unfold param_line. rewrite Hv. cbn [from_option id]. unfold read_line. rewrite app_cons_l, Hc, <- app_cons_l.
  rewrite span_app; [|done|by intros x y [= <- <-]].
  change (has_prefix " = " (" = " +:+ render_value v)) with (has_prefix "" (render_value v)).
  replace (has_prefix "" (render_value v)) with true by (by destruct (render_value v)).
  unfold conf_key_ok in Hk. apply andb_true_iff in Hk as [-> ->]. cbn [andb].
  change (sdrop 3 (" = " +:+ render_value v)) with (sdrop 0 (render_value v)). cbn [sdrop].
  by rewrite read_render.
Qed.

Lemma param_line_one_line params k v :
  params !! k = Some v -> conf_key_ok k = true -> conf_value_ok v = true ->
  sall (neqc "010") (param_line params k) = true.
Proof.
  intros Hv Hk Hok. destruct (key_bytes k Hk) as (_ & Hn & _).
  unfold param_line. rewrite Hv, !sall_app, Hn. cbn [from_option id andb].
  unfold conf_value_ok in Hok. breflect. by rewrite render_one_line.
Qed.

Lemma read_lines_app_skip ls rest : Forall (fun l => read_line l = Skip) ls ->
  read_lines (ls ++ rest) = read_lines rest.
Proof. induction 1 as [|l ls Hl _ IH]; [done|]. cbn. by rewrite Hl, IH. Qed.

(** The parameters in the order they are rendered. *)
Definition conf_pairs (params : gmap string string) : list (string * string) :=
  map (fun k => (k, default "" (params !! k))) (sort_strings (map_to_list params).*1).

Lemma conf_pairs_keys params : (conf_pairs params).*1 = sort_strings (map_to_list params).*1.
Proof. unfold conf_pairs. rewrite <- list_fmap_compose. apply list_fmap_id. Qed.

Lemma conf_pairs_nodup params : NoDup (conf_pairs params).*1.
Proof. rewrite conf_pairs_keys, sort_strings_permutation. apply NoDup_fst_map_to_list. Qed.

Lemma conf_keys_present (params : gmap string string) :
  Forall (fun k => exists v, params !! k = Some v) (sort_strings (map_to_list params).*1).
Proof.
  apply Forall_forall. intros k Hk. rewrite sort_strings_permutation in Hk.
  apply list_elem_of_fmap in Hk as ([k' v] & -> & Hkv). apply elem_of_map_to_list in Hkv. eauto.
Qed.

Lemma conf_pairs_map params : list_to_map (conf_pairs params) = params.
Proof.
  apply map_eq. intros k. apply option_eq. intros v.
  rewrite <- elem_of_list_to_map by apply conf_pairs_nodup. unfold conf_pairs.
  rewrite list_elem_of_fmap. pose proof (conf_keys_present params) as Hks. split.
  - intros (k' & [= -> ->] & Hk'). rewrite Forall_forall in Hks. destruct (Hks k' Hk') as [v Hv]. by rewrite Hv.
  - intros Hv. exists k. rewrite Hv. split; [done|]. rewrite sort_strings_permutation.
    apply list_elem_of_fmap. exists (k, v). split; [done|]. by apply elem_of_map_to_list.
Qed.

Definition conf_params_ok (params : gmap string string) : Prop :=
  map_Forall (fun k v => conf_key_ok k = true /\ conf_value_ok v = true) params.

Lemma read_conf_rendered params :
  conf_params_ok params -> read_conf (PostgreSQLConf params) = Some (conf_pairs params).
Proof.
  intros Hp. pose proof (conf_keys_present params) as Hks.
  unfold read_conf, PostgreSQLConf, conf_pairs, write_lines. rewrite split_newline_lines.
  - rewrite <- app_assoc, read_lines_app_skip by by repeat constructor.
    induction Hks as [|k ks' [v Hv] Hks IH]; [done|].
    cbn [map app read_lines]. destruct (Hp k v Hv) as [Hk Hok].
    rewrite (read_param_line params k v) by done. by rewrite IH, Hv.
  - apply Forall_app. split; [by repeat constructor|]. apply Forall_fmap, Forall_forall.
    intros k Hk. rewrite Forall_forall in Hks. destruct (Hks k Hk) as [v Hv].
    destruct (Hp k v Hv). by apply (param_line_one_line params k v).
Qed.

(** C34: postgresql.conf reads back: for parameters whose names are identifiers, or two
    joined by a dot, and no include directive, and whose values have no backslash, line
    break or NUL and are left unquoted only as one value token, PostgreSQL's configuration
    parser recovers from the rendered file exactly the parameters, in sorted order of their
    names, quotes and spaces in values included. *)
Theorem PostgreSQLConf_reads_back params :
  conf_params_ok params ->
  exists l, read_conf (PostgreSQLConf params) = Some l /\ list_to_map l = params /\
    l.*1 = sort_strings (map_to_list params).*1 /\ NoDup l.*1.
Proof.
  intros Hp. exists (conf_pairs params).
  split_and!; [by apply read_conf_rendered|apply conf_pairs_map|apply conf_pairs_keys|apply conf_pairs_nodup].
Qed.

Definition params_sample : gmap string string :=
  MergeParams [RequiredParams 5432 200; WALStreamingParams 10 10;
               ArchiveParams "cp %p '/archive dir/%f' # keep"; TLSParams "/etc/tls"].

Lemma PostgreSQLConf_reads_back_witness :
  exists l, read_conf (PostgreSQLConf params_sample) = Some l /\ list_to_map l = params_sample /\
    l.*1 = sort_strings (map_to_list params_sample).*1 /\ NoDup l.*1.
Proof.
  apply (PostgreSQLConf_reads_back params_sample).
  apply (bool_decide_unpack _). vm_compute. exact I.
Defined.

(** Two kinds of values do not survive.  A backslash is not escaped although it
    forces quoting, so PostgreSQL drops it or reads an escape sequence; and a value made
    of digits and dashes, such as a date, is written without quotes although it is not
    one token of the lexer, so the file is rejected. *)
Theorem conf_value_misread p q :
  sall (neqc bslash) p = true -> sall (neqc bslash) q = true ->
  read_value (render_value (p +:+ str1 bslash +:+ "t" +:+ q)) = Some (p +:+ str1 "009" +:+ q) /\
  needsQuote "2024-01-31" = false /\
  read_conf (PostgreSQLConf {[ "recovery_target_time" := "2024-01-31" ]}) = None.
Proof.
  intros Hp Hq. split; [|split; vm_compute; reflexivity].
  assert (Hn : needsQuote (p +:+ str1 bslash +:+ "t" +:+ q) = true).
  { unfold needsQuote. destruct (_ =? "")%string; [done|].
    replace (existsb _ _) with false.
    - rewrite !sall_app. cbn [sall str1]. by rewrite andb_false_r.
    - symmetry. assert (Hlow : forall w, sall (neqc bslash) w = true ->
        (smap lower_byte (p +:+ str1 bslash +:+ "t" +:+ q) =? w)%string = false).
      { intros w Hw. apply String.eqb_neq. intros E. rewrite <- E in Hw. clear -Hw.
        induction p as [|c p IH]; [done|]. rewrite app_cons_l in Hw. cbn [smap sall] in Hw.
        breflect. by apply IH. }
      cbn [existsb]. by rewrite !Hlow. }
  unfold render_value. rewrite Hn, str1_app. cbn [read_value]. rewrite Ascii.eqb_refl.
  unfold escapeValue. rewrite !replace_byte_app.
  assert (Hu : forall a t, sall (neqc bslash) a = true ->
    unquote (replace_byte squote (str1 squote +:+ str1 squote) a +:+ t) = String.append a <$> unquote t).
  { clear. intros a t Ha. induction a as [|c a IH]; cbn [sall] in Ha.
    - cbn [replace_byte]. rewrite app_nil_l_s. by destruct (unquote t).
    - breflect. specialize (IH H0). cbn [replace_byte].
      destruct (Ascii.eqb_spec squote c) as [<-|Hq].
      + change (unquote (String squote (String squote
          (replace_byte squote (str1 squote +:+ str1 squote) a +:+ t))) = String.append (String squote a) <$> unquote t).
        cbn [unquote]. rewrite Ascii.eqb_refl, IH. by destruct (unquote t).
      + rewrite app_cons_l. cbn [unquote]. destruct (Ascii.eqb_spec c squote); [congruence|].
        unfold neqc in H. breflect. rewrite Ascii.eqb_sym, H, IH. by destruct (unquote t). }
  rewrite !app_assoc_s, Hu by done.
  change (replace_byte squote (str1 squote +:+ str1 squote) (str1 bslash)) with (str1 bslash).
  change (replace_byte squote (str1 squote +:+ str1 squote) "t") with "t".
  rewrite str1_app. change ("t" +:+ ?x) with (String "t" x).
  change (unquote (String bslash (String "t" ?x))) with (String "009" <$> unquote x).
  fold (escapeValue q). by rewrite unquote_escape.
Qed.

Lemma conf_value_misread_witness :
  read_value (render_value ("sed s/" +:+ str1 bslash +:+ "t" +:+ "/x/"))
    = Some ("sed s/" +:+ str1 "009" +:+ "/x/").
Proof. apply (conf_value_misread "sed s/" "/x/"); reflexivity. Defined.

(** ** The host-based authentication records read back *)

Definition rule_ok (r : HBARule) : Prop :=
  Forall word (rule_parts r) /\ has_prefix "#" (r_Type r) = false.

Lemma word_no_newline w : word w -> sall (neqc "010") w = true.
Proof.
  intros [_ H]. eapply sall_impl; [|exact H]. intros c Hc. unfold neqc.
  destruct (Ascii.eqb_spec "010" c) as [<-|]; done.
Qed.

Lemma join_no_newline ws : Forall word ws -> sall (neqc "010") (strings_join tab ws) = true.
Proof.
  induction 1 as [|w ws Hw Hws IH]; [done|]. cbn [strings_join]. apply word_no_newline in Hw.
  destruct ws; [done|]. rewrite !sall_app, Hw. by rewrite IH.
Qed.

Lemma hba_record_rule r : rule_ok r -> hba_record (rule_String r) = Some (rule_parts r).
Proof.
  intros [Hw Hc]. unfold hba_record. pose proof (Fields_join "009" (rule_parts r) eq_refl eq_refl Hw) as E.
  unfold rule_String, tab. destruct (r_Type r) as [|c t] eqn:Et.
  { exfalso. inversion Hw as [|? ? [H _]]; subst. by rewrite Et in H. }
  remember (strings_join (str1 "009") (rule_parts r)) as s eqn:Es.
  assert (exists s', s = String c s') as [s' ->].
  { rewrite Es. unfold rule_parts. rewrite Et. cbn [app strings_join]. rewrite app_cons_l. by eexists. }
  destruct (Ascii.eqb_spec c "#") as [->|]; [by destruct t|]. by rewrite E.
Qed.

(** Pg_hba.conf reads back: for rules whose fields are words and whose type is no
    comment, the records of the file are the rules in their order, an empty address of a
    host rule read as 0.0.0.0/0, and one final record that rejects IPv4. *)
Theorem PgHBAConf_reads_back rules :
  Forall rule_ok rules ->
  read_hba (PgHBAConf rules) =
    map rule_parts rules ++ [["host"; "all"; "all"; "0.0.0.0/0"; "reject"]].
Proof.
  intros Hr. unfold read_hba, PgHBAConf. rewrite <- !write_lines_app. unfold write_lines.
  rewrite split_newline_lines.
  - rewrite !omap_app. rewrite <- !app_assoc.
    replace (omap hba_record hba_comments) with (@nil (list string)) by done.
    replace (omap hba_record ["# Deny all other connections."; deny_all])
      with [["host"; "all"; "all"; "0.0.0.0/0"; "reject"]] by (vm_compute; reflexivity).
    cbn [app]. f_equal. induction Hr as [|r rules Hrule _ IH]; [done|].
    cbn [map omap list_omap]. by rewrite hba_record_rule, IH.
  - apply Forall_app. split; [by repeat constructor|]. apply Forall_app. split; [|by repeat constructor].
    apply Forall_fmap. eapply Forall_impl; [exact Hr|]. intros r [Hw _]. by apply join_no_newline.
Qed.

Lemma PgHBAConf_reads_back_witness :
  read_hba (PgHBAConf (DefaultRules "10.0.0.0/8")) =
    map rule_parts (DefaultRules "10.0.0.0/8") ++ [["host"; "all"; "all"; "0.0.0.0/0"; "reject"]].
Proof.
  apply (PgHBAConf_reads_back (DefaultRules "10.0.0.0/8")).
  repeat constructor; try reflexivity; discriminate.
Defined.

End ConfFile.
