(* ===== verification/Snapshot.v ===== *)
(** * Volume snapshots (internal/snapshot/snapshot.go)

    Module [Calendar] is the part of package time the package uses: the civil date of an
    instant in UTC and the layout 20060102t150405.  Instants are nanoseconds since the
    epoch. *)

From Stdlib Require Import ZArith Lia List Bool Ascii.
From stdpp Require Import base list strings gmap sorting.
From S2P Require Import Prelude GoStrings Durations.

Local Open Scope Z_scope.

Module Calendar.
Import GoTime.

(** Days from the first of January of year 0 to that of year [y]. *)
Definition days_before (y : Z) : Z := 365 * y + (y + 3) / 4 - (y + 99) / 100 + (y + 399) / 400.
Definition epoch_day : Z := 719528.
Definition leap (y : Z) : bool := (y mod 4 =? 0) && (negb (y mod 100 =? 0) || (y mod 400 =? 0)).

(** The year that contains a day: an estimate that is off by at most one. *)
Definition year_of (d : Z) : Z :=
  let y := d * 400 / 146097 in
  if d <? days_before y then y - 1 else if days_before (y + 1) <=? d then y + 1 else y.

(** Days of a year before each month. *)
Definition month_starts (l : bool) : list Z :=
  if l then [0; 31; 60; 91; 121; 152; 182; 213; 244; 274; 305; 335]
  else [0; 31; 59; 90; 120; 151; 181; 212; 243; 273; 304; 334].

(** The month (from one) and day of month of a day of the year. *)
Fixpoint month_day (m : Z) (starts : list Z) (yd : Z) : Z * Z :=
  match starts with
  | [] => (m, yd)
  | s :: rest =>
      match rest with
      | [] => (m, yd - s + 1)
      | s' :: _ => if yd <? s' then (m, yd - s + 1) else month_day (m + 1) rest yd
      end
  end.

Record Civil := { c_year : Z; c_month : Z; c_day : Z; c_hour : Z; c_min : Z; c_sec : Z }.

Definition civil (t : Z) : Civil :=
  let sec := t / Second in
  let d := sec / 86400 + epoch_day in
  let s := sec mod 86400 in
  let y := year_of d in
  let '(m, dd) := month_day 1 (month_starts (leap y)) (d - days_before y) in
  {| c_year := y; c_month := m; c_day := dd; c_hour := s / 3600; c_min := (s / 60) mod 60; c_sec := s mod 60 |}.

(** Four digits at least, zero-padded. *)
Definition year_text (y : Z) : string :=
  if in_range 0 9999 y then padded 4 y
  else if in_range (-9999) (-1) y then "-" +:+ padded 4 (- y) else itoa y.

(** [t.UTC().Format("20060102t150405")]. *)
Definition stamp (t : Z) : string :=
  let c := civil t in
  year_text (c_year c) +:+ padded 2 (c_month c) +:+ padded 2 (c_day c) +:+ "t"
  +:+ padded 2 (c_hour c) +:+ padded 2 (c_min c) +:+ padded 2 (c_sec c).

(** *** Order of stamps *)

Lemma mod_400_100_4 y : (y mod 400 = 0 -> y mod 100 = 0) /\ (y mod 100 = 0 -> y mod 4 = 0).
Proof. split; dlia. Qed.

(** One more step of a rounded-up quotient. *)
Lemma ceil_step y n : 0 < n -> (y + 1 + (n - 1)) / n = (y + (n - 1)) / n + (if y mod n =? 0 then 1 else 0).
Proof.
  intros Hn. pose proof (Z.div_mod y n ltac:(lia)). pose proof (Z.mod_pos_bound y n Hn).
  destruct (Z.eqb_spec (y mod n) 0) as [E|E].
  - assert ((y + 1 + (n - 1)) / n = y / n + 1) as -> by (symmetry; apply (Z.div_unique _ _ _ 0); lia).
    assert ((y + (n - 1)) / n = y / n) as -> by (symmetry; apply (Z.div_unique _ _ _ (n - 1)); lia). lia.
  - assert ((y + 1 + (n - 1)) / n = y / n + 1) as -> by (symmetry; apply (Z.div_unique _ _ _ (y mod n)); lia).
    assert ((y + (n - 1)) / n = y / n + 1) as -> by (symmetry; apply (Z.div_unique _ _ _ (y mod n - 1)); lia). lia.
Qed.

Lemma days_before_step y : days_before (y + 1) = days_before y + (if leap y then 366 else 365).
Proof.
  unfold days_before, leap. destruct (mod_400_100_4 y).
  pose proof (ceil_step y 4 ltac:(lia)) as E4. pose proof (ceil_step y 100 ltac:(lia)) as E100.
  pose proof (ceil_step y 400 ltac:(lia)) as E400. cbn [Z.sub Z.add Z.opp Z.pos_sub Pos.pred_double Pos.add] in *.
  change (4 - 1) with 3 in E4. change (100 - 1) with 99 in E100. change (400 - 1) with 399 in E400.
  rewrite E4, E100, E400.
  destruct (Z.eqb_spec (y mod 4) 0), (Z.eqb_spec (y mod 100) 0), (Z.eqb_spec (y mod 400) 0);
    cbn [negb andb orb]; (lia || tauto).
Qed.

Lemma year_of_spec d : days_before (year_of d) <= d < days_before (year_of d + 1).
Proof.
  unfold year_of. set (y := d * 400 / 146097).
  assert (146097 * y <= d * 400 < 146097 * y + 146097) by (unfold y; dlia). clearbody y.
  unfold days_before.
  destruct (Z.ltb_spec d (365 * y + (y + 3) / 4 - (y + 99) / 100 + (y + 399) / 400)); [dlia|].
  destruct (Z.leb_spec (365 * (y + 1) + (y + 1 + 3) / 4 - (y + 1 + 99) / 100 + (y + 1 + 399) / 400) d); dlia.
Qed.

Lemma days_before_mono y z : y <= z -> days_before y <= days_before z.
Proof. unfold days_before. dlia. Qed.

(** Later days of a year have a later month or, in the same month, a later day. *)
Lemma month_day_mono (l : bool) a b m1 d1 m2 d2 :
  0 <= a < b -> b < (if l then 366 else 365) ->
  month_day 1 (month_starts l) a = (m1, d1) -> month_day 1 (month_starts l) b = (m2, d2) ->
  m1 < m2 \/ (m1 = m2 /\ d1 < d2).
Proof.
  intros Hab Hb. destruct l; cbn [month_starts month_day];
    repeat (match goal with |- context [b <? ?x] => destruct (Z.ltb_spec b x) end);
    repeat (match goal with |- context [a <? ?x] => destruct (Z.ltb_spec a x); try (exfalso; lia) end);
    intros [= <- <-] [= <- <-]; lia.
Qed.

Lemma month_day_range (l : bool) a m d :
  0 <= a < (if l then 366 else 365) -> month_day 1 (month_starts l) a = (m, d) ->
  1 <= m <= 12 /\ 1 <= d <= 31.
Proof.
  intros Ha. destruct l; cbn [month_starts month_day];
    repeat (match goal with |- context [a <? ?x] => destruct (Z.ltb_spec a x) end);
    intros [= <- <-]; lia.
Qed.

(** Lexicographic comparison of the components. *)
Definition then_ (a b : comparison) : comparison := match a with Eq => b | _ => a end.
Definition civil_compare (a b : Civil) : comparison :=
  then_ (c_year a ?= c_year b) (then_ (c_month a ?= c_month b) (then_ (c_day a ?= c_day b)
    (then_ (c_hour a ?= c_hour b) (then_ (c_min a ?= c_min b) (c_sec a ?= c_sec b))))).

Definition civil_ok (c : Civil) : Prop :=
  1 <= c_month c <= 12 /\ 1 <= c_day c <= 31 /\ 0 <= c_hour c < 24 /\ 0 <= c_min c < 60 /\ 0 <= c_sec c < 60.

Lemma yday_range d : 0 <= d - days_before (year_of d) < (if leap (year_of d) then 366 else 365).
Proof. pose proof (year_of_spec d). rewrite days_before_step in H. lia. Qed.

Lemma civil_range t : civil_ok (civil t).
Proof.
  unfold civil, civil_ok. set (d := t / Second / 86400 + epoch_day).
  destruct (month_day 1 _ _) as [m dd] eqn:E. cbn [c_month c_day c_hour c_min c_sec].
  apply month_day_range in E; [|apply yday_range].
  pose proof (Z.mod_pos_bound (t / Second) 86400 ltac:(lia)). split_and!; try lia; dlia.
Qed.

Ltac lex := unfold then_; repeat match goal with
  | |- context [?a ?= ?b] => destruct (Z.compare_spec a b); try lia; try reflexivity end.

Lemma civil_lt t1 t2 : t1 / Second < t2 / Second -> civil_compare (civil t1) (civil t2) = Lt.
Proof.
  intros Hlt. unfold civil, civil_compare.
  set (s1 := t1 / Second) in *. set (s2 := t2 / Second) in *.
  assert (Hd : s1 / 86400 <= s2 / 86400) by (apply Z.div_le_mono; lia).
  set (d1 := s1 / 86400 + epoch_day). set (d2 := s2 / 86400 + epoch_day).
  destruct (month_day 1 _ (d1 - _)) as [m1 dd1] eqn:E1. destruct (month_day 1 _ (d2 - _)) as [m2 dd2] eqn:E2.
  cbn [c_year c_month c_day c_hour c_min c_sec].
  pose proof (year_of_spec d1) as H1. pose proof (year_of_spec d2) as H2.
  assert (Hy : year_of d1 <= year_of d2).
  { destruct (Z.le_gt_cases (year_of d1) (year_of d2)) as [|Hgt]; [done|].
    pose proof (days_before_mono (year_of d2 + 1) (year_of d1) ltac:(lia)). unfold d1, d2 in *. lia. }
  destruct (Z.eq_dec (year_of d1) (year_of d2)) as [Ey|Hne]; [|lex].
  destruct (Z.eq_dec d1 d2) as [Ed|Hd'].
  - assert (m1 = m2 /\ dd1 = dd2) as [-> ->] by (rewrite Ed in E1; rewrite E1 in E2; by injection E2).
    assert (Hs : s1 mod 86400 < s2 mod 86400).
    { pose proof (Z.div_mod s1 86400 ltac:(lia)). pose proof (Z.div_mod s2 86400 ltac:(lia)). unfold d1, d2 in Ed. lia. }
    pose proof (Z.mod_pos_bound s1 86400 ltac:(lia)). pose proof (Z.mod_pos_bound s2 86400 ltac:(lia)).
    revert Hs H H0. generalize (s1 mod 86400) (s2 mod 86400). intros a b Hs Ha Hb.
    rewrite Ey, !Z.compare_refl. cbn [then_].
    assert (a / 3600 <= b / 3600) by (apply Z.div_le_mono; lia).
    assert (a / 3600 = b / 3600 -> (a / 60) mod 60 <= (b / 60) mod 60) by dlia.
    assert (a / 3600 = b / 3600 -> (a / 60) mod 60 = (b / 60) mod 60 -> a mod 60 < b mod 60) by dlia.
    lex.
  - rewrite <- Ey in E2. pose proof (yday_range d2) as Hr. rewrite <- Ey in Hr.
    assert (Hab : 0 <= d1 - days_before (year_of d1) < d2 - days_before (year_of d1)) by (unfold d1, d2 in *; lia).
    pose proof (month_day_mono _ _ _ _ _ _ _ Hab (proj2 Hr) E1 E2). lex.
Qed.

(** Stamps of years with four digits compare as the instants do, to the second. *)
Lemma padded_cmp n a b :
  0 <= a < 10 ^ Z.of_nat n -> 0 <= b < 10 ^ Z.of_nat n ->
  String.compare (padded n a) (padded n b) = (a ?= b).
Proof. intros Ha Hb. by rewrite padded_compare, !Z.mod_small. Qed.

Definition four_digit_year (t : Z) : Prop := 0 <= c_year (civil t) <= 9999.

Lemma year_text_padded y : 0 <= y <= 9999 -> year_text y = padded 4 y.
Proof. intros [H1 H2]. unfold year_text, in_range. apply Z.leb_le in H1, H2. by rewrite H1, H2. Qed.

Lemma stamp_compare_civil t1 t2 : four_digit_year t1 -> four_digit_year t2 ->
  String.compare (stamp t1) (stamp t2) = civil_compare (civil t1) (civil t2).
Proof.
  intros Hy1 Hy2. unfold stamp, four_digit_year in *.
  destruct (civil_range t1) as (? & ? & ? & ? & ?), (civil_range t2) as (? & ? & ? & ? & ?).
  destruct (civil t1) as [y1 m1 d1 h1 mi1 s1], (civil t2) as [y2 m2 d2 h2 mi2 s2].
  cbn [c_year c_month c_day c_hour c_min c_sec] in *.
  rewrite !year_text_padded by done. unfold civil_compare, then_.
  cbn [c_year c_month c_day c_hour c_min c_sec].
  rewrite !compare_app_s by (rewrite ?padded_length; done).
  replace (String.compare "t" "t") with Eq by done. cbv iota.
  rewrite !padded_cmp by (cbn; lia).
  destruct (y1 ?= y2); [|done..]. destruct (m1 ?= m2); [|done..]. destruct (d1 ?= d2); [|done..].
  destruct (h1 ?= h2); [|done..]. by destruct (mi1 ?= mi2).
Qed.

Lemma stamp_lt t1 t2 : four_digit_year t1 -> four_digit_year t2 ->
  t1 / Second < t2 / Second -> String.compare (stamp t1) (stamp t2) = Lt.
Proof. intros. rewrite stamp_compare_civil by done. by apply civil_lt. Qed.

End Calendar.

Module Snapshot.
Import GoTime Calendar.

Record SnapshotSpec := {
  ClusterName : string; spec_Namespace : string; spec_SnapshotClassName : string;
  spec_SourcePVC : string; Suffix : string;
}.

Record Manifest := {
  APIVersion : string; Kind : string; Name : string; Namespace : string;
  Labels : gmap string string; SnapshotClassName : string; SourcePVC : string;
  CreationTimestamp : Z;
}.

Definition joinName (T : UnicodeTables) (pvc suffix : string) : string :=
  let pvc := ToLower T (TrimSpace pvc) in
  let suffix := ToLower T (TrimSpace suffix) in
  if (suffix =? "")%string then pvc else pvc +:+ "-snap-" +:+ suffix.

Definition buildLabels (cluster pvc : string) : gmap string string :=
  list_to_map [("pg.athos.io/cluster", cluster); ("pg.athos.io/source-pvc", pvc);
               ("app.kubernetes.io/component", "snapshot"); ("app.kubernetes.io/managed-by", "athos")].

Definition Build (T : UnicodeTables) (spec : SnapshotSpec) (now : Z) : result Manifest :=
  if (ClusterName spec =? "")%string then Err (ErrNew "snapshot: cluster name is required")
  else if (spec_SourcePVC spec =? "")%string then Err (ErrNew "snapshot: source PVC is required")
  else
    let suffix := if (Suffix spec =? "")%string then stamp now else Suffix spec in
    Ok {| APIVersion := "snapshot.storage.k8s.io/v1"; Kind := "VolumeSnapshot";
          Name := joinName T (spec_SourcePVC spec) suffix; Namespace := spec_Namespace spec;
          Labels := buildLabels (ClusterName spec) (spec_SourcePVC spec);
          SnapshotClassName := spec_SnapshotClassName spec; SourcePVC := spec_SourcePVC spec;
          CreationTimestamp := now |}.

Record RetentionPolicy := { MaxCount : Z; MaxAge : Z }.

(** The inner loop for one position: [x] is the element at [i], the list holds those at
    [j > i]; a newer element is swapped into position [i]. *)
Fixpoint bubble (x : Manifest) (l : list Manifest) : Manifest * list Manifest :=
  match l with
  | [] => (x, [])
  | y :: l' =>
      if CreationTimestamp x <? CreationTimestamp y
      then let '(m, r) := bubble y l' in (m, x :: r)
      else let '(m, r) := bubble x l' in (m, y :: r)
  end.

(** The outer loop over the positions. *)
Fixpoint exchange_sort (n : nat) (l : list Manifest) : list Manifest :=
  match n, l with
  | S n', x :: l' => let '(m, r) := bubble x l' in m :: exchange_sort n' r
  | _, _ => l
  end.

(** [now.Sub(t)] saturates. *)
Definition Sub (now t : Z) : Z := Z.max min_int64 (Z.min max_int64 (now - t)).

Definition deletable (p : RetentionPolicy) (now i : Z) (s : Manifest) : bool :=
  ((0 <? MaxCount p) && (MaxCount p <=? i)) || ((0 <? MaxAge p) && (MaxAge p <? Sub now (CreationTimestamp s))).

Fixpoint collect (p : RetentionPolicy) (now i : Z) (l : list Manifest) : list Manifest :=
  match l with
  | [] => []
  | s :: l' => if deletable p now i s then s :: collect p now (i + 1) l' else collect p now (i + 1) l'
  end.

Definition Apply (p : RetentionPolicy) (snaps : list Manifest) (now : Z) : list Manifest :=
  collect p now 0 (exchange_sort (length snaps) snaps).

Definition IsCompleted (readyToUse : option bool) : bool :=
  match readyToUse with Some b => b | None => false end.

(** *** The sort *)

Definition newer (a b : Manifest) : Prop := CreationTimestamp b <= CreationTimestamp a.

Lemma bubble_spec x l : forall m r, bubble x l = (m, r) ->
  m :: r ≡ₚ x :: l /\ Forall (newer m) r /\ newer m x /\ length r = length l.
Proof.
  revert x. induction l as [|y l IH]; intros x m r; cbn [bubble].
  { intros [= <- <-]. split_and!; [done|by constructor|unfold newer; lia|done]. }
  destruct (Z.ltb_spec (CreationTimestamp x) (CreationTimestamp y)) as [H|H].
  - destruct (bubble y l) as [m' r'] eqn:E. intros [= <- <-].
    destruct (IH _ _ _ E) as (Hp & Hf & Hn & Hl). unfold newer in *. split_and!.
    + rewrite Permutation_swap. constructor. by rewrite Hp.
    + constructor; [lia|done].
    + lia.
    + cbn. by rewrite Hl.
  - destruct (bubble x l) as [m' r'] eqn:E. intros [= <- <-].
    destruct (IH _ _ _ E) as (Hp & Hf & Hn & Hl). unfold newer in *. split_and!.
    + rewrite Permutation_swap, Hp. constructor.
    + constructor; [lia|done].
    + lia.
    + cbn. by rewrite Hl.
Qed.

Lemma exchange_sort_spec n : forall l, length l = n ->
  exchange_sort n l ≡ₚ l /\ StronglySorted newer (exchange_sort n l).
Proof.
  induction n as [|n IH]; intros [|x l] Hl; try done; [repeat constructor|].
  cbn [exchange_sort]. destruct (bubble x l) as [m r] eqn:E.
  destruct (bubble_spec _ _ _ _ E) as (Hp & Hf & _ & Hr). cbn in Hl.
  destruct (IH r ltac:(lia)) as [Hperm Hs]. split; [by rewrite Hperm|].
  constructor; [done|]. eapply Forall_Permutation; [symmetry; done..|]. done.
Qed.

Lemma sorted_lookup {A} (R : relation A) (l : list A) i j x y :
  StronglySorted R l -> l !! i = Some x -> l !! j = Some y -> (i < j)%nat -> R x y.
Proof.
  intros Hs Hx Hy Hij. rewrite <- (take_drop j l) in Hs.
  eapply StronglySorted_app_1_elem_of; [exact Hs| |].
  - eapply list_elem_of_lookup_2. rewrite lookup_take_Some. done.
  - eapply (list_elem_of_lookup_2 _ 0). by rewrite lookup_drop, Nat.add_0_r.
Qed.

Lemma Sub_mono now a b : b <= a -> Sub now a <= Sub now b.
Proof. unfold Sub. lia. Qed.

(** On a newest-first list the deletions are a suffix. *)
Lemma collect_suffix p now l : forall i, StronglySorted newer l ->
  exists k, (k <= length l)%nat /\ collect p now i l = drop k l /\
    (forall j s, (j < k)%nat -> l !! j = Some s -> deletable p now (i + Z.of_nat j) s = false) /\
    (forall j s, (k <= j)%nat -> l !! j = Some s -> deletable p now (i + Z.of_nat j) s = true).
Proof.
  induction l as [|s l IH]; intros i Hs.
  { exists 0%nat. split_and!; done. }
  inversion Hs as [|? ? Hs' Hf]; subst. destruct (IH (i + 1) Hs') as (k & Hk & Hc & Hlo & Hhi).
  cbn [collect]. destruct (deletable p now i s) eqn:Ed.
  - assert (Hall : forall j x, l !! j = Some x -> deletable p now (i + 1 + Z.of_nat j) x = true).
    { intros j x Hx. apply list_elem_of_lookup_2 in Hx. rewrite Forall_forall in Hf.
      specialize (Hf x Hx). unfold newer in Hf. apply (Sub_mono now) in Hf.
      unfold deletable in *. apply orb_true_iff in Ed as [Ed|Ed]; breflect; apply orb_true_iff.
      - left. rewrite (proj2 (Z.ltb_lt 0 (MaxCount p))) by done. apply Z.leb_le. lia.
      - right. rewrite (proj2 (Z.ltb_lt 0 (MaxAge p))) by done. apply Z.ltb_lt. lia. }
    assert (k = 0%nat) as ->.
    { destruct k as [|k]; [done|]. destruct (lookup_lt_is_Some_2 l 0 ltac:(lia)) as [x Hx].
      pose proof (Hlo 0%nat x ltac:(lia) Hx). by rewrite (Hall 0%nat x Hx) in H. }
    exists 0%nat. rewrite Hc. split_and!; [lia|done|lia|].
    intros [|j] x _ Hx; [injection Hx as ->; by rewrite Z.add_0_r|].
    replace (i + Z.of_nat (S j)) with (i + 1 + Z.of_nat j) by lia. by apply Hall.
  - exists (S k). split_and!; [cbn; lia|done| |].
    + intros [|j] x Hj Hx; [injection Hx as ->; by rewrite Z.add_0_r|].
      replace (i + Z.of_nat (S j)) with (i + 1 + Z.of_nat j) by lia. by apply Hlo; [lia|].
    + intros [|j] x Hj Hx; [lia|]. replace (i + Z.of_nat (S j)) with (i + 1 + Z.of_nat j) by lia.
      by apply Hhi; [lia|].
Qed.

(** C40: Retention deletes exactly the oldest snapshots the policy rejects.  The result is
    a part of the snapshots, every one kept is at least as new as every one deleted, at
    most MaxCount are kept and none older than MaxAge (when these are positive), and a
    snapshot is deleted only if it exceeds MaxAge or MaxCount snapshots are kept. *)
Theorem retention_keeps_newest p snaps now :
  exists kept, snaps ≡ₚ kept ++ Apply p snaps now /\
    (forall k d, k ∈ kept -> d ∈ Apply p snaps now -> newer k d) /\
    (0 < MaxCount p -> Z.of_nat (length kept) <= MaxCount p) /\
    (0 < MaxAge p -> Forall (fun k => Sub now (CreationTimestamp k) <= MaxAge p) kept) /\
    Forall (fun d => (0 < MaxAge p /\ MaxAge p < Sub now (CreationTimestamp d)) \/
                     (0 < MaxCount p /\ Z.of_nat (length kept) = MaxCount p)) (Apply p snaps now).
Proof.
  unfold Apply. destruct (exchange_sort_spec _ snaps eq_refl) as [Hp Hs].
  set (l := exchange_sort (length snaps) snaps) in *.
  destruct (collect_suffix p now l 0 Hs) as (k & Hk & -> & Hlo & Hhi).
  exists (take k l). rewrite take_drop. split_and!.
  - by rewrite Hp.
  - rewrite <- (take_drop k l) in Hs. intros a d Ha Hd.
    by eapply (StronglySorted_app_1_elem_of newer).
  - intros Hpos. rewrite length_take_le by done. destruct k as [|k]; [lia|].
    destruct (lookup_lt_is_Some_2 l k ltac:(lia)) as [x Hx].
    pose proof (Hlo k x ltac:(lia) Hx) as H. unfold deletable in H. breflect.
    apply Z.ltb_lt in Hpos. rewrite Hpos in H. cbn in H. breflect. lia.
  - intros Hpos. apply Forall_lookup. intros j x Hx. apply lookup_take_Some in Hx as [Hx Hj].
    pose proof (Hlo j x Hj Hx) as H. unfold deletable in H. breflect.
    apply Z.ltb_lt in Hpos. rewrite Hpos in H0. cbn in H0. by breflect.
  - apply Forall_lookup. intros j x Hx. rewrite lookup_drop in Hx.
    pose proof (Hhi (k + j)%nat x ltac:(lia) Hx) as H. unfold deletable in H.
    apply orb_true_iff in H as [H|H]; breflect; [|by left].
    destruct (Z.le_gt_cases (Z.of_nat k) (MaxCount p)) as [Hle|Hgt].
    + destruct (Z.eq_dec (Z.of_nat k) (MaxCount p)) as [E|Hne]; [right; rewrite length_take_le; done|].
      left. destruct (lookup_lt_is_Some_2 l k) as [y Hy].
      { apply lookup_lt_Some in Hx. lia. }
      pose proof (Hhi k y ltac:(lia) Hy) as Hd. unfold deletable in Hd.
      apply orb_true_iff in Hd as [Hd|Hd]; breflect; [lia|]. split; [done|].
      destruct j as [|j]; [rewrite Nat.add_0_r in Hx; congruence|].
      assert (newer y x) as Hn.
      { eapply (sorted_lookup newer l k); [done..|lia]. }
      unfold newer in Hn. apply (Sub_mono now) in Hn. lia.
    + exfalso. destruct k as [|k]; [lia|]. destruct (lookup_lt_is_Some_2 l k ltac:(lia)) as [y Hy].
      pose proof (Hlo k y ltac:(lia) Hy) as Hd. unfold deletable in Hd.
      apply orb_false_elim in Hd as [Hd _].
      rewrite (proj2 (Z.ltb_lt 0 (MaxCount p))) in Hd by done. cbn in Hd. breflect. lia.
Qed.

(** *** Names in chronological order *)

Definition stamp_byte (c : ascii) : bool := is_digit c || Ascii.eqb c "t".

Lemma stamp_bytes t : four_digit_year t -> sall stamp_byte (stamp t) = true.
Proof.
  intros Hy. unfold stamp, four_digit_year in *. destruct (civil_range t) as (? & ? & ? & ? & ?).
  rewrite year_text_padded by done.
  assert (Hd : forall n v, sall stamp_byte (padded n v) = true).
  { intros n v. eapply sall_impl; [|by apply (padded_digits n)]. unfold stamp_byte. by intros c ->. }
  rewrite !sall_app, !Hd. done.
Qed.

Lemma smap_id (f : ascii -> ascii) s : sall (fun c => Ascii.eqb (f c) c) s = true -> smap f s = s.
Proof.
  induction s as [|c s IH]; [done|]. cbn. intros H. breflect. apply Ascii.eqb_eq in H. by rewrite H, IH.
Qed.

Lemma stamp_byte_ascii c : stamp_byte c = true ->
  graphic c = true /\ byte c <? 0x80 = true /\ Ascii.eqb (lower_byte c) c = true.
Proof. destruct c as [[] [] [] [] [] [] [] []]; done. Qed.

Lemma stamp_normal T t : four_digit_year t -> ToLower T (TrimSpace (stamp t)) = stamp t /\ stamp t <> "".
Proof.
  intros Hy. pose proof (stamp_bytes t Hy) as Hb.
  assert (Hne : stamp t <> "").
  { unfold stamp. rewrite year_text_padded by done. intros E.
    apply (f_equal String.length) in E. rewrite length_app_s, padded_length in E. done. }
  assert (Hg : sall graphic (stamp t) = true).
  { eapply sall_impl; [|exact Hb]. intros c Hc. by apply stamp_byte_ascii. }
  split; [|done]. rewrite TrimSpace_id.
  - unfold ToLower. rewrite (sall_impl stamp_byte _ _ (fun c Hc => proj1 (proj2 (stamp_byte_ascii c Hc))) Hb).
    apply smap_id. eapply sall_impl; [|exact Hb]. intros c Hc. by apply stamp_byte_ascii.
  - eapply sall_impl; [|exact Hg]. apply graphic_printable.
  - destruct (stamp t) as [|c a]; [done|]. exists c, a. split; [done|]. cbn in Hg. by breflect.
  - by apply ends_ok_sall.
Qed.

Definition auto_spec (cluster ns cls pvc : string) : SnapshotSpec :=
  {| ClusterName := cluster; spec_Namespace := ns; spec_SnapshotClassName := cls;
     spec_SourcePVC := pvc; Suffix := "" |}.

(** Listing the snapshots of a volume in lexical order is chronological: without an
    explicit suffix, of two snapshots of one claim taken in different seconds (of years
    with four digits) the earlier one has the lexically smaller name. *)
Theorem snapshot_names_chronological T cluster ns cls pvc t1 t2 m1 m2 :
  four_digit_year t1 -> four_digit_year t2 -> t1 / Second < t2 / Second ->
  Build T (auto_spec cluster ns cls pvc) t1 = Ok m1 ->
  Build T (auto_spec cluster ns cls pvc) t2 = Ok m2 ->
  String.compare (Name m1) (Name m2) = Lt.
Proof.
  intros H1 H2 Hlt. unfold Build. cbn [ClusterName spec_SourcePVC Suffix auto_spec].
  destruct (cluster =? "")%string; [done|]. destruct (pvc =? "")%string; [done|].
  change (("" =? "")%string) with true. cbv iota zeta. intros [= <-] [= <-]. cbn [Name].
  unfold joinName. destruct (stamp_normal T t1 H1) as [-> E1], (stamp_normal T t2 H2) as [-> E2].
  apply String.eqb_neq in E1, E2. rewrite E1, E2.
  rewrite !compare_app_s by done. rewrite !compare_refl_s. by apply stamp_lt.
Qed.

Lemma snapshot_names_chronological_witness :
  exists m1 m2,
    Build ascii_tables (auto_spec "db" "prod" "csi" "data-db-0") 0 = Ok m1 /\
    Build ascii_tables (auto_spec "db" "prod" "csi" "data-db-0") 951868799999999999 = Ok m2 /\
    Name m2 = "data-db-0-snap-20000229t235959" /\ String.compare (Name m1) (Name m2) = Lt.
Proof.
  eexists _, _. split; [reflexivity|]. split; [reflexivity|]. split; [vm_compute; reflexivity|].
  apply (snapshot_names_chronological ascii_tables "db" "prod" "csi" "data-db-0" 0 951868799999999999);
    try reflexivity; split; vm_compute; discriminate.
Defined.

End Snapshot.
