(* ===== verification/Images.v ===== *)
(** * Image references, build version and upgrade policy

    [ImageUtil] is internal/imageutil/imageutil.go, [BuildVersion]
    internal/version/version.go (the link-time variables and the toolchain's identity are
    arguments) and [UpgradePolicy] internal/upgradepolicy/upgradepolicy.go. *)

From Stdlib Require Import ZArith Lia List Bool Ascii.
From stdpp Require Import base list strings.
From S2P Require Import Prelude GoStrings PgConfig.

Local Open Scope Z_scope.

(** ** Splitting at a byte *)

(** The text before and after the first, or last, occurrence of a byte: the slices the
    code takes at [strings.Index] and [strings.LastIndex]. *)
Fixpoint split_first (c : ascii) (s : string) : option (string * string) :=
  match s with
  | EmptyString => None
  | String d s' =>
      if Ascii.eqb c d then Some ("", s')
      else match split_first c s' with Some (a, b) => Some (String d a, b) | None => None end
  end.

Fixpoint split_last (c : ascii) (s : string) : option (string * string) :=
  match s with
  | EmptyString => None
  | String d s' =>
      match split_last c s' with
      | Some (a, b) => Some (String d a, b)
      | None => if Ascii.eqb c d then Some ("", s') else None
      end
  end.

Lemma split_first_none c s : sall (neqc c) s = true -> split_first c s = None.
Proof.
  induction s as [|d s IH]; [done|]. cbn. unfold neqc at 1. intros H. breflect. by rewrite H, IH.
Qed.

Lemma split_last_none c s : sall (neqc c) s = true -> split_last c s = None.
Proof.
  induction s as [|d s IH]; [done|]. cbn. unfold neqc at 1. intros H. breflect. by rewrite IH, H.
Qed.

Lemma split_first_app c a b : sall (neqc c) a = true -> split_first c (a +:+ String c b) = Some (a, b).
Proof.
  induction a as [|d a IH]; intros Ha; [rewrite app_nil_l_s; cbn; by rewrite Ascii.eqb_refl|].
  rewrite app_cons_l. cbn in *. unfold neqc at 1 in Ha. breflect. by rewrite H, IH.
Qed.

Lemma split_last_app c a b : sall (neqc c) b = true -> split_last c (a +:+ String c b) = Some (a, b).
Proof.
  intros Hb. induction a as [|d a IH].
  - rewrite app_nil_l_s. cbn. by rewrite split_last_none, Ascii.eqb_refl.
  - rewrite app_cons_l. cbn. by rewrite IH.
Qed.

Lemma split_last_None c s : split_last c s = None -> sall (neqc c) s = true.
Proof.
  induction s as [|d s IH]; [done|]. cbn. unfold neqc at 1.
  destruct (split_last c s) as [[a b]|]; [done|]. destruct (Ascii.eqb c d); [done|]. cbn. by apply IH.
Qed.

Lemma split_last_Some c s a b :
  split_last c s = Some (a, b) -> s = a +:+ String c b /\ sall (neqc c) b = true.
Proof.
  revert a. induction s as [|d s IH]; intros a; [done|]. cbn.
  destruct (split_last c s) as [[x y]|] eqn:E.
  - intros [= <- <-]. destruct (IH x eq_refl) as [-> ?]. done.
  - destruct (Ascii.eqb_spec c d) as [<-|]; [|done]. intros [= <- <-]. split; [done|].
    by apply split_last_None.
Qed.

Lemma split_first_Some c s a b : split_first c s = Some (a, b) -> s = a +:+ String c b.
Proof.
  revert a. induction s as [|d s IH]; intros a; [done|]. cbn.
  destruct (Ascii.eqb_spec c d) as [<-|]; [by intros [= <- <-]|].
  destruct (split_first c s) as [[x y]|]; [|done]. intros [= <- <-]. by rewrite (IH x).
Qed.

Module ImageUtil.

Record Reference := { Registry : string; Repository : string; Tag : string; Digest : string }.

Definition ref_String (r : Reference) : string :=
  let out := if (Registry r =? "")%string then Repository r else Registry r +:+ "/" +:+ Repository r in
  if negb (Digest r =? "")%string then out +:+ "@" +:+ Digest r
  else if negb (Tag r =? "")%string then out +:+ ":" +:+ Tag r
  else out.

Definition IsTagged (r : Reference) : bool := negb (Tag r =? "")%string && (Digest r =? "")%string.
Definition IsPinned (r : Reference) : bool := negb (Digest r =? "")%string.

Definition ErrEmptyReference : error := ErrNew "imageutil: empty image reference".

(** Whether a leading segment names a registry. *)
Definition looks_like_registry (head : string) : bool :=
  negb (sall (fun c => negb (Ascii.eqb c "." || Ascii.eqb c ":")) head) || (head =? "localhost")%string.

(** The tag and the rest, the tag taken from the last path segment only. *)
Definition split_tag (rest : string) : string * string :=
  match split_last "/" rest with
  | Some (head, t) =>
      match split_last ":" ("/" +:+ t) with
      | Some (a, tag) => (tag, head +:+ a)
      | None => ("", rest)
      end
  | None =>
      match split_last ":" rest with
      | Some (a, tag) => (tag, a)
      | None => ("", rest)
      end
  end.

(** The registry and the repository. *)
Definition split_registry (rest : string) : string * string :=
  match split_first "/" rest with
  | Some (head, repo) =>
      if negb (head =? "")%string && looks_like_registry head then (head, repo) else ("", rest)
  | None => ("", rest)
  end.

Definition Parse (T : UnicodeTables) (s : string) : result Reference :=
  if (s =? "")%string then Err ErrEmptyReference else
  let '(digest, rest) := match split_first "@" s with Some (a, d) => (d, a) | None => ("", s) end in
  let '(tag, rest) := split_tag rest in
  let '(registry, repo) := split_registry rest in
  if (repo =? "")%string then Err (ErrNew ("imageutil: no repository in " +:+ Quote T s))
  else Ok {| Registry := registry; Repository := repo; Tag := tag; Digest := digest |}.

Definition WithTag (r : Reference) (tag : string) : Reference :=
  {| Registry := Registry r; Repository := Repository r; Tag := tag; Digest := "" |}.
Definition WithDigest (r : Reference) (digest : string) : Reference :=
  {| Registry := Registry r; Repository := Repository r; Tag := Tag r; Digest := digest |}.

Definition PostgresImage (major : Z) : string := "docker.io/library/postgres:" +:+ itoa major +:+ "-alpine".

(** ** Well-formed references *)

Definition ref_ok (r : Reference) : bool :=
  negb (Repository r =? "")%string && sall (neqc "@") (Repository r) && sall (neqc ":") (Repository r)
  && sall (neqc "@") (Tag r) && sall (neqc ":") (Tag r) && sall (neqc "/") (Tag r)
  && ((Tag r =? "")%string || (Digest r =? "")%string)
  && sall (neqc "@") (Registry r) && sall (neqc "/") (Registry r)
  && (if (Registry r =? "")%string
      then match split_first "/" (Repository r) with
           | Some (head, _) => (head =? "")%string || negb (looks_like_registry head)
           | None => true
           end
      else looks_like_registry (Registry r)).

Definition ref_path (r : Reference) : string :=
  if (Registry r =? "")%string then Repository r else Registry r +:+ "/" +:+ Repository r.

Lemma neqc_sym c d : c <> d -> neqc c d = true.
Proof. unfold neqc. by destruct (Ascii.eqb_spec c d). Qed.

(** The tag of a path with a colon-free last segment is what follows it. *)
Lemma split_tag_path p t :
  match split_last "/" p with Some (_, x) => sall (neqc ":") x | None => sall (neqc ":") p end = true ->
  sall (neqc ":") t = true -> sall (neqc "/") t = true ->
  split_tag p = ("", p) /\ split_tag (p +:+ String ":" t) = (t, p).
Proof.
  intros Hp Ht Hs. unfold split_tag. destruct (split_last "/" p) as [[h x]|] eqn:E.
  - rewrite (split_last_none ":" ("/" +:+ x)); [|cbn; done]. split; [done|].
    apply split_last_Some in E as [-> Hx].
    rewrite app_assoc_s, app_cons_l, split_last_app.
    2: { rewrite sall_app, Hx. cbn. done. }
    change ("/" +:+ (x +:+ String ":" t)) with (("/" +:+ x) +:+ String ":" t).
    rewrite split_last_app by done. done.
  - rewrite split_last_none by done. split; [done|].
    apply split_last_None in E as Hn.
    rewrite (split_last_none "/" (p +:+ String ":" t)); [by rewrite split_last_app|].
    rewrite sall_app, Hn. cbn. done.
Qed.

Lemma split_registry_path r : ref_ok r = true -> split_registry (ref_path r) = (Registry r, Repository r).
Proof.
  unfold ref_ok, ref_path, split_registry. intros H. breflect.
  destruct (String.eqb_spec (Registry r) "") as [E|Hne].
  - destruct (split_first "/" (Repository r)) as [[h x]|]; [|by rewrite E].
    apply orb_true_iff in H0 as [->|H0]; [by rewrite E|]. apply negb_true_iff in H0.
    rewrite H0, andb_false_r. by rewrite E.
  - change ("/" +:+ Repository r) with (String "/" (Repository r)). rewrite split_first_app by done.
    rewrite H0. apply String.eqb_neq in Hne. by rewrite Hne.
Qed.

(** The path of a well-formed reference has no tag of its own. *)
Lemma path_no_tag r : ref_ok r = true ->
  match split_last "/" (ref_path r) with
  | Some (_, x) => sall (neqc ":") x
  | None => sall (neqc ":") (ref_path r)
  end = true.
Proof.
  unfold ref_ok, ref_path. intros H. breflect.
  assert (Hrepo : match split_last "/" (Repository r) with Some (_, x) => sall (neqc ":") x | None => true end = true).
  { destruct (split_last "/" (Repository r)) as [[a b]|] eqn:E; [|done].
    apply split_last_Some in E as [E _]. rewrite E, sall_app in H7. cbn in H7. by breflect. }
  destruct (Registry r =? "")%string.
  - by destruct (split_last "/" (Repository r)) as [[a b]|].
  - destruct (split_last "/" (Repository r)) as [[a b]|] eqn:E.
    + apply split_last_Some in E as [-> Hb].
      change ("/" +:+ a +:+ String "/" b) with (("/" +:+ a) +:+ String "/" b).
      rewrite <- app_assoc_s, split_last_app by done. done.
    + apply split_last_None in E as Hn.
      change ("/" +:+ Repository r) with (String "/" (Repository r)). by rewrite split_last_app.
Qed.

(** The text of a well-formed reference parses to it. *)
Lemma image_text_parses T r : ref_ok r = true -> Parse T (ref_String r) = Ok r.
Proof.
  intros Hok. pose proof (split_registry_path r Hok) as Hreg. pose proof (path_no_tag r Hok) as Hpath.
  assert (Hp : exists c p, ref_path r = String c p).
  { unfold ref_ok, ref_path in *. breflect. destruct (Registry r) as [|c p], (Repository r) as [|d q]; cbn; try done; eauto. }
  assert (Hat : sall (neqc "@") (ref_path r) = true).
  { unfold ref_ok, ref_path in *. breflect. destruct (Registry r =? "")%string; [done|].
    rewrite !sall_app. apply andb_true_intro; split; [done|]. cbn. done. }
  unfold ref_String. fold (ref_path r). unfold Parse.
  assert (Hr : forall d t, Digest r = d -> Tag r = t ->
    Ok {| Registry := Registry r; Repository := Repository r; Tag := t; Digest := d |} = Ok r).
  { intros d t <- <-. by destruct r. }
  assert (Hor : (Tag r =? "")%string || (Digest r =? "")%string = true) by (unfold ref_ok in Hok; by breflect).
  unfold ref_ok in Hok. breflect.
  assert (Hrepo : (Repository r =? "")%string = false) by (by apply String.eqb_neq).
  pose proof (split_tag_path (ref_path r) (Tag r) Hpath ltac:(done) ltac:(done)) as [Hnt Ht].
  destruct (String.eqb_spec (Digest r) "") as [Ed|Ed]; cbn [negb].
  - destruct (String.eqb_spec (Tag r) "") as [Et|Et]; cbn [negb].
    + destruct Hp as (c & p & Ep). rewrite Ep at 1. replace ((String c p =? "")%string) with false by done.
      rewrite split_first_none by done. rewrite Hnt, Hreg.
      rewrite Hrepo. by apply Hr.
    + change (":" +:+ Tag r) with (String ":" (Tag r)).
      destruct Hp as (c & p & Ep). rewrite Ep at 1. rewrite app_cons_l. replace ((String c _ =? "")%string) with false by done.
      rewrite split_first_none. 2: { rewrite sall_app, Hat. cbn. done. }
      rewrite Ht, Hreg, Hrepo. by apply Hr.
  - assert (Et : Tag r = "").
    { apply orb_true_iff in Hor as [E|E]; [by apply String.eqb_eq in E|done]. }
    change ("@" +:+ Digest r) with (String "@" (Digest r)).
    destruct Hp as (c & p & Ep). rewrite Ep at 1. rewrite app_cons_l. replace ((String c _ =? "")%string) with false by done.
    rewrite split_first_app by done. rewrite Hnt, Hreg, Hrepo. by apply Hr.
Qed.

(** Printing and parsing image references round-trips: for every well-formed
    reference (a registry that looks like one, no tag together with a digest, a path
    without at-signs and colons), parsing its text gives back registry, repository, tag
    and digest, ports in the registry included; replacing the tag, which drops the digest,
    keeps this property. *)
Theorem image_roundtrip T r :
  ref_ok r = true ->
  Parse T (ref_String r) = Ok r /\ (IsPinned r = true -> IsTagged r = false) /\
  forall tag, sall (neqc "@") tag && sall (neqc ":") tag && sall (neqc "/") tag = true ->
    Parse T (ref_String (WithTag r tag)) = Ok (WithTag r tag).
Proof.
  intros H. split; [by apply image_text_parses|]. split.
  - unfold IsPinned, IsTagged. destruct (Digest r =? "")%string; [done|]. by rewrite andb_false_r.
  - intros tag Ht. apply image_text_parses. unfold ref_ok in *. cbn [WithTag Registry Repository Tag Digest].
    apply andb_prop in Ht as [Ht1 Ht2]. apply andb_prop in Ht1 as [Ht1 Ht3].
    rewrite Ht1, Ht2, Ht3, orb_true_r. destruct (sall (neqc "@") (Tag r)); [|by rewrite !andb_false_r in H].
    destruct (sall (neqc ":") (Tag r)); [|by rewrite !andb_false_r in H].
    destruct (sall (neqc "/") (Tag r)); [|by rewrite !andb_false_r in H].
    destruct ((Tag r =? "")%string || (Digest r =? "")%string); [done|by rewrite !andb_false_r in H].
Qed.

Lemma image_roundtrip_witness :
  Parse ascii_tables "localhost:5000/kitio-tek/athos:v1.2.3" =
    Ok {| Registry := "localhost:5000"; Repository := "kitio-tek/athos"; Tag := "v1.2.3"; Digest := "" |}.
Proof.
  apply (image_roundtrip ascii_tables
    {| Registry := "localhost:5000"; Repository := "kitio-tek/athos"; Tag := "v1.2.3"; Digest := "" |}).
  vm_compute. reflexivity.
Defined.

(** The image of the operator's pods parses to the official repository and the tag of the
    major version, and both packages that build it agree. *)
Lemma PostgresImage_parses T major :
  Version.PostgresImageTag major = PostgresImage major /\
  Parse T (PostgresImage major) =
    Ok {| Registry := "docker.io"; Repository := "library/postgres"; Tag := itoa major +:+ "-alpine"; Digest := "" |}.
Proof.
  split; [by rewrite Version.PostgresImageTag_eq|].
  set (r := {| Registry := "docker.io"; Repository := "library/postgres"; Tag := itoa major +:+ "-alpine"; Digest := "" |}).
  assert (Hg : forall c, is_digit c = false -> c <> "-"%char -> sall (neqc c) (itoa major) = true).
  { intros c Hc Hm. unfold itoa. assert (Hd : forall n, 0 <= n -> sall (neqc c) (digits n) = true).
    { intros n Hn. apply sall_digit_neq; [done|by apply digits_all]. }
    destruct (Z.ltb_spec major 0); [|by apply Hd]. rewrite sall_app, Hd, andb_true_r by lia.
    cbn. rewrite andb_true_r. by apply neqc_sym. }
  assert (Ht : Tag r <> "").
  { cbn. intros E. apply (f_equal String.length) in E. rewrite length_app_s in E. cbn in E. lia. }
  assert (Hs : ref_String r = PostgresImage major).
  { unfold ref_String. cbn [Registry Digest Repository]. apply String.eqb_neq in Ht. rewrite Ht. done. }
  rewrite <- Hs. apply image_text_parses. unfold ref_ok, r. cbn [Registry Repository Tag Digest].
  rewrite !sall_app, !Hg by done. cbn. by rewrite orb_true_r.
Qed.

End ImageUtil.

(** ** internal/version *)
Module BuildVersion.

Definition Product : string := "athos-operator".

Record Link := { Version : string; Commit : string; BuildDate : string }.
Definition defaults : Link := {| Version := "v0.0.0-dev"; Commit := "unknown"; BuildDate := "unknown" |}.

Record Toolchain := { GoVersion : string; GOOS : string; GOARCH : string }.

Record BuildInfo := { bi_Version : string; bi_Commit : string; bi_BuildDate : string;
                      bi_GoVersion : string; bi_Platform : string }.

Definition Info (l : Link) (t : Toolchain) : BuildInfo :=
  {| bi_Version := Version l; bi_Commit := Commit l; bi_BuildDate := BuildDate l;
     bi_GoVersion := GoVersion t; bi_Platform := GOOS t +:+ "/" +:+ GOARCH t |}.

Definition shortCommit (c : string) : string :=
  if (String.length c <=? 7)%nat then c else stake 7 c.

Definition version_String (l : Link) (t : Toolchain) : string :=
  Product +:+ " " +:+ Version l +:+ " (" +:+ shortCommit (Commit l) +:+ ") built " +:+ BuildDate l
  +:+ " on " +:+ GoVersion t.

Definition ShortVersion (l : Link) : string :=
  let v := if has_prefix "v" (Version l) then sdrop 1 (Version l) else Version l in
  let v := (span (fun c => negb (Ascii.eqb c "-" || Ascii.eqb c "+")) v).1 in
  match split_byte "." v with
  | a :: b :: _ => a +:+ "." +:+ b
  | _ => Version l
  end.

Definition UserAgent (l : Link) : string := Product +:+ "/" +:+ ShortVersion l.

(** The short version of a release is its major and minor number. *)
Lemma ShortVersion_release major minor rest commit date :
  0 <= major -> 0 <= minor ->
  (exists c r, rest = String c r /\ (Ascii.eqb c "." || Ascii.eqb c "-" || Ascii.eqb c "+") = true) ->
  ShortVersion {| Version := "v" +:+ digits major +:+ "." +:+ digits minor +:+ rest; Commit := commit; BuildDate := date |}
    = digits major +:+ "." +:+ digits minor.
Proof.
  intros Hma Hmi (c & r & -> & Hc). unfold ShortVersion. cbn [Version].
  change (has_prefix "v" ("v" +:+ ?x)) with (has_prefix "" x).
  replace (has_prefix "" _) with true by (by destruct (digits major +:+ "." +:+ digits minor +:+ String c r)).
  change (sdrop 1 ("v" +:+ ?x)) with (sdrop 0 x). cbn [sdrop].
  set (p := fun c => negb (Ascii.eqb c "-" || Ascii.eqb c "+")).
  assert (Hd : forall n, 0 <= n -> sall p (digits n) = true /\ sall (neqc ".") (digits n) = true).
  { intros n Hn. split; [|apply sall_digit_neq; [done|by apply digits_all]].
    eapply sall_impl; [|by apply digits_all]. intros x Hx. by destruct x as [[] [] [] [] [] [] [] []]. }
  assert (Hsp : split_byte "." (span p (digits major +:+ "." +:+ digits minor +:+ String c r)).1
    = digits major :: split_byte "." (digits minor +:+ (span p (String c r)).1)).
  { assert (Hspan : forall a t, sall p a = true -> (span p (a +:+ t)).1 = a +:+ (span p t).1).
    { intros a t. induction a as [|x a IH]; [done|]. cbn [sall]. intros H. breflect.
      rewrite !app_cons_l. cbn. rewrite H. specialize (IH H0). destruct (span p (a +:+ t)). cbn in *. by rewrite IH. }
    rewrite Hspan by by apply Hd. rewrite Hspan by done. rewrite Hspan by by apply Hd.
    change ("." +:+ ?x) with (String "." x). by rewrite split_byte_app by by apply Hd. }
  rewrite Hsp. destruct (Hd minor Hmi) as [_ Hdot].
  assert (exists tl, split_byte "." (digits minor +:+ (span p (String c r)).1) = digits minor :: tl) as [tl ->]; [|done].
  cbn [span]. destruct (p c) eqn:Ep.
  - assert (c = "."%char) as ->. { unfold p in Ep. apply orb_true_iff in Hc as [Hc|Hc]; [|by rewrite Hc, orb_true_r in Ep].
      apply orb_true_iff in Hc as [Hc|Hc]; [by apply Ascii.eqb_eq in Hc|by rewrite Hc in Ep]. }
    destruct (span p r) as [a b]. cbn [fst]. rewrite split_byte_app by done. by eexists.
  - cbn [fst]. rewrite app_nil_r_s, split_byte_none by done. by eexists.
Qed.

End BuildVersion.

(** ** internal/upgradepolicy *)
Module UpgradePolicy.

Inductive Class := ClassNoChange | ClassMinor | ClassMajorInPlace | ClassMajorLogical | ClassDowngrade.

Definition Classify (current target : Z) : result Class :=
  if (current <=? 0) || (target <=? 0) then Err (ErrNew "upgradepolicy: versions must be positive")
  else if current =? target then Ok ClassNoChange
  else if target <? current then Ok ClassDowngrade
  else
    let step := target - current in
    if step =? 0 then Ok ClassNoChange
    else if step <=? 1 then Ok ClassMajorInPlace
    else if step <=? 3 then Ok ClassMajorInPlace
    else Ok ClassMajorLogical.

(** The loop [for v := current; v <= current+3; v++]. *)
Definition SupportedTargets (current : Z) : list Z :=
  if current <=? 0 then []
  else filter (fun v => v <= int64 (current + 3)) [current; current + 1; current + 2; current + 3].

Definition IsSafe (current target : Z) : option error :=
  match Classify current target with
  | Err e => Some e
  | Ok ClassNoChange | Ok ClassMinor | Ok ClassMajorInPlace => None
  | Ok ClassMajorLogical =>
      Some (ErrNew ("upgradepolicy: " +:+ itoa current +:+ " -> " +:+ itoa target +:+ " requires logical dump+restore"))
  | Ok ClassDowngrade =>
      Some (ErrNew ("upgradepolicy: cannot downgrade from " +:+ itoa current +:+ " to " +:+ itoa target))
  end.

(** IsSafe and SupportedTargets agree: an upgrade is reported safe exactly when the
    target is listed, and the list is ascending without gaps. *)
Theorem IsSafe_iff_supported current target :
  0 < current <= max_int64 - 3 ->
  (IsSafe current target = None <-> target ∈ SupportedTargets current) /\
  SupportedTargets current = [current; current + 1; current + 2; current + 3].
Proof.
  intros [Hc Hm].
  assert (E : SupportedTargets current = [current; current + 1; current + 2; current + 3]).
  { unfold SupportedTargets. rewrite (proj2 (Z.leb_gt current 0)) by lia.
    rewrite int64_id by (unfold in_int64, min_int64, max_int64 in *; lia).
    rewrite !filter_cons_True by lia. done. }
  split; [|done]. rewrite E, !elem_of_cons, elem_of_nil. unfold IsSafe, Classify.
  rewrite (proj2 (Z.leb_gt current 0)) by lia. cbn [orb].
  destruct (Z.leb_spec target 0); [split; [done|lia]|].
  destruct (Z.eqb_spec current target); [split; [lia|done]|].
  destruct (Z.ltb_spec target current); [split; [done|lia]|].
  destruct (Z.eqb_spec (target - current) 0); [lia|].
  destruct (Z.leb_spec (target - current) 1); [split; [lia|done]|].
  destruct (Z.leb_spec (target - current) 3); [split; [lia|done]|split; [done|lia]].
Qed.

Lemma IsSafe_iff_supported_witness : IsSafe 14 17 = None /\ SupportedTargets 14 = [14; 15; 16; 17].
Proof.
  destruct (IsSafe_iff_supported 14 17 ltac:(unfold max_int64; lia)) as [H E].
  split; [|exact E]. apply H. rewrite E. apply (bool_decide_unpack _). vm_compute. exact I.
Defined.

End UpgradePolicy.
