(* ===== verification/UserState.v ===== *)
(** * Statement plans for users (internal/userstate/userstate.go)

    [Plan] and [PlanRevoke], checked against the reference lexer of SQL scripts of
    [UserController.v]. *)

From Stdlib Require Import ZArith Lia List Bool Ascii.
From stdpp Require Import base list strings gmap.
From S2P Require Import Prelude GoStrings SqlEscape.
From S2P Require Import UserController.

Local Open Scope Z_scope.

Module UserState.
Import SqlEscape UserController.User.

Record User := {
  Name : string;
  Password : string;
  Superuser : bool;
  ConnectionLimit : Z;
  Roles : list string;
  GrantsByDatabase : gmap string (list string);
}.

Definition sorted (items : list string) : list string := sort_strings items.
Definition sortedKeys (m : gmap string (list string)) : list string := sort_strings (map_to_list m).*1.

Section Plan.
Context (T : UnicodeTables).

Definition grant_role_stmt (name role : string) : string :=
  "GRANT " +:+ Identifier role +:+ " TO " +:+ name.
Definition grant_db_stmt (name db g : string) : string :=
  "GRANT " +:+ g +:+ " ON DATABASE " +:+ Identifier db +:+ " TO " +:+ name.

Fixpoint plan_roles (name : string) (roles : list string) : result (list string) :=
  match roles with
  | [] => Ok []
  | role :: rest =>
      if negb (IsValidIdentifier T role) then Err (ErrNew ("userstate: invalid role name " +:+ Quote T role))
      else match plan_roles name rest with
           | Err e => Err e
           | Ok l => Ok (grant_role_stmt name role :: l)
           end
  end.

Fixpoint plan_grants (name db : string) (grants : list string) : result (list string) :=
  match grants with
  | [] => Ok []
  | g :: rest =>
      if negb (IsValidIdentifier T g) then Err (ErrNew ("userstate: invalid privilege " +:+ Quote T g))
      else match plan_grants name db rest with
           | Err e => Err e
           | Ok l => Ok (grant_db_stmt name db g :: l)
           end
  end.

Fixpoint plan_databases (name : string) (m : gmap string (list string)) (dbs : list string) : result (list string) :=
  match dbs with
  | [] => Ok []
  | db :: rest =>
      if negb (IsValidIdentifier T db) then Err (ErrNew ("userstate: invalid database name " +:+ Quote T db))
      else match plan_grants name db (sorted (default [] (m !! db))) with
           | Err e => Err e
           | Ok l =>
               match plan_databases name m rest with
               | Err e => Err e
               | Ok l' => Ok (l ++ l')
               end
           end
  end.

(** The statements on the role itself. *)
Definition plan_role (u : User) (exists_ : bool) : list string :=
  let name := Identifier (Name u) in
  [(if exists_ then "ALTER USER" else "CREATE USER") +:+ " " +:+ name +:+ " WITH LOGIN"]
  ++ (if negb (Password u =? "")%string
      then ["ALTER USER " +:+ name +:+ " WITH PASSWORD " +:+ StringLiteral (Password u)] else [])
  ++ [if Superuser u then "ALTER USER " +:+ name +:+ " SUPERUSER" else "ALTER USER " +:+ name +:+ " NOSUPERUSER"]
  ++ (if negb (ConnectionLimit u =? 0)
      then ["ALTER USER " +:+ name +:+ " CONNECTION LIMIT " +:+ itoa (ConnectionLimit u)] else []).

Definition Plan (u : User) (exists_ : bool) : result (list string) :=
  if (Name u =? "")%string then Err (ErrNew "userstate: user name is required")
  else if negb (IsValidIdentifier T (Name u)) then Err (ErrNew ("userstate: invalid user name " +:+ Quote T (Name u)))
  else if negb (AssertSafePassword (Password u))
  then Err (ErrWrap "userstate: " (ErrNew "sqlescape: password contains an unsafe character") "")
  else
    let name := Identifier (Name u) in
    match plan_roles name (sorted (Roles u)) with
    | Err e => Err e
    | Ok roles =>
        match plan_databases name (GrantsByDatabase u) (sortedKeys (GrantsByDatabase u)) with
        | Err e => Err e
        | Ok grants => Ok (plan_role u exists_ ++ roles ++ grants)
        end
    end.

Definition PlanRevoke (u : User) : list string :=
  if negb (IsValidIdentifier T (Name u)) then []
  else
    let name := Identifier (Name u) in
    omap (fun db => if IsValidIdentifier T db
                    then Some ("REVOKE ALL ON DATABASE " +:+ Identifier db +:+ " FROM " +:+ name) else None)
         (sortedKeys (GrantsByDatabase u))
    ++ ["REASSIGN OWNED BY " +:+ name +:+ " TO postgres"; "DROP OWNED BY " +:+ name;
        "DROP USER IF EXISTS " +:+ name].

(** ** Every statement is one statement *)

Lemma plan_roles_ok name roles l :
  lexes name -> plan_roles name roles = Ok l -> Forall statement_ok l.
Proof.
  intros Hn. revert l. induction roles as [|r roles IH]; intros l; cbn [plan_roles]; [intros [= <-]; by constructor|].
  destruct (IsValidIdentifier T r) eqn:Hr; [|done]. cbn [negb].
  destruct (plan_roles name roles) as [l'|]; [|done]. intros [= <-].
  constructor; [|by apply IH]. split; [|done]. unfold grant_role_stmt. lexes_tac.
Qed.

(** A privilege that opens neither a comment nor a dollar quote. *)
Definition safe_privilege (g : string) : Prop := sall (neqc "-") g = true /\ sall (neqc "$") g = true.

Lemma valid_privilege_plain g : IsValidIdentifier T g = true -> safe_privilege g -> sall plain g = true.
Proof.
  intros Hv [Hd Hs]. unfold IsValidIdentifier in Hv. destruct (_ || _); [done|].
  apply (runes_ascii (valid_rune T)) in Hv.
  assert (H : forall c, (0x80 <=? byte c) || valid_rune T (byte c) = true -> neqc "-" c = true -> neqc "$" c = true -> plain c = true).
  { intros c Hc H1 H2. unfold plain. change dollar with "$"%char. change dash with "-"%char. rewrite H1, H2.
    assert (forall d, (byte d =? 59) || (byte d =? 39) || (byte d =? 34) = true -> neqc d c = true) as Hx.
    { intros d Hdd. unfold neqc. destruct (Ascii.eqb_spec d c) as [->|]; [|done].
      unfold valid_rune, IsLetter, IsDigit, in_range in Hc.
      repeat (apply orb_true_iff in Hdd as [Hdd|Hdd]); apply Z.eqb_eq in Hdd; rewrite Hdd in Hc; done. }
    by rewrite !Hx. }
  clear -Hv Hd Hs H. induction g as [|c g IH]; [done|]. cbn [sall] in *. breflect.
  rewrite H by done. by apply IH.
Qed.

Lemma plan_grants_ok name db grants l :
  lexes name -> IsValidIdentifier T db = true -> Forall safe_privilege grants ->
  plan_grants name db grants = Ok l -> Forall statement_ok l.
Proof.
  intros Hn Hdb Hs. revert l. induction Hs as [|g grants Hg Hs IH]; intros l; cbn [plan_grants]; [intros [= <-]; by constructor|].
  destruct (IsValidIdentifier T g) eqn:Hv; [|done]. cbn [negb].
  destruct (plan_grants name db grants) as [l'|]; [|done]. intros [= <-].
  constructor; [|by apply IH]. split; [|done]. pose proof (lexes_plain g (valid_privilege_plain g Hv Hg)).
  unfold grant_db_stmt. lexes_tac.
Qed.

Lemma plan_databases_ok name m dbs l :
  lexes name -> map_Forall (fun _ gs => Forall safe_privilege gs) m ->
  plan_databases name m dbs = Ok l -> Forall statement_ok l.
Proof.
  intros Hn Hm. revert l. induction dbs as [|db dbs IH]; intros l; cbn [plan_databases]; [intros [= <-]; by constructor|].
  destruct (IsValidIdentifier T db) eqn:Hdb; [|done]. cbn [negb].
  destruct (plan_grants name db (sorted (default [] (m !! db)))) as [l1|] eqn:E1; [|done].
  destruct (plan_databases name m dbs) as [l2|]; [|done]. intros [= <-].
  apply Forall_app. split; [|by apply IH]. eapply plan_grants_ok; [done..| |exact E1].
  unfold sorted. rewrite sort_strings_permutation. destruct (m !! db) as [gs|] eqn:Eg; [|by constructor].
  by apply (Hm db gs).
Qed.

Lemma plan_role_ok u b : IsValidIdentifier T (Name u) = true -> Forall statement_ok (plan_role u b).
Proof.
  intros Hv. unfold plan_role.
  assert (H1 : forall st, statement_ok st -> Forall statement_ok [st]) by (intros; by apply Forall_singleton).
  repeat (apply Forall_app; split); repeat case_match; try (by constructor);
    apply H1; (split; [lexes_tac|done]).
Qed.

End Plan.

(** A plan is exactly its statements.  When Plan accepts a user whose privileges hold
    no dash and no dollar sign, a PostgreSQL lexer splits the statements, written one
    after the other, into exactly the planned ones, whatever the password, roles and
    databases contain; the same holds for PlanRevoke without any condition, and a plan
    never mentions a role, database or privilege that is not a valid identifier. *)
Theorem plan_statements T u b stmts :
  Plan T u b = Ok stmts -> map_Forall (fun _ gs => Forall safe_privilege gs) (GrantsByDatabase u) ->
  sql_statements (script stmts) = stmts /\
  sql_statements (script (PlanRevoke T u)) = PlanRevoke T u /\
  IsValidIdentifier T (Name u) = true /\ Forall (fun r => IsValidIdentifier T r = true) (Roles u).
Proof.
  unfold Plan. destruct (Name u =? "")%string; [done|].
  destruct (IsValidIdentifier T (Name u)) eqn:Hv; [|done]. cbn [negb].
  destruct (AssertSafePassword (Password u)); [|done]. cbn [negb].
  destruct (plan_roles T (Identifier (Name u)) (sorted (Roles u))) as [roles|] eqn:Er; [|done].
  destruct (plan_databases T (Identifier (Name u)) _ _) as [grants|] eqn:Eg; [|done].
  intros E Hs. assert (stmts = plan_role u b ++ roles ++ grants) as -> by congruence.
  pose proof (lexes_ident T _ Hv) as Hn. split_and!.
  - apply sql_statements_script. apply Forall_app. split; [by eapply plan_role_ok|].
    apply Forall_app. split; [by eapply plan_roles_ok|by eapply plan_databases_ok].
  - apply sql_statements_script. unfold PlanRevoke. rewrite Hv. cbn [negb].
    apply Forall_app. split.
    + apply Forall_forall. intros st (db & _ & Hst)%list_elem_of_omap.
      destruct (IsValidIdentifier T db) eqn:Hdb; [|done]. injection Hst as <-. split; [|done]. lexes_tac.
    + repeat apply Forall_cons_2; [..|by constructor]; (split; [lexes_tac|done]).
  - done.
  - assert (Hg : forall l l', plan_roles T (Identifier (Name u)) l = Ok l' -> Forall (fun r => IsValidIdentifier T r = true) l).
    { induction l as [|r l IH]; intros l'; cbn [plan_roles]; [by constructor|].
      destruct (IsValidIdentifier T r) eqn:Hr; [|done]. cbn [negb].
      destruct (plan_roles T _ l) as [l1|]; [|done]. intros _. constructor; [done|]. by eapply IH. }
    rewrite <- (sort_strings_permutation (Roles u)). by eapply Hg.
Qed.

Definition user_sample : User :=
  {| Name := "app"; Password := "it's; -- $$"; Superuser := false; ConnectionLimit := -1;
     Roles := ["writers"; "readers"]; GrantsByDatabase := {[ "shop" := ["CONNECT"; "ALL"] ]} |}.

Lemma plan_statements_witness :
  exists stmts, Plan ascii_tables user_sample false = Ok stmts /\ length stmts = 8%nat /\
    sql_statements (script stmts) = stmts.
Proof.
  destruct (Plan ascii_tables user_sample false) as [stmts|] eqn:E; [|vm_compute in E; discriminate E].
  exists stmts. split; [reflexivity|]. split; [vm_compute in E; injection E as <-; reflexivity|].
  apply (plan_statements ascii_tables user_sample false stmts E).
  apply (bool_decide_unpack _). vm_compute. exact I.
Defined.

(** A privilege is checked as an identifier but written without quotes, and dashes are
    valid identifier bytes: the privilege [ALL--] is accepted, and a lexer reads the
    database and user clauses of its statement as a comment. *)
Theorem privilege_opens_comment T name db rest :
  plan_grants T name db ["ALL--"] = Ok [grant_db_stmt name db "ALL--"] /\
  lex Top (grant_db_stmt name db "ALL--" +:+ rest) =
    prepend "GRANT ALL--" (lex Comment (" ON DATABASE " +:+ Identifier db +:+ " TO " +:+ name +:+ rest)).
Proof.
  split; [reflexivity|]. unfold grant_db_stmt. rewrite !app_assoc_s.
  rewrite (lexes_plain "GRANT ") by done.
  change ("ALL--" +:+ ?x) with ("ALL" +:+ String "-" (String "-" x)). rewrite (lexes_plain "ALL") by done.
  by rewrite (prepend_app "GRANT " "ALL--"), (prepend_app "ALL" "--").
Qed.

End UserState.
