(* ===== verification/Meta.v ===== *)
(** * Metadata helpers

    One module per package: [Conditions] (internal/conditions), [Finalizers]
    (internal/finalizers), [Owner] (internal/owner), [LabelSet] (internal/labels),
    [Validation] (internal/validation) and [DnsName] (internal/dnsname).  Where an
    operation writes into the slice it is given, it returns the new slice and what the
    caller's slice holds afterwards. *)

From Stdlib Require Import ZArith Lia List Bool Ascii.
From stdpp Require Import base list strings gmap.
From S2P Require Import Prelude GoStrings K8s Api PgConfig PgStatus JsonPatch Images.

Local Open Scope Z_scope.

(** ** internal/conditions *)
Module Conditions.
Import Status.

(** The zero [metav1.Time]: January 1, year 1. *)
Definition zero_time : Z := -62135596800 * 1000000000.

Definition with_time (c : Condition) (t : Z) : Condition :=
  {| cond_Type := cond_Type c; cond_Status := cond_Status c; cond_ObservedGeneration := cond_ObservedGeneration c;
     cond_LastTransitionTime := t; cond_Reason := cond_Reason c; cond_Message := cond_Message c |}.

(** The loop of [Set]: the matching entry is overwritten in place. *)
Fixpoint set_in (conds : list Condition) (c : Condition) : option (list Condition) :=
  match conds with
  | [] => None
  | existing :: rest =>
      if negb (cond_Type existing =? cond_Type c)%string
      then match set_in rest c with Some l => Some (existing :: l) | None => None end
      else
        let c := if decide (cond_Status existing = cond_Status c)
                 then with_time c (cond_LastTransitionTime existing) else c in
        Some (c :: rest)
  end.

(** [Set]; [now] is the clock reading.  The second component is the caller's slice. *)
Definition Set_ (now : Z) (conds : list Condition) (c : Condition) : list Condition * list Condition :=
  let c := if cond_LastTransitionTime c =? zero_time then with_time c now else c in
  match set_in conds c with
  | Some l => (l, l)
  | None => (conds ++ [c], conds)
  end.

(** [Remove]: the kept entries are written to the front of the shared array. *)
Definition Remove (conds : list Condition) (condType : string) : list Condition * list Condition :=
  let out := filter (fun c => cond_Type c <> condType) conds in
  (out, out ++ drop (length out) conds).

Definition Find (conds : list Condition) (condType : string) : option Condition :=
  List.find (fun c => (cond_Type c =? condType)%string) conds.

Definition status_is (st : ConditionStatus) (o : option Condition) : bool :=
  match o with Some c => bool_decide (cond_Status c = st) | None => false end.

Definition IsTrue (conds : list Condition) (t : string) : bool := status_is ConditionTrue (Find conds t).
Definition IsFalse (conds : list Condition) (t : string) : bool := status_is ConditionFalse (Find conds t).
Definition IsUnknown (conds : list Condition) (t : string) : bool :=
  match Find conds t with None => true | Some c => bool_decide (cond_Status c = ConditionUnknown) end.

Definition mk (st : ConditionStatus) (condType reason message : string) : Condition :=
  {| cond_Type := condType; cond_Status := st; cond_ObservedGeneration := 0;
     cond_LastTransitionTime := zero_time; cond_Reason := reason; cond_Message := message |}.
Definition True_ := mk ConditionTrue.
Definition False_ := mk ConditionFalse.
Definition Unknown_ := mk ConditionUnknown.

Definition WithObservedGeneration (c : Condition) (gen : Z) : Condition :=
  {| cond_Type := cond_Type c; cond_Status := cond_Status c; cond_ObservedGeneration := gen;
     cond_LastTransitionTime := cond_LastTransitionTime c; cond_Reason := cond_Reason c; cond_Message := cond_Message c |}.

Definition AnyFalse (conds : list Condition) (types : list string) : bool := existsb (IsFalse conds) types.
Definition AllTrue (conds : list Condition) (types : list string) : bool := forallb (IsTrue conds) types.

Definition FilterByPrefix (conds : list Condition) (prefix : string) : list Condition :=
  if (prefix =? "")%string then conds
  else filter (fun c => has_prefix prefix (cond_Type c) = true) conds.

(** The two setters of conditions in the code base agree, entry by entry. *)
Lemma set_in_upsert gen now st ty reason msg conds :
  match set_in conds (with_time (WithObservedGeneration (mk st ty reason msg) gen) now) with
  | Some l => upsert gen now ty st reason msg conds = l
  | None => upsert gen now ty st reason msg conds = conds ++ [mkCondition gen now ty st reason msg]
  end.
Proof.
  induction conds as [|c conds IH]; [done|]. cbn [set_in upsert with_time WithObservedGeneration mk cond_Type cond_Status].
  destruct (cond_Type c =? ty)%string; cbn [negb]; [by case_decide|].
  by destruct (set_in conds _); rewrite IH.
Qed.

Lemma Find_app l1 l2 t : Find (l1 ++ l2) t = match Find l1 t with Some c => Some c | None => Find l2 t end.
Proof. unfold Find. induction l1 as [|c l1 IH]; [done|]. cbn. by destruct (_ =? _)%string. Qed.

Lemma Find_Remove conds t u : Find (Remove conds t).1 u = if decide (u = t) then None else Find conds u.
Proof.
  unfold Remove, Find. cbn [fst]. induction conds as [|c conds IH]; [by case_decide|].
  rewrite filter_cons. destruct (String.eqb_spec (cond_Type c) u) as [Eu|Hu].
  - destruct (decide (cond_Type c <> t)) as [Ht|Ht].
    + cbn. rewrite Eu, String.eqb_refl. rewrite decide_False by congruence. done.
    + rewrite IH. destruct (decide (u = t)); [done|]. exfalso. apply Ht. congruence.
  - apply String.eqb_neq in Hu. destruct (decide (cond_Type c <> t)); cbn; rewrite ?Hu; exact IH.
Qed.

(** The condition helpers agree with the operator's status code and with each other:
    Set with a freshly built condition is the upsert of internal/postgres/status.go, the
    predicates of the written type read the status back, Remove makes the type unknown
    and keeps every other type. *)
Theorem Set_matches_upsert gen now st ty reason msg conds :
  let c := WithObservedGeneration (mk st ty reason msg) gen in
  (Set_ now conds c).1 = upsert gen now ty st reason msg conds /\
  status_is st (Find (Set_ now conds c).1 ty) = true /\
  IsUnknown (Remove conds ty).1 ty = true /\
  (forall u, u <> ty -> Find (Set_ now conds c).1 u = Find conds u /\ Find (Remove conds ty).1 u = Find conds u).
Proof.
  cbv zeta.
  assert (E : (Set_ now conds (WithObservedGeneration (mk st ty reason msg) gen)).1 = upsert gen now ty st reason msg conds).
  { unfold Set_. cbn [cond_LastTransitionTime WithObservedGeneration mk]. rewrite Z.eqb_refl.
    pose proof (set_in_upsert gen now st ty reason msg conds) as H.
    destruct (set_in conds _); cbn [fst]; by rewrite H. }
  rewrite E. split_and!.
  - done.
  - clear E. induction conds as [|c conds IH]; [cbn; rewrite String.eqb_refl; by apply bool_decide_eq_true|].
    cbn [upsert]. destruct (cond_Type c =? ty)%string eqn:Ec; unfold Find in *; cbn [List.find].
    + rewrite String.eqb_refl. by apply bool_decide_eq_true.
    + by rewrite Ec.
  - unfold IsUnknown. by rewrite Find_Remove, decide_True.
  - intros u Hu. split; [|by rewrite Find_Remove, decide_False].
    clear E. induction conds as [|c conds IH]; unfold Find in *.
    + cbn. destruct (String.eqb_spec ty u); [congruence|done].
    + cbn [upsert]. destruct (String.eqb_spec (cond_Type c) ty) as [Ec|Ec]; cbn [List.find cond_Type mkCondition].
      * rewrite Ec. by destruct (String.eqb_spec ty u); [congruence|].
      * destruct (cond_Type c =? u)%string; [done|]. exact IH.
Qed.

(** Remove leaves stale entries behind in the caller's slice. *)
Example Remove_overwrites_argument t u r m :
  t <> u ->
  (Remove [mk ConditionTrue t r m; mk ConditionTrue u r m] t).2 = [mk ConditionTrue u r m; mk ConditionTrue u r m].
Proof.
  intros Hne. unfold Remove. rewrite filter_cons_False, filter_cons_True, filter_nil; [done|cbn; congruence|cbn; tauto].
Qed.

End Conditions.

(** ** internal/finalizers *)
Module Finalizers.

Definition Contains (l : list string) (f : string) : bool := existsb (String.eqb f) l.

Definition Add (l : list string) (f : string) : list string * bool :=
  if Contains l f then (l, false) else (l ++ [f], true).

Definition Remove (l : list string) (f : string) : list string * bool :=
  (filter (fun x => x <> f) l, Contains l f).

Definition PostgresClusterFinalizer : string := "pg.athos.io/postgrescluster".
Definition PostgresBackupFinalizer : string := "pg.athos.io/postgresbackup".
Definition PostgresUserFinalizer : string := "pg.athos.io/postgresuser".
Definition PostgresPoolerFinalizer : string := "pg.athos.io/postgrespooler".

Definition AthosFinalizer (f : string) : bool :=
  existsb (String.eqb f) [PostgresClusterFinalizer; PostgresBackupFinalizer; PostgresUserFinalizer; PostgresPoolerFinalizer].

Lemma Contains_spec l f : Contains l f = true <-> f ∈ l.
Proof.
  unfold Contains. rewrite existsb_exists. split.
  - intros (x & Hx & E). apply String.eqb_eq in E as <-. by apply list_elem_of_In.
  - intros H. exists f. split; [by apply list_elem_of_In|apply String.eqb_refl].
Qed.

(** Finalizer bookkeeping: after Add the finalizer is present once more at most and
    nothing else changed, after Remove it is gone with every duplicate and the others keep
    their order, the flags report exactly whether the list changed, and removing what was
    just added restores the list.  The finalizer the cluster controller sets is not one
    that AthosFinalizer recognises. *)
Theorem finalizer_laws l f :
  Contains (Add l f).1 f = true /\ Contains (Remove l f).1 f = false /\
  ((Add l f).2 = true <-> (Add l f).1 <> l) /\ ((Remove l f).2 = true <-> (Remove l f).1 <> l) /\
  (Contains l f = false -> (Remove (Add l f).1 f).1 = l) /\
  AthosFinalizer Api.PostgresClusterFinalizer = false.
Proof.
  assert (Hrm : f ∉ l -> filter (fun x => x <> f) l = l).
  { induction l as [|x l IH]; [done|]. intros H. rewrite not_elem_of_cons in H.
    rewrite filter_cons_True, IH by naive_solver. done. }
  unfold Add, Remove. destruct (Contains l f) eqn:E; cbn [fst snd].
  - split_and!; try done.
    + apply not_true_iff_false. rewrite Contains_spec, list_elem_of_filter. tauto.
    + split; [intros _ H|done]. apply Contains_spec in E. rewrite <- H, list_elem_of_filter in E. tauto.
  - assert (f ∉ l) as Hf by (rewrite <- Contains_spec; congruence). split_and!.
    + apply Contains_spec. apply elem_of_app. right. by apply list_elem_of_singleton.
    + apply not_true_iff_false. rewrite Contains_spec, list_elem_of_filter. tauto.
    + split; [|done]. intros _ H. apply (f_equal length) in H. rewrite length_app in H. cbn in H. lia.
    + split; [done|]. intros H. by rewrite Hrm in H.
    + intros _. rewrite filter_app, Hrm, filter_cons_False, filter_nil by tauto. apply app_nil_r.
    + done.
Qed.

End Finalizers.

(** ** internal/owner *)
Module Owner.
Import Patcher.

Definition Find (refs : list OwnerRef) (apiVersion kind : string) : option OwnerRef :=
  List.find (fun r => (ref_APIVersion r =? apiVersion)%string && (ref_Kind r =? kind)%string) refs.

Definition FindByKind (refs : list OwnerRef) (kind : string) : option OwnerRef :=
  List.find (fun r => (ref_Kind r =? kind)%string) refs.

Definition IsControlledBy (refs : list OwnerRef) (apiVersion kind name : string) : bool :=
  existsb (fun r => (ref_APIVersion r =? apiVersion)%string && (ref_Kind r =? kind)%string
                    && (ref_Name r =? name)%string && ref_Controller r) refs.

Definition IsManagedByAthos (refs : list OwnerRef) : bool :=
  existsb (fun r => existsb (String.eqb (ref_Kind r))
                      ["PostgresCluster"; "PostgresBackup"; "PostgresUser"; "PostgresPooler"]) refs.

Definition Names (refs : list OwnerRef) : list string := map ref_Name refs.
Definition Controller (refs : list OwnerRef) : option OwnerRef := List.find ref_Controller refs.

(** After the patcher records an owner of an Athos kind, the object counts as managed,
    and as controlled by it unless another reference had the same UID. *)
Lemma setOwnerReference_controlled refs name uid gvk :
  existsb (fun r => (ref_UID r =? uid)%string) refs = false ->
  IsControlledBy (setOwnerReference refs name uid gvk) (gvk_GroupVersion gvk) (gvk_Kind gvk) name = true /\
  Names (setOwnerReference refs name uid gvk) = Names refs ++ [name].
Proof.
  intros H. unfold setOwnerReference. cbn [ref_UID]. rewrite H. split.
  - unfold IsControlledBy. rewrite existsb_app. cbn. rewrite !String.eqb_refl. by rewrite orb_true_r.
  - unfold Names. by rewrite map_app.
Qed.

End Owner.

(** ** internal/labels *)
Module LabelSet.



Definition Merge (base overlay : gmap string string) : gmap string string := overlay ∪ base.
Definition MergeAll (sets : list (gmap string string)) : gmap string string := foldl (fun out s => s ∪ out) ∅ sets.

(** [m[k]] of a missing key is the empty string. *)
Definition get (m : gmap string string) (k : string) : string := default "" (m !! k).

Definition Equal (a b : gmap string string) : bool :=
  (size a =? size b)%nat && bool_decide (map_Forall (fun k v => get b k = v) a).

Definition HasAll (got want : gmap string string) : bool := bool_decide (map_Forall (fun k v => get got k = v) want).

Definition Keys (s : gmap string string) : list string := sort_strings (map_to_list s).*1.

Definition SelectorString (s : gmap string string) : string :=
  strings_join "," (map (fun k => k +:+ "=" +:+ get s k) (Keys s)).

Definition Subtract (a b : gmap string string) : gmap string string := filter (fun kv => b !! kv.1 = None) a.

Section Validity.
Context (T : UnicodeTables).

Definition isAlnum (r : Z) : bool := IsLetter T r || IsDigit T r.

Fixpoint last_byte (c : ascii) (s : string) : ascii :=
  match s with EmptyString => c | String d s' => last_byte d s' end.

(** The first and last byte are read as runes. *)
Definition isLabelName (s : string) : bool :=
  match s with
  | EmptyString => false
  | String c s' =>
      if (63 <? String.length s)%nat then false
      else if negb (isAlnum (byte c)) || negb (isAlnum (byte (last_byte c s'))) then false
      else forallb (fun r => isAlnum r.1 || existsb (Z.eqb r.1) [45; 95; 46]) (runes s)
  end.

Definition dns_rune (r : Z) : bool := IsLower T r || IsDigit T r.

Definition dns_part (label : string) : bool :=
  match label with
  | EmptyString => false
  | String c s' =>
      (String.length label <=? 63)%nat && dns_rune (byte c) && dns_rune (byte (last_byte c s'))
      && forallb (fun r => dns_rune r.1 || (r.1 =? 45)) (runes label)
  end.

Definition isDNSSubdomain (s : string) : bool :=
  negb (s =? "")%string && (String.length s <=? 253)%nat && forallb dns_part (split_byte "." s).

Definition IsValidKey (s : string) : bool :=
  if (s =? "")%string || (253 <? String.length s)%nat then false
  else match split_first "/" s with
       | Some (prefix, name) => isDNSSubdomain prefix && isLabelName name
       | None => isLabelName s
       end.

Definition IsValidValue (s : string) : bool :=
  if (63 <? String.length s)%nat then false else if (s =? "")%string then true else isLabelName s.

(** Whether [Validate] returns nil; which of several errors it returns depends on the
    iteration order of the map. *)
Definition Validate (s : gmap string string) : bool :=
  bool_decide (map_Forall (fun k v => IsValidKey k = true /\ IsValidValue v = true) s).

End Validity.

Lemma Equal_spec a b : map_Forall (fun _ v => v <> "") a -> Equal a b = true <-> a = b.
Proof.
  intros Hne. unfold Equal. rewrite andb_true_iff, Nat.eqb_eq, bool_decide_eq_true. split.
  - intros [Hs Hf].
    assert (Hsub : a ⊆ b).
    { apply map_subseteq_spec. intros k v Hk. specialize (Hf k v Hk). specialize (Hne k v Hk).
      cbv beta in Hf, Hne. unfold get in Hf.
      destruct (b !! k) as [v'|] eqn:Eb; cbn [from_option] in Hf; unfold id in Hf; [|congruence].
      by rewrite <- Hf. }
    apply map_subseteq_size_eq in Hsub; [done|lia].
  - intros ->. split; [done|]. intros k v Hk. unfold get. by rewrite Hk.
Qed.

Lemma empty_value_found k j v : k <> j ->
  map_Forall (fun k0 v0 => get {[ j := v ]} k0 = v0) ({[ k := "" ]} : gmap string string).
Proof. intros Hne. apply map_Forall_singleton. unfold get. by rewrite lookup_singleton_ne. Qed.

Lemma Equal_empty_value k j v : k <> j -> Equal {[ k := "" ]} {[ j := v ]} = true.
Proof.
  intros Hne. unfold Equal. rewrite !map_size_singleton. cbn.
  apply bool_decide_eq_true. by apply empty_value_found.
Qed.

(** Equal decides equality of label sets whose values are not empty; with an empty
    value it confuses a missing key with it, so two sets that share no key can be reported
    equal, and HasAll accepts a set that lacks the wanted key. *)
Theorem label_equality a b :
  (map_Forall (fun _ v => v <> "") a -> Equal a b = true <-> a = b) /\
  (forall k j v, k <> j -> Equal {[ k := "" ]} {[ j := v ]} = true /\ HasAll {[ j := v ]} {[ k := "" ]} = true).
Proof.
  split; [apply Equal_spec|]. intros k j v Hne. split; [by apply Equal_empty_value|].
  apply bool_decide_eq_true. by apply empty_value_found.
Qed.

Lemma Merge_lookup base overlay k :
  Merge base overlay !! k = match overlay !! k with Some v => Some v | None => base !! k end.
Proof. unfold Merge. rewrite lookup_union. by destruct (overlay !! k), (base !! k). Qed.

End LabelSet.

(** ** internal/validation *)
Module Validation.

(** [Bad] holds the offending value as [%v] prints it. *)
Record FieldError := { Field : string; Detail : string; Bad : string }.

Definition field_Error (f : FieldError) : string :=
  Field f +:+ ": " +:+ Detail f +:+ " (got " +:+ Bad f +:+ ")".

Definition Errors := list FieldError.

Definition Add (e : Errors) (field detail bad : string) : Errors :=
  e ++ [{| Field := field; Detail := detail; Bad := bad |}].

Definition Err_ (e : Errors) : option error :=
  match e with [] => None | _ => Some (ErrNew (strings_join "; " (map field_Error e))) end.

Definition Has (e : Errors) (field : string) : bool := existsb (fun fe => (Field fe =? field)%string) e.

Definition IntInRange (field : string) (v min max : Z) : option FieldError :=
  if (v <? min) || (max <? v)
  then Some {| Field := field; Detail := "must be between " +:+ itoa min +:+ " and " +:+ itoa max; Bad := itoa v |}
  else None.

Definition OneOf (field v : string) (allowed : list string) : option FieldError :=
  if existsb (String.eqb v) allowed then None
  else Some {| Field := field; Detail := "must be one of " +:+ strings_join ", " allowed; Bad := v |}.

Definition NonEmpty (field v : string) : option FieldError :=
  if (v =? "")%string then Some {| Field := field; Detail := "must not be empty"; Bad := v |} else None.

Definition MaxLength (field v : string) (n : Z) : option FieldError :=
  if n <? Z.of_nat (String.length v)
  then Some {| Field := field; Detail := "must be at most " +:+ itoa n +:+ " characters"; Bad := itoa (Z.of_nat (String.length v)) |}
  else None.

Definition MinLength (field v : string) (n : Z) : option FieldError :=
  if Z.of_nat (String.length v) <? n
  then Some {| Field := field; Detail := "must be at least " +:+ itoa n +:+ " characters"; Bad := itoa (Z.of_nat (String.length v)) |}
  else None.

Definition isLowerAlnum (c : ascii) : bool := is_lower c || is_digit c.

(** The loop of [IsDNSLabel]; a rune outside ASCII is rejected at every position, so the
    bytes may be visited one by one. *)
Fixpoint dns_rest (s : string) : bool :=
  match s with
  | EmptyString => true
  | String c EmptyString => isLowerAlnum c
  | String c s' => (isLowerAlnum c || Ascii.eqb c "-") && dns_rest s'
  end.

Definition IsDNSLabel (s : string) : bool :=
  match s with
  | EmptyString => false
  | String c s' => (String.length s <=? 63)%nat && isLowerAlnum c && dns_rest s'
  end.

Definition DNSLabel (field s : string) : option FieldError :=
  if IsDNSLabel s then None
  else Some {| Field := field; Bad := s;
               Detail := "must be a valid RFC1035 DNS label (lowercase, alphanumeric, hyphens, 1-63 chars)" |}.

Definition Append (errs : Errors) (e : list (option FieldError)) : Errors := errs ++ omap id e.

(** The aggregated error is nil exactly when every check passed. *)
Lemma Append_nil_iff errs e : Err_ (Append errs e) = None <-> errs = [] /\ Forall (eq None) e.
Proof.
  unfold Append. split.
  - intros H. destruct errs; [|done]. split; [done|]. cbn [app] in H.
    induction e as [|[x|] e IH]; [by constructor|done|]. constructor; [done|]. by apply IH.
  - intros [-> H]. cbn. induction H as [|x e <- H IH]; [done|]. exact IH.
Qed.

(** *** Labels made of valid parts *)

Lemma dns_rest_app a c b :
  sall (fun c => isLowerAlnum c || Ascii.eqb c "-") a = true -> dns_rest (String c b) = true ->
  dns_rest (a +:+ String c b) = true.
Proof.
  intros Ha Hb. induction a as [|d a IH]; [done|]. cbn [sall] in Ha. breflect. rewrite app_cons_l.
  specialize (IH H0). cbn [dns_rest]. destruct a as [|e a].
  - rewrite app_nil_l_s in *. by rewrite H, Hb.
  - rewrite app_cons_l in *. by rewrite H, IH.
Qed.

Lemma dns_rest_bytes s : dns_rest s = true -> sall (fun c => isLowerAlnum c || Ascii.eqb c "-") s = true.
Proof.
  induction s as [|c s IH]; [done|]. cbn [dns_rest sall]. destruct s as [|d s].
  - intros H. by rewrite H.
  - intros H. breflect. rewrite H. by apply IH.
Qed.

(** A DNS label followed by a suffix that starts with a dash and ends in a letter or
    digit is one again, while it fits. *)
Lemma IsDNSLabel_suffix s a c b :
  IsDNSLabel s = true -> sall (fun c => isLowerAlnum c || Ascii.eqb c "-") a = true ->
  dns_rest (String c b) = true -> (String.length s + String.length (a +:+ String c b) <= 63)%nat ->
  IsDNSLabel (s +:+ a +:+ String c b) = true.
Proof.
  destruct s as [|x s]; [done|]. intros Hs Ha Hb Hlen. rewrite app_cons_l. cbn [IsDNSLabel] in *. breflect.
  apply andb_true_intro. split; [apply andb_true_intro; split; [|done]|].
  - apply Nat.leb_le. cbn [String.length] in *. rewrite length_app_s. lia.
  - rewrite <- app_assoc_s. apply dns_rest_app; [|done]. rewrite sall_app, Ha, andb_true_r. by apply dns_rest_bytes.
Qed.

End Validation.

(** ** internal/dnsname *)
Module DnsName.

(** The configured domain is a package variable; it is an argument here. *)
Definition default_domain : string := "cluster.local".

Definition SetClusterDomain (domain : string) : string :=
  if (domain =? "")%string then default_domain else trim_suffix_byte "." domain.

Definition ServiceFQDN (clusterDomain svc namespace : string) : string :=
  svc +:+ "." +:+ namespace +:+ ".svc." +:+ clusterDomain.

Definition PodFQDN (clusterDomain pod headlessSvc namespace : string) : string :=
  pod +:+ "." +:+ headlessSvc +:+ "." +:+ namespace +:+ ".svc." +:+ clusterDomain.

Definition PrimaryFQDN (d cluster namespace : string) : string := ServiceFQDN d (cluster +:+ "-rw") namespace.
Definition ReplicaFQDN (d cluster namespace : string) : string := ServiceFQDN d (cluster +:+ "-ro") namespace.
Definition AnyFQDN (d cluster namespace : string) : string := ServiceFQDN d (cluster +:+ "-any") namespace.
Definition HeadlessFQDN (d cluster namespace : string) : string := ServiceFQDN d (cluster +:+ "-headless") namespace.

Definition SearchPath (d namespace : string) : list string :=
  [namespace +:+ ".svc." +:+ d; "svc." +:+ d; d].

End DnsName.
