(* ===== verification/Names.v ===== *)
(** * Well-formed names

    Every name and label the operator derives from a cluster, checked with the code's own
    validators: [Validation.IsDNSLabel] and [LabelSet.Validate].  Also the names of
    internal/dnsname against those of the services the operator builds. *)

From Stdlib Require Import ZArith Lia List Bool Ascii.
From stdpp Require Import base list strings gmap.
From S2P Require Import Prelude GoStrings K8s Api PgConfig PgStatus PgResources.
From S2P Require Import Pdb ClusterController Pgbouncer Meta.

Local Open Scope Z_scope.

Module Names.
Import Naming Labels Resources Validation LabelSet.

(** ** Decimal numbers as labels *)

Lemma digits_go_length fuel : forall n acc (k : nat),
  0 <= n < 10 ^ Z.of_nat k -> (1 <= k)%nat ->
  (String.length (digits_go fuel n acc) <= k + String.length acc)%nat.
Proof.
  induction fuel as [|fuel IH]; intros n acc k Hn Hk; [cbn; lia|]. cbn [digits_go].
  destruct (Z.ltb_spec n 10); [cbn; lia|].
  destruct k as [|[|k]]; [lia|cbn in Hn; lia|].
  assert (0 <= n / 10 < 10 ^ Z.of_nat (S k)).
  { rewrite Nat2Z.inj_succ, Z.pow_succ_r in Hn by lia. split; [apply Z.div_pos; lia|].
    apply Z.div_lt_upper_bound; lia. }
  etrans; [apply (IH (n / 10) _ (S k)); [done|lia]|]. cbn. lia.
Qed.

Lemma digits_length n (k : nat) : 0 <= n < 10 ^ Z.of_nat k -> (1 <= k)%nat -> (String.length (digits n) <= k)%nat.
Proof. intros Hn Hk. unfold digits. pose proof (digits_go_length (S (Z.to_nat (Z.log2 n))) n "" k Hn Hk).
  change (String.length "") with 0%nat in H. lia. Qed.

Lemma digits_dns_rest n : 0 <= n -> dns_rest (digits n) = true.
Proof.
  intros Hn. pose proof (digits_all n Hn) as H. induction (digits n) as [|c s IH]; [done|].
  cbn [sall dns_rest] in *. breflect. unfold isLowerAlnum. rewrite H, orb_true_r.
  destruct s; [done|]. by apply IH.
Qed.

Lemma itoa_nonneg n : 0 <= n -> itoa n = digits n.
Proof. intros Hn. unfold itoa. by rewrite (proj2 (Z.ltb_ge n 0)). Qed.

Lemma itoa_dns n : 0 <= n < 10 ^ 10 -> IsDNSLabel (itoa n) = true.
Proof.
  intros Hn. rewrite itoa_nonneg by lia. pose proof (digits_dns_rest n ltac:(lia)) as H.
  pose proof (digits_length n 10 ltac:(cbn; lia) ltac:(lia)) as Hl. pose proof (digits_all n ltac:(lia)) as Ha.
  destruct (digits_cons n) as (c & s & E). rewrite E in *. cbn [IsDNSLabel]. cbn [sall] in Ha. breflect.
  rewrite (proj2 (Nat.leb_le _ _)) by lia. unfold isLowerAlnum at 1. rewrite H0, orb_true_r. cbn [andb].
  by destruct s; [|cbn [dns_rest] in H; breflect].
Qed.

(** ** DNS labels are label values *)

Lemma lowerAlnum_alnum T c : isLowerAlnum c = true -> isAlnum T (byte c) = true.
Proof.
  unfold isLowerAlnum, isAlnum, IsLetter, IsDigit, is_lower, is_digit, in_range. intros H.
  assert (byte c < 0x80) by lia. rewrite (proj2 (Z.ltb_lt _ _) H0). lia.
Qed.

Lemma dns_last c s : isLowerAlnum c = true -> dns_rest s = true -> isLowerAlnum (last_byte c s) = true.
Proof.
  revert c. induction s as [|d s IH]; intros c Hc Hs; [done|]. cbn [last_byte dns_rest] in *.
  destruct s as [|e s]; [done|]. breflect. change (isLowerAlnum (last_byte e s) = true).
  specialize (IH "a"%char eq_refl H0). exact IH.
Qed.

Lemma dns_label_name T s : IsDNSLabel s = true -> isLabelName T s = true /\ IsValidValue T s = true.
Proof.
  intros H. assert (isLabelName T s = true) as Hn.
  { destruct s as [|c s]; [done|]. cbn [IsDNSLabel] in H. breflect. unfold isLabelName.
    rewrite (proj2 (Nat.ltb_ge _ _)) by (by apply Nat.leb_le).
    rewrite !lowerAlnum_alnum by (try apply dns_last; done). cbn [negb orb].
    assert (Hb : sall (fun c => isLowerAlnum c || Ascii.eqb c "-") (String c s) = true).
    { cbn [sall]. rewrite H1. cbn. by apply dns_rest_bytes. }
    rewrite runes_all_ascii.
    2: { eapply sall_impl; [|exact Hb]. intros d Hd. by destruct d as [[] [] [] [] [] [] [] []]. }
    apply forallb_forall. intros [r b] Hr. apply in_map_iff in Hr as (d & [= <- <-] & Hd).
    assert (isLowerAlnum d || Ascii.eqb d "-" = true) as Hd'.
    { clear -Hb Hd. induction (String c s) as [|e t IH]; [done|]. cbn [sall] in Hb. breflect.
      destruct Hd as [->|Hd]; [done|by apply IH]. }
    cbn [fst]. apply orb_true_iff in Hd' as [Hd'|Hd']; [by rewrite lowerAlnum_alnum|].
    apply Ascii.eqb_eq in Hd' as ->. by rewrite orb_true_r. }
  split; [done|]. unfold IsValidValue. destruct s as [|c s]; [done|]. cbn [IsDNSLabel] in H. breflect.
  rewrite (proj2 (Nat.ltb_ge _ _)) by (by apply Nat.leb_le). done.
Qed.

(** ** The names of a cluster *)

(** The names of the objects the operator creates for a cluster, those of the pooler
    included: the service account only when the spec names none. *)
Definition service_names (c : PostgresCluster) : list string :=
  [PrimaryServiceName c; ReplicaServiceName c; HeadlessServiceName c; Pgbouncer.ServiceName (cluster_Name c)].
Definition derived_names (c : PostgresCluster) : list string :=
  service_names c ++
  [ClusterStatefulSetName c; Naming.ConfigMapName c; Naming.SecretName c;
   Pgbouncer.DeploymentName (cluster_Name c); Pgbouncer.ConfigMapName (cluster_Name c);
   Pgbouncer.SecretName (cluster_Name c); om_Name (pdb_Meta (Cluster.desired_pdb c))] ++
  (if (pcs_ServiceAccountName (pc_Spec c) =? "")%string then [om_Name (sa_Meta (Resources.BuildServiceAccount c))] else []).

Lemma suffix_dns (s : string) (d e : ascii) (x y : string) :
  IsDNSLabel s = true -> sall (fun c => isLowerAlnum c || Ascii.eqb c "-") x = true -> dns_rest (String e y) = true ->
  (String.length s <= 46)%nat -> (String.length (x +:+ String e y) <= 17)%nat -> IsDNSLabel (s +:+ x +:+ String e y) = true.
Proof. intros. apply IsDNSLabel_suffix; try done. lia. Qed.

Lemma Validate_list T (l : list (string * string)) :
  Forall (fun kv => IsValidKey T kv.1 = true /\ IsValidValue T kv.2 = true) l -> Validate T (list_to_map l) = true.
Proof.
  intros H. apply bool_decide_eq_true. induction H as [|[k v] l Hkv _ IH]; [apply map_Forall_empty|].
  by apply map_Forall_insert_2.
Qed.

(** C33: Every name and label derived from a cluster is well formed, by the code's own
    validators: if the cluster's name is a DNS label of at most 46 bytes and its version is
    a number of at most ten digits, then the names of the objects the operator creates for
    it (StatefulSet, services, ConfigMaps, Secrets, disruption budget, service account,
    pooler objects) and of every pod with an ordinal of at most ten digits are DNS labels;
    the service names are pairwise different; and the common labels and pod
    labels pass label validation, whatever the Unicode tables. *)
Theorem derived_names_wellformed T c :
  IsDNSLabel (cluster_Name c) = true -> (String.length (cluster_Name c) <= 46)%nat ->
  0 <= pcs_PostgresVersion (pc_Spec c) < 10 ^ 10 ->
  Forall (fun n => IsDNSLabel n = true) (derived_names c) /\ NoDup (service_names c) /\
  (forall i, 0 <= i < 10 ^ 10 -> IsDNSLabel (PodName c i) = true) /\
  Validate T (CommonLabels c) = true /\ Validate T (podLabels c) = true.
Proof.
  intros Hn Hl Hv.
  assert (Hs : forall suffix, (exists x e y, suffix = x +:+ String e y /\
      sall (fun c => isLowerAlnum c || Ascii.eqb c "-") x = true /\ dns_rest (String e y) = true /\
      (String.length suffix <= 17)%nat) -> IsDNSLabel (cluster_Name c +:+ suffix) = true).
  { intros suffix (x & e & y & -> & Hx & Hy & Hlen). by apply (suffix_dns _ "a"). }
  assert (Hc : Validate T (CommonLabels c) = true).
  { unfold CommonLabels. apply Validate_list.
    assert (Hname : IsValidValue T (cluster_Name c) = true) by (by apply dns_label_name).
    assert (Hver : IsValidValue T (itoa (pcs_PostgresVersion (pc_Spec c))) = true) by (by apply dns_label_name, itoa_dns).
    repeat apply Forall_cons_2; [..|by constructor]; cbn [fst snd]; (split; [vm_compute; reflexivity|]);
      first [exact Hname | exact Hver | vm_compute; reflexivity]. }
  split_and!.
  - unfold derived_names, service_names. cbn [app].
    assert (Hsa : Forall (fun n => IsDNSLabel n = true)
      (if (pcs_ServiceAccountName (pc_Spec c) =? "")%string then [om_Name (sa_Meta (Resources.BuildServiceAccount c))] else [])).
    { destruct (String.eqb_spec (pcs_ServiceAccountName (pc_Spec c)) "") as [Esa|]; [|constructor].
      cbn. unfold ServiceAccountName. rewrite Esa. cbn. constructor; [|constructor]. apply Hs.
      exists "-"; eexists _, _; split; [reflexivity|]; split; [reflexivity|]; split; [reflexivity|cbn; lia]. }
    repeat apply Forall_cons_2; [..|exact Hsa]; try exact Hn; apply Hs;
      (exists "-"; eexists _, _; split; [reflexivity|]; split; [reflexivity|]; split; [reflexivity|cbn; lia]).
  - apply (NoDup_fmap_2 (String.append (cluster_Name c)) ["-primary"; "-replicas"; "-pods"; "-pooler"]).
    apply (bool_decide_unpack _). vm_compute. exact I.
  - intros i Hi. unfold PodName. rewrite itoa_nonneg by lia.
    pose proof (digits_dns_rest i ltac:(lia)) as Hd. pose proof (digits_length i 10 ltac:(cbn; lia) ltac:(lia)).
    destruct (digits_cons i) as (x & s & E). rewrite E in *. apply Hs.
    exists "-", x, s. split_and!; [done..|]. rewrite app_cons_l, app_nil_l_s. cbn in *. lia.
  - done.
  - unfold podLabels, MergeLabels, Validate in *. apply bool_decide_eq_true in Hc. apply bool_decide_eq_true.
    apply map_Forall_union_2; [|done]. apply map_Forall_singleton. by vm_compute.
Qed.

Lemma derived_names_wellformed_witness :
  Forall (fun n => IsDNSLabel n = true) (derived_names Status.sample_cluster) /\
  IsDNSLabel (PodName Status.sample_cluster 12) = true.
Proof.
  destruct (derived_names_wellformed ascii_tables Status.sample_cluster) as (H1 & _ & H2 & _ & _).
  - vm_compute. reflexivity.
  - vm_compute. lia.
  - vm_compute. split; [discriminate|reflexivity].
  - split; [exact H1|]. apply H2. split; [discriminate|reflexivity].
Defined.

(** The service names of internal/dnsname are not those of the operator: for every
    cluster, none of the read/write, read-only, any and headless names it builds is the
    name of a service the operator creates. *)
Theorem dnsname_services_absent d c :
  let n := cluster_Name c in
  DnsName.PrimaryFQDN d n (cluster_Namespace c) = DnsName.ServiceFQDN d (n +:+ "-rw") (cluster_Namespace c) /\
  (forall suffix, suffix ∈ ["-rw"; "-ro"; "-any"; "-headless"] -> n +:+ suffix ∉ service_names c) /\
  DnsName.ServiceFQDN d (PrimaryServiceName c) (cluster_Namespace c) <> DnsName.PrimaryFQDN d n (cluster_Namespace c).
Proof.
  cbv zeta. split; [done|]. split.
  - intros suffix Hs Hin.
    change (service_names c) with (String.append (cluster_Name c) <$> ["-primary"; "-replicas"; "-pods"; "-pooler"]) in Hin.
    apply list_elem_of_fmap in Hin as (x & E & Hx). apply (inj (String.append _)) in E as ->.
    assert (Hd : Forall (fun y => y ∉ ["-primary"; "-replicas"; "-pods"; "-pooler"]) ["-rw"; "-ro"; "-any"; "-headless"])
      by (apply (bool_decide_unpack _); vm_compute; exact I).
    rewrite Forall_forall in Hd. by apply (Hd x Hs).
  - unfold DnsName.PrimaryFQDN, DnsName.ServiceFQDN, PrimaryServiceName. rewrite !app_assoc_s.
    intros E. apply (inj (String.append _)) in E. discriminate E.
Qed.

End Names.
