(* ===== verification/Network.v ===== *)
(** * Network policies and services (internal/network/network.go)

    The builders, and an evaluator of NetworkPolicies as the Kubernetes documentation
    defines them: a policy of type Ingress that selects a pod admits exactly the
    connections one of its rules matches. *)

From Stdlib Require Import ZArith Lia List Bool.
From stdpp Require Import base list strings gmap.
From S2P Require Import Prelude GoStrings K8s Api PgConfig PgStatus PgResources.
From S2P Require Import Pgbouncer PoolerController.

Local Open Scope Z_scope.

Module Network.
Import Naming Labels.

(** ** networking.k8s.io/v1 *)

(** A [LabelSelector] with match labels only; the empty one selects everything. *)
Definition LabelSelector := gmap string string.

Record NetworkPolicyPort := { np_Port : IntOrString; np_Protocol : string }.
Record NetworkPolicyPeer := {
  peer_NamespaceSelector : option LabelSelector;
  peer_PodSelector : option LabelSelector;
}.
Record NetworkPolicyIngressRule := { rule_Ports : list NetworkPolicyPort; rule_From : list NetworkPolicyPeer }.
Record NetworkPolicy := {
  pol_Meta : ObjectMeta;
  pol_PodSelector : LabelSelector;
  pol_PolicyTypes : list string;
  pol_Ingress : list NetworkPolicyIngressRule;
}.

(** ** The builders *)

Definition postgresPort : Z := 5432.
Definition pgBouncerPort : Z := 6432.

Definition PolicyName (clusterName : string) : string := clusterName +:+ "-netpol".
Definition ReplicationPolicyName (clusterName : string) : string := clusterName +:+ "-replication-netpol".

Definition any_pod : NetworkPolicyPeer :=
  {| peer_NamespaceSelector := Some ∅; peer_PodSelector := Some ∅ |}.

Definition ClusterNetworkPolicy (c : PostgresCluster) : NetworkPolicy :=
  {| pol_Meta := mkMeta (PolicyName (cluster_Name c)) (cluster_Namespace c) (CommonLabels c);
     pol_PodSelector := SelectorLabels c;
     pol_PolicyTypes := ["Ingress"];
     pol_Ingress :=
       [{| rule_Ports := [{| np_Port := intstr_FromInt postgresPort; np_Protocol := "TCP" |}];
           rule_From := [any_pod] |};
        {| rule_Ports := [];
           rule_From := [{| peer_NamespaceSelector := None; peer_PodSelector := Some (SelectorLabels c) |}] |}] |}.

Definition PoolerNetworkPolicy (c : PostgresCluster) : NetworkPolicy :=
  {| pol_Meta := mkMeta (cluster_Name c +:+ "-pooler-netpol") (cluster_Namespace c) (CommonLabels c);
     pol_PodSelector := list_to_map [("app.kubernetes.io/component", "pooler"); ("pg.athos.io/cluster", cluster_Name c)];
     pol_PolicyTypes := ["Ingress"];
     pol_Ingress :=
       [{| rule_Ports := [{| np_Port := intstr_FromInt pgBouncerPort; np_Protocol := "TCP" |}];
           rule_From := [any_pod] |}] |}.

Definition net_port : ServicePort :=
  {| sp_Name := "postgres"; sp_Port := postgresPort; sp_TargetPort := intstr_FromInt postgresPort; sp_Protocol := "TCP" |}.

Definition HeadlessServiceName (n : string) : string := n +:+ "-headless".
Definition ReadWriteServiceName (n : string) : string := n +:+ "-rw".
Definition ReadOnlyServiceName (n : string) : string := n +:+ "-ro".
Definition AnyServiceName (n : string) : string := n +:+ "-any".

Definition with_annotations (m : ObjectMeta) (a : gmap string string) : ObjectMeta :=
  {| om_Name := om_Name m; om_Namespace := om_Namespace m; om_UID := om_UID m; om_Labels := om_Labels m;
     om_Annotations := a; om_Finalizers := om_Finalizers m; om_OwnerReferences := om_OwnerReferences m;
     om_DeletionTimestamp := om_DeletionTimestamp m; om_Generation := om_Generation m;
     om_ResourceVersion := om_ResourceVersion m |}.

Definition HeadlessService (c : PostgresCluster) : Service :=
  {| svc_Meta := with_annotations (mkMeta (HeadlessServiceName (cluster_Name c)) (cluster_Namespace c) (CommonLabels c))
                   {[ "service.alpha.kubernetes.io/tolerate-unready-endpoints" := "true" ]};
     svc_Spec := {| svs_Type := ""; svs_ClusterIP := "None"; svs_PublishNotReadyAddresses := true;
                    svs_Selector := SelectorLabels c; svs_Ports := [net_port] |} |}.

Definition cluster_ip_service (c : PostgresCluster) (name : string) (sel : gmap string string) : Service :=
  {| svc_Meta := mkMeta name (cluster_Namespace c) (CommonLabels c);
     svc_Spec := {| svs_Type := "ClusterIP"; svs_ClusterIP := ""; svs_PublishNotReadyAddresses := false;
                    svs_Selector := sel; svs_Ports := [net_port] |} |}.

Definition ReadWriteService (c : PostgresCluster) : Service :=
  cluster_ip_service c (ReadWriteServiceName (cluster_Name c))
    (list_to_map [(LabelCluster, cluster_Name c); (LabelRole, RolePrimary)]).
Definition ReadOnlyService (c : PostgresCluster) : Service :=
  cluster_ip_service c (ReadOnlyServiceName (cluster_Name c))
    (list_to_map [(LabelCluster, cluster_Name c); (LabelRole, RoleReplica)]).
Definition AnyService (c : PostgresCluster) : Service :=
  cluster_ip_service c (AnyServiceName (cluster_Name c)) (SelectorLabels c).

Definition ServiceFQDN (name namespace : string) : string := name +:+ "." +:+ namespace +:+ ".svc.cluster.local".
Definition PodFQDN (podName headlessSvcName namespace : string) : string :=
  podName +:+ "." +:+ headlessSvcName +:+ "." +:+ namespace +:+ ".svc.cluster.local".

(** ** Evaluation of policies *)

(** A connection attempt: who connects, to which pod, on which port. *)
Record Conn := {
  src_Namespace : string;
  src_NamespaceLabels : gmap string string;
  src_Labels : gmap string string;
  dst_Namespace : string;
  dst_Labels : gmap string string;
  dst_Port : Z;
  dst_Protocol : string;
}.

Definition peer_matches (polNS : string) (p : NetworkPolicyPeer) (x : Conn) : Prop :=
  match peer_NamespaceSelector p with
  | Some sel => sel ⊆ src_NamespaceLabels x
  | None => src_Namespace x = polNS
  end /\
  match peer_PodSelector p with Some sel => sel ⊆ src_Labels x | None => True end.

Definition port_matches (p : NetworkPolicyPort) (x : Conn) : Prop :=
  np_Port p = IntVal (dst_Port x) /\ np_Protocol p = dst_Protocol x.

Definition rule_admits (polNS : string) (r : NetworkPolicyIngressRule) (x : Conn) : Prop :=
  (rule_From r = [] \/ Exists (fun p => peer_matches polNS p x) (rule_From r)) /\
  (rule_Ports r = [] \/ Exists (fun p => port_matches p x) (rule_Ports r)).

(** Whether a policy applies to the destination pod, and whether it admits. *)
Definition selects_pod (pol : NetworkPolicy) (x : Conn) : Prop :=
  dst_Namespace x = om_Namespace (pol_Meta pol) /\ pol_PodSelector pol ⊆ dst_Labels x.
Definition admits (pol : NetworkPolicy) (x : Conn) : Prop :=
  Exists (fun r => rule_admits (om_Namespace (pol_Meta pol)) r x) (pol_Ingress pol).

Lemma any_pod_matches ns x : peer_matches ns any_pod x.
Proof. split; apply map_empty_subseteq. Qed.

Lemma Exists_one {A} (P : A -> Prop) x : Exists P [x] <-> P x.
Proof. rewrite Exists_cons, Exists_nil. tauto. Qed.

(** What the cluster's network policy admits: it applies to every database pod the
    StatefulSet makes, and admits exactly TCP connections to port 5432 from any pod of
    any namespace, and connections to any port from pods of the same cluster in the same
    namespace; in particular the namespace of a client is not restricted. *)
Theorem ClusterNetworkPolicy_admits c x :
  (admits (ClusterNetworkPolicy c) x <->
     (dst_Port x = 5432 /\ dst_Protocol x = "TCP") \/
     (src_Namespace x = cluster_Namespace c /\ SelectorLabels c ⊆ src_Labels x)) /\
  (dst_Namespace x = cluster_Namespace c -> dst_Labels x = Resources.podLabels c ->
     selects_pod (ClusterNetworkPolicy c) x).
Proof.
  split.
  - unfold admits, rule_admits. cbn [ClusterNetworkPolicy pol_Ingress pol_Meta om_Namespace mkMeta].
    rewrite Exists_cons, Exists_one. cbn [rule_From rule_Ports]. rewrite !Exists_one.
    unfold port_matches. cbn [np_Port np_Protocol]. change (intstr_FromInt postgresPort) with (IntVal 5432). split.
    + intros [[_ [H|[[= <-] <-]]]|[[H|[H1 H2]] _]]; [done|by left|done|]. right. by split.
    + intros [[<- <-]|[H1 H2]]; [left|right].
      * split; [right; apply any_pod_matches|by right].
      * split; [right; by split|by left].
  - intros Hns Hl. split; [done|]. rewrite Hl. apply Resources.SelectorLabels_podLabels.
Qed.

(** The pooler's network policy cuts the pooler off: it applies to the pods of the
    pooler Deployment and admits only port 6432, while the pooler container and Service
    of the default configuration use port 5432, so no client connection is admitted. *)
Theorem pooler_policy_blocks_pooler c x :
  dst_Namespace x = cluster_Namespace c ->
  dst_Labels x = pts_Labels (ds_Template (dep_Spec (Pooler.poolerDeployment c Pgbouncer.DefaultConfig))) ->
  In (dst_Port x) (map cp_ContainerPort (c_Ports (Pooler.poolerContainer Pgbouncer.DefaultConfig))) ->
  selects_pod (PoolerNetworkPolicy c) x /\ ~ admits (PoolerNetworkPolicy c) x.
Proof.
  intros Hns Hl Hp. split.
  - split; [done|]. rewrite Hl. cbn [pol_PodSelector PoolerNetworkPolicy]. reflexivity.
  - unfold admits, rule_admits. cbn [PoolerNetworkPolicy pol_Ingress]. rewrite Exists_one.
    cbn [rule_From rule_Ports]. rewrite !Exists_one. unfold port_matches. cbn [np_Port np_Protocol].
    change (intstr_FromInt pgBouncerPort) with (IntVal 6432). destruct Hp as [Hp|[]].
    intros [_ [H|[[= H] _]]]; [done|]. rewrite <- H in Hp. vm_compute in Hp. discriminate.
Qed.

Lemma pooler_policy_blocks_pooler_witness :
  ~ admits (PoolerNetworkPolicy Status.sample_cluster)
      {| src_Namespace := "prod"; src_NamespaceLabels := ∅; src_Labels := ∅; dst_Namespace := "prod";
         dst_Labels := Pooler.poolerLabels Status.sample_cluster; dst_Port := 5432; dst_Protocol := "TCP" |}.
Proof.
  apply (pooler_policy_blocks_pooler Status.sample_cluster); [reflexivity|reflexivity|]. left. reflexivity.
Defined.

(** The services of this package select as those of the operator do, under other names. *)
Lemma services_same_selectors c :
  svs_Selector (svc_Spec (ReadWriteService c)) = svs_Selector (svc_Spec (Resources.BuildPrimaryService c)) /\
  svs_Selector (svc_Spec (ReadOnlyService c)) = svs_Selector (svc_Spec (Resources.BuildReplicaService c)) /\
  svs_Selector (svc_Spec (HeadlessService c)) = svs_Selector (svc_Spec (Resources.BuildHeadlessService c)) /\
  ReadWriteServiceName (cluster_Name c) <> PrimaryServiceName c.
Proof.
  split_and!; try reflexivity. unfold ReadWriteServiceName, PrimaryServiceName.
  intros E. apply (inj (String.append _)) in E. discriminate.
Qed.

End Network.
