(* ===== verification/WalArchive.v ===== *)
(** * WAL archiving (internal/walarchive/walarchive.go)

    Endpoints, archive and restore commands and the names of WAL segments.  The reader of
    names follows fmt.Sscanf: leading spaces are skipped before a number, a number takes at
    most its width, and text after the last number is ignored. *)

From Stdlib Require Import ZArith Lia List Bool Ascii.
From stdpp Require Import base list strings.
From S2P Require Import Prelude GoStrings.

Local Open Scope Z_scope.

Module WalArchive.

(** The provider is a string type; values outside the constants are possible. *)
Definition Provider := string.
Definition ProviderS3 : Provider := "s3".
Definition ProviderGCS : Provider := "gcs".
Definition ProviderAzure : Provider := "azure".
Definition ProviderFile : Provider := "file".

Record EndpointT := {
  ep_Provider : Provider; Bucket : string; Prefix : string; Region : string;
  Endpoint : string; StorageClass : string; Path : string;
}.

Definition Validate (T : UnicodeTables) (e : EndpointT) : option error :=
  if existsb (String.eqb (ep_Provider e)) [ProviderS3; ProviderGCS; ProviderAzure] then
    if (Bucket e =? "")%string
    then Some (ErrNew ("walarchive: bucket is required for provider " +:+ Quote T (ep_Provider e))) else None
  else if (ep_Provider e =? ProviderFile)%string then
    if (Path e =? "")%string then Some (ErrNew "walarchive: path is required for provider file") else None
  else Some (ErrNew ("walarchive: unknown provider " +:+ Quote T (ep_Provider e))).

(** [strings.TrimLeft(s, c)] and [strings.TrimRight(s, c)] for one byte. *)
Fixpoint trim_left_byte (c : ascii) (s : string) : string :=
  match s with
  | EmptyString => ""
  | String d s' => if Ascii.eqb c d then trim_left_byte c s' else s
  end.

Fixpoint trim_right_byte (c : ascii) (s : string) : string :=
  match s with
  | EmptyString => ""
  | String d s' =>
      match trim_right_byte c s' with
      | EmptyString => if Ascii.eqb c d then "" else str1 d
      | t => String d t
      end
  end.

Definition joinURL (scheme bucket prefix : string) : string :=
  let prefix := trim_left_byte "/" (TrimSpace prefix) in
  scheme +:+ bucket +:+ (if (prefix =? "")%string then "" else "/" +:+ prefix).

Definition URL (e : EndpointT) : string :=
  if (ep_Provider e =? ProviderS3)%string then joinURL "s3://" (Bucket e) (Prefix e)
  else if (ep_Provider e =? ProviderGCS)%string then joinURL "gs://" (Bucket e) (Prefix e)
  else if (ep_Provider e =? ProviderAzure)%string then joinURL "azure://" (Bucket e) (Prefix e)
  else if (ep_Provider e =? ProviderFile)%string then "file://" +:+ trim_right_byte "/" (Path e)
  else "".

Definition needs_quote (c : ascii) : bool := existsb (Ascii.eqb c) [" "; squote; dquote; "$"; bslash]%char.

(** The text that closes the quotes, adds a quote, and opens them again. *)
Definition quote_break : string := String squote (String bslash (String squote (str1 squote))).

Definition shellQuote (s : string) : string :=
  if (s =? "")%string then String squote (str1 squote)
  else if sall (fun c => negb (needs_quote c)) s then s
  else str1 squote +:+ replace_byte squote quote_break s +:+ str1 squote.

Definition Tool := string.
Definition ToolWALG : Tool := "wal-g".
Definition ToolBarman : Tool := "barman".

Definition ArchiveCommand (T : UnicodeTables) (tool : Tool) (ep : EndpointT) : result string :=
  match Validate T ep with
  | Some e => Err e
  | None =>
      if (tool =? ToolWALG)%string then Ok ("WALE_S3_PREFIX=" +:+ URL ep +:+ " wal-g wal-push %p")
      else if (tool =? ToolBarman)%string
      then Ok ("barman-cloud-wal-archive --endpoint-url " +:+ shellQuote (Endpoint ep) +:+ " " +:+ shellQuote (URL ep) +:+ " %p")
      else Err (ErrNew ("walarchive: unknown tool " +:+ Quote T tool))
  end.

Definition RestoreCommand (T : UnicodeTables) (tool : Tool) (ep : EndpointT) : result string :=
  match Validate T ep with
  | Some e => Err e
  | None =>
      if (tool =? ToolWALG)%string then Ok ("WALE_S3_PREFIX=" +:+ URL ep +:+ " wal-g wal-fetch %f %p")
      else if (tool =? ToolBarman)%string
      then Ok ("barman-cloud-wal-restore --endpoint-url " +:+ shellQuote (Endpoint ep) +:+ " " +:+ shellQuote (URL ep) +:+ " %f %p")
      else Err (ErrNew ("walarchive: unknown tool " +:+ Quote T tool))
  end.

(** ** Segment names *)

Definition hex_upper (z : Z) : ascii := chr (if z <? 10 then 48 + z else 55 + z).

(** [n] upper-case hexadecimal digits of [z]: the verb [%08X] for a 32-bit value. *)
Fixpoint hex_padded (n : nat) (z : Z) : string :=
  match n with
  | O => ""
  | S n' => String (hex_upper ((z / 16 ^ Z.of_nat n') mod 16)) (hex_padded n' z)
  end.

Definition SegmentFileName (timeline logID segID : Z) : string :=
  hex_padded 8 timeline +:+ hex_padded 8 logID +:+ hex_padded 8 segID.

Definition hex_value (c : ascii) : option Z :=
  if is_digit c then Some (byte c - 48)
  else if in_range 65 70 (byte c) then Some (byte c - 55)
  else if in_range 97 102 (byte c) then Some (byte c - 87)
  else None.

(** Spaces skipped before a number; a line break is an error. *)
Fixpoint scan_skip (s : string) : option string :=
  match s with
  | EmptyString => Some ""
  | String c s' =>
      if byte c =? 10 then None
      else if IsSpace (byte c) then scan_skip s' else Some s
  end.

(** Up to [width] hexadecimal digits. *)
Fixpoint scan_digits (width : nat) (acc : Z) (s : string) : Z * string :=
  match width, s with
  | S w, String c s' =>
      match hex_value c with Some d => scan_digits w (acc * 16 + d) s' | None => (acc, s) end
  | _, _ => (acc, s)
  end.

(** One [%08X]. *)
Definition scan_hex (s : string) : option (Z * string) :=
  match scan_skip s with
  | Some (String c s') =>
      match hex_value c with Some d => Some (scan_digits 7 d s') | None => None end
  | _ => None
  end.

Definition ParseSegmentName (T : UnicodeTables) (name : string) : result (Z * Z * Z) :=
  if negb (String.length name =? 24)%nat
  then Err (ErrNew ("walarchive: segment name must be 24 chars, got " +:+ itoa (Z.of_nat (String.length name))))
  else
    let invalid := Err (ErrWrap ("walarchive: invalid segment name " +:+ Quote T name +:+ ": ") (ErrNew "expected integer") "") in
    match scan_hex name with
    | None => invalid
    | Some (timeline, r1) =>
        match scan_hex r1 with
        | None => invalid
        | Some (logID, r2) =>
            match scan_hex r2 with
            | None => invalid
            | Some (segID, _) => Ok (timeline, logID, segID)
            end
        end
    end.

Definition ProviderForScheme (T : UnicodeTables) (scheme : string) : option Provider :=
  let s := ToLower T scheme in
  if (s =? "s3")%string then Some ProviderS3
  else if (s =? "gs")%string || (s =? "gcs")%string then Some ProviderGCS
  else if (s =? "azure")%string then Some ProviderAzure
  else if (s =? "file")%string then Some ProviderFile
  else None.

(** *** Lemmas *)

Lemma hex_value_upper d : 0 <= d < 16 -> hex_value (hex_upper d) = Some d.
Proof.
  intros Hd. assert (Hc : d ∈ (Z.of_nat <$> seq 0 16)).
  { apply list_elem_of_fmap. exists (Z.to_nat d). split; [lia|]. apply elem_of_seq. lia. }
  revert d Hd Hc. assert (H : Forall (fun d => hex_value (hex_upper d) = Some d) (Z.of_nat <$> seq 0 16))
    by (apply (bool_decide_unpack _); vm_compute; exact I).
  intros d _ Hd. rewrite Forall_forall in H. by apply H.
Qed.

Lemma hex_padded_length n z : String.length (hex_padded n z) = n.
Proof. induction n as [|n IH]; [done|]. cbn. by rewrite IH. Qed.

Lemma scan_digits_padded n : forall acc z rest,
  scan_digits n acc (hex_padded n z +:+ rest) = (acc * 16 ^ Z.of_nat n + z mod 16 ^ Z.of_nat n, rest).
Proof.
  induction n as [|n IH]; intros acc z rest.
  { cbn [scan_digits hex_padded]. rewrite app_nil_l_s, Z.mod_1_r. f_equal. cbn. lia. }
  cbn [hex_padded]. rewrite app_cons_l. cbn [scan_digits].
  pose proof (Z.mod_pos_bound (z / 16 ^ Z.of_nat n) 16 ltac:(lia)).
  rewrite hex_value_upper by done. rewrite IH. f_equal.
  rewrite Nat2Z.inj_succ, Z.pow_succ_r by lia. rewrite (Z.mul_comm 16 (16 ^ _)).
  rewrite Z.rem_mul_r; [nia|apply Z.pow_nonzero; lia|lia].
Qed.

Lemma scan_hex_padded z rest :
  0 <= z < 2 ^ 32 -> scan_hex (hex_padded 8 z +:+ rest) = Some (z, rest).
Proof.
  intros Hz. unfold scan_hex.
  assert (Hd : 0 <= (z / 16 ^ 7) mod 16 < 16) by (apply Z.mod_pos_bound; lia).
  change (hex_padded 8 z) with (String (hex_upper ((z / 16 ^ 7) mod 16)) (hex_padded 7 z)).
  rewrite app_cons_l. set (d := (z / 16 ^ 7) mod 16) in *.
  assert (Hs : IsSpace (byte (hex_upper d)) = false /\ (byte (hex_upper d) =? 10) = false).
  { unfold hex_upper. destruct (d <? 10); rewrite byte_chr by lia; split; try (apply Z.eqb_neq; lia);
      unfold IsSpace, in_range; repeat (apply orb_false_intro); try (apply andb_false_iff); try (apply Z.eqb_neq); lia. }
  destruct Hs as [Hs Hn]. cbn [scan_skip]. rewrite Hn, Hs, hex_value_upper by done.
  rewrite scan_digits_padded. f_equal. f_equal. unfold d.
  replace (2 ^ 32) with (16 ^ 7 * 16) in Hz by reflexivity.
  rewrite (Z.mod_small (z / 16 ^ 7)).
  - change (16 ^ Z.of_nat 7) with (16 ^ 7). pose proof (Z.div_mod z (16 ^ 7) ltac:(lia)). lia.
  - split; [apply Z.div_pos; lia|]. apply Z.div_lt_upper_bound; lia.
Qed.

(** WAL segment names round-trip: for all 32-bit timeline, log and segment numbers the
    name has 24 characters and parses back to them; the map is injective. *)
Theorem segment_name_roundtrip T t l s :
  0 <= t < 2 ^ 32 -> 0 <= l < 2 ^ 32 -> 0 <= s < 2 ^ 32 ->
  String.length (SegmentFileName t l s) = 24%nat /\
  ParseSegmentName T (SegmentFileName t l s) = Ok (t, l, s).
Proof.
  intros Ht Hl Hs.
  assert (Hlen : String.length (SegmentFileName t l s) = 24%nat).
  { unfold SegmentFileName. by rewrite !length_app_s, !hex_padded_length. }
  split; [done|]. unfold ParseSegmentName. rewrite Hlen. cbn [Nat.eqb negb]. unfold SegmentFileName.
  rewrite scan_hex_padded by done. rewrite scan_hex_padded by done.
  rewrite <- (app_nil_r_s (hex_padded 8 s)). by rewrite scan_hex_padded.
Qed.

Lemma segment_name_roundtrip_witness :
  ParseSegmentName ascii_tables "00000001000000A2000000FF" = Ok (1, 162, 255).
Proof. apply (segment_name_roundtrip ascii_tables 1 162 255); lia. Defined.

(** Malformed segment names are accepted although an error is documented: a name that
    starts with a space, or whose last characters are not hexadecimal, parses. *)
Theorem malformed_segment_accepted T :
  ParseSegmentName T " 00000001000000A2000000F" = Ok (1, 162, 15) /\
  ParseSegmentName T "00000001000000A2000.bak " = Ok (1, 162, 0).
Proof. split; vm_compute; reflexivity. Qed.

(** ** Shell words *)

(** The POSIX shell reads a quoted word: quotes group, a backslash outside quotes takes
    the next byte, and an unquoted metacharacter ends the word. *)
Definition shell_meta (c : ascii) : bool :=
  existsb (Ascii.eqb c) [" "; "009"; "010"; ";"; "&"; "|"; "<"; ">"; "("; ")"; "$"; "`"; "*"; "?"; "["; "#"; "~"]%char.

Fixpoint shell_word (quoted : bool) (s : string) : option (string * string) :=
  match s with
  | EmptyString => if quoted then None else Some ("", "")
  | String c s' =>
      if quoted then
        if Ascii.eqb c squote then shell_word false s'
        else match shell_word true s' with Some (w, r) => Some (String c w, r) | None => None end
      else if Ascii.eqb c squote then shell_word true s'
      else if Ascii.eqb c bslash then
        match s' with
        | String d s'' => match shell_word false s'' with Some (w, r) => Some (String d w, r) | None => None end
        | EmptyString => None
        end
      else if shell_meta c || Ascii.eqb c dquote then Some ("", s)
      else match shell_word false s' with Some (w, r) => Some (String c w, r) | None => None end
  end.

Lemma shell_word_quoted s rest :
  shell_word true (replace_byte squote quote_break s +:+ String squote rest) =
    match shell_word false rest with Some (w, r) => Some (s +:+ w, r) | None => None end.
Proof.
  induction s as [|c s IH].
  { cbn [replace_byte]. rewrite app_nil_l_s. cbn [shell_word]. rewrite Ascii.eqb_refl.
    by destruct (shell_word false rest) as [[w r]|]. }
  cbn [replace_byte]. destruct (Ascii.eqb_spec squote c) as [<-|Hne].
  - change (shell_word true (String squote (String bslash (String squote (String squote
      (replace_byte squote quote_break s +:+ String squote rest))))) =
      match shell_word false rest with Some (w, r) => Some (String squote (s +:+ w), r) | None => None end).
    cbn [shell_word]. replace (Ascii.eqb squote squote) with true by done.
    replace (Ascii.eqb bslash squote) with false by done. replace (Ascii.eqb bslash bslash) with true by done.
    rewrite IH. by destruct (shell_word false rest) as [[w r]|].
  - rewrite app_cons_l. cbn [shell_word]. destruct (Ascii.eqb_spec c squote); [congruence|].
    rewrite IH. by destruct (shell_word false rest) as [[w r]|].
Qed.

Lemma shell_word_plain s rest :
  sall (fun c => negb (needs_quote c)) s = true -> sall (fun c => negb (shell_meta c)) s = true ->
  shell_word false (s +:+ rest) =
    match shell_word false rest with Some (w, r) => Some (s +:+ w, r) | None => None end.
Proof.
  intros Hq Hm. induction s as [|c s IH].
  { rewrite app_nil_l_s. by destruct (shell_word false rest) as [[w r]|]. }
  cbn [sall] in Hq, Hm. apply andb_prop in Hq as [Hq1 Hq2], Hm as [Hm1 Hm2]. rewrite app_cons_l. cbn [shell_word].
  apply negb_true_iff in Hq1, Hm1. rewrite Hm1. unfold needs_quote in Hq1. cbn [existsb] in Hq1. breflect.
  rewrite H0, H1, H3. cbn [orb]. rewrite IH by done. by destruct (shell_word false rest) as [[w r]|].
Qed.

(** ShellQuote protects what it quotes: the shell reads the result as one word with
    the original text, provided the text contains a character that triggers quoting or no
    shell metacharacter at all.  Text with a metacharacter outside the list, such as a
    semicolon, is passed unquoted and ends the word. *)
Theorem shellQuote_one_word s rest :
  (sall (fun c => negb (needs_quote c)) s = false \/ sall (fun c => negb (shell_meta c)) s = true ->
     shell_word false (shellQuote s +:+ String " " rest) = Some (s, String " " rest)) /\
  shell_word false (shellQuote "s3://b;reboot" +:+ String " " rest) = Some ("s3://b", ";reboot" +:+ String " " rest).
Proof.
  assert (E : forall t, shell_word false (String " " t) = Some ("", String " " t)) by done.
  split; [|reflexivity]. intros H. unfold shellQuote. destruct (String.eqb_spec s "") as [->|Hne].
  { reflexivity. }
  destruct (sall (fun c => negb (needs_quote c)) s) eqn:Hq.
  - destruct H as [H|H]; [done|]. rewrite shell_word_plain by done. by rewrite E, app_nil_r_s.
  - rewrite !app_assoc_s, str1_app. cbn [shell_word]. rewrite Ascii.eqb_refl.
    rewrite (str1_app squote). rewrite shell_word_quoted. by rewrite E, app_nil_r_s.
Qed.

End WalArchive.
