(* ===== verification/Manifest.v ===== *)
(** * Multi-document manifests (internal/manifest/manifest.go)

    [Split] reads lines as bufio.Scanner does: without the line break and one carriage
    return before it, failing on a line that does not fit the one-megabyte buffer. *)

From Stdlib Require Import ZArith Lia List Bool Ascii.
From stdpp Require Import base list strings gmap.
From S2P Require Import Prelude GoStrings PgConfig WalArchive Images.

Local Open Scope Z_scope.

Module Manifest.
Import WalArchive Config HBA.

Record Document := { Index : Z; Body : string }.

(** ** Reading lines *)

Definition maxTokenSize : Z := 1024 * 1024.

(** [bufio.ScanLines]: the last line counts only if it is not empty. *)
Definition scan_lines (s : string) : list string :=
  let ls := split_byte "010" s in
  map (trim_suffix_byte "013") (match last ls with Some EmptyString => removelast ls | _ => ls end).

Definition too_long (s : string) : bool :=
  existsb (fun l => maxTokenSize <=? Z.of_nat (String.length l)) (split_byte "010" s).

Definition isDocumentSeparator (line : string) : bool := (TrimSpace line =? "---")%string.

Record SplitState := { docs : list Document; current : string; idx : Z }.

(** [flush]: a blank document is not added, and the text read so far is then kept. *)
Definition flush (st : SplitState) : SplitState :=
  if (TrimSpace (current st) =? "")%string then st
  else {| docs := docs st ++ [{| Index := idx st; Body := current st |}]; current := ""; idx := idx st + 1 |}.

Definition split_line (st : SplitState) (line : string) : SplitState :=
  if isDocumentSeparator line then flush st
  else {| docs := docs st; current := current st +:+ line +:+ newline; idx := idx st |}.

Definition split_from (st : SplitState) (ls : list string) : list Document :=
  docs (flush (foldl split_line st ls)).

Definition Split (r : string) : result (list Document) :=
  if too_long r then Err (ErrWrap "manifest: scan: " (ErrNew "bufio.Scanner: token too long") "")
  else Ok (split_from {| docs := []; current := ""; idx := 1 |} (scan_lines r)).

(** ** Writing and inspecting *)

Definition join_body (d : Document) : string := trim_right_byte "010" (Body d) +:+ newline.

Definition Join (ds : list Document) : string :=
  strings_join ("---" +:+ newline) (map join_body ds).

Definition Filter (ds : list Document) (keep : Document -> bool) : list Document :=
  filter (fun d => keep d = true) ds.

(** The value of a line that starts with [kind:]. *)
Definition kind_of_line (line : string) : option string :=
  let line := TrimSpace line in
  if has_prefix "kind:" line then Some (TrimSpace (sdrop 5 line)) else None.

Definition Has (ds : list Document) (kind : string) : bool :=
  existsb (fun d => existsb (fun l => match kind_of_line l with Some v => (v =? kind)%string | None => false end)
                      (split_byte "010" (Body d))) ds.

(** The first non-empty kind of a document. *)
Fixpoint first_kind (ls : list string) : option string :=
  match ls with
  | [] => None
  | l :: ls' =>
      match kind_of_line l with
      | Some v => if negb (v =? "")%string then Some v else first_kind ls'
      | None => first_kind ls'
      end
  end.

Definition CountByKind (ds : list Document) : gmap string Z :=
  foldl (fun out d => match first_kind (split_byte "010" (Body d)) with
                      | Some v => <[v := default 0 (out !! v) + 1]> out
                      | None => out
                      end) ∅ ds.

(** ** Documents that survive *)

(** The lines of a document: none is a separator or ends in a carriage return, all fit the
    buffer, the last one is not empty, and some line is not blank. *)
Definition raw_ok (l : string) : Prop :=
  sall (neqc "010") l = true /\ has_suffix_byte "013" l = false /\ Z.of_nat (String.length l) < maxTokenSize.
Definition line_ok (l : string) : Prop := isDocumentSeparator l = false /\ raw_ok l.

Definition text_of (ls : list string) : string := write_lines ls.

Record doc_ok (d : Document) (ls : list string) : Prop := {
  doc_text : Body d = text_of ls;
  doc_lines : Forall line_ok ls;
  doc_end : exists l, last ls = Some l /\ l <> "";
  doc_content : TrimSpace (Body d) <> "";
}.

Lemma trim_suffix_none c l : has_suffix_byte c l = false -> trim_suffix_byte c l = l.
Proof.
  induction l as [|d l IH]; [done|]. cbn [has_suffix_byte trim_suffix_byte].
  destruct l as [|e l]; [by intros ->|]. intros H. by rewrite IH.
Qed.

Lemma trim_right_app c a d : Ascii.eqb c d = false -> trim_right_byte c (a +:+ str1 d) = a +:+ str1 d.
Proof.
  intros Hd. induction a as [|x a IH]; [rewrite app_nil_l_s; cbn; by rewrite Hd|].
  rewrite app_cons_l. cbn [trim_right_byte]. rewrite IH. by destruct a.
Qed.

Lemma trim_right_newline a : trim_right_byte "010" (a +:+ newline) = trim_right_byte "010" a.
Proof.
  induction a as [|x a IH]; [done|]. rewrite app_cons_l. cbn [trim_right_byte]. by rewrite IH.
Qed.

Lemma string_snoc s : s <> "" -> exists a c, s = a +:+ str1 c.
Proof.
  induction s as [|c s IH]; [done|]. intros _. destruct s as [|d s]; [by exists "", c|].
  destruct IH as (a & x & E); [done|]. exists (String c a), x. by rewrite E, app_cons_l.
Qed.

(** Writing a well-formed document leaves its body unchanged. *)
Lemma join_body_id d ls : doc_ok d ls -> join_body d = Body d.
Proof.
  intros [Ht Hl (l & Hlast & Hne) _]. unfold join_body. rewrite Ht. unfold text_of.
  apply last_Some in Hlast as [ls0 ->]. rewrite write_lines_app.
  change (write_lines [l]) with ((l +:+ newline) +:+ ""). rewrite app_nil_r_s, <- app_assoc_s, trim_right_newline.
  destruct (string_snoc l Hne) as (a & c & ->). rewrite <- app_assoc_s, trim_right_app; [done|].
  apply Forall_app in Hl as [_ Hl]. inversion Hl as [|? ? (_ & Hn & _) _]; subst.
  rewrite sall_app in Hn. apply andb_prop in Hn as [_ Hn]. cbn in Hn. unfold neqc in Hn. rewrite andb_true_r in Hn.
  by apply negb_true_iff in Hn.
Qed.

Lemma split_lines_text st ls :
  Forall line_ok ls ->
  foldl split_line st ls = {| docs := docs st; current := current st +:+ text_of ls; idx := idx st |}.
Proof.
  intros H. revert st. induction H as [|l ls (Hs & _) Hl IH]; intros st; cbn [foldl].
  - unfold text_of. cbn. rewrite app_nil_r_s. by destruct st.
  - rewrite IH. unfold split_line. rewrite Hs. cbn [docs current idx]. unfold text_of, write_lines. cbn [map concat_s foldr].
    by rewrite !app_assoc_s.
Qed.

(** The lines of the joined text: the documents' lines with separators between them. *)
Definition sep_lines (lss : list (list string)) : list string := tail (concat (map (cons "---") lss)).

Lemma join_lines ds lss : Forall2 doc_ok ds lss -> Join ds = text_of (sep_lines lss).
Proof.
  unfold Join, sep_lines. induction 1 as [|d ls ds lss Hd Hds IH]; [done|].
  cbn [map concat app tail]. destruct Hds as [|d2 ls2 ds' lss' Hd2 Hds].
  - cbn [map strings_join concat]. rewrite app_nil_r, (join_body_id d ls) by done. apply Hd.
  - assert (E : strings_join ("---" +:+ newline) (join_body d :: map join_body (d2 :: ds'))
      = join_body d +:+ ("---" +:+ newline) +:+ strings_join ("---" +:+ newline) (map join_body (d2 :: ds')))
      by reflexivity.
    rewrite E, IH, (join_body_id d ls) by done. clear E. rewrite (doc_text _ _ Hd).
    change (concat (map (cons "---") (ls2 :: lss'))) with ("---" :: ls2 ++ concat (map (cons "---") lss')).
    unfold text_of. cbn [tail]. by rewrite (write_lines_app ls), write_lines_cons, app_assoc_s.
Qed.

(** Documents are numbered from one. *)
Definition numbered (ds : list Document) : Prop := forall i d, ds !! i = Some d -> Index d = Z.of_nat i + 1.

Lemma split_from_docs ds lss : Forall2 doc_ok ds lss -> forall done i,
  (forall j d, ds !! j = Some d -> Index d = i + Z.of_nat j) -> lss <> [] ->
  split_from {| docs := done; current := ""; idx := i |} (sep_lines lss) = done ++ ds.
Proof.
  induction 1 as [|d ls ds lss Hd Hds IH]; intros dn i Hi Hne; [done|]. clear Hne.
  unfold split_from, sep_lines. cbn [map concat app tail]. rewrite foldl_app, (split_lines_text _ ls (doc_lines _ _ Hd)).
  cbn [docs current idx]. rewrite app_nil_l_s.
  assert (Hfl : flush {| docs := dn; current := text_of ls; idx := i |} =
    {| docs := dn ++ [d]; current := ""; idx := i + 1 |}).
  { unfold flush. cbn [current docs idx]. rewrite <- (doc_text _ _ Hd).
    rewrite (proj2 (String.eqb_neq _ _) (doc_content _ _ Hd)). do 2 f_equal.
    pose proof (Hi 0%nat d eq_refl) as E. destruct d. cbn in *. f_equal. f_equal. lia. }
  destruct Hds as [|d2 ls2 ds' lss' Hd2 Hds].
  - cbn [map concat foldl]. by rewrite Hfl.
  - change (concat (map (cons "---") (ls2 :: lss'))) with ("---" :: sep_lines (ls2 :: lss')).
    cbn [foldl]. replace (split_line {| docs := dn; current := text_of ls; idx := i |} "---")
      with (flush {| docs := dn; current := text_of ls; idx := i |}) by reflexivity.
    rewrite Hfl. change (split_from {| docs := dn ++ [d]; current := ""; idx := i + 1 |} (sep_lines (ls2 :: lss')) = dn ++ d :: d2 :: ds').
    rewrite IH; [by rewrite <- app_assoc| |done].
    intros j x Hx. rewrite (Hi (S j) x Hx). lia.
Qed.

Lemma scan_lines_text ls : Forall raw_ok ls -> scan_lines (text_of ls) = ls /\ too_long (text_of ls) = false.
Proof.
  intros H. unfold scan_lines, too_long, text_of, write_lines. rewrite split_newline_lines.
  2: { eapply Forall_impl; [exact H|]. by intros l (? & _). }
  rewrite last_snoc, removelast_last. split.
  - induction H as [|l ls (_ & Hr & _) Hl IH]; [done|]. cbn. by rewrite IH, trim_suffix_none.
  - rewrite existsb_app. apply orb_false_intro; [|reflexivity].
    induction H as [|l ls (_ & _ & Hl) Hls IH]; [done|]. cbn [existsb]. rewrite IH, orb_false_r.
    by apply Z.leb_gt.
Qed.

Lemma sep_raw : raw_ok "---".
Proof. split; [done|]. split; [done|]. done. Qed.

Lemma sep_lines_raw ds lss : Forall2 doc_ok ds lss -> Forall raw_ok (sep_lines lss).
Proof.
  intros H. assert (Forall raw_ok (concat (map (cons "---") lss))) as Hall.
  { induction H as [|d ls ds lss Hd Hds IH]; [by constructor|]. cbn [map concat].
    apply Forall_app. split; [|done]. constructor; [apply sep_raw|].
    eapply Forall_impl; [exact (doc_lines _ _ Hd)|]. by intros l [_ ?]. }
  unfold sep_lines. by destruct Hall.
Qed.

(** Splitting what Join wrote gives the documents back: for documents numbered from
    one whose bodies are lines ended by line breaks (no separator line, no carriage return
    at a line's end, lines within the buffer, last line not empty, not blank), Split after
    Join is the identity. *)
Theorem manifest_roundtrip ds lss :
  Forall2 doc_ok ds lss -> numbered ds -> Split (Join ds) = Ok ds.
Proof.
  intros Hd Hn. rewrite (join_lines ds lss) by done.
  unfold Split. destruct (scan_lines_text _ (sep_lines_raw _ _ Hd)) as [-> ->]. f_equal.
  destruct Hd as [|d ls ds lss Hd Hds]; [done|].
  apply (split_from_docs (d :: ds) (ls :: lss)); [by constructor| |done].
  intros j x Hx. rewrite (Hn j x Hx). lia.
Qed.

Definition docs_sample : list Document :=
  [{| Index := 1; Body := "kind: Namespace" +:+ newline +:+ "  name: athos" +:+ newline |};
   {| Index := 2; Body := newline +:+ "kind: Service" +:+ newline |}].

Lemma manifest_roundtrip_witness : Split (Join docs_sample) = Ok docs_sample.
Proof.
  apply (manifest_roundtrip docs_sample [["kind: Namespace"; "  name: athos"]; [""; "kind: Service"]]).
  - assert (Hl : forall l, isDocumentSeparator l = false -> sall (neqc "010") l = true ->
      has_suffix_byte "013" l = false -> (Z.of_nat (String.length l) <? maxTokenSize) = true -> line_ok l).
    { intros l H1 H2 H3 H4. split; [exact H1|]. split; [exact H2|]. split; [exact H3|]. apply Z.ltb_lt, H4. }
    repeat constructor; try (apply Hl; vm_compute; reflexivity); try reflexivity;
      try (eexists; split; [reflexivity|discriminate]); try (vm_compute; discriminate).
  - intros [|[|i]] d H; cbn in H; [injection H as <-; reflexivity|injection H as <-; reflexivity|discriminate].
Defined.

End Manifest.
