(* ===== verification/Paths.v ===== *)
(** * The on-disk layout (internal/datadir/datadir.go)

    The paths of the postgres container, with the path functions of Go's path/filepath
    they are built from: [Clean] resolves a path component by component. *)

From Stdlib Require Import ZArith Lia List Bool Ascii.
From stdpp Require Import base list strings gmap.
From S2P Require Import Prelude GoStrings.

(** ** Go's path/filepath on a Unix system *)

Module FilePath.

(** The components kept so far, the last one first. *)
Definition clean_step (rooted : bool) (st : list string) (seg : string) : list string :=
  if (seg =? "")%string then st
  else if (seg =? ".")%string then st
  else if (seg =? "..")%string then
    match st with
    | [] => if rooted then [] else [".."]
    | top :: st' => if (top =? "..")%string then ".." :: st else st'
    end
  else seg :: st.

Definition resolve (rooted : bool) (st : list string) (segs : list string) : list string :=
  foldl (clean_step rooted) st segs.

Definition is_rooted (path : string) : bool := has_prefix "/" path.

Definition show_path (rooted : bool) (segs : list string) : string :=
  if rooted then "/" +:+ strings_join "/" segs
  else match segs with [] => "." | _ => strings_join "/" segs end.

Definition components (path : string) : list string :=
  rev (resolve (is_rooted path) [] (split_byte "/" path)).

Definition Clean (path : string) : string := show_path (is_rooted path) (components path).

(** [filepath.Join] of two elements. *)
Definition Join2 (a b : string) : string :=
  if negb (a =? "")%string then Clean (a +:+ "/" +:+ b)
  else if negb (b =? "")%string then Clean b else "".

(** ** What a cleaned path looks like *)

(** A component that resolving leaves alone. *)
Definition name_ok (s : string) : Prop := s <> "" /\ s <> "." /\ s <> ".." /\ sall (neqc "/") s = true.

Lemma clean_step_name rooted st s : name_ok s -> clean_step rooted st s = s :: st.
Proof.
  intros (H1 & H2 & H3 & _). unfold clean_step.
  apply String.eqb_neq in H1, H2, H3. by rewrite H1, H2, H3.
Qed.

Lemma resolve_names rooted st ss : Forall name_ok ss -> resolve rooted st ss = rev ss ++ st.
Proof.
  intros H. revert st. induction H as [|s ss Hs Hss IH]; intros st; [done|].
  unfold resolve. cbn [foldl]. fold (resolve rooted (clean_step rooted st s) ss).
  rewrite clean_step_name, IH by done. cbn [rev]. by rewrite <- app_assoc.
Qed.

(** The stack of a path: names above a number of climbing components, none if rooted. *)
Definition stack_ok (rooted : bool) (st : list string) : Prop :=
  exists names n, st = names ++ repeat ".." n /\ Forall name_ok names /\ (rooted = true -> n = 0).

Lemma clean_step_ok rooted st seg :
  sall (neqc "/") seg = true -> stack_ok rooted st -> stack_ok rooted (clean_step rooted st seg).
Proof.
  intros Hs (names & n & -> & Hn & Hr). unfold clean_step.
  destruct (String.eqb_spec seg "") as [|H1]; [by exists names, n|].
  destruct (String.eqb_spec seg ".") as [|H2]; [by exists names, n|].
  destruct (String.eqb_spec seg "..") as [->|H3].
  - destruct Hn as [|top names Htop Hn].
    + destruct n as [|n]; cbn [app repeat].
      * destruct rooted; [by exists [], 0|]. exists [], 1. by repeat split.
      * exists [], (S (S n)). split; [done|]. split; [done|]. intros E. by specialize (Hr E).
    + cbn [app]. destruct Htop as (_ & _ & H3 & _). apply String.eqb_neq in H3. rewrite H3.
      by exists names, n.
  - exists (seg :: names), n. split; [done|]. split; [|done]. constructor; [by split|done].
Qed.

Lemma resolve_ok rooted st segs :
  Forall (fun s => sall (neqc "/") s = true) segs -> stack_ok rooted st -> stack_ok rooted (resolve rooted st segs).
Proof.
  intros H. revert st. induction H as [|s segs Hs Hss IH]; intros st Hst; [done|].
  apply IH. by apply clean_step_ok.
Qed.

Lemma components_ok path : exists n names,
  components path = repeat ".." n ++ names /\ Forall name_ok names /\ (is_rooted path = true -> n = 0).
Proof.
  destruct (resolve_ok (is_rooted path) [] (split_byte "/" path)) as (names & n & E & Hn & Hr).
  - apply split_byte_parts.
  - by exists [], 0.
  - exists n, (rev names). unfold components. rewrite E, rev_app_distr. split; [|split; [by apply Forall_rev|done]].
    f_equal. apply rev_repeat.
Qed.

Lemma dots_slash_free n : Forall (fun s => sall (neqc "/") s = true) (repeat ".." n).
Proof. induction n; by constructor. Qed.

Lemma names_slash_free names : Forall name_ok names -> Forall (fun s => sall (neqc "/") s = true) names.
Proof. intros H. eapply Forall_impl; [exact H|]. by intros s (_ & _ & _ & ?). Qed.

Lemma show_rooted_split names :
  Forall name_ok names -> names <> [] -> split_byte "/" ("/" +:+ strings_join "/" names) = "" :: names.
Proof.
  intros Hn Hne. change ("/" +:+ ?x) with ("" +:+ String "/" x). rewrite split_byte_app by done.
  f_equal. apply (split_byte_join "/"); [by apply names_slash_free|done].
Qed.

Lemma resolve_dots n : resolve false [] (repeat ".." n) = repeat ".." n.
Proof.
  assert (H : forall k m, resolve false (repeat ".." m) (repeat ".." k) = repeat ".." (k + m)).
  { induction k as [|k IH]; intros m; [done|]. cbn [repeat]. unfold resolve. cbn [foldl].
    replace (clean_step false (repeat ".." m) "..") with (repeat ".." (S m)) by (by destruct m).
    fold (resolve false (repeat ".." (S m)) (repeat ".." k)). rewrite IH.
    by replace (S k + m) with (k + S m) by lia. }
  etransitivity; [exact (H n 0)|]. by rewrite Nat.add_0_r.
Qed.

(** A relative path of names does not start with a slash. *)
Lemma relative_not_rooted segs :
  Forall (fun s => sall (neqc "/") s = true /\ s <> "") segs -> segs <> [] -> is_rooted (strings_join "/" segs) = false.
Proof.
  intros [|s ss [Hs Hne] Hss] Hn; [done|]. destruct s as [|c s]; [done|]. cbn [sall] in Hs.
  apply andb_prop in Hs as [Hc _]. unfold is_rooted, has_prefix.
  assert (E : exists r, strings_join "/" (String c s :: ss) = String c r).
  { destruct ss as [|b ss]; [by exists s|]. rewrite strings_join_cons, app_cons_l. by eexists. }
  destruct E as [r ->]. cbn [String.prefix]. destruct (ascii_dec "/" c) as [<-|]; [done|done].
Qed.

Lemma show_components rooted n names :
  Forall name_ok names -> (rooted = true -> n = 0) ->
  is_rooted (show_path rooted (repeat ".." n ++ names)) = rooted /\
  components (show_path rooted (repeat ".." n ++ names)) = repeat ".." n ++ names.
Proof.
  intros Hn Hr. destruct rooted.
  - rewrite (Hr eq_refl). cbn [repeat app]. unfold show_path.
    assert (Hroot : is_rooted ("/" +:+ strings_join "/" names) = true) by (by destruct (strings_join "/" names)).
    split; [done|]. unfold components. rewrite Hroot. destruct names as [|a names]; [done|].
    rewrite show_rooted_split by done. change (resolve true [] ("" :: a :: names)) with (resolve true [] (a :: names)).
    by rewrite resolve_names, app_nil_r, rev_involutive.
  - clear Hr. set (segs := repeat ".." n ++ names).
    assert (Hs : Forall (fun s => sall (neqc "/") s = true /\ s <> "") segs).
    { apply Forall_app. split; [clear; induction n; by constructor|].
      eapply Forall_impl; [exact Hn|]. by intros s (? & _ & _ & ?). }
    destruct segs as [|a segs'] eqn:Eseg; [by split|]. cbn [show_path]. rewrite <- Eseg in *.
    assert (Hne : segs <> []) by (by rewrite Eseg).
    pose proof (relative_not_rooted segs Hs Hne) as Hrel. split; [done|].
    unfold components. rewrite Hrel.
    rewrite (split_byte_join "/"); [|eapply Forall_impl; [exact Hs|]; by intros ? []|done].
    subst segs. unfold resolve. rewrite foldl_app. fold (resolve false [] (repeat ".." n)).
    rewrite resolve_dots. fold (resolve false (repeat ".." n) names). rewrite resolve_names by done.
    by rewrite rev_app_distr, rev_involutive, rev_repeat.
Qed.

Lemma Clean_idempotent path : Clean (Clean path) = Clean path.
Proof.
  destruct (components_ok path) as (n & names & E & Hn & Hr). unfold Clean at 2 3. rewrite E.
  destruct (show_components (is_rooted path) n names Hn Hr) as [H1 H2].
  unfold Clean. by rewrite H1, H2.
Qed.

End FilePath.

(** ** The layout *)

Module DataDir.
Import FilePath.

Definition Root : string := "/var/lib/postgresql".
Definition PGData : string := Root +:+ "/data".
Definition WAL : string := Root +:+ "/wal".
Definition Socket : string := "/var/run/postgresql".
Definition Scripts : string := "/opt/athos/scripts".
Definition TLS : string := "/opt/athos/tls".
Definition Config : string := "/etc/postgresql".

Definition trim_slash (s : string) : string := if has_prefix "/" s then sdrop 1 s else s.

Definition PGDataPath (rel : string) : string :=
  if (rel =? "")%string then PGData else Join2 PGData (trim_slash rel).
Definition WALPath (rel : string) : string :=
  if (rel =? "")%string then WAL else Join2 WAL (trim_slash rel).
Definition ConfigPath (rel : string) : string :=
  if (rel =? "")%string then Config else Join2 Config (trim_slash rel).

Definition IsInsidePGData (path : string) : bool := has_prefix PGData (Clean path).

Definition PostgresqlConf : string := ConfigPath "postgresql.conf".
Definition PGHBAConf : string := ConfigPath "pg_hba.conf".
Definition PIDFile : string := PGDataPath "postmaster.pid".

Record MissingError := { Name : string }.
Definition missing_Error (m : MissingError) : string := "datadir: required entry missing from PGDATA: " +:+ Name m.

Definition required : list string := ["PG_VERSION"; "base"; "global"; "pg_wal"].

(** [present[name]] of an absent key is [false]. *)
Definition IsValidPGDataLayout (present : gmap string bool) : option MissingError :=
  match List.find (fun n => negb (default false (present !! n))) required with
  | Some n => Some {| Name := n |}
  | None => None
  end.

Example datadir_files :
  PostgresqlConf = "/etc/postgresql/postgresql.conf" /\ PIDFile = "/var/lib/postgresql/data/postmaster.pid"
  /\ PGDataPath "a//b/./../c/" = "/var/lib/postgresql/data/a/c".
Proof. by vm_compute. Qed.

(** ** Containment *)

Lemma has_prefix_iff p s : has_prefix p s = true <-> exists t, s = p +:+ t.
Proof.
  unfold has_prefix. revert s. induction p as [|c p IH]; intros s; [split; [by exists s|by destruct s]|].
  destruct s as [|d s]; cbn [String.prefix].
  - split; [done|]. by intros [t H].
  - destruct (ascii_dec c d) as [->|Hne].
    + rewrite IH. split; intros [t H]; exists t; [by rewrite H|]. rewrite app_cons_l in H. congruence.
    + split; [done|]. intros [t H]. rewrite app_cons_l in H. congruence.
Qed.

Lemma split_byte_prepend c a t :
  sall (neqc c) a = true -> exists p ps, split_byte c t = p :: ps /\ split_byte c (a +:+ t) = (a +:+ p) :: ps.
Proof.
  intros Ha. destruct (split_byte c t) as [|p ps] eqn:E; [by apply split_byte_nonempty in E|].
  exists p, ps. split; [done|]. induction a as [|d a IH]; [done|].
  cbn [sall] in Ha. apply andb_prop in Ha as [Hd Ha]. rewrite app_cons_l. cbn [split_byte].
  unfold neqc in Hd. apply negb_true_iff in Hd. by rewrite Hd, IH.
Qed.

(** A joined path starting with the component [a]. *)
Lemma prefix_component a r ss :
  sall (neqc "/") a = true -> Forall (fun s => sall (neqc "/") s = true) ss -> ss <> [] ->
  has_prefix (a +:+ String "/" r) (strings_join "/" ss) = true ->
  exists ss', ss = a :: ss' /\ ss' <> [] /\ has_prefix r (strings_join "/" ss') = true.
Proof.
  intros Ha Hss Hne Hp. apply has_prefix_iff in Hp as [t E].
  pose proof (split_byte_join "/" ss Hss Hne) as Hsp. change (str1 "/") with "/" in Hsp.
  rewrite E, app_assoc_s, app_cons_l, split_byte_app in Hsp by done. rewrite <- Hsp.
  exists (split_byte "/" (r +:+ t)). split; [done|]. split; [apply split_byte_nonempty|].
  change "/" with (str1 "/") at 1. rewrite join_split_byte. apply has_prefix_iff. by exists t.
Qed.

Lemma prefix_last a ss :
  sall (neqc "/") a = true -> Forall (fun s => sall (neqc "/") s = true) ss -> ss <> [] ->
  has_prefix a (strings_join "/" ss) = true -> exists s rest, ss = (a +:+ s) :: rest.
Proof.
  intros Ha Hss Hne Hp. apply has_prefix_iff in Hp as [t E].
  pose proof (split_byte_join "/" ss Hss Hne) as Hsp. change (str1 "/") with "/" in Hsp. rewrite E in Hsp.
  destruct (split_byte_prepend "/" a t Ha) as (p & ps & _ & Hs). rewrite Hs in Hsp. by exists p, ps.
Qed.

Lemma components_slash_free path : Forall (fun s => sall (neqc "/") s = true) (components path).
Proof.
  destruct (components_ok path) as (n & names & -> & Hn & _).
  apply Forall_app. split; [apply dots_slash_free|by apply names_slash_free].
Qed.

(** A path is reported inside PGDATA exactly when it is absolute and, once resolved,
    its first components are /var/lib/postgresql and a name that starts with data: the
    directory itself and what lies in it, and also every sibling whose name has data as a
    prefix, which is outside. *)
Theorem IsInsidePGData_iff path :
  IsInsidePGData path = true <->
  is_rooted path = true /\ exists s rest, components path = "var" :: "lib" :: "postgresql" :: ("data" +:+ s) :: rest.
Proof.
  unfold IsInsidePGData, Clean. split.
  - intros H. pose proof (components_slash_free path) as Hc.
    destruct (components_ok path) as (n & names & E & Hn & Hr).
    destruct (is_rooted path) eqn:Er; cbn [show_path] in H.
    + split; [done|]. change (has_prefix ("var/lib/postgresql/data") (strings_join "/" (components path)) = true) in H.
      destruct (decide (components path = [])) as [E0|Hne]; [by rewrite E0 in H|].
      destruct (prefix_component "var" "lib/postgresql/data" _ eq_refl Hc Hne H) as (s1 & E1 & N1 & H1).
      rewrite E1 in Hc |- *. apply Forall_cons in Hc as [_ Hc].
      destruct (prefix_component "lib" "postgresql/data" _ eq_refl Hc N1 H1) as (s2 & E2 & N2 & H2).
      rewrite E2 in Hc |- *. apply Forall_cons in Hc as [_ Hc].
      destruct (prefix_component "postgresql" "data" _ eq_refl Hc N2 H2) as (s3 & E3 & N3 & H3).
      rewrite E3 in Hc |- *. apply Forall_cons in Hc as [_ Hc].
      destruct (prefix_last "data" s3 eq_refl Hc N3 H3) as (s & rest & ->). by exists s, rest.
    + exfalso. destruct (show_components false n names Hn Hr) as [Hrel _]. rewrite <- E in Hrel.
      apply has_prefix_iff in H as [t Ht]. cbn [show_path] in Hrel. rewrite Ht in Hrel. by destruct t.
  - intros (Hr & s & rest & E). rewrite Hr, E. cbn [show_path]. apply has_prefix_iff.
    destruct rest as [|b rest]; [by exists s|].
    exists (s +:+ "/" +:+ strings_join "/" (b :: rest)). rewrite !strings_join_cons. by rewrite <- ?app_assoc_s.
Qed.

(** The names a relative path adds when it does not climb. *)
Definition plain (s : string) : bool := negb (s =? "")%string && negb (s =? ".")%string.
Definition added (rel : string) : list string := List.filter plain (split_byte "/" rel).

Lemma resolve_plain st segs :
  ".." ∉ segs -> resolve true st segs = rev (List.filter plain segs) ++ st.
Proof.
  revert st. induction segs as [|s segs IH]; intros st Hd; [done|].
  apply not_elem_of_cons in Hd as [Hs Hd]. unfold resolve. cbn [foldl List.filter].
  fold (resolve true (clean_step true st s) segs). rewrite IH by done. unfold clean_step, plain.
  destruct (String.eqb_spec s ""); [done|]. destruct (String.eqb_spec s "."); [done|].
  destruct (String.eqb_spec s ".."); [congruence|]. cbn [negb andb rev]. by rewrite <- app_assoc.
Qed.

Lemma added_ok rel : ".." ∉ split_byte "/" rel -> Forall name_ok (added rel).
Proof.
  intros Hd. apply List.Forall_forall. intros s Hs. apply List.filter_In in Hs as [Hin Hp].
  pose proof (proj1 (List.Forall_forall _ _) (split_byte_parts "/" rel) s Hin) as Hf. cbn in Hf.
  unfold plain in Hp. apply andb_prop in Hp as [H1 H2]. apply negb_true_iff in H1, H2.
  apply String.eqb_neq in H1, H2. repeat split; [done|done| |done].
  intros ->. by apply Hd, list_elem_of_In.
Qed.

Lemma split_trim rel : split_byte "/" rel = split_byte "/" (trim_slash rel) \/
  split_byte "/" rel = "" :: split_byte "/" (trim_slash rel).
Proof.
  unfold trim_slash. destruct (has_prefix "/" rel) eqn:H; [|by left]. right.
  apply has_prefix_iff in H as [t ->]. change ("/" +:+ t) with ("" +:+ String "/" t).
  by rewrite split_byte_app.
Qed.

Lemma added_trim rel : added (trim_slash rel) = added rel.
Proof. unfold added. by destruct (split_trim rel) as [->| ->]. Qed.

Lemma split_join_app bs x :
  Forall name_ok bs -> split_byte "/" (strings_join "/" bs +:+ String "/" x) =
    (match bs with [] => [""] | _ => bs end) ++ split_byte "/" x.
Proof.
  induction 1 as [|b bs Hb Hbs IH]; [done|]. assert (Hs : sall (neqc "/") b = true) by apply Hb.
  destruct bs as [|b2 bs]; [by apply (split_byte_app "/" b x)|].
  rewrite strings_join_cons, !app_assoc_s. change ("/" +:+ ?y) with (String "/" y).
  rewrite split_byte_app by done. by rewrite IH.
Qed.

Lemma join_below bs rel :
  Forall name_ok bs -> bs <> [] -> ".." ∉ split_byte "/" rel ->
  Join2 (show_path true bs) rel = show_path true (bs ++ added rel).
Proof.
  intros Hb Hne Hd. unfold Join2. cbn [show_path].
  replace (("/" +:+ strings_join "/" bs =? "")%string) with false by (by destruct (strings_join "/" bs)).
  cbn [negb]. unfold Clean. rewrite app_assoc_s. change ("/" +:+ rel) with (String "/" rel).
  assert (Hr : is_rooted ("/" +:+ (strings_join "/" bs +:+ String "/" rel)) = true)
    by (by destruct (strings_join "/" bs +:+ String "/" rel)).
  rewrite Hr. f_equal. unfold components. rewrite Hr.
  change ("/" +:+ ?y) with ("" +:+ String "/" y) at 1. rewrite split_byte_app by done.
  rewrite split_join_app by done. destruct bs as [|b bs]; [done|].
  change (resolve true [] ("" :: ?l)) with (resolve true [] l). unfold resolve. rewrite foldl_app.
  fold (resolve true [] (b :: bs)). rewrite resolve_names by done. rewrite app_nil_r.
  fold (resolve true (rev (b :: bs)) (split_byte "/" rel)). rewrite resolve_plain by done.
  by rewrite rev_app_distr, !rev_involutive.
Qed.

Lemma below_base base bs rel :
  base = show_path true bs -> Forall name_ok bs -> bs <> [] -> ".." ∉ split_byte "/" rel ->
  (if (rel =? "")%string then base else Join2 base (trim_slash rel)) = show_path true (bs ++ added rel).
Proof.
  intros -> Hb Hne Hd. destruct (String.eqb_spec rel "") as [->|].
  { change (added "") with (@nil string). by rewrite app_nil_r. }
  rewrite join_below, added_trim; [done|done|done|].
  destruct (split_trim rel) as [E|E]; rewrite E in Hd; [done|]. by apply not_elem_of_cons in Hd as [_ ?].
Qed.

(** The data, WAL and configuration paths of a relative path without climbing
    components lie below their base directory: they are the base followed by the names of
    the relative path, so every such PGDATA path is reported inside PGDATA. A relative
    path that climbs leaves the base: ../wal below PGDATA is the WAL directory. *)
Theorem layout_paths_contained rel :
  ".." ∉ split_byte "/" rel ->
  PGDataPath rel = show_path true (["var"; "lib"; "postgresql"; "data"] ++ added rel)
  /\ WALPath rel = show_path true (["var"; "lib"; "postgresql"; "wal"] ++ added rel)
  /\ ConfigPath rel = show_path true (["etc"; "postgresql"] ++ added rel)
  /\ Forall name_ok (added rel)
  /\ IsInsidePGData (PGDataPath rel) = true
  /\ PGDataPath "../wal" = WAL.
Proof.
  intros Hd. assert (Hn : Forall name_ok (added rel)) by (by apply added_ok).
  assert (Hok : forall s, existsb (String.eqb s) ["var"; "lib"; "postgresql"; "data"; "wal"; "etc"] = true -> name_ok s).
  { intros s Hs. apply existsb_exists in Hs as (x & Hin & ->%String.eqb_eq). cbn in Hin.
    repeat destruct Hin as [<-|Hin]; by repeat split. }
  assert (HP : PGDataPath rel = show_path true (["var"; "lib"; "postgresql"; "data"] ++ added rel))
    by (apply below_base; [done|repeat constructor; by apply Hok|done|done]).
  repeat split; [exact HP| | |exact Hn|].
  - apply below_base; [done|repeat constructor; by apply Hok|done|done].
  - apply below_base; [done|repeat constructor; by apply Hok|done|done].
  - unfold IsInsidePGData. rewrite HP.
    destruct (show_components true 0 (["var"; "lib"; "postgresql"; "data"] ++ added rel)) as [H1 H2]; [|done|].
    + apply Forall_app. split; [repeat constructor; by apply Hok|done].
    + cbn [repeat app] in H1, H2. cbn [app]. unfold Clean. rewrite H1, H2. cbn [show_path app].
      apply has_prefix_iff. destruct (added rel) as [|a l]; [by exists ""|].
      exists ("/" +:+ strings_join "/" (a :: l)). by rewrite !strings_join_cons, <- ?app_assoc_s.
Qed.

Lemma layout_paths_contained_witness :
  (".." ∉ split_byte "/" "pg_wal/archive_status") /\ IsInsidePGData (PGDataPath "pg_wal/archive_status") = true.
Proof.
  assert (H : ".." ∉ split_byte "/" "pg_wal/archive_status") by (apply (bool_decide_unpack _); vm_compute; exact I).
  split; [exact H|]. apply (layout_paths_contained "pg_wal/archive_status" H).
Defined.

Example sibling_inside : IsInsidePGData "/var/lib/postgresql/data-old/base" = true.
Proof. reflexivity. Qed.

End DataDir.
