(* ===== verification/Standby.v ===== *)
(** * Replication and recovery configuration

    internal/replication/replication.go: WAL parameters of the primary, connection
    information and configuration of a standby. internal/recovery/recovery.go: recovery
    targets and the parameters that implement them. The rendered text is read back with
    the configuration lexer of ConfFile.v and the connection-string parser of Store.v. *)

From Stdlib Require Import ZArith Lia List Bool Ascii.
From stdpp Require Import base list strings gmap.
From S2P Require Import Prelude GoStrings PgConfig Store Durations ConfFile Snapshot Images Meta.

Local Open Scope Z_scope.

Module Replication.
Import Config HBA Store ConfFile.

Definition DefaultSyncStandbyNames : string := "*".
Definition DefaultWalLevel : string := "replica".
Definition DefaultMaxWalSenders : Z := 10.
Definition DefaultMaxReplicationSlots : Z := 10.
Definition DefaultWalKeepSize : Z := 128.
Definition ReplicationUser : string := "replicator".

Record WalConfig := {
  WalLevel : string;
  MaxWalSenders : Z;
  MaxReplicationSlots : Z;
  WalKeepSize : Z;
  SynchronousStandbyNames : string;
  wal_PostgresVersion : Z;
}.

Definition DefaultWalConfig (pgVersion : Z) : WalConfig :=
  {| WalLevel := DefaultWalLevel; MaxWalSenders := DefaultMaxWalSenders;
     MaxReplicationSlots := DefaultMaxReplicationSlots; WalKeepSize := DefaultWalKeepSize;
     SynchronousStandbyNames := ""; wal_PostgresVersion := pgVersion |}.

Definition wal_keep (w : WalConfig) (params : gmap string string) : gmap string string :=
  if 13 <=? wal_PostgresVersion w then <["wal_keep_size" := itoa (WalKeepSize w) +:+ "MB"]> params
  else <["wal_keep_segments" := itoa (Z.quot (WalKeepSize w) 16)]> params.

Definition sync_params (w : WalConfig) (params : gmap string string) : gmap string string :=
  if (SynchronousStandbyNames w =? "")%string then params
  else <["synchronous_commit" := "on"]> (<["synchronous_standby_names" := SynchronousStandbyNames w]> params).

Definition Parameters (w : WalConfig) : gmap string string :=
  sync_params w (wal_keep w (list_to_map
    [("wal_level", WalLevel w); ("max_wal_senders", itoa (MaxWalSenders w));
     ("max_replication_slots", itoa (MaxReplicationSlots w)); ("hot_standby", "on");
     ("hot_standby_feedback", "on")])).

Record StandbyConfig := {
  PrimaryHost : string;
  ReplicationPassword : string;
  ApplicationName : string;
  PostgresVersion : Z;
}.

(** [PrimaryConnInfoFormat] with its four arguments. *)
Definition PrimaryConnInfo (s : StandbyConfig) : string :=
  "host=" +:+ PrimaryHost s +:+ " port=5432 user=" +:+ ReplicationUser +:+ " password=" +:+ ReplicationPassword s
  +:+ " application_name=" +:+ ApplicationName s.

Definition RecoveryConfig (s : StandbyConfig) : string :=
  "# Managed by athos-kubernetes - do not edit" +:+ newline
  +:+ ("primary_conninfo = " +:+ str1 squote +:+ PrimaryConnInfo s +:+ str1 squote +:+ newline)
  +:+ ("restore_command = " +:+ str1 squote +:+ str1 squote +:+ newline)
  +:+ ("recovery_target_timeline = " +:+ str1 squote +:+ "latest" +:+ str1 squote +:+ newline)
  +:+ (if PostgresVersion s <? 12 then "standby_mode = " +:+ str1 squote +:+ "on" +:+ str1 squote +:+ newline else "").

Definition HBAReplicationEntry (cidr : string) : string :=
  "host replication " +:+ ReplicationUser +:+ " " +:+ cidr +:+ " scram-sha-256".

Definition ReplicationSlotName (clusterName : string) (ordinal : Z) : string :=
  replace_byte "-" "_" clusterName +:+ "_slot_" +:+ itoa ordinal.

(** ** What a standby reads *)

(** Bytes that need no quoting in connection information: visible ASCII without quotes
    and backslashes. *)
Definition plain_byte (c : ascii) : bool := graphic c && neqc squote c && neqc bslash c.
Definition plain_value (v : string) : bool := sall plain_byte v.

Lemma plain_safe v : plain_value v = true -> safe_value v = true.
Proof.
  apply sall_impl. intros c H. unfold plain_byte in H. breflect.
  by rewrite graphic_printable by done.
Qed.

Lemma plain_unquoted v : plain_value v = true -> quote_value v = v.
Proof.
  intros H. unfold quote_value.
  assert (Hc : forall d, plain_byte d = false -> contains_byte d v = false).
  { intros d Hd. apply contains_byte_false. eapply sall_impl; [|exact H]. intros c Hc. cbv beta in Hc.
    unfold neqc. destruct (Ascii.eqb_spec d c) as [->|]; [congruence|done]. }
  by rewrite !Hc.
Qed.

Definition conninfo_pairs (h pw app : string) : list (string * string) :=
  [("host", h); ("port", "5432"); ("user", ReplicationUser); ("password", pw); ("application_name", app)].

Lemma conninfo_text s :
  plain_value (PrimaryHost s) = true -> plain_value (ReplicationPassword s) = true ->
  plain_value (ApplicationName s) = true ->
  PrimaryConnInfo s = strings_join " " (map pair_part (conninfo_pairs (PrimaryHost s) (ReplicationPassword s) (ApplicationName s))).
Proof.
  intros H1 H2 H3. unfold conninfo_pairs, pair_part. cbn [map fst snd].
  rewrite !plain_unquoted by done. rewrite !strings_join_cons. cbn [strings_join].
  unfold PrimaryConnInfo. by rewrite !app_assoc_s.
Qed.

Lemma plain_conninfo s :
  plain_value (PrimaryHost s) = true -> plain_value (ReplicationPassword s) = true ->
  plain_value (ApplicationName s) = true ->
  sall (fun c => printable c && neqc squote c && neqc bslash c) (PrimaryConnInfo s) = true.
Proof.
  assert (Hp : forall v, plain_value v = true -> sall (fun c => printable c && neqc squote c && neqc bslash c) v = true).
  { intros v. apply sall_impl. intros c H. unfold plain_byte in H. breflect.
    by rewrite (graphic_printable c H), H1, H0. }
  intros H1 H2 H3. unfold PrimaryConnInfo. rewrite !sall_app, (Hp _ H1), (Hp _ H2), (Hp _ H3). reflexivity.
Qed.

Lemma read_quoted k v :
  conf_key_ok k = true -> sall (neqc squote) v = true -> sall (neqc bslash) v = true ->
  read_line (k +:+ " = " +:+ str1 squote +:+ v +:+ str1 squote) = Setting k v.
Proof.
  intros Hk Hq Hb. destruct (key_bytes k Hk) as (Hsp & _ & c & r & -> & Hc).
  unfold read_line. rewrite app_cons_l, Hc, <- app_cons_l.
  rewrite span_app; [|done|by intros x y [= <- <-]]. rewrite (str1_app squote (v +:+ str1 squote)).
  change (has_prefix " = " (" = " +:+ String squote ?x)) with (has_prefix "" (String squote x)).
  replace (has_prefix "" (String squote (v +:+ str1 squote))) with true by done.
  unfold conf_key_ok in Hk. apply andb_true_iff in Hk as [-> ->]. cbn [andb].
  change (sdrop 3 (" = " +:+ ?x)) with (sdrop 0 x). cbn [sdrop read_value]. rewrite Ascii.eqb_refl.
  pose proof (unquote_escape v Hb) as Hu. unfold escapeValue in Hu. rewrite replace_byte_none in Hu by done.
  by rewrite Hu.
Qed.

Definition standby_lines (s : StandbyConfig) : list string :=
  ["# Managed by athos-kubernetes - do not edit";
   "primary_conninfo = " +:+ str1 squote +:+ PrimaryConnInfo s +:+ str1 squote;
   "restore_command = " +:+ str1 squote +:+ str1 squote;
   "recovery_target_timeline = " +:+ str1 squote +:+ "latest" +:+ str1 squote]
  ++ (if PostgresVersion s <? 12 then ["standby_mode = " +:+ str1 squote +:+ "on" +:+ str1 squote] else []).

Lemma RecoveryConfig_lines s : RecoveryConfig s = write_lines (standby_lines s).
Proof.
  unfold standby_lines. rewrite write_lines_app, !write_lines_cons. unfold RecoveryConfig.
  rewrite !app_assoc_s. do 5 f_equal. destruct (PostgresVersion s <? 12); [|done].
  rewrite write_lines_cons, !app_assoc_s. done.
Qed.

Definition standby_settings (s : StandbyConfig) : list (string * string) :=
  [("primary_conninfo", PrimaryConnInfo s); ("restore_command", ""); ("recovery_target_timeline", "latest")]
  ++ (if PostgresVersion s <? 12 then [("standby_mode", "on")] else []).

(** A standby reads the configuration it was given: when host, password and
    application name are visible ASCII without quotes and backslashes, the lexer finds in
    the rendered file exactly the connection information, the empty restore command and
    the latest timeline (and standby_mode before version 12), and the connection-string
    parser finds in the connection information exactly the five settings. *)
Theorem standby_reads_back T s :
  plain_value (PrimaryHost s) = true -> plain_value (ReplicationPassword s) = true ->
  plain_value (ApplicationName s) = true ->
  read_conf (RecoveryConfig s) = Some (standby_settings s)
  /\ tokenizeDSN T (PrimaryConnInfo s) =
       Ok (list_to_map (conninfo_pairs (PrimaryHost s) (ReplicationPassword s) (ApplicationName s))).
Proof.
  intros H1 H2 H3. pose proof (plain_conninfo s H1 H2 H3) as Hc. split.
  - assert (Hx : forall d, neqc d d = false -> (printable d && neqc squote d && neqc bslash d) = false ->
      sall (neqc d) (PrimaryConnInfo s) = true).
    { intros d _ Hd. eapply sall_impl; [|exact Hc]. intros c Hcc. cbv beta in Hcc. unfold neqc.
      destruct (Ascii.eqb_spec d c) as [->|]; [congruence|done]. }
    rewrite RecoveryConfig_lines. unfold read_conf, write_lines. rewrite split_newline_lines.
    + unfold standby_lines. cbn [app read_lines]. change (read_line "# Managed by athos-kubernetes - do not edit") with Skip.
      pose proof (read_quoted "primary_conninfo" (PrimaryConnInfo s) eq_refl (Hx squote eq_refl eq_refl) (Hx bslash eq_refl eq_refl)) as Hp.
      change ("primary_conninfo" +:+ " = " +:+ ?x) with ("primary_conninfo = " +:+ x) in Hp. rewrite Hp.
      unfold standby_settings. destruct (PostgresVersion s <? 12); reflexivity.
    + unfold standby_lines. apply Forall_app. split; [|destruct (_ <? _); by repeat constructor].
      repeat constructor. rewrite !sall_app. rewrite (Hx "010"%char) by done. done.
  - rewrite conninfo_text by done. rewrite tokenizeDSN_pairs; [done|].
    repeat constructor; by apply plain_safe.
Qed.

Definition standby_sample : StandbyConfig :=
  {| PrimaryHost := "pg-0.pg-pods.db.svc"; ReplicationPassword := "s3cret=42"; ApplicationName := "pg-1"; PostgresVersion := 11 |}.

Lemma standby_reads_back_witness : read_conf (RecoveryConfig standby_sample) = Some (standby_settings standby_sample).
Proof. apply (standby_reads_back ascii_tables standby_sample); reflexivity. Defined.

(** A password with a space in it changes the other settings: PrimaryConnInfo does not
    quote it, so the text after the space is read as settings of its own, and a password
    ending in host=h2 makes the standby connect to h2 with the first part as password. *)
Theorem password_overrides_host T h p h2 app v :
  plain_value h = true -> plain_value p = true -> plain_value h2 = true -> plain_value app = true ->
  exists m,
    tokenizeDSN T (PrimaryConnInfo {| PrimaryHost := h; ReplicationPassword := p +:+ " host=" +:+ h2;
                                      ApplicationName := app; PostgresVersion := v |}) = Ok m
    /\ m !! "host" = Some h2 /\ m !! "password" = Some p /\ m !! "application_name" = Some app.
Proof.
  intros Hh Hp Hh2 Ha.
  set (l := [("host", h); ("port", "5432"); ("user", ReplicationUser); ("password", p); ("host", h2); ("application_name", app)]).
  exists (foldl (fun m p => <[p.1 := p.2]> m) ∅ l). split; [|split_and!; by simpl_map].
  rewrite <- (tokenizeDSN_pairs T l).
  2: { repeat constructor; by apply plain_safe. }
  f_equal. unfold l, pair_part. cbn [map fst snd]. rewrite !plain_unquoted by done.
  rewrite !strings_join_cons. cbn [strings_join]. unfold PrimaryConnInfo.
  cbn [PrimaryHost ReplicationPassword ApplicationName]. by rewrite !app_assoc_s.
Qed.

Lemma password_overrides_host_witness :
  exists m, tokenizeDSN ascii_tables (PrimaryConnInfo {| PrimaryHost := "pg-0"; ReplicationPassword := "pw host=evil";
                                      ApplicationName := "pg-1"; PostgresVersion := 16 |}) = Ok m
    /\ m !! "host" = Some "evil".
Proof.
  destruct (password_overrides_host ascii_tables "pg-0" "pw" "evil" "pg-1" 16) as (m & H1 & H2 & _); try reflexivity.
  exists m. split; [exact H1|exact H2].
Defined.

(** ** Slot names *)

(** What PostgreSQL accepts as the name of a replication slot. *)
Definition valid_slot_name (s : string) : bool :=
  negb (s =? "")%string && (String.length s <=? 63)%nat
  && sall (fun c => is_lower c || is_digit c || Ascii.eqb c "_") s.

Lemma underscore_injective a b :
  sall (neqc "_") a = true -> sall (neqc "_") b = true ->
  replace_byte "-" "_" a = replace_byte "-" "_" b -> a = b.
Proof.
  revert b. induction a as [|c a IH]; intros [|d b] Ha Hb; cbn [replace_byte sall] in *; [done| | |].
  - by destruct (Ascii.eqb "-" d).
  - by destruct (Ascii.eqb "-" c).
  - breflect. unfold neqc in *. breflect.
    destruct (Ascii.eqb_spec "-" c) as [<-|], (Ascii.eqb_spec "-" d) as [<-|]; intros E.
    + rewrite !app_cons_l, !app_nil_l_s in E. injection E as E. f_equal. by apply IH.
    + rewrite app_cons_l in E. injection E as <- _. done.
    + rewrite app_cons_l in E. injection E as -> _. done.
    + injection E as -> E. f_equal. by apply IH.
Qed.

Lemma length_underscore a : String.length (replace_byte "-" "_" a) = String.length a.
Proof. induction a as [|c a IH]; [done|]. cbn [replace_byte]. destruct (Ascii.eqb "-" c); cbn; by rewrite <- IH. Qed.

Lemma label_bytes c : Validation.IsDNSLabel c = true ->
  sall (fun x => Validation.isLowerAlnum x || Ascii.eqb x "-") c = true.
Proof.
  destruct c as [|x c]; [done|]. cbn [Validation.IsDNSLabel sall]. intros H. breflect.
  rewrite H1. by apply Validation.dns_rest_bytes.
Qed.

Lemma label_underscore c : Validation.IsDNSLabel c = true ->
  sall (neqc "_") c = true /\
  sall (fun c => is_lower c || is_digit c || Ascii.eqb c "_") (replace_byte "-" "_" c) = true.
Proof.
  intros H%label_bytes. induction c as [|x c IH]; [done|]. cbn [sall replace_byte] in *. breflect.
  destruct (IH H0) as [IH1 IH2]. rewrite IH1, andb_true_r. split.
  - unfold neqc. destruct (Ascii.eqb_spec "_" x) as [<-|]; done.
  - destruct (Ascii.eqb_spec "-" x) as [<-|Hx]; [exact IH2|]. cbn [sall]. rewrite IH2, andb_true_r.
    unfold Validation.isLowerAlnum in H. destruct (Ascii.eqb_spec x "-"); [congruence|]. by rewrite orb_false_r in H; rewrite H.
Qed.

(** Slot names of clusters named by DNS labels are distinct for distinct pods, of the
    same cluster or of different ones, and PostgreSQL accepts such a name exactly when it
    fits: the cluster name and the ordinal together have at most 57 bytes. *)
Theorem slot_names_distinct c1 c2 o1 o2 :
  Validation.IsDNSLabel c1 = true -> Validation.IsDNSLabel c2 = true -> 0 <= o1 -> 0 <= o2 ->
  (ReplicationSlotName c1 o1 = ReplicationSlotName c2 o2 -> c1 = c2 /\ o1 = o2)
  /\ (valid_slot_name (ReplicationSlotName c1 o1) = true <->
        (String.length c1 + String.length (itoa o1) <= 57)%nat).
Proof.
  intros H1 H2 Ho1 Ho2. destruct (label_underscore c1 H1) as [U1 V1]. destruct (label_underscore c2 H2) as [U2 _].
  assert (Hd : forall o, 0 <= o -> sall is_digit (itoa o) = true).
  { intros o Ho. unfold itoa. replace (o <? 0) with false by (symmetry; apply Z.ltb_ge; lia). by apply digits_all. }
  split.
  - unfold ReplicationSlotName. intros E.
    assert (Hs : forall c o, 0 <= o -> split_last "_" (replace_byte "-" "_" c +:+ "_slot_" +:+ itoa o)
      = Some (replace_byte "-" "_" c +:+ "_slot", itoa o)).
    { intros c o Ho. change ("_slot_" +:+ itoa o) with ("_slot" +:+ String "_" (itoa o)).
      rewrite <- app_assoc_s. apply split_last_app. apply sall_digit_neq; [done|by apply Hd]. }
    pose proof (Hs c1 o1 Ho1) as E1. rewrite E, (Hs c2 o2 Ho2) in E1. injection E1 as E1 E2.
    split; [|symmetry; by apply itoa_inj]. symmetry.
    apply app_inv_tail_s in E1. by apply underscore_injective.
  - unfold valid_slot_name, ReplicationSlotName. rewrite !sall_app, V1, !length_app_s, length_underscore.
    replace (sall _ (itoa o1)) with true.
    2: { symmetry. eapply sall_impl; [|exact (Hd o1 Ho1)]. intros x ->. by destruct (is_lower x). }
    destruct c1 as [|x c1]; [done|]. cbn [replace_byte].
    replace (negb _) with true by (by destruct (Ascii.eqb "-" x)).
    cbn [andb sall]. rewrite andb_true_r. change (String.length "_slot_") with 6%nat.
    rewrite Nat.leb_le. lia.
Qed.

Lemma slot_names_distinct_witness : valid_slot_name (ReplicationSlotName "pg-main" 2) = true.
Proof. apply (slot_names_distinct "pg-main" "pg" 2 0); [reflexivity|reflexivity|lia|lia|apply Nat.leb_le; reflexivity]. Defined.

End Replication.

(** ** internal/recovery *)

Module Recovery.
Import Config HBA ConfFile GoTime Calendar.

Definition TargetKind := string.
Definition TargetKindTime : TargetKind := "time".
Definition TargetKindLSN : TargetKind := "lsn".
Definition TargetKindXID : TargetKind := "xid".
Definition TargetKindName : TargetKind := "name".
Definition TargetKindImmediate : TargetKind := "immediate".

(** A time is nanoseconds since the epoch; [None] is the zero time. *)
Record Target := {
  t_Kind : TargetKind;
  t_Time : option Z;
  LSN : string;
  XID : Z;
  t_Name : string;
  Inclusive : bool;
  Timeline : string;
}.

Definition instant (t : option Z) : Z := default Conditions.zero_time t.

Definition hex_rune (c : Z) : bool := in_range 48 57 c || in_range 65 70 c || in_range 97 102 c.

Definition lsn_part (p : string) : bool :=
  negb (String.length p =? 0)%nat && (String.length p <=? 8)%nat && forallb (fun r => hex_rune r.1) (runes p).

Definition isValidLSN (s : string) : bool :=
  match split_first "/" s with
  | Some (a, b) => lsn_part a && lsn_part b
  | None => false
  end.

(** The loop of [parseUint] at 64 bits; an empty text is refused after it. *)
Fixpoint parse_runes (n : Z) (l : list (Z * string)) : option Z :=
  match l with
  | [] => Some n
  | (c, _) :: l' => if in_range 48 57 c then parse_runes ((n * 10 + (c - 48)) mod 2 ^ 64) l' else None
  end.
Definition parseUint (s : string) : option Z :=
  match parse_runes 0 (runes s) with
  | Some n => if (s =? "")%string then None else Some n
  | None => None
  end.

(** The text [%v] prints for a time depends on its location and is a parameter. *)
Definition validate_kind (T : UnicodeTables) (show_time : option Z -> string) (now : Z) (t : Target) : option error :=
  let k := t_Kind t in
  if (k =? TargetKindTime)%string then
    match t_Time t with
    | None => Some (ErrNew ("recovery target kind " +:+ Quote T k +:+ " requires a non-zero time"))
    | Some z => if now + Minute <? z then Some (ErrNew ("recovery target time " +:+ show_time (t_Time t) +:+ " is in the future"))
                else None
    end
  else if (k =? TargetKindLSN)%string then
    if isValidLSN (LSN t) then None
    else Some (ErrNew ("recovery target LSN " +:+ Quote T (LSN t) +:+ " is not in the form XXXXXXXX/XXXXXXXX"))
  else if (k =? TargetKindXID)%string then
    if XID t =? 0 then Some (ErrNew "recovery target XID must be non-zero") else None
  else if (k =? TargetKindName)%string then
    if (TrimSpace (t_Name t) =? "")%string then Some (ErrNew "recovery target name must not be empty") else None
  else if (k =? TargetKindImmediate)%string then None
  else Some (ErrNew ("unknown recovery target kind " +:+ Quote T k)).

Definition validate_timeline (t : Target) : option error :=
  if negb (Timeline t =? "")%string && negb (Timeline t =? "latest")%string then
    match parseUint (Timeline t) with
    | None => Some (ErrNew ("recovery target timeline must be " +:+ str1 dquote +:+ "latest" +:+ str1 dquote
                            +:+ " or a positive integer"))
    | Some _ => None
    end
  else None.

Definition Validate (T : UnicodeTables) (show_time : option Z -> string) (now : Z) (t : Target) : option error :=
  match validate_kind T show_time now t with
  | Some e => Some e
  | None => validate_timeline t
  end.

(** [t.UTC().Format(TimeLayout)]. *)
Definition time_text (z : Z) : string :=
  let c := civil z in
  year_text (c_year c) +:+ "-" +:+ padded 2 (c_month c) +:+ "-" +:+ padded 2 (c_day c) +:+ " "
  +:+ padded 2 (c_hour c) +:+ ":" +:+ padded 2 (c_min c) +:+ ":" +:+ padded 2 (c_sec c) +:+ " UTC".

Definition RecoveryParams (t : Target) : gmap string string :=
  let timeline := if (Timeline t =? "")%string then "latest" else Timeline t in
  let params : gmap string string := {[ "recovery_target_timeline" := timeline ]} in
  let inclusive := if Inclusive t then "true" else "false" in
  let k := t_Kind t in
  if (k =? TargetKindTime)%string then
    <["recovery_target_inclusive" := inclusive]> (<["recovery_target_time" := time_text (instant (t_Time t))]> params)
  else if (k =? TargetKindLSN)%string then
    <["recovery_target_inclusive" := inclusive]> (<["recovery_target_lsn" := LSN t]> params)
  else if (k =? TargetKindXID)%string then
    <["recovery_target_inclusive" := inclusive]> (<["recovery_target_xid" := itoa (XID t)]> params)
  else if (k =? TargetKindName)%string then <["recovery_target_name" := t_Name t]> params
  else if (k =? TargetKindImmediate)%string then <["recovery_target" := "immediate"]> params
  else params.

Definition StandbySignalContent : string := "# standby.signal - managed by athos-kubernetes" +:+ newline.
Definition RecoverySignalContent : string := "# recovery.signal - managed by athos-kubernetes" +:+ newline.

(** ** Valid targets *)

Definition hex_byte (c : ascii) : bool := hex_rune (byte c).

Lemma lsn_part_iff p :
  lsn_part p = true <-> (1 <= String.length p <= 8)%nat /\ sall hex_byte p = true.
Proof.
  unfold lsn_part. rewrite (runes_bytes hex_rune).
  2: { intros r Hr. unfold hex_rune, in_range. repeat (apply orb_false_intro); apply andb_false_intro2, Z.leb_gt; lia. }
  rewrite !andb_true_iff, negb_true_iff, Nat.eqb_neq, Nat.leb_le. unfold hex_byte. split; intros; intuition lia.
Qed.

(** The accepted log sequence numbers: two numbers of one to eight hexadecimal digits. *)
Lemma isValidLSN_iff s :
  isValidLSN s = true <-> exists a b, s = a +:+ "/" +:+ b /\ (1 <= String.length a <= 8)%nat /\
    (1 <= String.length b <= 8)%nat /\ sall hex_byte a = true /\ sall hex_byte b = true.
Proof.
  unfold isValidLSN. split.
  - destruct (split_first "/" s) as [[a b]|] eqn:E; [|done]. intros H. breflect.
    apply lsn_part_iff in H as [? ?], H0 as [? ?]. exists a, b. split_and!; try done; try lia.
    by apply split_first_Some in E as ->.
  - intros (a & b & -> & Ha & Hb & Xa & Xb). change ("/" +:+ b) with (String "/" b). rewrite split_first_app.
    + apply andb_true_intro. split; by apply lsn_part_iff.
    + eapply sall_impl; [|exact Xa]. intros c Hc. unfold neqc. destruct (Ascii.eqb_spec "/" c) as [<-|]; done.
Qed.

Lemma parseUint_digits s n : parseUint s = Some n -> s <> "" /\ sall is_digit s = true.
Proof.
  unfold parseUint. destruct (parse_runes 0 (runes s)) as [m|] eqn:E; [|done].
  destruct (String.eqb_spec s ""); [done|]. intros _. split; [done|].
  change (sall (fun c => in_range 48 57 (byte c)) s = true). rewrite <- (runes_bytes (in_range 48 57)).
  2: { intros r Hr. unfold in_range. apply andb_false_intro2, Z.leb_gt. lia. }
  revert E. generalize 0 as acc. induction (runes s) as [|[c b] l IH]; intros acc E; [done|].
  cbn [parse_runes forallb fst] in *. destruct (in_range 48 57 c); [|done]. by eapply IH.
Qed.

(** ** Settings that need quoting *)

Lemma special_lower c : special (lower_byte c) = special c.
Proof. by destruct c as [[] [] [] [] [] [] [] []]. Qed.
Lemma slash_lower c : neqc "/" (lower_byte c) = neqc "/" c.
Proof. by destruct c as [[] [] [] [] [] [] [] []]. Qed.

Lemma sall_smap (p : ascii -> bool) f s : (forall c, p (f c) = p c) -> sall p (smap f s) = sall p s.
Proof. intros H. induction s as [|c s IH]; [done|]. cbn. by rewrite H, IH. Qed.

(** A value with a byte no bare word has is quoted. *)
Lemma not_a_word (p : ascii -> bool) v :
  (forall c, p (lower_byte c) = p c) -> sall p v = false ->
  forallb (sall p) ["on"; "off"; "true"; "false"; "yes"; "no"] = true ->
  existsb (String.eqb (smap lower_byte v)) ["on"; "off"; "true"; "false"; "yes"; "no"] = false.
Proof.
  intros Hl Hv Hw. apply not_true_iff_false. intros (w & Hin & <-%String.eqb_eq)%existsb_exists.
  rewrite forallb_forall in Hw. specialize (Hw _ Hin). by rewrite sall_smap, Hv in Hw.
Qed.

Lemma special_quoted v : sall (fun c => negb (special c)) v = false -> needsQuote v = true.
Proof.
  intros H. unfold needsQuote. destruct (String.eqb_spec v "") as [->|]; [done|].
  rewrite (not_a_word (fun c => negb (special c)) v); [by rewrite H| |done|done].
  intros c. by rewrite special_lower.
Qed.

Lemma slash_quoted v : sall (neqc "/") v = false -> needsQuote v = true.
Proof.
  intros H. unfold needsQuote. destruct (String.eqb_spec v "") as [->|]; [done|].
  rewrite (not_a_word (neqc "/") v slash_lower H eq_refl). case_match; [done|]. apply negb_true_iff.
  apply not_true_iff_false. intros Hu. apply not_true_iff_false in H. apply H.
  eapply sall_impl; [|exact Hu]. intros c Hc. unfold neqc. destruct (Ascii.eqb_spec "/" c) as [<-|]; done.
Qed.

Lemma digits_bare s : s <> "" -> sall is_digit s = true -> conf_value_ok s = true.
Proof.
  intros Hne Hd. unfold conf_value_ok. rewrite !sall_digit_neq by done. cbn [andb].
  apply orb_true_iff. right. unfold bare_token, integer_token, qualified_token.
  rewrite split_byte_none, andb_true_r by by apply sall_digit_neq.
  assert (E : strip_sign s = s).
  { destruct s as [|c s]; [done|]. cbn [sall] in Hd. breflect. cbn [strip_sign].
    destruct (Ascii.eqb_spec c "-") as [->|]; [done|]. by destruct (Ascii.eqb_spec c "+") as [->|]. }
  rewrite E. pose proof (span_app is_digit s "" Hd) as Hs. rewrite app_nil_r_s in Hs. rewrite Hs by done.
  by destruct s.
Qed.

Definition time_byte (c : ascii) : bool := is_digit c || existsb (Ascii.eqb c) ["-"; ":"; " "; "U"; "T"; "C"]%char.

Lemma digit_time_byte s : sall is_digit s = true -> sall time_byte s = true.
Proof. apply sall_impl. intros c H. unfold time_byte. by rewrite H. Qed.

Lemma padded_time n v : sall time_byte (padded n v) = true.
Proof. apply digit_time_byte, padded_digits. Qed.

Lemma itoa_time z : sall time_byte (itoa z) = true.
Proof.
  unfold itoa. destruct (Z.ltb_spec z 0).
  - change ("-" +:+ ?x) with (String "-" x). cbn [sall]. apply andb_true_intro. split; [done|].
    apply digit_time_byte, digits_all. lia.
  - apply digit_time_byte, digits_all. lia.
Qed.

Lemma year_time y : sall time_byte (year_text y) = true.
Proof.
  unfold year_text. case_match; [apply padded_time|]. case_match; [|apply itoa_time].
  change ("-" +:+ ?x) with (String "-" x). cbn [sall]. by rewrite padded_time.
Qed.

Lemma time_text_bytes z : sall time_byte (time_text z) = true.
Proof. unfold time_text. rewrite !sall_app, year_time, !padded_time. reflexivity. Qed.

Lemma time_text_ok z : conf_value_ok (time_text z) = true.
Proof.
  unfold conf_value_ok.
  assert (Hn : forall d, time_byte d = false -> sall (neqc d) (time_text z) = true).
  { intros d Hd. eapply sall_impl; [|apply time_text_bytes]. intros c Hc. unfold neqc.
    destruct (Ascii.eqb_spec d c) as [->|]; [congruence|done]. }
  rewrite !Hn by done. cbn [andb]. rewrite special_quoted; [done|].
  unfold time_text. rewrite !sall_app. change (sall (fun c => negb (special c)) " ") with false.
  by rewrite !andb_false_l, !andb_false_r.
Qed.

Lemma lsn_ok s : isValidLSN s = true -> conf_value_ok s = true.
Proof.
  intros (a & b & -> & _ & _ & Ha & Hb)%isValidLSN_iff. unfold conf_value_ok.
  assert (Hn : forall d, hex_byte d || Ascii.eqb d "/" = false -> sall (neqc d) (a +:+ "/" +:+ b) = true).
  { intros d Hd. apply orb_false_elim in Hd as [Hd Hs]. rewrite !sall_app. cbn [sall]. unfold neqc at 2.
    rewrite Hs. cbn [negb andb]. apply andb_true_intro. split; (eapply sall_impl; [|eassumption]); intros c Hc;
      unfold neqc; destruct (Ascii.eqb_spec d c) as [->|]; [congruence|done|congruence|done]. }
  rewrite !Hn by done. cbn [andb]. rewrite slash_quoted; [done|].
  rewrite !sall_app. cbn [sall]. by rewrite andb_false_r.
Qed.

(** The settings of which PostgreSQL accepts one at most. *)
Definition target_keys : list string :=
  ["recovery_target"; "recovery_target_time"; "recovery_target_lsn"; "recovery_target_xid"; "recovery_target_name"].

(** What a target asks for, setting by setting: its own target setting, the timeline (the
    latest by default), and for a time, location or transaction whether it is included. *)
Definition requested (t : Target) (k : string) : option string :=
  let when (kind : TargetKind) (v : string) := if decide (t_Kind t = kind) then Some v else None in
  if decide (k = "recovery_target_timeline") then Some (if decide (Timeline t = "") then "latest" else Timeline t)
  else if decide (k = "recovery_target_time") then when TargetKindTime (time_text (instant (t_Time t)))
  else if decide (k = "recovery_target_lsn") then when TargetKindLSN (LSN t)
  else if decide (k = "recovery_target_xid") then when TargetKindXID (itoa (XID t))
  else if decide (k = "recovery_target_name") then when TargetKindName (t_Name t)
  else if decide (k = "recovery_target") then when TargetKindImmediate "immediate"
  else if decide (k = "recovery_target_inclusive") then
    if decide (t_Kind t ∈ [TargetKindTime; TargetKindLSN; TargetKindXID])
    then Some (if Inclusive t then "true" else "false") else None
  else None.

Lemma RecoveryParams_requested t k : RecoveryParams t !! k = requested t k.
Proof.
  unfold RecoveryParams, requested.
  assert (Et : (if (Timeline t =? "")%string then "latest" else Timeline t) = if decide (Timeline t = "") then "latest" else Timeline t).
  { destruct (String.eqb_spec (Timeline t) ""); by case_decide. }
  rewrite Et. generalize (if decide (Timeline t = "") then "latest" else Timeline t). intros tl.
  destruct (String.eqb_spec (t_Kind t) TargetKindTime) as [->|H1];
    [|destruct (String.eqb_spec (t_Kind t) TargetKindLSN) as [->|H2];
      [|destruct (String.eqb_spec (t_Kind t) TargetKindXID) as [->|H3];
        [|destruct (String.eqb_spec (t_Kind t) TargetKindName) as [->|H4];
          [|destruct (String.eqb_spec (t_Kind t) TargetKindImmediate) as [->|H5]]]]];
    rewrite ?lookup_insert, ?lookup_singleton;
    repeat (case_decide; subst; try done; try congruence).
  all: match goal with H : _ ∈ _ |- _ => rewrite !elem_of_cons, elem_of_nil in H; tauto end.
Qed.

Lemma timeline_ok t : validate_timeline t = None ->
  conf_value_ok (if (Timeline t =? "")%string then "latest" else Timeline t) = true.
Proof.
  unfold validate_timeline. destruct (String.eqb_spec (Timeline t) ""); [done|].
  destruct (String.eqb_spec (Timeline t) "latest") as [->|]; [done|]. cbn [negb andb].
  destruct (parseUint (Timeline t)) as [z|] eqn:E; [|done]. intros _.
  destruct (parseUint_digits _ _ E). by apply digits_bare.
Qed.

Lemma xid_ok z : 0 <= z -> conf_value_ok (itoa z) = true.
Proof.
  intros Hz. unfold itoa. destruct (Z.ltb_spec z 0); [lia|].
  destruct (digits_cons z) as (c & s & E). apply digits_bare; [by rewrite E|by apply digits_all].
Qed.

Lemma inclusive_ok (b : bool) : conf_value_ok (if b then "true" else "false") = true.
Proof. by destruct b. Qed.

Ltac conf_entries :=
  repeat (apply map_Forall_insert_2; [by split; auto using time_text_ok, inclusive_ok, lsn_ok, xid_ok|]);
  apply map_Forall_empty.

(** The target settings present are those inserted. *)
Ltac target_key :=
  split; [apply (bool_decide_unpack _); vm_compute; exact I|];
  intros k' Hk'; repeat (apply elem_of_cons in Hk' as [->|Hk']); [simpl_map; naive_solver ..|by apply not_elem_of_nil in Hk'].

Lemma params_ok T show now t :
  Validate T show now t = None -> 0 <= XID t -> (t_Kind t = TargetKindName -> conf_value_ok (t_Name t) = true) ->
  conf_params_ok (RecoveryParams t).
Proof.
  unfold Validate. destruct (validate_kind T show now t) eqn:Ek; [done|]. intros Ht Hx Hname.
  apply timeline_ok in Ht. revert Ek. unfold conf_params_ok, validate_kind, RecoveryParams.
  destruct (String.eqb_spec (t_Kind t) TargetKindTime); [intros _; conf_entries|].
  destruct (String.eqb_spec (t_Kind t) TargetKindLSN).
  { destruct (isValidLSN (LSN t)) eqn:El; [|done]. intros _. conf_entries. }
  destruct (String.eqb_spec (t_Kind t) TargetKindXID); [intros _; conf_entries|].
  destruct (String.eqb_spec (t_Kind t) TargetKindName); [intros _; conf_entries|].
  destruct (String.eqb_spec (t_Kind t) TargetKindImmediate); [intros _; conf_entries|done].
Qed.

(** C35: A valid recovery target reaches the server as it was asked for.  For a target that
    passes Validate (a named restore point: with a name the file format carries), PostgreSQL
    reads back from the rendered file exactly the settings the target asks for: of the
    mutually exclusive target settings the one of its kind with the target's value, the
    timeline or [latest], for a time, location or transaction whether it is included, and
    nothing else. *)
Theorem recovery_target_reads_back T show now t :
  Validate T show now t = None -> 0 <= XID t -> (t_Kind t = TargetKindName -> conf_value_ok (t_Name t) = true) ->
  (exists k, k ∈ target_keys /\ forall k', k' ∈ target_keys -> (is_Some (requested t k') <-> k' = k))
  /\ exists l, read_conf (PostgreSQLConf (RecoveryParams t)) = Some l /\ NoDup l.*1 /\
       forall k, (list_to_map l : gmap string string) !! k = requested t k.
Proof.
  intros Hv Hx Hn. split.
  - unfold Validate in Hv. destruct (validate_kind T show now t) eqn:Ek; [done|]. clear Hv.
    setoid_rewrite <- RecoveryParams_requested. revert Ek. unfold validate_kind, RecoveryParams.
    destruct (String.eqb_spec (t_Kind t) TargetKindTime); [intros _; exists "recovery_target_time"; target_key|].
    destruct (String.eqb_spec (t_Kind t) TargetKindLSN); [intros _; exists "recovery_target_lsn"; target_key|].
    destruct (String.eqb_spec (t_Kind t) TargetKindXID); [intros _; exists "recovery_target_xid"; target_key|].
    destruct (String.eqb_spec (t_Kind t) TargetKindName); [intros _; exists "recovery_target_name"; target_key|].
    destruct (String.eqb_spec (t_Kind t) TargetKindImmediate); [intros _; exists "recovery_target"; target_key|done].
  - exists (conf_pairs (RecoveryParams t)). split_and!; [|apply conf_pairs_nodup|].
    + apply read_conf_rendered. by apply (params_ok T show now).
    + intros k. rewrite conf_pairs_map. apply RecoveryParams_requested.
Qed.

Definition target_sample : Target :=
  {| t_Kind := TargetKindTime; t_Time := Some 1760000000000000000; LSN := ""; XID := 0; t_Name := "";
     Inclusive := true; Timeline := "3" |}.

Lemma recovery_target_reads_back_witness :
  Validate ascii_tables (fun _ => "") 1760000100000000000 target_sample = None
  /\ RecoveryParams target_sample !! "recovery_target_time" = Some "2025-10-09 08:53:20 UTC"
  /\ exists l, read_conf (PostgreSQLConf (RecoveryParams target_sample)) = Some l /\ NoDup l.*1 /\
        forall k, (list_to_map l : gmap string string) !! k = requested target_sample k.
Proof.
  assert (H : Validate ascii_tables (fun _ => "") 1760000100000000000 target_sample = None) by (vm_compute; reflexivity).
  split; [exact H|]. split; [vm_compute; reflexivity|].
  refine (proj2 (recovery_target_reads_back ascii_tables (fun _ => "") 1760000100000000000 target_sample H _ _)).
  - vm_compute. discriminate.
  - intros E. discriminate E.
Defined.

(** The timeline zero, and a number that does not fit 64 bits, pass the check for a
    positive integer. *)
Example timeline_zero_accepted :
  parseUint "0" = Some 0 /\ parseUint "18446744073709551617" = Some 1.
Proof. by vm_compute. Qed.

End Recovery.
