(* ===== verification/Health.v ===== *)
(** * Pod classification and health reports

    internal/podmanager/podmanager.go: the phase of a pod, the pods of a cluster grouped by
    phase, the oldest healthy pod. internal/healthcheck/healthcheck.go: probes, reports and
    the status of a report. [sort.Slice] leaves the order of equal elements open, so the
    sorting functions are arguments and the theorems hold for every function that sorts. *)

From Stdlib Require Import ZArith Lia List Bool Ascii.
From stdpp Require Import base list strings sorting.
From S2P Require Import Prelude GoStrings Meta.

Local Open Scope Z_scope.

(** What [sort.Slice] promises for a comparison. *)
Definition sorts_by {A} (le : A -> A -> Prop) (sort : list A -> list A) : Prop :=
  forall l, sort l ≡ₚ l /\ StronglySorted le (sort l).

Module PodManager.

Inductive Phase := PhasePending | PhaseStarting | PhaseHealthy | PhaseUnhealthy | PhaseTerminating | PhaseFailed.

#[export] Instance Phase_eq_dec : EqDecision Phase.
Proof. solve_decision. Defined.

Record PodCondition := { pc_Type : string; pc_Status : string }.

(** The fields read of a pod; a container status is whether its state is running. *)
Record Pod := {
  p_Name : string;
  CreationTimestamp : option Z;
  p_DeletionTimestamp : option Z;
  p_Phase : string;
  p_Conditions : list PodCondition;
  p_Running : list bool;
}.

Definition isReady (p : Pod) : bool :=
  existsb (fun c => (pc_Type c =? "Ready")%string && (pc_Status c =? "True")%string) (p_Conditions p).

Definition hasRunningContainer (p : Pod) : bool := existsb id (p_Running p).

Definition Classify (p : option Pod) : Phase :=
  match p with
  | None => PhasePending
  | Some p =>
      match p_DeletionTimestamp p with
      | Some _ => PhaseTerminating
      | None =>
          if (p_Phase p =? "Pending")%string then PhasePending
          else if (p_Phase p =? "Failed")%string then PhaseFailed
          else if negb (isReady p) then if hasRunningContainer p then PhaseUnhealthy else PhaseStarting
          else PhaseHealthy
      end
  end.

Record Group := {
  Healthy : list (option Pod);
  Unhealthy : list (option Pod);
  Starting : list (option Pod);
  Terminating : list (option Pod);
  Pending : list (option Pod);
  Failed : list (option Pod);
}.

Definition Total (g : Group) : nat :=
  length (Healthy g) + length (Unhealthy g) + length (Starting g) + length (Terminating g) + length (Pending g)
  + length (Failed g).

Definition IsAllHealthy (g : Group) : bool :=
  if (Total g =? 0)%nat then false else (length (Healthy g) =? Total g)%nat.

Definition HealthyCount (g : Group) : nat := length (Healthy g).

Definition empty_group : Group :=
  {| Healthy := []; Unhealthy := []; Starting := []; Terminating := []; Pending := []; Failed := [] |}.

(** The body of the loop of [SplitByPhase]. *)
Definition put (g : Group) (p : option Pod) : Group :=
  let '{| Healthy := h; Unhealthy := u; Starting := s; Terminating := t; Pending := e; Failed := f |} := g in
  match Classify p with
  | PhaseHealthy => {| Healthy := h ++ [p]; Unhealthy := u; Starting := s; Terminating := t; Pending := e; Failed := f |}
  | PhaseUnhealthy => {| Healthy := h; Unhealthy := u ++ [p]; Starting := s; Terminating := t; Pending := e; Failed := f |}
  | PhaseStarting => {| Healthy := h; Unhealthy := u; Starting := s ++ [p]; Terminating := t; Pending := e; Failed := f |}
  | PhaseTerminating => {| Healthy := h; Unhealthy := u; Starting := s; Terminating := t ++ [p]; Pending := e; Failed := f |}
  | PhaseFailed => {| Healthy := h; Unhealthy := u; Starting := s; Terminating := t; Pending := e; Failed := f ++ [p] |}
  | PhasePending => {| Healthy := h; Unhealthy := u; Starting := s; Terminating := t; Pending := e ++ [p]; Failed := f |}
  end.

Definition SplitByPhase (pods : list (option Pod)) : Group := foldl put empty_group pods.

Definition created (p : Pod) : Z := default Conditions.zero_time (CreationTimestamp p).

(** [less] of [SortByCreation] is the strict part of this order. *)
Definition older (p q : Pod) : Prop :=
  created p < created q \/ (created p = created q /\ String.le (p_Name p) (p_Name q)).

(** [SortByCreation] sorts in place with a function that sorts by [older]. *)
Definition SortByCreation (sort : list Pod -> list Pod) (pods : list Pod) : list Pod := sort pods.

Definition OldestHealthy (sort : list Pod -> list Pod) (pods : list (option Pod)) : option Pod :=
  let healthy := omap (fun p => if bool_decide (Classify p = PhaseHealthy) then p else None) pods in
  head (SortByCreation sort healthy).

(** [now.Sub] saturates. *)
Definition AgeOf (p : option Pod) (now : Z) : Z :=
  match p with
  | None => 0
  | Some p => match CreationTimestamp p with
              | None => 0
              | Some t => Z.max min_int64 (Z.min max_int64 (now - t))
              end
  end.

(** ** Grouping *)

Definition in_phase (ph : Phase) (pods : list (option Pod)) : list (option Pod) :=
  filter (fun p => Classify p = ph) pods.

Lemma SplitByPhase_filter pods :
  SplitByPhase pods =
    {| Healthy := in_phase PhaseHealthy pods; Unhealthy := in_phase PhaseUnhealthy pods;
       Starting := in_phase PhaseStarting pods; Terminating := in_phase PhaseTerminating pods;
       Pending := in_phase PhasePending pods; Failed := in_phase PhaseFailed pods |}.
Proof.
  unfold SplitByPhase, in_phase. induction pods as [|p pods IH] using rev_ind; [done|].
  rewrite foldl_snoc, IH, !filter_app, !filter_cons, !filter_nil. unfold put.
  destruct (Classify p); by rewrite ?app_nil_r.
Qed.

Lemma phases_length pods :
  (length (in_phase PhaseHealthy pods) + length (in_phase PhaseUnhealthy pods) + length (in_phase PhaseStarting pods)
   + length (in_phase PhaseTerminating pods) + length (in_phase PhasePending pods) + length (in_phase PhaseFailed pods)
   = length pods)%nat.
Proof.
  unfold in_phase. induction pods as [|p pods IH]; [done|]. rewrite !filter_cons.
  destruct (Classify p); cbn [decide decide_rel]; repeat case_decide; try done; cbn [length]; lia.
Qed.

Lemma healthy_all pods :
  (length (in_phase PhaseHealthy pods) = length pods)%nat <-> Forall (fun p => Classify p = PhaseHealthy) pods.
Proof.
  unfold in_phase. induction pods as [|p pods IH]; [done|]. rewrite filter_cons, Forall_cons.
  pose proof (length_filter (fun p => Classify p = PhaseHealthy) pods). case_decide; cbn [length].
  - rewrite <- IH. split; [intros; split; [done|lia]|intros [_ ?]; lia].
  - split; [lia|by intros []].
Qed.

(** The pods of a cluster are grouped by phase: each group holds the pods of its phase
    in their order, every pod (nil ones included) is in exactly one group, the total is the
    number of pods, and all are reported healthy exactly when there is a pod and every pod
    is healthy. *)
Theorem pods_grouped_by_phase pods :
  let g := SplitByPhase pods in
  Healthy g = in_phase PhaseHealthy pods /\ Unhealthy g = in_phase PhaseUnhealthy pods /\
  Starting g = in_phase PhaseStarting pods /\ Terminating g = in_phase PhaseTerminating pods /\
  Pending g = in_phase PhasePending pods /\ Failed g = in_phase PhaseFailed pods /\
  Total g = length pods /\
  (IsAllHealthy g = true <-> pods <> [] /\ Forall (fun p => Classify p = PhaseHealthy) pods).
Proof.
  cbv zeta. rewrite SplitByPhase_filter. split_and!; try done.
  - apply phases_length.
  - unfold IsAllHealthy, Total. cbn [Healthy Unhealthy Starting Terminating Pending Failed].
    rewrite phases_length, <- healthy_all. destruct pods as [|p pods]; [by split; [|intros []]|].
    change (length (p :: pods) =? 0)%nat with false. rewrite Nat.eqb_eq. by split; [|intros []].
Qed.

(** The oldest healthy pod: none exactly when no pod is healthy, otherwise a healthy
    pod of the cluster that was created no later than any other healthy one, by name among
    those created at the same time. *)
Theorem OldestHealthy_oldest sort pods :
  sorts_by older sort ->
  match OldestHealthy sort pods with
  | None => forall p, p ∈ pods -> Classify p <> PhaseHealthy
  | Some p => Some p ∈ pods /\ Classify (Some p) = PhaseHealthy /\
      forall q, Some q ∈ pods -> Classify (Some q) = PhaseHealthy -> q = p \/ older p q
  end.
Proof.
  intros Hs. unfold OldestHealthy, SortByCreation.
  set (healthy := omap _ pods).
  assert (Hin : forall q, q ∈ healthy <-> Some q ∈ pods /\ Classify (Some q) = PhaseHealthy).
  { intros q. unfold healthy. rewrite list_elem_of_omap. split.
    - intros (o & Ho & E). case_bool_decide; [|done]. by subst o.
    - intros [Hq Hc]. exists (Some q). split; [done|]. by rewrite bool_decide_true. }
  destruct (Hs healthy) as [Hp Hsorted]. destruct (sort healthy) as [|p l]; cbn [head].
  - apply Permutation_nil in Hp. intros [q|] Hq Hc; [|done].
    assert (q ∈ healthy) as Hq' by (by apply Hin). rewrite Hp in Hq'. by apply not_elem_of_nil in Hq'.
  - assert (p ∈ healthy) as Hpin by (rewrite <- Hp; by left). apply Hin in Hpin as [? ?].
    split_and!; [done|done|]. intros q Hq Hc.
    assert (q ∈ p :: l) as Hq' by (rewrite Hp; by apply Hin).
    apply StronglySorted_inv in Hsorted as [_ Hall]. rewrite Forall_forall in Hall.
    apply elem_of_cons in Hq' as [->|Hq']; [by left|]. right. by apply Hall.
Qed.

#[export] Instance older_dec : RelDecision older.
Proof. intros p q. unfold older. apply _. Defined.
#[export] Instance older_total : base.Total older.
Proof.
  intros p q. unfold older. destruct (Z.lt_trichotomy (created p) (created q)) as [|[|]]; [by left; left| |by right; left].
  destruct (total String.le (p_Name p) (p_Name q)); [left|right]; right; by split.
Qed.
#[export] Instance older_trans : Transitive older.
Proof.
  intros p q r [H1|[H1 N1]] [H2|[H2 N2]]; unfold older; [left; lia..|].
  right. split; [lia|]. by etrans.
Qed.

Lemma merge_sort_older : sorts_by older (merge_sort older).
Proof. intros l. split; [apply merge_sort_Permutation|apply StronglySorted_merge_sort; apply _]. Qed.

Definition ready_pod (name : string) (t : Z) : Pod :=
  {| p_Name := name; CreationTimestamp := Some t; p_DeletionTimestamp := None; p_Phase := "Running";
     p_Conditions := [{| pc_Type := "Ready"; pc_Status := "True" |}]; p_Running := [true] |}.

Definition pods_sample : list (option Pod) := [Some (ready_pod "pg-1" 20); None; Some (ready_pod "pg-0" 20)].

Lemma OldestHealthy_oldest_witness :
  OldestHealthy (merge_sort older) pods_sample = Some (ready_pod "pg-0" 20) /\
  forall q, Some q ∈ pods_sample -> Classify (Some q) = PhaseHealthy -> q = ready_pod "pg-0" 20 \/ older (ready_pod "pg-0" 20) q.
Proof.
  assert (E : OldestHealthy (merge_sort older) pods_sample = Some (ready_pod "pg-0" 20)) by (vm_compute; reflexivity).
  split; [exact E|]. pose proof (OldestHealthy_oldest (merge_sort older) pods_sample merge_sort_older) as H.
  rewrite E in H. exact (proj2 (proj2 H)).
Defined.

(** A pod that ran to completion is reported as starting: the phase Succeeded is neither
    Pending nor Failed, and the pod is not ready and has no running container. *)
Example succeeded_pod_starting :
  Classify (Some {| p_Name := "pg-0"; CreationTimestamp := None; p_DeletionTimestamp := None; p_Phase := "Succeeded";
                    p_Conditions := []; p_Running := [false] |}) = PhaseStarting.
Proof. reflexivity. Qed.

End PodManager.

(** ** internal/healthcheck *)

Module HealthCheck.
Local Open Scope athos_scope.

Definition Status := string.
Definition StatusPassing : Status := "Passing".
Definition StatusFailing : Status := "Failing".
Definition StatusUnknown : Status := "Unknown".

(** [None] is the zero time. *)
Record Check := {
  ck_Name : string;
  ck_Status : Status;
  ck_Message : string;
  ObservedAt : option Z;
  ck_Duration : Z;
  Critical : bool;
}.

Definition Equal (c other : Check) : bool :=
  (ck_Name c =? ck_Name other)%string && (ck_Status c =? ck_Status other)%string
  && (ck_Message c =? ck_Message other)%string && Bool.eqb (Critical c) (Critical other).

Record Report := { Instance_ : string; Checks : list Check }.

Definition with_name (c : Check) (n : string) : Check :=
  {| ck_Name := n; ck_Status := ck_Status c; ck_Message := ck_Message c; ObservedAt := ObservedAt c;
     ck_Duration := ck_Duration c; Critical := Critical c |}.
Definition with_observed (c : Check) (t : Z) : Check :=
  {| ck_Name := ck_Name c; ck_Status := ck_Status c; ck_Message := ck_Message c;
     ObservedAt := Some (default t (ObservedAt c)); ck_Duration := ck_Duration c; Critical := Critical c |}.
Definition with_duration (c : Check) (d : Z) : Check :=
  {| ck_Name := ck_Name c; ck_Status := ck_Status c; ck_Message := ck_Message c; ObservedAt := ObservedAt c;
     ck_Duration := d; Critical := Critical c |}.

Definition failing (c : Check) : bool := (ck_Status c =? StatusFailing)%string.
Definition unknown (c : Check) : bool := (ck_Status c =? StatusUnknown)%string.

(** [Status] of a report. *)
Definition report_Status (r : Report) : Status :=
  match Checks r with
  | [] => StatusUnknown
  | cs =>
      if existsb (fun c => Critical c && failing c) cs then StatusFailing
      else if existsb failing cs then StatusFailing
      else if existsb unknown cs then StatusUnknown
      else StatusPassing
  end.

Definition by_name (a b : Check) : Prop := String.le (ck_Name a) (ck_Name b).

Definition SortedChecks (sort : list Check -> list Check) (r : Report) : list Check := sort (Checks r).

Definition Summary (sort : list Check -> list Check) (r : Report) : string :=
  strings_join " "
    (["instance=" +:+ Instance_ r; "status=" +:+ report_Status r; "checks=" +:+ itoa (Z.of_nat (length (Checks r)))]
     ++ map (fun c => ck_Name c +:+ "=" +:+ ck_Status c)
          (filter (fun c => ck_Status c <> StatusPassing) (SortedChecks sort r))).

Definition SimpleCheck (name message : string) (ok critical : bool) : Check :=
  {| ck_Name := name; ck_Status := if ok then StatusPassing else StatusFailing; ck_Message := message;
     ObservedAt := None; ck_Duration := 0; Critical := critical |}.

Definition CombineReports (inst : string) (reports : list Report) : Report :=
  {| Instance_ := inst; Checks := concat (map Checks reports) |}.

Definition Filter (r : Report) (keep : Check -> bool) : Report :=
  {| Instance_ := Instance_ r; Checks := filter (fun c => keep c = true) (Checks r) |}.

Definition FailingChecks (r : Report) : list Check := filter (fun c => ck_Status c = StatusFailing) (Checks r).

(** *** Running probes *)

Section Run.
Context {W : Type} (Now : M W Z).

Record Probe := { probe_Name : string; probe_Run : M W Check }.

(** [FuncProbe]; a nil function is [None]. *)
Definition FuncProbe (name : string) (fn : option (M W Check)) : Probe :=
  {| probe_Name := name;
     probe_Run :=
       match fn with
       | None => ret {| ck_Name := name; ck_Status := StatusUnknown; ck_Message := "nil func"; ObservedAt := None;
                        ck_Duration := 0; Critical := false |}
       | Some f => let! c := f in ret (if (ck_Name c =? "")%string then with_name c name else c)
       end |}.

(** [report.Add]. *)
Definition Add (r : Report) (c : Check) : M W Report :=
  match ObservedAt c with
  | Some _ => ret {| Instance_ := Instance_ r; Checks := Checks r ++ [c] |}
  | None => let! t := Now in ret {| Instance_ := Instance_ r; Checks := Checks r ++ [with_observed c t] |}
  end.

Fixpoint run_loop (r : Report) (probes : list (option Probe)) : M W Report :=
  match probes with
  | [] => ret r
  | None :: probes' => run_loop r probes'
  | Some p :: probes' =>
      let! start := Now in
      let! c := probe_Run p in
      let! stop := Now in
      let! r := Add r (with_observed (with_duration c (stop - start)) start) in
      run_loop r probes'
  end.

Definition Run (inst : string) (probes : list (option Probe)) : M W Report :=
  run_loop {| Instance_ := inst; Checks := [] |} probes.

(** What a probe reported, as it is found in the report. *)
Definition reported (c c' : Check) : Prop := Equal c c' = true /\ is_Some (ObservedAt c') /\
  (forall t, ObservedAt c = Some t -> ObservedAt c' = Some t).

(** One check per probe that is not nil, in the order of the probes. *)
Inductive runs : W -> list (option Probe) -> list Check -> W -> Prop :=
| runs_nil w : runs w [] [] w
| runs_skip w ps cs w' : runs w ps cs w' -> runs w (None :: ps) cs w'
| runs_probe w p ps c cs w' :
    let w1 := (Now w).2 in
    (probe_Run p w1).1 = c ->
    runs (Now (probe_Run p w1).2).2 ps cs w' ->
    runs w (Some p :: ps) (c :: cs) w'.

Lemma Equal_refl_adjust c d t : Equal c (with_observed (with_duration c d) t) = true.
Proof. unfold Equal. cbn. rewrite !String.eqb_refl. by destruct (Critical c). Qed.

Lemma run_loop_runs r ps w r' w' :
  run_loop r ps w = (r', w') ->
  Instance_ r' = Instance_ r /\
  exists cs cs', runs w ps cs w' /\ Checks r' = Checks r ++ cs' /\ Forall2 reported cs cs'.
Proof.
  revert r w. induction ps as [|[p|] ps IH]; intros r w H; cbn [run_loop] in H.
  - injection H as <- <-. split; [done|]. exists [], []. rewrite app_nil_r. split_and!; [constructor|done|constructor].
  - unfold bind in H. destruct (Now w) as [start w1] eqn:E1. destruct (probe_Run p w1) as [c w2] eqn:E2.
    destruct (Now w2) as [stop w3] eqn:E3. unfold Add in H. cbn [ObservedAt with_observed] in H. unfold ret in H.
    apply IH in H as (Hi & cs & cs' & Hr & Hc & Hf). split; [done|].
    exists (c :: cs), (with_observed (with_duration c (stop - start)) start :: cs'). split_and!.
    + econstructor; rewrite E1; cbn [snd]; rewrite E2; [done|]. cbn [snd]. by rewrite E3.
    + rewrite Hc. cbn [Checks]. by rewrite <- app_assoc.
    + constructor; [|done]. split_and!; [apply Equal_refl_adjust|by eexists|].
      intros t Ht. cbn. by rewrite Ht.
  - apply IH in H as (Hi & cs & cs' & Hr & Hc & Hf). split; [done|]. exists cs, cs'. split_and!; [by constructor|done|done].
Qed.

End Run.

(** ** The status of a report *)

(** The statuses by severity; the test for critical checks is subsumed. *)
Lemma report_Status_eq r :
  report_Status r =
    if existsb failing (Checks r) then StatusFailing
    else if bool_decide (Checks r = []) || existsb unknown (Checks r) then StatusUnknown
    else StatusPassing.
Proof.
  unfold report_Status. destruct (Checks r) as [|c cs]; [done|].
  destruct (existsb (fun c => Critical c && failing c) (c :: cs)) eqn:E; [|by rewrite bool_decide_false].
  replace (existsb failing (c :: cs)) with true; [done|]. symmetry.
  apply existsb_exists in E as (x & Hx & Hf). apply existsb_exists. exists x. split; [done|]. by breflect.
Qed.

Lemma existsb_elem {A} (p : A -> bool) l : existsb p l = true <-> exists x, x ∈ l /\ p x = true.
Proof. rewrite existsb_exists. by setoid_rewrite list_elem_of_In. Qed.

Lemma existsb_fmap {A B} (p : B -> bool) (f : A -> B) l : existsb p (map f l) = existsb (fun x => p (f x)) l.
Proof. induction l as [|x l IH]; [done|]. cbn. by rewrite IH. Qed.

Lemma failing_iff r :
  report_Status r = StatusFailing <-> exists c, c ∈ Checks r /\ ck_Status c = StatusFailing.
Proof.
  rewrite report_Status_eq. transitivity (existsb failing (Checks r) = true).
  - destruct (existsb failing (Checks r)); [done|]. by case_match.
  - rewrite existsb_elem. unfold failing. by setoid_rewrite String.eqb_eq.
Qed.

Lemma unknown_iff r :
  report_Status r = StatusUnknown <->
    report_Status r <> StatusFailing /\ (Checks r = [] \/ exists c, c ∈ Checks r /\ ck_Status c = StatusUnknown).
Proof.
  rewrite report_Status_eq. destruct (existsb failing (Checks r)); [by split; [|intros []]|].
  assert (E : existsb unknown (Checks r) = true <-> exists c, c ∈ Checks r /\ ck_Status c = StatusUnknown).
  { rewrite existsb_elem. unfold unknown. by setoid_rewrite String.eqb_eq. }
  rewrite <- E. case_bool_decide as Hn; cbn [orb]; [split; [|done]; intros _; split; [done|by left]|].
  destruct (existsb unknown (Checks r)); [split; [|done]; intros _; split; [done|by right]|].
  split; [done|]. intros [_ [|]]; done.
Qed.

(** The status of a report is that of its worst check: Failing exactly when some check
    fails, Unknown exactly when none fails and some is unknown or there is no check, and
    Passing otherwise; merging reports fails exactly when one of them fails. Whether a check
    is critical makes no difference, although the documented rules single critical checks
    out and the field says a failure of others only degrades. *)
Theorem report_status_worst r inst reports critical :
  (report_Status r = StatusFailing <-> exists c, c ∈ Checks r /\ ck_Status c = StatusFailing)
  /\ (report_Status r = StatusUnknown <->
       (forall c, c ∈ Checks r -> ck_Status c <> StatusFailing)
       /\ (Checks r = [] \/ exists c, c ∈ Checks r /\ ck_Status c = StatusUnknown))
  /\ (report_Status (CombineReports inst reports) = StatusFailing <->
       exists r', r' ∈ reports /\ report_Status r' = StatusFailing)
  /\ report_Status {| Instance_ := Instance_ r; Checks := map (fun c =>
        {| ck_Name := ck_Name c; ck_Status := ck_Status c; ck_Message := ck_Message c; ObservedAt := ObservedAt c;
           ck_Duration := ck_Duration c; Critical := critical c |}) (Checks r) |} = report_Status r.
Proof.
  split_and!.
  - apply failing_iff.
  - rewrite unknown_iff, failing_iff. split; intros [H1 H2]; (split; [|done]).
    + intros c Hc Hs. apply H1. eauto.
    + intros (c & Hc & Hs). by apply (H1 c).
  - rewrite failing_iff. setoid_rewrite failing_iff. cbn [CombineReports Checks]. split.
    + intros (c & Hc & Hs). apply list_elem_of_In, in_concat in Hc as (l & Hl & Hc).
      apply in_map_iff in Hl as (r' & <- & Hr'). exists r'. rewrite !list_elem_of_In. split; [done|].
      exists c. by rewrite list_elem_of_In.
    + intros (r' & Hr' & c & Hc & Hs). exists c. split; [|done]. apply list_elem_of_In, in_concat.
      exists (Checks r'). split; [by apply in_map, list_elem_of_In|by apply list_elem_of_In].
  - rewrite !report_Status_eq. cbn [Checks]. rewrite !existsb_fmap. destruct (Checks r); [done|].
    by rewrite !bool_decide_false.
Qed.

End HealthCheck.
