(* ===== verification/Workflows.v ===== *)
(** * Shared reconcile steps (internal/workflows/reconcile.go)

    The steps run over the Runtime interface for Secrets and ConfigMaps. Namespaces and
    persistent volume claims are reached through an interface of their own, [ClusterApi],
    with the laws of the API server the theorems need. *)

From Stdlib Require Import ZArith Lia List Bool Ascii.
From stdpp Require Import base list strings gmap.
From S2P Require Import Prelude GoStrings K8s Api Runtime FakeRuntime Ensure PgConfig PgStatus Decisions Meta.

Local Open Scope Z_scope.
Local Open Scope athos_scope.

Module Workflows.

(** ** Results *)

Record ReconcileResult := { rr_Requeue : bool; rr_Err : option error }.

Definition Done : ReconcileResult := {| rr_Requeue := false; rr_Err := None |}.
Definition RequeueErr (e : error) : ReconcileResult := {| rr_Requeue := true; rr_Err := Some e |}.
Definition RequeueAfter_ : ReconcileResult := {| rr_Requeue := true; rr_Err := None |}.
Definition Ctrl (r : ReconcileResult) : Result * option error :=
  ({| Requeue := rr_Requeue r; RequeueAfter := 0 |}, rr_Err r).

(** ** Data changes *)

Definition secretDataChanged (old new : gmap string string) : bool :=
  negb (size old =? size new)%nat || negb (bool_decide (map_Forall (fun k v => new !! k = Some v) old)).

(** [new[k]] of a missing key is the empty string. *)
Definition configMapDataChanged (old new : gmap string string) : bool :=
  negb (size old =? size new)%nat || negb (bool_decide (map_Forall (fun k v => default "" (new !! k) = v) old)).

Definition with_secret_data (s : Secret) (d : gmap string string) : Secret :=
  {| sec_Meta := sec_Meta s; sec_Type := sec_Type s; sec_Data := d; sec_StringData := sec_StringData s |}.
Definition with_configmap_data (c : ConfigMap) (d : gmap string string) : ConfigMap :=
  {| cm_Meta := cm_Meta c; cm_Data := d |}.

(** The common shape of [ReconcileSecret] and [ReconcileConfigMap]: set the owner
    reference, look the object up, create it when absent, and update the data of the
    existing one only when it changed. *)
Definition reconcile_data {W} `{Runtime W} (ref : OwnerReference) (ns : string) (wget : error -> error) (k : Kind)
  (desired : obj k) (changed : obj k -> obj k -> bool) (merge : obj k -> obj k -> obj k) : M W (option error) :=
  match rt_SetControllerReference k ref ns desired with
  | Err e => ret (Some (ErrWrap "setting controller reference: " e ""))
  | Ok desired =>
      let! r := rt_Get k (key desired) in
      match r with
      | Err e => if negb (IsNotFound e) then ret (Some (wget e)) else err_of (rt_Create k desired)
      | Ok existing =>
          if changed existing desired then err_of (rt_Update k (merge existing desired)) else ret None
      end
  end.

Definition ReconcileSecret {W} `{Runtime W} (T : UnicodeTables) (ref : OwnerReference) (ns : string) (desired : Secret) :
  M W (option error) :=
  reconcile_data ref ns (fun e => ErrWrap ("getting secret " +:+ Quote T (om_Name (sec_Meta desired)) +:+ ": ") e "")
    KSecret desired (fun existing d => secretDataChanged (sec_Data existing) (sec_Data d))
    (fun existing d => with_secret_data existing (sec_Data d)).

Definition ReconcileConfigMap {W} `{Runtime W} (T : UnicodeTables) (ref : OwnerReference) (ns : string)
  (desired : ConfigMap) : M W (option error) :=
  reconcile_data ref ns (fun e => ErrWrap ("getting configmap " +:+ Quote T (om_Name (cm_Meta desired)) +:+ ": ") e "")
    KConfigMap desired (fun existing d => configMapDataChanged (cm_Data existing) (cm_Data d))
    (fun existing d => with_configmap_data existing (cm_Data d)).

Lemma secretDataChanged_spec old new : secretDataChanged old new = false <-> old = new.
Proof.
  unfold secretDataChanged. rewrite orb_false_iff, !negb_false_iff, Nat.eqb_eq, bool_decide_eq_true. split.
  - intros [Hs Hf]. apply map_subseteq_size_eq; [|lia]. apply map_subseteq_spec. intros k v Hk. by apply (Hf k v).
  - intros ->. split; [done|]. by intros k v.
Qed.

Lemma configMapDataChanged_equal old new : configMapDataChanged old new = negb (LabelSet.Equal old new).
Proof. unfold configMapDataChanged, LabelSet.Equal. by rewrite negb_andb. Qed.

Section Steps.
Context {W : Type} `{RuntimeLaws W}.

Section Data.
Context (ref : OwnerReference) (ns : string) (wget : error -> error) (k : Kind) (desired : obj k)
        (changed : obj k -> obj k -> bool) (merge : obj k -> obj k -> obj k).
Hypothesis merge_meta : forall e d, meta k (merge e d) = meta k e.
Hypothesis changed_owner : forall refs e, changed e (set_owner k refs desired) = changed e desired.
Hypothesis merge_owner : forall refs e, merge e (set_owner k refs desired) = merge e desired.

Lemma reconcile_data_frames : frames (only k (key desired)) (reconcile_data ref ns wget k desired changed merge).
Proof using merge_meta.
  unfold reconcile_data. destruct (rt_SetControllerReference _ _ _ _) as [d|e] eqn:Er; [|apply frames_ret].
  apply setref_key in Er. rewrite Er. apply frames_bind_Get. intros [o|e] Hk.
  - destruct (changed o d); [|apply frames_ret]. apply frames_err_of, frames_Update.
    split; [done|]. unfold key. rewrite merge_meta. by apply Hk.
  - destruct (negb (IsNotFound e)); [apply frames_ret|]. apply frames_err_of, frames_Create. by rewrite Er.
Qed.

Lemma reconcile_data_spec w w' :
  reconcile_data ref ns wget k desired changed merge w = (None, w') ->
  exists o, stored w' k (key desired) = Some o /\
    match stored w k (key desired) with
    | None => same_spec k desired o
    | Some e => if changed e desired then same_spec k (merge e desired) o else o = e
    end.
Proof using All.
  unfold reconcile_data. intros Hw.
  destruct (rt_SetControllerReference _ _ _ _) as [d|e] eqn:Er; [|done].
  pose proof (setref_key _ _ _ _ _ Er) as Hd. apply setref_ok in Er as (refs & Ed & _).
  mstep Hw. rewrite Hd in E. destruct a as [e|e].
  - pose proof (get_ok _ _ _ _ _ E) as He. rewrite He. rewrite Ed, changed_owner in Hw.
    destruct (changed e desired).
    + mstep Hw. destruct a as [o|]; [|done]. injection Hw as <-.
      pose proof (stored_key _ _ _ _ He) as Hke. pose proof (stored_live _ _ _ _ He) as Hlive.
      pose proof (update_ok _ _ _ _ _ E0) as (o0 & Ho0 & Hspec & _ & Hmeta & Hdel & Hpost).
      rewrite merge_owner in *. unfold key in Ho0, Hpost. rewrite merge_meta in Ho0, Hpost, Hmeta.
      fold (key e) in Ho0, Hpost. rewrite Hke in Ho0, Hpost.
      assert (Some o0 = Some e) as [= ->] by (by rewrite <- Ho0, (get_frame _ _ _ _ _ E)).
      destruct Hmeta as (_ & _ & _ & Hfin & _). exists o. split; [|done].
      rewrite Hpost, decide_True; [done|]. unfold live in *. by rewrite Hdel, Hfin.
    + injection Hw as <-. exists e. split; [|done]. by rewrite (get_frame _ _ _ _ _ E).
  - destruct (IsNotFound e) eqn:Hnf; [|done]. mstep Hw. destruct a as [o|]; [|done]. injection Hw as <-.
    pose proof (create_ok _ _ _ _ _ E0) as (_ & Hpost & Hspec & _). rewrite Hd in Hpost.
    exists o. split; [done|]. rewrite (get_notfound _ _ _ _ _ E Hnf). rewrite Ed in Hspec.
    by apply same_spec_set_owner in Hspec.
Qed.

End Data.

(** Reconciling a Secret: on every outcome no other object changes, and on success the
    Secret exists; one that was absent is stored with the desired data, one whose data
    already is the desired data is left exactly as it was, and any other has its data
    replaced by the desired data (on which the server lays stringData, if any). *)
Theorem secret_reconciled T ref ns desired w w' r :
  ReconcileSecret T ref ns desired w = (r, w') ->
  (forall k n, ~ only KSecret (key (k := KSecret) desired) k n -> stored w' k n = stored w k n)
  /\ (r = None -> exists o, stored w' KSecret (key (k := KSecret) desired) = Some o /\
        match stored w KSecret (key (k := KSecret) desired) with
        | None => sec_Data o = sec_StringData desired ∪ sec_Data desired
        | Some e => if decide (sec_Data e = sec_Data desired) then o = e
                    else sec_Data o = sec_StringData e ∪ sec_Data desired
        end).
Proof.
  intros Hw. split.
  - intros k n Hn. eapply (reconcile_data_frames ref ns _ KSecret desired); [|exact Hw|exact Hn]. done.
  - intros ->. apply reconcile_data_spec in Hw as (o & Ho & Hspec); [|done..]. exists o. split; [done|].
    destruct (stored w KSecret _) as [e|]; [|by destruct Hspec].
    destruct (secretDataChanged (sec_Data e) (sec_Data desired)) eqn:Ec.
    + rewrite decide_False; [by destruct Hspec|]. intros E. apply secretDataChanged_spec in E. congruence.
    + apply secretDataChanged_spec in Ec. by rewrite decide_True.
Qed.

(** Reconciling a ConfigMap compares values with those of missing keys: without empty
    values among the stored data, a successful reconcile leaves exactly the desired data;
    but a stored map with one key of empty value is left alone when the desired map has one
    other key, so the change is lost. *)
Theorem configmap_reconciled T ref ns desired w w' :
  ReconcileConfigMap T ref ns desired w = (None, w') ->
  exists o, stored w' KConfigMap (key (k := KConfigMap) desired) = Some o /\
    match stored w KConfigMap (key (k := KConfigMap) desired) with
    | None => cm_Data o = cm_Data desired
    | Some e =>
        (map_Forall (fun _ v => v <> "") (cm_Data e) -> cm_Data o = cm_Data desired)
        /\ (forall k j v, k <> j -> cm_Data e = {[ k := "" ]} -> cm_Data desired = {[ j := v ]} -> o = e)
    end.
Proof.
  intros Hw. apply reconcile_data_spec in Hw as (o & Ho & Hspec); [|done..]. exists o. split; [done|].
  destruct (stored w KConfigMap _) as [e|]; [|done]. rewrite configMapDataChanged_equal in Hspec.
  destruct (LabelSet.Equal (cm_Data e) (cm_Data desired)) eqn:Eq; cbn [negb] in Hspec.
  - subst o. split; [|done]. intros Hne. by apply LabelSet.Equal_spec.
  - split; [done|]. intros k j v Hkj E1 E2. rewrite E1, E2 in Eq. by rewrite LabelSet.Equal_empty_value in Eq.
Qed.

End Steps.

(** *** Concrete runs *)

Definition base_world : World :=
  {| w_store := empty_store; w_faults := []; w_clock := 0; w_events := []; w_rand := []; w_execs := []; w_commands := [] |}.
Definition owner_sample : OwnerReference :=
  {| or_Kind := "PostgresCluster"; or_Name := "pg"; or_UID := "u1"; or_Controller := true |}.
Definition secret_sample (pw : string) : Secret :=
  {| sec_Meta := mkMeta "pg-auth" "db" ∅; sec_Type := "Opaque"; sec_Data := {[ "password" := pw ]}; sec_StringData := ∅ |}.
Definition configmap_sample (k v : string) : ConfigMap :=
  {| cm_Meta := mkMeta "pg-config" "db" ∅; cm_Data := {[ k := v ]} |}.

Lemma secret_reconciled_witness :
  exists o, stored (ReconcileSecret ascii_tables owner_sample "db" (secret_sample "new")
                      (put_obj KSecret (secret_sample "old") base_world)).2 KSecret (nn "pg-auth" "db") = Some o
    /\ sec_Data o = {[ "password" := "new" ]}.
Proof.
  assert (Hr : (ReconcileSecret ascii_tables owner_sample "db" (secret_sample "new")
                  (put_obj KSecret (secret_sample "old") base_world)).1 = None) by (vm_compute; reflexivity).
  apply pair_fst in Hr.
  destruct (proj2 (secret_reconciled ascii_tables owner_sample "db" (secret_sample "new")
    (put_obj KSecret (secret_sample "old") base_world) _ _ Hr) eq_refl) as (o & Ho & Hd).
  exists o. split; [exact Ho|].
  assert (E : stored (put_obj KSecret (secret_sample "old") base_world) KSecret (key (k := KSecret) (secret_sample "new"))
    = Some (secret_sample "old")) by (vm_compute; reflexivity).
  rewrite E in Hd. 
  rewrite decide_False in Hd by (intros X; apply (f_equal (lookup "password")) in X; discriminate X). rewrite Hd. apply (map_empty_union (M := gmap string)).
Defined.

Lemma configmap_reconciled_witness :
  exists o, stored (ReconcileConfigMap ascii_tables owner_sample "db" (configmap_sample "pg_hba.conf" "x")
                      (put_obj KConfigMap (configmap_sample "postgresql.conf" "") base_world)).2 KConfigMap (nn "pg-config" "db")
             = Some o /\ cm_Data o = {[ "postgresql.conf" := "" ]}.
Proof.
  assert (Hr : (ReconcileConfigMap ascii_tables owner_sample "db" (configmap_sample "pg_hba.conf" "x")
                  (put_obj KConfigMap (configmap_sample "postgresql.conf" "") base_world)).1 = None)
    by (vm_compute; reflexivity).
  apply pair_fst in Hr.
  destruct (configmap_reconciled ascii_tables owner_sample "db" (configmap_sample "pg_hba.conf" "x")
    (put_obj KConfigMap (configmap_sample "postgresql.conf" "") base_world) _ Hr) as (o & Ho & Hd).
  exists o. split; [exact Ho|].
  assert (E : stored (put_obj KConfigMap (configmap_sample "postgresql.conf" "") base_world) KConfigMap
    (key (k := KConfigMap) (configmap_sample "pg_hba.conf" "x")) = Some (configmap_sample "postgresql.conf" ""))
    by (vm_compute; reflexivity).
  rewrite E in Hd. destruct Hd as [_ Hd].
  rewrite (Hd "postgresql.conf" "pg_hba.conf" "x"); [reflexivity|discriminate|reflexivity|reflexivity].
Defined.

(** ** Namespaces and volume claims *)

Record Claim := { cl_Name : string; cl_Namespace : string; cl_Labels : gmap string string; cl_Deletion : option Z }.

Definition claim_key (c : Claim) : NamespacedName := nn (cl_Name c) (cl_Namespace c).

Class ClusterApi (W : Type) := {
  ca_GetNamespace : string -> M W (option error);
  ca_CreateNamespace : string -> M W (option error);
  ca_ListClaims : string -> gmap string string -> M W (result (list Claim));
  ca_DeleteClaim : Claim -> M W (option error);
}.

(** A deleted claim is gone, or stays as long as a finalizer protects it. *)
Definition going (o : option Claim) : Prop :=
  match o with None => True | Some c => cl_Deletion c <> None end.

(** The laws of the API server: a list holds exactly the claims of the namespace with the
    selected labels; a deletion touches one claim, which afterwards is gone or under
    deletion unless the call failed. *)
Class ClusterApiLaws (W : Type) `{ClusterApi W} := {
  claims : W -> gmap NamespacedName Claim;
  namespaces : W -> string -> Prop;
  claims_key : forall w n c, claims w !! n = Some c -> claim_key c = n;
  list_frame : forall ns sel w r w', ca_ListClaims ns sel w = (r, w') -> claims w' = claims w;
  list_ok : forall ns sel w l w', ca_ListClaims ns sel w = (Ok l, w') ->
    forall c, c ∈ l <-> claims w !! claim_key c = Some c /\ cl_Namespace c = ns /\ sel ⊆ cl_Labels c;
  delete_frame : forall c w r w', ca_DeleteClaim c w = (r, w') ->
    forall n, n <> claim_key c -> claims w' !! n = claims w !! n;
  delete_ok : forall c w w', ca_DeleteClaim c w = (None, w') -> going (claims w' !! claim_key c);
  delete_notfound : forall c w e w', ca_DeleteClaim c w = (Some e, w') -> IsNotFound e = true ->
    claims w' !! claim_key c = None;
  ns_get_ok : forall n w w', ca_GetNamespace n w = (None, w') -> namespaces w' n;
  ns_create_ok : forall n w w', ca_CreateNamespace n w = (None, w') -> namespaces w' n;
  ns_create_exists : forall n w e w', ca_CreateNamespace n w = (Some e, w') -> IsAlreadyExists e = true ->
    namespaces w' n;
}.

Definition EnsureNamespace {W} `{ClusterApi W} (T : UnicodeTables) (name : string) : M W (option error) :=
  let! err := ca_GetNamespace name in
  match err with
  | None => ret None
  | Some e =>
      if negb (IsNotFound e) then ret (Some (ErrWrap ("getting namespace " +:+ Quote T name +:+ ": ") e ""))
      else
        let! err := ca_CreateNamespace name in
        match err with
        | Some e =>
            if negb (IsAlreadyExists e) then ret (Some (ErrWrap ("creating namespace " +:+ Quote T name +:+ ": ") e ""))
            else ret None
        | None => ret None
        end
  end.

(** [pvcOrdinal]: the trailing digits after a dash; the cluster name is not used. *)
Definition pvcOrdinal (pvcName clusterName : string) : Z :=
  let '(ds, rest) := HA.span_digits (rev (String.list_ascii_of_string pvcName)) in
  match rest with
  | [] => -1
  | c :: _ => if Ascii.eqb c "-" then HA.ordinal_loop ds 0 1 else -1
  end.

Definition orphaned (c : PostgresCluster) (p : Claim) : bool :=
  match cl_Deletion p with
  | Some _ => false
  | None => pcs_Instances (pc_Spec c) <=? pvcOrdinal (cl_Name p) (Naming.cluster_Name c)
  end.

Fixpoint cleanup_loop {W} `{ClusterApi W} (T : UnicodeTables) (c : PostgresCluster) (items : list Claim) : M W (option error) :=
  match items with
  | [] => ret None
  | p :: items' =>
      if orphaned c p then
        let! err := ca_DeleteClaim p in
        match err with
        | Some e =>
            if negb (IsNotFound e) then ret (Some (ErrWrap ("deleting PVC " +:+ Quote T (cl_Name p) +:+ ": ") e ""))
            else cleanup_loop T c items'
        | None => cleanup_loop T c items'
        end
      else cleanup_loop T c items'
  end.

Definition CleanupOrphanedPVCs {W} `{ClusterApi W} (T : UnicodeTables) (c : PostgresCluster)
  (labelSelector : gmap string string) : M W (option error) :=
  let! r := ca_ListClaims (Naming.cluster_Namespace c) labelSelector in
  match r with
  | Err e => ret (Some (ErrWrap "listing PVCs: " e ""))
  | Ok items => cleanup_loop T c items
  end.

(** The name ends in a dash and digits. *)
Definition numbered (name : string) : Prop := exists x ds, name = x +:+ "-" +:+ ds /\ sall is_digit ds = true.

(** A claim name that ends in a dash and a number, such as the [<volume>-<cluster>-<i>] of
    a StatefulSet pod, has that ordinal. *)
Lemma pvcOrdinal_claim x c n : 0 <= n -> in_int64 n = true -> pvcOrdinal (x +:+ "-" +:+ itoa n) c = n.
Proof.
  intros Hn Hin. unfold pvcOrdinal, itoa. destruct (Z.ltb_spec n 0) as [|_]; [lia|].
  rewrite <- !app_assoc_s. rewrite HA.list_ascii_app, rev_app_distr.
  rewrite HA.list_ascii_app, rev_app_distr. change (rev (String.list_ascii_of_string "-")) with ["-"%char]. cbn [app].
  match goal with |- context [HA.span_digits (_ ++ "-"%char :: ?rest)] =>
    destruct (HA.span_digits_printed n rest "-" Hn eq_refl) as (d & ds & Er & Es) end.
  rewrite Es. change (Ascii.eqb "-" "-") with true. cbv iota. rewrite <- Er. by apply HA.ordinal_loop_printed.
Qed.

Lemma span_digits_split l : let '(ds, rest) := HA.span_digits l in l = ds ++ rest /\ Forall (fun d => is_digit d = true) ds.
Proof.
  induction l as [|c l IH]; cbn [HA.span_digits]; [done|]. destruct (is_digit c) eqn:E; [|done].
  destruct (HA.span_digits l) as [ds rest]. destruct IH as [-> Hd]. split; [done|]. by constructor.
Qed.

Lemma list_ascii_inj a b : String.list_ascii_of_string a = String.list_ascii_of_string b -> a = b.
Proof. intros E. by rewrite <- (String.string_of_list_ascii_of_string a), E, String.string_of_list_ascii_of_string. Qed.

(** Other claims have the ordinal -1. *)
Lemma pvcOrdinal_other name c : ~ numbered name -> pvcOrdinal name c = -1.
Proof.
  intros Hn. unfold pvcOrdinal. pose proof (span_digits_split (rev (String.list_ascii_of_string name))) as Hs.
  destruct (HA.span_digits _) as [ds [|d rest]]; [done|]. destruct Hs as [Hs Hd].
  destruct (Ascii.eqb_spec d "-") as [->|]; [|done]. destruct Hn.
  exists (String.string_of_list_ascii (rev rest)), (String.string_of_list_ascii (rev ds)). split.
  - apply (f_equal (@rev ascii)) in Hs. rewrite rev_involutive, rev_app_distr in Hs. cbn [rev] in Hs.
    apply list_ascii_inj. rewrite Hs, !HA.list_ascii_app, !String.list_ascii_of_string_of_list_ascii.
    by rewrite <- app_assoc.
  - apply HA.sall_list. rewrite String.list_ascii_of_string_of_list_ascii. by apply Forall_rev.
Qed.

Section Cleanup.
Context {W : Type} `{ClusterApiLaws W}.

Lemma EnsureNamespace_exists T name w w' : EnsureNamespace T name w = (None, w') -> namespaces w' name.
Proof.
  unfold EnsureNamespace. intros Hw. mstep Hw. destruct a as [e|].
  - destruct (IsNotFound e); cbn [negb] in Hw; [|done]. mstep Hw. destruct a as [e'|].
    + destruct (IsAlreadyExists e') eqn:Ee; cbn [negb] in Hw; [|done]. injection Hw as <-. by eapply ns_create_exists.
    + injection Hw as <-. by eapply ns_create_ok.
  - injection Hw as <-. by eapply ns_get_ok.
Qed.

Lemma cleanup_keeps T c items w r w' n :
  cleanup_loop T c items w = (r, w') ->
  (forall p, p ∈ items -> orphaned c p = true -> claim_key p <> n) -> claims w' !! n = claims w !! n.
Proof.
  revert w. induction items as [|p items IH]; intros w Hw Hn; cbn [cleanup_loop] in Hw; [by injection Hw as _ <-|].
  assert (Hrest : forall p, p ∈ items -> orphaned c p = true -> claim_key p <> n).
  { intros q Hq. apply Hn. by right. }
  destruct (orphaned c p) eqn:Eo; [|by apply IH].
  assert (Hp : n <> claim_key p) by (intros E; apply (Hn p); [by left|done|done]).
  mstep Hw. rewrite <- (delete_frame _ _ _ _ E n Hp). destruct a as [e|]; [|by apply IH].
  destruct (IsNotFound e); cbn [negb] in Hw; [by apply IH|by injection Hw as _ <-].
Qed.

Lemma cleanup_deletes T c items w w' :
  cleanup_loop T c items w = (None, w') ->
  forall p, p ∈ items -> orphaned c p = true -> going (claims w' !! claim_key p).
Proof.
  revert w. induction items as [|q items IH]; intros w Hw p Hp Ho; [by apply not_elem_of_nil in Hp|].
  cbn [cleanup_loop] in Hw. destruct (orphaned c q) eqn:Eo.
  2: { apply elem_of_cons in Hp as [->|Hp]; [congruence|]. by eapply IH. }
  mstep Hw.
  assert (Hq : going (claims w0 !! claim_key q) /\ cleanup_loop T c items w0 = (None, w')).
  { destruct a as [e|]; [|by split; [eapply delete_ok|]].
    destruct (IsNotFound e) eqn:En; cbn [negb] in Hw; [|done]. split; [|done].
    by rewrite (delete_notfound _ _ _ _ E En). }
  destruct Hq as [Hq Hw']. apply elem_of_cons in Hp as [->|Hp]; [|by eapply IH].
  destruct (decide (Exists (fun x => orphaned c x = true /\ claim_key x = claim_key q) items)) as [Hex|Hno].
  - apply Exists_exists in Hex as (x & Hx & Hxo & Hxk). rewrite <- Hxk. by eapply IH.
  - rewrite (cleanup_keeps T c items w0 None w'); [done|done|]. intros x Hx Hxo Hk. apply Hno, Exists_exists. eauto.
Qed.

(** C19: Cleaning up volume claims keeps the volumes in use and removes the others. Whatever
    the outcome, a claim outside the namespace, without the selected labels, already under
    deletion, or whose name does not end in a dash and digits is not touched, nor is one
    whose name ends in a dash and a 64-bit number, as printed, below the
    instance count (the claims
    [<volume>-<cluster>-<i>] of the pods that are kept); on success every selected claim
    whose name ends in a dash and such a number from the instance count on is gone or under
    deletion, the claims of the removed pods as well as any other claim so named. *)
Theorem cleanup_deletes_orphans T c sel w r w' :
  0 <= pcs_Instances (pc_Spec c) -> CleanupOrphanedPVCs T c sel w = (r, w') ->
  (forall n p, claims w !! n = Some p ->
     cl_Namespace p <> Naming.cluster_Namespace c \/ ~ sel ⊆ cl_Labels p \/ cl_Deletion p <> None
     \/ ~ numbered (cl_Name p) -> claims w' !! n = Some p)
  /\ (forall n p x i, claims w !! n = Some p -> cl_Name p = x +:+ "-" +:+ itoa i -> in_int64 i = true ->
       0 <= i < pcs_Instances (pc_Spec c) -> claims w' !! n = Some p)
  /\ (r = None -> forall n p x i, claims w !! n = Some p ->
       cl_Namespace p = Naming.cluster_Namespace c -> sel ⊆ cl_Labels p -> cl_Deletion p = None ->
       cl_Name p = x +:+ "-" +:+ itoa i -> in_int64 i = true -> pcs_Instances (pc_Spec c) <= i ->
       going (claims w' !! n)).
Proof.
  unfold CleanupOrphanedPVCs. intros Hpos Hw. mstep Hw. pose proof (list_frame _ _ _ _ _ E) as Hf.
  destruct a as [items|e].
  2: { injection Hw as <- <-. rewrite Hf. split_and!; [done|done|]. done. }
  pose proof (list_ok _ _ _ _ _ E) as Hl.
  assert (Hkeep : forall n p, claims w !! n = Some p ->
     cl_Namespace p <> Naming.cluster_Namespace c \/ ~ sel ⊆ cl_Labels p \/ cl_Deletion p <> None
     \/ pvcOrdinal (cl_Name p) (Naming.cluster_Name c) < pcs_Instances (pc_Spec c) -> claims w' !! n = Some p).
  { intros n p Hp Hcase. rewrite (cleanup_keeps T c items w0 r w' n Hw); [by rewrite Hf|].
    intros q Hq Ho Hk. apply Hl in Hq as (Hq & Hns & Hsel). subst n. assert (p = q) as -> by congruence.
    unfold orphaned in Ho. destruct (cl_Deletion q) eqn:Ed; [done|]. apply Z.leb_le in Ho.
    destruct Hcase as [|[|[|]]]; [done|done|done|lia]. }
  split_and!.
  - intros n p Hp Hcase. apply Hkeep; [done|]. destruct Hcase as [?|[?|[?|Hno]]]; auto.
    right. right. right. rewrite pvcOrdinal_other by done. lia.
  - intros n p x i Hp Hname Hin Hi. apply Hkeep; [done|]. right. right. right.
    rewrite Hname, pvcOrdinal_claim; [lia|lia|done].
  - intros -> n p x i Hp Hns Hsel Hd Hname Hin Ho. rewrite <- (claims_key _ _ _ Hp).
    eapply cleanup_deletes; [exact Hw| |].
    + apply Hl. by rewrite (claims_key _ _ _ Hp).
    + unfold orphaned. rewrite Hd, Hname, pvcOrdinal_claim by (done || lia). by apply Z.leb_le.
Qed.

End Cleanup.

(** *** A concrete API server *)

Record ClaimWorld := { cw_namespaces : list string; cw_claims : gmap NamespacedName Claim }.

(** Claims are visible under the name they carry. *)
Definition visible (w : ClaimWorld) : gmap NamespacedName Claim := filter (fun kv => claim_key kv.2 = kv.1) (cw_claims w).

Definition selected (ns : string) (sel : gmap string string) (p : Claim) : Prop := cl_Namespace p = ns /\ sel ⊆ cl_Labels p.

#[export] Instance selected_dec ns sel p : Decision (selected ns sel p).
Proof. unfold selected. apply _. Defined.

#[export] Instance claim_api : ClusterApi ClaimWorld := {|
  ca_GetNamespace n := fun w => (if decide (n ∈ cw_namespaces w) then None else Some not_found, w);
  ca_CreateNamespace n := fun w => (None, {| cw_namespaces := n :: cw_namespaces w; cw_claims := cw_claims w |});
  ca_ListClaims ns sel := fun w => (Ok (filter (selected ns sel) (map_to_list (visible w)).*2), w);
  ca_DeleteClaim p := fun w =>
    match visible w !! claim_key p with
    | None => (Some not_found, w)
    | Some _ => (None, {| cw_namespaces := cw_namespaces w; cw_claims := delete (claim_key p) (cw_claims w) |})
    end;
|}.

Lemma visible_key w n p : visible w !! n = Some p -> claim_key p = n.
Proof. unfold visible. rewrite map_lookup_filter_Some. by intros [_ ?]. Qed.

Lemma visible_delete w n ns :
  visible {| cw_namespaces := ns; cw_claims := delete n (cw_claims w) |} = delete n (visible w).
Proof. unfold visible. cbn [cw_claims]. apply map_filter_delete. Qed.

#[export] Program Instance claim_laws : ClusterApiLaws ClaimWorld :=
  {| claims := visible; namespaces w n := n ∈ cw_namespaces w |}.
Next Obligation. apply visible_key. Qed.
Next Obligation. intros ns sel w r w' [= _ <-]. done. Qed.
Next Obligation.
  intros ns sel w l w' [= <- <-] p. rewrite list_elem_of_filter, list_elem_of_fmap. unfold selected. split.
  - intros [Hs ([n q] & -> & Hq)]. apply elem_of_map_to_list in Hq. cbn in *. by rewrite (visible_key _ _ _ Hq).
  - intros [Hp Hs]. split; [done|]. exists (claim_key p, p). split; [done|]. by apply elem_of_map_to_list.
Qed.
Next Obligation.
  intros p w r w' Hd n Hn. cbn in Hd. destruct (visible w !! claim_key p); injection Hd as _ <-; [|done].
  by rewrite visible_delete, lookup_delete_ne.
Qed.
Next Obligation.
  intros p w w' Hd. cbn in Hd. destruct (visible w !! claim_key p); [|done]. injection Hd as <-.
  by rewrite visible_delete, lookup_delete_eq.
Qed.
Next Obligation.
  intros p w e w' Hd _. cbn in Hd. destruct (visible w !! claim_key p) eqn:E; [done|]. by injection Hd as _ <-.
Qed.
Next Obligation. intros n w w' Hd. cbn in Hd. case_decide; [by injection Hd as <-|done]. Qed.
Next Obligation. intros n w w' Hd. injection Hd as <-. by left. Qed.
Next Obligation. intros n w e w' Hd. done. Qed.

Definition claim_sample (name : string) : Claim :=
  {| cl_Name := name; cl_Namespace := Naming.cluster_Namespace Status.sample_cluster; cl_Labels := ∅; cl_Deletion := None |}.
Definition claims_sample : ClaimWorld :=
  {| cw_namespaces := [];
     cw_claims := list_to_map (map (fun n => (claim_key (claim_sample n), claim_sample n))
       ["pgdata-db-0"; "pgdata-db-7"; "nightly-dump-2024"]) |}.

Lemma cleanup_deletes_orphans_witness :
  let w' := (CleanupOrphanedPVCs ascii_tables Status.sample_cluster ∅ claims_sample).2 in
  claims w' !! claim_key (claim_sample "pgdata-db-0") = Some (claim_sample "pgdata-db-0")
  /\ going (claims w' !! claim_key (claim_sample "pgdata-db-7")).
Proof.
  assert (Hr : (CleanupOrphanedPVCs ascii_tables Status.sample_cluster ∅ claims_sample).1 = None) by (vm_compute; reflexivity).
  apply pair_fst in Hr.
  destruct (cleanup_deletes_orphans ascii_tables Status.sample_cluster ∅ claims_sample None _ ltac:(discriminate) Hr)
    as (_ & H2 & H3).
  split.
  - apply (H2 _ _ "pgdata-db" 0); [vm_compute; reflexivity..|]. vm_compute. split; [discriminate|reflexivity].
  - apply (H3 eq_refl _ (claim_sample "pgdata-db-7") "pgdata-db" 7);
      [vm_compute; reflexivity|reflexivity|apply map_empty_subseteq|reflexivity..|vm_compute; discriminate].
Defined.

(** Any claim with the labels of the cluster and a number at the end of its name counts as
    the claim of a pod, whatever precedes the number. *)
Example unrelated_claim_deleted :
  cl_Name (claim_sample "nightly-dump-2024") = "nightly-dump-2024" /\
  claims (CleanupOrphanedPVCs ascii_tables Status.sample_cluster ∅ claims_sample).2
    !! claim_key (claim_sample "nightly-dump-2024") = None.
Proof. by vm_compute. Qed.

End Workflows.
