(* ===== verification/StsBuilder.v ===== *)
(** * The standalone StatefulSet builder (internal/statefulset/builder.go)

    The builder sets fields of pods and volumes that the operator's own builder of
    PgResources.v does not (read-only mounts, file modes, sidecars, pod anti-affinity), so
    it has records of its own for them; the rest is shared. Affinity and tolerations taken
    from the cluster are serialised text, as in K8s.v. *)

From Stdlib Require Import ZArith Lia List Bool Ascii.
From stdpp Require Import base list strings gmap.
From S2P Require Import Prelude GoStrings K8s Api PgConfig PgStatus PgResources Decisions.

Local Open Scope Z_scope.

Module StsBuilder.
Import Naming Labels Version.

(** ** Constants *)

Definition DataVolumeName : string := "pgdata".
Definition DataMountPath : string := "/var/lib/postgresql/data".
Definition WALVolumeName : string := "pgwal".
Definition WALMountPath : string := "/var/lib/postgresql/wal".
Definition ConfigVolumeName : string := "pgconfig".
Definition ConfigMountPath : string := "/etc/postgresql".
Definition ScriptsVolumeName : string := "pgscripts".
Definition ScriptsMountPath : string := "/usr/local/bin/athos".
Definition CertVolumeName : string := "pgcerts".
Definition CertMountPath : string := "/etc/postgresql/tls".

(** ** Data *)

Record Mount := { mt_Name : string; mt_Path : string; mt_ReadOnly : bool }.

Inductive Source :=
  | FromConfigMap (name : string) (mode : option Z)
  | FromSecret (name : string) (mode : option Z)
  | FromElsewhere (text : string).
Record Vol := { vl_Name : string; vl_Source : Source }.

Record ContainerSecurity := { cs_ReadOnlyRoot : bool; cs_PrivEscalation : bool; cs_Drop : list string }.
Record PodSecurity := { ps_User : Z; ps_Group : Z; ps_FSGroup_ : Z }.

Record Ctr := {
  ct_Name : string;
  ct_Image : string;
  ct_PullPolicy : string;
  ct_Ports : list ContainerPort;
  ct_Mounts : list Mount;
  ct_Resources : ResourceRequirements;
  ct_Security : option ContainerSecurity;
  ct_Liveness : option Probe;
  ct_Readiness : option Probe;
  ct_Env : list EnvVar;
}.

(** Anti-affinity by one weighted term, or the text of the cluster's own. *)
Inductive Affinity_ :=
  | GivenAffinity (text : string)
  | PreferSpread (weight : Z) (selector : gmap string string) (topologyKey : string).

Record PodTemplate := {
  pt_Labels : gmap string string;
  pt_InitContainers : list Ctr;
  pt_Containers : list Ctr;
  pt_Volumes : list Vol;
  pt_Security : PodSecurity;
  pt_ImagePullSecrets : list string;
  pt_Affinity : option Affinity_;
  pt_Tolerations : list string;
}.

Record UpdateStrategy := { us_Type : string; us_MaxUnavailable : IntOrString }.

Record Sts := {
  st_Meta : ObjectMeta;
  st_ServiceName : string;
  st_Replicas : Z;
  st_PodManagement : string;
  st_Update : UpdateStrategy;
  st_Selector : gmap string string;
  st_Claims : list PersistentVolumeClaim;
  st_Template : PodTemplate;
}.

Record Options := {
  Image : string;
  InitContainers : list Ctr;
  Sidecars : list Ctr;
  ExtraVolumes : list Vol;
  ExtraVolumeMounts : list Mount;
  TLSSecretName : string;
  opt_ConfigMapName : string;
  ScriptsConfigMapName : string;
}.

(** ** Building *)

Definition nonempty (s : string) : bool := negb (s =? "")%string.

Definition rollingUpdate : UpdateStrategy := {| us_Type := "RollingUpdate"; us_MaxUnavailable := intstr_FromInt 1 |}.
Definition defaultPodSecurityContext : PodSecurity := {| ps_User := 999; ps_Group := 999; ps_FSGroup_ := 999 |}.
Definition defaultContainerSecurityContext : ContainerSecurity :=
  {| cs_ReadOnlyRoot := false; cs_PrivEscalation := false; cs_Drop := ["ALL"] |}.

Definition livenessProbe : Probe :=
  {| pr_Handler := ExecAction ["pg_isready"; "-U"; "postgres"]; pr_InitialDelaySeconds := 30; pr_PeriodSeconds := 10;
     pr_TimeoutSeconds := 5; pr_SuccessThreshold := 0; pr_FailureThreshold := 6 |}.
Definition readinessProbe : Probe :=
  {| pr_Handler := ExecAction ["pg_isready"; "-U"; "postgres"]; pr_InitialDelaySeconds := 5; pr_PeriodSeconds := 5;
     pr_TimeoutSeconds := 3; pr_SuccessThreshold := 0; pr_FailureThreshold := 3 |}.

Definition env_value (n v : string) : EnvVar := {| ev_Name := n; ev_Value := v; ev_SecretKeyRef := None |}.

Definition baseEnv (c : PostgresCluster) : list EnvVar :=
  [env_value "POSTGRES_DB" (cluster_Name c); env_value "PGDATA" (DataMountPath +:+ "/pgdata")].

Definition buildMounts (opts : Options) : list Mount :=
  [{| mt_Name := DataVolumeName; mt_Path := DataMountPath; mt_ReadOnly := false |}]
  ++ (if nonempty (opt_ConfigMapName opts)
      then [{| mt_Name := ConfigVolumeName; mt_Path := ConfigMountPath; mt_ReadOnly := false |}] else [])
  ++ (if nonempty (ScriptsConfigMapName opts)
      then [{| mt_Name := ScriptsVolumeName; mt_Path := ScriptsMountPath; mt_ReadOnly := false |}] else [])
  ++ (if nonempty (TLSSecretName opts)
      then [{| mt_Name := CertVolumeName; mt_Path := CertMountPath; mt_ReadOnly := true |}] else [])
  ++ ExtraVolumeMounts opts.

Definition postgresContainer (c : PostgresCluster) (image : string) (opts : Options) : Ctr :=
  {| ct_Name := "postgres"; ct_Image := image; ct_PullPolicy := "IfNotPresent";
     ct_Ports := [{| cp_Name := "postgres"; cp_ContainerPort := 5432; cp_Protocol := "TCP" |}];
     ct_Mounts := buildMounts opts; ct_Resources := pcs_Resources (pc_Spec c);
     ct_Security := Some defaultContainerSecurityContext;
     ct_Liveness := Some livenessProbe; ct_Readiness := Some readinessProbe; ct_Env := baseEnv c |}.

Definition buildContainers (c : PostgresCluster) (image : string) (opts : Options) : list Ctr :=
  postgresContainer c image opts :: Sidecars opts.

(** The octal file modes 0755 and 0640. *)
Definition buildVolumes (opts : Options) : list Vol :=
  (if nonempty (opt_ConfigMapName opts)
   then [{| vl_Name := ConfigVolumeName; vl_Source := FromConfigMap (opt_ConfigMapName opts) None |}] else [])
  ++ (if nonempty (ScriptsConfigMapName opts)
      then [{| vl_Name := ScriptsVolumeName; vl_Source := FromConfigMap (ScriptsConfigMapName opts) (Some 493) |}] else [])
  ++ (if nonempty (TLSSecretName opts)
      then [{| vl_Name := CertVolumeName; vl_Source := FromSecret (TLSSecretName opts) (Some 416) |}] else [])
  ++ ExtraVolumes opts.

Definition buildPVCs (c : PostgresCluster) : list PersistentVolumeClaim :=
  [{| pvc_Name := DataVolumeName; pvc_Labels := ∅; pvc_AccessModes := ["ReadWriteOnce"];
      pvc_Storage := Api.st_Size (pcs_Storage (pc_Spec c));
      pvc_StorageClassName := Api.st_StorageClass (pcs_Storage (pc_Spec c)) |}].

Definition buildAffinity (c : PostgresCluster) : option Affinity_ :=
  match pcs_Affinity (pc_Spec c) with
  | Some a => Some (GivenAffinity a)
  | None =>
      if pcs_Instances (pc_Spec c) <=? 1 then None
      else Some (PreferSpread 100 (SelectorLabels c) "kubernetes.io/hostname")
  end.

Definition Build (c : PostgresCluster) (opts : Options) : Sts :=
  let image := if (Image opts =? "")%string then PostgresImageTag (pcs_PostgresVersion (pc_Spec c)) else Image opts in
  {| st_Meta := mkMeta (cluster_Name c) (cluster_Namespace c) (CommonLabels c);
     st_ServiceName := HeadlessServiceName c;
     st_Replicas := pcs_Instances (pc_Spec c);
     st_PodManagement := "OrderedReady";
     st_Update := rollingUpdate;
     st_Selector := SelectorLabels c;
     st_Claims := buildPVCs c;
     st_Template :=
       {| pt_Labels := SelectorLabels c;
          pt_InitContainers := InitContainers opts;
          pt_Containers := buildContainers c image opts;
          pt_Volumes := buildVolumes opts;
          pt_Security := defaultPodSecurityContext;
          pt_ImagePullSecrets := pcs_ImagePullSecrets (pc_Spec c);
          pt_Affinity := buildAffinity c;
          pt_Tolerations := pcs_Tolerations (pc_Spec c) |} |}.

(** [resource.MustParse("1Gi")]. *)
Definition DefaultStorage : Quantity := {| q_nano := Webhook.Gi * nano; q_text := "1Gi" |}.

(** ** Ordinals *)

(** The loop over the runes of the suffix, in 64-bit arithmetic. *)
Fixpoint ordinal_runes (ordinal : Z) (l : list (Z * string)) : Z :=
  match l with
  | [] => ordinal
  | (c, _) :: l' => if in_range 48 57 c then ordinal_runes (int64 (int64 (ordinal * 10) + (c - 48))) l' else -1
  end.

(** Only the length of the prefix is used. *)
Definition OrdinalFromName (podName stsName : string) : Z :=
  let prefix := stsName +:+ "-" in
  if (String.length podName <=? String.length prefix)%nat then -1
  else ordinal_runes 0 (runes (sdrop (String.length prefix) podName)).

Lemma ordinal_runes_digits s a z :
  parse_digits a s = Some z ->
  ordinal_runes (int64 a) (map (fun c => (byte c, str1 c)) (String.list_ascii_of_string s)) = int64 z.
Proof.
  revert a. induction s as [|c s IH]; intros a H; cbn [parse_digits] in H; [by injection H as ->|].
  destruct (is_digit c) eqn:Ec; [|done]. cbn [String.list_ascii_of_string map ordinal_runes].
  unfold is_digit in Ec. unfold in_range. rewrite Ec. apply IH in H. rewrite <- H. f_equal. apply int64_ext.
  destruct (int64_shift a) as [k1 ->]. destruct (int64_shift ((a + k1 * 2 ^ 64) * 10)) as [k2 ->].
  rewrite <- (Z_mod_plus_full (a * 10 + _) (k1 * 10 + k2)). f_equal. ring.
Qed.

Lemma ordinal_after_prefix p stsName n :
  String.length p = S (String.length stsName) -> 0 <= n -> in_int64 n = true ->
  OrdinalFromName (p +:+ itoa n) stsName = n.
Proof.
  intros Hp Hn Hin. unfold OrdinalFromName, itoa. destruct (Z.ltb_spec n 0) as [|_]; [lia|].
  assert (Hl : String.length (stsName +:+ "-") = String.length p) by (rewrite length_app_s, Hp; cbn; lia).
  destruct (digits_cons n) as (c & s & E). rewrite Hl, length_app_s.
  destruct (Nat.leb_spec (String.length p + String.length (digits n)) (String.length p)) as [H|_].
  { rewrite E in H. cbn in H. lia. }
  rewrite sdrop_app by done. pose proof (digits_all n Hn) as Hd.
  rewrite runes_all_ascii.
  2: { eapply sall_impl; [|exact Hd]. intros x Hx. unfold is_digit in Hx. breflect. apply Z.ltb_lt. lia. }
  pose proof (parse_uint_digits n Hn) as Hu. unfold parse_uint in Hu. rewrite E in Hu. rewrite <- E in Hu.
  pose proof (ordinal_runes_digits _ 0 _ Hu) as Ho. change (int64 0) with 0 in Ho. rewrite Ho. by apply int64_id.
Qed.

(** The ordinal of a pod of a StatefulSet is recovered from its name, for every ordinal
    that fits the integer type; but the name before the ordinal is not compared, so a pod of
    another StatefulSet whose name has the same length gets an ordinal too, where the
    comment promises -1. *)
Theorem OrdinalFromName_PodName (c : PostgresCluster) (other : string) (n : Z) :
  0 <= n -> in_int64 n = true -> String.length other = String.length (cluster_Name c) ->
  OrdinalFromName (PodName c n) (cluster_Name c) = n
  /\ OrdinalFromName (other +:+ "-" +:+ itoa n) (cluster_Name c) = n.
Proof.
  intros Hn Hin Ho. unfold PodName. rewrite <- !app_assoc_s.
  split; apply ordinal_after_prefix; rewrite ?length_app_s, ?Ho; cbn; (lia || done).
Qed.

Lemma OrdinalFromName_PodName_witness :
  OrdinalFromName "db-12" "db" = 12 /\ OrdinalFromName "xx-12" "db" = 12.
Proof. apply (OrdinalFromName_PodName Status.sample_cluster "xx" 12); [lia|reflexivity|reflexivity]. Defined.

(** ** The pods of the StatefulSet *)

(** A volume or claim a mount can name. *)
Definition provides (s : Sts) (name : string) : Prop :=
  (exists v, v ∈ pt_Volumes (st_Template s) /\ vl_Name v = name) \/ (exists p, p ∈ st_Claims s /\ pvc_Name p = name).

Lemma mount_provided c opts m :
  (forall m, m ∈ ExtraVolumeMounts opts -> exists v, v ∈ ExtraVolumes opts /\ vl_Name v = mt_Name m) ->
  m ∈ buildMounts opts -> provides (Build c opts) (mt_Name m).
Proof.
  intros Hx. unfold buildMounts, provides. cbn [Build st_Template pt_Volumes st_Claims].
  unfold buildVolumes, buildPVCs. rewrite !elem_of_app. intros [Hm|[Hm|[Hm|[Hm|Hm]]]].
  - right. apply list_elem_of_singleton in Hm as ->. eexists. split; [by apply list_elem_of_singleton|done].
  - left. destruct (nonempty (opt_ConfigMapName opts)); [|by apply not_elem_of_nil in Hm].
    apply list_elem_of_singleton in Hm as ->. eexists. split; [by left|done].
  - left. destruct (nonempty (ScriptsConfigMapName opts)); [|by apply not_elem_of_nil in Hm].
    apply list_elem_of_singleton in Hm as ->. eexists. rewrite !elem_of_app. split; [right; by left; left|done].
  - left. destruct (nonempty (TLSSecretName opts)); [|by apply not_elem_of_nil in Hm].
    apply list_elem_of_singleton in Hm as ->. eexists. rewrite !elem_of_app. split; [right; right; by left; left|done].
  - left. destruct (Hx m Hm) as (v & Hv & E). exists v. rewrite !elem_of_app. auto.
Qed.

Lemma volume_mounted opts v :
  v ∈ buildVolumes opts -> v ∈ ExtraVolumes opts \/ exists m, m ∈ buildMounts opts /\ mt_Name m = vl_Name v.
Proof.
  unfold buildVolumes, buildMounts. rewrite !elem_of_app. intros [Hv|[Hv|[Hv|Hv]]]; [| | |by left]; right.
  - destruct (nonempty (opt_ConfigMapName opts)); [|by apply not_elem_of_nil in Hv].
    apply list_elem_of_singleton in Hv as ->. eexists. rewrite !elem_of_app. split; [right; left; by left|done].
  - destruct (nonempty (ScriptsConfigMapName opts)); [|by apply not_elem_of_nil in Hv].
    apply list_elem_of_singleton in Hv as ->. eexists. rewrite !elem_of_app. split; [right; right; left; by left|done].
  - destruct (nonempty (TLSSecretName opts)); [|by apply not_elem_of_nil in Hv].
    apply list_elem_of_singleton in Hv as ->. eexists. rewrite !elem_of_app. split; [right; right; right; left; by left|done].
Qed.

(** The StatefulSet the builder returns is coherent: its selector matches its pods, it is
    governed by the headless Service of the operator, every mount of the database container
    names a volume or claim of the pod, and every volume the builder adds is mounted. Two
    differences from the operator's own StatefulSet make it unusable in its place: no
    role Service selects its pods, and the container gets no password variable. *)
Theorem sts_pods_coherent (c : PostgresCluster) (opts : Options) (role : string) :
  (forall m, m ∈ ExtraVolumeMounts opts -> exists v, v ∈ ExtraVolumes opts /\ vl_Name v = mt_Name m) ->
  let s := Build c opts in
  selects (st_Selector s) (pt_Labels (st_Template s))
  /\ st_ServiceName s = ss_ServiceName (sts_Spec (Resources.BuildStatefulSet c))
  /\ om_Name (st_Meta s) = om_Name (sts_Meta (Resources.BuildStatefulSet c))
  /\ (exists pg, head (pt_Containers (st_Template s)) = Some pg /\ ct_Name pg = "postgres" /\
        (forall m, m ∈ ct_Mounts pg -> provides s (mt_Name m)) /\
        (forall v, v ∈ pt_Volumes (st_Template s) ->
           v ∈ ExtraVolumes opts \/ exists m, m ∈ ct_Mounts pg /\ mt_Name m = vl_Name v) /\
        ("POSTGRES_PASSWORD" ∉ map ev_Name (ct_Env pg)) /\
        (exists pg', head (ps_Containers (pts_Spec (ss_Template (sts_Spec (Resources.BuildStatefulSet c))))) = Some pg'
           /\ "POSTGRES_PASSWORD" ∈ map ev_Name (c_Env pg')))
  /\ ~ selects (Resources.roleSelector c role) (pt_Labels (st_Template s)).
Proof.
  intros Hx s. split_and!; [unfold selects; reflexivity|done|done| |].
  - eexists. split; [reflexivity|]. split; [reflexivity|]. split_and!.
    + intros m Hm. by apply mount_provided.
    + intros v Hv. by apply volume_mounted.
    + apply (bool_decide_unpack _). vm_compute. exact I.
    + exists (Resources.pgContainer c). split; [cbn; unfold Resources.containers; by repeat case_match|].
      apply (bool_decide_unpack _). vm_compute. exact I.
  - unfold selects. intros Hs.
    assert (H : Resources.roleSelector c role !! LabelRole = Some role) by done.
    apply (lookup_weaken _ _ _ _ H) in Hs. done.
Qed.

Definition opts_sample : Options :=
  {| Image := ""; InitContainers := []; Sidecars := []; ExtraVolumes := []; ExtraVolumeMounts := [];
     TLSSecretName := "pg-tls"; opt_ConfigMapName := "pg-config"; ScriptsConfigMapName := "" |}.

Lemma sts_pods_coherent_witness :
  selects (st_Selector (Build Status.sample_cluster opts_sample)) (pt_Labels (st_Template (Build Status.sample_cluster opts_sample))).
Proof.
  apply (sts_pods_coherent Status.sample_cluster opts_sample "primary"). intros m Hm. by apply not_elem_of_nil in Hm.
Defined.

End StsBuilder.
