(* ===== verification/Shell.v ===== *)
(** * A fragment of the shell

    A reference reader and evaluator for the shell text the operator generates: words
    with single quotes, double quotes, backslashes and expansions of the form [${NAME}],
    and scripts of simple commands, assignments and one-level conditionals on the
    existence of a file, run with [set -e] and [set -u].  Text outside the fragment
    (pipes, globs, command substitution) is not given a meaning. *)

From Stdlib Require Import ZArith Lia List Bool Ascii.
From stdpp Require Import base list strings gmap.
From S2P Require Import Prelude GoStrings PgConfig.

Local Open Scope Z_scope.

Module Shell.
Import Config HBA.

Definition in_set (cs : list ascii) (c : ascii) : bool := existsb (Ascii.eqb c) cs.

(** The separators of fields, and what has a meaning of its own outside quotes. *)
Definition blank : ascii -> bool := in_set [" "; "009"; "010"]%char.
Definition special : ascii -> bool :=
  in_set [";"; "&"; "|"; "<"; ">"; "("; ")"; "`"; "*"; "?"; "{"; "~"]%char.
Definition glob : ascii -> bool := in_set ["*"; "?"; "["]%char.

Definition name_char (c : ascii) : bool :=
  is_lower c || is_upper c || is_digit c || Ascii.eqb c "_".

(** ** Words *)

Inductive mode :=
  | Plain
  | Single
  | Double
  | Escape (quoted : bool)
  | Dollar (quoted : bool)
  | Var (quoted : bool) (name : string).

(** The word under construction; [None] between words. *)
Definition push (c : ascii) (cur : option string) : option string :=
  Some (default "" cur +:+ str1 c).
Definition open (cur : option string) : option string := Some (default "" cur).
Definition emit (cur : option string) (ws : list string) : list string :=
  match cur with Some w => w :: ws | None => ws end.

(** Field splitting of the value of an unquoted expansion: the fields completed within
    the value and the word left open at its end. *)
Fixpoint split_value (cur : option string) (v : string) : list string * option string :=
  match v with
  | EmptyString => ([], cur)
  | String c v' =>
      if blank c then let '(ws, cur') := split_value None v' in (emit cur ws, cur')
      else split_value (push c cur) v'
  end.

(** Bytes a backslash protects between double quotes. *)
Definition dq_escape : ascii -> bool := in_set ["$"%char; "`"%char; dquote; bslash].

Definition plain_mode (quoted : bool) : mode := if quoted then Double else Plain.

(** The words of [s], read in mode [m] with the word [cur] open. *)
Fixpoint read (env : string -> option string) (m : mode) (cur : option string) (s : string) : option (list string) :=
  match s with
  | EmptyString => match m with Plain => Some (emit cur []) | _ => None end
  | String c s' =>
      match m with
      | Plain =>
          if blank c then emit cur <$> read env Plain None s'
          else if Ascii.eqb c squote then read env Single (open cur) s'
          else if Ascii.eqb c dquote then read env Double (open cur) s'
          else if Ascii.eqb c bslash then read env (Escape false) cur s'
          else if Ascii.eqb c "$" then read env (Dollar false) cur s'
          else if special c then None
          else if Ascii.eqb c "#" && bool_decide (cur = None) then Some []
          else if Ascii.eqb c "[" && match s' with String d _ => negb (blank d) | EmptyString => false end then None
          else read env Plain (push c cur) s'
      | Single => if Ascii.eqb c squote then read env Plain cur s' else read env Single (push c cur) s'
      | Double =>
          if Ascii.eqb c dquote then read env Plain cur s'
          else if Ascii.eqb c bslash then read env (Escape true) cur s'
          else if Ascii.eqb c "$" then read env (Dollar true) cur s'
          else if Ascii.eqb c "`" then None
          else read env Double (push c cur) s'
      | Escape q =>
          if q && negb (dq_escape c) then read env Double (push c (push bslash cur)) s'
          else read env (plain_mode q) (push c cur) s'
      | Dollar q => if Ascii.eqb c "{" then read env (Var q "") cur s' else None
      | Var q n =>
          if Ascii.eqb c "}" then
            match env n with
            | None => None
            | Some v =>
                if q then read env Double (Some (default "" cur +:+ v)) s'
                else if sall (fun d => negb (glob d)) v then
                  let '(ws, cur') := split_value cur v in app ws <$> read env Plain cur' s'
                else None
            end
          else if name_char c then read env (Var q (n +:+ str1 c)) cur s' else None
      end
  end.

(** Environments: the variables of a shell, or none at all. *)
Definition lookup_in (m : gmap string string) : string -> option string := fun n => m !! n.
Definition no_vars : string -> option string := fun _ => None.

Definition words (env : string -> option string) (line : string) : option (list string) := read env Plain None line.

(** ** Scripts *)

(** Programs the shell starts are not part of the shell: a file system, whether a regular
    file exists in it, and what a program does to it together with its exit status. *)
Class Programs (F : Type) := {
  file_exists : F -> string -> bool;
  run_program : list string -> F -> Z * F;
}.

Section Scripts.
Context {F : Type} `{Programs F}.

(** Variables, whether [set -e] is in force, the file system, the commands started. *)
Record state := { vars : gmap string string; strict : bool; files : F; started : list (list string) }.

Inductive outcome :=
  | Finished (st : state)
  | Failed (st : state)
  | Unknown.

(** One command line. *)
Inductive line :=
  | Skip
  | Assign (name value : string)
  | IfMissing (path : string)
  | Fi
  | SetStrict
  | Run (argv : list string).

Definition drop_blank (s : string) : string := (span blank s).2.

(** [NAME=...]: the name and the text after the equals sign. *)
Definition assignment (s : string) : option (string * string) :=
  match span name_char s with
  | (EmptyString, _) => None
  | (n, String "=" r) => Some (n, r)
  | _ => None
  end.

Definition if_prefix : string := "if [ ! -f ".
Definition if_suffix : string := " ]; then".

(** The text of the word between the test's prefix and suffix. *)
Definition if_operand (s : string) : option string :=
  let n := String.length s in
  let body := sdrop (String.length if_prefix) s in
  let k := (String.length body - String.length if_suffix)%nat in
  if has_prefix if_prefix s && (sdrop k body =? if_suffix)%string then Some (stake k body) else None.

Definition parse_line (env : string -> option string) (raw : string) : option line :=
  let s := drop_blank raw in
  if (s =? "fi")%string then Some Fi
  else
    match if_operand s with
    | Some t => match words env t with Some [p] => Some (IfMissing p) | _ => None end
    | None =>
        match assignment s with
        | Some (n, t) => match words env t with Some [v] => Some (Assign n v) | _ => None end
        | None =>
            match words env s with
            | None => None
            | Some [] => Some Skip
            | Some ws => if decide (ws = ["set"; "-euo"; "pipefail"]) then Some SetStrict else Some (Run ws)
            end
        end
    end.

Definition step_run (argv : list string) (st : state) : Z * state :=
  let '(code, f) := run_program argv (files st) in
  (code, {| vars := vars st; strict := strict st; files := f; started := started st ++ [argv] |}).

(** Lines are read one by one; [skipping] is set inside a conditional whose test failed,
    where nothing is expanded. *)
Fixpoint run_lines (skipping : bool) (ls : list string) (st : state) : outcome :=
  match ls with
  | [] => if skipping then Unknown else Finished st
  | raw :: rest =>
      if skipping then run_lines (negb (drop_blank raw =? "fi")%string) rest st
      else
        match parse_line (lookup_in (vars st)) raw with
        | None => Unknown
        | Some Skip | Some Fi => run_lines false rest st
        | Some (Assign n v) =>
            run_lines false rest {| vars := <[n := v]> (vars st); strict := strict st; files := files st; started := started st |}
        | Some (IfMissing p) => run_lines (file_exists (files st) p) rest st
        | Some SetStrict =>
            run_lines false rest {| vars := vars st; strict := true; files := files st; started := started st |}
        | Some (Run argv) =>
            let '(code, st') := step_run argv st in
            if (code =? 0) || negb (strict st) then run_lines false rest st' else Failed st'
        end
  end.

(** A script run in a fresh shell. *)
Definition run_script (script : string) (f : F) : outcome :=
  run_lines false (split_byte "010" script) {| vars := ∅; strict := false; files := f; started := [] |}.

End Scripts.
Arguments state F : clear implicits.
Arguments outcome F : clear implicits.

(** ** Reading generated text *)

(** Text without any meaning of its own, quoted or not. *)
Definition safe (c : ascii) : bool :=
  is_lower c || is_upper c || is_digit c || in_set ["_"; "-"; "."; "/"; "@"; ":"; "+"; ","; "="; "%"]%char c.

(** What an opaque class of bytes excludes. *)
Ltac byte_cases c :=
  destruct c as [[] [] [] [] [] [] [] []]; try reflexivity; try discriminate.

Lemma safe_plain c : safe c = true ->
  blank c = false /\ Ascii.eqb c squote = false /\ Ascii.eqb c dquote = false /\ Ascii.eqb c bslash = false /\
  Ascii.eqb c "$" = false /\ special c = false /\ Ascii.eqb c "#" = false /\ Ascii.eqb c "[" = false /\
  Ascii.eqb c "`" = false /\ glob c = false.
Proof. intros Hc. revert Hc. byte_cases c; intros _; by split_and!. Qed.

(** [x] extended by a text. *)
Definition push_all (s : string) (cur : option string) : option string :=
  match s with EmptyString => cur | _ => Some (default "" cur +:+ s) end.

Lemma push_all_cons c s cur : push_all s (push c cur) = push_all (String c s) cur.
Proof.
  destruct s as [|d s]; [done|]. change (Some ((default "" cur +:+ str1 c) +:+ String d s) =
    Some (default "" cur +:+ String c (String d s))). by rewrite app_assoc_s, str1_app.
Qed.

Lemma read_plain env s cur rest :
  sall safe s = true -> read env Plain cur (s +:+ rest) = read env Plain (push_all s cur) rest.
Proof.
  revert cur. induction s as [|c s IH]; intros cur Hs; [done|].
  cbn [sall] in Hs. apply andb_prop in Hs as [Hc Hs]. rewrite app_cons_l, <- push_all_cons, <- IH by done. cbn [read].
  apply safe_plain in Hc as (H1 & H2 & H3 & H4 & H5 & H6 & H7 & H8 & _).
  by rewrite H1, H2, H3, H4, H5, H6, H7, H8.
Qed.

(** Bytes that stand for themselves between double quotes. *)
Definition dq_plain (c : ascii) : bool := negb (in_set [dquote; bslash; "$"%char; "`"%char] c).

Lemma read_double env s cur rest :
  sall dq_plain s = true -> read env Double cur (s +:+ rest) = read env Double (push_all s cur) rest.
Proof.
  revert cur. induction s as [|c s IH]; intros cur Hs; [done|].
  cbn [sall] in Hs. apply andb_prop in Hs as [Hc Hs]. rewrite app_cons_l, <- push_all_cons, <- IH by done. cbn [read].
  unfold dq_plain, in_set in Hc. cbn [existsb] in Hc. breflect.
  by rewrite H, H0, H1, H2.
Qed.

(** The quoting of a text between single quotes, with each quote written as a closing
    quote, an escaped quote and an opening quote. *)
Definition quote_break : string := String squote (String bslash (String squote (str1 squote))).

Lemma read_single env s cur rest :
  read env Single cur (replace_byte squote quote_break s +:+ String squote rest) =
  read env Plain (push_all s cur) rest.
Proof.
  revert cur. induction s as [|c s IH]; intros cur; [done|].
  rewrite <- push_all_cons, <- IH. cbn [replace_byte]. destruct (Ascii.eqb_spec squote c) as [<-|Hne].
  - by destruct cur.
  - rewrite app_cons_l. cbn [read]. destruct (Ascii.eqb_spec c squote); [congruence|done].
Qed.

Lemma split_value_safe s cur : sall safe s = true -> split_value cur s = ([], push_all s cur).
Proof.
  revert cur. induction s as [|c s IH]; intros cur Hs; [done|].
  cbn [sall] in Hs. apply andb_prop in Hs as [Hc Hs]. rewrite <- push_all_cons, <- IH by done. cbn [split_value].
  by apply safe_plain in Hc as (-> & _).
Qed.

(** Safe words separated by single spaces are split into those words. *)
Lemma split_value_words (ws : list string) w cur :
  Forall (fun w => w <> "" /\ sall safe w = true) (w :: ws) ->
  split_value cur (strings_join " " (w :: ws)) =
    match ws with
    | [] => ([], push_all w cur)
    | _ => (default "" (push_all w cur) :: removelast ws, last ws)
    end.
Proof.
  revert w cur. induction ws as [|w' ws IH]; intros w cur Hw; apply Forall_cons in Hw as [[Hne Hs] Hw].
  { by apply split_value_safe. }
  rewrite strings_join_cons.
  assert (E : forall t, split_value cur (w +:+ " " +:+ t) =
                        let '(xs, cur') := split_value None t in (default "" (push_all w cur) :: xs, cur')).
  { intros t. revert cur Hs Hne. clear. induction w as [|c w IH]; intros cur Hs Hne; [done|].
    cbn [sall] in Hs. apply andb_prop in Hs as [Hc Hs]. rewrite app_cons_l. cbn [split_value].
    pose proof (safe_plain _ Hc) as (-> & _). rewrite <- push_all_cons. destruct w as [|d w].
    - change (split_value (push c cur) (String " " t) =
        let '(xs, cur') := split_value None t in (default "" (push c cur) :: xs, cur')).
      cbn [split_value blank]. change (blank " ") with true. cbv iota. by destruct (split_value None t).
    - apply IH; done. }
  rewrite E, IH by done. apply Forall_cons in Hw as [[Hne' _] _].
  destruct w'; [congruence|]. by destruct ws.
Qed.

(** An expansion in double quotes is inserted as it is; outside quotes it is split. *)
Lemma read_var env (q : bool) n s cur rest :
  sall name_char s = true ->
  read env (Var q n) cur (s +:+ String "}" rest) =
  match env (n +:+ s) with
  | None => None
  | Some v =>
      if q then read env Double (Some (default "" cur +:+ v)) rest
      else if sall (fun d => negb (glob d)) v then
        let '(ws, cur') := split_value cur v in app ws <$> read env Plain cur' rest
      else None
  end.
Proof.
  revert n. induction s as [|c s IH]; intros n Hs; [by rewrite app_nil_r_s|].
  cbn [sall] in Hs. apply andb_prop in Hs as [Hc Hs]. rewrite app_cons_l. cbn [read].
  destruct (Ascii.eqb_spec c "}") as [->|]; [done|]. rewrite Hc, IH by done. by rewrite app_assoc_s, str1_app.
Qed.

Lemma safe_no_glob s : sall safe s = true -> sall (fun d => negb (glob d)) s = true.
Proof. apply sall_impl. intros c Hc. by apply safe_plain in Hc as (_ & _ & _ & _ & _ & _ & _ & _ & _ & ->). Qed.

(** The lines of a generated text. *)
Lemma write_lines_split (ls : list string) :
  Forall (fun l => sall (neqc "010") l = true) ls -> split_byte "010" (write_lines ls) = ls ++ [""].
Proof. intros Hl. unfold write_lines. by apply split_newline_lines. Qed.

End Shell.
