(* ===== verification/Exec.v ===== *)
(** * Command lines for psql and the PostgreSQL tools (internal/exec/exec.go)

    The builders of command lines, read back by the shell reader of [Shell.v] and by a
    reader of psql's options. *)

From Stdlib Require Import ZArith Lia List Bool Ascii.
From stdpp Require Import base list strings gmap.
From S2P Require Import Prelude GoStrings SqlEscape Images Shell.

Local Open Scope Z_scope.

Module Exec.

Record Command := { Bin : string; Args : list string; Env : list string; Stdin : string }.

(** [strings.ContainsAny] against the bytes that trigger quoting. *)
Definition needs_quote : ascii -> bool :=
  Shell.in_set [" "%char; squote; dquote; "$"%char; bslash; "010"%char; "009"%char].

Definition shellQuote (s : string) : string :=
  if (s =? "")%string then String squote (str1 squote)
  else if sall (fun c => negb (needs_quote c)) s then s
  else str1 squote +:+ replace_byte squote Shell.quote_break s +:+ str1 squote.

(** [Command.String]. *)
Definition command_String (c : Command) : string := strings_join " " (Bin c :: map shellQuote (Args c)).

Record PSQLOptions := {
  Host : string;
  Port : Z;
  User : string;
  Database : string;
  Password : string;
  SQL : string;
  NoPsqlrc : bool;
  TupleOnly : bool;
  NonInteractive : bool;
  Variables : gmap string string;
}.

(** [append(args, flag, v)] when the value is set, and [append(args, flag)]. *)
Definition opt_arg (b : bool) (flag v : string) : list string := if b then [flag; v] else [].
Definition opt_flag (b : bool) (flag : string) : list string := if b then [flag] else [].
Definition set_ (s : string) : bool := negb (s =? "")%string.

(** [PSQL], given the order in which the map of variables is iterated. *)
Definition PSQL (order : list (string * string)) (opts : PSQLOptions) : Command :=
  {| Bin := "psql";
     Args := opt_arg (set_ (Host opts)) "-h" (Host opts)
             ++ opt_arg (0 <? Port opts) "-p" (itoa (Port opts))
             ++ opt_arg (set_ (User opts)) "-U" (User opts)
             ++ opt_arg (set_ (Database opts)) "-d" (Database opts)
             ++ opt_flag (NoPsqlrc opts) "-X"
             ++ opt_flag (TupleOnly opts) "-t"
             ++ opt_flag (NonInteractive opts) "-q"
             ++ flat_map (fun kv => ["-v"; kv.1 +:+ "=" +:+ kv.2]) order
             ++ opt_arg (set_ (SQL opts)) "-c" (SQL opts);
     Env := if set_ (Password opts) then ["PGPASSWORD=" +:+ Password opts] else [];
     Stdin := "" |}.

Record PGCtlOptions := { DataDir : string; Action : string; Mode : string; Wait : bool }.

Definition PGCtl (opts : PGCtlOptions) : result Command :=
  if (DataDir opts =? "")%string then Err (ErrNew "exec: pg_ctl requires DataDir")
  else if (Action opts =? "")%string then Err (ErrNew "exec: pg_ctl requires Action")
  else Ok {| Bin := "pg_ctl";
             Args := [Action opts; "-D"; DataDir opts] ++ opt_arg (set_ (Mode opts)) "-m" (Mode opts)
                     ++ opt_flag (Wait opts) "-w";
             Env := []; Stdin := "" |}.

Definition PGBaseBackup (host : string) (port : Z) (user target : string) : Command :=
  {| Bin := "pg_basebackup";
     Args := ["-h"; host; "-p"; itoa port; "-U"; user; "-D"; target; "-Fp"; "-Xs"; "-P"; "-R"];
     Env := []; Stdin := "" |}.

Definition PGDump (host : string) (port : Z) (user db target : string) : Command :=
  {| Bin := "pg_dump";
     Args := ["-h"; host; "-p"; itoa port; "-U"; user; "-d"; db; "-Fc"; "-f"; target];
     Env := []; Stdin := "" |}.

Definition SQLEscape (s : string) : string :=
  str1 squote +:+ replace_byte squote (String squote (str1 squote)) s +:+ str1 squote.

Definition IdentEscape (ident : string) : string :=
  str1 dquote +:+ replace_byte dquote (String dquote (str1 dquote)) ident +:+ str1 dquote.

(** ** The command line in a shell *)

(** An argument the quoting protects: it has a byte that triggers quoting, or only bytes
    without a meaning to the shell. *)
Definition arg_ok (a : string) : Prop :=
  sall (fun c => negb (needs_quote c)) a = false \/ sall Shell.safe a = true.

Lemma read_shellQuote env a rest :
  arg_ok a -> Shell.read env Shell.Plain None (shellQuote a +:+ rest) = Shell.read env Shell.Plain (Some a) rest.
Proof.
  intros Ha. unfold shellQuote. destruct (String.eqb_spec a "") as [->|Hne]; [done|].
  destruct (sall (fun c => negb (needs_quote c)) a) eqn:Hq.
  - destruct Ha as [Ha|Ha]; [congruence|]. rewrite Shell.read_plain by done. by destruct a.
  - rewrite !app_assoc_s, !str1_app.
    change (Shell.read env Shell.Single (Some "") (replace_byte squote Shell.quote_break a +:+ String squote rest) =
      Shell.read env Shell.Plain (Some a) rest). rewrite Shell.read_single. by destruct a.
Qed.

Lemma read_args env (args : list string) w :
  Forall arg_ok args ->
  Shell.read env Shell.Plain (Some w) (concat_s (map (fun a => " " +:+ shellQuote a) args)) = Some (w :: args).
Proof.
  intros Ha. revert w. induction Ha as [|a args Ha _ IH]; intros w; [done|].
  cbn [map concat_s foldr]. rewrite app_assoc_s. fold (concat_s (map (fun a => " " +:+ shellQuote a) args)).
  change (Shell.emit (Some w) <$> Shell.read env Shell.Plain None (shellQuote a +:+ concat_s (map (fun a => " " +:+ shellQuote a) args)) =
    Some (w :: a :: args)). by rewrite read_shellQuote, IH.
Qed.

Lemma command_String_eq c :
  command_String c = Bin c +:+ concat_s (map (fun a => " " +:+ shellQuote a) (Args c)).
Proof.
  unfold command_String. destruct (Args c) as [|a l]; [by rewrite app_nil_r_s|]. cbn [map].
  revert a. generalize (Bin c) as w. induction l as [|b l IH]; intros w a.
  { cbn [strings_join map concat_s foldr]. by rewrite app_nil_r_s. }
  cbn [map]. rewrite strings_join_cons, IH. cbn [map concat_s foldr]. by rewrite !app_assoc_s.
Qed.

(** The shell reads the logged line of a command back as its argument vector. *)
Lemma command_line_words c :
  Bin c <> "" -> sall Shell.safe (Bin c) = true -> Forall arg_ok (Args c) ->
  Shell.words Shell.no_vars (command_String c) = Some (Bin c :: Args c).
Proof.
  intros Hne Hb Ha. unfold Shell.words. rewrite command_String_eq, Shell.read_plain by done.
  replace (Shell.push_all (Bin c) None) with (Some (Bin c)) by by destruct (Bin c). by apply read_args.
Qed.

(** ** The options of psql *)

Record psql_view := {
  v_host : option string; v_port : option string; v_user : option string; v_db : option string;
  v_noRc : bool; v_tuples : bool; v_quiet : bool; v_vars : gmap string string; v_command : option string;
}.

Definition psql_default : psql_view :=
  {| v_host := None; v_port := None; v_user := None; v_db := None; v_noRc := false; v_tuples := false;
     v_quiet := false; v_vars := ∅; v_command := None |}.

(** An option with an argument, as getopt hands it to psql. *)
Definition view_arg (flag v : string) (x : psql_view) : option psql_view :=
  let '(Build_psql_view h p u d n t q vs c) := x in
  if (flag =? "-h")%string then Some (Build_psql_view (Some v) p u d n t q vs c)
  else if (flag =? "-p")%string then Some (Build_psql_view h (Some v) u d n t q vs c)
  else if (flag =? "-U")%string then Some (Build_psql_view h p (Some v) d n t q vs c)
  else if (flag =? "-d")%string then Some (Build_psql_view h p u (Some v) n t q vs c)
  else if (flag =? "-c")%string then Some (Build_psql_view h p u d n t q vs (Some v))
  else if (flag =? "-v")%string then
    match split_first "=" v with
    | Some (k, x) => Some (Build_psql_view h p u d n t q (<[k := x]> vs) c)
    | None => None
    end
  else None.

Definition view_flag (flag : string) (x : psql_view) : option psql_view :=
  let '(Build_psql_view h p u d n t q vs c) := x in
  if (flag =? "-X")%string then Some (Build_psql_view h p u d true t q vs c)
  else if (flag =? "-t")%string then Some (Build_psql_view h p u d n true q vs c)
  else if (flag =? "-q")%string then Some (Build_psql_view h p u d n t true vs c)
  else None.

Fixpoint psql_getopt (args : list string) (x : psql_view) : option psql_view :=
  match args with
  | [] => Some x
  | flag :: rest =>
      match view_flag flag x with
      | Some x' => psql_getopt rest x'
      | None =>
          match rest with
          | [] => None
          | v :: rest' => match view_arg flag v x with Some x' => psql_getopt rest' x' | None => None end
          end
      end
  end.

Definition nonempty (s : string) : option string := if set_ s then Some s else None.

(** What psql is asked to do. *)
Definition psql_asked (opts : PSQLOptions) : psql_view :=
  {| v_host := nonempty (Host opts); v_port := if 0 <? Port opts then Some (itoa (Port opts)) else None;
     v_user := nonempty (User opts); v_db := nonempty (Database opts); v_noRc := NoPsqlrc opts;
     v_tuples := TupleOnly opts; v_quiet := NonInteractive opts; v_vars := Variables opts;
     v_command := nonempty (SQL opts) |}.

Definition insert_all (l : list (string * string)) (m : gmap string string) : gmap string string :=
  foldl (fun m kv => <[kv.1 := kv.2]> m) m l.

Lemma insert_all_map l m : NoDup l.*1 -> insert_all l m = list_to_map l ∪ m.
Proof.
  revert m. induction l as [|[k v] l IH]; intros m Hl; [symmetry; apply (left_id_L ∅ (∪))|].
  cbn [insert_all foldl fst snd fmap list_fmap] in *. apply NoDup_cons in Hl as [Hk Hl].
  fold (insert_all l (<[k := v]> m)). rewrite IH by done. cbn [list_to_map foldr fst snd].
  rewrite <- insert_union_r; [by rewrite insert_union_l|]. by apply not_elem_of_list_to_map_1.
Qed.

Lemma getopt_vars (l : list (string * string)) rest h p u d n t q vs c :
  Forall (fun kv => sall (neqc "=") kv.1 = true) l ->
  psql_getopt (flat_map (fun kv => ["-v"; kv.1 +:+ "=" +:+ kv.2]) l ++ rest) (Build_psql_view h p u d n t q vs c) =
  psql_getopt rest (Build_psql_view h p u d n t q (insert_all l vs) c).
Proof.
  intros Hl. revert vs. induction Hl as [|[k v] l Hk _ IH]; intros vs; [done|].
  cbn [flat_map app psql_getopt fst snd] in *. change (view_flag "-v" _) with (@None psql_view). cbv iota.
  change (k +:+ "=" +:+ v) with (k +:+ String "=" v). unfold view_arg.
  cbn -[split_first psql_getopt insert_all String.append]. rewrite split_first_app by done. by rewrite IH.
Qed.

(** What psql is asked to do is what the options say.  For any order in which the map of
    variables is iterated, and variable names without an equals sign, psql's option parser
    finds in the arguments exactly the host, port, user, database, flags, variables and
    command of the options; a value that looks like an option is still taken as a value.
    The arguments do not depend on the password, which is handed over in the environment
    only when it is set.  Where quoting covers the arguments, the logged line is read by
    the shell as the same argument vector. *)
Theorem PSQL_reads_back (order : list (string * string)) (opts : PSQLOptions) (pw : string) :
  order ≡ₚ map_to_list (Variables opts) ->
  map_Forall (fun k _ => sall (neqc "=") k = true) (Variables opts) ->
  psql_getopt (Args (PSQL order opts)) psql_default = Some (psql_asked opts) /\
  Env (PSQL order opts) = (if set_ (Password opts) then ["PGPASSWORD=" +:+ Password opts] else []) /\
  Args (PSQL order {| Host := Host opts; Port := Port opts; User := User opts; Database := Database opts;
                      Password := pw; SQL := SQL opts; NoPsqlrc := NoPsqlrc opts; TupleOnly := TupleOnly opts;
                      NonInteractive := NonInteractive opts; Variables := Variables opts |}) = Args (PSQL order opts) /\
  (Forall arg_ok (Args (PSQL order opts)) ->
   Shell.words Shell.no_vars (command_String (PSQL order opts)) = Some ("psql" :: Args (PSQL order opts))).
Proof.
  intros Ho Hv. split_and!; [|done..|by apply command_line_words].
  assert (Hl : Forall (fun kv => sall (neqc "=") kv.1 = true) order).
  { rewrite Ho. apply Forall_forall. intros [k v] Hkv%elem_of_map_to_list. by apply (Hv k v). }
  assert (Hm : insert_all order ∅ = Variables opts).
  { rewrite insert_all_map by (rewrite Ho; apply NoDup_fst_map_to_list).
    rewrite (right_id_L ∅ (∪)). etransitivity; [|apply (list_to_map_to_list (Variables opts))].
    apply list_to_map_proper; [rewrite Ho; apply NoDup_fst_map_to_list|done]. }
  unfold psql_asked, nonempty, psql_default. rewrite <- Hm. cbn [Args PSQL].
  destruct (set_ (Host opts)), (0 <? Port opts), (set_ (User opts)), (set_ (Database opts)), (NoPsqlrc opts),
    (TupleOnly opts), (NonInteractive opts); cbn -[psql_getopt flat_map itoa insert_all]; cbn [psql_getopt view_flag view_arg];
    cbn -[psql_getopt flat_map itoa insert_all]; rewrite getopt_vars by done; by destruct (set_ (SQL opts)).
Qed.

Definition psql_sample : PSQLOptions :=
  {| Host := "db-rw"; Port := 5432; User := "-X"; Database := "shop"; Password := "s3cret"; SQL := "SELECT 'a b'";
     NoPsqlrc := true; TupleOnly := false; NonInteractive := true;
     Variables := {[ "ON_ERROR_STOP" := "1"; "schema" := "a=b" ]} |}.

Definition psql_order : list (string * string) := reverse (map_to_list (Variables psql_sample)).

Lemma PSQL_reads_back_witness :
  psql_getopt (Args (PSQL psql_order psql_sample)) psql_default = Some (psql_asked psql_sample) /\
  Shell.words Shell.no_vars (command_String (PSQL psql_order psql_sample)) = Some ("psql" :: Args (PSQL psql_order psql_sample)).
Proof.
  destruct (PSQL_reads_back psql_order psql_sample "" (reverse_Permutation _)) as (H1 & _ & _ & H2).
  { apply (bool_decide_unpack _). vm_compute. exact I. }
  split; [exact H1|]. apply H2. unfold arg_ok. apply (bool_decide_unpack _). vm_compute. exact I.
Defined.

(** The two quoting functions of this package are those of package sqlescape, except on
    identifiers with a NUL byte, so that the lexer reads the original text back. *)
Theorem escapes_agree (s rest : string) :
  SQLEscape s = SqlEscape.StringLiteral s /\
  (contains_byte "000" s = false -> IdentEscape s = SqlEscape.Identifier s) /\
  (SqlEscape.starts_with squote rest = false -> SqlEscape.read_token squote (SQLEscape s +:+ rest) = Some (s, rest)) /\
  (SqlEscape.starts_with dquote rest = false -> SqlEscape.read_token dquote (IdentEscape s +:+ rest) = Some (s, rest)).
Proof.
  split_and!; [done|..].
  - intros H. unfold SqlEscape.Identifier. by rewrite H.
  - apply SqlEscape.read_token_quoted.
  - apply SqlEscape.read_token_quoted.
Qed.

(** [PGCtl] fails exactly when the directory or the action is missing, and otherwise names
    the action first and the directory after [-D]. *)
Theorem PGCtl_cases (opts : PGCtlOptions) :
  match PGCtl opts with
  | Err _ => DataDir opts = "" \/ Action opts = ""
  | Ok c => DataDir opts <> "" /\ Action opts <> "" /\ Bin c = "pg_ctl" /\ Env c = [] /\
      take 3 (Args c) = [Action opts; "-D"; DataDir opts] /\
      ("-m" ∈ drop 3 (Args c) -> Mode opts <> "")
  end.
Proof.
  unfold PGCtl. destruct (String.eqb_spec (DataDir opts) ""); [by left|].
  destruct (String.eqb_spec (Action opts) ""); [by right|]. split_and!; try done; cbn [Args].
  cbn [drop app]. unfold opt_arg, opt_flag, set_. destruct (String.eqb_spec (Mode opts) "") as [->|]; [|done].
  destruct (Wait opts); cbn; set_solver.
Qed.

End Exec.
