(* ===== verification/Initialize.v ===== *)
(** * Bootstrap of a data directory (internal/initialize/initialize.go)

    The bootstrap script is run by the shell evaluator of [Shell.v] over programs that are
    parameters; the SQL that follows the first start is read by the lexer of
    [UserController.v]. *)

From Stdlib Require Import ZArith Lia List Bool Ascii.
From stdpp Require Import base list strings gmap.
From S2P Require Import Prelude GoStrings SqlEscape PgConfig UserController Shell.

Local Open Scope Z_scope.

Module Initialize.
Import HBA.

Definition ScriptConfigMapKey : string := "bootstrap.sh".
Definition PGDataDir : string := "/var/lib/postgresql/data/pgdata".
Definition PGWALDir : string := "/var/lib/postgresql/wal/pg_wal".
Definition PGConfigDir : string := "/etc/postgresql".
Definition InitScriptTimeout : Z := 120.

Record InitParams := {
  PostgresVersion : Z;
  DatabaseName : string;
  SuperuserName : string;
  ReplicationUser : string;
  Locale : string;
  Encoding : string;
  DataChecksums : bool;
  WALDir : string;
}.

Definition DefaultInitParams (pgVersion : Z) (clusterName : string) : InitParams :=
  {| PostgresVersion := pgVersion; DatabaseName := clusterName; SuperuserName := "postgres";
     ReplicationUser := "replicator"; Locale := "en_US.UTF-8"; Encoding := "UTF8"; DataChecksums := true;
     WALDir := "" |}.

(** Text between double quotes. *)
Definition dq (s : string) : string := str1 dquote +:+ s +:+ str1 dquote.

(** The lines of [BootstrapScript], in the order they are written. *)
Definition head_lines (T : UnicodeTables) : list string :=
  ["#!/bin/bash"; "set -euo pipefail"; ""; "PGDATA=" +:+ Quote T PGDataDir; "";
   "# Create data directory if it does not exist";
   "mkdir -p " +:+ dq "${PGDATA}";
   "chmod 0700 " +:+ dq "${PGDATA}"; "";
   "# Only run initdb if PGDATA is not already initialised";
   "if [ ! -f " +:+ dq "${PGDATA}/PG_VERSION" +:+ " ]; then"].

Definition args_line (p : InitParams) : string :=
  "  initdb_args=" +:+ dq ("--username=" +:+ SuperuserName p +:+ " --encoding=" +:+ Encoding p
                           +:+ " --locale=" +:+ Locale p).

Definition checksum_lines (p : InitParams) : list string :=
  if DataChecksums p then ["  initdb_args=" +:+ dq "${initdb_args} --data-checksums"] else [].

Definition waldir_lines (T : UnicodeTables) (p : InitParams) : list string :=
  if (WALDir p =? "")%string then []
  else ["  mkdir -p " +:+ Quote T (WALDir p);
        "  initdb_args=" +:+ dq ("${initdb_args} --waldir=" +:+ WALDir p)].

Definition initdb_line : string := "  initdb ${initdb_args} -D " +:+ dq "${PGDATA}".

Definition tail_lines : list string :=
  [""; "# Copy operator-managed config files";
   "cp " +:+ PGConfigDir +:+ "/postgresql.conf " +:+ dq "${PGDATA}/postgresql.conf";
   "cp " +:+ PGConfigDir +:+ "/pg_hba.conf " +:+ dq "${PGDATA}/pg_hba.conf"; "";
   "echo " +:+ dq "Bootstrap complete."].

Definition BootstrapScript (T : UnicodeTables) (p : InitParams) : string :=
  write_lines (head_lines T ++ args_line p :: checksum_lines p ++ waldir_lines T p ++ initdb_line :: "fi" :: tail_lines).

Definition quoteIdent (s : string) : string :=
  str1 dquote +:+ replace_byte dquote (String dquote (str1 dquote)) s +:+ str1 dquote.

Definition quoteLiteral (s : string) : string :=
  str1 squote +:+ replace_byte squote (String squote (str1 squote)) s +:+ str1 squote.

Definition banner : string := "-- Managed by athos-kubernetes - do not edit" +:+ newline +:+ newline.

Definition create_user (p : InitParams) (password : string) : string :=
  "CREATE USER " +:+ quoteIdent (ReplicationUser p) +:+ " WITH REPLICATION ENCRYPTED PASSWORD " +:+ quoteLiteral password.

Definition create_database (p : InitParams) : string :=
  "CREATE DATABASE " +:+ quoteIdent (DatabaseName p) +:+ " OWNER " +:+ quoteIdent (SuperuserName p) +:+ " ENCODING "
  +:+ quoteLiteral (Encoding p) +:+ " LC_COLLATE " +:+ quoteLiteral (Locale p) +:+ " LC_CTYPE " +:+ quoteLiteral (Locale p).

Definition own_database (p : InitParams) : bool :=
  negb (DatabaseName p =? "postgres")%string && negb (DatabaseName p =? SuperuserName p)%string.

Definition PostInitSQL (p : InitParams) (password : string) : string :=
  banner +:+ (create_user p password +:+ ";" +:+ newline)
  +:+ (if own_database p then create_database p +:+ ";" +:+ newline else "").

Definition DataDirIsEmpty : string := "[ ! -f " +:+ dq "${PGDATA}/PG_VERSION" +:+ " ]".
Definition ContainerName : string := "init-postgres".

(** ** The commands of a bootstrap *)

Definition version_file : string := PGDataDir +:+ "/PG_VERSION".
Definition prepare : list (list string) := [["mkdir"; "-p"; PGDataDir]; ["chmod"; "0700"; PGDataDir]].

Definition base_args (p : InitParams) : list string :=
  ["--username=" +:+ SuperuserName p; "--encoding=" +:+ Encoding p; "--locale=" +:+ Locale p].
Definition checksum_args (p : InitParams) : list string := if DataChecksums p then ["--data-checksums"] else [].
Definition waldir_args (p : InitParams) : list string :=
  if (WALDir p =? "")%string then [] else ["--waldir=" +:+ WALDir p].
Definition waldir_mkdir (p : InitParams) : list (list string) :=
  if (WALDir p =? "")%string then [] else [["mkdir"; "-p"; WALDir p]].

(** The call of initdb: every parameter is one argument. *)
Definition initdb_argv (p : InitParams) : list string :=
  "initdb" :: base_args p ++ checksum_args p ++ waldir_args p ++ ["-D"; PGDataDir].

Definition finish : list (list string) :=
  [["cp"; PGConfigDir +:+ "/postgresql.conf"; PGDataDir +:+ "/postgresql.conf"];
   ["cp"; PGConfigDir +:+ "/pg_hba.conf"; PGDataDir +:+ "/pg_hba.conf"];
   ["echo"; "Bootstrap complete."]].

(** Parameters made of bytes that mean nothing to the shell. *)
Record params_safe (p : InitParams) : Prop := {
  safe_user : sall Shell.safe (SuperuserName p) = true;
  safe_encoding : sall Shell.safe (Encoding p) = true;
  safe_locale : sall Shell.safe (Locale p) = true;
  safe_waldir : sall Shell.safe (WALDir p) = true;
}.

(** ** Reading the lines *)

(** A line without parameters: evaluate, with the value of PGDATA. *)
Ltac parse_const HP := vm_compute; vm_compute in HP; rewrite ?HP; vm_compute; reflexivity.

Lemma safe_dq s : sall Shell.safe s = true -> sall Shell.dq_plain s = true.
Proof.
  apply sall_impl. intros c Hc. apply Shell.safe_plain in Hc as (_ & _ & H1 & H2 & H3 & _ & _ & _ & H4 & _).
  unfold Shell.dq_plain, Shell.in_set. cbn [existsb]. by rewrite H1, H2, H3, H4.
Qed.

Lemma words_dq env s : sall Shell.dq_plain s = true -> Shell.words env (dq s) = Some [s].
Proof.
  intros Hs. unfold Shell.words, dq. rewrite str1_app.
  change (Shell.read env Shell.Double (Some "") (s +:+ str1 dquote) = Some [s]).
  rewrite Shell.read_double by done. by destruct s.
Qed.

Lemma words_dq_var env n v s :
  env n = Some v -> sall Shell.name_char n = true -> sall Shell.dq_plain s = true ->
  Shell.words env (dq ("${" +:+ n +:+ "}" +:+ s)) = Some [v +:+ s].
Proof.
  intros Hv Hn Hs. unfold Shell.words, dq. rewrite str1_app, !app_assoc_s.
  change (Shell.read env (Shell.Var true "") (Some "") (n +:+ String "}" (s +:+ str1 dquote)) = Some [v +:+ s]).
  rewrite Shell.read_var, app_nil_l_s, Hv by done. rewrite Shell.read_double by done.
  destruct s as [|c s]; [by rewrite app_nil_r_s|done].
Qed.

Lemma parse_initdb_args env t v :
  Shell.words env t = Some [v] -> Shell.parse_line env ("  initdb_args=" +:+ t) = Some (Shell.Assign "initdb_args" v).
Proof.
  intros Hw. unfold Shell.parse_line.
  change (Shell.drop_blank ("  initdb_args=" +:+ t)) with ("initdb_args=" +:+ t).
  change ("initdb_args=" +:+ t =? "fi")%string with false. cbv iota.
  change (Shell.if_operand ("initdb_args=" +:+ t)) with (@None string). cbv iota.
  change (Shell.assignment ("initdb_args=" +:+ t)) with (Some ("initdb_args", t)). cbv iota. by rewrite Hw.
Qed.

Lemma Quote_safe T s : sall Shell.safe s = true -> Quote T s = dq s.
Proof.
  intros Hs. unfold Quote, dq. f_equal. f_equal.
  assert (Ha : forall c, Shell.safe c = true -> byte c < 0x80 /\ quote_rune T (byte c) (str1 c) = str1 c).
  { intros c Hc. split; [|revert Hc; Shell.byte_cases c].
    revert Hc. Shell.byte_cases c. }
  rewrite runes_all_ascii by (eapply sall_impl; [|exact Hs]; intros c Hc; apply Z.ltb_lt; by apply Ha).
  induction s as [|c s IH]; [done|]. cbn [sall] in Hs. apply andb_prop in Hs as [Hc Hs].
  cbn [String.list_ascii_of_string map fst snd concat_s foldr]. rewrite (proj2 (Ha c Hc)), str1_app. f_equal. by apply IH.
Qed.

Lemma parse_mkdir T env w :
  w <> "" -> sall Shell.safe w = true ->
  Shell.parse_line env ("  mkdir -p " +:+ Quote T w) = Some (Shell.Run ["mkdir"; "-p"; w]).
Proof.
  intros Hne Hw. rewrite Quote_safe by done. unfold Shell.parse_line.
  change (Shell.drop_blank ("  mkdir -p " +:+ dq w)) with ("mkdir -p " +:+ dq w).
  change ("mkdir -p " +:+ dq w =? "fi")%string with false. cbv iota.
  change (Shell.if_operand ("mkdir -p " +:+ dq w)) with (@None string). cbv iota.
  change (Shell.assignment ("mkdir -p " +:+ dq w)) with (@None (string * string)). cbv iota.
  change (Shell.words env ("mkdir -p " +:+ dq w)) with
    (Shell.emit (Some "mkdir") <$> (Shell.emit (Some "-p") <$> Shell.words env (dq w))).
  by rewrite words_dq by by apply safe_dq.
Qed.

(** The unquoted expansion of the arguments yields one word per argument. *)
Lemma parse_initdb env ws :
  env "PGDATA" = Some PGDataDir -> ws <> [] -> Forall (fun w => w <> "" /\ sall Shell.safe w = true) ws ->
  env "initdb_args" = Some (strings_join " " ws) ->
  Shell.parse_line env initdb_line = Some (Shell.Run ("initdb" :: ws ++ ["-D"; PGDataDir])).
Proof.
  intros HP Hne Hw HA. unfold Shell.parse_line.
  change (Shell.drop_blank initdb_line) with ("initdb ${initdb_args} -D " +:+ dq "${PGDATA}").
  set (t := "initdb ${initdb_args} -D " +:+ dq "${PGDATA}").
  change (t =? "fi")%string with false. change (Shell.if_operand t) with (@None string).
  change (Shell.assignment t) with (@None (string * string)). cbv iota.
  assert (E : Shell.words env t = Some ("initdb" :: ws ++ ["-D"; PGDataDir])); [|by rewrite E].
  change (Shell.words env t) with (Shell.emit (Some "initdb") <$>
    Shell.read env (Shell.Var false "") None ("initdb_args" +:+ String "}" (" -D " +:+ dq "${PGDATA}"))).
  rewrite Shell.read_var, app_nil_l_s, HA by done.
  assert (Hg : sall (fun d => negb (Shell.glob d)) (strings_join " " ws) = true).
  { clear -Hw. induction Hw as [|w ws [_ Hw] Hws IH]; [done|]. destruct ws as [|w' ws]; [by apply Shell.safe_no_glob|].
    rewrite strings_join_cons, !sall_app, IH, Shell.safe_no_glob by done. done. }
  rewrite Hg. destruct ws as [|w ws]; [done|]. rewrite Shell.split_value_words by done.
  assert (Ht : forall x, Shell.read env Shell.Plain (Some x) (" -D " +:+ dq "${PGDATA}") = Some [x; "-D"; PGDataDir]).
  { intros x. clear -HP. parse_const HP. }
  apply Forall_cons in Hw as [[Hw0 _] _]. replace (Shell.push_all w None) with (Some w) by by destruct w.
  destruct ws as [|w' ws]; [by rewrite Ht|].
  cbv iota. assert (Hv : w' :: ws <> []) by done. revert Hv. generalize (w' :: ws) as v. clear -Ht. intros v Hv.
  destruct (last v) as [x|] eqn:El; [|by apply last_None in El].
  apply last_Some in El as [ws ->]. rewrite Ht, removelast_last.
  change (Some ("initdb" :: (w :: ws) ++ [x; "-D"; PGDataDir]) = Some ("initdb" :: w :: (ws ++ [x]) ++ ["-D"; PGDataDir])).
  by rewrite <- app_assoc.
Qed.

Section Bootstrap.
Context {F : Type} `{Shell.Programs F}.

(** Commands run one after the other until one fails: whether all succeeded, the file
    system, and the commands started. *)
Fixpoint run_all (cmds : list (list string)) (f : F) : bool * F * list (list string) :=
  match cmds with
  | [] => (true, f, [])
  | argv :: rest =>
      let '(code, f') := Shell.run_program argv f in
      if code =? 0 then let '(ok, f'', l) := run_all rest f' in (ok, f'', argv :: l)
      else (false, f', [argv])
  end.

(** What a bootstrap does: prepare the directory, initialise it unless it holds a
    database, copy the configuration. *)
Definition initialise (p : InitParams) (f : F) : list (list string) :=
  if Shell.file_exists f version_file then [] else waldir_mkdir p ++ [initdb_argv p].

Definition bootstrap (p : InitParams) (f : F) : bool * F * list (list string) :=
  let '(ok, f1, l1) := run_all prepare f in
  if ok then let '(ok2, f2, l2) := run_all (initialise p f1 ++ finish) f1 in (ok2, f2, l1 ++ l2) else (ok, f1, l1).

(** What can be observed of a run of a script. *)
Definition observe (o : Shell.outcome F) : option (bool * F * list (list string)) :=
  match o with
  | Shell.Finished st => Some (true, Shell.files st, Shell.started st)
  | Shell.Failed st => Some (false, Shell.files st, Shell.started st)
  | Shell.Unknown => None
  end.

(** *** Lines *)

Definition state_of (m : gmap string string) (f : F) (l : list (list string)) : Shell.state F :=
  {| Shell.vars := m; Shell.strict := true; Shell.files := f; Shell.started := l |}.

(** The command a line stands for, if any. *)
Definition command_of (x : Shell.line) : list (list string) :=
  match x with Shell.Run argv => [argv] | _ => [] end.
Definition simple (x : Shell.line) : bool :=
  match x with Shell.Run _ | Shell.Skip | Shell.Fi => true | _ => false end.

(** Lines of simple commands run as those commands. *)
Lemma run_commands (m : gmap string string) raws (xs : list Shell.line) rest f l :
  Forall2 (fun raw x => Shell.parse_line (Shell.lookup_in m) raw = Some x /\ simple x = true) raws xs ->
  observe (Shell.run_lines false (raws ++ rest) (state_of m f l)) =
  let '(ok, f', l') := run_all (flat_map command_of xs) f in
  if ok then observe (Shell.run_lines false rest (state_of m f' (l ++ l'))) else Some (false, f', l ++ l').
Proof.
  intros Hx. revert f l. induction Hx as [|raw x raws xs [E Hs] _ IH]; intros f l; [cbn; by rewrite app_nil_r|].
  cbn [app Shell.run_lines flat_map]. change (Shell.vars (state_of m f l)) with m. rewrite E.
  destruct x as [|n v|q| | |argv]; try done; try apply IH.
  unfold Shell.step_run. change (Shell.files (state_of m f l)) with f.
  cbn [command_of app run_all]. destruct (Shell.run_program argv f) as [code f'].
  change (Shell.strict (state_of m f l)) with true. cbn [negb]. rewrite orb_false_r.
  destruct (code =? 0); [|done].
  change {| Shell.vars := Shell.vars (state_of m f l) |} with (state_of m f' (l ++ [argv])).
  rewrite IH. destruct (run_all (flat_map command_of xs) f') as [[ok g] l'].
  by rewrite <- app_assoc.
Qed.

Lemma run_all_app a b f :
  run_all (a ++ b) f =
  let '(ok, f1, l1) := run_all a f in
  if ok then let '(ok2, f2, l2) := run_all b f1 in (ok2, f2, l1 ++ l2) else (ok, f1, l1).
Proof.
  revert f. induction a as [|argv a IH]; intros f; [cbn; by destruct (run_all b f) as [[? ?] ?]|].
  cbn [app run_all]. destruct (Shell.run_program argv f) as [code f']. destruct (code =? 0); [|done].
  rewrite IH. destruct (run_all a f') as [[ok f1] l1]. destruct ok; [|done].
  by destruct (run_all b f1) as [[? ?] ?].
Qed.

(** Lines inside a conditional that is not taken. *)
Lemma run_skipped raws rest (st : Shell.state F) :
  Forall (fun raw => (Shell.drop_blank raw =? "fi")%string = false) raws ->
  Shell.run_lines true (raws ++ "fi" :: rest) st = Shell.run_lines false rest st.
Proof.
  induction 1 as [|raw raws Hr _ IH]; [done|]. cbn [app Shell.run_lines]. by rewrite Hr.
Qed.

(** ** The script runs as the bootstrap *)

Lemma safe_words p : params_safe p ->
  Forall (fun w => w <> "" /\ sall Shell.safe w = true) (base_args p ++ checksum_args p ++ waldir_args p).
Proof.
  intros []. unfold base_args, checksum_args, waldir_args.
  repeat (apply Forall_app; split); repeat case_match; repeat constructor; try done; rewrite sall_app; by apply andb_true_intro.
Qed.

Definition pgdata_vars : gmap string string := {[ "PGDATA" := PGDataDir ]}.
Definition args_vars (ws : list string) : gmap string string := <["initdb_args" := strings_join " " ws]> pgdata_vars.

Lemma join_snoc (l : list string) w : l <> [] -> strings_join " " (l ++ [w]) = strings_join " " l +:+ " " +:+ w.
Proof.
  induction l as [|a l IH]; [done|]. intros _. destruct l as [|b l]; [done|].
  change ((a :: b :: l) ++ [w]) with (a :: b :: l ++ [w]). rewrite !strings_join_cons, !app_assoc_s.
  change (b :: l ++ [w]) with ((b :: l) ++ [w]). by rewrite IH.
Qed.

Lemma run_assign m raw n v rest f l :
  Shell.parse_line (Shell.lookup_in m) raw = Some (Shell.Assign n v) ->
  Shell.run_lines false (raw :: rest) (state_of m f l) = Shell.run_lines false rest (state_of (<[n := v]> m) f l).
Proof. intros E. cbn [Shell.run_lines]. change (Shell.vars (state_of m f l)) with m. by rewrite E. Qed.

(** Adding an argument to the variable. *)
Lemma run_add_arg ws a rest f l :
  ws <> [] -> sall Shell.dq_plain a = true ->
  Shell.run_lines false (("  initdb_args=" +:+ dq ("${initdb_args} " +:+ a)) :: rest) (state_of (args_vars ws) f l) =
  Shell.run_lines false rest (state_of (args_vars (ws ++ [a])) f l).
Proof.
  intros Hne Ha. rewrite (run_assign _ _ "initdb_args" (strings_join " " ws +:+ " " +:+ a)).
  - unfold args_vars. by rewrite insert_insert_eq, join_snoc.
  - apply parse_initdb_args, (words_dq_var _ "initdb_args" _ (" " +:+ a)); [|done|by rewrite sall_app, Ha].
    unfold Shell.lookup_in, args_vars. by rewrite lookup_insert_eq.
Qed.

Lemma run_args p rest f l :
  params_safe p ->
  Shell.run_lines false (args_line p :: rest) (state_of pgdata_vars f l) =
  Shell.run_lines false rest (state_of (args_vars (base_args p)) f l).
Proof.
  intros [Hu He Hl _]. apply (run_assign _ _ "initdb_args"), parse_initdb_args.
  rewrite words_dq; [|rewrite !sall_app, (safe_dq _ Hu), (safe_dq _ He), (safe_dq _ Hl); done].
  unfold base_args. cbn [strings_join]. by rewrite !app_assoc_s.
Qed.

Lemma run_checksums p ws rest f l :
  ws <> [] ->
  Shell.run_lines false (checksum_lines p ++ rest) (state_of (args_vars ws) f l) =
  Shell.run_lines false rest (state_of (args_vars (ws ++ checksum_args p)) f l).
Proof.
  intros Hne. unfold checksum_lines, checksum_args. destruct (DataChecksums p); [|by rewrite app_nil_r].
  by apply (run_add_arg ws "--data-checksums").
Qed.

(** The directory of the write-ahead log is made before it is passed to initdb. *)
Lemma run_waldir T p ws rest f l :
  ws <> [] -> params_safe p ->
  observe (Shell.run_lines false (waldir_lines T p ++ rest) (state_of (args_vars ws) f l)) =
  let '(ok, f', l') := run_all (waldir_mkdir p) f in
  if ok then observe (Shell.run_lines false rest (state_of (args_vars (ws ++ waldir_args p)) f' (l ++ l')))
  else Some (false, f', l ++ l').
Proof.
  intros Hne [_ _ _ Hw]. unfold waldir_lines, waldir_mkdir, waldir_args.
  destruct (String.eqb_spec (WALDir p) "") as [E|E]; [cbn; by rewrite !app_nil_r|].
  change ([?a; ?b] ++ rest) with ([a] ++ b :: rest).
  rewrite (run_commands _ _ [Shell.Run ["mkdir"; "-p"; WALDir p]]) by (repeat constructor; by apply parse_mkdir).
  cbn [flat_map command_of app]. destruct (run_all _ f) as [[[] f'] l']; [|done].
  rewrite (run_add_arg ws ("--waldir=" +:+ WALDir p)); [done..|]. by rewrite sall_app, (safe_dq _ Hw).
Qed.

Lemma safe_newline s : sall Shell.safe s = true -> sall (neqc "010") s = true.
Proof.
  apply sall_impl. intros c Hc. unfold neqc. destruct (Ascii.eqb_spec "010" c) as [<-|]; [discriminate Hc|done].
Qed.

Lemma script_lines T p :
  params_safe p ->
  split_byte "010" (BootstrapScript T p) =
  head_lines T ++ args_line p :: checksum_lines p ++ waldir_lines T p ++ initdb_line :: "fi" :: tail_lines ++ [""].
Proof.
  intros [Hu He Hl Hw]. unfold BootstrapScript. rewrite Shell.write_lines_split.
  { rewrite <- !app_assoc. cbn [app]. rewrite <- !app_assoc. done. }
  apply Forall_app. split; [unfold head_lines; rewrite Quote_safe by done; repeat constructor|].
  constructor; [unfold args_line, dq; by rewrite !sall_app, (safe_newline _ Hu), (safe_newline _ He), (safe_newline _ Hl)|].
  apply Forall_app. split; [unfold checksum_lines; case_match; repeat constructor|].
  apply Forall_app. split; [|repeat constructor].
  unfold waldir_lines. case_match; [constructor|]. rewrite Quote_safe by done. unfold dq.
  repeat constructor; by rewrite !sall_app, (safe_newline _ Hw).
Qed.

(** The lines after the conditional, in any environment that has PGDATA. *)
Lemma run_tail (m : gmap string string) raws xs f l :
  m !! "PGDATA" = Some PGDataDir ->
  Forall2 (fun raw x => Shell.parse_line (Shell.lookup_in m) raw = Some x /\ simple x = true) raws xs ->
  observe (Shell.run_lines false (raws ++ tail_lines ++ [""]) (state_of m f l)) =
  let '(ok, f', l') := run_all (flat_map command_of xs ++ finish) f in Some (ok, f', l ++ l').
Proof.
  intros HP Hx.
  assert (Ht : Forall2 (fun raw x => Shell.parse_line (Shell.lookup_in m) raw = Some x /\ simple x = true)
    (tail_lines ++ [""]) [Shell.Skip; Shell.Skip; Shell.Run (nth 0 finish []); Shell.Run (nth 1 finish []);
                          Shell.Skip; Shell.Run (nth 2 finish []); Shell.Skip]).
  { assert (HP' : Shell.lookup_in m "PGDATA" = Some PGDataDir) by done. revert HP'. clear.
    generalize (Shell.lookup_in m) as env. intros env HP.
    repeat constructor; parse_const HP. }
  rewrite <- (app_nil_r (raws ++ tail_lines ++ [""])).
  rewrite (run_commands m _ _ [] f l (Forall2_app Hx Ht)).
  rewrite flat_map_app. change (flat_map command_of [_; _; _; _; _; _; _]) with finish.
  by destruct (run_all _ f) as [[[] f'] l'].
Qed.

(** A line that stands for [x], as one step of the evaluator. *)
Lemma run_line raw x rest (st : Shell.state F) :
  Shell.parse_line (Shell.lookup_in (Shell.vars st)) raw = Some x ->
  Shell.run_lines false (raw :: rest) st =
  match x with
  | Shell.Skip | Shell.Fi => Shell.run_lines false rest st
  | Shell.Assign n v =>
      Shell.run_lines false rest {| Shell.vars := <[n := v]> (Shell.vars st); Shell.strict := Shell.strict st;
                                    Shell.files := Shell.files st; Shell.started := Shell.started st |}
  | Shell.IfMissing q => Shell.run_lines (Shell.file_exists (Shell.files st) q) rest st
  | Shell.SetStrict =>
      Shell.run_lines false rest {| Shell.vars := Shell.vars st; Shell.strict := true;
                                    Shell.files := Shell.files st; Shell.started := Shell.started st |}
  | Shell.Run argv =>
      let '(code, st') := Shell.step_run argv st in
      if (code =? 0) || negb (Shell.strict st) then Shell.run_lines false rest st' else Shell.Failed st'
  end.
Proof. intros E. cbn [Shell.run_lines]. rewrite E. by destruct x. Qed.

Definition if_line : string := "if [ ! -f " +:+ dq "${PGDATA}/PG_VERSION" +:+ " ]; then".
Definition prepare_lines : list string :=
  ["mkdir -p " +:+ dq "${PGDATA}"; "chmod 0700 " +:+ dq "${PGDATA}"; "";
   "# Only run initdb if PGDATA is not already initialised"].

Lemma run_head T rest f :
  Shell.run_lines false (head_lines T ++ rest)
    {| Shell.vars := ∅; Shell.strict := false; Shell.files := f; Shell.started := [] |} =
  Shell.run_lines false (prepare_lines ++ if_line :: rest) (state_of pgdata_vars f []).
Proof.
  unfold head_lines. rewrite Quote_safe by done. cbn [app].
  rewrite (run_line _ Shell.Skip) by (vm_compute; reflexivity).
  rewrite (run_line _ Shell.SetStrict) by (vm_compute; reflexivity).
  rewrite (run_line _ Shell.Skip) by (vm_compute; reflexivity).
  rewrite (run_line _ (Shell.Assign "PGDATA" PGDataDir)) by (vm_compute; reflexivity).
  rewrite (run_line _ Shell.Skip) by (vm_compute; reflexivity).
  rewrite (run_line _ Shell.Skip) by (vm_compute; reflexivity).
  reflexivity.
Qed.

(** The script does what the bootstrap says, on every file system and for every behaviour
    of the programs. *)
Lemma bootstrap_script_runs T p f :
  params_safe p -> observe (Shell.run_script (BootstrapScript T p) f) = Some (bootstrap p f).
Proof.
  intros Hp. unfold Shell.run_script. rewrite script_lines by done.
  rewrite run_head.
  rewrite (run_commands pgdata_vars _ [Shell.Run (nth 0 prepare []); Shell.Run (nth 1 prepare []); Shell.Skip; Shell.Skip])
    by (repeat constructor; vm_compute; reflexivity).
  change (flat_map command_of _) with prepare. unfold bootstrap.
  destruct (run_all prepare f) as [[[] f1] l1]; [|done]. rewrite app_nil_l.
  rewrite (run_line _ (Shell.IfMissing version_file)) by (vm_compute; reflexivity).
  change (Shell.files (state_of pgdata_vars f1 l1)) with f1.
  unfold initialise. destruct (Shell.file_exists f1 version_file).
  - replace (args_line p :: _) with ((args_line p :: checksum_lines p ++ waldir_lines T p ++ [initdb_line])
      ++ "fi" :: tail_lines ++ [""]) by (cbn [app]; rewrite <- !app_assoc; done).
    rewrite run_skipped.
    + rewrite (run_tail pgdata_vars [] []); [|done|constructor]. cbn [flat_map app].
      by destruct (run_all finish f1) as [[? ?] ?].
    + constructor; [done|]. repeat (apply Forall_app; split); [..|repeat constructor].
      * unfold checksum_lines. case_match; repeat constructor.
      * unfold waldir_lines. case_match; repeat constructor.
  - rewrite run_args, run_checksums, run_waldir by done. rewrite <- !app_assoc, run_all_app.
    destruct (run_all (waldir_mkdir p) f1) as [[[] f2] l2]; [|done].
    rewrite (run_tail _ [initdb_line; "fi"] [Shell.Run (initdb_argv p); Shell.Fi]).
    + cbn [flat_map command_of app]. destruct (run_all (initdb_argv p :: finish) f2) as [[? ?] ?]. by rewrite <- app_assoc.
    + done.
    + apply Forall2_cons. split; [split; [|done]|by repeat constructor]. unfold initdb_argv.
      replace (base_args p ++ checksum_args p ++ waldir_args p ++ ["-D"; PGDataDir])
        with ((base_args p ++ checksum_args p ++ waldir_args p) ++ ["-D"; PGDataDir]) by by rewrite <- !app_assoc.
      apply parse_initdb; [done|done|by apply safe_words|]. unfold Shell.lookup_in, args_vars. by rewrite lookup_insert_eq.
Qed.

(** Arguments of initdb that describe the cluster to create.  Others, such as [--version],
    [--help], [--show] and [--sync-only], make it succeed without creating one. *)
Definition describes_cluster (a : string) : Prop :=
  a = "--data-checksums" \/
  exists o v, o ∈ ["--username="; "--encoding="; "--locale="; "--waldir="] /\ a = o +:+ v.

Lemma describes_option o v :
  o ∈ ["--username="; "--encoding="; "--locale="; "--waldir="] -> describes_cluster (o +:+ v).
Proof. intros Ho. right. by exists o, v. Qed.

Lemma initdb_args_describe p : Forall describes_cluster (base_args p ++ checksum_args p ++ waldir_args p).
Proof.
  unfold base_args, checksum_args, waldir_args.
  repeat (apply Forall_app; split); repeat case_match;
    repeat (constructor; [first [by left | apply describes_option; set_solver]|]); constructor.
Qed.

(** What the script relies on: initdb, called to create a cluster, leaves a version file in
    its directory when it succeeds; making directories, changing modes and printing neither create nor remove
    regular files; a copy leaves every file but its target. *)
Class BootstrapPrograms : Prop := {
  initdb_creates : forall args d f f',
    Forall describes_cluster args ->
    Shell.run_program ("initdb" :: args ++ ["-D"; d]) f = (0, f') ->
    Shell.file_exists f' (d +:+ "/PG_VERSION") = true;
  same_files : forall cmd args f path,
    cmd ∈ ["mkdir"; "chmod"; "echo"] ->
    Shell.file_exists (Shell.run_program (cmd :: args) f).2 path = Shell.file_exists f path;
  copy_keeps : forall a b f path,
    b <> path -> Shell.file_exists f path = true -> Shell.file_exists (Shell.run_program ["cp"; a; b] f).2 path = true;
}.

Context `{!BootstrapPrograms}.

(** Commands that keep the version file keep it along a run. *)
Lemma run_all_keeps (P : F -> Prop) cmds f :
  Forall (fun argv => forall f, P f -> P (Shell.run_program argv f).2) cmds -> P f -> P (run_all cmds f).1.2.
Proof.
  intros Hc. revert f. induction Hc as [|argv cmds Ha _ IH]; intros f Hf; [done|]. cbn [run_all].
  specialize (Ha f Hf). destruct (Shell.run_program argv f) as [code f']. destruct (code =? 0); [|done].
  specialize (IH f' Ha). by destruct (run_all cmds f') as [[? ?] ?].
Qed.

Lemma run_all_started cmds f : Forall (fun a => a ∈ cmds) (run_all cmds f).2.
Proof.
  revert f. induction cmds as [|argv cmds IH]; intros f; [by constructor|]. cbn [run_all].
  destruct (Shell.run_program argv f) as [code f']. destruct (code =? 0); [|repeat constructor].
  specialize (IH f'). destruct (run_all cmds f') as [[? ?] l]. constructor; [constructor|].
  eapply Forall_impl; [exact IH|]. intros a Ha. by constructor.
Qed.

Lemma prepare_same f : Shell.file_exists (run_all prepare f).1.2 version_file = Shell.file_exists f version_file.
Proof.
  apply (run_all_keeps (fun g => Shell.file_exists g version_file = Shell.file_exists f version_file)); [|done].
  repeat constructor; intros g <-; apply same_files; set_solver.
Qed.

Lemma finish_keeps f : Shell.file_exists f version_file = true -> Shell.file_exists (run_all finish f).1.2 version_file = true.
Proof.
  apply (run_all_keeps (fun g => Shell.file_exists g version_file = true)).
  repeat constructor; intros g Hg; [by apply copy_keeps..|].
  rewrite same_files; [done|set_solver].
Qed.

Lemma initialise_creates p f :
  Shell.file_exists f version_file = false ->
  let '(ok, f', l) := run_all (waldir_mkdir p ++ [initdb_argv p]) f in
  ok = true -> Shell.file_exists f' version_file = true /\ initdb_argv p ∈ l.
Proof.
  intros Hf. rewrite run_all_app. destruct (run_all (waldir_mkdir p) f) as [[[] f1] l1]; [|done]. cbn [run_all].
  destruct (Shell.run_program (initdb_argv p) f1) as [code f2] eqn:E. destruct (Z.eqb_spec code 0) as [->|]; [|done].
  intros _. split; [|set_solver]. unfold initdb_argv in E. rewrite !app_assoc in E.
  eapply initdb_creates; [|exact E]. rewrite <- app_assoc. apply initdb_args_describe.
Qed.

(** Every call of initdb has the intended arguments and happens without a version file. *)
Lemma bootstrap_calls p g :
  Forall (fun a => head a = Some "initdb" -> a = initdb_argv p /\ Shell.file_exists g version_file = false)
    (bootstrap p g).2.
Proof.
  unfold bootstrap. pose proof (prepare_same g) as Hg. pose proof (run_all_started prepare g) as H1.
  assert (H1' : Forall (fun a => head a = Some "initdb" -> a = initdb_argv p /\ Shell.file_exists g version_file = false)
                  (run_all prepare g).2).
  { eapply Forall_impl; [exact H1|]. intros a Ha. repeat (apply elem_of_cons in Ha as [->|Ha]; [done|]). by apply not_elem_of_nil in Ha. }
  destruct (run_all prepare g) as [[[] f1] l1]; [|done]. cbn [fst snd] in *.
  pose proof (run_all_started (initialise p f1 ++ finish) f1) as H2.
  destruct (run_all (initialise p f1 ++ finish) f1) as [[ok2 f2] l2]. apply Forall_app. split; [done|].
  eapply Forall_impl; [exact H2|]. intros a Ha Hd. rewrite <- Hg. revert Ha Hd. cbn [snd]. unfold initialise, waldir_mkdir, finish.
  destruct (Shell.file_exists f1 version_file); repeat case_match; cbn [app];
    intros Ha; repeat (apply elem_of_cons in Ha as [->|Ha]; [done|]); by apply not_elem_of_nil in Ha.
Qed.

(** A bootstrap that succeeds leaves the version file. *)
Lemma bootstrap_creates p g :
  (bootstrap p g).1.1 = true ->
  Shell.file_exists (bootstrap p g).1.2 version_file = true /\
  (Shell.file_exists g version_file = false -> initdb_argv p ∈ (bootstrap p g).2).
Proof.
  unfold bootstrap. pose proof (prepare_same g) as Hg.
  destruct (run_all prepare g) as [[[] f1] l1]; [|done]. cbn [fst snd] in Hg. unfold initialise. rewrite run_all_app.
  destruct (Shell.file_exists f1 version_file) eqn:E1.
  - cbn [run_all]. pose proof (finish_keeps f1 E1) as Hf. destruct (run_all finish f1) as [[ok2 f2] l2].
    cbn. intros _. split; [done|]. rewrite <- Hg. done.
  - pose proof (initialise_creates p f1 E1) as Hi.
    destruct (run_all (waldir_mkdir p ++ [initdb_argv p]) f1) as [[[] f2] l2]; [|done].
    destruct (Hi eq_refl) as [Hf2 Hin]. pose proof (finish_keeps f2 Hf2) as Hf.
    destruct (run_all finish f2) as [[ok3 f3] l3]. cbn in *. intros _. split; [done|]. intros _. set_solver.
Qed.

(** C20: The bootstrap script initialises a data directory once.  For parameters made of
    bytes without a meaning to the shell, the script runs to an end on every file system;
    every call of initdb it makes has exactly one argument per parameter and the data
    directory last; it calls initdb only if the version file is missing at the start; a run
    that succeeds leaves the version file, having called initdb if it was missing, so that
    a later run does not call initdb again. *)
Theorem bootstrap_initialises_once T p f :
  params_safe p ->
  exists ok f' l, observe (Shell.run_script (BootstrapScript T p) f) = Some (ok, f', l) /\
    Forall (fun a => head a = Some "initdb" -> a = initdb_argv p /\ Shell.file_exists f version_file = false) l /\
    (ok = true -> Shell.file_exists f' version_file = true /\
                  (Shell.file_exists f version_file = false -> initdb_argv p ∈ l)) /\
    (ok = true -> exists ok2 f2 l2, observe (Shell.run_script (BootstrapScript T p) f') = Some (ok2, f2, l2) /\
                  Forall (fun a => head a <> Some "initdb") l2).
Proof.
  intros Hp.
  exists (bootstrap p f).1.1, (bootstrap p f).1.2, (bootstrap p f).2.
  split; [rewrite bootstrap_script_runs by done; by destruct (bootstrap p f) as [[? ?] ?]|].
  split; [apply bootstrap_calls|]. split; [apply bootstrap_creates|]. intros Hok. destruct (bootstrap_creates p f Hok) as [Hv _].
  exists (bootstrap p (bootstrap p f).1.2).1.1, (bootstrap p (bootstrap p f).1.2).1.2, (bootstrap p (bootstrap p f).1.2).2.
  split; [rewrite bootstrap_script_runs by done; by destruct (bootstrap p (bootstrap p f).1.2) as [[? ?] ?]|].
  eapply Forall_impl; [apply bootstrap_calls|]. intros a Ha Hd. destruct (Ha Hd) as [_ Hx]. congruence.
Qed.

End Bootstrap.

(** ** A concrete file system *)

(** Files by their path; every program succeeds. *)
Definition fs_run (argv : list string) (f : gset string) : Z * gset string :=
  match argv with
  | ["cp"; _; b] => (0, {[ b ]} ∪ f)
  | "initdb" :: _ => (0, match last argv with Some d => {[ d +:+ "/PG_VERSION" ]} ∪ f | None => f end)
  | _ => (0, f)
  end.

#[local] Instance fs_programs : Shell.Programs (gset string) :=
  {| Shell.file_exists := fun f path => bool_decide (path ∈ f); Shell.run_program := fs_run |}.

#[local] Instance fs_laws : BootstrapPrograms (F := gset string).
Proof.
  constructor.
  - intros args d f f' _. cbn. rewrite app_comm_cons, last_app. cbn. intros [= <-]. apply bool_decide_eq_true. set_solver.
  - intros cmd args f path Hc. apply list_elem_of_In in Hc. cbn in Hc. by destruct Hc as [<-|[<-|[<-|[]]]].
  - intros a b f path Hne Hf. cbn in *. apply bool_decide_eq_true. apply bool_decide_eq_true in Hf. set_solver.
Qed.

Definition init_sample : InitParams :=
  {| PostgresVersion := 16; DatabaseName := "shop"; SuperuserName := "postgres"; ReplicationUser := "replicator";
     Locale := "en_US.UTF-8"; Encoding := "UTF8"; DataChecksums := true; WALDir := PGWALDir |}.

Lemma bootstrap_initialises_once_witness :
  exists ok f' l, observe (Shell.run_script (BootstrapScript ascii_tables init_sample) (∅ : gset string)) = Some (ok, f', l) /\
    ok = true /\ initdb_argv init_sample ∈ l.
Proof.
  destruct (bootstrap_initialises_once ascii_tables init_sample (∅ : gset string)) as (ok & f' & l & E & _ & Hok & _).
  { constructor; vm_compute; reflexivity. }
  exists ok, f', l. split; [exact E|].
  assert (H : ok = true).
  { assert (C : (fun r => r.1.1) <$> observe (Shell.run_script (BootstrapScript ascii_tables init_sample) (∅ : gset string))
                = Some true) by (vm_compute; reflexivity).
    rewrite E in C. injection C as C. exact C. }
  split; [exact H|]. apply (Hok H). vm_compute. reflexivity.
Defined.

(** A superuser name with a space, which the script puts into an unquoted expansion, is
    split: initdb gets the name up to the space, and the rest as an argument of its own. *)
Theorem spaced_user_split :
  (fun r => (r.1.1, r.2)) <$> observe (Shell.run_script (BootstrapScript ascii_tables
      {| PostgresVersion := 16; DatabaseName := "shop"; SuperuserName := "db admin"; ReplicationUser := "replicator";
         Locale := "C"; Encoding := "UTF8"; DataChecksums := false; WALDir := "" |}) (∅ : gset string)) =
  Some (true, prepare ++ [["initdb"; "--username=db"; "admin"; "--encoding=UTF8"; "--locale=C"; "-D"; PGDataDir]] ++ finish).
Proof. vm_compute. reflexivity. Qed.

(** ** The SQL after the first start *)

Lemma lex_ident_doubled s rest :
  User.lex User.Ident (replace_byte dquote (String dquote (str1 dquote)) s +:+ str1 dquote +:+ rest) =
  User.prepend (replace_byte dquote (String dquote (str1 dquote)) s +:+ str1 dquote) (User.lex User.Top rest).
Proof.
  induction s as [|c s IH]; [done|]. cbn [replace_byte].
  destruct (Ascii.eqb_spec dquote c) as [<-|Hne].
  - rewrite !app_assoc_s, User.prepend_app, <- IH.
    set (r := replace_byte dquote _ s +:+ _). change (String dquote (str1 dquote)) with (str1 dquote +:+ str1 dquote).
    by rewrite User.prepend_app, app_assoc_s.
  - change (String c ?x) with (str1 c +:+ x). rewrite !app_assoc_s, User.prepend_app, <- IH, str1_app. cbn [User.lex].
    destruct (Ascii.eqb_spec c dquote); [congruence|done].
Qed.

Lemma lexes_quoteIdent s : User.lexes (quoteIdent s).
Proof.
  intros rest. unfold quoteIdent. rewrite !app_assoc_s, User.prepend_app, <- lex_ident_doubled. by rewrite str1_app.
Qed.

Lemma lexes_quoteLiteral s : User.lexes (quoteLiteral s).
Proof. apply User.lexes_literal. Qed.

Lemma lex_comment s rest :
  sall (neqc "010") s = true ->
  User.lex User.Comment (s +:+ newline +:+ rest) = User.prepend (s +:+ newline) (User.lex User.Top rest).
Proof.
  induction s as [|c s IH]; [done|]. cbn [sall]. intros H. apply andb_prop in H as [Hc Hs].
  change (String c s) with (str1 c +:+ s). rewrite !app_assoc_s, User.prepend_app, <- IH, str1_app by done.
  cbn [User.lex]. destruct (Z.eqb_spec (byte c) 10) as [E|]; [|done].
  apply (byte_inj c "010") in E as ->. done.
Qed.

Lemma lexes_banner a : User.lexes a -> User.lexes (banner +:+ a).
Proof.
  apply User.lexes_app. intros s.
  change (User.prepend "--" (User.lex User.Comment (" Managed by athos-kubernetes - do not edit" +:+ newline +:+ newline +:+ s)) =
    User.prepend ("--" +:+ " Managed by athos-kubernetes - do not edit" +:+ newline +:+ newline) (User.lex User.Top s)).
  by rewrite lex_comment, (User.lexes_plain newline), <- !User.prepend_app by done.
Qed.

Ltac sql_lexes :=
  repeat first [apply lexes_quoteIdent | apply lexes_quoteLiteral | (apply User.lexes_plain; reflexivity) | apply User.lexes_app].

(** Injection safety of the bootstrap SQL: whatever the names, the password, the
    encoding and the locale contain, a PostgreSQL lexer finds exactly the creation of the
    replication user, and of the application database unless it is the maintenance
    database or named after the superuser; and the quoted names and values read back. *)
Theorem PostInitSQL_statements p password :
  User.sql_statements (PostInitSQL p password) =
    (banner +:+ create_user p password) :: (if own_database p then [create_database p] else []) /\
  (forall rest, SqlEscape.starts_with dquote rest = false ->
     SqlEscape.read_token dquote (quoteIdent (DatabaseName p) +:+ rest) = Some (DatabaseName p, rest)) /\
  (forall rest, SqlEscape.starts_with squote rest = false ->
     SqlEscape.read_token squote (quoteLiteral password +:+ rest) = Some (password, rest)).
Proof.
  split_and!; [|intros; by apply SqlEscape.read_token_quoted..].
  assert (H1 : User.statement_ok (banner +:+ create_user p password)).
  { split; [|done]. apply lexes_banner. unfold create_user. sql_lexes. }
  assert (H2 : User.statement_ok (create_database p)) by (split; [unfold create_database; sql_lexes|done]).
  assert (Hd : User.sql_statements (if own_database p then create_database p +:+ ";" +:+ newline else "") =
               if own_database p then [create_database p] else []).
  { destruct (own_database p); [|done]. rewrite <- (app_nil_r_s (create_database p +:+ ";" +:+ newline)), !app_assoc_s.
    change (";" +:+ newline +:+ "") with (User.eos +:+ ""). by rewrite User.sql_statements_cons. }
  unfold PostInitSQL. rewrite <- Hd, <- User.sql_statements_cons by done. unfold User.eos. by rewrite !app_assoc_s.
Qed.

End Initialize.
