(* ===== verification/Events.v ===== *)
(** * Event reasons and messages (internal/events/events.go)

    The package formats 32-bit integers by hand, into a buffer of 20 bytes; the loop is
    compared with [strconv.Itoa]. *)

From Stdlib Require Import ZArith Lia List Bool Ascii.
From stdpp Require Import base list strings.
From S2P Require Import Prelude GoStrings Images.

Local Open Scope Z_scope.

Module Events.

Definition EventReasonCreated : string := "Created".
Definition EventReasonUpdated : string := "Updated".
Definition EventReasonDeleted : string := "Deleted".
Definition EventReasonFailed : string := "Failed".
Definition EventReasonPaused : string := "Paused".
Definition EventReasonResumed : string := "Resumed".
Definition EventReasonUpgradeStarted : string := "UpgradeStarted".
Definition EventReasonUpgradeCompleted : string := "UpgradeCompleted".
Definition EventReasonUpgradeFailed : string := "UpgradeFailed".
Definition EventReasonBackupStarted : string := "BackupStarted".
Definition EventReasonBackupCompleted : string := "BackupCompleted".
Definition EventReasonBackupFailed : string := "BackupFailed".
Definition EventReasonFailoverStarted : string := "FailoverStarted".
Definition EventReasonFailoverCompleted : string := "FailoverCompleted".
Definition EventReasonSwitchoverStarted : string := "SwitchoverStarted".
Definition EventReasonSwitchoverCompleted : string := "SwitchoverCompleted".
Definition EventReasonPasswordRotated : string := "PasswordRotated".
Definition EventReasonCertificateRenewed : string := "CertificateRenewed".
Definition EventTypeNormal : string := "Normal".
Definition EventTypeWarning : string := "Warning".

Definition buf_len : nat := 20.

(** [pos--; buf[pos] = c]: [tail] is [buf[pos:]]; [None] is the panic of an index below
    the buffer. *)
Definition put_byte (c : ascii) (tail : string) : option string :=
  if (String.length tail <? buf_len)%nat then Some (String c tail) else None.

(** The loop [for n > 0]: division and remainder truncate, the digit is narrowed to a
    byte.  A positive 32-bit number has at most ten digits. *)
Fixpoint itoa_loop (fuel : nat) (n : Z) (tail : string) : option string :=
  match fuel with
  | O => None
  | S fuel' =>
      if 0 <? n then
        match put_byte (chr ((48 + Z.rem n 10) mod 256)) tail with
        | Some tail' => itoa_loop fuel' (Z.quot n 10) tail'
        | None => None
        end
      else Some tail
  end.

Definition itoa32 (n : Z) : option string :=
  if n =? 0 then Some "0"
  else
    let neg := n <? 0 in
    let n := if neg then int32 (- n) else n in
    match itoa_loop 11 n "" with
    | Some tail => if neg then put_byte "-" tail else Some tail
    | None => None
    end.

Definition ReconcileMessage (kind name action : string) : string := kind +:+ " " +:+ name +:+ " " +:+ action.

Definition UpgradeMessage (fromVersion toVersion : Z) : option string :=
  match itoa32 fromVersion, itoa32 toVersion with
  | Some a, Some b => Some ("PostgreSQL upgrade from version " +:+ a +:+ " to " +:+ b)
  | _, _ => None
  end.

Definition BackupMessage (backupName : string) : string := "Backup " +:+ backupName.
Definition FailoverMessage (fromPod toPod : string) : string := "Failover from " +:+ fromPod +:+ " to " +:+ toPod.

(** ** Lemmas *)

(** The digits do not depend on the fuel once it covers the number. *)
Lemma digits_go_enough k : forall k' n acc,
  0 <= n -> n < 10 ^ Z.of_nat k -> n < 10 ^ Z.of_nat k' -> (0 < k)%nat -> (0 < k')%nat ->
  digits_go k n acc = digits_go k' n acc.
Proof.
  induction k as [|k IH]; intros [|k'] n acc Hn H1 H2 Hk Hk'; try lia. cbn [digits_go].
  destruct (Z.ltb_spec n 10); [done|].
  rewrite Nat2Z.inj_succ, Z.pow_succ_r in H1, H2 by lia.
  assert (Hp : forall j, n < 10 * 10 ^ Z.of_nat j -> n / 10 < 10 ^ Z.of_nat j)
    by (intros j Hj; apply Z.div_lt_upper_bound; lia).
  assert (Hz : forall j, n < 10 * 10 ^ Z.of_nat j -> (0 < j)%nat) by (intros [|j] Hj; [cbn in Hj|]; lia).
  apply IH; auto. apply Z.div_pos; lia.
Qed.

Lemma digits_go_len k n acc :
  String.length (digits_go k n acc) = (String.length acc + (String.length (digits_go k n "")))%nat.
Proof.
  revert n acc. induction k as [|k IH]; intros n acc; [cbn; lia|]. cbn [digits_go].
  destruct (n <? 10); [cbn; lia|]. rewrite IH, (IH _ (String _ "")). cbn. lia.
Qed.

Lemma digits_go_short k n acc : (String.length (digits_go k n acc) <= String.length acc + k)%nat.
Proof.
  revert n acc. induction k as [|k IH]; intros n acc; [cbn; lia|]. cbn [digits_go].
  destruct (n <? 10); [cbn; lia|]. specialize (IH (n / 10) (String (chr (48 + n `mod` 10)) acc)). cbn in IH. lia.
Qed.

Lemma itoa_loop_digits k : forall n acc,
  0 < n < 10 ^ Z.of_nat k -> (String.length acc + k <= buf_len)%nat ->
  itoa_loop (S k) n acc = Some (digits_go k n acc).
Proof.
  induction k as [|k IH]; intros n acc Hn Hl; [cbn in Hn; lia|].
  cbn [itoa_loop digits_go]. destruct (Z.ltb_spec 0 n) as [_|]; [|lia].
  pose proof (Z.mod_pos_bound n 10 eq_refl) as Hd.
  rewrite Z.rem_mod_nonneg, Z.quot_div_nonneg by lia. rewrite (Z.mod_small (48 + n mod 10)) by lia.
  unfold put_byte. destruct (Nat.ltb_spec (String.length acc) buf_len); [|lia].
  rewrite Nat2Z.inj_succ, Z.pow_succ_r in Hn by lia.
  destruct (Z.ltb_spec n 10).
  - rewrite Z.div_small by lia. by destruct k.
  - apply IH; [|cbn; lia]. split; [apply Z.div_str_pos; lia|apply Z.div_lt_upper_bound; lia].
Qed.

Lemma itoa_loop_itoa n : 0 < n <= max_int32 -> itoa_loop 11 n "" = Some (digits n).
Proof.
  intros Hn. unfold max_int32 in Hn. change 11%nat with (S 10). rewrite itoa_loop_digits.
  - f_equal. apply digits_go_enough; [lia|change (10 ^ Z.of_nat 10) with 10000000000; lia|apply digits_fuel; lia|lia|lia].
  - change (10 ^ Z.of_nat 10) with 10000000000. lia.
  - unfold buf_len. cbn. lia.
Qed.

(** The hand-written conversion agrees with [strconv.Itoa] on every 32-bit integer but the
    least one, never runs past its buffer, and yields a lone minus sign on the least one,
    whose negation overflows. *)
Theorem itoa32_spec n :
  in_int32 n = true -> itoa32 n = Some (if n =? min_int32 then "-" else itoa n).
Proof.
  intros Hn. unfold in_int32 in Hn. breflect. unfold itoa32, itoa.
  destruct (Z.eqb_spec n 0) as [->|Hz]; [done|]. destruct (Z.eqb_spec n min_int32) as [->|Hm]; [done|].
  unfold min_int32, max_int32 in *. destruct (Z.ltb_spec n 0).
  - rewrite int32_id by (unfold in_int32, min_int32, max_int32; lia).
    rewrite itoa_loop_itoa by (unfold max_int32; lia). unfold put_byte.
    pose proof (digits_go_short 10 (- n) "") as Hs.
    assert (E : digits (- n) = digits_go 10 (- n) "").
    { symmetry. apply digits_go_enough; [lia|change (10 ^ Z.of_nat 10) with 10000000000; lia|apply digits_fuel; lia|lia|lia]. }
    rewrite E. destruct (Nat.ltb_spec (String.length (digits_go 10 (- n) "")) buf_len) as [_|Hge]; [done|].
    cbn [String.length] in Hs. unfold buf_len in Hge. lia.
  - rewrite itoa_loop_itoa by (unfold max_int32; lia). done.
Qed.

Lemma itoa32_spec_witness : itoa32 (-120034) = Some "-120034".
Proof. apply (itoa32_spec (-120034)). vm_compute. reflexivity. Defined.

Lemma itoa_no_space z : sall (neqc " ") (itoa z) = true.
Proof.
  unfold itoa. destruct (Z.ltb_spec z 0); [rewrite sall_app; apply andb_true_intro; split; [done|]|];
    (apply sall_digit_neq; [done|]; apply digits_all; lia).
Qed.

(** The message of an upgrade names both versions: it exists, and upgrades between
    different versions have different messages. *)
Theorem UpgradeMessage_names a b a' b' :
  in_int32 a = true -> in_int32 b = true -> in_int32 a' = true -> in_int32 b' = true ->
  (exists m, UpgradeMessage a b = Some m) /\
  (0 <= a -> 0 <= b -> 0 <= a' -> 0 <= b' -> UpgradeMessage a b = UpgradeMessage a' b' -> a = a' /\ b = b').
Proof.
  intros Ha Hb Ha' Hb'. unfold UpgradeMessage. rewrite !itoa32_spec by done. split; [eauto|].
  intros Ha0 Hb0 Ha0' Hb0'.
  assert (Hm : forall z, 0 <= z -> (z =? min_int32) = false) by (unfold min_int32; intros z Hz; apply Z.eqb_neq; lia).
  rewrite !Hm by done. intros [= E].
  assert (E' : split_first " " (itoa a +:+ String " " ("to " +:+ itoa b)) =
               split_first " " (itoa a' +:+ String " " ("to " +:+ itoa b'))) by exact (f_equal (split_first " ") E).
  rewrite !split_first_app in E' by apply itoa_no_space. injection E' as E1 E2.
  split; by apply itoa_inj.
Qed.

Lemma UpgradeMessage_names_witness :
  exists m, UpgradeMessage 15 16 = Some m.
Proof. apply (UpgradeMessage_names 15 16 0 0); reflexivity. Defined.

End Events.
