(* ===== verification/Metrics.v ===== *)
(** * Operator metrics (internal/metrics/metrics.go)

    The collectors the package declares and the helpers that record events.  The
    Prometheus client is not part of the repository: it is the class [Collectors] of
    operations with the class [CollectorLaws] of their documented behaviour. *)

From Stdlib Require Import ZArith Lia List Bool.
From stdpp Require Import base list strings gmap.
From S2P Require Import Prelude GoStrings.

Local Open Scope Z_scope.

Module Metrics.

(** Buckets of a histogram in seconds; [None] stands for the defaults of the client. *)
Inductive Kind := Counter | Gauge | Histogram (buckets : option (list Z)).

Record Vec := {
  Namespace : string;
  Subsystem : string;
  Name : string;
  Help : string;
  kind : Kind;
  labelNames : list string;
}.

Definition ReconcileTotal : Vec :=
  {| Namespace := "athos"; Subsystem := "controller"; Name := "reconcile_total";
     Help := "Total number of reconcile loop invocations per controller and result.";
     kind := Counter; labelNames := ["controller"; "result"] |}.

Definition ReconcileDuration : Vec :=
  {| Namespace := "athos"; Subsystem := "controller"; Name := "reconcile_duration_seconds";
     Help := "Duration of reconcile loop invocations in seconds.";
     kind := Histogram None; labelNames := ["controller"] |}.

Definition ClustersTotal : Vec :=
  {| Namespace := "athos"; Subsystem := "cluster"; Name := "total";
     Help := "Number of PostgresCluster objects managed by this operator, by phase.";
     kind := Gauge; labelNames := ["phase"] |}.

Definition InstancesReady : Vec :=
  {| Namespace := "athos"; Subsystem := "cluster"; Name := "instances_ready";
     Help := "Number of ready PostgreSQL instances per cluster.";
     kind := Gauge; labelNames := ["cluster"; "namespace"] |}.

Definition BackupsTotal : Vec :=
  {| Namespace := "athos"; Subsystem := "backup"; Name := "total";
     Help := "Total backup attempts per cluster and terminal status.";
     kind := Counter; labelNames := ["cluster"; "namespace"; "status"] |}.

Definition BackupDuration : Vec :=
  {| Namespace := "athos"; Subsystem := "backup"; Name := "duration_seconds";
     Help := "Duration of backup jobs in seconds.";
     kind := Histogram (Some [30; 60; 120; 300; 600; 1200; 3600]); labelNames := ["cluster"; "namespace"] |}.

Definition UpgradesTotal : Vec :=
  {| Namespace := "athos"; Subsystem := "upgrade"; Name := "total";
     Help := "Total PostgreSQL version upgrade attempts and outcomes.";
     kind := Counter; labelNames := ["cluster"; "namespace"; "result"] |}.

Definition FailoversTotal : Vec :=
  {| Namespace := "athos"; Subsystem := "ha"; Name := "failovers_total";
     Help := "Total failover events by trigger type (manual, automatic).";
     kind := Counter; labelNames := ["cluster"; "namespace"; "trigger"] |}.

Definition PasswordRotationsTotal : Vec :=
  {| Namespace := "athos"; Subsystem := "security"; Name := "password_rotations_total";
     Help := "Total password rotation events.";
     kind := Counter; labelNames := ["cluster"; "namespace"] |}.

(** The collectors in the order of [init]. *)
Definition all_vecs : list Vec :=
  [ReconcileTotal; ReconcileDuration; ClustersTotal; InstancesReady; BackupsTotal; BackupDuration;
   UpgradesTotal; FailoversTotal; PasswordRotationsTotal].

(** The full name under which a collector is exported. *)
Definition fqName (v : Vec) : string := Namespace v +:+ "_" +:+ Subsystem v +:+ "_" +:+ Name v.

(** ** The Prometheus client *)

(** Operations on collectors; [None] is a panic. *)
Class Collectors (W : Type) := {
  MustRegister : Vec -> W -> option W;
  Inc : Vec -> list string -> W -> option W;
  Set_ : Vec -> list string -> Z -> W -> option W;
  value : W -> string -> list string -> Z;
  registered : W -> gset string;
}.

(** [utf8.ValidString]: no byte decodes to an error of width one. *)
Definition ValidString (s : string) : bool := forallb (fun r => negb ((r.1 =? RuneError) && (String.length r.2 =? 1)%nat)) (runes s).

(** Label values the client accepts for a collector: one per label, valid UTF-8. *)
Definition labels_ok (v : Vec) (lvs : list string) : Prop :=
  length lvs = length (labelNames v) /\ Forall (fun l => ValidString l = true) lvs.

#[export] Instance labels_ok_dec v lvs : Decision (labels_ok v lvs).
Proof. unfold labels_ok. apply _. Defined.

(** Integers a float64 represents exactly. *)
Definition exact_limit : Z := 2 ^ 53.

(** Registering a collector panics when its name is taken; the label values of a counter or
    gauge panic when they are too many, too few or not valid UTF-8. *)
Class CollectorLaws (W : Type) `{Collectors W} : Prop := {
  register_spec : forall v w, v ∈ all_vecs ->
    MustRegister v w = None <-> fqName v ∈ registered w;
  register_adds : forall v w w', MustRegister v w = Some w' ->
    registered w' = {[ fqName v ]} ∪ registered w /\ forall n l, value w' n l = value w n l;
  inc_panics : forall v lvs w, kind v = Counter -> Inc v lvs w = None <-> ~ labels_ok v lvs;
  inc_adds : forall v lvs w w', kind v = Counter -> Inc v lvs w = Some w' ->
    (0 <= value w (fqName v) lvs < exact_limit -> value w' (fqName v) lvs = value w (fqName v) lvs + 1) /\
    (forall n l, (n, l) <> (fqName v, lvs) -> value w' n l = value w n l) /\ registered w' = registered w;
  set_panics : forall v lvs z w, kind v = Gauge -> Set_ v lvs z w = None <-> ~ labels_ok v lvs;
  set_stores : forall v lvs z w w', kind v = Gauge -> Set_ v lvs z w = Some w' ->
    (- exact_limit <= z <= exact_limit -> value w' (fqName v) lvs = z) /\
    (forall n l, (n, l) <> (fqName v, lvs) -> value w' n l = value w n l) /\ registered w' = registered w;
}.

Section Recording.
Context {W : Type} `{Collectors W}.

(** [init]. *)
Fixpoint register_all (vs : list Vec) (w : W) : option W :=
  match vs with
  | [] => Some w
  | v :: vs' => match MustRegister v w with Some w' => register_all vs' w' | None => None end
  end.
Definition init : W -> option W := register_all all_vecs.

Definition RecordReconcile (controller result : string) : W -> option W := Inc ReconcileTotal [controller; result].
Definition RecordBackup (cluster namespace status : string) : W -> option W := Inc BackupsTotal [cluster; namespace; status].
Definition RecordUpgrade (cluster namespace result : string) : W -> option W := Inc UpgradesTotal [cluster; namespace; result].
Definition RecordFailover (cluster namespace trigger : string) : W -> option W := Inc FailoversTotal [cluster; namespace; trigger].
Definition SetInstancesReady (cluster namespace : string) (count : Z) : W -> option W :=
  Set_ InstancesReady [cluster; namespace] count.
Definition SetClustersPhase (phase : string) (count : Z) : W -> option W := Set_ ClustersTotal [phase] count.

(** ** Histories *)

(** A call of one of the helpers. *)
Inductive call :=
  | CReconcile (controller result : string)
  | CBackup (cluster namespace status : string)
  | CUpgrade (cluster namespace result : string)
  | CFailover (cluster namespace trigger : string)
  | CInstances (cluster namespace : string) (count : Z)
  | CPhase (phase : string) (count : Z).

Definition perform (c : call) : W -> option W :=
  match c with
  | CReconcile a b => RecordReconcile a b
  | CBackup a b d => RecordBackup a b d
  | CUpgrade a b d => RecordUpgrade a b d
  | CFailover a b d => RecordFailover a b d
  | CInstances a b n => SetInstancesReady a b n
  | CPhase p n => SetClustersPhase p n
  end.

Fixpoint perform_all (cs : list call) (w : W) : option W :=
  match cs with
  | [] => Some w
  | c :: cs' => match perform c w with Some w' => perform_all cs' w' | None => None end
  end.

End Recording.

(** *** The specification: series as functions of the history *)

(** The series a call belongs to. *)
Definition series (c : call) : string * list string :=
  match c with
  | CReconcile a b => (fqName ReconcileTotal, [a; b])
  | CBackup a b d => (fqName BackupsTotal, [a; b; d])
  | CUpgrade a b d => (fqName UpgradesTotal, [a; b; d])
  | CFailover a b d => (fqName FailoversTotal, [a; b; d])
  | CInstances a b _ => (fqName InstancesReady, [a; b])
  | CPhase p _ => (fqName ClustersTotal, [p])
  end.

(** A counter counts its calls; a gauge holds the last value. *)
Definition after (c : call) (z : Z) : Z :=
  match c with CInstances _ _ n | CPhase _ n => n | _ => z + 1 end.

Definition series_value (start : Z) (s : string * list string) (cs : list call) : Z :=
  foldl (fun z c => if decide (series c = s) then after c z else z) start cs.

(** The text of a call is valid UTF-8, as the label values must be. *)
Definition well_encoded (c : call) : Prop := Forall (fun l => ValidString l = true) (series c).2.

(** Values that binary64 represents. *)
Definition representable (c : call) : Prop :=
  match c with CInstances _ _ n | CPhase _ n => - exact_limit <= n <= exact_limit | _ => True end.

Definition gauge_name (n : string) : bool := (n =? fqName InstancesReady)%string || (n =? fqName ClustersTotal)%string.

Section Refinement.
Context {W : Type} `{CollectorLaws W}.

Lemma inc_total v lvs w : kind v = Counter -> labels_ok v lvs -> exists w', Inc v lvs w = Some w'.
Proof. intros Hk Hl. destruct (Inc v lvs w) eqn:E; [eauto|]. by apply inc_panics in E. Qed.

Lemma set_total v lvs z w : kind v = Gauge -> labels_ok v lvs -> exists w', Set_ v lvs z w = Some w'.
Proof. intros Hk Hl. destruct (Set_ v lvs z w) eqn:E; [eauto|]. by apply set_panics in E. Qed.

(** A call panics exactly on ill-encoded text. *)
Lemma perform_panics c w : perform c w = None <-> ~ well_encoded c.
Proof.
  assert (Hl : forall v lvs, length lvs = length (labelNames v) ->
    ~ labels_ok v lvs <-> ~ Forall (fun l => ValidString l = true) lvs) by (unfold labels_ok; tauto).
  unfold well_encoded. destruct c; cbn [perform series snd].
  - unfold RecordReconcile. by rewrite inc_panics, Hl.
  - unfold RecordBackup. by rewrite inc_panics, Hl.
  - unfold RecordUpgrade. by rewrite inc_panics, Hl.
  - unfold RecordFailover. by rewrite inc_panics, Hl.
  - unfold SetInstancesReady. by rewrite set_panics, Hl.
  - unfold SetClustersPhase. by rewrite set_panics, Hl.
Qed.

(** No helper panics on well-encoded text, and a call changes its own series only. *)
Lemma perform_spec c w :
  representable c -> well_encoded c ->
  exists w', perform c w = Some w' /\ registered w' = registered w /\
    ((gauge_name (series c).1 = false -> 0 <= value w (series c).1 (series c).2 < exact_limit) ->
     value w' (series c).1 (series c).2 = after c (value w (series c).1 (series c).2)) /\
    (forall s, series c <> s -> value w' s.1 s.2 = value w s.1 s.2).
Proof.
  assert (Hi : forall v lvs, kind v = Counter -> labels_ok v lvs -> exists w', Inc v lvs w = Some w' /\
    registered w' = registered w /\
    (0 <= value w (fqName v) lvs < exact_limit -> value w' (fqName v) lvs = value w (fqName v) lvs + 1) /\
    (forall s, (fqName v, lvs) <> s -> value w' s.1 s.2 = value w s.1 s.2)).
  { intros v lvs Hk Hl. destruct (inc_total v lvs w Hk Hl) as [w' E]. exists w'.
    pose proof (inc_adds _ _ _ _ Hk E) as (H1 & H2 & H3).
    split_and!; try done. intros [n l] Hs. cbn. apply H2. congruence. }
  assert (Hs : forall v lvs z, kind v = Gauge -> labels_ok v lvs -> - exact_limit <= z <= exact_limit ->
    exists w', Set_ v lvs z w = Some w' /\ registered w' = registered w /\ value w' (fqName v) lvs = z /\
    (forall s, (fqName v, lvs) <> s -> value w' s.1 s.2 = value w s.1 s.2)).
  { intros v lvs z Hk Hl Hz. destruct (set_total v lvs z w Hk Hl) as [w' E]. exists w'.
    pose proof (set_stores _ _ _ _ _ Hk E) as (H1 & H2 & H3).
    split_and!; auto. intros [n l] Hn. cbn. apply H2. congruence. }
  intros Hr He. destruct c as [a b|a b d|a b d|a b d|a b n|p n].
  - destruct (Hi ReconcileTotal [a; b] eq_refl (conj eq_refl He)) as (w' & E & H1 & H2 & H3). exists w'. split_and!; auto.
  - destruct (Hi BackupsTotal [a; b; d] eq_refl (conj eq_refl He)) as (w' & E & H1 & H2 & H3). exists w'. split_and!; auto.
  - destruct (Hi UpgradesTotal [a; b; d] eq_refl (conj eq_refl He)) as (w' & E & H1 & H2 & H3). exists w'. split_and!; auto.
  - destruct (Hi FailoversTotal [a; b; d] eq_refl (conj eq_refl He)) as (w' & E & H1 & H2 & H3). exists w'. split_and!; auto.
  - destruct (Hs InstancesReady [a; b] n eq_refl (conj eq_refl He) Hr) as (w' & E & H1 & H2 & H3). exists w'. split_and!; auto.
  - destruct (Hs ClustersTotal [p] n eq_refl (conj eq_refl He) Hr) as (w' & E & H1 & H2 & H3). exists w'. split_and!; auto.
Qed.

(** C27: Recorded metrics refine the history of events.  Any sequence of calls of the
    recording helpers whose text is valid UTF-8 completes without a panic, provided the
    counters it increments start at or above zero and stay within 2^53 and the values it
    sets are within 2^53; afterwards every time series holds exactly what the history says:
    a counter its start value plus the number of calls with its labels, a gauge the last
    value set, every other series what it held before.  A call with text that is not valid
    UTF-8 panics. *)
Theorem metrics_refine_history (cs : list call) (w : W) :
  Forall representable cs -> Forall well_encoded cs ->
  Forall (fun c => gauge_name (series c).1 = false ->
            0 <= value w (series c).1 (series c).2 /\
            value w (series c).1 (series c).2 + Z.of_nat (length cs) <= exact_limit) cs ->
  (exists w', perform_all cs w = Some w' /\
     forall n l, value w' n l = series_value (value w n l) (n, l) cs) /\
  (forall c, ~ well_encoded c -> perform c w = None).
Proof.
  intros Hr He Hw. split; [|intros c; apply perform_panics]. revert w He Hw.
  induction Hr as [|c cs Hc Hr IH]; intros w He Hw; [by exists w|]. cbn [perform_all].
  apply Forall_cons in He as [Hec He]. apply Forall_cons in Hw as [Hwc Hw].
  destruct (perform_spec c w Hc Hec) as (w1 & E1 & _ & Hown & Hother). rewrite E1.
  assert (Hv : forall n l, value w1 n l = if decide (series c = (n, l)) then after c (value w n l) else value w n l).
  { intros n l. case_decide as E; [|by apply (Hother (n, l))].
    rewrite E in Hown, Hwc. cbn in Hown, Hwc. apply Hown. intros Hg. destruct (Hwc Hg). lia. }
  destruct (IH w1 He) as (w2 & E2 & H2).
  { eapply Forall_impl; [exact Hw|]. intros d Hd Hg. destruct (Hd Hg) as [Hlo Hhi]. cbn [length] in Hhi. rewrite Hv.
    case_decide as E; [|lia]. rewrite <- surjective_pairing in E. rewrite <- E in *.
    destruct c; cbn in *; try lia; discriminate Hg. }
  exists w2. split; [done|]. intros n l. rewrite H2, Hv. done.
Qed.

Lemma register_all_ok (vs : list Vec) (w : W) :
  NoDup (map fqName vs) -> Forall (fun v => v ∈ all_vecs /\ fqName v ∉ registered w) vs ->
  exists w', register_all vs w = Some w' /\ registered w' = list_to_set (map fqName vs) ∪ registered w /\
    forall n l, value w' n l = value w n l.
Proof.
  revert w. induction vs as [|v vs IH]; intros w Hn Hf; [exists w; split_and!; [done|set_solver|done]|].
  apply NoDup_cons in Hn as [Hv Hn]. apply Forall_cons in Hf as [[Hva Hvw] Hf]. cbn [register_all].
  destruct (MustRegister v w) as [w1|] eqn:E; [|by apply register_spec in E].
  destruct (register_adds _ _ _ E) as [Hr1 Hv1]. destruct (IH w1 Hn) as (w2 & E2 & Hr2 & Hv2).
  { rewrite Hr1. apply Forall_forall. intros x Hx. rewrite Forall_forall in Hf. destruct (Hf x Hx) as [Hxa Hxw]. split; [done|].
    assert (fqName x <> fqName v); [|set_solver]. intros Ex. apply Hv. rewrite <- Ex. apply list_elem_of_fmap. eauto. }
  exists w2. split; [done|]. split; [rewrite Hr2, Hr1; set_solver|]. intros n l. by rewrite Hv2.
Qed.

(** The collectors register without a clash of names: [init] does not panic in a registry
    that has none of them, and panics when it is run twice. *)
Theorem init_registers (w : W) :
  (forall v, v ∈ all_vecs -> fqName v ∉ registered w) ->
  exists w', init w = Some w' /\ registered w' = list_to_set (map fqName all_vecs) ∪ registered w /\ init w' = None.
Proof.
  intros Hf. destruct (register_all_ok all_vecs w) as (w' & E & Hr & _).
  { apply (bool_decide_unpack _). vm_compute. exact I. }
  { apply Forall_forall. auto. }
  exists w'. split; [done|]. split; [done|]. unfold init, all_vecs. cbn [register_all].
  assert (H1 : MustRegister ReconcileTotal w' = None); [|by rewrite H1].
  apply register_spec; [by left|]. rewrite Hr. apply elem_of_union_l. cbn [map list_to_set all_vecs]. set_solver.
Qed.

End Refinement.

(** ** A concrete registry *)

Record registry := { reg_names : gset string; reg_series : gmap (string * list string) Z }.

#[export] Instance registry_collectors : Collectors registry :=
  {| MustRegister := fun v w => if decide (fqName v ∈ reg_names w) then None
                                else Some {| reg_names := {[ fqName v ]} ∪ reg_names w; reg_series := reg_series w |};
     Inc := fun v lvs w =>
       if decide (labels_ok v lvs)
       then Some {| reg_names := reg_names w;
                    reg_series := <[(fqName v, lvs) := default 0 (reg_series w !! (fqName v, lvs)) + 1]> (reg_series w) |}
       else None;
     Set_ := fun v lvs z w =>
       if decide (labels_ok v lvs)
       then Some {| reg_names := reg_names w; reg_series := <[(fqName v, lvs) := z]> (reg_series w) |} else None;
     value := fun w n l => default 0 (reg_series w !! (n, l));
     registered := reg_names |}.

#[export] Instance registry_laws : CollectorLaws registry.
Proof.
  constructor; cbn.
  - intros v w _. case_decide; split; done.
  - intros v w w'. case_decide; [done|]. by intros [= <-].
  - intros v lvs w _. case_decide; split; done.
  - intros v lvs w w' _. case_decide; [|done]. intros [= <-]. cbn. rewrite lookup_insert_eq. split_and!; [done| |done].
    intros n l Hne. by rewrite lookup_insert_ne by congruence.
  - intros v lvs z w _. case_decide; split; done.
  - intros v lvs z w w' _. case_decide; [|done]. intros [= <-]. cbn. rewrite lookup_insert_eq. split_and!; [done| |done].
    intros n l Hne. by rewrite lookup_insert_ne by congruence.
Qed.

Definition empty_registry : registry := {| reg_names := ∅; reg_series := ∅ |}.

Definition sample_calls : list call :=
  [CReconcile "cluster" "success"; CBackup "db" "prod" "failed"; CInstances "db" "prod" 2;
   CReconcile "cluster" "success"; CInstances "db" "prod" 3].

Lemma metrics_refine_history_witness :
  exists w', perform_all sample_calls empty_registry = Some w' /\
    value w' "athos_controller_reconcile_total" ["cluster"; "success"] = 2 /\
    value w' "athos_cluster_instances_ready" ["db"; "prod"] = 3.
Proof.
  destruct (metrics_refine_history sample_calls empty_registry) as [(w' & E & Hv) _].
  - unfold sample_calls, exact_limit.
    repeat (apply Forall_cons_2; [cbn; unfold exact_limit; first [exact I|lia]|]). apply Forall_nil_2.
  - repeat (apply Forall_cons_2; [repeat constructor|]). apply Forall_nil_2.
  - repeat (apply Forall_cons_2; [intros _; cbn; rewrite lookup_empty; cbn; unfold exact_limit; lia|]). apply Forall_nil_2.
  - exists w'. split; [exact E|]. split; (rewrite Hv; vm_compute; reflexivity).
Defined.

Lemma init_registers_witness : exists w', init empty_registry = Some w' /\ init w' = None.
Proof.
  destruct (init_registers empty_registry) as (w' & E & _ & E2); [|exists w'; split; assumption].
  intros v _. cbn. set_solver.
Defined.

End Metrics.
