(* ===== verification/Predicates.v ===== *)
(** * Event predicates (internal/predicates/predicates.go)

    The predicates that decide which watch events reach a reconciler.  An event carries
    the metadata of the object before and after it. *)

From Stdlib Require Import ZArith Lia List Bool.
From stdpp Require Import base list strings gmap.
From S2P Require Import Prelude GoStrings K8s Meta.

Local Open Scope Z_scope.

Module Predicates.

(** [predicate.Funcs]: one function per kind of event. *)
Record Funcs := {
  UpdateFunc : ObjectMeta -> ObjectMeta -> bool;   (* old, new *)
  CreateFunc : ObjectMeta -> bool;
  DeleteFunc : ObjectMeta -> bool;
  GenericFunc : ObjectMeta -> bool;
}.

Inductive event :=
  | Update (old new : ObjectMeta)
  | Create (o : ObjectMeta)
  | Delete (o : ObjectMeta)
  | Generic (o : ObjectMeta).

(** Whether an event passes. *)
Definition passes (p : Funcs) (e : event) : bool :=
  match e with
  | Update old new => UpdateFunc p old new
  | Create o => CreateFunc p o
  | Delete o => DeleteFunc p o
  | Generic o => GenericFunc p o
  end.

(** [m[k]]: a missing key reads as the empty string. *)
Definition get (m : gmap string string) (k : string) : string := default "" (m !! k).

Definition annotationsChanged (old new : gmap string string) : bool :=
  if negb (size old =? size new)%nat then true
  else negb (bool_decide (map_Forall (fun k v => get new k = v) old)).

Definition labelsChanged (old new : gmap string string) : bool :=
  if negb (size old =? size new)%nat then true
  else negb (bool_decide (map_Forall (fun k v => get new k = v) old)).

Definition generation_changed (old new : ObjectMeta) : bool := negb (om_Generation new =? om_Generation old).

Definition ResourceGenerationChanged : Funcs :=
  {| UpdateFunc := generation_changed; CreateFunc := fun _ => true; DeleteFunc := fun _ => true;
     GenericFunc := fun _ => true |}.

Definition AnnotationChangedOrGeneration : Funcs :=
  {| UpdateFunc := fun old new =>
       if generation_changed old new then true else annotationsChanged (om_Annotations old) (om_Annotations new);
     CreateFunc := fun _ => true; DeleteFunc := fun _ => true; GenericFunc := fun _ => true |}.

Definition LabelChangedOrGeneration : Funcs :=
  {| UpdateFunc := fun old new =>
       if generation_changed old new then true else labelsChanged (om_Labels old) (om_Labels new);
     CreateFunc := fun _ => true; DeleteFunc := fun _ => true; GenericFunc := fun _ => true |}.

Definition pausedAnnotation : string := "pg.athos.io/paused".
Definition pausedValue : string := "true".
Definition unpaused (o : ObjectMeta) : bool := negb (get (om_Annotations o) pausedAnnotation =? pausedValue)%string.

Definition NotPaused : Funcs :=
  {| UpdateFunc := fun _ new => unpaused new; CreateFunc := unpaused; DeleteFunc := fun _ => true;
     GenericFunc := unpaused |}.

Definition clusterLabel : string := "pg.athos.io/cluster".
Definition in_cluster (clusterName : string) (o : ObjectMeta) : bool :=
  (get (om_Labels o) clusterLabel =? clusterName)%string.

Definition OwnedByCluster (clusterName : string) : Funcs :=
  {| UpdateFunc := fun _ new => in_cluster clusterName new; CreateFunc := in_cluster clusterName;
     DeleteFunc := in_cluster clusterName; GenericFunc := in_cluster clusterName |}.

(** ** Changes of maps *)

Lemma changed_Equal old new : annotationsChanged old new = negb (Meta.LabelSet.Equal old new).
Proof. unfold annotationsChanged, Meta.LabelSet.Equal. by destruct (size old =? size new)%nat. Qed.

(** A change that is not noticed: as many entries as before, and every old entry is still
    there except some whose value was empty. *)
Definition overlooked (old new : gmap string string) : Prop :=
  size old = size new /\ map_Forall (fun k v => new !! k = Some v \/ (v = "" /\ new !! k = None)) old.

Lemma changed_iff old new : annotationsChanged old new = true <-> old <> new /\ ~ overlooked old new.
Proof.
  unfold annotationsChanged, overlooked. destruct (Nat.eqb_spec (size old) (size new)) as [Hs|Hs]; cbn [negb].
  - rewrite negb_true_iff, bool_decide_eq_false. split.
    + intros Hn. split; [intros ->; apply Hn; intros k v Hk; unfold get; by rewrite Hk|].
      intros [_ Ho]. apply Hn. intros k v Hk. unfold get.
      destruct (Ho k v Hk) as [->|[-> ->]]; done.
    + intros [_ Hn] Hall. apply Hn. split; [done|]. intros k v Hk. specialize (Hall k v Hk). unfold get in Hall.
      destruct (new !! k) as [x|]; cbn in Hall; [left; congruence|]. by right.
  - split; [|done]. intros _. split; [by intros ->|]. by intros [? _].
Qed.

(** ** Properties *)

(** C28: What the change predicates let through.  Creations, deletions and generic events
    pass all three.  An update passes ResourceGenerationChanged exactly when the
    generations differ; it passes AnnotationChangedOrGeneration, or
    LabelChangedOrGeneration, exactly when the generations differ or the annotations, or
    the labels, differ and the change is not one where the number of entries stays the same
    and the only old entries that are gone or changed had an empty value and are gone. *)
Theorem update_predicates_exact (old new : ObjectMeta) :
  (passes ResourceGenerationChanged (Update old new) = true <-> om_Generation old <> om_Generation new) /\
  (passes AnnotationChangedOrGeneration (Update old new) = true <->
     om_Generation old <> om_Generation new \/
     (om_Annotations old <> om_Annotations new /\ ~ overlooked (om_Annotations old) (om_Annotations new))) /\
  (passes LabelChangedOrGeneration (Update old new) = true <->
     om_Generation old <> om_Generation new \/
     (om_Labels old <> om_Labels new /\ ~ overlooked (om_Labels old) (om_Labels new))) /\
  Forall (fun p => forall o, passes p (Create o) = true /\ passes p (Delete o) = true /\ passes p (Generic o) = true)
    [ResourceGenerationChanged; AnnotationChangedOrGeneration; LabelChangedOrGeneration].
Proof.
  assert (Hg : generation_changed old new = true <-> om_Generation old <> om_Generation new).
  { unfold generation_changed. rewrite negb_true_iff, Z.eqb_neq. split; congruence. }
  split_and!; [exact Hg| | |by repeat constructor]; cbn.
  - rewrite <- changed_iff, <- Hg. destruct (generation_changed old new); intuition congruence.
  - rewrite <- changed_iff, <- Hg. change (labelsChanged (om_Labels old) (om_Labels new))
      with (annotationsChanged (om_Labels old) (om_Labels new)).
    destruct (generation_changed old new); intuition congruence.
Qed.

Definition meta_at (g : Z) (ann : gmap string string) : ObjectMeta :=
  {| om_Name := "db"; om_Namespace := "prod"; om_UID := "u"; om_Labels := ∅; om_Annotations := ann; om_Finalizers := [];
     om_OwnerReferences := []; om_DeletionTimestamp := None; om_Generation := g; om_ResourceVersion := 0 |}.

(** An update that replaces an annotation with an empty value by another annotation is
    dropped, although the annotations changed. *)
Theorem annotation_change_dropped k j v g :
  k <> j -> passes AnnotationChangedOrGeneration (Update (meta_at g {[ k := "" ]}) (meta_at g {[ j := v ]})) = false.
Proof.
  intros Hne. cbn. unfold generation_changed. cbn [om_Generation meta_at]. rewrite Z.eqb_refl. cbn [negb].
  rewrite changed_Equal. by rewrite Meta.LabelSet.Equal_empty_value.
Qed.

Lemma annotation_change_dropped_witness :
  passes AnnotationChangedOrGeneration (Update (meta_at 1 {[ "hold" := "" ]}) (meta_at 1 {[ "failover-to" := "db-1" ]})) = false.
Proof. apply annotation_change_dropped. done. Defined.

(** [NotPaused] drops creations, updates and generic events of an object that carries the
    annotation, passes the update that removes it, and passes deletions of a paused
    object.  [OwnedByCluster] looks at the new labels only: an update that moves an object
    to another cluster does not reach the cluster it leaves; with an empty name it passes
    every object without the label. *)
Theorem paused_and_owned_cases (o o' : ObjectMeta) (c : string) :
  (om_Annotations o !! pausedAnnotation = Some pausedValue ->
     passes NotPaused (Create o) = false /\ passes NotPaused (Generic o) = false /\
     passes NotPaused (Update o' o) = false /\ passes NotPaused (Delete o) = true /\
     (om_Annotations o' !! pausedAnnotation = None -> passes NotPaused (Update o o') = true)) /\
  (c <> "" -> forall e, passes (OwnedByCluster c) e = true <->
     om_Labels (match e with Update _ x | Create x | Delete x | Generic x => x end) !! clusterLabel = Some c) /\
  (om_Labels o !! clusterLabel = Some c -> om_Labels o' !! clusterLabel <> Some c -> c <> "" ->
     passes (OwnedByCluster c) (Update o o') = false) /\
  (om_Labels o !! clusterLabel = None -> passes (OwnedByCluster "") (Create o) = true).
Proof.
  assert (Hp : om_Annotations o !! pausedAnnotation = Some pausedValue -> unpaused o = false)
    by (intros E; unfold unpaused, get; by rewrite E).
  assert (Hc : c <> "" -> forall x, in_cluster c x = true <-> om_Labels x !! clusterLabel = Some c).
  { intros Hne x. unfold in_cluster, get. destruct (om_Labels x !! clusterLabel) as [d|]; cbn [default from_option id].
    - rewrite String.eqb_eq. split; congruence.
    - rewrite String.eqb_eq. split; congruence. }
  split_and!.
  - intros E. split_and!; try (by apply Hp); try done. intros E'. cbn. unfold unpaused, get. by rewrite E'.
  - intros Hne [x y|x|x|x]; cbn; by apply Hc.
  - intros _ Hn Hne. cbn. apply not_true_iff_false. by rewrite (Hc Hne).
  - intros E. cbn. unfold in_cluster, get. by rewrite E.
Qed.

End Predicates.
