(* ===== verification/PoolerConfig.v ===== *)
(** * PgBouncer files (internal/poolerconfig/poolerconfig.go)

    The renderer of pgbouncer.ini and userlist.txt, checked against the INI reader of
    [Pgbouncer.v] and a reader of PgBouncer's user list, in which a quote inside a quoted
    field is written twice. *)

From Stdlib Require Import ZArith Lia List Bool Ascii.
From stdpp Require Import base list strings gmap sorting.
From S2P Require Import Prelude GoStrings SqlEscape PgConfig Pgbouncer.

Local Open Scope Z_scope.

Module PoolerConfig.
Import HBA Pgbouncer.

Definition PoolMode_ := string.
Definition ModeSession : PoolMode_ := "session".
Definition ModeTransaction : PoolMode_ := "transaction".
Definition ModeStatement : PoolMode_ := "statement".

Definition AuthType_ := string.
Definition AuthMD5 : AuthType_ := "md5".
Definition AuthScramSHA : AuthType_ := "scram-sha-256".
Definition AuthPlain : AuthType_ := "plain".
Definition AuthTrust : AuthType_ := "trust".

Record Spec := {
  s_ListenPort : Z;
  s_PoolMode : PoolMode_;
  s_MaxClientConn : Z;
  s_DefaultPoolSize : Z;
  s_AuthType : AuthType_;
  s_AuthUser : string;
  s_AuthQuery : string;
  s_Databases : gmap string string;
  s_IgnoreStartupParameters : string;
}.

Definition or_str (s d : string) : string := if (s =? "")%string then d else s.
Definition or_int (z d : Z) : Z := if z =? 0 then d else z.

(** The defaults [Render] applies. *)
Definition with_defaults (s : Spec) : Spec :=
  {| s_ListenPort := or_int (s_ListenPort s) 6432; s_PoolMode := or_str (s_PoolMode s) ModeTransaction;
     s_MaxClientConn := or_int (s_MaxClientConn s) 100; s_DefaultPoolSize := or_int (s_DefaultPoolSize s) 20;
     s_AuthType := or_str (s_AuthType s) AuthScramSHA; s_AuthUser := s_AuthUser s; s_AuthQuery := s_AuthQuery s;
     s_Databases := s_Databases s;
     s_IgnoreStartupParameters := or_str (s_IgnoreStartupParameters s) "extra_float_digits" |}.

Definition sortedKeys (m : gmap string string) : list string := sort_strings (map_to_list m).*1.

Definition database_settings (s : Spec) : list (string * string) :=
  map (fun n => (n, default "" (s_Databases s !! n))) (sortedKeys (s_Databases s)).

Definition pooler_settings (s : Spec) : list (string * string) :=
  [("listen_addr", "0.0.0.0"); ("listen_port", itoa (s_ListenPort s)); ("auth_type", s_AuthType s)]
  ++ (if (s_AuthUser s =? "")%string then [] else [("auth_user", s_AuthUser s)])
  ++ (if (s_AuthQuery s =? "")%string then [] else [("auth_query", s_AuthQuery s)])
  ++ [("auth_file", "/etc/pgbouncer/userlist.txt"); ("pool_mode", s_PoolMode s);
      ("max_client_conn", itoa (s_MaxClientConn s)); ("default_pool_size", itoa (s_DefaultPoolSize s));
      ("ignore_startup_parameters", s_IgnoreStartupParameters s)].

Definition setting_lines (kvs : list (string * string)) : list string := map (fun kv => setting kv.1 kv.2) kvs.

Definition Render (s : Spec) : string :=
  let s := with_defaults s in
  write_lines ("[databases]" :: setting_lines (database_settings s)
               ++ "" :: "[pgbouncer]" :: setting_lines (pooler_settings s)).

Definition RenderUserList (users : gmap string string) : string :=
  write_lines (map (fun u => (str1 dquote +:+ u +:+ str1 dquote) +:+ " " +:+
                             (str1 dquote +:+ default "" (users !! u) +:+ str1 dquote)) (sortedKeys users)).

Definition IsValidPoolMode (p : PoolMode_) : bool :=
  existsb (String.eqb p) [ModeSession; ModeTransaction; ModeStatement].

(** ** The rendered settings *)

(** Text that fits on one line. *)
Definition one_line (s : string) : Prop := sall (neqc "010") s = true.

Record spec_ok (s : Spec) : Prop := {
  ok_mode : one_line (s_PoolMode s);
  ok_auth : one_line (s_AuthType s);
  ok_user : one_line (s_AuthUser s);
  ok_query : one_line (s_AuthQuery s);
  ok_ignore : one_line (s_IgnoreStartupParameters s);
  ok_dbs : map_Forall (fun k v => one_line k /\ one_line v /\ sall (neqc " ") k = true) (s_Databases s);
}.

Lemma elem_of_sortedKeys m k : k ∈ sortedKeys m <-> is_Some (m !! k).
Proof.
  unfold sortedKeys. rewrite sort_strings_permutation, list_elem_of_fmap. split.
  - intros ([k' v] & -> & Hkv%elem_of_map_to_list). by exists v.
  - intros [v Hv]. exists (k, v). split; [done|]. by apply elem_of_map_to_list.
Qed.

Lemma or_str_line a d : one_line a -> one_line d -> one_line (or_str a d).
Proof. unfold or_str. by case_match. Qed.

Lemma setting_one_line k v : one_line k -> one_line v -> one_line (setting k v).
Proof. intros Hk Hv. unfold one_line, setting in *. by rewrite !sall_app, Hk, Hv. Qed.

Lemma database_settings_ok s : spec_ok s ->
  Forall (fun kv => one_line kv.1 /\ one_line kv.2 /\ sall (neqc " ") kv.1 = true) (database_settings (with_defaults s)).
Proof.
  intros Hs. apply Forall_map, Forall_forall. intros k [v Hv]%elem_of_sortedKeys. cbn [fst snd]. rewrite Hv.
  apply (ok_dbs s Hs k v Hv).
Qed.

Lemma pooler_settings_lines s : spec_ok s ->
  Forall (fun kv => one_line kv.1 /\ one_line kv.2) (pooler_settings (with_defaults s)).
Proof.
  intros Hs. unfold pooler_settings.
  pose proof (or_str_line _ ModeTransaction (ok_mode s Hs) eq_refl).
  pose proof (or_str_line _ AuthScramSHA (ok_auth s Hs) eq_refl).
  pose proof (or_str_line _ "extra_float_digits" (ok_ignore s Hs) eq_refl).
  destruct Hs. repeat (apply Forall_app; split); repeat case_match;
    repeat (apply Forall_cons_2; [split; [done|cbn [fst snd]; first [done|apply itoa_no_newline]]|]); by apply Forall_nil_2.
Qed.

Lemma pooler_settings_keys s : Forall (fun kv => sall (neqc " ") kv.1 = true) (pooler_settings s).
Proof. unfold pooler_settings. repeat case_match; repeat constructor. Qed.

Lemma setting_not_header k v : (setting k v =? "[pgbouncer]")%string = false.
Proof.
  apply String.eqb_neq. intros E. apply (f_equal (sall (neqc "="))) in E. unfold setting in E.
  rewrite !sall_app in E. change (sall (neqc "=") " = ") with false in E.
  rewrite andb_false_l, andb_false_r in E. done.
Qed.

Lemma Render_lines s : spec_ok s ->
  split_byte "010" (Render s) =
  "[databases]" :: setting_lines (database_settings (with_defaults s))
    ++ "" :: "[pgbouncer]" :: setting_lines (pooler_settings (with_defaults s)) ++ [""].
Proof.
  intros Hs. unfold Render, write_lines. rewrite Config.split_newline_lines.
  { cbn [app]. rewrite <- app_assoc. done. }
  constructor; [done|]. apply Forall_app. split; [|constructor; [done|]; constructor; [done|]]; apply Forall_map.
  - eapply Forall_impl; [apply database_settings_ok, Hs|]. intros [k v] (Hk & Hv & _). by apply setting_one_line.
  - eapply Forall_impl; [apply pooler_settings_lines, Hs|]. intros [k v] (Hk & Hv). by apply setting_one_line.
Qed.

Lemma section_after_settings kvs rest :
  ini_section "pgbouncer" (setting_lines kvs ++ "" :: "[pgbouncer]" :: rest) = rest.
Proof.
  induction kvs as [|[k v] kvs IH]; [done|]. cbn [setting_lines map app ini_section fst snd].
  change ("[" +:+ "pgbouncer" +:+ "]") with "[pgbouncer]". by rewrite setting_not_header.
Qed.

Lemma Render_get s k : spec_ok s -> sall (neqc " ") k = true ->
  ini_get "pgbouncer" k (Render s) = snd <$> List.find (fun kv => (kv.1 =? k)%string) (pooler_settings (with_defaults s)).
Proof.
  intros Hs Hk. unfold ini_get. rewrite Render_lines by done. cbn [ini_section].
  change ("[databases]" =? "[" +:+ "pgbouncer" +:+ "]")%string with false. cbv iota. rewrite section_after_settings.
  unfold setting_lines. rewrite ini_key_settings by (done || apply pooler_settings_keys).
  destruct (List.find _ _); [done|]. cbn [ini_key].
  destruct (has_prefix (k +:+ " = ") "") eqn:E; [|done]. by destruct k.
Qed.

Lemma find_database s name uri :
  s_Databases s !! name = Some uri ->
  List.find (fun kv => (kv.1 =? name)%string) (database_settings s) = Some (name, uri).
Proof.
  intros Hn. unfold database_settings.
  assert (Hin : name ∈ sortedKeys (s_Databases s)) by (apply elem_of_sortedKeys; by exists uri).
  induction (sortedKeys (s_Databases s)) as [|k l IH]; [by apply not_elem_of_nil in Hin|].
  cbn [map List.find fst]. destruct (String.eqb_spec k name) as [->|Hne]; [by rewrite Hn|].
  apply IH. by apply elem_of_cons in Hin as [->|].
Qed.

(** The rendered pgbouncer.ini reads back as the specification with its defaults.  For
    settings on one line and database names without spaces, an INI reader finds every
    database with its connection string in the first section, and in the second the port,
    sizes, modes, the optional authentication user and query exactly when they are set,
    and the user list file. *)
Theorem Render_reads_back (s : Spec) :
  spec_ok s ->
  let get := fun k => ini_get "pgbouncer" k (Render s) in
  (forall name uri, s_Databases s !! name = Some uri -> ini_get "databases" name (Render s) = Some uri) /\
  get "listen_port" = Some (itoa (or_int (s_ListenPort s) 6432)) /\
  get "auth_type" = Some (or_str (s_AuthType s) AuthScramSHA) /\
  get "auth_user" = (if (s_AuthUser s =? "")%string then None else Some (s_AuthUser s)) /\
  get "auth_query" = (if (s_AuthQuery s =? "")%string then None else Some (s_AuthQuery s)) /\
  get "auth_file" = Some "/etc/pgbouncer/userlist.txt" /\
  get "pool_mode" = Some (or_str (s_PoolMode s) ModeTransaction) /\
  get "max_client_conn" = Some (itoa (or_int (s_MaxClientConn s) 100)) /\
  get "default_pool_size" = Some (itoa (or_int (s_DefaultPoolSize s) 20)) /\
  get "ignore_startup_parameters" = Some (or_str (s_IgnoreStartupParameters s) "extra_float_digits").
Proof.
  intros Hs get. split.
  - intros name uri Hn. unfold ini_get. rewrite Render_lines by done. cbn [ini_section].
    change ("[databases]" =? "[" +:+ "databases" +:+ "]")%string with true. cbv iota.
    unfold setting_lines at 1. rewrite ini_key_settings.
    + by rewrite (find_database (with_defaults s) name uri).
    + apply (ok_dbs s Hs name uri Hn).
    + eapply Forall_impl; [apply database_settings_ok, Hs|]. by intros kv (_ & _ & Hk).
  - unfold get. rewrite !Render_get by done. unfold pooler_settings. cbn [s_AuthUser s_AuthQuery with_defaults].
    destruct (s_AuthUser s =? "")%string, (s_AuthQuery s =? "")%string; by split_and!.
Qed.

Definition pooler_sample : Spec :=
  {| s_ListenPort := 0; s_PoolMode := ""; s_MaxClientConn := 500; s_DefaultPoolSize := 0; s_AuthType := "";
     s_AuthUser := "pgbouncer"; s_AuthQuery := "SELECT usename, passwd FROM user_lookup($1)";
     s_Databases := {[ "shop" := "host=db-rw port=5432 dbname=shop"; "audit" := "host=db-ro" ]};
     s_IgnoreStartupParameters := "" |}.

Lemma Render_reads_back_witness :
  ini_get "databases" "shop" (Render pooler_sample) = Some "host=db-rw port=5432 dbname=shop" /\
  ini_get "pgbouncer" "pool_mode" (Render pooler_sample) = Some "transaction".
Proof.
  destruct (Render_reads_back pooler_sample) as (Hd & _ & _ & _ & _ & _ & Hm & _).
  { constructor; try (vm_compute; reflexivity). unfold one_line. apply (bool_decide_unpack _). vm_compute. exact I. }
  split; [apply Hd; vm_compute; reflexivity|exact Hm].
Defined.

(** ** The user list *)

(** PgBouncer reads a line of a user list: two quoted fields, a quote inside a field
    written twice; what follows the second field is ignored. *)
Definition read_user (line : string) : option (string * string) :=
  match SqlEscape.read_token dquote line with
  | Some (u, String " " rest) =>
      match SqlEscape.read_token dquote rest with Some (p, _) => Some (u, p) | None => None end
  | _ => None
  end.

Definition read_users (text : string) : list (string * string) := omap read_user (split_byte "010" text).

Definition no_quote (s : string) : Prop := sall (neqc dquote) s = true.

Lemma read_token_plain s rest : no_quote s -> SqlEscape.starts_with dquote rest = false ->
  SqlEscape.read_token dquote ((str1 dquote +:+ s +:+ str1 dquote) +:+ rest) = Some (s, rest).
Proof.
  intros Hs Hr. rewrite <- (replace_byte_none dquote (String dquote (str1 dquote)) s) at 1 by done.
  by apply SqlEscape.read_token_quoted.
Qed.

(** The user list reads back as the map it was rendered from, for names and hashes
    without quotes and line breaks; nothing is escaped, so that a password with a quote
    and a line break adds an entry of its choice. *)
Theorem user_list_reads_back (users : gmap string string) :
  (map_Forall (fun u p => no_quote u /\ one_line u /\ no_quote p /\ one_line p) users ->
   list_to_map (read_users (RenderUserList users)) = users) /\
  read_users (RenderUserList {[ "app" := "x" +:+ str1 dquote +:+ newline +:+ str1 dquote +:+ "postgres" +:+ str1 dquote
                                         +:+ " " +:+ str1 dquote +:+ "y" ]}) = [("app", "x"); ("postgres", "y")].
Proof.
  split; [|vm_compute; reflexivity]. intros Hu.
  assert (Hk : forall k, k ∈ sortedKeys users -> no_quote k /\ one_line k /\ no_quote (default "" (users !! k)) /\ one_line (default "" (users !! k))).
  { intros k [v Hv]%elem_of_sortedKeys. rewrite Hv. by apply (Hu k v). }
  assert (E : read_users (RenderUserList users) = map (fun u => (u, default "" (users !! u))) (sortedKeys users)).
  { unfold read_users, RenderUserList, write_lines. rewrite Config.split_newline_lines.
    - rewrite omap_app. cbn [omap list_omap read_user]. rewrite app_nil_r. revert Hk. generalize (sortedKeys users) as l.
      induction l as [|k l IH]; intros Hk; [done|]. cbn [map omap list_omap].
      destruct (Hk k) as (H1 & H2 & H3 & H4); [left|]. unfold read_user at 1.
      rewrite read_token_plain by done. change (" " +:+ ?x) with (String " " x).
      cbv iota beta. rewrite <- (app_nil_r_s (str1 dquote +:+ default "" (users !! k) +:+ str1 dquote)).
      rewrite read_token_plain by done. f_equal. apply IH. intros j Hj. apply Hk. by right.
    - apply Forall_map, Forall_forall. intros k Hin. destruct (Hk k Hin) as (H1 & H2 & H3 & H4).
      unfold one_line in *. by rewrite !sall_app, H2, H4. }
  rewrite E. apply map_eq. intros k.
  assert (Hd : NoDup (map (fun u => (u, default "" (users !! u))) (sortedKeys users)).*1).
  { rewrite <- list_fmap_compose. change (fst ∘ _) with (@id string). rewrite list_fmap_id. unfold sortedKeys.
    rewrite sort_strings_permutation. apply NoDup_fst_map_to_list. }
  destruct (users !! k) as [v|] eqn:Ek.
  - apply elem_of_list_to_map_1; [done|]. apply list_elem_of_fmap. exists k. split; [by rewrite Ek|].
    apply elem_of_sortedKeys. by exists v.
  - apply not_elem_of_list_to_map_1. rewrite <- list_fmap_compose. change (fst ∘ _) with (@id string). rewrite list_fmap_id.
    rewrite elem_of_sortedKeys, Ek. by intros [? ?].
Qed.

End PoolerConfig.
