(* ===== verification/SecretKey.v ===== *)
(** * Keys of credential Secrets (internal/secretkey/secretkey.go)

    The key sets, the checks on them, and the two connection URLs, read back by a reader of
    libpq connection URIs and of the parameters of a JDBC URL; with the Secret the cluster
    controller builds for a generated password. *)

From Stdlib Require Import ZArith Lia List Bool Ascii.
From stdpp Require Import base list strings gmap.
From S2P Require Import Prelude GoStrings K8s Api PgConfig PgStatus PgResources Password Pgbouncer Images Shell.

Local Open Scope Z_scope.

Module SecretKey.

Definition Username : string := "username".
Definition Password_ : string := "password".
Definition Host : string := "host".
Definition Port : string := "port".
Definition Database : string := "database".
Definition URI : string := "uri".
Definition JDBCURL : string := "jdbc-url".
Definition CACertificate : string := "ca.crt".
Definition ClientCertificate : string := "tls.crt".
Definition ClientKey : string := "tls.key".

Definition Required : list string := [Username; Password_; Host; Port; Database; URI].
Definition Optional : list string := [JDBCURL; CACertificate; ClientCertificate; ClientKey].

(** [v, ok := data[k]; !ok || len(v) == 0]. *)
Definition missing (data : gmap string string) (k : string) : bool :=
  match data !! k with Some v => (v =? "")%string | None => true end.

Definition keys_or_required (required : list string) : list string :=
  match required with [] => Required | _ => required end.

Fixpoint has_all (data : gmap string string) (keys : list string) : bool :=
  match keys with
  | [] => true
  | k :: keys' => if missing data k then false else has_all data keys'
  end.

Definition Has (data : gmap string string) (required : list string) : bool :=
  has_all data (keys_or_required required).

Definition MissingKeys (data : gmap string string) (required : list string) : list string :=
  filter (fun k => missing data k = true) (keys_or_required required).

(** [String]; the boolean result is the option. *)
Definition String_ (data : gmap string string) (key : string) : option string := data !! key.

(** [MustString]; [None] is the panic. *)
Definition MustString (data : gmap string string) (key : string) : option string := String_ data key.

Definition JDBCFromLibpq (host port database user password : string) : string :=
  "jdbc:postgresql://" +:+ host +:+ ":" +:+ port +:+ "/" +:+ database +:+ "?user=" +:+ user
  +:+ (if (password =? "")%string then "" else "&password=" +:+ password).

Definition LibpqURI (host port database user password : string) : string :=
  if (password =? "")%string
  then "postgresql://" +:+ user +:+ "@" +:+ host +:+ ":" +:+ port +:+ "/" +:+ database
  else "postgresql://" +:+ user +:+ ":" +:+ password +:+ "@" +:+ host +:+ ":" +:+ port +:+ "/" +:+ database.

(** [Has] succeeds exactly when nothing is missing. *)
Theorem Has_iff_no_missing data required : Has data required = true <-> MissingKeys data required = [].
Proof.
  unfold Has, MissingKeys. induction (keys_or_required required) as [|k keys IH]; [done|].
  cbn [has_all]. rewrite filter_cons. destruct (missing data k); case_decide; try done.
Qed.

(** ** libpq connection URIs *)

(** Percent decoding; an escaped NUL is an error. *)
Definition hex_val (c : ascii) : option Z :=
  if is_digit c then Some (byte c - 48)
  else if in_range 65 70 (byte c) then Some (byte c - 55)
  else if in_range 97 102 (byte c) then Some (byte c - 87) else None.

Fixpoint pct_decode (s : string) : option string :=
  match s with
  | EmptyString => Some ""
  | String c s' =>
      if Ascii.eqb c "%" then
        match s' with
        | String a (String b s'') =>
            match hex_val a, hex_val b, pct_decode s'' with
            | Some x, Some y, Some r => if 16 * x + y =? 0 then None else Some (String (chr (16 * x + y)) r)
            | _, _, _ => None
            end
        | _ => None
        end
      else String c <$> pct_decode s'
  end.

Definition until (stops : list ascii) : string -> string * string := span (fun c => negb (Shell.in_set stops c)).

(** The settings libpq extracts, by keyword.  Parts of the authority and path that are
    empty are not stored. *)
Notation settings := (gmap string string).

Definition store_part (k v : string) (m : settings) : option settings :=
  if (v =? "")%string then Some m else (fun d => <[k := d]> m) <$> pct_decode v.

(** A parameter of the query; [ssl=true] is an alias kept for JDBC. *)
Definition read_param (p : string) : option (string * string) :=
  match split_first "=" p with
  | None => None
  | Some (k, v) =>
      if contains_byte "=" v then None
      else match pct_decode k, pct_decode v with
           | Some k, Some v =>
               Some (if (k =? "ssl")%string && (v =? "true")%string then ("sslmode", "require") else (k, v))
           | _, _ => None
           end
  end.

(** Parameters override what was read before them; libpq refuses keywords it does not
    know, which is the argument [known]. *)
Fixpoint read_query (known : string -> bool) (l : list string) (m : settings) : option settings :=
  match l with
  | [] | [""] => Some m
  | p :: l' =>
      match read_param p with
      | Some (k, v) => if known k then read_query known l' (<[k := v]> m) else None
      | None => None
      end
  end.

Definition scheme : string := "postgresql://".

(** Host, port, database and query after the credentials.  IPv6 literals and lists of
    hosts, which libpq also accepts, are not read. *)
Definition read_address (known : string -> bool) (s : string) (m : settings) : option settings :=
  let '(host, r1) := until [":"; "/"; "?"; ","]%char s in
  let '(port, r2) := match r1 with String ":" r => until ["/"; "?"; ","]%char r | _ => ("", r1) end in
  let '(db, r3) := match r2 with String "/" r => until ["?"%char] r | _ => ("", r2) end in
  let query := match r3 with String "?" q => q | _ => "" end in
  if has_prefix "[" s || has_prefix "," r2 then None
  else m ← store_part "host" host m; m ← store_part "port" port m; m ← store_part "dbname" db m;
       read_query known (split_byte "&" query) m.

(** Credentials end at the first at sign, if it comes before the first slash. *)
Definition read_uri (known : string -> bool) (s : string) : option settings :=
  if negb (has_prefix scheme s) then None
  else
    let rest := sdrop (String.length scheme) s in
    match until ["@"; "/"]%char rest with
    | (cred, String "@" addr) =>
        let '(u, p) := match split_first ":" cred with Some (u, p) => (u, p) | None => (cred, "") end in
        m ← store_part "user" u ∅; m ← store_part "password" p m; read_address known addr m
    | _ => read_address known rest ∅
    end.

(** The settings of a connection; an empty password is none. *)
Definition connection (user password host port db : string) : settings :=
  <["dbname" := db]> (<["port" := port]> (<["host" := host]>
    ((if (password =? "")%string then id else <["password" := password]>) {[ "user" := user ]}))).

(** Text without a delimiter or an escape. *)
Definition uri_plain (c : ascii) : bool := negb (Shell.in_set ["@"; "/"; ":"; "?"; ","; "%"; "["]%char c).

Lemma plain_until stops s c rest :
  (forall d, Shell.in_set stops d = true -> uri_plain d = false) -> sall uri_plain s = true ->
  Shell.in_set stops c = true -> until stops (s +:+ String c rest) = (s, String c rest).
Proof.
  intros Hd Hs Hc. unfold until. apply span_app.
  - eapply sall_impl; [|exact Hs]. intros d Hp. destruct (Shell.in_set stops d) eqn:E; [|done].
    rewrite (Hd d E) in Hp. done.
  - intros d r [= <- <-]. by rewrite Hc.
Qed.

Lemma plain_until_end stops s :
  (forall d, Shell.in_set stops d = true -> uri_plain d = false) -> sall uri_plain s = true -> until stops s = (s, "").
Proof.
  intros Hd Hs. unfold until. rewrite <- (app_nil_r_s s) at 1. apply span_app; [|done].
  eapply sall_impl; [|exact Hs]. intros d Hp. destruct (Shell.in_set stops d) eqn:E; [|done].
  rewrite (Hd d E) in Hp. done.
Qed.

Lemma pct_plain s : sall uri_plain s = true -> pct_decode s = Some s.
Proof.
  induction s as [|c s IH]; [done|]. cbn [sall pct_decode]. intros H. apply andb_prop in H as [Hc Hs].
  destruct (Ascii.eqb_spec c "%") as [->|]; [done|]. by rewrite IH.
Qed.

Lemma stops_not_plain stops d :
  Forall (fun c => uri_plain c = false) stops -> Shell.in_set stops d = true -> uri_plain d = false.
Proof.
  unfold Shell.in_set. intros Hs Hd. apply existsb_exists in Hd as (x & Hx & E). apply Ascii.eqb_eq in E as ->.
  rewrite Forall_forall in Hs. apply Hs. by apply list_elem_of_In.
Qed.

Lemma store_plain k v m : sall uri_plain v = true -> v <> "" -> store_part k v m = Some (<[k := v]> m).
Proof. intros Hv Hne. unfold store_part. destruct (String.eqb_spec v ""); [done|]. by rewrite pct_plain. Qed.

Lemma plain_prefix c h rest :
  uri_plain c = false -> sall uri_plain h = true -> h <> "" -> has_prefix (str1 c) (h +:+ rest) = false.
Proof.
  destruct h as [|d h]; [done|]. cbn [sall]. intros Hc Hh _. apply andb_prop in Hh as [Hd _].
  rewrite app_cons_l. unfold has_prefix, str1. cbn [String.prefix].
  destruct (ascii_dec c d) as [->|]; [congruence|done].
Qed.

Lemma read_address_plain known h p d m :
  Forall (fun s => sall uri_plain s = true /\ s <> "") [h; p; d] ->
  read_address known (h +:+ ":" +:+ p +:+ "/" +:+ d) m = Some (<["dbname" := d]> (<["port" := p]> (<["host" := h]> m))).
Proof.
  intros Hs. repeat (apply Forall_cons in Hs as [[? ?] Hs]).
  unfold read_address. change (has_prefix "[") with (has_prefix (str1 "[")). rewrite plain_prefix by done.
  change (":" +:+ ?x) with (String ":" x). change ("/" +:+ d) with (String "/" d).
  rewrite plain_until; [|intros x; apply stops_not_plain; repeat constructor|done|done].
  rewrite plain_until; [|intros x; apply stops_not_plain; repeat constructor|done|done].
  rewrite plain_until_end; [|intros x; apply stops_not_plain; repeat constructor|done].
  cbn [orb has_prefix]. rewrite store_plain by done. cbn [mbind option_bind].
  rewrite store_plain by done. cbn [mbind option_bind]. by rewrite store_plain by done.
Qed.

Lemma plain_neq c s : uri_plain c = false -> sall uri_plain s = true -> sall (neqc c) s = true.
Proof.
  intros Hc. apply sall_impl. intros d Hd. unfold neqc. destruct (Ascii.eqb_spec c d) as [<-|]; [congruence|done].
Qed.

(** The address and the password of a URI are read back for plain parts. *)
Lemma read_LibpqURI known h p d u pw :
  Forall (fun s => sall uri_plain s = true /\ s <> "") [h; p; d] -> sall uri_plain u = true -> u <> "" ->
  sall uri_plain pw = true -> read_uri known (LibpqURI h p d u pw) = Some (connection u pw h p d).
Proof.
  intros Hs Hu Hune Hpw. unfold LibpqURI, read_uri, connection.
  destruct (String.eqb_spec pw "") as [->|Hne]; change ("postgresql://" +:+ ?x) with (scheme +:+ x);
    rewrite (Pgbouncer.Pgbouncer.has_prefix_refl scheme); cbn [negb]; rewrite sdrop_app by done.
  - change ("@" +:+ ?x) with (String "@" x).
    rewrite plain_until; [|intros x; apply stops_not_plain; repeat constructor|done|done]. cbv iota.
    rewrite split_first_none by by apply plain_neq. rewrite store_plain by done. cbn [mbind option_bind].
    cbn [store_part String.eqb mbind option_bind]. by rewrite read_address_plain.
  - assert (E : forall t, until ["@"; "/"]%char (u +:+ ":" +:+ pw +:+ "@" +:+ t) = (u +:+ ":" +:+ pw, String "@" t)).
    { intros t. replace (u +:+ ":" +:+ pw +:+ "@" +:+ t) with ((u +:+ ":" +:+ pw) +:+ String "@" t) by by rewrite !app_assoc_s.
      unfold until. apply span_app; [|by intros c0 r [= <- _]]. rewrite !sall_app.
      assert (Hq : forall s, sall uri_plain s = true -> sall (fun c => negb (Shell.in_set ["@"; "/"]%char c)) s = true).
      { intros s. apply sall_impl. intros c Hc. destruct (Shell.in_set ["@"; "/"]%char c) eqn:Ec; [|done].
        rewrite (stops_not_plain ["@"; "/"]%char c) in Hc; [done|repeat constructor|done]. }
      by rewrite (Hq u Hu), (Hq pw Hpw). }
    rewrite E. cbv iota. change (":" +:+ pw) with (String ":" pw). rewrite split_first_app by by apply plain_neq.
    rewrite store_plain by done. cbn [mbind option_bind]. rewrite store_plain by done. cbn [mbind option_bind].
    by rewrite read_address_plain.
Qed.

(** C24: The credential Secret of a cluster is complete and its URI is right.  For every
    cluster whose name has no URI delimiter and every non-empty password of letters and
    digits, which is what the generator produces, the Secret has all required keys with
    non-empty values, its URI is the one LibpqURI builds from the other entries, and a
    libpq reader of the URI finds exactly the user, password, host, port and database of
    the other entries; the host is the name of the primary Service, without a domain. *)
Theorem credential_secret_complete (known : string -> bool) (c : PostgresCluster) (pw : string) :
  sall uri_plain (Naming.cluster_Name c) = true -> sall Password.alnum pw = true -> pw <> "" ->
  let data := sec_StringData (Resources.BuildCredentialSecret c pw) in
  let entry := fun k => default "" (data !! k) in
  Has data [] = true /\ MissingKeys data [] = [] /\
  entry URI = LibpqURI (entry Host) (entry Port) (entry Database) (entry Username) (entry Password_) /\
  read_uri known (entry URI) =
    Some (connection (entry Username) (entry Password_) (entry Host) (entry Port) (entry Database)) /\
  entry Password_ = pw /\ entry Host = Naming.cluster_Name c +:+ "-primary".
Proof.
  intros Hn Hpw Hne data entry.
  assert (Hc : (Naming.cluster_Name c +:+ "-primary" =? "")%string = false) by by destruct (Naming.cluster_Name c).
  assert (Hh : Has data [] = true).
  { assert (H1 : missing data Password_ = false) by (change ((pw =? "")%string = false); by apply String.eqb_neq).
    assert (H2 : missing data Host = false) by exact Hc.
    unfold Has. cbn [keys_or_required Required has_all]. by rewrite H1, H2. }
  assert (Hu : entry URI = LibpqURI (entry Host) (entry Port) (entry Database) (entry Username) (entry Password_)).
  { unfold LibpqURI. change (entry Password_) with pw. destruct (String.eqb_spec pw ""); [done|]. reflexivity. }
  split_and!; [done|by apply Has_iff_no_missing|done| |done|done].
  rewrite Hu. apply read_LibpqURI; [|done|done|].
  - repeat constructor; try done.
    + change (entry Host) with (Naming.PrimaryServiceName c). unfold Naming.PrimaryServiceName. by rewrite sall_app, Hn.
    + by apply String.eqb_neq.
  - eapply sall_impl; [|exact Hpw]. intros d Hd. revert Hd. Shell.byte_cases d.
Qed.

Lemma credential_secret_complete_witness :
  Has (sec_StringData (Resources.BuildCredentialSecret Status.sample_cluster "abcDEF123")) [] = true.
Proof.
  apply (credential_secret_complete (fun _ => true) Status.sample_cluster "abcDEF123");
    [reflexivity|reflexivity|discriminate].
Defined.

(** Nothing is escaped: a password with an at sign moves the end of the credentials, so
    that a reader of the URI connects to another host; a password with an ampersand adds a
    parameter of its own to the JDBC URL. *)
Theorem unescaped_password_misread (known : string -> bool) (h p d u : string) :
  read_uri known (LibpqURI "db-primary" "5432" "postgres" "postgres" "x@evil:1/y") =
    Some (connection "postgres" "x" "evil" "1" "y@db-primary:5432/postgres") /\
  JDBCFromLibpq h p d u "x&sslmode=disable" = JDBCFromLibpq h p d u "x" +:+ "&sslmode=disable".
Proof.
  split; [vm_compute; reflexivity|].
  unfold JDBCFromLibpq. cbn [String.eqb]. by rewrite !app_assoc_s.
Qed.

End SecretKey.
