(* ===== verification/Tuning.v ===== *)
(** * Resource, storage and connection tuning

    internal/resourcerequests, internal/storageclass and internal/keepalive, one module
    each.  Quantities are exact amounts; durations are 64-bit nanoseconds with the
    wrap-around of Go. *)

From Stdlib Require Import ZArith Lia List Bool.
From stdpp Require Import base list strings gmap.
From S2P Require Import Prelude GoStrings K8s.

Local Open Scope Z_scope.

Module ResourceRequests.

(** Parsed quantity literals. *)
Definition mebi : Z := 1024 * 1024.
Definition DefaultCPURequest : Quantity := {| q_nano := 250 * 1000000; q_text := "250m" |}.
Definition DefaultMemoryRequest : Quantity := {| q_nano := 256 * mebi * nano; q_text := "256Mi" |}.
Definition DefaultCPULimit : Quantity := {| q_nano := nano; q_text := "1" |}.
Definition DefaultMemoryLimit : Quantity := {| q_nano := 1024 * mebi * nano; q_text := "1Gi" |}.

Definition Default : ResourceRequirements :=
  {| rr_Requests := {[ "cpu" := DefaultCPURequest; "memory" := DefaultMemoryRequest ]};
     rr_Limits := {[ "cpu" := DefaultCPULimit; "memory" := DefaultMemoryLimit ]} |}.

(** [for k, v := range overlay { if !v.IsZero() { out[k] = v } }]. *)
Definition merge_list (base overlay : gmap string Quantity) : gmap string Quantity :=
  filter (fun kv => q_IsZero kv.2 = false) overlay ∪ base.

Definition Merge (base overlay : ResourceRequirements) : ResourceRequirements :=
  {| rr_Requests := merge_list (rr_Requests base) (rr_Requests overlay);
     rr_Limits := merge_list (rr_Limits base) (rr_Limits overlay) |}.

Definition minimum : Z := 25.
Definition perConnMiB : Z := 10.
Definition headroomMiB : Z := 100.

(** Divisions truncate; [Value] is a 64-bit integer. *)
Definition AsMaxConnections (memoryLimit : Quantity) : Z :=
  let mi := Z.quot (q_Value memoryLimit) (1024 * 1024) in
  let avail := int64 (mi - headroomMiB) in
  if avail <=? 0 then minimum
  else
    let conn := Z.quot avail perConnMiB in
    if conn <? minimum then minimum else conn.

Lemma merge_list_lookup base overlay k :
  merge_list base overlay !! k =
  match overlay !! k with
  | Some q => if q_IsZero q then base !! k else Some q
  | None => base !! k
  end.
Proof.
  unfold merge_list. destruct (overlay !! k) as [q|] eqn:E.
  - destruct (q_IsZero q) eqn:Hz.
    + rewrite lookup_union_r; [done|]. apply map_lookup_filter_None. right. intros q' E'. rewrite E in E'.
      injection E' as <-. cbn. by rewrite Hz.
    + apply lookup_union_Some_l, map_lookup_filter_Some. done.
  - rewrite lookup_union_r; [done|]. apply map_lookup_filter_None. by left.
Qed.

(** The estimate is at least 25, never promises more connections than the memory beyond
    the headroom holds once it exceeds that minimum, and grows with the limit. *)
Theorem AsMaxConnections_bounds (q q' : Quantity) :
  in_int64 (q_Value q) = true -> in_int64 (q_Value q') = true ->
  minimum <= AsMaxConnections q /\
  (minimum < AsMaxConnections q -> (headroomMiB + perConnMiB * AsMaxConnections q) * mebi <= q_Value q) /\
  (q_Value q <= q_Value q' -> AsMaxConnections q <= AsMaxConnections q').
Proof.
  intros Hq Hq'. unfold in_int64, min_int64, max_int64 in *. breflect.
  assert (Hw : forall z, - 2 ^ 63 <= z <= 2 ^ 63 - 1 ->
            int64 (Z.quot z (1024 * 1024) - headroomMiB) = Z.quot z (1024 * 1024) - headroomMiB).
  { intros z Hz. apply int64_id. unfold in_int64, min_int64, max_int64, headroomMiB.
    apply andb_true_intro. split; apply Z.leb_le; dlia. }
  unfold AsMaxConnections, minimum, perConnMiB, mebi in *. rewrite !Hw by lia. unfold headroomMiB.
  set (v := q_Value q) in *. set (v' := q_Value q') in *. clearbody v v'.
  split_and!.
  - repeat case_match; breflect; lia.
  - destruct (Z.leb_spec (Z.quot v (1024 * 1024) - 100) 0); [lia|].
    destruct (Z.ltb_spec (Z.quot (Z.quot v (1024 * 1024) - 100) 10) 25); [lia|]. intros _. dlia.
  - intros Hv.
    assert (Z.quot v (1024 * 1024) <= Z.quot v' (1024 * 1024)) by (apply Z.quot_le_mono; lia).
    set (a := Z.quot v _) in *. set (b := Z.quot v' _) in *. clearbody a b.
    destruct (Z.leb_spec (a - 100) 0); destruct (Z.leb_spec (b - 100) 0); try lia.
    + destruct (Z.ltb_spec (Z.quot (b - 100) 10) 25); lia.
    + assert (Z.quot (a - 100) 10 <= Z.quot (b - 100) 10) by (apply Z.quot_le_mono; lia).
      destruct (Z.ltb_spec (Z.quot (a - 100) 10) 25), (Z.ltb_spec (Z.quot (b - 100) 10) 25); lia.
Qed.

Lemma AsMaxConnections_bounds_witness :
  AsMaxConnections DefaultMemoryLimit = 92 /\ minimum <= AsMaxConnections DefaultMemoryLimit.
Proof.
  split; [vm_compute; reflexivity|].
  apply (AsMaxConnections_bounds DefaultMemoryLimit DefaultMemoryLimit); vm_compute; reflexivity.
Defined.

(** Merging keeps the base where the overlay is absent or zero and takes the overlay
    elsewhere; the result of merging the defaults with an overlay always has a request and
    a limit for CPU and memory, but its requests may exceed its limits. *)
Theorem Merge_overrides base overlay k :
  rr_Requests (Merge base overlay) !! k =
    match rr_Requests overlay !! k with
    | Some q => if q_IsZero q then rr_Requests base !! k else Some q
    | None => rr_Requests base !! k
    end /\
  Merge (Merge base overlay) overlay = Merge base overlay /\
  (forall r, r ∈ ["cpu"; "memory"] -> is_Some (rr_Requests (Merge Default overlay) !! r) /\ is_Some (rr_Limits (Merge Default overlay) !! r)) /\
  (exists o r l, rr_Requests (Merge Default o) !! "cpu" = Some r /\ rr_Limits (Merge Default o) !! "cpu" = Some l /\ q_nano l < q_nano r).
Proof.
  split; [apply merge_list_lookup|]. split; [|split].
  - unfold Merge. cbn. f_equal; apply map_eq; intros j; rewrite !merge_list_lookup; repeat case_match; done.
  - intros r Hr. cbn. rewrite !merge_list_lookup.
    assert (H1 : is_Some (rr_Requests Default !! r) /\ is_Some (rr_Limits Default !! r)).
    { apply list_elem_of_In in Hr. destruct Hr as [<-|[<-|[]]]; by split; eexists. }
    cbn in H1. destruct H1. split; repeat case_match; done.
  - exists {| rr_Requests := {[ "cpu" := {| q_nano := 2 * nano; q_text := "2" |} ]}; rr_Limits := ∅ |}.
    eexists _, _. split_and!; [vm_compute; reflexivity..|vm_compute; reflexivity].
Qed.

End ResourceRequests.

Module StorageClass.

Record VolumeRequest := {
  Name : string;
  Size : Quantity;
  StorageClassName : string;
  AccessMode : string;
  Labels : gmap string string;
}.

Definition DefaultAccessMode : string := "ReadWriteOnce".

Definition PVCTemplate (req : VolumeRequest) : PersistentVolumeClaim :=
  {| pvc_Name := Name req; pvc_Labels := Labels req;
     pvc_AccessModes := [if (AccessMode req =? "")%string then DefaultAccessMode else AccessMode req];
     pvc_Storage := Size req;
     pvc_StorageClassName := if (StorageClassName req =? "")%string then None else Some (StorageClassName req) |}.

(** [Cmp(...) > 0]. *)
Definition IsExpandable (existing desired : Quantity) : bool := q_nano existing <? q_nano desired.

Definition DefaultClassName : string := "".

(** A chain of expansions: each claim is larger than the one before. *)
Fixpoint expansions (q : Quantity) (qs : list Quantity) : bool :=
  match qs with
  | [] => true
  | q' :: qs' => IsExpandable q q' && expansions q' qs'
  end.

(** Expansion is a strict order: no sequence of expansions leads back to a size that is not
    larger than the first. *)
Theorem expansion_grows q qs q' :
  expansions q (qs ++ [q']) = true -> IsExpandable q q' = true /\ IsExpandable q' q = false.
Proof.
  revert q. induction qs as [|r qs IH]; intros q; cbn [app expansions]; intros H; apply andb_prop in H as [H1 H2].
  - split; [done|]. unfold IsExpandable in *. breflect. apply Z.ltb_ge. lia.
  - apply IH in H2 as [H2 H3]. unfold IsExpandable in *. breflect. split; [apply Z.ltb_lt|apply Z.ltb_ge]; lia.
Qed.

Lemma expansion_grows_witness :
  IsExpandable {| q_nano := 1; q_text := "1n" |} {| q_nano := 3; q_text := "3n" |} = true.
Proof. apply (expansion_grows _ [{| q_nano := 2; q_text := "2n" |}]). reflexivity. Defined.

End StorageClass.

Module Keepalive.

Definition Second : Z := 1000000000.
Definition Minute : Z := 60 * Second.

Definition DefaultIdle : Z := 30 * Second.
Definition DefaultInterval : Z := 30 * Second.
Definition DefaultMaxProbes : Z := 3.

Record Config := { Idle : Z; Interval : Z; MaxProbes : Z }.

Definition WithDefaults (c : Config) : Config :=
  {| Idle := if Idle c =? 0 then DefaultIdle else Idle c;
     Interval := if Interval c =? 0 then DefaultInterval else Interval c;
     MaxProbes := if MaxProbes c =? 0 then DefaultMaxProbes else MaxProbes c |}.

Definition DetectionWindow (c : Config) : Z :=
  let c := WithDefaults c in int64 (Idle c + int64 (Interval c * MaxProbes c)).

Definition IsAggressive (c : Config) : bool :=
  let c := WithDefaults c in
  if Interval c <=? 0 then true else 30 <? Z.quot Minute (Interval c).

(** The moment a peer that went silent is declared dead: the probes are sent one interval
    apart after the idle time, and one more interval passes before the last counts as
    lost. *)
Fixpoint probe_times (start interval : Z) (n : nat) : list Z :=
  match n with O => [] | S n' => start :: probe_times (start + interval) interval n' end.

Lemma probe_times_last start interval n t :
  last (probe_times start interval (S n)) = Some t -> t = start + Z.of_nat n * interval.
Proof.
  revert start. induction n as [|n IH]; intros start; [cbn; intros [= <-]; lia|].
  change (probe_times start interval (S (S n))) with (start :: probe_times (start + interval) interval (S n)).
  change (last (start :: probe_times (start + interval) interval (S n))) with (last (probe_times (start + interval) interval (S n))).
  intros H%IH. lia.
Qed.

(** The window is the time until the last probe is lost: without overflow it is the time
    of the last of the [MaxProbes] probes plus one interval; with the defaults it is two
    minutes.  A window that does not fit 64 bits wraps around and can be negative. *)
Theorem DetectionWindow_last_probe (c : Config) (n : nat) :
  MaxProbes (WithDefaults c) = Z.of_nat (S n) ->
  in_int64 (Interval (WithDefaults c) * MaxProbes (WithDefaults c)) = true ->
  in_int64 (Idle (WithDefaults c) + Interval (WithDefaults c) * MaxProbes (WithDefaults c)) = true ->
  (forall t, last (probe_times (Idle (WithDefaults c)) (Interval (WithDefaults c)) (S n)) = Some t ->
     DetectionWindow c = t + Interval (WithDefaults c)) /\
  DetectionWindow {| Idle := 0; Interval := 0; MaxProbes := 0 |} = 2 * Minute /\
  DetectionWindow {| Idle := 0; Interval := 0; MaxProbes := 400000000 |} < 0.
Proof.
  intros Hn H1 H2. split_and!; [|vm_compute; reflexivity..].
  intros t Ht%probe_times_last. unfold DetectionWindow. cbv zeta.
  rewrite (int64_id _ H1), (int64_id _ H2), Hn. subst t. rewrite Nat2Z.inj_succ. lia.
Qed.

Lemma DetectionWindow_last_probe_witness :
  DetectionWindow {| Idle := 10 * Second; Interval := 5 * Second; MaxProbes := 4 |} = 25 * Second + 5 * Second.
Proof.
  apply (DetectionWindow_last_probe {| Idle := 10 * Second; Interval := 5 * Second; MaxProbes := 4 |} 3); reflexivity.
Defined.

(** A configuration counts as aggressive when its interval is not positive or 31 probes
    fit into a minute.  The number of probes per minute is truncated, so that an interval
    of 1.95 seconds, which makes more than 30 probes per minute, does not count. *)
Theorem IsAggressive_iff (c : Config) :
  (IsAggressive c = true <-> Interval (WithDefaults c) <= 0 \/ 31 * Interval (WithDefaults c) <= Minute) /\
  IsAggressive {| Idle := 0; Interval := 1950000000; MaxProbes := 0 |} = false /\ 30 * 1950000000 < Minute.
Proof.
  split; [|split; vm_compute; reflexivity]. unfold IsAggressive. cbv zeta.
  set (i := Interval (WithDefaults c)). clearbody i. destruct (Z.leb_spec i 0) as [Hi|Hi].
  - split; [by left|done].
  - rewrite Z.ltb_lt. unfold Minute, Second. rewrite Z.quot_div_nonneg by lia. split.
    + intros H. right. pose proof (Z.mul_div_le (60 * 1000000000) i Hi). nia.
    + intros [H|H]; [lia|]. assert (31 <= 60 * 1000000000 / i); [|lia]. apply Z.div_le_lower_bound; lia.
Qed.

End Keepalive.
