(* ===== verification/Probes.v ===== *)
(** * Probes and sidecars (internal/probe/probe.go, internal/sidecar/sidecar.go)

    The constructors of probes and of the two sidecar containers, against the API server's
    rules for probes and the objects of a cluster they refer to. *)

From Stdlib Require Import ZArith Lia List Bool.
From stdpp Require Import base list strings gmap.
From S2P Require Import Prelude GoStrings K8s Api PgConfig PgStatus PgResources Pgbouncer SecretKey.

Local Open Scope Z_scope.

Module ProbeBuilder.

Definition DefaultInitialDelaySeconds : Z := 30.
Definition DefaultPeriodSeconds : Z := 10.
Definition DefaultTimeoutSeconds : Z := 5.
Definition DefaultSuccessThreshold : Z := 1.
Definition DefaultFailureThreshold : Z := 6.
Definition PostgresPort : Z := 5432.

Record Timing := {
  InitialDelaySeconds : Z;
  PeriodSeconds : Z;
  TimeoutSeconds : Z;
  SuccessThreshold : Z;
  FailureThreshold : Z;
}.

Definition or_default (z d : Z) : Z := if z =? 0 then d else z.

Definition withDefaults (t : Timing) : Timing :=
  {| InitialDelaySeconds := or_default (InitialDelaySeconds t) DefaultInitialDelaySeconds;
     PeriodSeconds := or_default (PeriodSeconds t) DefaultPeriodSeconds;
     TimeoutSeconds := or_default (TimeoutSeconds t) DefaultTimeoutSeconds;
     SuccessThreshold := or_default (SuccessThreshold t) DefaultSuccessThreshold;
     FailureThreshold := or_default (FailureThreshold t) DefaultFailureThreshold |}.

(** The probe with a handler and the timing of [t]. *)
Definition probe_of (h : ProbeHandler) (t : Timing) : Probe :=
  {| pr_Handler := h; pr_InitialDelaySeconds := InitialDelaySeconds t; pr_PeriodSeconds := PeriodSeconds t;
     pr_TimeoutSeconds := TimeoutSeconds t; pr_SuccessThreshold := SuccessThreshold t;
     pr_FailureThreshold := FailureThreshold t |}.

Definition isready : ProbeHandler := ExecAction ["pg_isready"; "-U"; "postgres"; "-h"; "127.0.0.1"].

Definition LivenessProbe (t : Timing) : Probe := probe_of isready (withDefaults t).
Definition ReadinessProbe (t : Timing) : Probe := probe_of isready (withDefaults t).

Definition StartupProbe (t : Timing) : Probe :=
  let t := withDefaults t in
  let t := if FailureThreshold t <? 30
           then {| InitialDelaySeconds := InitialDelaySeconds t; PeriodSeconds := PeriodSeconds t;
                   TimeoutSeconds := TimeoutSeconds t; SuccessThreshold := SuccessThreshold t; FailureThreshold := 30 |}
           else t in
  probe_of (TCPSocketAction (intstr_FromInt PostgresPort)) t.

Definition zero_timing : Timing :=
  {| InitialDelaySeconds := 0; PeriodSeconds := 0; TimeoutSeconds := 0; SuccessThreshold := 0; FailureThreshold := 0 |}.

Definition PgBouncerLivenessProbe (port : Z) : Probe :=
  let port := if port =? 0 then 6432 else port in
  probe_of (TCPSocketAction (intstr_FromInt port)) (withDefaults zero_timing).

Definition PgBouncerReadinessProbe (port : Z) : Probe := PgBouncerLivenessProbe port.

Definition HTTPGetProbe (path : string) (port : Z) (t : Timing) : Probe :=
  probe_of (HTTPGetAction path (intstr_FromInt port)) (withDefaults t).

(** ** The API server's rules *)

(** What every probe must satisfy, and what liveness and startup probes must in addition. *)
Definition probe_valid (p : Probe) : bool :=
  (0 <=? pr_InitialDelaySeconds p) && (1 <=? pr_PeriodSeconds p) && (1 <=? pr_TimeoutSeconds p)
  && (1 <=? pr_SuccessThreshold p) && (1 <=? pr_FailureThreshold p)
  && match pr_Handler p with
     | ExecAction cmd => negb (bool_decide (cmd = []))
     | TCPSocketAction (IntVal z) => (1 <=? z) && (z <=? 65535)
     | HTTPGetAction path (IntVal z) => (1 <=? z) && (z <=? 65535) && negb (path =? "")%string
     | _ => false
     end.

Definition restart_probe_valid (p : Probe) : bool := probe_valid p && (pr_SuccessThreshold p =? 1).

Definition timing_ok (t : Timing) : Prop :=
  0 <= InitialDelaySeconds t /\ 0 <= PeriodSeconds t /\ 0 <= TimeoutSeconds t /\ 0 <= SuccessThreshold t /\
  0 <= FailureThreshold t.

(** Seconds from the start of the container to its first restart by the probe. *)
Definition grace_seconds (p : Probe) : Z := pr_InitialDelaySeconds p + pr_PeriodSeconds p * pr_FailureThreshold p.

Lemma probe_of_valid h t :
  timing_ok t ->
  match h with ExecAction cmd => cmd <> [] | TCPSocketAction (IntVal z) => 1 <= z <= 65535
          | HTTPGetAction path (IntVal z) => 1 <= z <= 65535 /\ path <> "" | _ => False end ->
  probe_valid (probe_of h (withDefaults t)) = true.
Proof.
  intros (H1 & H2 & H3 & H4 & H5) Hh. unfold probe_valid, probe_of, withDefaults, or_default. cbn -[Z.leb].
  unfold DefaultInitialDelaySeconds, DefaultPeriodSeconds, DefaultTimeoutSeconds, DefaultSuccessThreshold, DefaultFailureThreshold.
  repeat (apply andb_true_intro; split); try (match goal with |- context [?z =? 0] => destruct (Z.eqb_spec z 0) end; apply Z.leb_le; lia).
  destruct h as [cmd|[z|s]|path [z|s]]; try done.
  - apply negb_true_iff. by apply bool_decide_eq_false.
  - apply andb_true_intro. split; apply Z.leb_le; lia.
  - destruct Hh as [Hz Hp]. repeat (apply andb_true_intro; split); try (apply Z.leb_le; lia).
    apply negb_true_iff. by apply String.eqb_neq.
Qed.

(** Every probe the package builds from non-negative timings is one the API server
    accepts: positive period, timeout and thresholds, a non-empty command or a port in
    range; liveness and startup probes also need a success threshold that is unset or one,
    which the package does not enforce.  A startup probe fails at least 30 times before the
    container is restarted and waits at least as long as a liveness probe of the same
    timing. *)
Theorem probes_valid (t : Timing) (path : string) (port : Z) :
  timing_ok t -> 0 <= port <= 65535 ->
  probe_valid (ReadinessProbe t) = true /\
  (restart_probe_valid (LivenessProbe t) = true <-> SuccessThreshold t = 0 \/ SuccessThreshold t = 1) /\
  probe_valid (StartupProbe t) = true /\ 30 <= pr_FailureThreshold (StartupProbe t) /\
  grace_seconds (LivenessProbe t) <= grace_seconds (StartupProbe t) /\
  restart_probe_valid (PgBouncerLivenessProbe port) = true /\
  (1 <= port -> path <> "" -> probe_valid (HTTPGetProbe path port t) = true).
Proof.
  intros Ht Hp.
  assert (Hi : forall z, 0 <= z <= 65535 -> intstr_FromInt z = IntVal z).
  { intros z Hz. unfold intstr_FromInt. rewrite int32_id; [done|].
    unfold in_int32, min_int32, max_int32. apply andb_true_intro. split; apply Z.leb_le; lia. }
  assert (Hl : probe_valid (LivenessProbe t) = true) by by apply probe_of_valid.
  assert (Hs : forall f, FailureThreshold t <= f -> timing_ok {| InitialDelaySeconds := InitialDelaySeconds t;
    PeriodSeconds := PeriodSeconds t; TimeoutSeconds := TimeoutSeconds t; SuccessThreshold := SuccessThreshold t;
    FailureThreshold := f |}) by (intros f Hf; destruct Ht as (? & ? & ? & ? & ?); repeat split; cbn; lia).
  pose proof Ht as (H1 & H2 & H3 & H4 & H5).
  assert (Hst : StartupProbe t = probe_of (TCPSocketAction (IntVal 5432)) (withDefaults
    {| InitialDelaySeconds := InitialDelaySeconds t; PeriodSeconds := PeriodSeconds t; TimeoutSeconds := TimeoutSeconds t;
       SuccessThreshold := SuccessThreshold t; FailureThreshold := Z.max 30 (FailureThreshold t) |})).
  { unfold StartupProbe, PostgresPort. rewrite Hi by lia. f_equal. unfold withDefaults, or_default, DefaultFailureThreshold.
    cbn -[Z.ltb Z.max]. destruct (Z.eqb_spec (FailureThreshold t) 0) as [E|E].
    - rewrite E. done.
    - destruct (Z.eqb_spec (Z.max 30 (FailureThreshold t)) 0); [lia|].
      destruct (Z.ltb_spec (FailureThreshold t) 30); f_equal; lia. }
  split_and!.
  - done.
  - unfold restart_probe_valid. rewrite Hl. cbn. unfold or_default, DefaultSuccessThreshold.
    destruct (Z.eqb_spec (SuccessThreshold t) 0) as [->|]; [split; [by left|done]|].
    rewrite Z.eqb_eq. split; [by right|]. by intros [?|?].
  - rewrite Hst. apply probe_of_valid; [apply Hs; lia|lia].
  - rewrite Hst. cbn. unfold or_default. destruct (Z.eqb_spec (Z.max 30 (FailureThreshold t)) 0); lia.
  - rewrite Hst. unfold grace_seconds. cbn -[Z.max Z.mul]. unfold or_default, DefaultFailureThreshold, DefaultPeriodSeconds.
    destruct (Z.eqb_spec (FailureThreshold t) 0), (Z.eqb_spec (Z.max 30 (FailureThreshold t)) 0),
      (Z.eqb_spec (PeriodSeconds t) 0); nia.
  - unfold restart_probe_valid, PgBouncerLivenessProbe. rewrite Hi by (destruct (port =? 0); lia).
    apply andb_true_intro. split; [|done]. apply probe_of_valid; [repeat split; cbn; lia|].
    destruct (Z.eqb_spec port 0); lia.
  - intros Hp1 Hpath. unfold HTTPGetProbe. rewrite Hi by lia. apply probe_of_valid; [done|split; [lia|done]].
Qed.

Lemma probes_valid_witness : probe_valid (HTTPGetProbe "/healthz" 8081 zero_timing) = true.
Proof.
  apply (probes_valid zero_timing "/healthz" 8081); [repeat split; cbn; lia|lia|lia|discriminate].
Defined.

End ProbeBuilder.

Module Sidecar.

Definition DefaultExporterImage : string := "ghcr.io/prometheus-community/postgres-exporter:v0.15.0".
Definition DefaultWalUploader : string := "ghcr.io/wal-g/wal-g:v3.0.0".
Definition ExporterPort : Z := 9187.

Record ExporterSpec := { ex_Image : string; ex_DataSourceSecret : string; ex_DataSourceKey : string }.

Definition or_text (s d : string) : string := if (s =? "")%string then d else s.

Definition secret_env (name secret key : string) : EnvVar :=
  {| ev_Name := name; ev_Value := ""; ev_SecretKeyRef := Some {| sks_Name := secret; sks_Key := key |} |}.

(** Parsed quantity literals. *)
Definition cpu (m : Z) (t : string) : Quantity := {| q_nano := m * 1000000; q_text := t |}.
Definition mem (mi : Z) (t : string) : Quantity := {| q_nano := mi * (1024 * 1024) * nano; q_text := t |}.

Definition ExporterContainer (s : ExporterSpec) : Container :=
  {| c_Name := "exporter"; c_Image := or_text (ex_Image s) DefaultExporterImage; c_ImagePullPolicy := "IfNotPresent";
     c_Command := []; c_SecurityContext := None;
     c_Ports := [{| cp_Name := "metrics"; cp_ContainerPort := ExporterPort; cp_Protocol := "TCP" |}];
     c_Env := [secret_env "DATA_SOURCE_NAME" (ex_DataSourceSecret s) (or_text (ex_DataSourceKey s) "uri")];
     c_EnvFromSecrets := []; c_VolumeMounts := [];
     c_Resources := {| rr_Requests := {[ "cpu" := cpu 50 "50m"; "memory" := mem 64 "64Mi" ]};
                       rr_Limits := {[ "cpu" := cpu 200 "200m"; "memory" := mem 128 "128Mi" ]} |};
     c_ReadinessProbe := None;
     c_LivenessProbe := Some {| pr_Handler := TCPSocketAction (intstr_FromInt32 ExporterPort); pr_InitialDelaySeconds := 10;
                                pr_PeriodSeconds := 30; pr_TimeoutSeconds := 0; pr_SuccessThreshold := 0;
                                pr_FailureThreshold := 0 |} |}.

Record WALUploaderSpec := { wu_Image : string; wu_BucketURL : string; wu_CredsSecret : string }.

Definition uploader_env (s : WALUploaderSpec) : list EnvVar :=
  {| ev_Name := "WALG_S3_PREFIX"; ev_Value := wu_BucketURL s; ev_SecretKeyRef := None |}
  :: (if (wu_CredsSecret s =? "")%string then []
      else [secret_env "AWS_ACCESS_KEY_ID" (wu_CredsSecret s) "access-key-id";
            secret_env "AWS_SECRET_ACCESS_KEY" (wu_CredsSecret s) "secret-access-key"]).

Definition WALUploaderContainer (s : WALUploaderSpec) : result Container :=
  if (wu_BucketURL s =? "")%string then Err (ErrNew "sidecar: bucket URL is required")
  else Ok {| c_Name := "wal-uploader"; c_Image := or_text (wu_Image s) DefaultWalUploader;
             c_ImagePullPolicy := "IfNotPresent"; c_Command := ["/usr/bin/wal-g"; "wal-push-stream"];
             c_SecurityContext := None; c_Ports := []; c_Env := uploader_env s; c_EnvFromSecrets := [];
             c_VolumeMounts := []; c_Resources := no_resources; c_ReadinessProbe := None; c_LivenessProbe := None |}.

(** A container whose requests stay below its limits. *)
Definition requests_fit (r : ResourceRequirements) : bool :=
  forallb (fun kv => match (rr_Limits r : gmap string Quantity) !! kv.1 with Some l => q_nano kv.2 <=? q_nano l | None => true end)
    (map_to_list (rr_Requests r : gmap string Quantity)).

(** The sidecars fit the cluster they are added to: the exporter, pointed at the credential
    Secret, reads the connection URI that Secret has, listens on the registered metrics
    port, which its probe checks, and requests no more than its limits; the uploader exists
    exactly when there is a bucket, hands over both or neither of the storage keys, and has
    a name that differs from the exporter's. *)
Theorem sidecars_fit (c : PostgresCluster) (pw : string) (image : string) (u : WALUploaderSpec) :
  let e := ExporterContainer {| ex_Image := image; ex_DataSourceSecret := Naming.SecretName c; ex_DataSourceKey := "" |} in
  Forall (Resources.env_resolves (Resources.BuildCredentialSecret c pw)) (c_Env e) /\
  (sks_Key <$> (head (c_Env e) ≫= ev_SecretKeyRef)) = Some SecretKey.URI /\
  Forall (fun p => cp_ContainerPort p = Portmap.MetricsPort /\
            (pr_Handler <$> c_LivenessProbe e) = Some (TCPSocketAction (IntVal (cp_ContainerPort p)))) (c_Ports e) /\
  requests_fit (c_Resources e) = true /\
  match WALUploaderContainer u with
  | Err _ => wu_BucketURL u = ""
  | Ok k => wu_BucketURL u <> "" /\ c_Name k <> c_Name e /\ c_Image k <> "" /\ NoDup (ev_Name <$> c_Env k) /\
      ("AWS_ACCESS_KEY_ID" ∈ (ev_Name <$> c_Env k) <-> wu_CredsSecret u <> "") /\
      ("AWS_SECRET_ACCESS_KEY" ∈ (ev_Name <$> c_Env k) <-> wu_CredsSecret u <> "")
  end.
Proof.
  intros e. split_and!.
  - repeat constructor; by eexists.
  - done.
  - repeat constructor.
  - vm_compute. reflexivity.
  - unfold WALUploaderContainer. destruct (String.eqb_spec (wu_BucketURL u) ""); [done|].
    cbn. unfold uploader_env. split_and!; try done.
    + unfold or_text. by destruct (String.eqb_spec (wu_Image u) "").
    + destruct (wu_CredsSecret u =? "")%string; cbn; apply (bool_decide_unpack _); vm_compute; exact I.
    + destruct (String.eqb_spec (wu_CredsSecret u) "") as [->|]; cbn; set_solver.
    + destruct (String.eqb_spec (wu_CredsSecret u) "") as [->|]; cbn; set_solver.
Qed.

End Sidecar.
