(* ===== verification/Topology.v ===== *)
(** * Pod placement (internal/topology/topology.go)

    The affinity terms and spread constraints the package builds, and the scheduler's
    documented rules for them as step relations: which placements can arise when pods of
    one template are scheduled one after the other. *)

From Stdlib Require Import ZArith Lia List Bool.
From stdpp Require Import base list strings gmap.
From S2P Require Import Prelude GoStrings K8s Api PgConfig PgStatus PgResources.

Local Open Scope Z_scope.

Module Topology.

Definition KeyHostname : string := "kubernetes.io/hostname".
Definition KeyZone : string := "topology.kubernetes.io/zone".
Definition KeyRegion : string := "topology.kubernetes.io/region".

Definition Spread := string.
Definition SpreadNone : Spread := "None".
Definition SpreadHost : Spread := "Host".
Definition SpreadZone : Spread := "Zone".
Definition SpreadPreferHost : Spread := "PreferHost".
Definition SpreadPreferZone : Spread := "PreferZone".

Record PodAffinityTerm := { at_MatchLabels : gmap string string; at_TopologyKey : string }.
Record WeightedTerm := { wt_Weight : Z; wt_Term : PodAffinityTerm }.
Record PodAntiAffinity_ := { aa_Required : list PodAffinityTerm; aa_Preferred : list WeightedTerm }.

Definition term (selector : gmap string string) (topologyKey : string) : PodAffinityTerm :=
  {| at_MatchLabels := selector; at_TopologyKey := topologyKey |}.

Definition PodAntiAffinity (selector : gmap string string) (spread : Spread) : option PodAntiAffinity_ :=
  if (spread =? SpreadHost)%string then Some {| aa_Required := [term selector KeyHostname]; aa_Preferred := [] |}
  else if (spread =? SpreadZone)%string then Some {| aa_Required := [term selector KeyZone]; aa_Preferred := [] |}
  else if (spread =? SpreadPreferHost)%string
  then Some {| aa_Required := []; aa_Preferred := [{| wt_Weight := 100; wt_Term := term selector KeyHostname |}] |}
  else if (spread =? SpreadPreferZone)%string
  then Some {| aa_Required := []; aa_Preferred := [{| wt_Weight := 100; wt_Term := term selector KeyZone |}] |}
  else None.

Inductive Unsatisfiable := DoNotSchedule | ScheduleAnyway.

Record TopologySpreadConstraint := {
  ts_MaxSkew : Z;
  ts_TopologyKey : string;
  ts_WhenUnsatisfiable : Unsatisfiable;
  ts_MatchLabels : gmap string string;
}.

Definition Spreads (selector : gmap string string) : list TopologySpreadConstraint :=
  [{| ts_MaxSkew := 1; ts_TopologyKey := KeyHostname; ts_WhenUnsatisfiable := DoNotSchedule; ts_MatchLabels := selector |};
   {| ts_MaxSkew := 1; ts_TopologyKey := KeyZone; ts_WhenUnsatisfiable := ScheduleAnyway; ts_MatchLabels := selector |}].

Definition IsRequired (spread : Spread) : bool := (spread =? SpreadHost)%string || (spread =? SpreadZone)%string.

Definition is_one_of (s : string) (l : list string) : bool := existsb (String.eqb s) l.

Definition SpreadFromString (s : string) : Spread :=
  if (s =? "")%string then SpreadPreferHost
  else if is_one_of s ["None"; "none"] then SpreadNone
  else if is_one_of s ["Host"; "host"] then SpreadHost
  else if is_one_of s ["Zone"; "zone"] then SpreadZone
  else if is_one_of s ["PreferHost"; "preferHost"; "preferhost"] then SpreadPreferHost
  else if is_one_of s ["PreferZone"; "preferZone"; "preferzone"] then SpreadPreferZone
  else SpreadPreferHost.

(** ** Required anti-affinity *)

(** A placed pod: its labels and the labels of its node. *)
Definition placement : Type := list (gmap string string * gmap string string).

(** A term forbids a node in the domain of a placed pod that it selects; nodes without the
    topology label belong to no domain. *)
Definition blocks (t : PodAffinityTerm) (pl : placement) (node : gmap string string) : bool :=
  existsb (fun pn => bool_decide (selects (at_MatchLabels t) pn.1)
                     && match node !! at_TopologyKey t, pn.2 !! at_TopologyKey t with
                        | Some a, Some b => (a =? b)%string
                        | _, _ => false
                        end) pl.

(** Placements of pods that all have anti-affinity [a], newest first. *)
Inductive scheduled (a : option PodAntiAffinity_) : placement -> Prop :=
  | sched_none : scheduled a []
  | sched_pod pl labels node :
      scheduled a pl ->
      Forall (fun t => blocks t pl node = false) (match a with Some a => aa_Required a | None => [] end) ->
      scheduled a ((labels, node) :: pl).

(** The domains of a placement under a topology key. *)
Definition domains (key : string) (pl : placement) : list string := omap (fun pn => pn.2 !! key) pl.

Lemma blocks_domain sel key pl node d :
  Forall (fun pn => selects sel pn.1) pl -> node !! key = Some d -> blocks (term sel key) pl node = false ->
  d ∉ domains key pl.
Proof.
  intros Hs Hn Hb (pn & Hin & Hd)%list_elem_of_omap. apply not_true_iff_false in Hb. apply Hb.
  apply existsb_exists. exists pn. split; [by apply list_elem_of_In|]. cbn [at_MatchLabels at_TopologyKey term].
  rewrite Hn, Hd, String.eqb_refl, andb_true_r. apply bool_decide_eq_true. rewrite Forall_forall in Hs. by apply Hs.
Qed.

Lemma scheduled_distinct sel key a pl :
  a = Some {| aa_Required := [term sel key]; aa_Preferred := [] |} ->
  scheduled a pl -> Forall (fun pn => selects sel pn.1) pl -> NoDup (domains key pl).
Proof.
  intros ->. induction 1 as [|pl labels node Hpl IH Hb]; intros Hs; [constructor|].
  apply Forall_cons in Hs as [_ Hs]. apply Forall_cons in Hb as [Hb _]. unfold domains. cbn [omap list_omap snd].
  destruct (node !! key) as [d|] eqn:Hn; [|by apply IH]. constructor; [by eapply blocks_domain|by apply IH].
Qed.

Definition spread_key (spread : Spread) : string := if (spread =? SpreadHost)%string then KeyHostname else KeyZone.

Lemma domains_distinct key pl i j p q d :
  NoDup (domains key pl) -> pl !! i = Some p -> pl !! j = Some q ->
  p.2 !! key = Some d -> q.2 !! key = Some d -> i = j.
Proof.
  unfold domains. revert i j. induction pl as [|r pl IH]; intros i j Hnd Hi Hj Hp Hq; [done|].
  cbn [omap list_omap] in Hnd.
  assert (Hin : forall k x, pl !! k = Some x -> x.2 !! key = Some d -> d ∈ omap (fun pn => pn.2 !! key) pl).
  { intros k x Hk Hx. apply list_elem_of_omap. exists x. split; [|done]. by eapply list_elem_of_lookup_2. }
  destruct i as [|i], j as [|j]; cbn in Hi, Hj; [done| | |f_equal; eapply IH; [|done..]].
  - injection Hi as ->. rewrite Hp in Hnd. apply NoDup_cons in Hnd as [Hn _]. destruct Hn. by eapply Hin.
  - injection Hj as ->. rewrite Hq in Hnd. apply NoDup_cons in Hnd as [Hn _]. destruct Hn. by eapply Hin.
  - destruct (r.2 !! key); [by apply NoDup_cons in Hnd as [_ ?]|done].
Qed.

Lemma domains_length key pl : Forall (fun pn => is_Some (pn.2 !! key)) pl -> length (domains key pl) = length pl.
Proof.
  unfold domains. induction 1 as [|p pl [d Hd] _ IH]; [done|]. cbn [omap list_omap]. rewrite Hd. cbn [length]. by f_equal.
Qed.



(** ** Spread constraints *)

(** How many placed pods lie in a domain. *)
Definition count (key d : string) (pl : placement) : Z :=
  Z.of_nat (length (filter (fun x => x = d) (domains key pl))).

(** The scheduler places a pod in a domain of [ds] only if no domain then has more than
    [maxSkew] pods fewer. *)
Definition skew_ok (t : TopologySpreadConstraint) (ds : list string) (pl : placement) (d : string) : Prop :=
  Forall (fun d' => count (ts_TopologyKey t) d pl + 1 - count (ts_TopologyKey t) d' pl <= ts_MaxSkew t) ds.

Inductive spread_placed (ts : list TopologySpreadConstraint) (ds : string -> list string) : placement -> Prop :=
  | spread_none : spread_placed ts ds []
  | spread_pod pl labels node :
      spread_placed ts ds pl ->
      Forall (fun t => ts_WhenUnsatisfiable t = DoNotSchedule ->
                exists d, node !! ts_TopologyKey t = Some d /\ d ∈ ds (ts_TopologyKey t) /\ skew_ok t (ds (ts_TopologyKey t)) pl d) ts ->
      spread_placed ts ds ((labels, node) :: pl).

Lemma count_cons key d labels node pl :
  count key d ((labels, node) :: pl) = count key d pl + (if decide (node !! key = Some d) then 1 else 0).
Proof.
  unfold count, domains. cbn [omap list_omap snd]. destruct (node !! key) as [x|]; [|rewrite decide_False by done; by rewrite Z.add_0_r].
  rewrite filter_cons. case_decide as E.
  - subst x. rewrite decide_True by done. cbn [length]. by rewrite Nat2Z.inj_succ, Z.add_1_r.
  - rewrite decide_False by congruence. by rewrite Z.add_0_r.
Qed.

(** The spread constraints keep hosts balanced.  In every placement the scheduler can
    reach under the constraints of the package, any two eligible hosts differ by at most
    one pod, whatever the zones. *)
Theorem spreads_balanced (sel : gmap string string) (ds : string -> list string) (pl : placement) (a b : string) :
  spread_placed (Spreads sel) ds pl -> a ∈ ds KeyHostname -> b ∈ ds KeyHostname ->
  count KeyHostname a pl - count KeyHostname b pl <= 1.
Proof.
  intros Hpl Ha Hb. induction Hpl as [|pl labels node Hpl IH Ht] in a, b, Ha, Hb |- *; [change (0 - 0 <= 1); lia|].
  apply Forall_cons in Ht as [Ht _]. destruct (Ht eq_refl) as (d & Hn & Hd & Hk). cbn [ts_TopologyKey] in *.
  unfold skew_ok in Hk. rewrite Forall_forall in Hk. specialize (Hk b Hb). cbn [ts_TopologyKey ts_MaxSkew] in Hk.
  specialize (IH a b Ha Hb). rewrite !count_cons.
  destruct (decide (node !! KeyHostname = Some a)) as [E|E]; destruct (decide (node !! KeyHostname = Some b)); try lia.
  rewrite Hn in E. injection E as ->. lia.
Qed.

Lemma spreads_balanced_witness :
  count KeyHostname "n1" [(∅, {[ KeyHostname := "n2" ]}); (∅, {[ KeyHostname := "n1" ]})]
  - count KeyHostname "n2" [(∅, {[ KeyHostname := "n2" ]}); (∅, {[ KeyHostname := "n1" ]})] <= 1.
Proof.
  apply (spreads_balanced ∅ (fun _ => ["n1"; "n2"])); [|set_solver..].
  assert (Hz : forall pl n d, n !! KeyHostname = Some d -> d ∈ ["n1"; "n2"] ->
    Forall (fun d' => count KeyHostname d pl + 1 - count KeyHostname d' pl <= 1) ["n1"; "n2"] ->
    spread_placed (Spreads ∅) (fun _ => ["n1"; "n2"]) pl -> spread_placed (Spreads ∅) (fun _ => ["n1"; "n2"]) ((∅, n) :: pl)).
  { intros pl n d Hn Hd Hk Hpl. constructor; [exact Hpl|]. repeat (apply Forall_cons_2); [..|apply Forall_nil_2].
    - intros _. exists d. split; [exact Hn|]. split; [exact Hd|exact Hk].
    - intros E. discriminate E. }
  apply (Hz _ _ "n2"); [reflexivity|set_solver| |apply (Hz _ _ "n1"); [reflexivity|set_solver| |constructor]].
  - repeat (apply Forall_cons_2); [..|apply Forall_nil_2]; vm_compute; discriminate.
  - repeat (apply Forall_cons_2); [..|apply Forall_nil_2]; vm_compute; discriminate.
Defined.

(** Every spread mode is read back from its own name, and text that names no mode, such as
    an all-capital spelling, silently selects the default. *)
Theorem spread_names_roundtrip (spread : Spread) :
  (spread ∈ [SpreadNone; SpreadHost; SpreadZone; SpreadPreferHost; SpreadPreferZone] -> SpreadFromString spread = spread) /\
  SpreadFromString spread ∈ [SpreadNone; SpreadHost; SpreadZone; SpreadPreferHost; SpreadPreferZone] /\
  SpreadFromString "ZONE" = SpreadPreferHost.
Proof.
  split; [|split; [|reflexivity]].
  - intros H. apply list_elem_of_In in H. by destruct H as [<-|[<-|[<-|[<-|[<-|[]]]]]].
  - unfold SpreadFromString. repeat case_match; set_solver.
Qed.

End Topology.
