(* ===== verification/Certificates.v ===== *)
(** * TLS certificates (internal/certificate/certificate.go)

    The certificate templates, the PEM handling with its error paths, renewal and the
    subject alternative names.  Cryptography, DER and PEM encoding are the classes
    [Crypto] and [CryptoLaws]; times are nanoseconds. *)

From Stdlib Require Import ZArith Lia List Bool Ascii.
From stdpp Require Import base list strings gmap.
From S2P Require Import Prelude GoStrings K8s Api PgConfig PgStatus.

Local Open Scope Z_scope.
Local Open Scope athos_scope.

Module Certificate.

Definition Second : Z := 1000000000.
Definition Minute : Z := 60 * Second.
Definition Hour : Z := 60 * Minute.

Definition DefaultCertDuration : Z := 365 * 24 * Hour.
Definition DefaultRenewBefore : Z := 30 * 24 * Hour.
Definition CACommonNameSuffix : string := "-ca".
Definition ServerCommonNameSuffix : string := "-server".

Record KeyPair := { CertPEM : string; KeyPEM : string }.

Inductive KeyUsage := CertSign | CRLSign | DigitalSignature | KeyEncipherment.
Inductive ExtKeyUsage := ServerAuth | ClientAuth.

(** The fields of [x509.Certificate] the code sets or reads. *)
Record Cert := {
  SerialNumber : Z;
  CommonName : string;
  Organization : list string;
  Issuer : string;
  DNSNames : list string;
  NotBefore : Z;
  NotAfter : Z;
  IsCA : bool;
  Usage : list KeyUsage;
  ExtUsage : list ExtKeyUsage;
  BasicConstraintsValid : bool;
}.

(** ** Cryptography *)

Class Crypto (W : Type) := {
  PrivateKey : Type;
  PublicKey : Type;
  public : PrivateKey -> PublicKey;
  clock : W -> Z;
  cr_Now : M W Z;
  cr_GenerateKey : M W (result PrivateKey);
  cr_RandInt : Z -> M W (result Z);
  cr_Create : Cert -> Cert -> PublicKey -> PrivateKey -> M W (result string);
  ParseCertificate : string -> result Cert;
  MarshalECPrivateKey : PrivateKey -> result string;
  ParseECPrivateKey : string -> result PrivateKey;
  pem_Encode : string -> string -> string;
  pem_Decode : string -> option (string * string);
  signed_by : string -> PublicKey -> Prop;
  subject_key : string -> PublicKey -> Prop;
}.

(** Times in certificates have whole seconds. *)
Definition whole (t : Z) : Z := t - t mod Second.

(** What a certificate made from a template holds. *)
Definition made_from (template parent cert : Cert) : Prop :=
  SerialNumber cert = SerialNumber template /\ CommonName cert = CommonName template /\
  Issuer cert = CommonName parent /\ DNSNames cert = DNSNames template /\
  NotBefore cert = whole (NotBefore template) /\ NotAfter cert = whole (NotAfter template) /\
  IsCA cert = IsCA template /\ Usage cert = Usage template /\ ExtUsage cert = ExtUsage template.

Class CryptoLaws (W : Type) `{Crypto W} : Prop := {
  now_clock : forall w t w', cr_Now w = (t, w') -> clock w <= t /\ clock w' = t;
  key_clock : forall w r w', cr_GenerateKey w = (r, w') -> clock w <= clock w';
  rand_spec : forall max w r w', cr_RandInt max w = (r, w') -> clock w <= clock w' /\ forall n, r = Ok n -> 0 <= n < max;
  create_spec : forall t p pub k w r w', cr_Create t p pub k w = (r, w') -> clock w <= clock w' /\
    forall der, r = Ok der -> signed_by der (public k) /\ subject_key der pub /\
      exists cert, ParseCertificate der = Ok cert /\ made_from t p cert;
  marshal_parse : forall k der, MarshalECPrivateKey k = Ok der -> ParseECPrivateKey der = Ok k;
  pem_roundtrip : forall t b, t ∈ ["CERTIFICATE"; "EC PRIVATE KEY"] -> pem_Decode (pem_Encode t b) = Some (t, b);
}.

Section Operations.
Context {W : Type} `{Crypto W}.

Definition wrapped (pre : string) (e : error) : error := ErrWrap pre e "".

Definition randomSerial : M W (result Z) :=
  let! r := cr_RandInt (Z.shiftl 1 128) in
  ret match r with Err e => Err (wrapped "generating serial number: " e) | Ok n => Ok n end.

Definition pemEncode (certDER : string) (key : PrivateKey) : result KeyPair :=
  let certPEM := pem_Encode "CERTIFICATE" certDER in
  match MarshalECPrivateKey key with
  | Err e => Err (wrapped "marshalling private key: " e)
  | Ok keyDER => Ok {| CertPEM := certPEM; KeyPEM := pem_Encode "EC PRIVATE KEY" keyDER |}
  end.

Definition decodePEM (kp : KeyPair) : result (Cert * PrivateKey) :=
  match pem_Decode (CertPEM kp) with
  | None => Err (ErrNew "no certificate PEM block")
  | Some (_, certBytes) =>
      match ParseCertificate certBytes with
      | Err e => Err (wrapped "parsing certificate: " e)
      | Ok cert =>
          match pem_Decode (KeyPEM kp) with
          | None => Err (ErrNew "no key PEM block")
          | Some (_, keyBytes) =>
              match ParseECPrivateKey keyBytes with
              | Err e => Err (wrapped "parsing private key: " e)
              | Ok key => Ok (cert, key)
              end
          end
      end
  end.

Definition ca_template (clusterName : string) (serial notBefore notAfter : Z) : Cert :=
  {| SerialNumber := serial; CommonName := clusterName +:+ CACommonNameSuffix; Organization := ["athos-kubernetes"];
     Issuer := ""; DNSNames := []; NotBefore := notBefore; NotAfter := notAfter; IsCA := true;
     Usage := [CertSign; CRLSign]; ExtUsage := []; BasicConstraintsValid := true |}.

Definition server_template (clusterName : string) (sans : list string) (serial notBefore notAfter : Z) : Cert :=
  {| SerialNumber := serial; CommonName := clusterName +:+ ServerCommonNameSuffix; Organization := ["athos-kubernetes"];
     Issuer := ""; DNSNames := sans; NotBefore := notBefore; NotAfter := notAfter; IsCA := false;
     Usage := [DigitalSignature; KeyEncipherment]; ExtUsage := [ServerAuth; ClientAuth]; BasicConstraintsValid := false |}.

Definition GenerateCA (clusterName : string) (duration : Z) : M W (result KeyPair) :=
  let! rk := cr_GenerateKey in
  match rk with
  | Err e => ret (Err (wrapped "generating CA key: " e))
  | Ok key =>
      let! rs := randomSerial in
      match rs with
      | Err e => ret (Err e)
      | Ok serial =>
          let! t1 := cr_Now in
          let! t2 := cr_Now in
          let template := ca_template clusterName serial (t1 - Minute) (t2 + duration) in
          let! rc := cr_Create template template (public key) key in
          ret match rc with
              | Err e => Err (wrapped "creating CA certificate: " e)
              | Ok der => pemEncode der key
              end
      end
  end.

Definition GenerateServerCert (clusterName : string) (sans : list string) (ca : KeyPair) (duration : Z) : M W (result KeyPair) :=
  match decodePEM ca with
  | Err e => ret (Err (wrapped "decoding CA: " e))
  | Ok (caCert, caKey) =>
      let! rk := cr_GenerateKey in
      match rk with
      | Err e => ret (Err (wrapped "generating server key: " e))
      | Ok serverKey =>
          let! rs := randomSerial in
          match rs with
          | Err e => ret (Err e)
          | Ok serial =>
              let! t1 := cr_Now in
              let! t2 := cr_Now in
              let template := server_template clusterName sans serial (t1 - Minute) (t2 + duration) in
              let! rc := cr_Create template caCert (public serverKey) caKey in
              ret match rc with
                  | Err e => Err (wrapped "creating server certificate: " e)
                  | Ok der => pemEncode der serverKey
                  end
          end
      end
  end.

Definition NeedsRenewal (certPEM : string) (renewBefore : Z) : M W (result bool) :=
  match pem_Decode certPEM with
  | None => ret (Err (ErrNew "no PEM block found in certificate data"))
  | Some (_, bytes) =>
      match ParseCertificate bytes with
      | Err e => ret (Err (wrapped "parsing certificate: " e))
      | Ok cert => let! t := cr_Now in ret (Ok (NotAfter cert <? t + renewBefore))
      end
  end.

Definition ExpiresAt (certPEM : string) : result Z :=
  match pem_Decode certPEM with
  | None => Err (ErrNew "no PEM block found")
  | Some (_, bytes) =>
      match ParseCertificate bytes with
      | Err e => Err (wrapped "parsing certificate: " e)
      | Ok cert => Ok (NotAfter cert)
      end
  end.

End Operations.

Definition ServerSANs (clusterName namespace headlessSvcName : string) : list string :=
  [clusterName;
   clusterName +:+ "." +:+ namespace;
   clusterName +:+ "." +:+ namespace +:+ ".svc";
   clusterName +:+ "." +:+ namespace +:+ ".svc.cluster.local";
   "*." +:+ headlessSvcName +:+ "." +:+ namespace +:+ ".svc.cluster.local";
   "localhost"].

(** ** Issued certificates *)

Section Issued.
Context {W : Type} `{CryptoLaws W}.

(** A key pair: its certificate block, the certificate, its key, and who signed it. *)
Record issued (kp : KeyPair) (der : string) (cert : Cert) (key : PrivateKey) (signer : PublicKey) : Prop := {
  is_pem : pem_Decode (CertPEM kp) = Some ("CERTIFICATE", der);
  is_parsed : ParseCertificate der = Ok cert;
  is_decoded : decodePEM kp = Ok (cert, key);
  is_signed : signed_by der signer;
  is_subject : subject_key der (public key);
}.

(** The validity period lies around the time of the call. *)
Definition valid_around (cert : Cert) (before after_ duration : Z) : Prop :=
  NotBefore cert <= after_ - Minute /\ before + duration - Second < NotAfter cert <= after_ + duration.

Lemma whole_bounds t : t - Second < whole t <= t.
Proof. unfold whole. pose proof (Z.mod_pos_bound t Second ltac:(unfold Second; lia)). lia. Qed.

Lemma pemEncode_issued t p key signer der kp w w' :
  cr_Create t p (public key) signer w = (Ok der, w') -> pemEncode der key = Ok kp ->
  exists cert, issued kp der cert key (public signer) /\ made_from t p cert.
Proof.
  intros Hc Hp. destruct (create_spec _ _ _ _ _ _ _ Hc) as [_ Hd]. destruct (Hd der eq_refl) as (Hs & Hk & cert & Ep & Hm).
  exists cert. split; [|done]. unfold pemEncode in Hp. destruct (MarshalECPrivateKey key) as [kd|] eqn:Em; [|done].
  injection Hp as <-. constructor; cbn; try done; [apply pem_roundtrip; set_solver|].
  unfold decodePEM. cbn. rewrite !pem_roundtrip by set_solver. by rewrite Ep, (marshal_parse _ _ Em).
Qed.

(** Both generators end in the same steps: a serial number, the clock twice, create,
    encode. *)
Definition generate_tail (mk : Z -> Z -> Z -> Cert) (parent : Cert -> Cert) (key signer : PrivateKey) (duration : Z)
  (err : string) : M W (result KeyPair) :=
  let! rs := randomSerial in
  match rs with
  | Err e => ret (Err e)
  | Ok serial =>
      let! t1 := cr_Now in
      let! t2 := cr_Now in
      let template := mk serial (t1 - Minute) (t2 + duration) in
      let! rc := cr_Create template (parent template) (public key) signer in
      ret match rc with Err e => Err (wrapped err e) | Ok der => pemEncode der key end
  end.

Lemma generate_tail_issued mk parent key signer duration err w kp w' :
  (forall s a b, NotBefore (mk s a b) = a /\ NotAfter (mk s a b) = b) ->
  generate_tail mk parent key signer duration err w = (Ok kp, w') ->
  exists der cert s a b, issued kp der cert key (public signer) /\ made_from (mk s a b) (parent (mk s a b)) cert /\
    0 <= s < 2 ^ 128 /\ valid_around cert (clock w) (clock w') duration.
Proof.
  intros Hmk Hg. unfold generate_tail, randomSerial in Hg. apply bind_inv in Hg as (rs & v0 & E0 & Hg).
  apply bind_inv in E0 as (rr & v0' & Er & E0). injection E0 as <- <-.
  destruct (rand_spec _ _ _ _ Er) as [Hc1 Hr]. destruct rr as [s|]; [|done].
  apply bind_inv in Hg as (t1 & v1 & N1 & Hg). apply bind_inv in Hg as (t2 & v2 & N2 & Hg).
  cbv zeta in Hg. apply bind_inv in Hg as (rc & v3 & Ec & Hg).
  destruct (now_clock _ _ _ N1) as [Ht1 Hw1], (now_clock _ _ _ N2) as [Ht2 Hw2].
  destruct rc as [der|]; [|done]. injection Hg as Hp Hw. subst w'.
  destruct (create_spec _ _ _ _ _ _ _ Ec) as [Hc2 _].
  destruct (pemEncode_issued _ _ _ _ _ _ _ _ Ec Hp) as (cert & Hi & Hm).
  exists der, cert, s, (t1 - Minute), (t2 + duration). split; [done|]. split; [done|].
  split; [by apply Hr|]. destruct (Hmk s (t1 - Minute) (t2 + duration)) as [Hb Ha].
  destruct Hm as (_ & _ & _ & _ & Hnb & Hna & _). unfold valid_around. rewrite Hnb, Hna, Hb, Ha.
  pose proof (whole_bounds (t1 - Minute)). pose proof (whole_bounds (t2 + duration)). lia.
Qed.

Lemma GenerateCA_issued name duration w kp w' :
  GenerateCA name duration w = (Ok kp, w') ->
  exists der cert key, issued kp der cert key (public key) /\ CommonName cert = name +:+ CACommonNameSuffix /\
    Issuer cert = CommonName cert /\ IsCA cert = true /\ CertSign ∈ Usage cert /\ 0 <= SerialNumber cert < 2 ^ 128 /\
    valid_around cert (clock w) (clock w') duration.
Proof.
  intros Hg. unfold GenerateCA in Hg. mstep Hg. destruct a as [key|]; [|done].
  pose proof (key_clock _ _ _ E) as Hk.
  apply (generate_tail_issued (ca_template name) (fun t => t) key key duration) in Hg; [|done].
  destruct Hg as (der & cert & s & a & b & Hi & Hm & Hs & Hv). exists der, cert, key. split; [done|].
  destruct Hm as (E1 & E2 & E3 & E4 & E5 & E6 & E7 & E8 & E9). cbn in *.
  split_and!; [done|congruence|done|rewrite E8; set_solver|lia|lia|].
  unfold valid_around in *. lia.
Qed.

Lemma GenerateServerCert_issued name sans ca caDER caCert caKey signer duration w kp w' :
  issued ca caDER caCert caKey signer ->
  GenerateServerCert name sans ca duration w = (Ok kp, w') ->
  exists der cert key, issued kp der cert key (public caKey) /\ CommonName cert = name +:+ ServerCommonNameSuffix /\
    Issuer cert = CommonName caCert /\ IsCA cert = false /\ DNSNames cert = sans /\ ServerAuth ∈ ExtUsage cert /\
    valid_around cert (clock w) (clock w') duration.
Proof.
  intros Hca Hg. unfold GenerateServerCert in Hg. rewrite (is_decoded _ _ _ _ _ Hca) in Hg.
  mstep Hg. destruct a as [key|]; [|done]. pose proof (key_clock _ _ _ E) as Hk.
  apply (generate_tail_issued (server_template name sans) (fun _ => caCert) key caKey duration) in Hg; [|done].
  destruct Hg as (der & cert & s & a & b & Hi & Hm & Hs & Hv). exists der, cert, key. split; [done|].
  destruct Hm as (E1 & E2 & E3 & E4 & E5 & E6 & E7 & E8 & E9). cbn in *.
  split_and!; [done|done|done|done|rewrite E9; set_solver|].
  unfold valid_around in *. lia.
Qed.

(** C21: Generated certificates form a chain with the intended names and validity.  When
    GenerateCA and then GenerateServerCert with its result succeed, both key pairs decode.
    The certificate in the CA's PEM is signed with its own key, is a CA that may sign
    certificates, and is named [<name>-ca]; the certificate in the server's PEM is signed
    with the key the CA's certificate is for, names the CA as its issuer, is named
    [<name>-server], carries exactly the given host names, may authenticate a server and is
    no CA; its key belongs to it.  ExpiresAt lies within a second before the requested
    duration.  NeedsRenewal answers without an error, no while more than the renewal window
    remains, and yes once less than it remains. *)
Theorem issued_chain_valid name sans dCA dSrv renewBefore w0 ca w1 srv w2 w3 r w4 :
  GenerateCA name dCA w0 = (Ok ca, w1) ->
  GenerateServerCert name sans ca dSrv w1 = (Ok srv, w2) ->
  NeedsRenewal (CertPEM srv) renewBefore w3 = (r, w4) ->
  exists caDER caCert caKey srvDER srvCert srvKey expiry,
    pem_Decode (CertPEM ca) = Some ("CERTIFICATE", caDER) /\ decodePEM ca = Ok (caCert, caKey) /\
    signed_by caDER (public caKey) /\ subject_key caDER (public caKey) /\
    IsCA caCert = true /\ CertSign ∈ Usage caCert /\ CommonName caCert = name +:+ "-ca" /\
    pem_Decode (CertPEM srv) = Some ("CERTIFICATE", srvDER) /\ decodePEM srv = Ok (srvCert, srvKey) /\
    signed_by srvDER (public caKey) /\ subject_key srvDER (public srvKey) /\
    Issuer srvCert = CommonName caCert /\ CommonName srvCert = name +:+ "-server" /\
    DNSNames srvCert = sans /\ ServerAuth ∈ ExtUsage srvCert /\ IsCA srvCert = false /\
    NotBefore srvCert <= clock w2 - Minute /\
    ExpiresAt (CertPEM srv) = Ok expiry /\ clock w1 + dSrv - Second < expiry <= clock w2 + dSrv /\
    (clock w4 <= clock w1 + dSrv - renewBefore - Second -> r = Ok false) /\
    (clock w2 + dSrv - renewBefore < clock w4 -> r = Ok true).
Proof.
  intros Hca Hsrv Hr. destruct (GenerateCA_issued _ _ _ _ _ Hca) as (caDER & caCert & caKey & Ica & Hn & _ & Hic & Hus & _).
  destruct (GenerateServerCert_issued _ _ _ _ _ _ _ _ _ _ _ Ica Hsrv) as (der & cert & key & Is & Hcn & Hiss & Hnc & Hsans & Hext & Hb & Ha).
  assert (He : ExpiresAt (CertPEM srv) = Ok (NotAfter cert)).
  { unfold ExpiresAt. by rewrite (is_pem _ _ _ _ _ Is), (is_parsed _ _ _ _ _ Is). }
  unfold NeedsRenewal in Hr. rewrite (is_pem _ _ _ _ _ Is), (is_parsed _ _ _ _ _ Is) in Hr. mstep Hr.
  injection Hr as <- <-. destruct (now_clock _ _ _ E) as [_ Ht].
  exists caDER, caCert, caKey, der, cert, key, (NotAfter cert). destruct Ica, Is. split_and!; try done; try lia.
  - intros Hlt. f_equal. apply Z.ltb_ge. lia.
  - intros Hlt. f_equal. apply Z.ltb_lt. lia.
Qed.

End Issued.

(** ** A concrete certificate authority *)

#[local] Instance Cert_eq_dec : EqDecision Cert.
Proof.
  assert (EqDecision KeyUsage) by solve_decision. assert (EqDecision ExtKeyUsage) by solve_decision. solve_decision.
Defined.

Definition now0 : Z := 1700000000 * Second.
Definition ca_made : Cert := ca_template "db" 5 (now0 - Minute) (now0 + DefaultCertDuration).
Definition srv_made : Cert := server_template "db" ["db.prod"] 5 (now0 - Minute) (now0 + DefaultCertDuration).

Definition with_issuer (i : string) (c : Cert) : Cert :=
  {| SerialNumber := SerialNumber c; CommonName := CommonName c; Organization := Organization c; Issuer := i;
     DNSNames := DNSNames c; NotBefore := NotBefore c; NotAfter := NotAfter c; IsCA := IsCA c; Usage := Usage c;
     ExtUsage := ExtUsage c; BasicConstraintsValid := BasicConstraintsValid c |}.

(** A world with one key and a clock that stands still; it issues the two certificates of
    one cluster. *)
#[local] Instance sample_crypto : Crypto Z :=
  {| PrivateKey := unit; PublicKey := unit; public := fun k => k; clock := fun w => w;
     cr_Now := fun w => (w, w); cr_GenerateKey := fun w => (Ok tt, w); cr_RandInt := fun max w => (if 5 <? max then Ok 5 else Err (ErrNew "range"), w);
     cr_Create := fun t p _ _ w =>
       (if decide (t = ca_made /\ p = ca_made) then Ok "ca"
        else if decide (t = srv_made /\ p = with_issuer "db-ca" ca_made) then Ok "srv" else Err (ErrNew "unsupported"), w);
     ParseCertificate := fun der => if (der =? "ca")%string then Ok (with_issuer "db-ca" ca_made)
                                    else if (der =? "srv")%string then Ok (with_issuer "db-ca" srv_made)
                                    else Err (ErrNew "malformed");
     MarshalECPrivateKey := fun _ => Ok "key"; ParseECPrivateKey := fun _ => Ok tt;
     pem_Encode := fun t b => (if (t =? "CERTIFICATE")%string then "C" else "K") +:+ b;
     pem_Decode := fun s => match s with String "C" b => Some ("CERTIFICATE", b) | String "K" b => Some ("EC PRIVATE KEY", b) | _ => None end;
     signed_by := fun _ _ => True; subject_key := fun _ _ => True |}.

#[local] Instance sample_crypto_laws : CryptoLaws Z.
Proof.
  constructor; cbn.
  - intros w t w' [= <- <-]. lia.
  - intros w r w' [= _ <-]. lia.
  - intros max w r w' [= <- <-]. split; [lia|]. intros n. destruct (Z.ltb_spec 5 max); [|done]. intros [= <-]. lia.
  - intros t p pub k w r w' [= <- <-]. split; [lia|]. intros der.
    destruct (decide (t = ca_made /\ p = ca_made)) as [[-> ->]|_].
    { intros [= <-]. split; [done|]. split; [done|]. eexists. split; [reflexivity|]. repeat split. }
    destruct (decide (t = srv_made /\ p = with_issuer "db-ca" ca_made)) as [[-> ->]|_]; [|done].
    intros [= <-]. split; [done|]. split; [done|]. eexists. split; [reflexivity|]. repeat split.
  - by intros [] der _.
  - intros t b Ht. apply list_elem_of_In in Ht. by destruct Ht as [<-|[<-|[]]].
Qed.

Lemma issued_chain_valid_witness :
  exists ca srv, GenerateCA "db" DefaultCertDuration now0 = (Ok ca, now0) /\
    GenerateServerCert "db" ["db.prod"] ca DefaultCertDuration now0 = (Ok srv, now0) /\
    ExpiresAt (CertPEM srv) = Ok (now0 + DefaultCertDuration) /\
    NeedsRenewal (CertPEM srv) DefaultRenewBefore (now0 + 340 * 24 * Hour) = (Ok true, now0 + 340 * 24 * Hour).
Proof.
  set (ca := {| CertPEM := "Cca"; KeyPEM := "Kkey" |}). set (srv := {| CertPEM := "Csrv"; KeyPEM := "Kkey" |}).
  assert (H1 : GenerateCA "db" DefaultCertDuration now0 = (Ok ca, now0)) by (vm_compute; reflexivity).
  assert (H2 : GenerateServerCert "db" ["db.prod"] ca DefaultCertDuration now0 = (Ok srv, now0)) by (vm_compute; reflexivity).
  exists ca, srv. split; [exact H1|]. split; [exact H2|]. split; [vm_compute; reflexivity|].
  destruct (NeedsRenewal (CertPEM srv) DefaultRenewBefore (now0 + 340 * 24 * Hour)) as [r w4] eqn:Hr.
  assert (Hw : w4 = now0 + 340 * 24 * Hour) by (pose proof (f_equal snd Hr) as X; vm_compute in X; rewrite <- X; reflexivity).
  destruct (issued_chain_valid "db" ["db.prod"] _ _ _ _ _ _ _ _ _ _ _ H1 H2 Hr)
    as (caDER & caCert & caKey & srvDER & srvCert & srvKey & expiry & Hx).
  destruct Hx as (_ & _ & _ & _ & _ & _ & _ & _ & _ & _ & _ & _ & _ & _ & _ & _ & _ & _ & _ & _ & Hx). rewrite Hx; [by rewrite Hw|]. rewrite Hw. vm_compute. reflexivity.
Defined.

(** ** Host names *)

(** Host name verification of crypto/x509 on lower-case names: as many labels, equal one by
    one, where the first label of the pattern may be a star. *)
Definition match_host (pattern host : string) : bool :=
  match split_byte "." pattern, split_byte "." host with
  | p :: ps, h :: hs => ((p =? "*")%string || (p =? h)%string) && bool_decide (ps = hs)
  | _, _ => false
  end.

Definition covered (sans : list string) (host : string) : bool := existsb (fun p => match_host p host) sans.

Lemma split_dot a b : sall (neqc ".") a = true -> split_byte "." (a +:+ "." +:+ b) = a :: split_byte "." b.
Proof. intros Ha. apply (split_byte_app "." a b Ha). Qed.

Definition no_dot (s : string) : Prop := sall (neqc ".") s = true.

(** The labels of a qualified service name. *)
Lemma qualified_labels a ns : no_dot a -> no_dot ns ->
  split_byte "." (a +:+ "." +:+ ns +:+ ".svc.cluster.local") = [a; ns; "svc"; "cluster"; "local"].
Proof.
  intros Ha Hs. rewrite split_dot by done. change (ns +:+ ".svc.cluster.local") with (ns +:+ "." +:+ "svc.cluster.local").
  by rewrite split_dot.
Qed.

Lemma pod_no_dot c i : no_dot (Naming.cluster_Name c) -> no_dot (Naming.PodName c i).
Proof.
  intros Hn. unfold no_dot, Naming.PodName in *. rewrite !sall_app, Hn. cbn [andb sall]. unfold itoa.
  destruct (Z.ltb_spec i 0); [rewrite sall_app; apply andb_true_intro; split; [done|]|];
    (apply sall_digit_neq; [done|]; apply digits_all; lia).
Qed.

(** The names in a server certificate cover the pods of the cluster, each through the
    wildcard of the headless service, but not the primary service, neither by its bare
    name, which is the host of the credential Secret, nor by its qualified names. *)
Theorem sans_cover_pods (c : PostgresCluster) (i : Z) :
  no_dot (Naming.cluster_Name c) -> no_dot (Naming.cluster_Namespace c) -> Naming.cluster_Name c <> "*" ->
  let sans := ServerSANs (Naming.cluster_Name c) (Naming.cluster_Namespace c) (Naming.HeadlessServiceName c) in
  covered sans (Naming.PodFQDN c i) = true /\
  covered sans (Naming.PrimaryServiceName c) = false /\
  covered sans (Naming.PrimaryServiceName c +:+ "." +:+ Naming.cluster_Namespace c +:+ ".svc.cluster.local") = false.
Proof.
  intros Hn Hs Hstar sans. set (n := Naming.cluster_Name c) in *. set (ns := Naming.cluster_Namespace c) in *.
  assert (Hp : forall s, no_dot s -> no_dot (n +:+ s)) by (intros s Hx; unfold no_dot in *; by rewrite sall_app, Hn).
  assert (Eh : split_byte "." (Naming.HeadlessServiceName c +:+ "." +:+ ns +:+ ".svc.cluster.local") =
               [Naming.HeadlessServiceName c; ns; "svc"; "cluster"; "local"]) by (apply qualified_labels; [by apply Hp|done]).
  assert (En : split_byte "." (n +:+ "." +:+ ns) = [n; ns]) by (rewrite split_dot by done; by rewrite split_byte_none).
  assert (Es : split_byte "." (n +:+ "." +:+ ns +:+ ".svc") = [n; ns; "svc"]).
  { rewrite split_dot by done. change (ns +:+ ".svc") with (ns +:+ "." +:+ "svc"). by rewrite split_dot. }
  assert (Ep : split_byte "." (Naming.PrimaryServiceName c) = [n +:+ "-primary"]) by (apply split_byte_none; by apply Hp).
  assert (E1 : (n =? n +:+ "-primary")%string = false).
  { apply String.eqb_neq. intros E. apply (f_equal String.length) in E. rewrite length_app_s in E. cbn in E. lia. }
  assert (E2 : ("localhost" =? n +:+ "-primary")%string = false).
  { apply String.eqb_neq. intros E. apply (f_equal (sall (neqc "-"))) in E. rewrite sall_app in E.
    change (sall (neqc "-") "-primary") with false in E. by rewrite andb_false_r in E. }
  assert (E3 : (n =? "*")%string = false) by by apply String.eqb_neq.
  unfold covered, sans, ServerSANs. cbn [existsb]. unfold match_host. fold n ns.
  change ("*." +:+ ?x) with ("*" +:+ "." +:+ x). rewrite (split_dot "*"), Eh by done.
  rewrite (split_byte_none "." n), En, Es, (qualified_labels n ns) by done. change (split_byte "." "localhost") with ["localhost"].
  split_and!.
  - unfold Naming.PodFQDN. fold n ns. rewrite split_dot, Eh by (by apply pod_no_dot).
    rewrite (bool_decide_eq_true_2 ([Naming.HeadlessServiceName c; ns; "svc"; "cluster"; "local"] = _)) by done.
    rewrite !orb_true_iff. right. right. right. right. left. done.
  - rewrite Ep, E1, E2, E3. repeat case_bool_decide; done.
  - change (Naming.PrimaryServiceName c) with (n +:+ "-primary"). rewrite (qualified_labels (n +:+ "-primary")) by (done || by apply Hp).
    rewrite E1, E3. repeat case_bool_decide; try done; try congruence. by rewrite !andb_false_r.
Qed.

Lemma sans_cover_pods_witness :
  covered (ServerSANs "db" "prod" "db-pods") "db-2.db-pods.prod.svc.cluster.local" = true /\
  covered (ServerSANs "db" "prod" "db-pods") "db-primary" = false.
Proof.
  destruct (sans_cover_pods Status.sample_cluster 2) as (H1 & H2 & _); [reflexivity|reflexivity|discriminate|].
  split; [exact H1|exact H2].
Defined.

End Certificate.
