(* ===== verification/GoFlag.v ===== *)
(** * Command lines (the flag package as cmd/main.go and cmd/plugin/main.go use it)

    A flag set maps each name to the variable it sets, so that two names can share one
    variable, and to whether it is boolean; the variables hold texts.  [parse] follows
    [FlagSet.Parse] and [parseOne]. *)

From Stdlib Require Import ZArith Lia List Bool Ascii.
From stdpp Require Import base list strings gmap.
From S2P Require Import Prelude GoStrings Shell.

Local Open Scope Z_scope.

Module Flag.

(** A registered flag: is it boolean, and which variable does it set. *)
Record flag := { fl_bool : bool; fl_var : string }.
Definition formal_set := gmap string flag.
Definition values := gmap string string.

Inductive outcome :=
  | Parsed (vals : values) (args : list string)
  | HelpAsked
  | Failed (msg : string).

(** [strconv.ParseBool], the value printed back with [%v]. *)
Definition ParseBool (s : string) : option bool :=
  if bool_decide (s ∈ ["1"; "t"; "T"; "TRUE"; "true"; "True"]) then Some true
  else if bool_decide (s ∈ ["0"; "f"; "F"; "FALSE"; "false"; "False"]) then Some false
  else None.

Definition bool_text (b : bool) : string := if b then "true" else "false".

(** The first argument, read as a flag. *)
Inductive flag_word :=
  | NotFlag
  | Terminator
  | BadSyntax
  | Named (name : string) (value : option string).

(** The name is cut at the first equals sign that is not its first byte. *)
Definition cut_value (name : string) : flag_word :=
  match name with
  | EmptyString => BadSyntax
  | String c rest =>
      if Ascii.eqb c "-" || Ascii.eqb c "=" then BadSyntax
      else match index_byte "=" rest with
           | Some i => Named (String c (stake i rest)) (Some (sdrop (S i) rest))
           | None => Named name None
           end
  end.

Definition read_word (s : string) : flag_word :=
  match s with
  | String "-" (String "-" "") => Terminator
  | String "-" (String "-" name) => cut_value name
  | String "-" (String c name) => cut_value (String c name)
  | _ => NotFlag
  end.

Section Parse.
Context (T : UnicodeTables) (formal : formal_set).

Fixpoint parse (vals : values) (args : list string) : outcome :=
  match args with
  | [] => Parsed vals []
  | s :: rest =>
      match read_word s with
      | NotFlag => Parsed vals args
      | Terminator => Parsed vals rest
      | BadSyntax => Failed ("bad flag syntax: " +:+ s)
      | Named name value =>
          match formal !! name with
          | None =>
              if bool_decide (name ∈ ["help"; "h"]) then HelpAsked
              else Failed ("flag provided but not defined: -" +:+ name)
          | Some f =>
              if fl_bool f then
                match ParseBool (default "true" value) with
                | Some b => parse (<[fl_var f := bool_text b]> vals) rest
                | None => Failed ("invalid boolean value " +:+ Quote T (default "true" value)
                                  +:+ " for -" +:+ name +:+ ": parse error")
                end
              else
                match value, rest with
                | Some v, _ => parse (<[fl_var f := v]> vals) rest
                | None, v :: rest' => parse (<[fl_var f := v]> vals) rest'
                | None, [] => Failed ("flag needs an argument: -" +:+ name)
                end
          end
      end
  end.

(** ** Lemmas *)

(** A flag name that can be written on a command line. *)
Definition writable (name : string) : bool :=
  match name with
  | EmptyString => false
  | String c _ => negb (Ascii.eqb c "-") && sall (neqc "=") name
  end.

Lemma cut_value_plain name : writable name = true -> cut_value name = Named name None.
Proof.
  destruct name as [|c name]; [done|]. cbn. intros H. apply andb_prop in H as [H1 H2].
  apply andb_prop in H2 as [H2 H3]. unfold neqc in H2.
  rewrite Ascii.eqb_sym in H2.
  apply negb_true_iff in H1, H2. rewrite H1, H2. cbn. apply index_byte_None in H3. by rewrite H3.
Qed.

Lemma cut_value_equals name v :
  writable name = true -> cut_value (name +:+ String "=" v) = Named name (Some v).
Proof.
  destruct name as [|c name]; [done|]. rewrite app_cons_l. cbn [writable sall cut_value]. intros H. apply andb_prop in H as [H1 H2].
  apply andb_prop in H2 as [H2 H3]. unfold neqc in H2. rewrite Ascii.eqb_sym in H2.
  apply negb_true_iff in H1, H2. rewrite H1, H2. cbn [orb].
  rewrite index_byte_app by done.
  by rewrite stake_app, sdrop_past.
Qed.

Lemma read_dash name : writable name = true -> read_word ("-" +:+ name) = cut_value name.
Proof.
  destruct name as [|c name]; [done|]. intros H. cbn in H. apply andb_prop in H as [H _].
  change ("-" +:+ String c name) with (String "-" (String c name)). cbn.
  destruct c as [[] [] [] [] [] [] [] []]; try done.
Qed.

Lemma read_dashes name : writable name = true -> read_word ("--" +:+ name) = cut_value name.
Proof. by destruct name. Qed.

(** The spellings of one assignment of a string flag. *)
Inductive spelling (name v : string) : list string -> Prop :=
  | dash_next : spelling name v ["-" +:+ name; v]
  | dashes_next : spelling name v ["--" +:+ name; v]
  | dash_equals : spelling name v ["-" +:+ name +:+ String "=" v]
  | dashes_equals : spelling name v ["--" +:+ name +:+ String "=" v].

Lemma writable_app name v : writable name = true -> exists c s, name +:+ v = String c s /\ Ascii.eqb c "-" = false.
Proof.
  destruct name as [|c name]; [done|]. cbn. intros H. apply andb_prop in H as [H _]. apply negb_true_iff in H. eauto.
Qed.

Lemma read_dash_raw c s : Ascii.eqb c "-" = false -> read_word (String "-" (String c s)) = cut_value (String c s).
Proof. cbn. destruct c as [[] [] [] [] [] [] [] []]; done. Qed.

Lemma parse_assign vals name v f ws rest :
  writable name = true -> formal !! name = Some f -> fl_bool f = false -> spelling name v ws ->
  parse vals (ws ++ rest) = parse (<[fl_var f := v]> vals) rest.
Proof.
  intros Hw Hf Hb Hs. destruct Hs; cbn [app parse].
  - by rewrite read_dash, cut_value_plain, Hf, Hb.
  - by rewrite read_dashes, cut_value_plain, Hf, Hb.
  - destruct (writable_app name (String "=" v) Hw) as (c & s & E & Hc).
    replace (read_word ("-" +:+ name +:+ String "=" v)) with (cut_value (name +:+ String "=" v)).
    + by rewrite cut_value_equals, Hf, Hb.
    + rewrite E. symmetry. by apply read_dash_raw.
  - destruct (writable_app name (String "=" v) Hw) as (c & s & E & Hc).
    replace (read_word ("--" +:+ name +:+ String "=" v)) with (cut_value (name +:+ String "=" v)).
    + by rewrite cut_value_equals, Hf, Hb.
    + by rewrite E.
Qed.

(** Flags end at the first word that is not one. *)
Lemma parse_command vals cmd rest :
  read_word cmd = NotFlag -> parse vals (cmd :: rest) = Parsed vals (cmd :: rest).
Proof. cbn. by intros ->. Qed.

Lemma read_word_plain c s : Ascii.eqb c "-" = false -> read_word (String c s) = NotFlag.
Proof. cbn. destruct c as [[] [] [] [] [] [] [] []]; done. Qed.

(** Parsing only changes the variables of the registered flags. *)
Lemma parse_frame vals args vals' rest x :
  (forall name f, formal !! name = Some f -> fl_var f <> x) ->
  parse vals args = Parsed vals' rest -> vals' !! x = vals !! x.
Proof.
  intros Hx. assert (Hn : forall n args, (length args <= n)%nat -> forall vals, parse vals args = Parsed vals' rest -> vals' !! x = vals !! x).
  { clear vals args. induction n as [|n IH]; intros [|s args] Hl vals H; cbn in Hl; try lia; cbn [parse] in H; try congruence.
    destruct (read_word s) as [| | |name value]; try congruence.
    destruct (formal !! name) as [f|] eqn:Ef; [|by destruct (bool_decide _)].
    assert (Hi : forall v, <[fl_var f := v]> vals !! x = vals !! x) by (intros; apply lookup_insert_ne; eauto).
    destruct (fl_bool f).
    - destruct (ParseBool _); [|done]. by rewrite (IH args ltac:(lia) _ H).
    - destruct value as [v|]; [by rewrite (IH args ltac:(lia) _ H)|].
      destruct args as [|v args]; [done|]. cbn in Hl. by rewrite (IH args ltac:(lia) _ H). }
  by apply (Hn (length args)).
Qed.

End Parse.

End Flag.
