(* ===== verification/Plugin.v ===== *)
(** * The kubectl plugin (cmd/plugin/main.go)

    The command line, the reading of an unstructured object and the status table.  A run
    gives the bytes written to the two output streams and the exit status.  The dynamic
    client is a parameter, with the text the flag package prints when asked for usage;
    text/tabwriter is modelled for the writer the plugin opens. *)

From Stdlib Require Import ZArith Lia List Bool Ascii.
From stdpp Require Import base list strings gmap.
From S2P Require Import Prelude GoStrings Shell K8s Api PgStatus Images GoFlag.

Local Open Scope Z_scope.

Module Plugin.
Import Flag BuildVersion.

(** ** text/tabwriter with minimal width and tab width 0, padding 2, blanks, no flags *)
Module TabWriter.

Definition tab : ascii := "009".
Definition vtab : ascii := "011".
Definition formfeed : ascii := "012".
Definition lf : ascii := "010".

(** The width of a cell is its number of runes. *)
Definition cell_width (c : string) : nat := length (runes c).

(** A cell belongs to a column when a tab follows it: all but the last of a line. *)
Definition in_column (j : nat) (line : list string) : bool := (S j <? length line)%nat.

Fixpoint take_while {A} (p : A -> bool) (l : list A) : list A :=
  match l with a :: l' => if p a then a :: take_while p l' else [] | [] => [] end.

(** The adjacent lines around line [i] that have a cell in column [j]. *)
Definition block (lines : list (list string)) (i j : nat) : list (list string) :=
  reverse (take_while (in_column j) (reverse (take i lines))) ++ take_while (in_column j) (drop i lines).

Definition column_width (lines : list (list string)) (i j : nat) : nat :=
  foldr Nat.max 0%nat (map (fun l => (cell_width (default "" (l !! j)) + 2)%nat) (block lines i j)).

Fixpoint blanks (n : nat) : string := match n with O => "" | S n' => String " " (blanks n') end.

Definition render_cell (lines : list (list string)) (i : nat) (line : list string) (j : nat) (c : string) : string :=
  if in_column j line then c +:+ blanks (column_width lines i j - cell_width c) else c.

Definition render_line (lines : list (list string)) (i : nat) (line : list string) : string :=
  concat_s (imap (render_cell lines i line) line).

(** A vertical tab ends a cell as a tab does; a form feed ends a line and every column.
    Text without the escape byte 0xFF. *)
Definition cells (line : string) : list string :=
  split_byte tab (smap (fun c => if Ascii.eqb c vtab then tab else c) line).

Definition format (segment : string) : string :=
  let lines := map cells (split_byte lf segment) in
  strings_join newline (imap (render_line lines) lines).

(** What [Flush] has written, for a text that ends its last line. *)
Definition flushed (text : string) : string :=
  strings_join newline (map format (split_byte formfeed text)).

End TabWriter.

(** ** Unstructured objects *)

(** The values of a decoded object.  A float64 is [m * 2 ^ e]. *)
#[warnings="-register-all"]
Inductive value :=
  | VNil
  | VBool (b : bool)
  | VInt64 (z : Z)
  | VInt32 (z : Z)
  | VFloat64 (m e : Z)
  | VString (s : string)
  | VSlice (l : list value)
  | VMap (m : gmap string value).

Definition field (obj : option (gmap string value)) (name : string) : option value :=
  match obj with None => None | Some m => m !! name end.

Definition nestedMap (obj : option (gmap string value)) (name : string) : option (gmap string value) :=
  match field obj name with Some (VMap m) => Some m | _ => None end.

Definition nestedString (obj : option (gmap string value)) (name : string) : string :=
  match field obj name with Some (VString s) => s | _ => "" end.

(** Truncation towards zero. *)
Definition trunc (m e : Z) : Z := if 0 <=? e then m * 2 ^ e else Z.quot m (2 ^ (- e)).

Record GroupVersionResource := { gvr_Group : string; gvr_Version : string; gvr_Resource : string }.

Definition gvr : GroupVersionResource :=
  {| gvr_Group := "pg.athos.io"; gvr_Version := "v1alpha1"; gvr_Resource := "postgresclusters" |}.

Section Program.

(** What the conversion of a float64 outside the int64 range gives, which the language
    leaves to the implementation. *)
Context (out_of_range : Z -> Z).

Definition nestedInt64 (obj : option (gmap string value)) (name : string) : Z :=
  match field obj name with
  | Some (VInt64 n) => n
  | Some (VFloat64 m e) => if in_int64 (trunc m e) then trunc m e else out_of_range (trunc m e)
  | Some (VInt32 n) => n
  | _ => 0
  end.

(** ** Commands *)

Record Output := { stdout : string; stderr : string; code : Z }.

(** [newDynamicClient]: the configuration is loaded from the explicit path when there is
    one; [load_config] and [new_for_config] are those of client-go. *)
Context {Config Client : Type}
  (load_config : option string -> result Config) (new_for_config : Config -> result Client)
  (Get : Client -> GroupVersionResource -> string -> string -> result (gmap string value)).

Definition newDynamicClient (kubeconfig : string) : result Client :=
  match load_config (if (kubeconfig =? "")%string then None else Some kubeconfig) with
  | Err e => Err (ErrWrap "loading kubeconfig: " e "")
  | Ok config => new_for_config config
  end.

Definition line (s : string) : string := s +:+ newline.
Definition row (key v : string) : string := key +:+ str1 TabWriter.tab +:+ v +:+ newline.

(** The table, before alignment. *)
Definition status_rows (namespace clusterName : string) (object : gmap string value) : string :=
  let spec := nestedMap (Some object) "spec" in
  let status := nestedMap (Some object) "status" in
  let phase := nestedString status "phase" in
  let primary := nestedString status "currentPrimary" in
  let ready := nestedInt64 status "readyInstances" in
  let instances := nestedInt64 spec "instances" in
  let pgVersion := nestedInt64 spec "postgresVersion" in
  row "NAME" clusterName +:+ row "NAMESPACE" namespace +:+ row "PHASE" phase +:+ row "PRIMARY" primary
  +:+ row "READY" (itoa ready +:+ "/" +:+ itoa instances) +:+ row "POSTGRES" (itoa pgVersion).

Context (T : UnicodeTables).

Definition runStatus (namespace kubeconfig clusterName : string) : result string :=
  match newDynamicClient kubeconfig with
  | Err e => Err (ErrWrap "building Kubernetes client: " e "")
  | Ok client =>
      match Get client gvr namespace clusterName with
      | Err e => Err (ErrWrap ("getting cluster " +:+ Quote T clusterName +:+ " in namespace "
                               +:+ Quote T namespace +:+ ": ") e "")
      | Ok object => Ok (TabWriter.flushed (status_rows namespace clusterName object))
      end
  end.

Definition runVersion (l : Link) (t : Toolchain) : string :=
  let info := Info l t in
  line ("kubectl-athos " +:+ bi_Version info +:+ " (" +:+ bi_Commit info +:+ ", built " +:+ bi_BuildDate info +:+ ")")
  +:+ line ("  Go:        " +:+ bi_GoVersion info)
  +:+ line ("  Platform:  " +:+ bi_Platform info)
  +:+ line "  Operator:  Athos Kubernetes"
  +:+ line "  API:       pg.athos.io/v1alpha1".

Definition printUsage : string := concat_s (map line
  ["kubectl-athos - kubectl plugin for Athos Kubernetes operator"; "";
   "Usage:"; "  kubectl athos [flags] <command> [args]"; "";
   "Commands:"; "  status <cluster>   Show cluster status and instance counts";
   "  version            Print plugin and operator version"; "";
   "Flags:"; "  -n, --namespace    Kubernetes namespace (default: default)";
   "      --kubeconfig   Path to kubeconfig (default: $KUBECONFIG)"]).

(** ** The command line *)

(** [init]: two names for one variable, and the configuration path. *)
Definition flags : formal_set :=
  <["n" := {| fl_bool := false; fl_var := "namespace" |}]>
  (<["namespace" := {| fl_bool := false; fl_var := "namespace" |}]>
   {["kubeconfig" := {| fl_bool := false; fl_var := "kubeconfig" |}]}).

Definition flag_defaults (KUBECONFIG : string) : values :=
  <["namespace" := "default"]> {["kubeconfig" := KUBECONFIG]}.

(** What the flag package prints on the error stream after a message or for help. *)
Context (flag_usage : string) (l : Link) (t : Toolchain).

Definition exit0 (out : string) : Output := {| stdout := out; stderr := ""; code := 0 |}.

Definition dispatch (vals : values) (args : list string) : Output :=
  let namespace := default "" (vals !! "namespace") in
  let kubeconfig := default "" (vals !! "kubeconfig") in
  match args with
  | [] => {| stdout := printUsage; stderr := ""; code := 1 |}
  | cmd :: rest =>
      if (cmd =? "status")%string then
        match rest with
        | [] => {| stdout := ""; stderr := line "usage: kubectl athos status <cluster-name>"; code := 1 |}
        | clusterName :: _ =>
            match runStatus namespace kubeconfig clusterName with
            | Err e => {| stdout := ""; stderr := line ("error: " +:+ Error e); code := 1 |}
            | Ok out => exit0 out
            end
        end
      else if (cmd =? "version")%string then exit0 (runVersion l t)
      else if bool_decide (cmd ∈ ["help"; "--help"; "-h"]) then exit0 printUsage
      else {| stdout := printUsage; stderr := "unknown command " +:+ Quote T cmd +:+ newline +:+ newline; code := 1 |}
  end.

(** [main], with the exit statuses of [flag.Parse]: 0 for help and 2 for an error. *)
Definition main (KUBECONFIG : string) (args : list string) : Output :=
  match parse T flags (flag_defaults KUBECONFIG) args with
  | Parsed vals rest => dispatch vals rest
  | HelpAsked => {| stdout := ""; stderr := flag_usage; code := 0 |}
  | Failed msg => {| stdout := ""; stderr := line msg +:+ flag_usage; code := 2 |}
  end.

End Program.

(** ** Lemmas *)

(** A value that stays in its cell: no separator, and not the byte 0xFF, which the writer
    takes as the start of escaped text. *)
Definition clean (s : string) : bool :=
  sall (fun c => negb (Shell.in_set [TabWriter.tab; TabWriter.vtab; TabWriter.formfeed; TabWriter.lf; "255"%char] c)) s.

Lemma clean_neq c s :
  c ∈ [TabWriter.tab; TabWriter.vtab; TabWriter.formfeed; TabWriter.lf] ->
  clean s = true -> sall (neqc c) s = true.
Proof.
  intros Hc. apply sall_impl. intros d Hd. unfold neqc. apply negb_true_iff. apply negb_true_iff in Hd.
  destruct (Ascii.eqb_spec c d) as [->|]; [|done]. exfalso.
  set_unfold in Hc. by destruct_or! Hc; subst.
Qed.

Lemma clean_app a b : clean (a +:+ b) = clean a && clean b.
Proof. apply sall_app. Qed.

Lemma clean_itoa z : clean (itoa z) = true.
Proof.
  eapply sall_impl; [|apply (itoa_graphic z)]. intros c Hc.
  destruct c as [[] [] [] [] [] [] [] []]; done.
Qed.

Lemma smap_fixed f s : sall (fun c => Ascii.eqb (f c) c) s = true -> smap f s = s.
Proof.
  induction s as [|c s IH]; [done|]. cbn. intros H. apply andb_prop in H as [H1 H2].
  apply Ascii.eqb_eq in H1. by rewrite H1, IH.
Qed.

Lemma cells_row k v : clean k = true -> clean v = true ->
  TabWriter.cells (k +:+ str1 TabWriter.tab +:+ v) = [k; v].
Proof.
  intros Hk Hv. unfold TabWriter.cells. rewrite smap_fixed.
  - change (str1 TabWriter.tab +:+ v) with (String TabWriter.tab v).
    rewrite split_byte_app by (by apply clean_neq; [set_solver|]).
    by rewrite split_byte_none by (by apply clean_neq; [set_solver|]).
  - rewrite !sall_app, !andb_true_iff. split_and!; [| done |].
    all: eapply sall_impl; [|eassumption]; intros c Hc; by destruct c as [[] [] [] [] [] [] [] []].
Qed.

(** A table of two columns, before and after alignment. *)
Definition table (kvs : list (string * string)) : string := concat_s (map (fun kv => row kv.1 kv.2) kvs).

Definition clean_row (kv : string * string) : Prop := clean kv.1 = true /\ clean kv.2 = true.

Definition table_width (kvs : list (string * string)) : nat :=
  foldr Nat.max 0%nat (map (fun kv => (TabWriter.cell_width kv.1 + 2)%nat) kvs).

Definition aligned (w : nat) (kv : string * string) : string :=
  kv.1 +:+ TabWriter.blanks (w - TabWriter.cell_width kv.1) +:+ kv.2.

Definition row_cells (kv : string * string) : list string := [kv.1; kv.2].

Lemma table_cons k v kvs : table ((k, v) :: kvs) = (k +:+ str1 TabWriter.tab +:+ v) +:+ String TabWriter.lf (table kvs).
Proof. unfold table, row. cbn [map fst snd concat_s foldr]. by rewrite !app_assoc_s. Qed.

Lemma table_lines kvs :
  Forall clean_row kvs ->
  map TabWriter.cells (split_byte TabWriter.lf (table kvs)) = map row_cells kvs ++ [[""]].
Proof.
  induction 1 as [|[k v] kvs [Hk Hv] _ IH]; [done|]. cbn [fst snd] in *.
  rewrite table_cons, split_byte_app.
  - cbn [map app]. rewrite IH. f_equal. by apply cells_row.
  - rewrite !sall_app, (clean_neq _ k), (clean_neq _ v) by (done || set_solver). done.
Qed.

Lemma table_one_segment kvs :
  Forall clean_row kvs -> split_byte TabWriter.formfeed (table kvs) = [table kvs].
Proof.
  intros H. apply split_byte_none. induction H as [|[k v] kvs [Hk Hv] _ IH]; [done|]. cbn [fst snd] in *.
  rewrite table_cons, sall_app. cbn [sall]. rewrite IH, !sall_app, (clean_neq _ k), (clean_neq _ v) by (done || set_solver). done.
Qed.

Lemma take_while_all {A} (p : A -> bool) l rest :
  Forall (fun a => p a = true) l -> match rest with a :: _ => p a = false | [] => True end ->
  TabWriter.take_while p (l ++ rest) = l.
Proof.
  intros Hl Hr. induction Hl as [|a l Ha _ IH]; cbn; [|by rewrite Ha, IH].
  destruct rest as [|a rest]; cbn; [done|]. by rewrite Hr.
Qed.

Lemma row_cells_column kvs : Forall (fun l => TabWriter.in_column 0 l = true) (map row_cells kvs).
Proof. by induction kvs; constructor. Qed.

(** The first column of a table is one block. *)
Lemma table_block kvs i :
  (i < length kvs)%nat -> TabWriter.block (map row_cells kvs ++ [[""]]) i 0 = map row_cells kvs.
Proof.
  intros Hi. unfold TabWriter.block.
  assert (Hl : (i <= length (map row_cells kvs))%nat) by (rewrite length_map; lia).
  rewrite take_app_le, drop_app_le by done.
  pose proof (row_cells_column kvs) as Hc.
  rewrite (take_while_all _ (drop i _)); [|by apply Forall_drop|done].
  rewrite <- (app_nil_r (reverse (take i _))), take_while_all; [| |done].
  - rewrite reverse_involutive. apply take_drop.
  - by apply Forall_reverse, Forall_take.
Qed.

Lemma imap_map {A B} (f : nat -> A -> B) (g : A -> B) l :
  (forall i x, l !! i = Some x -> f i x = g x) -> imap f l = map g l.
Proof. intros H. rewrite (imap_ext f (fun _ => g)) by done. apply imap_const. Qed.

Lemma join_terminated l : strings_join newline (l ++ [""]) = concat_s (map (fun s => s +:+ newline) l).
Proof.
  induction l as [|a l IH]; [done|]. cbn [app map concat_s foldr].
  fold (concat_s (map (fun s => s +:+ newline) l)). rewrite <- IH.
  destruct l as [|b l]; cbn [app]; rewrite strings_join_cons, app_assoc_s; done.
Qed.

Lemma table_width_eq kvs :
  foldr Nat.max 0%nat (map (fun l => (TabWriter.cell_width (default "" (l !! 0%nat)) + 2)%nat) (map row_cells kvs))
  = table_width kvs.
Proof. unfold table_width. by rewrite map_map. Qed.

(** Alignment pads the keys to one width, and changes nothing else. *)
Lemma flushed_table kvs :
  Forall clean_row kvs ->
  TabWriter.flushed (table kvs) = concat_s (map (fun s => s +:+ newline) (map (aligned (table_width kvs)) kvs)).
Proof.
  intros H. unfold TabWriter.flushed. rewrite table_one_segment by done. cbn [map strings_join].
  unfold TabWriter.format. rewrite table_lines by done. cbv zeta. rewrite imap_app. cbn [imap].
  rewrite <- join_terminated. f_equal. f_equal. rewrite imap_fmap.
  apply imap_map. intros i kv Hi. apply lookup_lt_Some in Hi. cbn.
  unfold TabWriter.render_line, row_cells. cbn [imap].
  unfold TabWriter.column_width. fold row_cells.
  change (map (fun kv0 : string * string => [kv0.1; kv0.2]) kvs) with (map row_cells kvs).
  rewrite table_block, table_width_eq by done. unfold aligned. by rewrite app_nil_r_s, app_assoc_s.
Qed.

(** ** What the API server sends *)

(** A field with the [omitempty] option, as the JSON tags of the API types declare it. *)
Definition omitempty_string (s : string) : option value := if (s =? "")%string then None else Some (VString s).
Definition omitempty_int (z : Z) : option value := if z =? 0 then None else Some (VInt64 z).

Definition phase_text (p : PostgresClusterPhase) : string :=
  match p with
  | PhaseEmpty => "" | PhaseInitializing => "Initializing" | PhaseCreating => "Creating"
  | PhaseRunning => "Running" | PhaseDegraded => "Degraded" | PhaseFailed => "Failed"
  | PhasePaused => "Paused" | PhaseUpgrading => "Upgrading"
  end.

Definition spec_json (s : PostgresClusterSpec) : list (string * option value) :=
  [("postgresVersion", Some (VInt64 (pcs_PostgresVersion s))); ("instances", Some (VInt64 (pcs_Instances s)))].

Definition status_json (s : PostgresClusterStatus) : list (string * option value) :=
  [("phase", omitempty_string (phase_text (pst_Phase s)));
   ("readyInstances", omitempty_int (pst_ReadyInstances s));
   ("currentPrimary", omitempty_string (pst_CurrentPrimary s))].

Definition has_fields (m : gmap string value) (fs : list (string * option value)) : Prop :=
  Forall (fun f => m !! f.1 = f.2) fs.

(** The object carries the cluster; an object that never had a status may lack it. *)
Definition encodes (c : PostgresCluster) (object : gmap string value) : Prop :=
  (exists spec, object !! "spec" = Some (VMap spec) /\ has_fields spec (spec_json (pc_Spec c))) /\
  match object !! "status" with
  | Some (VMap status) => has_fields status (status_json (pc_Status c))
  | None => has_fields ∅ (status_json (pc_Status c))
  | _ => False
  end.

Lemma nested_omit_string m f s : (default ∅ m : gmap string value) !! f = omitempty_string s -> nestedString m f = s.
Proof.
  unfold nestedString, field, omitempty_string. destruct (String.eqb_spec s "") as [->|Hs]; destruct m as [m|]; cbn; try done.
  all: by intros ->.
Qed.

Lemma nested_omit_int oor m f z : (default ∅ m : gmap string value) !! f = omitempty_int z -> nestedInt64 oor m f = z.
Proof.
  unfold nestedInt64, field, omitempty_int. destruct (Z.eqb_spec z 0) as [->|Hs]; destruct m as [m|]; cbn; try done.
  all: by intros ->.
Qed.

(** The rows for a cluster. *)
Definition cluster_rows (namespace clusterName : string) (c : PostgresCluster) : list (string * string) :=
  [("NAME", clusterName); ("NAMESPACE", namespace); ("PHASE", phase_text (pst_Phase (pc_Status c)));
   ("PRIMARY", pst_CurrentPrimary (pc_Status c));
   ("READY", itoa (pst_ReadyInstances (pc_Status c)) +:+ "/" +:+ itoa (pcs_Instances (pc_Spec c)));
   ("POSTGRES", itoa (pcs_PostgresVersion (pc_Spec c)))].

Lemma status_rows_cluster oor ns name c object :
  encodes c object -> status_rows oor ns name object = table (cluster_rows ns name c).
Proof.
  intros [(spec & Hspec & Hfs) Hst]. unfold has_fields, spec_json in Hfs.
  apply Forall_cons in Hfs as [Hv Hfs]. apply Forall_cons in Hfs as [Hi _]. cbn [fst snd] in Hv, Hi.
  assert (Hf : has_fields (default ∅ (nestedMap (Some object) "status")) (status_json (pc_Status c))).
  { unfold nestedMap, field. by destruct (object !! "status") as [[]|]. }
  unfold has_fields, status_json in Hf. apply Forall_cons in Hf as [Hp Hf]. apply Forall_cons in Hf as [Hr Hf].
  apply Forall_cons in Hf as [Hc _]. cbn [fst snd] in Hp, Hr, Hc.
  unfold status_rows. cbv zeta.
  rewrite (nested_omit_string _ _ _ Hp), (nested_omit_string _ _ _ Hc), (nested_omit_int _ _ _ _ Hr).
  unfold nestedMap at 1 2, field at 1 2. rewrite Hspec. unfold nestedInt64, field. rewrite Hi, Hv.
  unfold table, cluster_rows. cbn [map fst snd concat_s foldr]. by rewrite app_nil_r_s.
Qed.

Lemma cluster_rows_clean ns name c :
  clean ns = true -> clean name = true -> clean (pst_CurrentPrimary (pc_Status c)) = true ->
  Forall clean_row (cluster_rows ns name c).
Proof.
  intros Hn Hc Hp. repeat constructor; cbn [fst snd]; try done.
  - by destruct (pst_Phase _).
  - by rewrite !clean_app, !clean_itoa.
  - apply clean_itoa.
Qed.

(** The namespace option in any of its spellings, or its absence. *)
Inductive namespace_option : string -> list string -> Prop :=
  | ns_default : namespace_option "default" []
  | ns_short v ws : spelling "n" v ws -> namespace_option v ws
  | ns_long v ws : spelling "namespace" v ws -> namespace_option v ws.

Lemma parse_namespace T K ns ws cmd rest :
  namespace_option ns ws -> read_word cmd = NotFlag ->
  parse T flags (flag_defaults K) (ws ++ cmd :: rest) =
  Parsed (<["namespace" := ns]> (flag_defaults K)) (cmd :: rest).
Proof.
  intros Hns Hcmd. destruct Hns as [|v ws Hs|v ws Hs].
  - cbn [app]. by rewrite parse_command.
  - rewrite (parse_assign T flags _ "n" v {| fl_bool := false; fl_var := "namespace" |}) by done.
    by apply parse_command.
  - rewrite (parse_assign T flags _ "namespace" v {| fl_bool := false; fl_var := "namespace" |}) by done.
    by apply parse_command.
Qed.

Lemma namespace_value K ns : default "" ((<["namespace" := ns]> (flag_defaults K) : values) !! "namespace") = ns.
Proof. unfold values. by rewrite lookup_insert_eq. Qed.

Lemma kubeconfig_value K ns : default "" ((<["namespace" := ns]> (flag_defaults K) : values) !! "kubeconfig") = K.
Proof. reflexivity. Qed.

(** ** Theorems *)

(** C38: the plugin shows the cluster.  For a cluster the API server sends under the
    requested name, [status] and the cluster name as the last two words, with the namespace
    given before them by either option in any spelling of package flag, or left to its
    default, print one aligned line per row, each the exact value the object carries,
    omitted zero fields included, and exit with status 0; the names must have no byte the
    table writer treats specially. *)
Theorem plugin_shows_status (out_of_range : Z -> Z) (Config Client : Type)
  (load_config : option string -> result Config) (new_for_config : Config -> result Client)
  (Get : Client -> GroupVersionResource -> string -> string -> result (gmap string value))
  (T : UnicodeTables) (usage : string) (l : Link) (t : Toolchain)
  (K ns name : string) (ws : list string) (config : Config) (client : Client)
  (object : gmap string value) (c : PostgresCluster) :
  namespace_option ns ws ->
  load_config (if (K =? "")%string then None else Some K) = Ok config -> new_for_config config = Ok client ->
  Get client gvr ns name = Ok object -> encodes c object ->
  clean ns = true -> clean name = true -> clean (pst_CurrentPrimary (pc_Status c)) = true ->
  main out_of_range load_config new_for_config Get T usage l t K (ws ++ ["status"; name]) =
  exit0 (concat_s (map (fun s => s +:+ newline) (map (aligned 11) (cluster_rows ns name c)))).
Proof.
  intros Hns Hl Hn Hg He H1 H2 H3. unfold main. rewrite (parse_namespace _ _ _ _ _ _ Hns) by done.
  unfold dispatch. cbv zeta. rewrite namespace_value, kubeconfig_value.
  change (("status" =? "status")%string) with true. cbv iota.
  unfold runStatus, newDynamicClient. rewrite Hl. cbv iota. rewrite Hn. cbv iota. rewrite Hg. cbv iota.
  rewrite (status_rows_cluster _ _ _ _ _ He), flushed_table by by apply cluster_rows_clean. done.
Qed.

(** A server with the running cluster db in the namespace prod. *)
Definition sample_object : gmap string value :=
  <["spec" := VMap (<["instances" := VInt64 3]> {["postgresVersion" := VInt64 16]})]>
  {["status" := VMap (<["readyInstances" := VInt64 3]> {["phase" := VString "Running"]})]}.

Definition sample_get (u : unit) (g : GroupVersionResource) (ns name : string) : result (gmap string value) :=
  if (ns =? "prod")%string && (name =? "db")%string then Ok sample_object
  else Err (ErrStatus NotFound "not found").

Definition sample_main (args : list string) : Output :=
  main (fun _ => min_int64) (fun _ => Ok tt) (fun _ => Ok tt) sample_get ascii_tables "" defaults
    {| GoVersion := "go1.24"; GOOS := "linux"; GOARCH := "amd64" |} "" args.

Lemma plugin_shows_status_witness :
  sample_main ["--namespace=prod"; "status"; "db"] =
  exit0 (concat_s (map (fun s => s +:+ newline)
    ["NAME       db"; "NAMESPACE  prod"; "PHASE      Running"; "PRIMARY    "; "READY      3/3"; "POSTGRES   16"])).
Proof.
  refine (plugin_shows_status _ unit unit _ _ sample_get _ _ _ _ "" "prod" "db" ["--namespace=prod"] tt tt
           sample_object Status.running_cluster _ _ _ _ _ _ _ _); try reflexivity.
  - apply ns_long, dashes_equals.
  - split; [eexists; split; [reflexivity|]|]; repeat constructor.
Defined.

(** The words after the cluster name are never read: the spelling that the usage comment
    of the source documents, with the namespace last, asks for the default namespace. *)
Theorem trailing_options_ignored (out_of_range : Z -> Z) (Config Client : Type)
  (load_config : option string -> result Config) (new_for_config : Config -> result Client)
  (Get : Client -> GroupVersionResource -> string -> string -> result (gmap string value))
  (T : UnicodeTables) (usage : string) (l : Link) (t : Toolchain) (K name : string) (rest : list string) :
  main out_of_range load_config new_for_config Get T usage l t K ("status" :: name :: rest) =
  main out_of_range load_config new_for_config Get T usage l t K ["status"; name] /\
  sample_main ["status"; "db"; "-n"; "prod"] <> sample_main ["-n"; "prod"; "status"; "db"].
Proof. split; [reflexivity|]. vm_compute. discriminate. Qed.

(** Every failure is reported: when the configuration cannot be loaded, the client not
    be built or the cluster not be read, [status] prints nothing on the output stream,
    exits with status 1 and its message ends with the cause; and a command that is not
    one of the four prints the usage and exits with status 1. *)
Theorem plugin_reports_failures (out_of_range : Z -> Z) (Config Client : Type)
  (load_config : option string -> result Config) (new_for_config : Config -> result Client)
  (Get : Client -> GroupVersionResource -> string -> string -> result (gmap string value))
  (T : UnicodeTables) (usage : string) (l : Link) (t : Toolchain) (K ns name cmd : string) (ws rest : list string) (e : error) :
  namespace_option ns ws -> read_word cmd = NotFlag ->
  let run := main out_of_range load_config new_for_config Get T usage l t K in
  (load_config (if (K =? "")%string then None else Some K) = Err e \/
   (exists config, load_config (if (K =? "")%string then None else Some K) = Ok config /\
      (new_for_config config = Err e \/
       exists client, new_for_config config = Ok client /\ Get client gvr ns name = Err e)) ->
   exists context, run (ws ++ "status" :: name :: rest) =
     {| stdout := ""; stderr := line ("error: " +:+ context +:+ Error e); code := 1 |}) /\
  (cmd ∉ ["status"; "version"; "help"] ->
   stdout (run (ws ++ cmd :: rest)) = printUsage /\ code (run (ws ++ cmd :: rest)) = 1).
Proof.
  intros Hns Hcmd run. split.
  - intros H. unfold run, main. rewrite (parse_namespace _ _ _ _ _ _ Hns) by done.
    unfold dispatch. cbv zeta. rewrite namespace_value, kubeconfig_value.
    change (("status" =? "status")%string) with true. cbv iota.
    unfold runStatus, newDynamicClient.
    destruct H as [->|(config & -> & [->|(client & -> & ->)])]; cbv iota beta.
    + exists ("building Kubernetes client: " +:+ "loading kubeconfig: "). cbn [Error].
      by rewrite !app_nil_r_s, app_assoc_s.
    + exists "building Kubernetes client: ". cbn [Error]. by rewrite app_nil_r_s.
    + exists ("getting cluster " +:+ Quote T name +:+ " in namespace " +:+ Quote T ns +:+ ": "). cbn [Error]. rewrite app_nil_r_s. reflexivity.
  - intros Hno. unfold run, main. rewrite (parse_namespace _ _ _ _ _ _ Hns) by done.
    unfold dispatch. cbv zeta.
    destruct (String.eqb_spec cmd "status") as [->|]; [set_solver|].
    destruct (String.eqb_spec cmd "version") as [->|]; [set_solver|].
    rewrite bool_decide_eq_false_2; [done|].
    intros Hin. apply elem_of_cons in Hin as [->|Hin]; [set_solver|].
    apply elem_of_cons in Hin as [->|Hin]; [done|]. by apply list_elem_of_singleton in Hin as ->.
Qed.

Lemma plugin_reports_failures_witness :
  code (sample_main ["-n"; "dev"; "status"; "db"]) = 1 /\ code (sample_main ["-n"; "dev"; "failover"; "db"]) = 1.
Proof.
  destruct (plugin_reports_failures (fun _ => min_int64) unit unit (fun _ => Ok tt) (fun _ => Ok tt) sample_get ascii_tables ""
    defaults {| GoVersion := "go1.24"; GOOS := "linux"; GOARCH := "amd64" |} "" "dev" "db" "failover" ["-n"; "dev"] ["db"]
    (ErrStatus NotFound "not found") (ns_short _ _ (dash_next _ _)) eq_refl) as [H1 H2].
  split.
  - destruct H1 as [ctx H]; [right; exists tt; split; [done|right; by exists tt]|].
    unfold sample_main. cbn [app] in H. vm_compute. reflexivity.
  - apply H2. apply (bool_decide_unpack _). reflexivity.
Defined.

End Plugin.
