(* ===== verification/Manager.v ===== *)
(** * The operator's entry point (cmd/main.go) and the controllers it runs together

    The flags, the options of the manager, the set-up calls in their order with the exit
    status of each failure, and what the controllers register for.  controller-runtime's
    manager is a parameter: each call may fail with any error.  The last part composes the
    registered controllers: any sequence of their reconciles, for any requests. *)

From Stdlib Require Import ZArith Lia List Bool Ascii.
From stdpp Require Import base list strings gmap relations.
From S2P Require Import Prelude GoStrings K8s Api Runtime FakeRuntime GoFlag ClusterController UserController BackupController PoolerController.

Local Open Scope Z_scope.

Module Manager.
Import Flag.

(** ** Options *)

Record TLSConfig := { NextProtos : list string }.

Definition disableHTTP2 (c : TLSConfig) : TLSConfig := {| NextProtos := ["http/1.1"] |}.

(** A server applies its options in order. *)
Definition apply_tls (opts : list (TLSConfig -> TLSConfig)) (c : TLSConfig) : TLSConfig :=
  foldl (fun c f => f c) c opts.

Record MetricsOptions := {
  BindAddress : string;
  SecureServing : bool;
  m_TLSOpts : list (TLSConfig -> TLSConfig);
  authFilter : bool;
}.

Record Options := {
  Metrics : MetricsOptions;
  WebhookTLSOpts : list (TLSConfig -> TLSConfig);
  HealthProbeBindAddress : string;
  LeaderElection : bool;
  LeaderElectionID : string;
}.

Definition string_flag (x : string) : flag := {| fl_bool := false; fl_var := x |}.
Definition bool_flag (x : string) : flag := {| fl_bool := true; fl_var := x |}.

(** The flags of [main]; the logger binds its own beside them. *)
Definition main_flags : formal_set :=
  <["metrics-bind-address" := string_flag "metricsAddr"]>
  (<["health-probe-bind-address" := string_flag "probeAddr"]>
  (<["leader-elect" := bool_flag "enableLeaderElection"]>
  (<["metrics-secure" := bool_flag "secureMetrics"]>
   {["enable-http2" := bool_flag "enableHTTP2"]}))).

Definition flag_defaults : values :=
  <["metricsAddr" := "0"]> (<["probeAddr" := ":8081"]> (<["enableLeaderElection" := "false"]>
  (<["secureMetrics" := "true"]> {["enableHTTP2" := "false"]}))).

Definition text (vals : values) (x : string) : string := default "" (vals !! x).
Definition truth (vals : values) (x : string) : bool := (text vals x =? "true")%string.

Definition options_of (vals : values) : Options :=
  let secureMetrics := truth vals "secureMetrics" in
  let tlsOpts := if negb (truth vals "enableHTTP2") then [disableHTTP2] else [] in
  {| Metrics := {| BindAddress := text vals "metricsAddr"; SecureServing := secureMetrics;
                   m_TLSOpts := tlsOpts; authFilter := secureMetrics |};
     WebhookTLSOpts := tlsOpts;
     HealthProbeBindAddress := text vals "probeAddr";
     LeaderElection := truth vals "enableLeaderElection";
     LeaderElectionID := "4d2289f7.athos.io" |}.

(** ** Controllers *)

Inductive controller := PostgresClusterReconciler | PostgresBackupReconciler | PostgresUserReconciler
  | PostgresPoolerReconciler.

#[export] Instance controller_eq_dec : EqDecision controller.
Proof. solve_decision. Defined.

(** What [SetupWithManager] hands to the builder; no option means one worker. *)
Record Builder := { For : Kind; Owns : list Kind; Named : option string; MaxConcurrentReconciles : Z }.

Definition cluster_builder : Builder :=
  {| For := KCluster; Owns := [KStatefulSet; KService; KConfigMap; KServiceAccount; KSecret; KPDB];
     Named := None; MaxConcurrentReconciles := 2 |}.
Definition backup_builder : Builder :=
  {| For := KBackup; Owns := [KJob]; Named := None; MaxConcurrentReconciles := 1 |}.
Definition user_builder : Builder :=
  {| For := KUser; Owns := []; Named := None; MaxConcurrentReconciles := 1 |}.
Definition pooler_builder : Builder :=
  {| For := KCluster; Owns := [KDeployment]; Named := Some "postgrespooler"; MaxConcurrentReconciles := 1 |}.

Definition SetupWithManager (c : controller) : Builder :=
  match c with
  | PostgresClusterReconciler => cluster_builder
  | PostgresBackupReconciler => backup_builder
  | PostgresUserReconciler => user_builder
  | PostgresPoolerReconciler => pooler_builder
  end.

(** ** Set-up *)

Inductive action :=
  | AGetConfig
  | ANewManager (o : Options)
  | ASetup (c : controller) (b : Builder)
  | AHealthz (name : string)
  | AReadyz (name : string)
  | AStart.

Definition setup (c : controller) : action := ASetup c (SetupWithManager c).

(** The calls of [main], each with the message logged when it fails. *)
Definition calls (o : Options) : list (action * string) :=
  [(AGetConfig, "unable to get kubeconfig"); (ANewManager o, "unable to start manager");
   (setup PostgresClusterReconciler, "unable to create controller");
   (setup PostgresBackupReconciler, "unable to create controller");
   (setup PostgresUserReconciler, "unable to create controller");
   (AHealthz "healthz", "unable to set up health check"); (AReadyz "readyz", "unable to set up ready check");
   (AStart, "problem running manager")].

(** What a run did and how it ended. *)
Record Run := { trace : list action; log : option (string * error); code : Z }.

Section Program.

(** The outcome of a call may depend on the calls made before it. *)
Context (perform : list action -> action -> option error).

Fixpoint run_calls (done : list action) (cs : list (action * string)) : Run :=
  match cs with
  | [] => {| trace := done; log := None; code := 0 |}
  | (a, msg) :: cs' =>
      match perform done a with
      | Some e => {| trace := done ++ [a]; log := Some (msg, e); code := 1 |}
      | None => run_calls (done ++ [a]) cs'
      end
  end.

Context (T : UnicodeTables) (zap : formal_set) (zap_defaults : values).

Definition main (args : list string) : Run :=
  match parse T (main_flags ∪ zap) (flag_defaults ∪ zap_defaults) args with
  | Parsed vals _ => run_calls [] (calls (options_of vals))
  | HelpAsked => {| trace := []; log := None; code := 0 |}
  | Failed msg => {| trace := []; log := None; code := 2 |}
  end.

End Program.

(** ** Reconciles of the running manager *)

(** The cluster reconciler gets its recorder from [SetupWithManager], the user reconciler
    the REST configuration from [main]. *)
Definition dispatch {W} `{Runtime W} (T : UnicodeTables) (c : controller) (req : NamespacedName) : M W (Result * option error) :=
  match c with
  | PostgresClusterReconciler => Cluster.Reconcile true req
  | PostgresBackupReconciler => Backup.Reconcile T req
  | PostgresUserReconciler => User.Reconcile T true req
  | PostgresPoolerReconciler => Pooler.Reconcile req
  end.

(** The controllers a sequence of calls set up. *)
Definition registered (tr : list action) : list controller :=
  omap (fun a => match a with ASetup c _ => Some c | _ => None end) tr.

(** One reconcile of a registered controller, for any request and with any outcome. *)
Inductive reconcile_step {W} `{Runtime W} (T : UnicodeTables) (cs : list controller) : W -> W -> Prop :=
  | reconcile_by c req w r w' : c ∈ cs -> dispatch T c req w = (r, w') -> reconcile_step T cs w w'.

(** A change of an object of this kind wakes the controller up. *)
Definition watched (c : controller) (k : Kind) : Prop :=
  k = For (SetupWithManager c) \/ k ∈ Owns (SetupWithManager c).

#[export] Instance watched_dec c k : Decision (watched c k).
Proof. unfold watched. apply _. Defined.

(** ** Lemmas *)

(** A kind that a given controller does not watch. *)
Ltac unwatched := apply (bool_decide_unpack _); reflexivity.

Section SetupLemmas.
Context (perform : list action -> action -> option error).

(** The calls stop at the first failure. *)
Lemma run_calls_spec done cs :
  (run_calls perform done cs = {| trace := done ++ cs.*1; log := None; code := 0 |} /\
   forall pre a post, cs.*1 = pre ++ a :: post -> perform (done ++ pre) a = None) \/
  exists pre a msg e post, cs = pre ++ (a, msg) :: post /\
    run_calls perform done cs = {| trace := done ++ pre.*1 ++ [a]; log := Some (msg, e); code := 1 |} /\
    perform (done ++ pre.*1) a = Some e /\
    forall pre' a' post', pre.*1 = pre' ++ a' :: post' -> perform (done ++ pre') a' = None.
Proof.
  revert done. induction cs as [|[a msg] cs IH]; intros done.
  - left. cbn. rewrite app_nil_r. split; [done|]. by intros [].
  - cbn [run_calls]. destruct (perform done a) as [e|] eqn:Ea.
    + right. exists [], a, msg, e, cs. rewrite app_nil_r. split_and!; try done. by intros [].
    + assert (Hcons : forall l : list action, done ++ a :: l = (done ++ [a]) ++ l) by (intros; by rewrite <- app_assoc).
      assert (Hpre : forall l : list action,
        (forall pre b post, l = pre ++ b :: post -> perform ((done ++ [a]) ++ pre) b = None) ->
        forall pre b post, a :: l = pre ++ b :: post -> perform (done ++ pre) b = None).
      { intros l Hl [|x pre] b post Heq; injection Heq as <- Heq; [by rewrite app_nil_r|].
        rewrite Hcons. by eapply Hl. }
      destruct (IH (done ++ [a])) as [[E H]|(pre & b & m & e & post & -> & E & Hb & H)].
      * left. rewrite E. split; [by rewrite <- app_assoc|]. cbn. by apply Hpre.
      * right. exists ((a, msg) :: pre), b, m, e, post. split_and!; [done| | |].
        -- rewrite E. cbn. by rewrite <- app_assoc.
        -- cbn. by rewrite Hcons.
        -- cbn. by apply Hpre.
Qed.

(** The manager is started by the last call only. *)
Lemma calls_start o pre a msg post :
  calls o = pre ++ (a, msg) :: post -> AStart ∈ pre.*1 ++ [a] -> pre = take 7 (calls o) /\ a = AStart /\ post = [].
Proof.
  intros Hc Hin. assert (Hl : (length (calls o) = length pre + S (length post))%nat) by (rewrite Hc, length_app; done).
  assert (Ht : take (length pre) (calls o) = pre) by (rewrite Hc; apply take_app_length).
  assert (Hd : drop (length pre) (calls o) = (a, msg) :: post) by (rewrite Hc; apply drop_app_length).
  assert (Hn : forall n, (n < 7)%nat -> AStart ∉ take (S n) (calls o).*1).
  { intros n Hn. do 7 (destruct n as [|n]; [repeat (apply not_elem_of_cons; split; [discriminate|]); apply not_elem_of_nil|]). lia. }
  destruct (decide (length pre < 7)%nat) as [Hlt|Hge].
  - destruct (Hn _ Hlt). rewrite Hc, fmap_app, fmap_cons. cbn [fst].
    replace (S (length pre)) with (length (pre.*1 ++ [a])) by (rewrite length_app, length_fmap; cbn; lia).
    by rewrite (cons_middle a _ post.*1), app_assoc, take_app_length.
  - cbn in Hl. assert (length pre = 7)%nat as E by lia. rewrite E in Ht, Hd. cbn in Hd. by simplify_eq.
Qed.

End SetupLemmas.

Section Composition.
Context {W : Type} `{RuntimeLaws W} (T : UnicodeTables).

(** The kinds a registered controller writes are kinds it watches. *)
Lemma dispatch_watched c req w r w' k n :
  c <> PostgresPoolerReconciler -> dispatch T c req w = (r, w') -> ~ watched c k ->
  stored w' k n = stored w k n.
Proof.
  intros Hc Hw Hk. destruct c; cbn [dispatch] in Hw; [| | |done].
  - apply (Cluster.Reconcile_frames true req _ _ _ Hw). intros Ho. apply Hk.
    destruct k; try done; unwatched.
  - apply (Backup.Backup_Reconcile_frames T req _ _ _ Hw). intros [->|[-> _]]; apply Hk; unwatched.
  - apply (User.User_Reconcile_frames T true req _ _ _ Hw). intros [-> _]. apply Hk. unwatched.
Qed.

Lemma dispatch_secret c req w r w' n s :
  c <> PostgresPoolerReconciler -> dispatch T c req w = (r, w') -> stored w KSecret n = Some s -> stored w' KSecret n = Some s.
Proof.
  intros Hc Hw Hs. destruct c; try done.
  - by eapply Cluster.Reconcile_secrets.
  - by rewrite (dispatch_watched _ _ _ _ _ _ _ Hc Hw) by unwatched.
  - by rewrite (dispatch_watched _ _ _ _ _ _ _ Hc Hw) by unwatched.
Qed.

Lemma dispatch_job c req w r w' n j :
  c <> PostgresPoolerReconciler -> dispatch T c req w = (r, w') -> stored w KJob n = Some j -> stored w' KJob n = Some j.
Proof.
  intros Hc Hw Hs. destruct c; try done.
  - by rewrite (dispatch_watched _ _ _ _ _ _ _ Hc Hw) by unwatched.
  - destruct (Backup.Reconcile_jobs T req w r w' n Hw) as [->|(b & c & _ & _ & _ & _ & _ & Hn & _)]; [done|congruence].
  - by rewrite (dispatch_watched _ _ _ _ _ _ _ Hc Hw) by unwatched.
Qed.

Lemma dispatch_terminal c req w r w' n b :
  c <> PostgresPoolerReconciler -> dispatch T c req w = (r, w') -> stored w KBackup n = Some b ->
  Backup.terminal (bst_Phase (pb_Status b)) = true -> stored w' KBackup n = Some b.
Proof.
  intros Hc Hw Hs Ht. destruct c; try done.
  - by rewrite (dispatch_watched _ _ _ _ _ _ _ Hc Hw) by unwatched.
  - destruct (decide (n = req)) as [->|Hne].
    + by rewrite (Backup.Reconcile_terminal T req b w r w' Hs Ht Hw).
    + rewrite (Backup.Backup_Reconcile_frames T req _ _ _ Hw KBackup n); [done|]. by intros [?|[_ ?]].
  - by rewrite (dispatch_watched _ _ _ _ _ _ _ Hc Hw) by unwatched.
Qed.

Lemma sync_keeps b cs k n : keeps k n (Backup.sync_conditions (W:=W) b cs).
Proof. induction cs as [|c cs IH]; cbn [Backup.sync_conditions]; unfold err_of; keeps_tac. apply IH. Qed.

Lemma backup_keeps req k n : keeps k n (Backup.Reconcile (W:=W) T req).
Proof.
  unfold Backup.Reconcile, Backup.drive_job, Backup.createBackupJob, Backup.syncBackupStatus, err_of.
  keeps_tac. apply sync_keeps.
Qed.

(** Users and backups are neither removed nor changed in more than their status. *)
Lemma dispatch_kept c req w r w' k n o :
  c <> PostgresPoolerReconciler -> k = KUser \/ k = KBackup -> dispatch T c req w = (r, w') ->
  stored w k n = Some o -> exists o', stored w' k n = Some o' /\ kept k o o'.
Proof.
  intros Hc Hk Hw Ho. destruct c; try done.
  - exists o. split; [|apply kept_refl]. rewrite <- Ho.
    eapply dispatch_watched; [done|exact Hw|]. destruct Hk as [-> | ->]; unwatched.
  - by eapply backup_keeps.
  - by eapply User.Reconcile_keeps.
Qed.

(** An invariant of every step is one of every sequence of steps. *)
Lemma steps_invariant cs (P : W -> Prop) w w' :
  (forall w1 w2, reconcile_step T cs w1 w2 -> P w1 -> P w2) -> rtc (reconcile_step T cs) w w' -> P w -> P w'.
Proof. intros Hstep Hs. induction Hs; eauto. Qed.

End Composition.

(** No run of [main] registers the pooler controller. *)
Lemma main_registers perform T zap zd args c :
  c ∈ registered (trace (main perform T zap zd args)) -> c <> PostgresPoolerReconciler.
Proof.
  unfold main. destruct (parse _ _ _ _) as [vals rest| |]; cbn [trace]; try by intros ?%elem_of_nil.
  set (o := options_of vals).
  assert (Hall : forall d, d ∈ registered (calls o).*1 -> d <> PostgresPoolerReconciler).
  { intros d Hd ->. revert Hd. apply (bool_decide_unpack _). reflexivity. }
  intros Hc. apply Hall. revert Hc.
  destruct (run_calls_spec perform [] (calls o)) as [[-> _]|(pre & a & msg & e & post & E & -> & _)]; [done|].
  assert ((calls o).*1 = (pre.*1 ++ [a]) ++ post.*1) as -> by (rewrite E, fmap_app, <- app_assoc; done).
  cbn [trace app]. unfold registered. rewrite (omap_app _ _ (post.*1)). intros Hc. apply elem_of_app. by left.
Qed.

(** ** Theorems *)

(** The manager starts complete.  When the manager is started, exactly the cluster, backup
    and user controllers are registered, both checks are installed and every call before
    the start has succeeded; and the program ends with status 0 if and only if the call
    that runs the manager returned no error. *)
Theorem manager_starts_complete (perform : list action -> action -> option error) (T : UnicodeTables)
  (zap : formal_set) (zap_defaults : values) (args : list string) :
  let r := main perform T zap zap_defaults args in
  AStart ∈ trace r ->
  registered (trace r) = [PostgresClusterReconciler; PostgresBackupReconciler; PostgresUserReconciler] /\
  AHealthz "healthz" ∈ trace r /\ AReadyz "readyz" ∈ trace r /\
  (forall pre a post, trace r = pre ++ a :: post -> a <> AStart -> perform pre a = None) /\
  (code r = 0 <-> exists pre, trace r = pre ++ [AStart] /\ perform pre AStart = None).
Proof.
  unfold main. destruct (parse _ _ _ _) as [vals rest| |]; cbn zeta; cbn [trace]; try by intros ?%elem_of_nil.
  destruct (run_calls_spec perform [] (calls (options_of vals))) as [[-> H]|(pre & a & msg & e & post & Hc & -> & He & H)].
  - intros _. cbn [trace code app]. split_and!; try done.
    + apply (list_elem_of_lookup_2 _ 5). reflexivity.
    + apply (list_elem_of_lookup_2 _ 6). reflexivity.
    + intros pre a post Hp _. by apply (H pre a post).
    + split; [|done]. intros _. eexists (take 7 (calls (options_of vals)).*1). split; [reflexivity|].
      by apply (H _ AStart []).
  - cbn [trace code app]. intros Hin. destruct (calls_start _ _ _ _ _ Hc Hin) as (-> & -> & ->).
    split_and!; try done.
    + apply (list_elem_of_lookup_2 _ 5). reflexivity.
    + apply (list_elem_of_lookup_2 _ 6). reflexivity.
    + intros pre a post Hp Ha. destruct post as [|b post _] using rev_ind.
      * by apply app_inj_tail in Hp as [_ <-].
      * rewrite app_comm_cons, app_assoc in Hp. apply app_inj_tail in Hp as [Hp _]. by apply (H pre a post).
    + split; [done|]. intros (pre & Hp & Hs). apply app_inj_tail in Hp as [<- _]. cbn [app] in He. congruence.
Qed.

Lemma manager_starts_complete_witness :
  registered (trace (main (fun _ _ => None) ascii_tables ∅ ∅ ["--leader-elect"])) =
  [PostgresClusterReconciler; PostgresBackupReconciler; PostgresUserReconciler].
Proof.
  apply (manager_starts_complete (fun _ _ => None) ascii_tables ∅ ∅ ["--leader-elect"]).
  apply (list_elem_of_lookup_2 _ 7). vm_compute. reflexivity.
Defined.

(** The servers are hardened by default.  Unless the command line turns HTTP/2 on, the
    webhook and the metrics servers negotiate HTTP/1.1 only, whatever else their TLS
    configuration says; and the metrics are served over TLS exactly when they are
    protected by authentication and authorization. *)
Theorem servers_hardened (vals : values) (c : TLSConfig) :
  let o := options_of vals in
  (truth vals "enableHTTP2" = false ->
   apply_tls (WebhookTLSOpts o) c = {| NextProtos := ["http/1.1"] |} /\
   apply_tls (m_TLSOpts (Metrics o)) c = {| NextProtos := ["http/1.1"] |}) /\
  (truth vals "enableHTTP2" = true ->
   apply_tls (WebhookTLSOpts o) c = c /\ apply_tls (m_TLSOpts (Metrics o)) c = c) /\
  SecureServing (Metrics o) = authFilter (Metrics o).
Proof. cbn zeta. unfold options_of. cbn. split_and!; [by intros -> ..|done]. Qed.

(** C5: the registered controllers compose.  In every sequence of reconciles of the
    controllers that a started manager runs, for any requests and with any outcomes, an
    existing Secret or Job is never modified, a terminal backup never changes, users and
    backups are never removed and keep their spec and metadata, an object
    changes only if a running controller watches its kind, so that its drift is seen
    again, and no Deployment changes: whatever the annotations of a cluster say, its
    connection pooler is not created. *)
Theorem controllers_compose (W : Type) (R : Runtime W) (L : RuntimeLaws W) (T : UnicodeTables)
  (perform : list action -> action -> option error) (zap : formal_set) (zap_defaults : values)
  (args : list string) (w w' : W) :
  let cs := registered (trace (main perform T zap zap_defaults args)) in
  rtc (reconcile_step T cs) w w' ->
  (forall n s, stored w KSecret n = Some s -> stored w' KSecret n = Some s) /\
  (forall n j, stored w KJob n = Some j -> stored w' KJob n = Some j) /\
  (forall n b, stored w KBackup n = Some b -> Backup.terminal (bst_Phase (pb_Status b)) = true ->
     stored w' KBackup n = Some b) /\
  (forall k n o, k = KUser \/ k = KBackup -> stored w k n = Some o ->
     exists o', stored w' k n = Some o' /\ kept k o o') /\
  (forall k, (forall c, c ∈ cs -> ~ watched c k) -> forall n, stored w' k n = stored w k n) /\
  (forall n, stored w' KDeployment n = stored w KDeployment n).
Proof.
  intros cs Hs.
  assert (Hcs : forall c, c ∈ cs -> c <> PostgresPoolerReconciler) by apply main_registers.
  assert (Hwatch : forall k, (forall c, c ∈ cs -> ~ watched c k) -> forall n, stored w' k n = stored w k n).
  { intros k Hk n. refine (steps_invariant T cs (fun v => stored v k n = stored w k n) _ _ _ Hs eq_refl).
    intros w1 w2 [c req w1' r w2' Hin Hw] E. rewrite <- E. eapply dispatch_watched; eauto. }
  split_and!; [| | | |done|].
  - intros n s. apply (steps_invariant T cs (fun v => stored v KSecret n = Some s)); [|done].
    intros w1 w2 [c req w1' r w2' Hin Hw]. eapply dispatch_secret; eauto.
  - intros n j. apply (steps_invariant T cs (fun v => stored v KJob n = Some j)); [|done].
    intros w1 w2 [c req w1' r w2' Hin Hw]. eapply dispatch_job; eauto.
  - intros n b Hb Ht. refine (steps_invariant T cs (fun v => stored v KBackup n = Some b) _ _ _ Hs Hb).
    intros w1 w2 [c req w1' r w2' Hin Hw] Hb1. eapply dispatch_terminal; eauto.
  - intros k n o Hk Ho.
    refine (steps_invariant T cs (fun v => exists o', stored v k n = Some o' /\ kept k o o') _ _ _ Hs _);
      [|exists o; split; [done|apply kept_refl]].
    intros w1 w2 [c req w1' r w2' Hin Hw] (o1 & Ho1 & K1).
    destruct (dispatch_kept T c req _ _ _ k n o1 (Hcs c Hin) Hk Hw Ho1) as (o2 & Ho2 & K2).
    exists o2. split; [done|]. by eapply kept_trans.
  - apply Hwatch. intros c Hc. specialize (Hcs c Hc). destruct c; try done; unwatched.
Qed.

(** Two reconciles of a started manager: the backup and then its cluster. *)
Definition sample_perform (done : list action) (a : action) : option error := None.

Definition after_backup : World := (Backup.Reconcile ascii_tables Backup.sample_req Backup.sample_world).2.
Definition after_cluster : World := (Cluster.Reconcile true (nn "db" "prod") after_backup).2.

Lemma controllers_compose_witness :
  stored after_cluster KDeployment (nn "db-pooler" "prod") = None.
Proof.
  destruct (controllers_compose World _ _ ascii_tables sample_perform ∅ ∅ [] Backup.sample_world after_cluster)
    as (_ & _ & _ & _ & _ & H).
  - eapply rtc_l; [|eapply rtc_l; [|apply rtc_refl]].
    + eapply (reconcile_by _ _ PostgresBackupReconciler Backup.sample_req).
      * apply (list_elem_of_lookup_2 _ 1). vm_compute. reflexivity.
      * apply surjective_pairing.
    + eapply (reconcile_by _ _ PostgresClusterReconciler (nn "db" "prod")).
      * apply (list_elem_of_lookup_2 _ 0). vm_compute. reflexivity.
      * apply surjective_pairing.
  - rewrite H. vm_compute. reflexivity.
Defined.

End Manager.
