(* ===== verification/Tokens.v ===== *)
(** * Random tokens (GenerateToken of internal/password/password.go) and the helpers that panic

    encoding/base64's URL encoding, a reference decoder, and the token generator over any
    source of random bytes.  A helper that panics returns [None] there. *)

From Stdlib Require Import ZArith Lia List Bool Ascii.
From stdpp Require Import base list strings gmap.
From S2P Require Import Prelude GoStrings K8s Api Runtime FakeRuntime Password Shell Store Pgbouncer Scheduler Urls.

Local Open Scope Z_scope.
Local Open Scope athos_scope.

Module Token.

(** ** encoding/base64 *)

Definition encodeURL : string := "ABCDEFGHIJKLMNOPQRSTUVWXYZabcdefghijklmnopqrstuvwxyz0123456789-_".

Definition sextet (v sh : Z) : ascii :=
  default "000"%char (String.get (Z.to_nat (Z.land (Z.shiftr v sh) 0x3F)) encodeURL).

(** [URLEncoding.EncodeToString]: three bytes at a time, the rest padded. *)
Fixpoint EncodeToString (src : list Z) : string :=
  match src with
  | [] => ""
  | [a] =>
      let v := Z.shiftl a 16 in
      String (sextet v 18) (String (sextet v 12) "==")
  | [a; b] =>
      let v := Z.lor (Z.shiftl a 16) (Z.shiftl b 8) in
      String (sextet v 18) (String (sextet v 12) (String (sextet v 6) "="))
  | a :: b :: c :: src' =>
      let v := Z.lor (Z.lor (Z.shiftl a 16) (Z.shiftl b 8)) c in
      String (sextet v 18) (String (sextet v 12) (String (sextet v 6) (String (sextet v 0) (EncodeToString src'))))
  end.

(** The reference decoder. *)
Definition digit_of (c : ascii) : option Z := Z.of_nat <$> index_byte c encodeURL.

Fixpoint decode (s : string) : option (list Z) :=
  match s with
  | EmptyString => Some []
  | String c0 (String c1 (String c2 (String c3 s'))) =>
      x0 ← digit_of c0; x1 ← digit_of c1;
      if Ascii.eqb c2 "=" then
        if Ascii.eqb c3 "=" && (s' =? "")%string then Some [x0 * 4 + x1 / 16] else None
      else
        x2 ← digit_of c2;
        if Ascii.eqb c3 "=" then
          if (s' =? "")%string then Some [x0 * 4 + x1 / 16; (x1 mod 16) * 16 + x2 / 4] else None
        else
          x3 ← digit_of c3; rest ← decode s';
          Some ([x0 * 4 + x1 / 16; (x1 mod 16) * 16 + x2 / 4; (x2 mod 4) * 64 + x3] ++ rest)
  | _ => None
  end.

(** ** Tokens *)

Section Generate.

(** The source of random bytes: [rand.Read] of a buffer of the given length. *)
Context {W : Type} (read : Z -> M W (result (list Z))).

Definition GenerateToken (byteLen : Z) : M W (result string) :=
  if byteLen <=? 0 then ret (Err (ErrNew "token byte length must be positive"))
  else
    let! r := read byteLen in
    match r with
    | Err e => ret (Err (ErrWrap "generating token: " e ""))
    | Ok buf => ret (Ok (EncodeToString buf))
    end.

End Generate.

(** ** Helpers that panic *)

Definition must {A} (r : result A) : option A := match r with Ok a => Some a | Err _ => None end.

Definition MustGenerate {W} `{Runtime W} (g : Password.Generator) : M W (option string) :=
  let! r := Password.Generate g in ret (must r).

(** [portmap.MustFind]. *)
Definition MustFind (name : string) : option Portmap.Port := Portmap.Find name.

(** [scheduler.MustParse]. *)
Definition MustParse (T : UnicodeTables) (expr : string) : option Scheduler.Schedule := must (Scheduler.Parse T expr).

(** [patcher.MustControllerReference]. *)
Definition MustControllerReference {W} `{Runtime W} (k : Kind) (owner : OwnerReference) (ns : string) (o : obj k)
  : option (obj k) := must (rt_SetControllerReference k owner ns o).

(** ** Lemmas *)

Definition is_byte (z : Z) : bool := in_range 0 255 z.

(** A sum of disjoint parts. *)
Lemma lor_shift x y n : 0 <= n -> 0 <= y < 2 ^ n -> Z.lor (Z.shiftl x n) y = x * 2 ^ n + y.
Proof.
  intros Hn Hy. rewrite <- Z.shiftl_mul_pow2 by done.
  rewrite <- Z.add_lor_land. replace (Z.land (Z.shiftl x n) y) with 0; [lia|].
  symmetry. apply Z.bits_inj'. intros i Hi. rewrite Z.land_spec, Z.bits_0.
  destruct (Z.lt_ge_cases i n); [by rewrite Z.shiftl_spec_low|].
  rewrite <- (Z.mod_small y (2 ^ n)), Z.mod_pow2_bits_high by lia. apply andb_false_r.
Qed.

Definition letter (x : Z) : ascii := default "000"%char (String.get (Z.to_nat x) encodeURL).

(** A token needs no escaping in a path segment. *)
Definition segment_safe (c : ascii) : bool := negb (Urls.shouldEscape Urls.encodePathSegment c).

Lemma letters_ok :
  Forall (fun i => digit_of (letter (Z.of_nat i)) = Some (Z.of_nat i) /\ Ascii.eqb (letter (Z.of_nat i)) "=" = false /\
                   segment_safe (letter (Z.of_nat i)) = true) (seq 0 64).
Proof. apply (bool_decide_unpack _). vm_compute. exact I. Qed.

Lemma letter_spec x : 0 <= x < 64 ->
  digit_of (letter x) = Some x /\ Ascii.eqb (letter x) "=" = false /\ segment_safe (letter x) = true.
Proof.
  intros Hx. pose proof letters_ok as H. rewrite Forall_forall in H. specialize (H (Z.to_nat x)).
  rewrite Z2Nat.id in H by lia. apply H. apply elem_of_seq. lia.
Qed.

Lemma sextet_letter v sh : 0 <= sh -> sextet v sh = letter ((v / 2 ^ sh) mod 64).
Proof.
  intros Hs. unfold sextet, letter. rewrite Z.shiftr_div_pow2 by done.
  change 0x3F with (Z.ones 6). by rewrite Z.land_ones by done.
Qed.

Lemma sextet_spec v sh : 0 <= sh ->
  digit_of (sextet v sh) = Some ((v / 2 ^ sh) mod 64) /\ Ascii.eqb (sextet v sh) "=" = false /\
  segment_safe (sextet v sh) = true.
Proof. intros Hs. rewrite sextet_letter by done. apply letter_spec. apply Z.mod_pos_bound. lia. Qed.

Lemma sextet_safe v sh : 0 <= sh -> segment_safe (sextet v sh) = true.
Proof. intros Hs. by destruct (sextet_spec v sh Hs) as (_ & _ & ?). Qed.

(** Lists by threes. *)
Lemma list_three_ind {A} (P : list A -> Prop) :
  P [] -> (forall a, P [a]) -> (forall a b, P [a; b]) -> (forall a b c l, P l -> P (a :: b :: c :: l)) -> forall l, P l.
Proof.
  intros H0 H1 H2 H3 l. enough (P l /\ (forall a, P (a :: l)) /\ (forall a b, P (a :: b :: l))) by tauto.
  induction l as [|c l (IH0 & IH1 & IH2)]; auto.
Qed.

Lemma three_bytes a b c : is_byte b = true -> is_byte c = true ->
  Z.lor (Z.lor (Z.shiftl a 16) (Z.shiftl b 8)) c = a * 65536 + b * 256 + c.
Proof.
  unfold is_byte, in_range. intros Hb Hc. breflect.
  rewrite <- Z.lor_assoc, (lor_shift b c 8) by (cbn; lia). rewrite lor_shift; cbn; lia.
Qed.

Lemma two_bytes a b : is_byte b = true -> Z.lor (Z.shiftl a 16) (Z.shiftl b 8) = a * 65536 + b * 256.
Proof.
  intros Hb. rewrite <- (Z.lor_0_r (Z.lor _ _)), three_bytes by done. lia.
Qed.

Lemma decode_encode bs : forallb is_byte bs = true -> decode (EncodeToString bs) = Some bs.
Proof.
  induction bs as [|a|a b|a b c bs IH] using list_three_ind; intros H; [done|..]; cbn [forallb] in H; breflect.
  - cbn [EncodeToString decode]. rewrite Z.shiftl_mul_pow2 by lia.
    destruct (sextet_spec (a * 2 ^ 16) 18 ltac:(lia)) as (-> & _).
    destruct (sextet_spec (a * 2 ^ 16) 12 ltac:(lia)) as (-> & _).
    cbn. unfold is_byte, in_range in *. breflect. do 2 f_equal. dlia.
  - cbn [EncodeToString decode]. rewrite two_bytes by done. set (v := a * 65536 + b * 256).
    destruct (sextet_spec v 18 ltac:(lia)) as (-> & _).
    destruct (sextet_spec v 12 ltac:(lia)) as (-> & _).
    destruct (sextet_spec v 6 ltac:(lia)) as (-> & -> & _).
    cbn. unfold is_byte, in_range in *. breflect. subst v. f_equal. f_equal; [|f_equal]; dlia.
  - cbn [EncodeToString decode]. rewrite three_bytes by done. set (v := a * 65536 + b * 256 + c).
    destruct (sextet_spec v 18 ltac:(lia)) as (-> & _).
    destruct (sextet_spec v 12 ltac:(lia)) as (-> & _).
    destruct (sextet_spec v 6 ltac:(lia)) as (-> & -> & _).
    destruct (sextet_spec v 0 ltac:(lia)) as (-> & -> & _).
    cbn [mbind option_bind]. rewrite IH by done.
    cbn. unfold is_byte, in_range in *. breflect. subst v. f_equal. f_equal; [|f_equal; [|f_equal]]; dlia.
Qed.

Lemma encode_length bs : Z.of_nat (String.length (EncodeToString bs)) = 4 * ((Z.of_nat (length bs) + 2) / 3).
Proof.
  induction bs as [|a|a b|a b c bs IH] using list_three_ind; [done..|].
  cbn [EncodeToString String.length length]. dlia.
Qed.

Lemma encode_safe bs : sall segment_safe (EncodeToString bs) = true.
Proof.
  induction bs as [|a|a b|a b c bs IH] using list_three_ind; [done|..]; cbn [EncodeToString sall];
    rewrite !sextet_safe by done; done.
Qed.

Lemma escape_safe s : sall segment_safe s = true -> Urls.PathEscape s = s.
Proof.
  unfold Urls.PathEscape. induction s as [|c s IH]; [done|]. cbn [sall Urls.escape]. intros H.
  apply andb_prop in H as [Hc Hs]. unfold segment_safe in Hc. apply negb_true_iff in Hc.
  by rewrite Hc, IH.
Qed.

(** Tokens carry their entropy.  For every source of random bytes and every length, a
    token is produced only for a positive length and a source that did not fail, the
    failures being reported; it decodes to exactly the bytes that were read, has
    four characters for every three bytes begun, and needs no escaping as a path segment
    of a URL. *)
Theorem GenerateToken_roundtrip (W : Type) (read : Z -> M W (result (list Z))) (n : Z) (w w' : W) (r : result string) :
  (forall k v bs v', 0 < k -> read k v = (Ok bs, v') -> Z.of_nat (length bs) = k /\ forallb is_byte bs = true) ->
  GenerateToken read n w = (r, w') ->
  match r with
  | Ok t => 0 < n /\ (exists bs, read n w = (Ok bs, w') /\ decode t = Some bs) /\
            Z.of_nat (String.length t) = 4 * ((n + 2) / 3) /\ Urls.PathEscape t = t
  | Err e => n <= 0 /\ w' = w \/ exists e', read n w = (Err e', w') /\ e = ErrWrap "generating token: " e' ""
  end.
Proof.
  intros Hread Hw. unfold GenerateToken in Hw. destruct (Z.leb_spec n 0).
  - injection Hw as <- <-. by left.
  - mstep Hw. destruct a as [bs|e]; injection Hw as <- <-; [|right; eauto].
    destruct (Hread _ _ _ _ ltac:(done) E) as [Hl Hb]. split_and!; [done| |by rewrite encode_length, Hl|apply escape_safe, encode_safe].
    exists bs. by rewrite decode_encode.
Qed.

(** A source that counts. *)
Definition counting (n : Z) : M Z (result (list Z)) :=
  fun w => (Ok (map (fun i => (w + Z.of_nat i) mod 256) (seq 0 (Z.to_nat n))), w + n).

Lemma counting_reads k v bs v' :
  0 < k -> counting k v = (Ok bs, v') -> Z.of_nat (length bs) = k /\ forallb is_byte bs = true.
Proof.
  intros Hk H. injection H as <- _. split; [rewrite length_map, length_seq; lia|].
  apply List.forallb_forall. intros x (i & <- & _)%in_map_iff. unfold is_byte, in_range.
  pose proof (Z.mod_pos_bound (v + Z.of_nat i) 256 ltac:(lia)). lia.
Qed.

Definition sample_token : string := "-vv8_f7_AAECAwQFBgcICQ==".

Lemma GenerateToken_roundtrip_witness :
  (GenerateToken counting 16 250).1 = Ok sample_token /\ Urls.PathEscape sample_token = sample_token.
Proof.
  assert (E : (GenerateToken counting 16 250).1 = Ok sample_token) by (vm_compute; reflexivity). split; [done|].
  apply (GenerateToken_roundtrip Z counting 16 250 266 (Ok sample_token) counting_reads). vm_compute. reflexivity.
Defined.

End Token.
