(* ===== verification/RecoveryTime.v ===== *)
(** * Recovery target times (ParseTime of internal/recovery/recovery.go)

    time.Parse for the layout the package uses: a four-digit year, two-digit month, day,
    minute and second, an hour of one or two digits, an optional fraction of the second
    and a zone.  UTC is read here; other zone names are resolved by a parameter, since
    they depend on the zone database of the machine. *)

From Stdlib Require Import ZArith Lia List Bool Ascii.
From stdpp Require Import base list strings gmap.
From S2P Require Import Prelude GoStrings Durations Snapshot Standby.

Local Open Scope Z_scope.

Module RecoveryTime.
Import GoTime Calendar.

Definition TimeLayout : string := "2006-01-02 15:04:05 MST".

(** ** time.Parse *)

(** [skip] of a prefix of one byte: blanks match any number of blanks, at the end none. *)
Fixpoint cutspace (s : string) : string :=
  match s with String " " s' => cutspace s' | _ => s end.

Definition skip (c : ascii) (s : string) : option string :=
  if Ascii.eqb c " " then
    match s with
    | EmptyString => Some ""
    | String d _ => if Ascii.eqb d " " then Some (cutspace s) else None
    end
  else match s with
       | String d s' => if Ascii.eqb d c then Some s' else None
       | EmptyString => None
       end.

Definition digit (c : ascii) : Z := byte c - 48.

(** [getnum]: two digits, or one when the width is not fixed. *)
Definition getnum (fixed : bool) (s : string) : option (Z * string) :=
  match s with
  | String a s1 =>
      if is_digit a then
        match s1 with
        | String b s2 => if is_digit b then Some (digit a * 10 + digit b, s2)
                         else if fixed then None else Some (digit a, s1)
        | EmptyString => if fixed then None else Some (digit a, s1)
        end
      else None
  | EmptyString => None
  end.

(** The year: four bytes that are all digits. *)
Definition getyear (s : string) : option (Z * string) :=
  if (String.length s <? 4)%nat || negb (sall is_digit (stake 4 s)) then None
  else y ← parse_uint (stake 4 s); Some (y, sdrop 4 s).

(** A fraction after the seconds is read although the layout has none. *)
Definition getfraction (s : string) : Z * string :=
  match s with
  | String p (String d _) =>
      if (Ascii.eqb p "." || Ascii.eqb p ",") && is_digit d then
        let ds := (span is_digit (sdrop 1 s)).1 in
        let kept := stake 9 ds in
        (default 0 (parse_uint kept) * 10 ^ (9 - Z.of_nat (String.length kept)), sdrop (String.length ds) (sdrop 1 s))
      else (0, s)
  | _ => (0, s)
  end.

Definition daysIn (m y : Z) : Z :=
  if m =? 2 then (if leap y then 29 else 28)
  else if (m =? 4) || (m =? 6) || (m =? 9) || (m =? 11) then 30 else 31.

(** [time.Date] in UTC, in nanoseconds since the epoch. *)
Definition Date (y m d h mi s ns : Z) : Z :=
  ((days_before y + default 0 (month_starts (leap y) !! Z.to_nat (m - 1)) + d - 1 - epoch_day) * 86400
   + h * 3600 + mi * 60 + s) * Second + ns.

Section ParseTime.

(** The instant denoted by a zone name that does not start with UTC, for the time read as
    UTC; [None] when the name is not one. *)
Context (zone : string -> Z -> option Z).

Definition in_zone (s : string) (utc : Z) : option Z :=
  if has_prefix "UTC" s then (if (sdrop 3 s =? "")%string then Some utc else None) else zone s utc.

Definition guard_range (lo hi z : Z) : option unit := if in_range lo hi z then Some tt else None.

Definition parse_time (value : string) : option Z :=
  '(y, s) ← getyear value;
  s ← skip "-" s; '(m, s) ← getnum true s; _ ← guard_range 1 12 m;
  s ← skip "-" s; '(d, s) ← getnum true s;
  s ← skip " " s; '(h, s) ← getnum false s; _ ← guard_range 0 23 h;
  s ← skip ":" s; '(mi, s) ← getnum true s; _ ← guard_range 0 59 mi;
  s ← skip ":" s; '(sec, s) ← getnum true s; _ ← guard_range 0 59 sec;
  let '(ns, s) := getfraction s in
  s ← skip " " s;
  utc ← (_ ← guard_range 1 (daysIn m y) d; Some (Date y m d h mi sec ns));
  in_zone s utc.

(** [ParseTime]. *)
Definition ParseTime (T : UnicodeTables) (s : string) : result Z :=
  match parse_time s with
  | Some t => Ok t
  | None => Err (ErrNew ("parsing recovery target time " +:+ Quote T s +:+ ": use format " +:+ Quote T TimeLayout))
  end.

End ParseTime.

(** ** Lemmas *)

Lemma getnum_padded fixed v s : 0 <= v < 100 -> getnum fixed (padded 2 v +:+ s) = Some (v, s).
Proof.
  intros Hv. cbn [padded]. rewrite !app_cons_l. cbn [getnum].
  change (10 ^ Z.of_nat 1) with 10. change (10 ^ Z.of_nat 0) with 1.
  destruct (digit_chr ((v / 10) mod 10)) as [-> Ha]; [apply Z.mod_pos_bound; lia|].
  destruct (digit_chr ((v / 1) mod 10)) as [-> Hb]; [apply Z.mod_pos_bound; lia|].
  unfold digit. rewrite Ha, Hb, app_nil_l_s. do 2 f_equal. dlia.
Qed.

Lemma skip_byte c s : Ascii.eqb c " " = false -> skip c (str1 c +:+ s) = Some s.
Proof. intros Hc. unfold skip. rewrite Hc, str1_app. by rewrite Ascii.eqb_refl. Qed.

Lemma skip_blank n v s : skip " " (" " +:+ padded (S n) v +:+ s) = Some (padded (S n) v +:+ s).
Proof.
  pose proof (padded_digits (S n) v) as H. cbn [padded] in *. rewrite app_cons_l.
  set (c := chr _) in *. clearbody c. cbn [sall] in H. apply andb_prop in H as [H _].
  by destruct c as [[] [] [] [] [] [] [] []].
Qed.

Lemma parse_padded n v acc :
  0 <= v < 10 ^ Z.of_nat n -> parse_digits acc (padded n v) = Some (acc * 10 ^ Z.of_nat n + v).
Proof.
  assert (H : forall n acc, parse_digits acc (padded n v) = Some (acc * 10 ^ Z.of_nat n + v mod 10 ^ Z.of_nat n)).
  { clear. induction n as [|n IH]; intros acc; cbn [padded parse_digits].
    - cbn. rewrite Z.mod_1_r. f_equal. lia.
    - destruct (digit_chr ((v / 10 ^ Z.of_nat n) mod 10)) as [-> ->]; [apply Z.mod_pos_bound; lia|].
      rewrite IH. f_equal. rewrite Nat2Z.inj_succ, Z.pow_succ_r by lia.
      rewrite (Z.mul_comm 10 (10 ^ _)), (Z.rem_mul_r v) by (try apply Z.pow_nonzero; lia). lia. }
  intros Hv. by rewrite H, Z.mod_small.
Qed.

Lemma getyear_padded y s : 0 <= y <= 9999 -> getyear (padded 4 y +:+ s) = Some (y, s).
Proof.
  intros Hy. unfold getyear. rewrite stake_app, sdrop_app by by rewrite padded_length.
  rewrite length_app_s, padded_length, padded_digits.
  replace ((4 + String.length s <? 4)%nat) with false by (symmetry; apply Nat.ltb_ge; lia). cbn [negb orb].
  assert (parse_uint (padded 4 y) = Some y) as ->; [|done].
  change (parse_digits 0 (padded 4 y) = Some y). rewrite parse_padded by (cbn; lia). done.
Qed.

(** The civil date of an instant gives the instant back, to the second. *)
Lemma month_day_start (l : bool) a m d :
  0 <= a < (if l then 366 else 365) -> month_day 1 (month_starts l) a = (m, d) ->
  default 0 (month_starts l !! Z.to_nat (m - 1)) + d - 1 = a /\
  d <= (if m =? 2 then (if l then 29 else 28) else if (m =? 4) || (m =? 6) || (m =? 9) || (m =? 11) then 30 else 31).
Proof.
  intros Ha. destruct l; cbn [month_starts month_day];
    repeat (match goal with |- context [a <? ?x] => destruct (Z.ltb_spec a x) end);
    intros [= <- <-]; split;
    match goal with
    | |- context [default 0 ?x] => let v := eval vm_compute in (default 0 x) in change (default 0 x) with v
    | |- _ <= ?x => let v := eval vm_compute in x in change x with v
    end; lia.
Qed.

Lemma Date_civil t :
  let c := civil t in
  Date (c_year c) (c_month c) (c_day c) (c_hour c) (c_min c) (c_sec c) 0 = t / Second * Second /\
  in_range 1 (daysIn (c_month c) (c_year c)) (c_day c) = true.
Proof.
  cbn zeta. unfold civil. set (d := t / Second / 86400 + epoch_day).
  destruct (month_day 1 _ _) as [m dd] eqn:E. cbn [c_year c_month c_day c_hour c_min c_sec].
  pose proof (yday_range d) as Hr. destruct (month_day_range _ _ _ _ Hr E) as [_ Hd].
  destruct (month_day_start _ _ _ _ Hr E) as [Es Hi]. split.
  - unfold Date. replace (days_before (year_of d) + default 0 (month_starts (leap (year_of d)) !! Z.to_nat (m - 1)) + dd - 1 - epoch_day)
      with (t / Second / 86400) by (unfold d in *; lia).
    rewrite Z.add_0_r. f_equal. generalize (t / Second). intros x. dlia.
  - unfold in_range, daysIn. lia.
Qed.

Lemma range_true lo hi z : lo <= z <= hi -> in_range lo hi z = true.
Proof. unfold in_range. lia. Qed.

(** ** Theorems *)

(** Target times survive.  For every instant with a four-digit year and every zone
    database, [ParseTime] reads the text that [RecoveryParams] writes for the instant,
    and gives back the instant to the second. *)
Theorem ParseTime_roundtrip (zone : string -> Z -> option Z) (T : UnicodeTables) (t : Z) :
  four_digit_year t -> ParseTime zone T (Recovery.time_text t) = Ok (t / Second * Second).
Proof.
  intros Hy. unfold ParseTime. enough (parse_time zone (Recovery.time_text t) = Some (t / Second * Second)) as -> by done.
  unfold Recovery.time_text. destruct (Date_civil t) as [Hd Hr]. destruct (civil_range t) as (? & ? & ? & ? & ?).
  unfold four_digit_year in Hy. destruct (civil t) as [y m d h mi s]. cbn [c_year c_month c_day c_hour c_min c_sec] in *.
  rewrite year_text_padded by done. unfold parse_time, guard_range.
  rewrite getyear_padded by done. cbn [mbind option_bind].
  rewrite (skip_byte "-") by done. cbn [mbind option_bind]. rewrite getnum_padded by lia. cbn [mbind option_bind].
  rewrite (range_true 1 12 m) by lia. cbn [mbind option_bind].
  rewrite (skip_byte "-") by done. cbn [mbind option_bind]. rewrite getnum_padded by lia. cbn [mbind option_bind].
  rewrite skip_blank. cbn [mbind option_bind]. rewrite getnum_padded by lia. cbn [mbind option_bind].
  rewrite (range_true 0 23 h) by lia. cbn [mbind option_bind].
  rewrite (skip_byte ":") by done. cbn [mbind option_bind]. rewrite getnum_padded by lia. cbn [mbind option_bind].
  rewrite (range_true 0 59 mi) by lia. cbn [mbind option_bind].
  rewrite (skip_byte ":") by done. cbn [mbind option_bind]. rewrite getnum_padded by lia. cbn [mbind option_bind].
  rewrite (range_true 0 59 s) by lia. cbn [mbind option_bind].
  change (getfraction " UTC") with (0, " UTC"). cbv iota beta.
  change (skip " " " UTC") with (Some "UTC"). cbn [mbind option_bind].
  rewrite Hr. cbn [mbind option_bind]. rewrite Hd. reflexivity.
Qed.

Lemma ParseTime_roundtrip_witness :
  ParseTime (fun _ _ => None) ascii_tables "2025-10-09 08:53:20 UTC" = Ok 1760000000000000000.
Proof.
  apply (ParseTime_roundtrip (fun _ _ => None) ascii_tables 1760000000123456789).
  vm_compute. split; discriminate.
Defined.

(** The parser is stricter than the calendar and laxer than the layout: the thirtieth of
    February and a second sixty are refused, while an hour of one digit and a fraction of
    the second are read. *)
Example ParseTime_bounds :
  is_ok (ParseTime (fun _ _ => None) ascii_tables "2024-02-30 08:53:20 UTC") = false /\
  is_ok (ParseTime (fun _ _ => None) ascii_tables "2024-02-29 08:53:60 UTC") = false /\
  ParseTime (fun _ _ => None) ascii_tables "2025-10-09 8:53:20.5 UTC" = Ok 1760000000500000000.
Proof. by vm_compute. Qed.

End RecoveryTime.
