(* ===== verification/GoHeap.v ===== *)
(** * Go memory: locations, references and deep copies

    A heap maps locations to cells; a location at or above [next] is not in use.  A
    reference ([ptr], [slice], [gomap]) is a location or nil, so two values can share what
    they refer to.  The class [Deep] gives a type with references its contents in a heap
    ([view]) and the locations it reaches ([locs]).  A function [copies] when it makes a
    value with the same contents that reaches no location that was in use before, and
    changes nothing that was; [copy_ptr], [copy_slice] and [copy_map] are the three shapes
    in which code allocates a copy, and they copy when the element's function does.

    A slice is a reference to its elements: two slices over parts of one array are outside
    this model. *)

From Stdlib Require Import ZArith Lia List Bool.
From stdpp Require Import base list strings gmap.
From S2P Require Import Prelude.

Definition loc := positive.

(** References; the type is that of what they refer to. *)
Inductive ptr (A : Type) := Ptr (addr : option loc).
Inductive slice (A : Type) := Slice (addr : option loc).
Inductive gomap (A : Type) := GoMap (addr : option loc).
Arguments Ptr {A} addr.
Arguments Slice {A} addr.
Arguments GoMap {A} addr.

Section Heap.
Context {cell : Type}.

Record Heap := { cells : gmap loc cell; next : loc }.

Definition wf (h : Heap) : Prop := forall l c, cells h !! l = Some c -> (l < next h)%positive.

(** Code over a heap; [None] is a dangling reference, which Go rules out. *)
Definition heapM (A : Type) : Type := Heap -> option (A * Heap).

Definition hret {A} (a : A) : heapM A := fun h => Some (a, h).
Definition hbind {A B} (m : heapM A) (k : A -> heapM B) : heapM B :=
  fun h => match m h with Some (a, h') => k a h' | None => None end.

(** Cells that hold values of a given type. *)
Class Stored (A : Type) := { inj : A -> cell; prj : cell -> option A; prj_inj : forall a, prj (inj a) = Some a }.

Definition peek {A} {SA : Stored A} (h : Heap) (l : loc) : option A := cells h !! l ≫= prj.

Definition load {A} {SA : Stored A} (l : loc) : heapM A :=
  fun h => match peek h l with Some a => Some (a, h) | None => None end.

(** [new(T)] and [make]: a location of its own, filled later by [store]. *)
Definition reserve : heapM loc := fun h => Some (next h, {| cells := cells h; next := (next h + 1)%positive |}).
Definition store {A} {SA : Stored A} (l : loc) (a : A) : heapM unit :=
  fun h => Some (tt, {| cells := <[l := inj a]> (cells h); next := next h |}).

(** ** The shapes of a copy *)

(** What a location holds, copied by [f] to a location of its own. *)
Definition copy_addr {A} {SA : Stored A} (f : A -> heapM A) (o : option loc) : heapM (option loc) :=
  match o with
  | None => hret None
  | Some l => hbind (load l) (fun a => hbind reserve (fun l' => hbind (f a) (fun a' => hbind (store l' a') (fun _ => hret (Some l')))))
  end.

(** [if in != nil { out = new(T); f(in, out) }]. *)
Definition copy_ptr {A} {SA : Stored A} (f : A -> heapM A) (p : ptr A) : heapM (ptr A) :=
  let '(Ptr o) := p in hbind (copy_addr f o) (fun o' => hret (Ptr o')).

Fixpoint copy_list {A} (f : A -> heapM A) (l : list A) : heapM (list A) :=
  match l with
  | [] => hret []
  | a :: l' => hbind (f a) (fun a1 => hbind (copy_list f l') (fun l1 => hret (a1 :: l1)))
  end.

(** [if in != nil { out = make([]T, len(in)); for i := range in { f(in[i], out[i]) } }]. *)
Definition copy_slice {A} {SA : Stored (list A)} (f : A -> heapM A) (p : slice A) : heapM (slice A) :=
  let '(Slice o) := p in hbind (copy_addr (copy_list f) o) (fun o' => hret (Slice o')).

(** [if in != nil { out = make(map[string]T, len(in)); for k, v := range in { out[k] = v } }]. *)
Definition copy_map {A} {SA : Stored (gmap string A)} (p : gomap A) : heapM (gomap A) :=
  let '(GoMap o) := p in hbind (copy_addr hret o) (fun o' => hret (GoMap o')).

Definition copy_pair {A B} (f : A -> heapM A) (g : B -> heapM B) (x : A * B) : heapM (A * B) :=
  hbind (f x.1) (fun a => hbind (g x.2) (fun b => hret (a, b))).

(** ** Growth *)

(** Nothing that was in use has changed. *)
Definition grows (h h' : Heap) : Prop :=
  (next h <= next h')%positive /\ (forall l, (l < next h)%positive -> cells h' !! l = cells h !! l) /\ wf h'.

Lemma grows_refl h : wf h -> grows h h.
Proof. by split; [lia|split]. Qed.

Lemma grows_trans h1 h2 h3 : grows h1 h2 -> grows h2 h3 -> grows h1 h3.
Proof.
  intros (L1 & E1 & _) (L2 & E2 & W). split; [lia|]. split; [|done].
  intros l Hl. rewrite E2 by lia. by apply E1.
Qed.

Definition fresh_for (h : Heap) (ls : list loc) : Prop := Forall (fun l => (next h <= l)%positive) ls.

Lemma fresh_weaken h h' ls : (next h <= next h')%positive -> fresh_for h' ls -> fresh_for h ls.
Proof. intros Hn Hl. eapply Forall_impl; [exact Hl|]. cbn. intros; lia. Qed.

(** ** Contents *)

(** The contents depend only on the reachable locations, which are in use. *)
Class Deep (A V : Type) := {
  view : Heap -> A -> option V;
  locs : Heap -> A -> list loc;
  view_agree : forall h h' a v, view h a = Some v ->
    (forall l, l ∈ locs h a -> cells h' !! l = cells h !! l) -> view h' a = Some v /\ locs h' a = locs h a;
  locs_alive : forall h a v, view h a = Some v -> Forall (fun l => is_Some (cells h !! l)) (locs h a);
}.

(** [f] succeeds on every value whose contents are defined, and its result is a copy. *)
Definition copies {A V} {DA : Deep A V} (f : A -> heapM A) : Prop :=
  forall h a v, wf h -> view h a = Some v ->
    exists a' h', f a h = Some (a', h') /\ grows h h' /\ view h' a' = Some v /\ fresh_for h (locs h' a').

Lemma locs_below {A V} {DA : Deep A V} h a v l : wf h -> view h a = Some v -> l ∈ locs h a -> (l < next h)%positive.
Proof.
  intros Hw Hv Hl. pose proof (locs_alive _ _ _ Hv) as Ha. rewrite Forall_forall in Ha.
  destruct (Ha _ Hl) as [c Hc]. by eapply Hw.
Qed.

(** What exists keeps its contents while the heap grows. *)
Lemma view_grows {A V} {DA : Deep A V} h h' a v :
  wf h -> grows h h' -> view h a = Some v -> view h' a = Some v /\ locs h' a = locs h a.
Proof.
  intros Hw (_ & E & _) Hv. apply (view_agree h); [done|]. intros l Hl. apply E. by eapply locs_below.
Qed.

(** Two copies in turn: the second leaves the first alone. *)
Lemma copy_both {A1 V1 A2 V2} {D1 : Deep A1 V1} {D2 : Deep A2 V2} f1 f2 h (a1 : A1) (a2 : A2) v1 v2 :
  copies f1 ->
  (forall h', grows h h' -> exists b h2, f2 a2 h' = Some (b, h2) /\ grows h' h2 /\ view h2 b = Some v2 /\ fresh_for h' (locs h2 b)) ->
  wf h -> view h a1 = Some v1 ->
  exists b1 h1 b2 h2, f1 a1 h = Some (b1, h1) /\ f2 a2 h1 = Some (b2, h2) /\ grows h h2 /\
    view h2 b1 = Some v1 /\ view h2 b2 = Some v2 /\ fresh_for h (locs h2 b1) /\ fresh_for h (locs h2 b2).
Proof.
  intros C1 C2 Hw E1.
  destruct (C1 h _ _ Hw E1) as (b1 & h1 & X1 & G1 & V1' & F1). pose proof G1 as (N1 & _ & W1).
  destruct (C2 h1 G1) as (b2 & h2 & X2 & G2 & V2' & F2).
  destruct (view_grows h1 h2 _ _ W1 G2 V1') as [V1'' L1].
  exists b1, h1, b2, h2. split_and!; try done; [by eapply grows_trans|by rewrite L1|by eapply fresh_weaken].
Qed.

(** *** Values without references *)

Program Definition flat (A : Type) : Deep A A := {| view _ a := Some a; locs _ _ := [] |}.
Next Obligation. done. Qed.
Next Obligation. constructor. Qed.

Lemma copies_flat A : copies (DA := flat A) hret.
Proof. intros h a v Hw [= ->]. exists v, h. split_and!; [done|by apply grows_refl|done|constructor]. Qed.

(** *** Pairs *)

Definition pair_view {A1 V1 A2 V2} {D1 : Deep A1 V1} {D2 : Deep A2 V2} (h : Heap) (a : A1 * A2) : option (V1 * V2) :=
  match view h a.1, view h a.2 with Some v1, Some v2 => Some (v1, v2) | _, _ => None end.

Lemma pair_view_inv {A1 V1 A2 V2} {D1 : Deep A1 V1} {D2 : Deep A2 V2} h (a : A1 * A2) v :
  pair_view h a = Some v -> view h a.1 = Some v.1 /\ view h a.2 = Some v.2.
Proof. unfold pair_view. destruct (view h a.1), (view h a.2); intros [= <-]; done. Qed.

#[export] Program Instance deep_pair {A1 V1 A2 V2} {D1 : Deep A1 V1} {D2 : Deep A2 V2} : Deep (A1 * A2) (V1 * V2) := {|
  view := pair_view;
  locs h a := locs h a.1 ++ locs h a.2;
|}.
Next Obligation.
  intros * [E1 E2]%pair_view_inv Hl. unfold pair_view.
  destruct (view_agree h h' _ _ E1) as [-> ->]; [intros; apply Hl, elem_of_app; by left|].
  destruct (view_agree h h' _ _ E2) as [-> ->]; [intros; apply Hl, elem_of_app; by right|]. by destruct v.
Qed.
Next Obligation. intros * [E1 E2]%pair_view_inv. apply Forall_app; split; by eapply locs_alive. Qed.

Lemma copies_pair {A1 V1 A2 V2} {D1 : Deep A1 V1} {D2 : Deep A2 V2} f g :
  copies (DA := D1) f -> copies (DA := D2) g -> copies (copy_pair f g).
Proof.
  intros Cf Cg h a v Hw [E1 E2]%pair_view_inv.
  destruct (copy_both f g h a.1 a.2 v.1 v.2 Cf) as (b1 & h1 & b2 & h2 & X1 & X2 & G & V1' & V2' & F1 & F2); [|done|done|].
  { intros h' G. pose proof G as (_ & _ & W). apply Cg; [done|]. by apply (view_grows h h' _ _ Hw G E2). }
  exists (b1, b2), h2. cbn. unfold copy_pair, hbind, hret, pair_view. cbn. rewrite X1, X2, V1', V2'.
  split_and!; try done; [by destruct v|by apply Forall_app].
Qed.

(** *** Lists, element by element *)

Fixpoint list_view {A V} {DA : Deep A V} (h : Heap) (l : list A) : option (list V) :=
  match l with
  | [] => Some []
  | a :: l' => match view h a, list_view h l' with Some v, Some vs => Some (v :: vs) | _, _ => None end
  end.

Lemma list_view_cons {A V} {DA : Deep A V} h (a : A) l vs :
  list_view h (a :: l) = Some vs -> exists v vs', vs = v :: vs' /\ view h a = Some v /\ list_view h l = Some vs'.
Proof. cbn. destruct (view h a), (list_view h l); intros [= <-]; eauto. Qed.

#[export] Program Instance deep_list {A V} {DA : Deep A V} : Deep (list A) (list V) := {|
  view := list_view; locs h l := l ≫= locs h |}.
Next Obligation.
  intros A V DA h h' l. induction l as [|a l IH]; intros vs Hv Hl; [done|].
  apply list_view_cons in Hv as (v & vs' & -> & E1 & E2). cbn in *.
  destruct (view_agree h h' _ _ E1) as [-> ->]; [intros; apply Hl, elem_of_app; by left|].
  destruct (IH _ E2) as [-> IHl]; [intros; apply Hl, elem_of_app; by right|]. split; [done|]. by f_equal.
Qed.
Next Obligation.
  intros A V DA h l. induction l as [|a l IH]; intros vs Hv; [constructor|].
  apply list_view_cons in Hv as (v & vs' & -> & E1 & E2). cbn. apply Forall_app. split; [by eapply locs_alive|by eapply IH].
Qed.

Lemma copies_list {A V} {DA : Deep A V} f : copies f -> copies (copy_list f).
Proof.
  intros Cf h l. revert h. induction l as [|a l IH]; intros h vs Hw Hv.
  - injection Hv as <-. exists [], h. split_and!; [done|by apply grows_refl|done|constructor].
  - apply list_view_cons in Hv as (v & vs' & -> & E1 & E2).
    destruct (copy_both f (copy_list f) h a l v vs' Cf) as (b & h1 & l2 & h2 & X1 & X2 & G & V1' & V2' & F1 & F2); [|done|done|].
    { intros h' G. pose proof G as (_ & _ & W). apply IH; [done|]. by apply (view_grows h h' l vs' Hw G). }
    exists (b :: l2), h2. cbn in *. unfold hbind, hret. rewrite X1, X2, V1', V2'. split_and!; try done. by apply Forall_app.
Qed.

(** *** References *)

Definition addr_view {A V} {SA : Stored A} {DA : Deep A V} (h : Heap) (o : option loc) : option (option V) :=
  match o with
  | None => Some None
  | Some l => match peek h l with Some a => Some <$> view h a | None => None end
  end.

Definition addr_locs {A V} {SA : Stored A} {DA : Deep A V} (h : Heap) (o : option loc) : list loc :=
  match o with
  | None => []
  | Some l => l :: match peek h l with Some a => locs h a | None => [] end
  end.

Lemma peek_ext {A} {SA : Stored A} h h' l : cells h' !! l = cells h !! l -> peek h' l = peek h l.
Proof. unfold peek. by intros ->. Qed.

Lemma addr_view_inv {A V} {SA : Stored A} {DA : Deep A V} h l (v : option V) :
  addr_view h (Some l) = Some v -> exists a w, peek h l = Some a /\ view h a = Some w /\ v = Some w.
Proof. cbn. destruct (peek h l) as [a|]; [|done]. destruct (view h a) eqn:E; intros [= <-]. eauto. Qed.

Lemma addr_agree {A V} {SA : Stored A} {DA : Deep A V} h h' o (v : option V) :
  addr_view h o = Some v -> (forall l, l ∈ addr_locs h o -> cells h' !! l = cells h !! l) ->
  addr_view h' o = Some v /\ addr_locs h' o = addr_locs h o.
Proof.
  destruct o as [l|]; [|done]. intros (a & w & Ea & Ew & ->)%addr_view_inv Hl. cbn in *. rewrite Ea in Hl.
  rewrite (peek_ext h h') by (apply Hl; by left). rewrite Ea.
  destruct (view_agree h h' _ _ Ew) as [-> ->]; [intros; apply Hl; by right|]. done.
Qed.

Lemma addr_alive {A V} {SA : Stored A} {DA : Deep A V} h o (v : option V) :
  addr_view h o = Some v -> Forall (fun l => is_Some (cells h !! l)) (addr_locs h o).
Proof.
  destruct o as [l|]; [|constructor]. intros (a & w & Ea & Ew & ->)%addr_view_inv. cbn. rewrite Ea.
  constructor; [|by eapply locs_alive]. unfold peek in Ea. by destruct (cells h !! l).
Qed.

Lemma reserve_grows h : wf h -> grows h {| cells := cells h; next := (next h + 1)%positive |}.
Proof. intros Hw. split; [cbn; lia|]. split; [done|]. intros l c Hc. cbn in *. specialize (Hw _ _ Hc). lia. Qed.

(** Filling a reserved location. *)
Lemma store_grows {A} {SA : Stored A} h h1 a :
  grows {| cells := cells h; next := (next h + 1)%positive |} h1 ->
  grows h {| cells := <[next h := inj a]> (cells h1); next := next h1 |}.
Proof.
  intros (N1 & E1 & W1). cbn in *. split; [cbn; lia|]. split.
  - intros x Hx. cbn. rewrite lookup_insert_ne by lia. by rewrite E1 by lia.
  - intros x c. cbn. destruct (decide (x = next h)) as [->|]; [intros _; lia|]. rewrite lookup_insert_ne by done. apply W1.
Qed.

Lemma addr_copy {A V} {SA : Stored A} {DA : Deep A V} f h o (v : option V) :
  copies f -> wf h -> addr_view h o = Some v ->
  exists o' h', copy_addr f o h = Some (o', h') /\ grows h h' /\ addr_view h' o' = Some v /\ fresh_for h (addr_locs h' o').
Proof.
  intros Cf Hw. destruct o as [l|]; intros Hv.
  2: { injection Hv as <-. exists None, h. split_and!; [done|by apply grows_refl|done|constructor]. }
  apply addr_view_inv in Hv as (a & w & Ea & Ew & ->).
  set (h0 := {| cells := cells h; next := (next h + 1)%positive |}).
  pose proof (reserve_grows h Hw) as G0. pose proof G0 as (_ & _ & W0).
  destruct (view_grows h h0 _ _ Hw G0 Ew) as [Ew0 _].
  destruct (Cf h0 _ _ W0 Ew0) as (a' & h1 & C1 & G1 & V1 & F1).
  set (h2 := {| cells := <[next h := inj a']> (cells h1); next := next h1 |}).
  destruct (view_agree h1 h2 _ _ V1) as [V2 L2].
  { intros x Hx. unfold fresh_for in F1. rewrite Forall_forall in F1. specialize (F1 _ Hx). cbn in *. rewrite lookup_insert_ne; [done|lia]. }
  assert (Ep : peek h2 (next h) = Some a').
  { unfold peek. cbn. rewrite lookup_insert_eq. cbn. apply prj_inj. }
  exists (Some (next h)), h2. cbn. unfold hbind, load, reserve, store, hret. rewrite Ea.
  fold h0. rewrite C1. fold h2. rewrite Ep, V2, L2. split_and!; [done|by apply store_grows|done|].
  constructor; [lia|]. eapply fresh_weaken; [|exact F1]. cbn. lia.
Qed.

(** A pointer: what it points to, or nothing. *)
#[export] Program Instance deep_ptr {A V} {SA : Stored A} {DA : Deep A V} : Deep (ptr A) (option V) := {|
  view h p := let '(Ptr o) := p in addr_view h o;
  locs h p := let '(Ptr o) := p in addr_locs h o;
|}.
Next Obligation. intros A V SA DA h h' [o] v. apply addr_agree. Qed.
Next Obligation. intros A V SA DA h [o] v. apply addr_alive. Qed.

Lemma copies_ptr {A V} {SA : Stored A} {DA : Deep A V} f : copies f -> copies (copy_ptr f).
Proof.
  intros Cf h [o] v Hw Hv. destruct (addr_copy f h o v Cf Hw Hv) as (o' & h' & C & ?).
  exists (Ptr o'), h'. cbn. unfold hbind. by rewrite C.
Qed.

(** A reference to a container: nil is the empty one. *)
Definition ref_view {A V} {SA : Stored A} {DA : Deep A V} (d : V) (h : Heap) (o : option loc) : option V :=
  default d <$> addr_view h o.

Lemma ref_view_inv {A V} {SA : Stored A} {DA : Deep A V} d h o (v : V) :
  ref_view d h o = Some v -> exists v0, addr_view h o = Some v0 /\ v = default d v0.
Proof. unfold ref_view. destruct (addr_view h o) as [v0|]; intros [= <-]. eauto. Qed.

Lemma ref_agree {A V} {SA : Stored A} {DA : Deep A V} d h h' o (v : V) :
  ref_view d h o = Some v -> (forall l, l ∈ addr_locs h o -> cells h' !! l = cells h !! l) ->
  ref_view d h' o = Some v /\ addr_locs h' o = addr_locs h o.
Proof. intros (v0 & Ev & ->)%ref_view_inv Hl. unfold ref_view. by destruct (addr_agree h h' o v0 Ev Hl) as [-> ->]. Qed.

Lemma ref_alive {A V} {SA : Stored A} {DA : Deep A V} d h o (v : V) :
  ref_view d h o = Some v -> Forall (fun l => is_Some (cells h !! l)) (addr_locs h o).
Proof. intros (v0 & Ev & ->)%ref_view_inv. by eapply addr_alive. Qed.

Lemma ref_copy {A V} {SA : Stored A} {DA : Deep A V} d f h o (v : V) :
  copies f -> wf h -> ref_view d h o = Some v ->
  exists o' h', copy_addr f o h = Some (o', h') /\ grows h h' /\ ref_view d h' o' = Some v /\ fresh_for h (addr_locs h' o').
Proof.
  intros Cf Hw (v0 & Ev & ->)%ref_view_inv. destruct (addr_copy f h o v0 Cf Hw Ev) as (o' & h' & C & G & E & F).
  exists o', h'. unfold ref_view. by rewrite E.
Qed.

(** A slice: its elements. *)
#[export] Program Instance deep_slice {A V} {SA : Stored (list A)} {DA : Deep A V} : Deep (slice A) (list V) := {|
  view h p := let '(Slice o) := p in ref_view (A := list A) [] h o;
  locs h p := let '(Slice o) := p in addr_locs (A := list A) h o;
|}.
Next Obligation. intros A V SA DA h h' [o] v. apply ref_agree. Qed.
Next Obligation. intros A V SA DA h [o] v. apply ref_alive. Qed.

Lemma copies_slice {A V} {SA : Stored (list A)} {DA : Deep A V} f : copies f -> copies (copy_slice f).
Proof.
  intros Cf%copies_list h [o] v Hw Hv. destruct (ref_copy [] _ h o v Cf Hw Hv) as (o' & h' & C & ?).
  exists (Slice o'), h'. cbn. unfold hbind. by rewrite C.
Qed.

(** A map whose values have no references. *)
#[export] Program Instance deep_gomap {A} {SA : Stored (gmap string A)} : Deep (gomap A) (gmap string A) := {|
  view h p := let '(GoMap o) := p in ref_view (DA := flat (gmap string A)) ∅ h o;
  locs h p := let '(GoMap o) := p in addr_locs (DA := flat (gmap string A)) h o;
|}.
Next Obligation. intros A SA h h' [o] v. apply ref_agree. Qed.
Next Obligation. intros A SA h [o] v. apply ref_alive. Qed.

Lemma copies_map {A} {SA : Stored (gmap string A)} : copies (copy_map (A := A)).
Proof.
  intros h [o] v Hw Hv. destruct (ref_copy (DA := flat _) ∅ _ h o v (copies_flat _) Hw Hv) as (o' & h' & C & ?).
  exists (GoMap o'), h'. cbn. unfold hbind. by rewrite C.
Qed.

(** *** Structures *)

(** A structure's contents come from those of the fields that hold references ([get])
    and, through [mk], from its other fields. *)
Program Definition deep_struct {R P VP V} {DP : Deep P VP} (get : R -> P) (mk : R -> VP -> V) : Deep R V := {|
  view h r := mk r <$> view h (get r);
  locs h r := locs h (get r);
|}.
Next Obligation.
  intros * Hv Hl. apply fmap_Some in Hv as (w & E & ->).
  by destruct (view_agree h h' _ _ E Hl) as [-> ->].
Qed.
Next Obligation. intros * Hv. apply fmap_Some in Hv as (w & E & ->). by eapply locs_alive. Qed.

(** A function that replaces exactly the fields with references by copies of them copies
    the structure. *)
Lemma copies_struct {R P VP V} {DP : Deep P VP} (get : R -> P) (mk : R -> VP -> V) (put : R -> P -> R) f into :
  (forall r p, get (put r p) = p) -> (forall r p, mk (put r p) = mk r) ->
  (forall r h, into r h = hbind (f (get r)) (fun p => hret (put r p)) h) ->
  copies f -> copies (DA := deep_struct get mk) into.
Proof.
  intros Hg Hm Hi Cf h r v Hw Hv. apply fmap_Some in Hv as (w & E & ->).
  destruct (Cf h (get r) w Hw E) as (p & h' & C & G & V' & F).
  exists (put r p), h'. rewrite Hi. unfold hbind. rewrite C. cbn. by rewrite Hg, Hm, V'.
Qed.

(** ** Isolation *)

(** Two heaps that differ only at the given locations. *)
Definition writes_within (ls : list loc) (h h' : Heap) : Prop := forall l, l ∉ ls -> cells h' !! l = cells h !! l.

(** Whatever is written through one of two values, a copy and the original, the other keeps
    its contents. *)
Lemma copies_isolated {A V} {DA : Deep A V} f h a v :
  copies f -> wf h -> view h a = Some v ->
  exists a' h', f a h = Some (a', h') /\ view h' a = Some v /\ view h' a' = Some v /\
    (forall h2, writes_within (locs h' a') h' h2 -> view h2 a = Some v) /\
    (forall h2, writes_within (locs h' a) h' h2 -> view h2 a' = Some v).
Proof.
  intros Cf Hw Hv. destruct (Cf h a v Hw Hv) as (a' & h' & C & G & V' & F).
  destruct (view_grows h h' a v Hw G Hv) as [Va La].
  assert (D : forall l, l ∈ locs h' a -> l ∈ locs h' a' -> False).
  { intros l L1 L2. rewrite La in L1. pose proof (locs_below _ _ _ _ Hw Hv L1).
    unfold fresh_for in F. rewrite Forall_forall in F. specialize (F _ L2). lia. }
  exists a', h'. split_and!; try done; intros h2 H2.
  - apply (view_agree h'); [done|]. intros l Hl. apply H2. intros L2. by eapply D.
  - apply (view_agree h'); [done|]. intros l Hl. apply H2. intros L2. by eapply D.
Qed.

End Heap.

Arguments Heap : clear implicits.
Arguments heapM : clear implicits.
Arguments Stored : clear implicits.
Arguments Deep : clear implicits.
