(* ===== verification/DeepCopy.v ===== *)
(** * api/v1alpha1/zz_generated.deepcopy.go: deep copies of the custom resources

    The custom resources as they lie in memory: the structures of [Api], whose optional
    fields, slices and maps are references into a heap ([GoHeap]).  Each [DeepCopyInto] is
    written field by field, each [DeepCopy] allocates the copy, and the [DeepCopyObject]
    methods are gathered behind the interface [runtime.Object].  The contents ([view]) of a
    structure are the record of [Api] the other files work on.

    The types of other packages ([ObjectMeta], [Quantity], [Condition], ...) are
    parameters: [ForeignTypes] are their layouts and the cells they refer to,
    [ForeignCode] their contents and copying functions, and [ForeignLaws] that these
    functions copy, which is what their packages document. *)

From Stdlib Require Import ZArith Lia List Bool.
From stdpp Require Import base list strings gmap.
From S2P Require Import Prelude K8s Api GoHeap.

Local Notation "'copy!' x ':=' m 'in' k" := (hbind m (fun x => k))
  (at level 10, x name, m at level 100, k at level 200).

(** ** Layouts *)

Class ForeignTypes := {
  FObjectMeta : Type;
  FListMeta : Type;
  FResourceRequirements : Type;
  FQuantity : Type;
  FTopologySpreadConstraint : Type;
  FAffinity : Type;
  FToleration : Type;
  FCondition : Type;
  FTime : Type;
  Foreign : Type;  (** whatever these refer to *)
}.

(** [metav1.TypeMeta], [metav1.ListMeta] and [corev1.LocalObjectReference]. *)
Record TypeMeta := { tm_Kind : string; tm_APIVersion : string }.
Record ListMeta := { lm_ResourceVersion : string; lm_Continue : string; lm_RemainingItemCount : option Z }.
Definition LocalObjectReference := string.

Section Layouts.
Context {F : ForeignTypes}.

Record StorageSpecMem := {
  stm_Size : FQuantity;
  stm_StorageClass : ptr string;
  stm_AccessModes : slice string;
}.

Record S3BackupSpecMem := {
  s3m_Bucket : string;
  s3m_Region : string;
  s3m_Endpoint : string;
  s3m_Path : string;
  s3m_CredentialsSecret : ptr LocalObjectReference;
}.

Record GCSBackupSpecMem := {
  gcsm_Bucket : string;
  gcsm_Path : string;
  gcsm_CredentialsSecret : ptr LocalObjectReference;
}.

Record BackupDestinationSpecMem := { bdm_S3 : ptr S3BackupSpecMem; bdm_GCS : ptr GCSBackupSpecMem }.

Record BackupSpecMem := {
  bsm_Enabled : bool;
  bsm_RetentionPolicy : string;
  bsm_Schedule : string;
  bsm_Destination : ptr BackupDestinationSpecMem;
}.

Record TLSSpecMem := {
  tlsm_Enabled : bool;
  tlsm_CertificateSecret : ptr LocalObjectReference;
  tlsm_CASecret : ptr LocalObjectReference;
}.

Record PostgresClusterSpecMem := {
  pcsm_PostgresVersion : Z;
  pcsm_Instances : Z;
  pcsm_Storage : StorageSpecMem;
  pcsm_Resources : FResourceRequirements;
  pcsm_PostgresParameters : gomap string;
  pcsm_PostgresHBA : slice string;
  pcsm_Backup : ptr BackupSpecMem;
  pcsm_TLS : ptr TLSSpecMem;
  pcsm_Monitoring : ptr MonitoringSpec;
  pcsm_TopologySpreadConstraints : slice FTopologySpreadConstraint;
  pcsm_Affinity : ptr FAffinity;
  pcsm_Tolerations : slice FToleration;
  pcsm_ImagePullSecrets : slice LocalObjectReference;
  pcsm_ServiceAccountName : string;
  pcsm_PriorityClassName : string;
  pcsm_Paused : bool;
}.

Record PostgresClusterStatusMem := {
  pstm_Conditions : slice FCondition;
  pstm_Phase : PostgresClusterPhase;
  pstm_ReadyInstances : Z;
  pstm_CurrentPrimary : string;
  pstm_WriteServiceName : string;
  pstm_ReadServiceName : string;
  pstm_PostgresVersion : string;
  pstm_ObservedGeneration : Z;
  pstm_LatestBackup : ptr FTime;
}.

Record PostgresClusterMem := {
  pcm_TypeMeta : TypeMeta;
  pcm_ObjectMeta : FObjectMeta;
  pcm_Spec : PostgresClusterSpecMem;
  pcm_Status : PostgresClusterStatusMem;
}.

Record DatabaseGrantMem := { dgm_Name : string; dgm_Privileges : slice string }.

Record PostgresUserSpecMem := {
  usm_ClusterName : string;
  usm_PasswordSecret : ptr LocalObjectReference;
  usm_Databases : slice DatabaseGrantMem;
  usm_Roles : slice string;
  usm_Superuser : bool;
  usm_ConnectionLimit : Z;
}.

Record PostgresUserStatusMem := {
  ustm_Applied : bool;
  ustm_Conditions : slice FCondition;
  ustm_ObservedGeneration : Z;
}.

Record PostgresUserMem := {
  pum_TypeMeta : TypeMeta;
  pum_ObjectMeta : FObjectMeta;
  pum_Spec : PostgresUserSpecMem;
  pum_Status : PostgresUserStatusMem;
}.

Record PostgresBackupStatusMem := {
  bstm_Phase : BackupPhase;
  bstm_StartTime : ptr FTime;
  bstm_CompletionTime : ptr FTime;
  bstm_BackupSize : Z;
  bstm_DestinationPath : string;
  bstm_Conditions : slice FCondition;
}.

Record PostgresBackupMem := {
  pbm_TypeMeta : TypeMeta;
  pbm_ObjectMeta : FObjectMeta;
  pbm_Spec : PostgresBackupSpec;
  pbm_Status : PostgresBackupStatusMem;
}.

Record PostgresClusterList := {
  pcl_TypeMeta : TypeMeta; pcl_ListMeta : FListMeta; pcl_Items : slice PostgresClusterMem }.
Record PostgresUserList := {
  pul_TypeMeta : TypeMeta; pul_ListMeta : FListMeta; pul_Items : slice PostgresUserMem }.
Record PostgresBackupList := {
  pbl_TypeMeta : TypeMeta; pbl_ListMeta : FListMeta; pbl_Items : slice PostgresBackupMem }.

(** What a location may hold. *)
Inductive cell :=
  | CString (s : string)
  | CStrings (l : list string)
  | CParameters (m : gmap string string)
  | CStorage (x : StorageSpecMem)
  | CS3 (x : S3BackupSpecMem)
  | CGCS (x : GCSBackupSpecMem)
  | CDestination (x : BackupDestinationSpecMem)
  | CBackupSpec (x : BackupSpecMem)
  | CTLS (x : TLSSpecMem)
  | CMonitoring (x : MonitoringSpec)
  | CClusterSpec (x : PostgresClusterSpecMem)
  | CClusterStatus (x : PostgresClusterStatusMem)
  | CCluster (x : PostgresClusterMem)
  | CClusters (l : list PostgresClusterMem)
  | CClusterList (x : PostgresClusterList)
  | CGrant (x : DatabaseGrantMem)
  | CGrants (l : list DatabaseGrantMem)
  | CUserSpec (x : PostgresUserSpecMem)
  | CUserStatus (x : PostgresUserStatusMem)
  | CUser (x : PostgresUserMem)
  | CUsers (l : list PostgresUserMem)
  | CUserList (x : PostgresUserList)
  | CPostgresBackupSpec (x : PostgresBackupSpec)
  | CBackupStatus (x : PostgresBackupStatusMem)
  | CBackup (x : PostgresBackupMem)
  | CBackups (l : list PostgresBackupMem)
  | CBackupList (x : PostgresBackupList)
  | CConstraints (l : list FTopologySpreadConstraint)
  | CAffinity (x : FAffinity)
  | CTolerations (l : list FToleration)
  | CConditions (l : list FCondition)
  | CTime (x : FTime)
  | CForeign (x : Foreign).

End Layouts.

(** One instance per constructor of [cell]. *)
Section Stores.
Context {F : ForeignTypes}.

#[export] Instance stored_String : Stored cell (string) :=
  {| inj := CString; prj c := match c with CString x => Some x | _ => None end; prj_inj _ := eq_refl |}.
#[export] Instance stored_Strings : Stored cell (list string) :=
  {| inj := CStrings; prj c := match c with CStrings x => Some x | _ => None end; prj_inj _ := eq_refl |}.
#[export] Instance stored_Parameters : Stored cell (gmap string string) :=
  {| inj := CParameters; prj c := match c with CParameters x => Some x | _ => None end; prj_inj _ := eq_refl |}.
#[export] Instance stored_Storage : Stored cell (StorageSpecMem) :=
  {| inj := CStorage; prj c := match c with CStorage x => Some x | _ => None end; prj_inj _ := eq_refl |}.
#[export] Instance stored_S3 : Stored cell (S3BackupSpecMem) :=
  {| inj := CS3; prj c := match c with CS3 x => Some x | _ => None end; prj_inj _ := eq_refl |}.
#[export] Instance stored_GCS : Stored cell (GCSBackupSpecMem) :=
  {| inj := CGCS; prj c := match c with CGCS x => Some x | _ => None end; prj_inj _ := eq_refl |}.
#[export] Instance stored_Destination : Stored cell (BackupDestinationSpecMem) :=
  {| inj := CDestination; prj c := match c with CDestination x => Some x | _ => None end; prj_inj _ := eq_refl |}.
#[export] Instance stored_BackupSpec : Stored cell (BackupSpecMem) :=
  {| inj := CBackupSpec; prj c := match c with CBackupSpec x => Some x | _ => None end; prj_inj _ := eq_refl |}.
#[export] Instance stored_TLS : Stored cell (TLSSpecMem) :=
  {| inj := CTLS; prj c := match c with CTLS x => Some x | _ => None end; prj_inj _ := eq_refl |}.
#[export] Instance stored_Monitoring : Stored cell (MonitoringSpec) :=
  {| inj := CMonitoring; prj c := match c with CMonitoring x => Some x | _ => None end; prj_inj _ := eq_refl |}.
#[export] Instance stored_ClusterSpec : Stored cell (PostgresClusterSpecMem) :=
  {| inj := CClusterSpec; prj c := match c with CClusterSpec x => Some x | _ => None end; prj_inj _ := eq_refl |}.
#[export] Instance stored_ClusterStatus : Stored cell (PostgresClusterStatusMem) :=
  {| inj := CClusterStatus; prj c := match c with CClusterStatus x => Some x | _ => None end; prj_inj _ := eq_refl |}.
#[export] Instance stored_Cluster : Stored cell (PostgresClusterMem) :=
  {| inj := CCluster; prj c := match c with CCluster x => Some x | _ => None end; prj_inj _ := eq_refl |}.
#[export] Instance stored_Clusters : Stored cell (list PostgresClusterMem) :=
  {| inj := CClusters; prj c := match c with CClusters x => Some x | _ => None end; prj_inj _ := eq_refl |}.
#[export] Instance stored_ClusterList : Stored cell (PostgresClusterList) :=
  {| inj := CClusterList; prj c := match c with CClusterList x => Some x | _ => None end; prj_inj _ := eq_refl |}.
#[export] Instance stored_Grant : Stored cell (DatabaseGrantMem) :=
  {| inj := CGrant; prj c := match c with CGrant x => Some x | _ => None end; prj_inj _ := eq_refl |}.
#[export] Instance stored_Grants : Stored cell (list DatabaseGrantMem) :=
  {| inj := CGrants; prj c := match c with CGrants x => Some x | _ => None end; prj_inj _ := eq_refl |}.
#[export] Instance stored_UserSpec : Stored cell (PostgresUserSpecMem) :=
  {| inj := CUserSpec; prj c := match c with CUserSpec x => Some x | _ => None end; prj_inj _ := eq_refl |}.
#[export] Instance stored_UserStatus : Stored cell (PostgresUserStatusMem) :=
  {| inj := CUserStatus; prj c := match c with CUserStatus x => Some x | _ => None end; prj_inj _ := eq_refl |}.
#[export] Instance stored_User : Stored cell (PostgresUserMem) :=
  {| inj := CUser; prj c := match c with CUser x => Some x | _ => None end; prj_inj _ := eq_refl |}.
#[export] Instance stored_Users : Stored cell (list PostgresUserMem) :=
  {| inj := CUsers; prj c := match c with CUsers x => Some x | _ => None end; prj_inj _ := eq_refl |}.
#[export] Instance stored_UserList : Stored cell (PostgresUserList) :=
  {| inj := CUserList; prj c := match c with CUserList x => Some x | _ => None end; prj_inj _ := eq_refl |}.
#[export] Instance stored_PostgresBackupSpec : Stored cell (PostgresBackupSpec) :=
  {| inj := CPostgresBackupSpec; prj c := match c with CPostgresBackupSpec x => Some x | _ => None end; prj_inj _ := eq_refl |}.
#[export] Instance stored_BackupStatus : Stored cell (PostgresBackupStatusMem) :=
  {| inj := CBackupStatus; prj c := match c with CBackupStatus x => Some x | _ => None end; prj_inj _ := eq_refl |}.
#[export] Instance stored_Backup : Stored cell (PostgresBackupMem) :=
  {| inj := CBackup; prj c := match c with CBackup x => Some x | _ => None end; prj_inj _ := eq_refl |}.
#[export] Instance stored_Backups : Stored cell (list PostgresBackupMem) :=
  {| inj := CBackups; prj c := match c with CBackups x => Some x | _ => None end; prj_inj _ := eq_refl |}.
#[export] Instance stored_BackupList : Stored cell (PostgresBackupList) :=
  {| inj := CBackupList; prj c := match c with CBackupList x => Some x | _ => None end; prj_inj _ := eq_refl |}.
#[export] Instance stored_Constraints : Stored cell (list FTopologySpreadConstraint) :=
  {| inj := CConstraints; prj c := match c with CConstraints x => Some x | _ => None end; prj_inj _ := eq_refl |}.
#[export] Instance stored_Affinity : Stored cell (FAffinity) :=
  {| inj := CAffinity; prj c := match c with CAffinity x => Some x | _ => None end; prj_inj _ := eq_refl |}.
#[export] Instance stored_Tolerations : Stored cell (list FToleration) :=
  {| inj := CTolerations; prj c := match c with CTolerations x => Some x | _ => None end; prj_inj _ := eq_refl |}.
#[export] Instance stored_Conditions : Stored cell (list FCondition) :=
  {| inj := CConditions; prj c := match c with CConditions x => Some x | _ => None end; prj_inj _ := eq_refl |}.
#[export] Instance stored_Time : Stored cell (FTime) :=
  {| inj := CTime; prj c := match c with CTime x => Some x | _ => None end; prj_inj _ := eq_refl |}.
#[export] Instance stored_Foreign : Stored cell (Foreign) :=
  {| inj := CForeign; prj c := match c with CForeign x => Some x | _ => None end; prj_inj _ := eq_refl |}.

End Stores.

(** ** The copying functions *)

(** The contents of the foreign types and their packages' copying functions. *)
Class ForeignCode (F : ForeignTypes) := {
  view_ObjectMeta :: Deep cell FObjectMeta ObjectMeta;
  view_ListMeta :: Deep cell FListMeta ListMeta;
  view_ResourceRequirements :: Deep cell FResourceRequirements ResourceRequirements;
  view_Quantity :: Deep cell FQuantity Quantity;
  view_TopologySpreadConstraint :: Deep cell FTopologySpreadConstraint string;
  view_Affinity :: Deep cell FAffinity string;
  view_Toleration :: Deep cell FToleration string;
  view_Condition :: Deep cell FCondition Condition;
  view_Time :: Deep cell FTime Z;
  ObjectMeta_DeepCopyInto : FObjectMeta -> heapM cell FObjectMeta;
  ListMeta_DeepCopyInto : FListMeta -> heapM cell FListMeta;
  ResourceRequirements_DeepCopyInto : FResourceRequirements -> heapM cell FResourceRequirements;
  Quantity_DeepCopy : FQuantity -> heapM cell FQuantity;
  TopologySpreadConstraint_DeepCopyInto : FTopologySpreadConstraint -> heapM cell FTopologySpreadConstraint;
  Affinity_DeepCopyInto : FAffinity -> heapM cell FAffinity;
  Toleration_DeepCopyInto : FToleration -> heapM cell FToleration;
  Condition_DeepCopyInto : FCondition -> heapM cell FCondition;
  Time_DeepCopy : ptr FTime -> heapM cell (ptr FTime);
}.

Section Copies.
Context `{C : ForeignCode}.

(** Each function is given what [in] points to and returns what it leaves in [out]: the
    fields it does not mention are those of [*out = *in]. *)

(** [if in.F != nil { out.F = in.F.DeepCopy() }]. *)
Definition copy_nonnil {A} (f : ptr A -> heapM cell (ptr A)) (p : ptr A) : heapM cell (ptr A) :=
  match p with Ptr None => hret p | _ => f p end.

Definition S3BackupSpec_DeepCopyInto (i : S3BackupSpecMem) : heapM cell S3BackupSpecMem :=
  copy! secret := copy_ptr hret (s3m_CredentialsSecret i) in
  hret {| s3m_Bucket := s3m_Bucket i; s3m_Region := s3m_Region i; s3m_Endpoint := s3m_Endpoint i;
          s3m_Path := s3m_Path i; s3m_CredentialsSecret := secret |}.

Definition GCSBackupSpec_DeepCopyInto (i : GCSBackupSpecMem) : heapM cell GCSBackupSpecMem :=
  copy! secret := copy_ptr hret (gcsm_CredentialsSecret i) in
  hret {| gcsm_Bucket := gcsm_Bucket i; gcsm_Path := gcsm_Path i; gcsm_CredentialsSecret := secret |}.

Definition BackupDestinationSpec_DeepCopyInto (i : BackupDestinationSpecMem) : heapM cell BackupDestinationSpecMem :=
  copy! s3 := copy_ptr S3BackupSpec_DeepCopyInto (bdm_S3 i) in
  copy! gcs := copy_ptr GCSBackupSpec_DeepCopyInto (bdm_GCS i) in
  hret {| bdm_S3 := s3; bdm_GCS := gcs |}.

Definition BackupSpec_DeepCopyInto (i : BackupSpecMem) : heapM cell BackupSpecMem :=
  copy! destination := copy_ptr BackupDestinationSpec_DeepCopyInto (bsm_Destination i) in
  hret {| bsm_Enabled := bsm_Enabled i; bsm_RetentionPolicy := bsm_RetentionPolicy i;
          bsm_Schedule := bsm_Schedule i; bsm_Destination := destination |}.

Definition DatabaseGrant_DeepCopyInto (i : DatabaseGrantMem) : heapM cell DatabaseGrantMem :=
  copy! privileges := copy_slice hret (dgm_Privileges i) in
  hret {| dgm_Name := dgm_Name i; dgm_Privileges := privileges |}.

Definition MonitoringSpec_DeepCopyInto (i : MonitoringSpec) : heapM cell MonitoringSpec := hret i.

Definition PostgresBackupSpec_DeepCopyInto (i : PostgresBackupSpec) : heapM cell PostgresBackupSpec := hret i.

Definition PostgresBackupStatus_DeepCopyInto (i : PostgresBackupStatusMem) : heapM cell PostgresBackupStatusMem :=
  copy! start := copy_nonnil Time_DeepCopy (bstm_StartTime i) in
  copy! completion := copy_nonnil Time_DeepCopy (bstm_CompletionTime i) in
  copy! conditions := copy_slice Condition_DeepCopyInto (bstm_Conditions i) in
  hret {| bstm_Phase := bstm_Phase i; bstm_StartTime := start; bstm_CompletionTime := completion;
          bstm_BackupSize := bstm_BackupSize i; bstm_DestinationPath := bstm_DestinationPath i;
          bstm_Conditions := conditions |}.

Definition PostgresBackup_DeepCopyInto (i : PostgresBackupMem) : heapM cell PostgresBackupMem :=
  copy! meta := ObjectMeta_DeepCopyInto (pbm_ObjectMeta i) in
  copy! status := PostgresBackupStatus_DeepCopyInto (pbm_Status i) in
  hret {| pbm_TypeMeta := pbm_TypeMeta i; pbm_ObjectMeta := meta; pbm_Spec := pbm_Spec i; pbm_Status := status |}.

Definition PostgresBackupList_DeepCopyInto (i : PostgresBackupList) : heapM cell PostgresBackupList :=
  copy! meta := ListMeta_DeepCopyInto (pbl_ListMeta i) in
  copy! items := copy_slice PostgresBackup_DeepCopyInto (pbl_Items i) in
  hret {| pbl_TypeMeta := pbl_TypeMeta i; pbl_ListMeta := meta; pbl_Items := items |}.

Definition StorageSpec_DeepCopyInto (i : StorageSpecMem) : heapM cell StorageSpecMem :=
  copy! size := Quantity_DeepCopy (stm_Size i) in
  copy! class := copy_ptr hret (stm_StorageClass i) in
  copy! modes := copy_slice hret (stm_AccessModes i) in
  hret {| stm_Size := size; stm_StorageClass := class; stm_AccessModes := modes |}.

Definition TLSSpec_DeepCopyInto (i : TLSSpecMem) : heapM cell TLSSpecMem :=
  copy! certificate := copy_ptr hret (tlsm_CertificateSecret i) in
  copy! ca := copy_ptr hret (tlsm_CASecret i) in
  hret {| tlsm_Enabled := tlsm_Enabled i; tlsm_CertificateSecret := certificate; tlsm_CASecret := ca |}.

Definition PostgresClusterSpec_DeepCopyInto (i : PostgresClusterSpecMem) : heapM cell PostgresClusterSpecMem :=
  copy! storage := StorageSpec_DeepCopyInto (pcsm_Storage i) in
  copy! resources := ResourceRequirements_DeepCopyInto (pcsm_Resources i) in
  copy! parameters := copy_map (pcsm_PostgresParameters i) in
  copy! hba := copy_slice hret (pcsm_PostgresHBA i) in
  copy! backup := copy_ptr BackupSpec_DeepCopyInto (pcsm_Backup i) in
  copy! tls := copy_ptr TLSSpec_DeepCopyInto (pcsm_TLS i) in
  copy! monitoring := copy_ptr hret (pcsm_Monitoring i) in
  copy! constraints := copy_slice TopologySpreadConstraint_DeepCopyInto (pcsm_TopologySpreadConstraints i) in
  copy! affinity := copy_ptr Affinity_DeepCopyInto (pcsm_Affinity i) in
  copy! tolerations := copy_slice Toleration_DeepCopyInto (pcsm_Tolerations i) in
  copy! secrets := copy_slice hret (pcsm_ImagePullSecrets i) in
  hret {| pcsm_PostgresVersion := pcsm_PostgresVersion i; pcsm_Instances := pcsm_Instances i;
          pcsm_Storage := storage; pcsm_Resources := resources; pcsm_PostgresParameters := parameters;
          pcsm_PostgresHBA := hba; pcsm_Backup := backup; pcsm_TLS := tls; pcsm_Monitoring := monitoring;
          pcsm_TopologySpreadConstraints := constraints; pcsm_Affinity := affinity;
          pcsm_Tolerations := tolerations; pcsm_ImagePullSecrets := secrets;
          pcsm_ServiceAccountName := pcsm_ServiceAccountName i;
          pcsm_PriorityClassName := pcsm_PriorityClassName i; pcsm_Paused := pcsm_Paused i |}.

Definition PostgresClusterStatus_DeepCopyInto (i : PostgresClusterStatusMem) : heapM cell PostgresClusterStatusMem :=
  copy! conditions := copy_slice Condition_DeepCopyInto (pstm_Conditions i) in
  copy! latest := copy_nonnil Time_DeepCopy (pstm_LatestBackup i) in
  hret {| pstm_Conditions := conditions; pstm_Phase := pstm_Phase i; pstm_ReadyInstances := pstm_ReadyInstances i;
          pstm_CurrentPrimary := pstm_CurrentPrimary i; pstm_WriteServiceName := pstm_WriteServiceName i;
          pstm_ReadServiceName := pstm_ReadServiceName i; pstm_PostgresVersion := pstm_PostgresVersion i;
          pstm_ObservedGeneration := pstm_ObservedGeneration i; pstm_LatestBackup := latest |}.

Definition PostgresCluster_DeepCopyInto (i : PostgresClusterMem) : heapM cell PostgresClusterMem :=
  copy! meta := ObjectMeta_DeepCopyInto (pcm_ObjectMeta i) in
  copy! spec := PostgresClusterSpec_DeepCopyInto (pcm_Spec i) in
  copy! status := PostgresClusterStatus_DeepCopyInto (pcm_Status i) in
  hret {| pcm_TypeMeta := pcm_TypeMeta i; pcm_ObjectMeta := meta; pcm_Spec := spec; pcm_Status := status |}.

Definition PostgresClusterList_DeepCopyInto (i : PostgresClusterList) : heapM cell PostgresClusterList :=
  copy! meta := ListMeta_DeepCopyInto (pcl_ListMeta i) in
  copy! items := copy_slice PostgresCluster_DeepCopyInto (pcl_Items i) in
  hret {| pcl_TypeMeta := pcl_TypeMeta i; pcl_ListMeta := meta; pcl_Items := items |}.

Definition PostgresUserSpec_DeepCopyInto (i : PostgresUserSpecMem) : heapM cell PostgresUserSpecMem :=
  copy! secret := copy_ptr hret (usm_PasswordSecret i) in
  copy! databases := copy_slice DatabaseGrant_DeepCopyInto (usm_Databases i) in
  copy! roles := copy_slice hret (usm_Roles i) in
  hret {| usm_ClusterName := usm_ClusterName i; usm_PasswordSecret := secret; usm_Databases := databases;
          usm_Roles := roles; usm_Superuser := usm_Superuser i; usm_ConnectionLimit := usm_ConnectionLimit i |}.

Definition PostgresUserStatus_DeepCopyInto (i : PostgresUserStatusMem) : heapM cell PostgresUserStatusMem :=
  copy! conditions := copy_slice Condition_DeepCopyInto (ustm_Conditions i) in
  hret {| ustm_Applied := ustm_Applied i; ustm_Conditions := conditions;
          ustm_ObservedGeneration := ustm_ObservedGeneration i |}.

Definition PostgresUser_DeepCopyInto (i : PostgresUserMem) : heapM cell PostgresUserMem :=
  copy! meta := ObjectMeta_DeepCopyInto (pum_ObjectMeta i) in
  copy! spec := PostgresUserSpec_DeepCopyInto (pum_Spec i) in
  copy! status := PostgresUserStatus_DeepCopyInto (pum_Status i) in
  hret {| pum_TypeMeta := pum_TypeMeta i; pum_ObjectMeta := meta; pum_Spec := spec; pum_Status := status |}.

Definition PostgresUserList_DeepCopyInto (i : PostgresUserList) : heapM cell PostgresUserList :=
  copy! meta := ListMeta_DeepCopyInto (pul_ListMeta i) in
  copy! items := copy_slice PostgresUser_DeepCopyInto (pul_Items i) in
  hret {| pul_TypeMeta := pul_TypeMeta i; pul_ListMeta := meta; pul_Items := items |}.

(** [DeepCopy]: nil for nil, and otherwise a new structure filled by [DeepCopyInto]. *)
Definition BackupDestinationSpec_DeepCopy := copy_ptr BackupDestinationSpec_DeepCopyInto.
Definition BackupSpec_DeepCopy := copy_ptr BackupSpec_DeepCopyInto.
Definition DatabaseGrant_DeepCopy := copy_ptr DatabaseGrant_DeepCopyInto.
Definition GCSBackupSpec_DeepCopy := copy_ptr GCSBackupSpec_DeepCopyInto.
Definition MonitoringSpec_DeepCopy := copy_ptr MonitoringSpec_DeepCopyInto.
Definition PostgresBackup_DeepCopy := copy_ptr PostgresBackup_DeepCopyInto.
Definition PostgresBackupList_DeepCopy := copy_ptr PostgresBackupList_DeepCopyInto.
Definition PostgresBackupSpec_DeepCopy := copy_ptr PostgresBackupSpec_DeepCopyInto.
Definition PostgresBackupStatus_DeepCopy := copy_ptr PostgresBackupStatus_DeepCopyInto.
Definition PostgresCluster_DeepCopy := copy_ptr PostgresCluster_DeepCopyInto.
Definition PostgresClusterList_DeepCopy := copy_ptr PostgresClusterList_DeepCopyInto.
Definition PostgresClusterSpec_DeepCopy := copy_ptr PostgresClusterSpec_DeepCopyInto.
Definition PostgresClusterStatus_DeepCopy := copy_ptr PostgresClusterStatus_DeepCopyInto.
Definition PostgresUser_DeepCopy := copy_ptr PostgresUser_DeepCopyInto.
Definition PostgresUserList_DeepCopy := copy_ptr PostgresUserList_DeepCopyInto.
Definition PostgresUserSpec_DeepCopy := copy_ptr PostgresUserSpec_DeepCopyInto.
Definition PostgresUserStatus_DeepCopy := copy_ptr PostgresUserStatus_DeepCopyInto.
Definition S3BackupSpec_DeepCopy := copy_ptr S3BackupSpec_DeepCopyInto.
Definition StorageSpec_DeepCopy := copy_ptr StorageSpec_DeepCopyInto.
Definition TLSSpec_DeepCopy := copy_ptr TLSSpec_DeepCopyInto.

(** A [runtime.Object] that is not the nil interface: a pointer of one of the registered types. *)
Inductive Object :=
  | OPostgresBackup (p : ptr PostgresBackupMem)
  | OPostgresBackupList (p : ptr PostgresBackupList)
  | OPostgresCluster (p : ptr PostgresClusterMem)
  | OPostgresClusterList (p : ptr PostgresClusterList)
  | OPostgresUser (p : ptr PostgresUserMem)
  | OPostgresUserList (p : ptr PostgresUserList).

(** [if c := ...; c != nil { return c }; return nil]. *)
Definition as_object {A} (k : ptr A -> Object) (c : ptr A) : heapM cell (option Object) :=
  match c with Ptr None => hret None | _ => hret (Some (k c)) end.

Definition PostgresBackup_DeepCopyObject (p : ptr PostgresBackupMem) : heapM cell (option Object) :=
  copy! c := PostgresBackup_DeepCopy p in as_object OPostgresBackup c.
Definition PostgresBackupList_DeepCopyObject (p : ptr PostgresBackupList) : heapM cell (option Object) :=
  copy! c := PostgresBackupList_DeepCopy p in as_object OPostgresBackupList c.
Definition PostgresCluster_DeepCopyObject (p : ptr PostgresClusterMem) : heapM cell (option Object) :=
  copy! c := PostgresCluster_DeepCopy p in as_object OPostgresCluster c.
Definition PostgresClusterList_DeepCopyObject (p : ptr PostgresClusterList) : heapM cell (option Object) :=
  copy! c := PostgresClusterList_DeepCopy p in as_object OPostgresClusterList c.
Definition PostgresUser_DeepCopyObject (p : ptr PostgresUserMem) : heapM cell (option Object) :=
  copy! c := PostgresUser_DeepCopy p in as_object OPostgresUser c.
Definition PostgresUserList_DeepCopyObject (p : ptr PostgresUserList) : heapM cell (option Object) :=
  copy! c := PostgresUserList_DeepCopy p in as_object OPostgresUserList c.

(** The method call through the interface. *)
Definition DeepCopyObject (o : Object) : heapM cell (option Object) :=
  match o with
  | OPostgresBackup p => PostgresBackup_DeepCopyObject p
  | OPostgresBackupList p => PostgresBackupList_DeepCopyObject p
  | OPostgresCluster p => PostgresCluster_DeepCopyObject p
  | OPostgresClusterList p => PostgresClusterList_DeepCopyObject p
  | OPostgresUser p => PostgresUser_DeepCopyObject p
  | OPostgresUserList p => PostgresUserList_DeepCopyObject p
  end.

End Copies.

(** ** Contents *)

Section Views.
Context `{C : ForeignCode}.

#[export] Instance view_string : Deep cell string string := flat string.
#[export] Instance view_LocalObjectReference : Deep cell LocalObjectReference string := flat string.
#[export] Instance view_MonitoringSpec : Deep cell MonitoringSpec MonitoringSpec := flat MonitoringSpec.
#[export] Instance view_PostgresBackupSpec : Deep cell PostgresBackupSpec PostgresBackupSpec := flat PostgresBackupSpec.

#[export] Instance view_S3BackupSpec : Deep cell S3BackupSpecMem S3BackupSpec :=
  deep_struct s3m_CredentialsSecret (fun i c =>
    {| s3_Bucket := s3m_Bucket i; s3_Region := s3m_Region i; s3_Endpoint := s3m_Endpoint i;
       s3_Path := s3m_Path i; s3_CredentialsSecret := c |}).

#[export] Instance view_GCSBackupSpec : Deep cell GCSBackupSpecMem GCSBackupSpec :=
  deep_struct gcsm_CredentialsSecret (fun i c =>
    {| gcs_Bucket := gcsm_Bucket i; gcs_Path := gcsm_Path i; gcs_CredentialsSecret := c |}).

#[export] Instance view_BackupDestinationSpec : Deep cell BackupDestinationSpecMem BackupDestinationSpec :=
  deep_struct (fun i => (bdm_S3 i, bdm_GCS i)) (fun _ v => {| bd_S3 := v.1; bd_GCS := v.2 |}).

#[export] Instance view_BackupSpec : Deep cell BackupSpecMem BackupSpec :=
  deep_struct bsm_Destination (fun i d =>
    {| bs_Enabled := bsm_Enabled i; bs_RetentionPolicy := bsm_RetentionPolicy i;
       bs_Schedule := bsm_Schedule i; bs_Destination := d |}).

#[export] Instance view_DatabaseGrant : Deep cell DatabaseGrantMem DatabaseGrant :=
  deep_struct dgm_Privileges (fun i l => {| dg_Name := dgm_Name i; dg_Privileges := l |}).

#[export] Instance view_StorageSpec : Deep cell StorageSpecMem StorageSpec :=
  deep_struct (fun i => (stm_Size i, (stm_StorageClass i, stm_AccessModes i)))
    (fun _ v => {| st_Size := v.1; st_StorageClass := v.2.1; st_AccessModes := v.2.2 |}).

#[export] Instance view_TLSSpec : Deep cell TLSSpecMem TLSSpec :=
  deep_struct (fun i => (tlsm_CertificateSecret i, tlsm_CASecret i))
    (fun i v => {| tls_Enabled := tlsm_Enabled i; tls_CertificateSecret := v.1; tls_CASecret := v.2 |}).

#[export] Instance view_PostgresClusterSpec : Deep cell PostgresClusterSpecMem PostgresClusterSpec :=
  deep_struct (fun i => (pcsm_Storage i, (pcsm_Resources i, (pcsm_PostgresParameters i, (pcsm_PostgresHBA i,
      (pcsm_Backup i, (pcsm_TLS i, (pcsm_Monitoring i, (pcsm_TopologySpreadConstraints i,
      (pcsm_Affinity i, (pcsm_Tolerations i, pcsm_ImagePullSecrets i)))))))))))
    (fun i '(storage, (resources, (parameters, (hba, (backup, (tls, (monitoring, (constraints,
      (affinity, (tolerations, secrets)))))))))) =>
    {| pcs_PostgresVersion := pcsm_PostgresVersion i; pcs_Instances := pcsm_Instances i; pcs_Storage := storage;
       pcs_Resources := resources; pcs_PostgresParameters := parameters; pcs_PostgresHBA := hba;
       pcs_Backup := backup; pcs_TLS := tls; pcs_Monitoring := monitoring;
       pcs_TopologySpreadConstraints := constraints; pcs_Affinity := affinity; pcs_Tolerations := tolerations;
       pcs_ImagePullSecrets := secrets; pcs_ServiceAccountName := pcsm_ServiceAccountName i;
       pcs_PriorityClassName := pcsm_PriorityClassName i; pcs_Paused := pcsm_Paused i |}).

#[export] Instance view_PostgresClusterStatus : Deep cell PostgresClusterStatusMem PostgresClusterStatus :=
  deep_struct (fun i => (pstm_Conditions i, pstm_LatestBackup i)) (fun i v =>
    {| pst_Conditions := v.1; pst_Phase := pstm_Phase i; pst_ReadyInstances := pstm_ReadyInstances i;
       pst_CurrentPrimary := pstm_CurrentPrimary i; pst_WriteServiceName := pstm_WriteServiceName i;
       pst_ReadServiceName := pstm_ReadServiceName i; pst_PostgresVersion := pstm_PostgresVersion i;
       pst_ObservedGeneration := pstm_ObservedGeneration i; pst_LatestBackup := v.2 |}).

#[export] Instance view_PostgresCluster : Deep cell PostgresClusterMem (TypeMeta * PostgresCluster) :=
  deep_struct (fun i => (pcm_ObjectMeta i, (pcm_Spec i, pcm_Status i))) (fun i v =>
    (pcm_TypeMeta i, {| pc_Meta := v.1; pc_Spec := v.2.1; pc_Status := v.2.2 |})).

#[export] Instance view_PostgresUserSpec : Deep cell PostgresUserSpecMem PostgresUserSpec :=
  deep_struct (fun i => (usm_PasswordSecret i, (usm_Databases i, usm_Roles i))) (fun i v =>
    {| us_ClusterName := usm_ClusterName i; us_PasswordSecret := v.1; us_Databases := v.2.1; us_Roles := v.2.2;
       us_Superuser := usm_Superuser i; us_ConnectionLimit := usm_ConnectionLimit i |}).

#[export] Instance view_PostgresUserStatus : Deep cell PostgresUserStatusMem PostgresUserStatus :=
  deep_struct ustm_Conditions (fun i l =>
    {| ust_Applied := ustm_Applied i; ust_Conditions := l; ust_ObservedGeneration := ustm_ObservedGeneration i |}).

#[export] Instance view_PostgresUser : Deep cell PostgresUserMem (TypeMeta * PostgresUser) :=
  deep_struct (fun i => (pum_ObjectMeta i, (pum_Spec i, pum_Status i))) (fun i v =>
    (pum_TypeMeta i, {| pu_Meta := v.1; pu_Spec := v.2.1; pu_Status := v.2.2 |})).

#[export] Instance view_PostgresBackupStatus : Deep cell PostgresBackupStatusMem PostgresBackupStatus :=
  deep_struct (fun i => (bstm_StartTime i, (bstm_CompletionTime i, bstm_Conditions i))) (fun i v =>
    {| bst_Phase := bstm_Phase i; bst_StartTime := v.1; bst_CompletionTime := v.2.1;
       bst_BackupSize := bstm_BackupSize i; bst_DestinationPath := bstm_DestinationPath i; bst_Conditions := v.2.2 |}).

#[export] Instance view_PostgresBackup : Deep cell PostgresBackupMem (TypeMeta * PostgresBackup) :=
  deep_struct (fun i => (pbm_ObjectMeta i, pbm_Status i)) (fun i v =>
    (pbm_TypeMeta i, {| pb_Meta := v.1; pb_Spec := pbm_Spec i; pb_Status := v.2 |})).

(** A list: its type, its metadata and its items. *)
#[export] Instance view_PostgresClusterList : Deep cell PostgresClusterList (TypeMeta * (ListMeta * list (TypeMeta * PostgresCluster))) :=
  deep_struct (fun i => (pcl_ListMeta i, pcl_Items i)) (fun i v => (pcl_TypeMeta i, v)).
#[export] Instance view_PostgresUserList : Deep cell PostgresUserList (TypeMeta * (ListMeta * list (TypeMeta * PostgresUser))) :=
  deep_struct (fun i => (pul_ListMeta i, pul_Items i)) (fun i v => (pul_TypeMeta i, v)).
#[export] Instance view_PostgresBackupList : Deep cell PostgresBackupList (TypeMeta * (ListMeta * list (TypeMeta * PostgresBackup))) :=
  deep_struct (fun i => (pbl_ListMeta i, pbl_Items i)) (fun i v => (pbl_TypeMeta i, v)).

(** The contents of an object. *)
Inductive ObjectView :=
  | VPostgresBackup (v : TypeMeta * PostgresBackup)
  | VPostgresBackupList (v : TypeMeta * (ListMeta * list (TypeMeta * PostgresBackup)))
  | VPostgresCluster (v : TypeMeta * PostgresCluster)
  | VPostgresClusterList (v : TypeMeta * (ListMeta * list (TypeMeta * PostgresCluster)))
  | VPostgresUser (v : TypeMeta * PostgresUser)
  | VPostgresUserList (v : TypeMeta * (ListMeta * list (TypeMeta * PostgresUser))).

Definition object_view (h : Heap cell) (o : Object) : option (option ObjectView) :=
  match o with
  | OPostgresBackup p => fmap (M := option) VPostgresBackup <$> view h p
  | OPostgresBackupList p => fmap (M := option) VPostgresBackupList <$> view h p
  | OPostgresCluster p => fmap (M := option) VPostgresCluster <$> view h p
  | OPostgresClusterList p => fmap (M := option) VPostgresClusterList <$> view h p
  | OPostgresUser p => fmap (M := option) VPostgresUser <$> view h p
  | OPostgresUserList p => fmap (M := option) VPostgresUserList <$> view h p
  end.

(** The locations reachable from an object. *)
Definition object_locs (h : Heap cell) (o : Object) : list loc :=
  match o with
  | OPostgresBackup p => locs h p
  | OPostgresBackupList p => locs h p
  | OPostgresCluster p => locs h p
  | OPostgresClusterList p => locs h p
  | OPostgresUser p => locs h p
  | OPostgresUserList p => locs h p
  end.

End Views.

(** ** The functions copy *)

(** What the other packages document of their copying functions. *)
Class ForeignLaws (F : ForeignTypes) (C : ForeignCode F) := {
  ObjectMeta_copies : copies ObjectMeta_DeepCopyInto;
  ListMeta_copies : copies ListMeta_DeepCopyInto;
  ResourceRequirements_copies : copies ResourceRequirements_DeepCopyInto;
  Quantity_copies : copies Quantity_DeepCopy;
  TopologySpreadConstraint_copies : copies TopologySpreadConstraint_DeepCopyInto;
  Affinity_copies : copies Affinity_DeepCopyInto;
  Toleration_copies : copies Toleration_DeepCopyInto;
  Condition_copies : copies Condition_DeepCopyInto;
  Time_copies : copies Time_DeepCopy;
}.

Create HintDb deep.
#[export] Hint Resolve ObjectMeta_copies ListMeta_copies ResourceRequirements_copies Quantity_copies
  TopologySpreadConstraint_copies Affinity_copies Toleration_copies Condition_copies Time_copies : deep.
#[export] Hint Resolve copies_flat copies_ptr copies_slice copies_map copies_pair : deep.

(** The steps of a copying function against those of the copy of its reference fields. *)
Ltac same_steps :=
  intros; unfold copy_pair, hbind, hret; cbn;
  repeat match goal with
  | |- context [match ?x with Some _ => _ | None => _ end] =>
      lazymatch x with context [match _ with _ => _ end] => fail | _ => destruct x as [[? ?]|]; cbn; [|done] end
  end; try done.

(** [copies_struct] with the new structure and the copy of the reference fields given. *)
Ltac by_pairs := intros; repeat match goal with p : (_ * _)%type |- _ => destruct p end; reflexivity.
Tactic Notation "struct_copy" reference(into) constr(put) constr(f) :=
  apply (copies_struct _ _ put f); [by_pairs|by_pairs|unfold into; same_steps|auto 20 with deep].

Section Laws.
Context `{L : ForeignLaws}.

Lemma copies_nonnil {A V} {SA : Stored cell A} {DA : Deep cell A V} f :
  copies (DA := deep_ptr) f -> copies (copy_nonnil f).
Proof.
  intros Cf h [[l|]] v Hw Hv; [by apply Cf|]. injection Hv as <-. exists (Ptr None), h.
  split_and!; [done|by apply grows_refl|done|constructor].
Qed.
#[local] Hint Resolve copies_nonnil : deep.

Lemma S3BackupSpec_copies : copies S3BackupSpec_DeepCopyInto.
Proof.
  struct_copy S3BackupSpec_DeepCopyInto (fun i c => {| s3m_Bucket := s3m_Bucket i; s3m_Region := s3m_Region i; s3m_Endpoint := s3m_Endpoint i;
                 s3m_Path := s3m_Path i; s3m_CredentialsSecret := c |})
    (copy_ptr (A := LocalObjectReference) hret).
Qed.
#[local] Hint Resolve S3BackupSpec_copies : deep.

Lemma GCSBackupSpec_copies : copies GCSBackupSpec_DeepCopyInto.
Proof.
  struct_copy GCSBackupSpec_DeepCopyInto (fun i c => {| gcsm_Bucket := gcsm_Bucket i; gcsm_Path := gcsm_Path i; gcsm_CredentialsSecret := c |})
    (copy_ptr (A := LocalObjectReference) hret).
Qed.
#[local] Hint Resolve GCSBackupSpec_copies : deep.

Lemma BackupDestinationSpec_copies : copies BackupDestinationSpec_DeepCopyInto.
Proof.
  struct_copy BackupDestinationSpec_DeepCopyInto (fun (_ : BackupDestinationSpecMem) '(s3, gcs) => {| bdm_S3 := s3; bdm_GCS := gcs |})
    (copy_pair (copy_ptr S3BackupSpec_DeepCopyInto) (copy_ptr GCSBackupSpec_DeepCopyInto)).
Qed.
#[local] Hint Resolve BackupDestinationSpec_copies : deep.

Lemma BackupSpec_copies : copies BackupSpec_DeepCopyInto.
Proof.
  struct_copy BackupSpec_DeepCopyInto (fun i d => {| bsm_Enabled := bsm_Enabled i; bsm_RetentionPolicy := bsm_RetentionPolicy i;
                 bsm_Schedule := bsm_Schedule i; bsm_Destination := d |})
    (copy_ptr BackupDestinationSpec_DeepCopyInto).
Qed.
#[local] Hint Resolve BackupSpec_copies : deep.

Lemma DatabaseGrant_copies : copies DatabaseGrant_DeepCopyInto.
Proof.
  struct_copy DatabaseGrant_DeepCopyInto (fun i l => {| dgm_Name := dgm_Name i; dgm_Privileges := l |})
    (copy_slice (A := string) hret).
Qed.
#[local] Hint Resolve DatabaseGrant_copies : deep.

Lemma StorageSpec_copies : copies StorageSpec_DeepCopyInto.
Proof.
  struct_copy StorageSpec_DeepCopyInto (fun (_ : StorageSpecMem) '(size, (class, modes)) => {| stm_Size := size; stm_StorageClass := class; stm_AccessModes := modes |})
    (copy_pair Quantity_DeepCopy (copy_pair (copy_ptr (A := string) hret) (copy_slice (A := string) hret))).
Qed.
#[local] Hint Resolve StorageSpec_copies : deep.

Lemma TLSSpec_copies : copies TLSSpec_DeepCopyInto.
Proof.
  struct_copy TLSSpec_DeepCopyInto (fun i '(cert, ca) => {| tlsm_Enabled := tlsm_Enabled i; tlsm_CertificateSecret := cert; tlsm_CASecret := ca |})
    (copy_pair (copy_ptr (A := LocalObjectReference) hret) (copy_ptr (A := LocalObjectReference) hret)).
Qed.
#[local] Hint Resolve TLSSpec_copies : deep.

Lemma PostgresClusterSpec_copies : copies PostgresClusterSpec_DeepCopyInto.
Proof.
  struct_copy PostgresClusterSpec_DeepCopyInto (fun i '(storage, (resources, (parameters, (hba, (backup, (tls, (monitoring, (constraints,
                 (affinity, (tolerations, secrets)))))))))) =>
    {| pcsm_PostgresVersion := pcsm_PostgresVersion i; pcsm_Instances := pcsm_Instances i;
       pcsm_Storage := storage; pcsm_Resources := resources; pcsm_PostgresParameters := parameters;
       pcsm_PostgresHBA := hba; pcsm_Backup := backup; pcsm_TLS := tls; pcsm_Monitoring := monitoring;
       pcsm_TopologySpreadConstraints := constraints; pcsm_Affinity := affinity;
       pcsm_Tolerations := tolerations; pcsm_ImagePullSecrets := secrets;
       pcsm_ServiceAccountName := pcsm_ServiceAccountName i;
       pcsm_PriorityClassName := pcsm_PriorityClassName i; pcsm_Paused := pcsm_Paused i |})
    (copy_pair StorageSpec_DeepCopyInto (copy_pair ResourceRequirements_DeepCopyInto (copy_pair (copy_map (A := string))
      (copy_pair (copy_slice (A := string) hret) (copy_pair (copy_ptr BackupSpec_DeepCopyInto) (copy_pair (copy_ptr TLSSpec_DeepCopyInto)
      (copy_pair (copy_ptr (A := MonitoringSpec) hret) (copy_pair (copy_slice TopologySpreadConstraint_DeepCopyInto)
      (copy_pair (copy_ptr Affinity_DeepCopyInto) (copy_pair (copy_slice Toleration_DeepCopyInto)
      (copy_slice (A := LocalObjectReference) hret))))))))))).
Qed.
#[local] Hint Resolve PostgresClusterSpec_copies : deep.

Lemma PostgresClusterStatus_copies : copies PostgresClusterStatus_DeepCopyInto.
Proof.
  struct_copy PostgresClusterStatus_DeepCopyInto (fun i '(conditions, latest) =>
    {| pstm_Conditions := conditions; pstm_Phase := pstm_Phase i; pstm_ReadyInstances := pstm_ReadyInstances i;
       pstm_CurrentPrimary := pstm_CurrentPrimary i; pstm_WriteServiceName := pstm_WriteServiceName i;
       pstm_ReadServiceName := pstm_ReadServiceName i; pstm_PostgresVersion := pstm_PostgresVersion i;
       pstm_ObservedGeneration := pstm_ObservedGeneration i; pstm_LatestBackup := latest |})
    (copy_pair (copy_slice Condition_DeepCopyInto) (copy_nonnil Time_DeepCopy)).
Qed.
#[local] Hint Resolve PostgresClusterStatus_copies : deep.

Lemma PostgresCluster_copies : copies PostgresCluster_DeepCopyInto.
Proof.
  struct_copy PostgresCluster_DeepCopyInto (fun i '(meta, (spec, status)) =>
    {| pcm_TypeMeta := pcm_TypeMeta i; pcm_ObjectMeta := meta; pcm_Spec := spec; pcm_Status := status |})
    (copy_pair ObjectMeta_DeepCopyInto (copy_pair PostgresClusterSpec_DeepCopyInto PostgresClusterStatus_DeepCopyInto)).
Qed.
#[local] Hint Resolve PostgresCluster_copies : deep.

Lemma PostgresUserSpec_copies : copies PostgresUserSpec_DeepCopyInto.
Proof.
  struct_copy PostgresUserSpec_DeepCopyInto (fun i '(secret, (databases, roles)) =>
    {| usm_ClusterName := usm_ClusterName i; usm_PasswordSecret := secret; usm_Databases := databases;
       usm_Roles := roles; usm_Superuser := usm_Superuser i; usm_ConnectionLimit := usm_ConnectionLimit i |})
    (copy_pair (copy_ptr (A := LocalObjectReference) hret) (copy_pair (copy_slice DatabaseGrant_DeepCopyInto) (copy_slice (A := string) hret))).
Qed.
#[local] Hint Resolve PostgresUserSpec_copies : deep.

Lemma PostgresUserStatus_copies : copies PostgresUserStatus_DeepCopyInto.
Proof.
  struct_copy PostgresUserStatus_DeepCopyInto (fun i l => {| ustm_Applied := ustm_Applied i; ustm_Conditions := l; ustm_ObservedGeneration := ustm_ObservedGeneration i |})
    (copy_slice Condition_DeepCopyInto).
Qed.
#[local] Hint Resolve PostgresUserStatus_copies : deep.

Lemma PostgresUser_copies : copies PostgresUser_DeepCopyInto.
Proof.
  struct_copy PostgresUser_DeepCopyInto (fun i '(meta, (spec, status)) =>
    {| pum_TypeMeta := pum_TypeMeta i; pum_ObjectMeta := meta; pum_Spec := spec; pum_Status := status |})
    (copy_pair ObjectMeta_DeepCopyInto (copy_pair PostgresUserSpec_DeepCopyInto PostgresUserStatus_DeepCopyInto)).
Qed.
#[local] Hint Resolve PostgresUser_copies : deep.

Lemma PostgresBackupStatus_copies : copies PostgresBackupStatus_DeepCopyInto.
Proof.
  struct_copy PostgresBackupStatus_DeepCopyInto (fun i '(start, (completion, conditions)) =>
    {| bstm_Phase := bstm_Phase i; bstm_StartTime := start; bstm_CompletionTime := completion;
       bstm_BackupSize := bstm_BackupSize i; bstm_DestinationPath := bstm_DestinationPath i;
       bstm_Conditions := conditions |})
    (copy_pair (copy_nonnil Time_DeepCopy) (copy_pair (copy_nonnil Time_DeepCopy) (copy_slice Condition_DeepCopyInto))).
Qed.
#[local] Hint Resolve PostgresBackupStatus_copies : deep.

Lemma PostgresBackup_copies : copies PostgresBackup_DeepCopyInto.
Proof.
  struct_copy PostgresBackup_DeepCopyInto (fun i '(meta, status) =>
    {| pbm_TypeMeta := pbm_TypeMeta i; pbm_ObjectMeta := meta; pbm_Spec := pbm_Spec i; pbm_Status := status |})
    (copy_pair ObjectMeta_DeepCopyInto PostgresBackupStatus_DeepCopyInto).
Qed.
#[local] Hint Resolve PostgresBackup_copies : deep.

Lemma PostgresClusterList_copies : copies PostgresClusterList_DeepCopyInto.
Proof.
  struct_copy PostgresClusterList_DeepCopyInto (fun i '(meta, items) => {| pcl_TypeMeta := pcl_TypeMeta i; pcl_ListMeta := meta; pcl_Items := items |})
    (copy_pair ListMeta_DeepCopyInto (copy_slice PostgresCluster_DeepCopyInto)).
Qed.
#[local] Hint Resolve PostgresClusterList_copies : deep.

Lemma PostgresUserList_copies : copies PostgresUserList_DeepCopyInto.
Proof.
  struct_copy PostgresUserList_DeepCopyInto (fun i '(meta, items) => {| pul_TypeMeta := pul_TypeMeta i; pul_ListMeta := meta; pul_Items := items |})
    (copy_pair ListMeta_DeepCopyInto (copy_slice PostgresUser_DeepCopyInto)).
Qed.
#[local] Hint Resolve PostgresUserList_copies : deep.

Lemma PostgresBackupList_copies : copies PostgresBackupList_DeepCopyInto.
Proof.
  struct_copy PostgresBackupList_DeepCopyInto (fun i '(meta, items) => {| pbl_TypeMeta := pbl_TypeMeta i; pbl_ListMeta := meta; pbl_Items := items |})
    (copy_pair ListMeta_DeepCopyInto (copy_slice PostgresBackup_DeepCopyInto)).
Qed.
#[local] Hint Resolve PostgresBackupList_copies : deep.

(** [DeepCopy] of every generated type. *)
Lemma every_DeepCopy_copies :
  copies BackupDestinationSpec_DeepCopy /\
  copies BackupSpec_DeepCopy /\
  copies DatabaseGrant_DeepCopy /\
  copies GCSBackupSpec_DeepCopy /\
  copies MonitoringSpec_DeepCopy /\
  copies PostgresBackup_DeepCopy /\
  copies PostgresBackupList_DeepCopy /\
  copies PostgresBackupSpec_DeepCopy /\
  copies PostgresBackupStatus_DeepCopy /\
  copies PostgresCluster_DeepCopy /\
  copies PostgresClusterList_DeepCopy /\
  copies PostgresClusterSpec_DeepCopy /\
  copies PostgresClusterStatus_DeepCopy /\
  copies PostgresUser_DeepCopy /\
  copies PostgresUserList_DeepCopy /\
  copies PostgresUserSpec_DeepCopy /\
  copies PostgresUserStatus_DeepCopy /\
  copies S3BackupSpec_DeepCopy /\
  copies StorageSpec_DeepCopy /\
  copies TLSSpec_DeepCopy.
Proof. split_and!; apply copies_ptr; auto with deep; apply copies_flat. Qed.

(** One kind of object, given that its structure's function copies. *)
Lemma kind_isolates {A V} {SA : Stored cell A} {DA : Deep cell A V} into (k : ptr A -> Object) (kv : V -> ObjectView) h p v :
  copies into ->
  (forall h p, object_view h (k p) = fmap (M := option) kv <$> view h p) -> (forall h p, object_locs h (k p) = locs h p) ->
  (forall p, DeepCopyObject (k p) = hbind (copy_ptr into p) (as_object k)) ->
  wf h -> object_view h (k p) = Some v ->
  match v with
  | None => DeepCopyObject (k p) h = Some (None, h)
  | Some _ => exists o' h', DeepCopyObject (k p) h = Some (Some o', h') /\
      (forall l c, cells h !! l = Some c -> cells h' !! l = Some c) /\
      object_view h' (k p) = Some v /\ object_view h' o' = Some v /\
      (forall h2, writes_within (object_locs h' o') h' h2 -> object_view h2 (k p) = Some v) /\
      (forall h2, writes_within (object_locs h' (k p)) h' h2 -> object_view h2 o' = Some v)
  end.
Proof.
  intros Ci Hv Hl Hd Hw. rewrite Hv, Hd, fmap_Some. intros (w & Ew & ->). destruct w as [w|]; cbn [fmap option_fmap option_map].
  2: { destruct p as [[l|]]; [|done]. apply addr_view_inv in Ew as (? & ? & _ & _ & [=]). }
  destruct (copies_ptr into Ci h p _ Hw Ew) as (p0 & h0 & X0 & (_ & G & _) & _).
  destruct (copies_isolated _ h p _ (copies_ptr into Ci) Hw Ew) as (p' & h' & X & V1 & V2 & I1 & I2).
  rewrite X in X0. injection X0 as <- <-.
  exists (k p'), h'. rewrite !Hv, !Hl. unfold hbind. rewrite X, V1, V2. split_and!; try done.
  - by destruct p' as [[l|]].
  - intros l c Hc. rewrite G; [done|]. by eapply Hw.
  - intros h2 H2. by rewrite Hv, (I1 h2 H2).
  - intros h2 H2. by rewrite Hv, (I2 h2 H2).
Qed.

(** C8: deep copies are isolated.  On a well-formed heap [DeepCopyObject] of a nil pointer
    is the nil object, and of any other object of the group (a cluster, a user, a backup or
    a list of them) it succeeds, changes no location in use, and returns an object with the
    same contents; whatever is then written to the locations reachable from the copy, the
    original keeps its contents, and whatever is written to those reachable from the
    original, the copy keeps its. *)
Theorem DeepCopyObject_isolates (h : Heap cell) (o : Object) (v : option ObjectView) :
  wf h -> object_view h o = Some v ->
  match v with
  | None => DeepCopyObject o h = Some (None, h)
  | Some _ => exists o' h', DeepCopyObject o h = Some (Some o', h') /\
      (forall l c, cells h !! l = Some c -> cells h' !! l = Some c) /\
      object_view h' o = Some v /\ object_view h' o' = Some v /\
      (forall h2, writes_within (object_locs h' o') h' h2 -> object_view h2 o = Some v) /\
      (forall h2, writes_within (object_locs h' o) h' h2 -> object_view h2 o' = Some v)
  end.
Proof. destruct o; eapply kind_isolates; auto with deep. Qed.

End Laws.

(** ** An instance of the parameters *)

(** Metadata whose labels are a map in the heap, and other foreign types without references. *)
Record MetaMem := { mm_Meta : ObjectMeta; mm_Labels : gomap string }.

Definition with_labels (m : ObjectMeta) (l : gmap string string) : ObjectMeta :=
  {| om_Name := om_Name m; om_Namespace := om_Namespace m; om_UID := om_UID m; om_Labels := l;
     om_Annotations := om_Annotations m; om_Finalizers := om_Finalizers m;
     om_OwnerReferences := om_OwnerReferences m; om_DeletionTimestamp := om_DeletionTimestamp m;
     om_Generation := om_Generation m; om_ResourceVersion := om_ResourceVersion m |}.

Definition plain_types : ForeignTypes := {|
  FObjectMeta := MetaMem; FListMeta := ListMeta; FResourceRequirements := ResourceRequirements;
  FQuantity := Quantity; FTopologySpreadConstraint := string; FAffinity := string; FToleration := string;
  FCondition := Condition; FTime := Z; Foreign := Empty_set |}.

Definition plain_meta_copy (m : MetaMem) : heapM (@cell plain_types) MetaMem :=
  hbind (copy_map (SA := @stored_Parameters plain_types) (mm_Labels m)) (fun l => hret {| mm_Meta := mm_Meta m; mm_Labels := l |}).

Definition plain_meta_view : Deep (@cell plain_types) MetaMem ObjectMeta :=
  deep_struct (DP := deep_gomap (SA := @stored_Parameters plain_types)) mm_Labels (fun m l => with_labels (mm_Meta m) l).

Definition plain_code : ForeignCode plain_types := {|
  view_ObjectMeta := plain_meta_view; view_ListMeta := flat ListMeta;
  view_ResourceRequirements := flat ResourceRequirements; view_Quantity := flat Quantity;
  view_TopologySpreadConstraint := flat string; view_Affinity := flat string; view_Toleration := flat string;
  view_Condition := flat Condition; view_Time := flat Z;
  ObjectMeta_DeepCopyInto := plain_meta_copy; ListMeta_DeepCopyInto := hret;
  ResourceRequirements_DeepCopyInto := hret; Quantity_DeepCopy := hret;
  TopologySpreadConstraint_DeepCopyInto := hret; Affinity_DeepCopyInto := hret; Toleration_DeepCopyInto := hret;
  Condition_DeepCopyInto := hret; Time_DeepCopy := copy_ptr (SA := @stored_Time plain_types) hret |}.

Lemma plain_laws : ForeignLaws plain_types plain_code.
Proof.
  constructor; try apply copies_flat; [|apply copies_ptr, copies_flat].
  apply (copies_struct (DP := deep_gomap (SA := @stored_Parameters plain_types)) mm_Labels _
           (fun m l => {| mm_Meta := mm_Meta m; mm_Labels := l |}) copy_map); try done. apply copies_map.
Qed.

(** A user with labels, a password secret, roles and a grant. *)
Definition app_user : Object (F := plain_types) := OPostgresUser (Ptr (Some 6%positive)).

Definition app_heap : Heap (@cell plain_types) := {|
  cells := list_to_map [
    (1%positive, CParameters {["app" := "db"]});
    (2%positive, CString "app-password");
    (3%positive, CStrings ["SELECT"; "INSERT"]);
    (4%positive, CGrants [{| dgm_Name := "orders"; dgm_Privileges := Slice (Some 3%positive) |}]);
    (5%positive, CStrings ["reader"]);
    (6%positive, CUser {|
       pum_TypeMeta := {| tm_Kind := "PostgresUser"; tm_APIVersion := "pg.athos.io/v1alpha1" |};
       pum_ObjectMeta := ({| mm_Meta := mkMeta "app" "prod" ∅; mm_Labels := GoMap (Some 1%positive) |} : @FObjectMeta plain_types);
       pum_Spec := {| usm_ClusterName := "db"; usm_PasswordSecret := Ptr (Some 2%positive);
                      usm_Databases := Slice (Some 4%positive); usm_Roles := Slice (Some 5%positive);
                      usm_Superuser := false; usm_ConnectionLimit := -1 |};
       pum_Status := {| ustm_Applied := false; ustm_Conditions := Slice None; ustm_ObservedGeneration := 0 |} |})];
  next := 7%positive |}.

Lemma app_heap_wf : wf app_heap.
Proof.
  intros l c. unfold app_heap. cbn -[list_to_map]. intros Hc%elem_of_list_to_map_2.
  rewrite !elem_of_cons, elem_of_nil in Hc. destruct_or? Hc; try done; injection Hc as -> _; lia.
Qed.

(** Every write through the copy leaves the user as it was; the copy starts out equal to it
    and lies at locations of its own. *)
Lemma DeepCopyObject_isolates_witness :
  wf app_heap /\
  exists v, object_view (C := plain_code) app_heap app_user = Some (Some v) /\
  exists o' h', DeepCopyObject (C := plain_code) app_user app_heap = Some (Some o', h') /\
    object_locs (C := plain_code) h' o' = [7; 8; 9; 10; 11; 12]%positive /\
    (forall h2, writes_within (object_locs (C := plain_code) h' o') h' h2 ->
       object_view (C := plain_code) h2 app_user = Some (Some v)).
Proof.
  split; [exact app_heap_wf|]. eexists. split; [vm_compute; reflexivity|].
  match goal with |- context [object_view _ _ = Some (Some ?v)] =>
    pose proof (DeepCopyObject_isolates (L := plain_laws) app_heap app_user (Some v) app_heap_wf
                  ltac:(vm_compute; reflexivity)) as (o' & h' & E & _ & _ & _ & I & _) end.
  exists o', h'. split; [exact E|]. split; [|exact I].
  vm_compute in E. injection E as <- <-. vm_compute. reflexivity.
Defined.
