(* ===== verification/Calls.v ===== *)
(** * The calls a controller makes

    The reconcilers are written against the class [Runtime], so they also run on runtimes
    that say nothing about the store: one that records the calls it receives, or one in
    which others act between two calls.  [bounded P m] says that [m] makes only calls that
    satisfy [P], whatever the calls answer: it keeps every property of the world that those
    calls keep.  [uses] is the profile of each controller, the verbs and kinds of its calls,
    and [dispatch_bounded] shows that no reconcile leaves its profile.  [Rbac] and
    [Interleaving] build on it. *)

From Stdlib Require Import ZArith Lia List Bool.
From stdpp Require Import base list strings gmap.
From S2P Require Import Prelude GoStrings K8s Api Runtime Ensure PgResources Password ClusterController UserController BackupController PoolerController Manager.

Local Open Scope athos_scope.
Import Manager.Manager.

Module Calls.

Inductive Call :=
  | CGet (k : Kind) (n : NamespacedName)
  | CCreate (k : Kind) (o : obj k)
  | CUpdate (k : Kind) (o : obj k)
  | CStatusUpdate (k : Kind) (o : obj k)
  | CNow
  | CEvent (e : Event)
  | CRandInt (b : Z)
  | CExec (x : ExecRequest).

(** What a call does to the world. *)
Definition perform {W} `{Runtime W} (c : Call) (w : W) : W :=
  match c with
  | CGet k n => (rt_Get k n w).2
  | CCreate k o => (rt_Create k o w).2
  | CUpdate k o => (rt_Update k o w).2
  | CStatusUpdate k o => (rt_StatusUpdate k o w).2
  | CNow => (rt_Now w).2
  | CEvent e => (rt_Event e w).2
  | CRandInt b => (rt_RandInt b w).2
  | CExec x => (rt_Exec x w).2
  end.

(** [m] makes only calls in [P]. *)
Definition bounded {W A} `{Runtime W} (P : Call -> Prop) (m : M W A) : Prop :=
  forall I : W -> Prop, (forall c w, P c -> I w -> I (perform c w)) -> forall w, I w -> I (m w).2.

Section Bounded.
Context {W : Type} `{Runtime W} (P : Call -> Prop).

Lemma bounded_ret {A} (a : A) : bounded (W:=W) P (ret a).
Proof. by intros I _ w Hw. Qed.

Lemma bounded_bind {A B} (m : M W A) (f : A -> M W B) :
  bounded P m -> (forall a, bounded P (f a)) -> bounded P (bind m f).
Proof.
  intros Hm Hf I Hc w Hw. unfold bind. pose proof (Hm I Hc w Hw) as H1. destruct (m w) as [a w1].
  by apply (Hf a I Hc).
Qed.

Lemma bounded_mtry (m k : M W (option error)) : bounded P m -> bounded P k -> bounded P (mtry m k).
Proof. intros Hm Hk. apply bounded_bind; [done|]. intros []; [apply bounded_ret|done]. Qed.

Lemma bounded_Get k n : P (CGet k n) -> bounded P (rt_Get k n).
Proof. intros HP I Hc w. by apply (Hc (CGet k n)). Qed.
Lemma bounded_Create k o : P (CCreate k o) -> bounded P (rt_Create k o).
Proof. intros HP I Hc w. by apply (Hc (CCreate k o)). Qed.
Lemma bounded_Update k o : P (CUpdate k o) -> bounded P (rt_Update k o).
Proof. intros HP I Hc w. by apply (Hc (CUpdate k o)). Qed.
Lemma bounded_StatusUpdate k o : P (CStatusUpdate k o) -> bounded P (rt_StatusUpdate k o).
Proof. intros HP I Hc w. by apply (Hc (CStatusUpdate k o)). Qed.
Lemma bounded_Now : P CNow -> bounded P rt_Now.
Proof. intros HP I Hc w. by apply (Hc CNow). Qed.
Lemma bounded_Event e : P (CEvent e) -> bounded P (rt_Event e).
Proof. intros HP I Hc w. by apply (Hc (CEvent e)). Qed.
Lemma bounded_RandInt b : P (CRandInt b) -> bounded P (rt_RandInt b).
Proof. intros HP I Hc w. by apply (Hc (CRandInt b)). Qed.
Lemma bounded_Exec x : P (CExec x) -> bounded P (rt_Exec x).
Proof. intros HP I Hc w. by apply (Hc (CExec x)). Qed.

Lemma bounded_weaken {A} (Q : Call -> Prop) (m : M W A) : (forall c, P c -> Q c) -> bounded P m -> bounded Q m.
Proof. intros HPQ Hm I Hc. apply Hm. intros c w HP. apply Hc. auto. Qed.

End Bounded.

(** Prove [bounded] by following the structure of the code; calls of [P] are found by
    evaluation, and others are left to prove. *)
Ltac call_ok := try first [exact eq_refl | exact Logic.I].
Ltac bounded_step :=
  lazymatch goal with
  | |- forall _, _ => intro
  | |- bounded _ (ret _) => apply bounded_ret
  | |- bounded _ (bind _ _) => apply bounded_bind
  | |- bounded _ (mtry _ _) => apply bounded_mtry
  | |- bounded _ (rt_Get _ _) => apply bounded_Get; call_ok
  | |- bounded _ (rt_Create _ _) => apply bounded_Create; call_ok
  | |- bounded _ (rt_Update _ _) => apply bounded_Update; call_ok
  | |- bounded _ (rt_StatusUpdate _ _) => apply bounded_StatusUpdate; call_ok
  | |- bounded _ rt_Now => apply bounded_Now; call_ok
  | |- bounded _ (rt_Event _) => apply bounded_Event; call_ok
  | |- bounded _ (rt_RandInt _) => apply bounded_RandInt; call_ok
  | |- bounded _ (rt_Exec _) => apply bounded_Exec; call_ok
  | |- bounded _ (match ?x with _ => _ end) => destruct x
  end.
Ltac bounded_tac := repeat bounded_step.

(** ** The profiles *)

(** The verbs and kinds of each controller's calls. *)
Definition uses (c : controller) (call : Call) : bool :=
  match c, call with
  | PostgresClusterReconciler, CGet k _ =>
      bool_decide (k ∈ [KCluster; KServiceAccount; KSecret; KConfigMap; KStatefulSet; KService; KPDB])
  | PostgresClusterReconciler, CCreate k _ =>
      bool_decide (k ∈ [KServiceAccount; KSecret; KConfigMap; KStatefulSet; KService; KPDB])
  | PostgresClusterReconciler, CUpdate k _ => bool_decide (k ∈ [KCluster; KConfigMap; KStatefulSet; KService; KPDB])
  | PostgresClusterReconciler, CStatusUpdate k _ => bool_decide (k = KCluster)
  | PostgresClusterReconciler, (CNow | CEvent _ | CRandInt _) => true
  | PostgresUserReconciler, CGet k _ => bool_decide (k ∈ [KUser; KCluster; KSecret])
  | PostgresUserReconciler, CStatusUpdate k _ => bool_decide (k = KUser)
  | PostgresUserReconciler, (CNow | CEvent _ | CExec _) => true
  | PostgresBackupReconciler, CGet k _ => bool_decide (k ∈ [KBackup; KCluster; KJob])
  | PostgresBackupReconciler, CCreate k _ => bool_decide (k = KJob)
  | PostgresBackupReconciler, CStatusUpdate k _ => bool_decide (k = KBackup)
  | PostgresBackupReconciler, CNow => true
  | PostgresPoolerReconciler, CGet k _ => bool_decide (k ∈ [KCluster; KConfigMap; KDeployment; KService])
  | PostgresPoolerReconciler, (CCreate k _ | CUpdate k _) => bool_decide (k ∈ [KConfigMap; KDeployment; KService])
  | _, _ => false
  end.

Section Profiles.
Context {W : Type} `{Runtime W}.

Lemma ensure_bounded P ref ns wref wget k desired created before merge :
  (forall n, P (CGet k n)) -> (forall o, P (CCreate k o)) -> (forall o, P (CUpdate k o)) ->
  bounded P created -> (forall o, bounded P (before o)) ->
  bounded (W:=W) P (ensure ref ns wref wget k desired created before merge).
Proof.
  intros HG HC HU Hc Hb. unfold ensure, err_of.
  repeat first [ progress intros | apply bounded_ret | apply bounded_Get, HG | apply bounded_Create, HC
               | apply bounded_Update, HU | exact Hc | apply Hb | apply bounded_bind
               | match goal with |- bounded _ (match ?x with _ => _ end) => destruct x end ].
Qed.

Lemma generate_bounded (P : Call -> Prop) n alphabet buf :
  (forall b, P (CRandInt b)) -> bounded (W:=W) P (Password.generate_loop n alphabet buf).
Proof.
  intros HP. revert buf. induction n as [|n IH]; intros buf; cbn [Password.generate_loop]; [apply bounded_ret|].
  apply bounded_bind; [apply bounded_RandInt, HP|]. intros []; [|apply bounded_ret].
  destruct (String.get _ _); [apply IH|apply bounded_ret].
Qed.

Lemma run_steps_bounded (P : Call -> Prop) l : Forall (fun s => bounded P s.2) l -> bounded (W:=W) P (Cluster.run_steps l).
Proof.
  induction 1 as [|[name fn] l Hfn _ IH]; cbn [Cluster.run_steps]; [apply bounded_ret|].
  apply bounded_bind; [done|]. intros []; [apply bounded_ret|done].
Qed.

Section Cluster.
Context (rec : bool).
Let P (c : Call) : Prop := uses PostgresClusterReconciler c = true.

Lemma recordEventf_bounded e : bounded (W:=W) P (Cluster.recordEventf rec e).
Proof. unfold Cluster.recordEventf. bounded_tac. Qed.

Lemma cluster_ensure_bounded ref ns wref wget k desired created before merge :
  k ∈ [KConfigMap; KStatefulSet; KService; KPDB] -> bounded P created -> (forall o, bounded P (before o)) ->
  bounded (W:=W) P (ensure ref ns wref wget k desired created before merge).
Proof.
  intros Hk. rewrite !elem_of_cons, elem_of_nil in Hk.
  destruct_or? Hk; try done; subst; intros; apply ensure_bounded; done.
Qed.

Lemma in_ensured k : bool_decide (k ∈ [KConfigMap; KStatefulSet; KService; KPDB]) = true -> k ∈ [KConfigMap; KStatefulSet; KService; KPDB].
Proof. apply bool_decide_eq_true_1. Qed.

Lemma services_bounded c l : bounded (W:=W) P (Cluster.reconcile_service_loop c l).
Proof.
  induction l as [|s l IH]; cbn [Cluster.reconcile_service_loop]; [apply bounded_ret|].
  apply bounded_mtry; [|done]. apply cluster_ensure_bounded; [by apply in_ensured|apply bounded_ret|intros; apply bounded_ret].
Qed.

Lemma steps_bounded c : Forall (fun s => bounded P s.2) (Cluster.steps (W:=W) rec c).
Proof.
  unfold Cluster.steps. rewrite !Forall_cons, Forall_nil. cbn [snd]. split_and!.
  - unfold Cluster.reconcileServiceAccount, err_of. bounded_tac.
  - unfold Cluster.reconcileCredentials, Password.Generate.
    repeat first [apply generate_bounded; exact (fun _ => eq_refl) | apply recordEventf_bounded | progress bounded_tac].
  - apply cluster_ensure_bounded; [by apply in_ensured|apply recordEventf_bounded|intros; apply bounded_ret].
  - apply cluster_ensure_bounded; [by apply in_ensured|apply recordEventf_bounded|].
    intros. unfold Cluster.scale_event, nothing. repeat first [apply recordEventf_bounded | progress bounded_tac].
  - apply services_bounded.
  - apply cluster_ensure_bounded; [by apply in_ensured|apply recordEventf_bounded|intros; apply bounded_ret].
  - unfold Cluster.updateStatus, Cluster.classify, err_of. cbn zeta. bounded_tac.
  - done.
Qed.

Lemma cluster_bounded req : bounded (W:=W) P (Cluster.Reconcile rec req).
Proof.
  unfold Cluster.Reconcile, Cluster.reconcilePaused, Cluster.reconcileDelete, Cluster.bootstrap, err_of. cbn zeta.
  repeat first [apply run_steps_bounded, steps_bounded | apply recordEventf_bounded | progress bounded_tac].
Qed.

End Cluster.

Lemma user_bounded T rec req : bounded (W:=W) (fun c => uses PostgresUserReconciler c = true) (User.Reconcile T rec req).
Proof. unfold User.Reconcile, User.resolve_password, User.apply_user, User.execSQL, err_of. cbn zeta. bounded_tac. Qed.

Lemma sync_bounded b cs : bounded (W:=W) (fun c => uses PostgresBackupReconciler c = true) (Backup.sync_conditions b cs).
Proof. induction cs as [|c cs IH]; cbn [Backup.sync_conditions]; unfold err_of; bounded_tac. apply IH. Qed.

Lemma backup_bounded T req : bounded (W:=W) (fun c => uses PostgresBackupReconciler c = true) (Backup.Reconcile T req).
Proof.
  unfold Backup.Reconcile, Backup.drive_job, Backup.createBackupJob, Backup.syncBackupStatus, err_of. cbn zeta.
  repeat first [apply sync_bounded | progress bounded_tac].
Qed.

Lemma pooler_bounded req : bounded (W:=W) (fun c => uses PostgresPoolerReconciler c = true) (Pooler.Reconcile req).
Proof.
  unfold Pooler.Reconcile, Pooler.reconcilePooler, Pooler.reconcilePoolerConfigMap, Pooler.reconcilePoolerDeployment,
    Pooler.reconcilePoolerService. cbn zeta.
  repeat first [ (apply ensure_bounded; [exact (fun _ => eq_refl)|exact (fun _ => eq_refl)|exact (fun _ => eq_refl)|apply bounded_ret|intros; apply bounded_ret])
               | progress bounded_tac ].
Qed.

(** Every reconcile stays within the profile of its controller. *)
Lemma dispatch_bounded T c req : bounded (W:=W) (fun x => uses c x = true) (dispatch T c req).
Proof. destruct c; [apply cluster_bounded|apply backup_bounded|apply user_bounded|apply pooler_bounded]. Qed.

End Profiles.

(** ** A runtime that records its calls *)

Definition recorded {W A} (c : Call) (m : M W A) : M (W * list Call) A :=
  fun w => let '(a, w') := m w.1 in (a, (w', w.2 ++ [c])).

Definition recording {W} (R : Runtime W) : Runtime (W * list Call) := {|
  rt_Get k n := recorded (CGet k n) (rt_Get k n);
  rt_Create k o := recorded (CCreate k o) (rt_Create k o);
  rt_Update k o := recorded (CUpdate k o) (rt_Update k o);
  rt_StatusUpdate k o := recorded (CStatusUpdate k o) (rt_StatusUpdate k o);
  rt_Now := recorded CNow rt_Now;
  rt_Event e := recorded (CEvent e) (rt_Event e);
  rt_RandInt b := recorded (CRandInt b) (rt_RandInt b);
  rt_Exec x := recorded (CExec x) (rt_Exec x);
  rt_SetControllerReference := rt_SetControllerReference;
  rt_AddFinalizer := rt_AddFinalizer;
  rt_RemoveFinalizer := rt_RemoveFinalizer;
  rt_ContainsFinalizer := rt_ContainsFinalizer;
|}.

Lemma perform_recording {W} (R : Runtime W) c (w : W * list Call) :
  perform (H := recording R) c w = (perform c w.1, w.2 ++ [c]).
Proof. destruct c; cbn; unfold recorded; by case_match. Qed.

(** The calls a reconcile makes, in order. *)
Definition calls_of {W} (R : Runtime W) (T : UnicodeTables) (c : controller) (req : NamespacedName) (w : W) : list Call :=
  (dispatch (H := recording R) T c req (w, [])).2.2.

Lemma calls_of_uses {W} (R : Runtime W) T c req w : Forall (fun x => uses c x = true) (calls_of R T c req w).
Proof.
  apply (dispatch_bounded (H := recording R) T c req (fun w => Forall (fun x => uses c x = true) w.2)); [|constructor].
  intros x w' Hx Hw. rewrite perform_recording. cbn. apply Forall_app. split; [done|]. by constructor.
Qed.

End Calls.
