(* ===== verification/Rbac.v ===== *)
(** * Permissions of the operator

    The role of the operator, as the [+kubebuilder:rbac] markers of the controllers ask for
    it, as config/rbac/role.yaml (generated from the markers) grants it, and as the Helm
    chart grants it.  The calls a reconcile makes are recorded ([Calls.calls_of]) and
    compared with what they need. *)

From Stdlib Require Import ZArith Lia List Bool.
From stdpp Require Import base list strings gmap.
From S2P Require Import Prelude GoStrings K8s Api Runtime FakeRuntime UserController Manager Calls.

Local Open Scope athos_scope.
Import Manager.Manager Calls.Calls.

Module Rbac.

(** A rule of a role: any of the verbs, on any of the resources, in any of the groups. *)
Record Rule := { APIGroups : list string; Resources : list string; Verbs : list string }.

(** A permission: group, resource, verb. *)
Definition permission : Type := string * string * string.

Definition permissions (r : Rule) : list permission :=
  g ← APIGroups r; res ← Resources r; (fun v => (g, res, v)) <$> Verbs r.

(** Whether one of the rules grants a permission. *)
Definition grants (role : list Rule) (p : permission) : bool := bool_decide (p ∈ role ≫= permissions).

(** ** The roles *)

(** [+kubebuilder:rbac:groups=g,resources=r,verbs=vs]; the group [core] is the empty one. *)
Definition marker (g r : string) (vs : list string) : Rule :=
  {| APIGroups := [if (g =? "core")%string then "" else g]; Resources := [r]; Verbs := vs |}.

Definition crud : list string := ["get"; "list"; "watch"; "create"; "update"; "patch"; "delete"].

Definition cluster_markers : list Rule :=
  [marker "pg.athos.io" "postgresclusters" crud;
   marker "pg.athos.io" "postgresclusters/status" ["get"; "update"; "patch"];
   marker "pg.athos.io" "postgresclusters/finalizers" ["update"];
   marker "apps" "statefulsets" crud;
   marker "core" "services" crud;
   marker "core" "configmaps" crud;
   marker "core" "secrets" crud;
   marker "core" "pods" ["get"; "list"; "watch"];
   marker "core" "persistentvolumeclaims" ["get"; "list"; "watch"; "delete"];
   marker "core" "serviceaccounts" crud;
   marker "core" "events" ["create"; "patch"];
   marker "policy" "poddisruptionbudgets" crud].

Definition user_markers : list Rule :=
  [marker "pg.athos.io" "postgresusers" crud;
   marker "pg.athos.io" "postgresusers/status" ["get"; "update"; "patch"];
   marker "pg.athos.io" "postgresusers/finalizers" ["update"]].

Definition backup_markers : list Rule :=
  [marker "pg.athos.io" "postgresbackups" crud;
   marker "pg.athos.io" "postgresbackups/status" ["get"; "update"; "patch"];
   marker "pg.athos.io" "postgresbackups/finalizers" ["update"];
   marker "batch" "jobs" crud].

Definition pooler_markers : list Rule :=
  [marker "apps" "deployments" crud;
   marker "core" "configmaps" crud].

Definition markers : list Rule := cluster_markers ++ user_markers ++ backup_markers ++ pooler_markers.

(** config/rbac/role.yaml. *)
Definition manager_role : list Rule :=
  let all := ["create"; "delete"; "get"; "list"; "patch"; "update"; "watch"] in
  [{| APIGroups := [""]; Resources := ["configmaps"; "secrets"; "serviceaccounts"; "services"]; Verbs := all |};
   {| APIGroups := [""]; Resources := ["events"]; Verbs := ["create"; "patch"] |};
   {| APIGroups := [""]; Resources := ["persistentvolumeclaims"]; Verbs := ["delete"; "get"; "list"; "watch"] |};
   {| APIGroups := [""]; Resources := ["pods"]; Verbs := ["get"; "list"; "watch"] |};
   {| APIGroups := ["apps"]; Resources := ["deployments"; "statefulsets"]; Verbs := all |};
   {| APIGroups := ["batch"]; Resources := ["jobs"]; Verbs := all |};
   {| APIGroups := ["pg.athos.io"]; Resources := ["postgresbackups"; "postgresclusters"; "postgresusers"]; Verbs := all |};
   {| APIGroups := ["pg.athos.io"];
      Resources := ["postgresbackups/finalizers"; "postgresclusters/finalizers"; "postgresusers/finalizers"];
      Verbs := ["update"] |};
   {| APIGroups := ["pg.athos.io"];
      Resources := ["postgresbackups/status"; "postgresclusters/status"; "postgresusers/status"];
      Verbs := ["get"; "patch"; "update"] |};
   {| APIGroups := ["policy"]; Resources := ["poddisruptionbudgets"]; Verbs := all |}].

(** charts/athos/templates/clusterrole.yaml. *)
Definition chart_role : list Rule :=
  [{| APIGroups := ["pg.athos.io"]; Resources := ["postgresclusters"; "postgresbackups"; "postgresusers"]; Verbs := crud |};
   {| APIGroups := ["pg.athos.io"];
      Resources := ["postgresclusters/status"; "postgresbackups/status"; "postgresusers/status"];
      Verbs := ["get"; "update"; "patch"] |};
   {| APIGroups := ["pg.athos.io"];
      Resources := ["postgresclusters/finalizers"; "postgresbackups/finalizers"; "postgresusers/finalizers"];
      Verbs := ["update"] |};
   {| APIGroups := ["apps"]; Resources := ["statefulsets"]; Verbs := crud |};
   {| APIGroups := ["batch"]; Resources := ["jobs"]; Verbs := crud |};
   {| APIGroups := [""]; Resources := ["services"; "configmaps"; "secrets"; "serviceaccounts"]; Verbs := crud |};
   {| APIGroups := [""]; Resources := ["pods"]; Verbs := ["get"; "list"; "watch"] |};
   {| APIGroups := [""]; Resources := ["pods/exec"]; Verbs := ["create"] |};
   {| APIGroups := [""]; Resources := ["persistentvolumeclaims"]; Verbs := ["get"; "list"; "watch"; "delete"] |};
   {| APIGroups := [""]; Resources := ["events"]; Verbs := ["create"; "patch"] |};
   {| APIGroups := ["coordination.k8s.io"]; Resources := ["leases"]; Verbs := crud |};
   {| APIGroups := ["policy"]; Resources := ["poddisruptionbudgets"]; Verbs := crud |}].

(** ** What a call needs *)

(** The API group and the resource of a kind. *)
Definition resource (k : Kind) : string * string :=
  match k with
  | KCluster => ("pg.athos.io", "postgresclusters")
  | KUser => ("pg.athos.io", "postgresusers")
  | KBackup => ("pg.athos.io", "postgresbackups")
  | KServiceAccount => ("", "serviceaccounts")
  | KSecret => ("", "secrets")
  | KConfigMap => ("", "configmaps")
  | KStatefulSet => ("apps", "statefulsets")
  | KService => ("", "services")
  | KPDB => ("policy", "poddisruptionbudgets")
  | KJob => ("batch", "jobs")
  | KDeployment => ("apps", "deployments")
  end.

(** The informer of a kind lists and watches it. *)
Definition watch_needs (k : Kind) : list permission :=
  let '(g, r) := resource k in [(g, r, "list"); (g, r, "watch")].

(** A read is served by the informer cache of its kind, an event is created or counted up,
    and a remote command is a creation of the [exec] subresource of a pod. *)
Definition needs (c : Call) : list permission :=
  match c with
  | CGet k _ => let '(g, r) := resource k in (g, r, "get") :: watch_needs k
  | CCreate k _ => let '(g, r) := resource k in [(g, r, "create")]
  | CUpdate k _ => let '(g, r) := resource k in [(g, r, "update")]
  | CStatusUpdate k _ => let '(g, r) := resource k in [(g, r +:+ "/status", "update")]
  | CEvent _ => [("", "events", "create"); ("", "events", "patch")]
  | CExec _ => [("", "pods/exec", "create")]
  | CNow | CRandInt _ => []
  end.

Definition allowed (role : list Rule) (c : Call) : bool := forallb (grants role) (needs c).

Definition is_exec (c : Call) : bool := match c with CExec _ => true | _ => false end.

(** ** Lemmas *)

(** Two roles whose permissions include each other grant the same. *)
Lemma grants_equiv r1 r2 :
  bool_decide (r1 ≫= permissions ⊆ r2 ≫= permissions) = true ->
  bool_decide (r2 ≫= permissions ⊆ r1 ≫= permissions) = true ->
  forall p, grants r1 p = grants r2 p.
Proof.
  intros H1%bool_decide_eq_true_1 H2%bool_decide_eq_true_1 p. unfold grants. apply bool_decide_ext. split; [apply H1|apply H2].
Qed.

(** The generated role is the one the markers ask for. *)
Lemma manager_role_generated p : grants manager_role p = grants markers p.
Proof. apply grants_equiv; vm_compute; reflexivity. Qed.

(** A property of the calls in a profile that depends on verb and kind only. *)
Ltac by_profile :=
  let Hx := fresh in
  intros Hx;
  match goal with c : controller, x : Call |- _ =>
    destruct c, x; try discriminate Hx; try done;
    match goal with k : Kind |- _ => destruct k; try discriminate Hx; vm_compute; reflexivity | |- _ => vm_compute; reflexivity end
  end.

Lemma chart_allows c x : c <> PostgresPoolerReconciler -> uses c x = true -> allowed chart_role x = true.
Proof. intros Hc. by_profile. Qed.

Lemma manager_allows c x : uses c x = true -> allowed manager_role x = negb (is_exec x).
Proof. by_profile. Qed.

Lemma watches_granted c k p :
  watched c k -> p ∈ watch_needs k ->
  grants manager_role p = true /\ (c <> PostgresPoolerReconciler -> grants chart_role p = true).
Proof.
  intros Hk Hp. split.
  - assert (allowed manager_role (CGet k (nn "" "")) = true) as Ha by (destruct k; vm_compute; reflexivity).
    unfold allowed in Ha. rewrite forallb_forall in Ha. apply Ha.
    apply list_elem_of_In. unfold needs. destruct (resource k). by right.
  - intros Hc. assert (k <> KDeployment) as Hd by (intros ->; revert Hk; destruct c; [unwatched|unwatched|unwatched|done]).
    assert (allowed chart_role (CGet k (nn "" "")) = true) as Ha by (destruct k; try done; vm_compute; reflexivity).
    unfold allowed in Ha. rewrite forallb_forall in Ha. apply Ha.
    apply list_elem_of_In. unfold needs. destruct (resource k). by right.
Qed.

(** C15: the role of the operator covers its calls, but for one.  Whatever the API server
    answers, every call a reconcile of the three controllers of the chart's operator makes,
    and every watch they set up, is granted by the chart's role.  The role generated from
    the markers grants the same permissions as the markers, and every call of all four
    controllers with one exception: the remote command of the user controller is never
    granted, since no marker asks for [pods/exec]. *)
Theorem calls_permitted (W : Type) (R : Runtime W) (T : UnicodeTables) (c : controller) (req : NamespacedName) (w : W) :
  (forall p, grants manager_role p = grants markers p) /\
  Forall (fun x => allowed manager_role x = negb (is_exec x)) (calls_of R T c req w) /\
  (c <> PostgresPoolerReconciler -> Forall (fun x => allowed chart_role x = true) (calls_of R T c req w)) /\
  (forall k p, watched c k -> p ∈ watch_needs k ->
     grants manager_role p = true /\ (c <> PostgresPoolerReconciler -> grants chart_role p = true)).
Proof.
  pose proof (calls_of_uses R T c req w) as Hu. split_and!.
  - apply manager_role_generated.
  - eapply Forall_impl; [exact Hu|]. intros x. apply manager_allows.
  - intros Hc. eapply Forall_impl; [exact Hu|]. intros x. by apply chart_allows.
  - intros k p. apply watches_granted.
Qed.

(** ** The user controller under the generated role *)

(** A status update that reports a user as applied. *)
Definition applies (c : Call) : bool :=
  match c with
  | CStatusUpdate KUser u => ust_Applied (pu_Status u)
  | _ => false
  end.

(** A remote command that never succeeds, and what is done with its outcome. *)
Lemma bounded_refused {W A B} `{Runtime W} P x (g : ExecResult -> A) (f : A -> M W B) :
  (forall w, (rt_Exec x w).1 <> ExecOk) -> P (CExec x) -> (forall r, r <> ExecOk -> bounded P (f (g r))) ->
  bounded P (bind (bind (rt_Exec x) (fun r => ret (g r))) f).
Proof.
  intros Hx HP Hf I Hc w Hw. unfold bind, ret. pose proof (Hc (CExec x) w HP Hw) as H1. cbn in H1.
  specialize (Hx w). destruct (rt_Exec x w) as [r w1]. by apply (Hf r Hx I Hc).
Qed.

Lemma refused_user_bounded {W} `{Runtime W} T req :
  (forall x w, (rt_Exec x w).1 <> ExecOk) ->
  bounded (W:=W) (fun c => applies c = false) (User.Reconcile T true req).
Proof.
  intros Hx. unfold User.Reconcile, User.resolve_password. cbn zeta. bounded_tac;
    unfold User.apply_user, User.execSQL; cbn [negb];
    (apply bounded_refused; [apply Hx|exact eq_refl|]; intros [] Hr; [| | |done]; bounded_tac).
Qed.

(** An API server that enforces a role answers no refused remote command with success. *)
Definition enforces {W} `{Runtime W} (role : list Rule) : Prop :=
  forall x w, allowed role (CExec x) = false -> (rt_Exec x w).1 <> ExecOk.

(** Under an API server that enforces the generated role, no reconcile ever reports a user
    as applied. *)
Theorem generated_role_blocks_users (W : Type) (R : Runtime W) (T : UnicodeTables) (req : NamespacedName) (w : W) :
  enforces manager_role ->
  Forall (fun x => applies x = false) (calls_of R T PostgresUserReconciler req w).
Proof.
  intros He.
  assert (Hx : forall x w, (rt_Exec (Runtime := recording R) x w).1 <> ExecOk).
  { intros x [w1 tr]. cbn. unfold recorded. cbn. specialize (He x w1 eq_refl). by destruct (rt_Exec x w1). }
  apply (refused_user_bounded (H := recording R) T req Hx (fun w => Forall (fun x => applies x = false) w.2)); [|constructor].
  intros x w' Ha Hw. rewrite perform_recording. cbn. apply Forall_app. split; [done|]. by constructor.
Qed.

(** A runtime behind an API server that enforces a role on remote commands. *)
Definition enforcing {W} (role : list Rule) (R : Runtime W) : Runtime W := {|
  rt_Get := rt_Get; rt_Create := rt_Create; rt_Update := rt_Update; rt_StatusUpdate := rt_StatusUpdate;
  rt_Now := rt_Now; rt_Event := rt_Event; rt_RandInt := rt_RandInt;
  rt_Exec := fun x w =>
    if allowed role (CExec x) then rt_Exec x w
    else (ExecStreamError (ErrStatus Forbidden "pods/exec is forbidden") "", w);
  rt_SetControllerReference := rt_SetControllerReference;
  rt_AddFinalizer := rt_AddFinalizer; rt_RemoveFinalizer := rt_RemoveFinalizer;
  rt_ContainsFinalizer := rt_ContainsFinalizer;
|}.

Lemma enforcing_enforces {W} role (R : Runtime W) : enforces (H := enforcing role R) role.
Proof. intros x w Hx. unfold rt_Exec, enforcing. by rewrite Hx. Qed.

Definition user_calls (role : list Rule) : list Call :=
  calls_of (enforcing role fake_runtime) ascii_tables PostgresUserReconciler User.sample_req User.sample_world.

(** The same user of the same running cluster: a command is tried under both roles, and the
    user is applied under the chart's role only. *)
Lemma generated_role_blocks_users_witness :
  existsb is_exec (user_calls manager_role) = true /\
  Forall (fun x => applies x = false) (user_calls manager_role) /\
  existsb is_exec (user_calls chart_role) = true /\
  existsb applies (user_calls chart_role) = true.
Proof.
  split_and!; try (vm_compute; reflexivity).
  apply (generated_role_blocks_users World (enforcing manager_role fake_runtime)). apply enforcing_enforces.
Defined.

Lemma calls_permitted_witness :
  forallb (allowed chart_role) (user_calls chart_role) = true /\
  PostgresUserReconciler <> PostgresPoolerReconciler /\
  Forall (fun x => allowed chart_role x = true) (user_calls chart_role).
Proof.
  split; [vm_compute; reflexivity|]. split; [discriminate|].
  by apply (calls_permitted World (enforcing chart_role fake_runtime) ascii_tables PostgresUserReconciler User.sample_req User.sample_world).
Defined.

End Rbac.
