(* ===== verification/Interleaving.v ===== *)
(** * Reconciles that run at the same time

    The controllers of the manager run concurrently, and other parties use the API server
    while they do: what a reconcile has read may have changed before it writes.
    [interleaved] is a runtime in which any sequence of actions of others happens between
    the calls of a reconcile, one before each call; a call of another reconcile is such an
    action.  The reconcilers run on it unchanged. *)

From Stdlib Require Import ZArith Lia List Bool Sorted.
From stdpp Require Import base list strings gmap.
From S2P Require Import Prelude GoStrings K8s Api Runtime FakeRuntime PgConfig PgResources ClusterController BackupController Manager Calls.

Local Open Scope athos_scope.
Import Manager.Manager Calls.Calls.

Module Interleaving.

(** The world, what others will do, one action before each call, and the worlds there have
    been, the latest first. *)
Record Shared (W : Type) := { now : W; others : list (W -> W); past : list W }.
Arguments now {W} _.
Arguments others {W} _.
Arguments past {W} _.

Definition start {W} (w : W) (fs : list (W -> W)) : Shared W := {| now := w; others := fs; past := [] |}.

(** The worlds from the latest to the first. *)
Definition history {W} (s : Shared W) : list W := now s :: past s.

(** The next action of others. *)
Definition interfered {W} (s : Shared W) : W := match others s with [] => now s | f :: _ => f (now s) end.

Definition after_others {W A} (m : M W A) : M (Shared W) A :=
  fun s => let '(a, w) := m (interfered s) in
           (a, {| now := w; others := tail (others s); past := interfered s :: history s |}).

Definition interleaved {W} (R : Runtime W) : Runtime (Shared W) := {|
  rt_Get k n := after_others (rt_Get k n);
  rt_Create k o := after_others (rt_Create k o);
  rt_Update k o := after_others (rt_Update k o);
  rt_StatusUpdate k o := after_others (rt_StatusUpdate k o);
  rt_Now := after_others rt_Now;
  rt_Event e := after_others (rt_Event e);
  rt_RandInt b := after_others (rt_RandInt b);
  rt_Exec x := after_others (rt_Exec x);
  rt_SetControllerReference := rt_SetControllerReference;
  rt_AddFinalizer := rt_AddFinalizer;
  rt_RemoveFinalizer := rt_RemoveFinalizer;
  rt_ContainsFinalizer := rt_ContainsFinalizer;
|}.

Lemma perform_interleaved {W} (R : Runtime W) c (s : Shared W) :
  perform (H := interleaved R) c s =
  {| now := perform c (interfered s); others := tail (others s); past := interfered s :: history s |}.
Proof. destruct c; cbn; unfold after_others; by case_match. Qed.

Section Protection.
Context {W : Type} {R : Runtime W} {L : RuntimeLaws W}.

(** What the operator promises about an object that exists: a Secret, a Job and a
    ServiceAccount stay as they are, a user and a backup stay with their spec and metadata,
    and Deployments neither change nor appear. *)
Definition protected (k : Kind) (n : NamespacedName) (w w' : W) : Prop :=
  match k with
  | KSecret | KJob | KServiceAccount => forall o, stored w k n = Some o -> stored w' k n = Some o
  | KUser | KBackup => forall o, stored w k n = Some o -> exists o', stored w' k n = Some o' /\ kept k o o'
  | KDeployment => stored w' k n = stored w k n
  | _ => True
  end.

Lemma protected_same k n w w' : stored w' k n = stored w k n -> protected k n w w'.
Proof. intros E. unfold protected. destruct k; try done; intros o Ho; rewrite E; try done; exists o; split; try done; apply kept_refl. Qed.

Lemma protected_trans k n w1 w2 w3 : protected k n w1 w2 -> protected k n w2 w3 -> protected k n w1 w3.
Proof.
  unfold protected. intros H1 H2. destruct k; try done; eauto; try (by rewrite H2);
    intros o Ho; destruct (H1 o Ho) as (o1 & Ho1 & K1); destruct (H2 o1 Ho1) as (o2 & Ho2 & K2);
    exists o2; (split; [done|by eapply kept_trans]).
Qed.

(** The kinds of which existing objects are only read. *)
Definition frozen (k : Kind) : bool := bool_decide (k ∈ [KSecret; KJob; KServiceAccount; KUser; KBackup; KDeployment]).

(** No call of a registered controller breaks a promise. *)
Lemma call_protects c x k n w :
  c <> PostgresPoolerReconciler -> uses c x = true -> protected k n w (perform x w).
Proof.
  intros Hc Hx. destruct x as [k' n'|k' o|k' o|k' o| |e|b|e]; cbn [perform].
  - apply protected_same. eapply get_frame. apply surjective_pairing.
  - destruct (stored w k n) as [o0|] eqn:E.
    + apply protected_same. eapply create_frame; [apply surjective_pairing|]. right; right. by rewrite E.
    + destruct (decide (k = KDeployment)) as [->|]; [|destruct k; unfold protected; try done; congruence].
      apply protected_same. eapply create_frame; [apply surjective_pairing|]. left.
      intros <-. destruct c; done.
  - destruct (decide (frozen k = true)) as [Hf|Hf]; [|unfold protected; destruct k; done].
    apply protected_same. eapply update_frame; [apply surjective_pairing|]. left. intros ->.
    destruct c, k'; done.
  - destruct (decide (k = KUser \/ k = KBackup)) as [Hk|Hk].
    + assert (keeps k n (rt_StatusUpdate k' o)) as Hs by apply keeps_StatusUpdate.
      destruct Hk as [-> | ->]; intros o0 Ho0; by eapply Hs; [apply surjective_pairing|].
    + destruct (decide (frozen k = true)) as [Hf|Hf]; [|unfold protected; destruct k; done].
      apply protected_same. eapply status_frame; [apply surjective_pairing|]. left. intros ->.
      destruct c, k'; try done; naive_solver.
  - apply protected_same. eapply now_frame. apply surjective_pairing.
  - apply protected_same. eapply event_frame. apply surjective_pairing.
  - apply protected_same. eapply rand_frame. apply surjective_pairing.
  - apply protected_same. eapply exec_frame. apply surjective_pairing.
Qed.

(** An action of others that concerns an object only as the operator does: a call of
    another reconcile, or anything that keeps the promise about it. *)
Definition harmless (k : Kind) (n : NamespacedName) (f : W -> W) : Prop :=
  (exists c x, c <> PostgresPoolerReconciler /\ uses c x = true /\ f = perform x) \/
  (forall w, protected k n w (f w)).

Lemma harmless_protects k n f w : harmless k n f -> protected k n w (f w).
Proof. intros [(c & x & Hc & Hx & ->)|Hf]; [by eapply call_protects|apply Hf]. Qed.

(** The worlds so far keep the promise, from each to every later one. *)
Definition orderly (k : Kind) (n : NamespacedName) (l : list W) : Prop :=
  StronglySorted (fun later earlier => protected k n earlier later) l.

Lemma orderly_step k n v w l : orderly k n (w :: l) -> protected k n w v -> orderly k n (v :: w :: l).
Proof.
  intros Ho Hv. constructor; [done|]. apply StronglySorted_inv in Ho as [_ Hl].
  constructor; [done|]. eapply List.Forall_impl; [|exact Hl]. intros x Hx. exact (protected_trans k n x w v Hx Hv).
Qed.

End Protection.

(** C6: concurrent reconciles keep the operator's promises.  However the calls of other
    reconciles, of any of the registered controllers and for any requests, and other
    activity come between the calls of a reconcile, whatever it has read and whatever
    fails: from the moment it exists a Secret, Job or ServiceAccount is not modified, a user
    or a backup is neither removed nor changed in spec or metadata, and no Deployment
    changes or appears, as long as the other activity itself leaves that object so. *)
Theorem interleaved_reconcile_protects (W : Type) (R : Runtime W) (L : RuntimeLaws W) (T : UnicodeTables)
  (c : controller) (req : NamespacedName) (w : W) (fs : list (W -> W)) (r : Result * option error) (s : Shared W)
  (k : Kind) (n : NamespacedName) :
  c <> PostgresPoolerReconciler -> Forall (harmless k n) fs ->
  dispatch (H := interleaved R) T c req (start w fs) = (r, s) ->
  orderly k n (history s) /\ last (history s) = Some w.
Proof.
  intros Hc Ho Hd.
  pose (I := fun s : Shared W => (orderly k n (history s) /\ last (history s) = Some w) /\ Forall (harmless k n) (others s)).
  assert (I s) as [? _]; [|done].
  replace s with (dispatch (H := interleaved R) T c req (start w fs)).2 by (by rewrite Hd).
  apply (dispatch_bounded (H := interleaved R) T c req I).
  - intros x v Hx [[Hv Hl] Hfs]. rewrite perform_interleaved. split_and!; cbn.
    + apply orderly_step; [apply orderly_step; [exact Hv|]|by eapply call_protects].
      unfold interfered. destruct (others v) as [|f l]; [by apply protected_same|].
      apply Forall_cons in Hfs as [Hf _]. by apply harmless_protects.
    + done.
    + destruct (others v); [done|]. by apply Forall_cons in Hfs as [_ ?].
  - split; [|done]. split; [|done]. constructor; constructor.
Qed.

(** Another reconcile of the same cluster stores the credentials after this one has found
    none and before it stores its own. *)
Definition rival_secret : Secret :=
  Resources.BuildCredentialSecret Cluster.sample_active "the-password-of-the-other-reconcile".

Definition race : list (World -> World) := repeat (fun w => w) 7 ++ [perform (CCreate KSecret rival_secret)].

Definition after_race : Shared World :=
  (dispatch (H := interleaved fake_runtime) ascii_tables PostgresClusterReconciler Cluster.sample_req
     (start Cluster.sample_world race)).2.

Definition secret_of (w : World) : option (option string) :=
  (fun s => sec_Data s !! "password") <$> stored w KSecret (nn "db-credentials" "prod").

Lemma interleaved_reconcile_protects_witness :
  secret_of Cluster.sample_world = None /\
  secret_of (now after_race) = Some (Some "the-password-of-the-other-reconcile") /\
  orderly KSecret (nn "db-credentials" "prod") (history after_race).
Proof.
  split; [vm_compute; reflexivity|]. split; [vm_compute; reflexivity|].
  apply (interleaved_reconcile_protects World _ _ ascii_tables PostgresClusterReconciler Cluster.sample_req
           Cluster.sample_world race
           (dispatch (H := interleaved fake_runtime) ascii_tables PostgresClusterReconciler Cluster.sample_req
              (start Cluster.sample_world race)).1).
  - discriminate.
  - unfold race. cbn [repeat app]. repeat (apply Forall_cons; split); try apply Forall_nil_2.
    all: try (right; intros w0; by apply protected_same).
    left. exists PostgresClusterReconciler, (CCreate KSecret rival_secret). by split_and!.
  - apply surjective_pairing.
Defined.

End Interleaving.
