(* ===== verification/E2e.v ===== *)
(** * test/utils: helpers of the end-to-end tests

    The helpers that run external programs.  The host they run on is a record: its working
    directory, the directories that exist, its environment, an oracle for what a program
    prints and whether it succeeds, the log and the programs run so far. *)

From Stdlib Require Import ZArith Lia List Bool Ascii.
From stdpp Require Import base list strings gmap.
From S2P Require Import Prelude GoStrings.

Local Open Scope athos_scope.

Module E2e.

(** The fields of [exec.Cmd] the helpers set. *)
Record Cmd := { Args : list string; Dir : string; Env : list string }.

(** [exec.Command(name, args...)]. *)
Definition Command (args : list string) : Cmd := {| Args := args; Dir := ""; Env := [] |}.

Record Host := {
  wd : result string;                          (** [os.Getwd] *)
  chdir : string -> option error;              (** [os.Chdir] *)
  environ : gmap string string;
  program : Cmd -> string * option error;      (** combined output and error *)
  log : list string;
  ran : list Cmd;
}.

Definition with_wd (d : string) (h : Host) : Host :=
  {| wd := Ok d; chdir := chdir h; environ := environ h; program := program h; log := log h; ran := ran h |}.
Definition logged (s : string) (h : Host) : Host :=
  {| wd := wd h; chdir := chdir h; environ := environ h; program := program h; log := log h ++ [s]; ran := ran h |}.
Definition started (c : Cmd) (h : Host) : Host :=
  {| wd := wd h; chdir := chdir h; environ := environ h; program := program h; log := log h; ran := ran h ++ [c] |}.

(** [os.Environ]: the variables as assignments. *)
Definition Environ (h : Host) : list string := (fun p => p.1 +:+ "=" +:+ p.2) <$> map_to_list (environ h).

(** [strings.Replace(s, p, "", -1)]; [k] bytes of an occurrence are left to skip. *)
Fixpoint remove_from (p : string) (k : nat) (s : string) : string :=
  match s with
  | EmptyString => EmptyString
  | String c s' =>
      match k with
      | S k' => remove_from p k' s'
      | O => if has_prefix p s then remove_from p (pred (String.length p)) s' else String c (remove_from p 0 s')
      end
  end.

Definition e2e_dir : string := "/test/e2e".

Definition GetProjectDir (h : Host) : string * option error :=
  match wd h with
  | Err e => ("", Some e)
  | Ok d => (remove_from e2e_dir 0 d, None)
  end.

Definition Run (cmd : Cmd) : M Host (string * option error) := fun h =>
  let '(dir, _) := GetProjectDir h in
  let h1 := match chdir h dir with
            | None => with_wd dir h
            | Some e => logged ("chdir dir: " +:+ Error e +:+ newline) h
            end in
  let cmd := {| Args := Args cmd; Dir := dir; Env := Environ h ++ ["GO111MODULE=on"] |} in
  let command := strings_join " " (Args cmd) in
  let h2 := logged ("running: " +:+ command +:+ newline) h1 in
  let '(output, err) := program h2 cmd in
  ((output, match err with
            | Some e => Some (ErrNew (command +:+ " failed with error: (" +:+ Error e +:+ ") " +:+ output))
            | None => None
            end), started cmd h2).

Definition warnError (e : error) : M Host unit := fun h => (tt, logged ("warning: " +:+ Error e +:+ newline) h).

Definition prometheusOperatorVersion : string := "v0.72.0".
Definition prometheusOperatorURL (v : string) : string :=
  "https://github.com/prometheus-operator/prometheus-operator/releases/download/" +:+ v +:+ "/bundle.yaml".
Definition certmanagerVersion : string := "v1.14.4".
Definition certmanagerURLTmpl (v : string) : string :=
  "https://github.com/jetstack/cert-manager/releases/download/" +:+ v +:+ "/cert-manager.yaml".

Definition run_err (cmd : Cmd) : M Host (option error) := let! r := Run cmd in ret r.2.

(** [if _, err := Run(cmd); err != nil { warnError(err) }]. *)
Definition run_warn (cmd : Cmd) : M Host unit :=
  let! e := run_err cmd in match e with Some e => warnError e | None => ret tt end.

Definition InstallPrometheusOperator : M Host (option error) :=
  run_err (Command ["kubectl"; "create"; "-f"; prometheusOperatorURL prometheusOperatorVersion]).

Definition UninstallPrometheusOperator : M Host unit :=
  run_warn (Command ["kubectl"; "delete"; "-f"; prometheusOperatorURL prometheusOperatorVersion]).

Definition UninstallCertManager : M Host unit :=
  run_warn (Command ["kubectl"; "delete"; "-f"; certmanagerURLTmpl certmanagerVersion]).

Definition apply_cmd : Cmd := Command ["kubectl"; "apply"; "-f"; certmanagerURLTmpl certmanagerVersion].
Definition wait_cmd : Cmd :=
  Command ["kubectl"; "wait"; "deployment.apps/cert-manager-webhook"; "--for"; "condition=Available";
           "--namespace"; "cert-manager"; "--timeout"; "5m"].

Definition InstallCertManager : M Host (option error) := try! run_err apply_cmd in run_err wait_cmd.

Definition LoadImageToKindClusterWithName (name : string) : M Host (option error) := fun h =>
  let cluster := default "kind" (environ h !! "KIND_CLUSTER") in
  run_err (Command ["kind"; "load"; "docker-image"; name; "--name"; cluster]) h.

Definition GetNonEmptyLines (output : string) : list string :=
  filter (fun e => e <> "") (split_byte "010"%char output).

(** ** Lemmas *)

(** Read the lines of an output, whatever empty lines it has. *)
Lemma GetNonEmptyLines_join l :
  Forall (fun s => sall (neqc "010"%char) s = true) l -> l <> [] ->
  GetNonEmptyLines (strings_join newline l) = filter (fun e => e <> "") l.
Proof. intros Hl Hne. unfold GetNonEmptyLines. by rewrite split_byte_join. Qed.

(** No proper suffix of the marker starts it: an occurrence that begins in a prefix ends
    there. *)
Lemma marker_inside a : has_prefix e2e_dir a = false -> a <> "" -> has_prefix e2e_dir (a +:+ e2e_dir) = false.
Proof.
  intros Hn Ha. destruct (has_prefix e2e_dir (a +:+ e2e_dir)) eqn:Hp; [|done].
  destruct (has_prefix_app _ _ _ Hp) as [?|(p' & E & Hp')]; [congruence|]. exfalso. clear Hp. revert Hn E Hp'. unfold e2e_dir.
  do 10 (destruct a as [|? a];
         [try done; rewrite ?app_cons_l, ?app_nil_l_s; intros Hn E Hp'; simplify_eq;
          first [discriminate Hp' | discriminate Hn]|]).
  intros _ E. by rewrite !app_cons_l in E.
Qed.

Fixpoint no_marker (s : string) : bool :=
  match s with
  | EmptyString => true
  | String _ s' => negb (has_prefix e2e_dir s) && no_marker s'
  end.

Lemma remove_none s : no_marker s = true -> remove_from e2e_dir 0 s = s.
Proof.
  induction s as [|c s IH]; [done|]. cbn [no_marker remove_from]. intros [Hn Hs]%andb_prop.
  apply negb_true_iff in Hn. by rewrite Hn, IH.
Qed.

Lemma remove_last s : no_marker s = true -> remove_from e2e_dir 0 (s +:+ e2e_dir) = s.
Proof.
  induction s as [|c s IH]; [done|]. rewrite app_cons_l. cbn [no_marker remove_from]. intros [Hn Hs]%andb_prop.
  apply negb_true_iff in Hn. rewrite <- app_cons_l, marker_inside by done. by rewrite IH.
Qed.

(** ** Theorems *)

(** A host in the project, or in the directory of its tests. *)
Definition in_project (root : string) (h : Host) : Prop :=
  no_marker root = true /\ chdir h root = None /\ (wd h = Ok root \/ wd h = Ok (root +:+ e2e_dir)).

(** The command as it is run from the root of the project. *)
Definition at_root (root : string) (h : Host) (cmd : Cmd) : Cmd :=
  {| Args := Args cmd; Dir := root; Env := Environ h ++ ["GO111MODULE=on"] |}.

Lemma Run_spec root cmd h r h' :
  in_project root h -> Run cmd h = (r, h') ->
  ran h' = ran h ++ [at_root root h cmd] /\ r.1 = (program h (at_root root h cmd)).1 /\
  (r.2 = None <-> (program h (at_root root h cmd)).2 = None) /\
  in_project root h' /\ wd h' = Ok root /\ program h' = program h /\ environ h' = environ h.
Proof.
  intros (Hm & Hc & Hw) Hr. unfold Run in Hr.
  assert (GetProjectDir h = (root, None)) as E.
  { unfold GetProjectDir. destruct Hw as [-> | ->]; f_equal; [by apply remove_none|by apply remove_last]. }
  rewrite E, Hc in Hr. cbn in Hr. fold (at_root root h cmd) in Hr.
  destruct (program h (at_root root h cmd)) as [o e] eqn:Ep. injection Hr as <- <-. cbn.
  split_and!; try done; [by destruct e|]. split_and!; try done. by left.
Qed.

(** Every program runs in the root of the project.  Started in the root or in the directory
    of the tests, [Run] runs exactly the given arguments in the root, in the environment of
    the host with modules on, returns its output, fails exactly when the program does, and
    leaves the host in the root, from where the next one starts. *)
Theorem Run_in_project (root : string) (cmd : Cmd) (h h' : Host) (output : string) (err : option error) :
  in_project root h -> Run cmd h = ((output, err), h') ->
  ran h' = ran h ++ [at_root root h cmd] /\ output = (program h (at_root root h cmd)).1 /\
  (err = None <-> (program h (at_root root h cmd)).2 = None) /\ in_project root h' /\ wd h' = Ok root.
Proof. intros Hp Hr. destruct (Run_spec _ _ _ _ _ Hp Hr) as (? & ? & ? & ? & ? & _). by split_and!. Qed.

(** cert-manager is installed exactly when both programs succeed: the wait runs only after a
    successful apply, and both in the root of the project. *)
Theorem InstallCertManager_complete (root : string) (h h' : Host) (err : option error) :
  in_project root h -> InstallCertManager h = (err, h') ->
  match (program h (at_root root h apply_cmd)).2 with
  | Some _ => ran h' = ran h ++ [at_root root h apply_cmd] /\ err <> None
  | None => ran h' = ran h ++ [at_root root h apply_cmd; at_root root h wait_cmd] /\
       (err = None <-> (program h (at_root root h wait_cmd)).2 = None)
  end.
Proof.
  intros Hp Hr. unfold InstallCertManager, mtry, run_err in Hr. mstep Hr. mstep E. injection E as <- <-.
  destruct (Run_spec root _ _ _ _ Hp E0) as (R1 & _ & S1 & P1 & _ & G1 & V1).
  destruct (program h (at_root root h apply_cmd)).2 as [e|]; destruct a0 as [o1 [e1|]]; cbn in *.
  - injection Hr as <- <-. by split.
  - discriminate (proj1 S1 eq_refl).
  - discriminate (proj2 S1 eq_refl).
  - mstep Hr. injection Hr as <- <-. destruct (Run_spec root _ _ _ _ P1 E) as (R2 & _ & S2 & _).
    unfold at_root, Environ in *. rewrite V1, G1 in *. by rewrite R2, R1, <- app_assoc.
Qed.

(** The lines of an output are read back.  For lines without line breaks, however many empty
    lines the output has in between, exactly the other lines are returned, in order. *)
Theorem GetNonEmptyLines_reads (l : list string) :
  Forall (fun s => sall (neqc "010"%char) s = true) l -> l <> [] ->
  GetNonEmptyLines (strings_join newline l) = filter (fun e => e <> "") l.
Proof. apply GetNonEmptyLines_join. Qed.

Definition sample_host : Host :=
  {| wd := Ok "/src/athos/test/e2e"; chdir := fun _ => None; environ := {["HOME" := "/root"]};
     program := fun c => ("ok", if bool_decide ("wait" ∈ Args c) then Some (ErrNew "exit status 1") else None);
     log := []; ran := [] |}.

Lemma InstallCertManager_complete_witness :
  ran (InstallCertManager sample_host).2 =
  [at_root "/src/athos" sample_host apply_cmd; at_root "/src/athos" sample_host wait_cmd] /\
  ((InstallCertManager sample_host).1 = None <-> Some (ErrNew "exit status 1") = None).
Proof.
  apply (InstallCertManager_complete "/src/athos" sample_host (InstallCertManager sample_host).2
           (InstallCertManager sample_host).1).
  - split_and!; [vm_compute; reflexivity|reflexivity|right; reflexivity].
  - apply surjective_pairing.
Defined.

End E2e.
