(* ===== verification/OwnWrites.v ===== *)
(** * The objects a controller writes

    [Calls] bounds the verbs and kinds of the calls of a reconcile; here their objects.  All
    that is assumed of the runtime is that an answer carries the name that was asked for
    ([KeyedRuntime]), so the bound also holds when others act between the calls. *)

From Stdlib Require Import ZArith Lia List Bool.
From stdpp Require Import base list strings gmap.
From S2P Require Import Prelude GoStrings K8s Api Runtime FakeRuntime Ensure PgConfig PgStatus PgResources Password ClusterController UserController BackupController Manager Calls Interleaving.

Local Open Scope athos_scope.
Import Manager.Manager Calls.Calls Interleaving.Interleaving.

Module OwnWrites.

(** Answers carry the name that was asked for. *)
Class KeyedRuntime (W : Type) `{Runtime W} := {
  get_keyed : forall k n w o w', rt_Get k n w = (Ok o, w') -> key o = n;
  status_keyed : forall k o w o' w', rt_StatusUpdate k o w = (Ok o', w') -> key o' = key o;
  setref_keyed : forall k ref ns o o', rt_SetControllerReference k ref ns o = Ok o' -> key o' = key o;
}.

#[export] Instance laws_keyed {W} {R : Runtime W} {L : RuntimeLaws W} : KeyedRuntime W.
Proof.
  split.
  - intros k n w o w' E%get_ok. by eapply stored_key.
  - intros k o w o' w' E%status_ok. destruct E as (_ & _ & E & _). by eapply stored_key.
  - intros. by eapply setref_key.
Qed.

Lemma interleaved_keyed {W} (R : Runtime W) : KeyedRuntime W -> @KeyedRuntime (Shared W) (interleaved R).
Proof.
  intros K. split; [| |exact (setref_keyed (W := W))].
  - intros k n s o s'. cbn. unfold after_others. destruct (rt_Get k n (interfered s)) as [r w] eqn:E.
    intros [= -> _]. by eapply get_keyed.
  - intros k o s o' s'. cbn. unfold after_others. destruct (rt_StatusUpdate k o (interfered s)) as [r w] eqn:E.
    intros [= -> _]. by eapply status_keyed.
Qed.

(** The objects a reconcile for [req] may write. *)
Definition touches (c : controller) (req : NamespacedName) (k : Kind) (n : NamespacedName) : Prop :=
  match c with
  | PostgresClusterReconciler => Cluster.owned req k n
  | PostgresUserReconciler => k = KUser /\ n = req
  | PostgresBackupReconciler =>
      (k = KBackup /\ n = req) \/ (k = KJob /\ n = nn (nn_Name req +:+ "-backup") (nn_Namespace req))
  | PostgresPoolerReconciler => True
  end.

(** The calls that write only such objects. *)
Definition within (c : controller) (req : NamespacedName) (call : Call) : Prop :=
  match call with
  | CCreate k o | CUpdate k o | CStatusUpdate k o => touches c req k (key o)
  | _ => True
  end.

Section Named.
Context {W : Type} `{KeyedRuntime W}.

Lemma bounded_bind_Get {B} P k n (f : result (obj k) -> M W B) :
  P (CGet k n) -> (forall r, (forall o, r = Ok o -> key o = n) -> bounded P (f r)) -> bounded P (bind (rt_Get k n) f).
Proof.
  intros HP Hf I Hc w Hw. unfold bind. pose proof (Hc (CGet k n) w HP Hw) as H1. cbn in H1.
  destruct (rt_Get k n w) as [r w1] eqn:E. apply (Hf r); [|done|done]. intros o ->. by eapply get_keyed.
Qed.

(** A bound that knows what the first part can return. *)
Lemma bounded_bind_post {A B} P (Q : A -> Prop) (m : M W A) (f : A -> M W B) :
  (forall w a w', m w = (a, w') -> Q a) -> bounded P m -> (forall a, Q a -> bounded P (f a)) -> bounded P (bind m f).
Proof.
  intros HQ Hm Hf I Hc w Hw. unfold bind. pose proof (Hm I Hc w Hw) as H1.
  destruct (m w) as [a w1] eqn:E. by apply (Hf a (HQ _ _ _ E) I Hc).
Qed.

Section Cluster.
Context (rec : bool) (req : NamespacedName).
Let P : Call -> Prop := within PostgresClusterReconciler req.

Lemma ensure_named ref ns wref wget k desired created before merge :
  Cluster.owned req k (key desired) -> (forall e, meta k (merge e) = meta k e) ->
  bounded P created -> (forall o, bounded P (before o)) ->
  bounded (W:=W) P (ensure ref ns wref wget k desired created before merge).
Proof.
  intros Ho Hm Hcr Hb. unfold ensure, err_of.
  destruct (rt_SetControllerReference _ _ _ _) as [d|e] eqn:Er; [|apply bounded_ret].
  apply setref_keyed in Er. apply bounded_bind_Get; [exact Logic.I|]. intros [o|e] Hk.
  - specialize (Hk o eq_refl). bounded_tac; [apply Hb|]. cbn. unfold key in *. by rewrite Hm, Hk, Er.
  - bounded_tac; [|exact Hcr]. cbn. by rewrite Er.
Qed.

Lemma event_named e : bounded (W:=W) P (Cluster.recordEventf rec e).
Proof. unfold Cluster.recordEventf. bounded_tac. Qed.

Section Fetched.
Context (c : PostgresCluster) (Hc : key_of (pc_Meta c) = req).

Lemma updateStatus_named : bounded (W:=W) P (Cluster.updateStatus c).
Proof using All.
  assert (Hs : forall z, bounded (W:=W) P (let! c1 := Cluster.classify z (Cluster.set_ready z c) in
                                           err_of (rt_StatusUpdate KCluster (Cluster.set_identity c1)))).
  { intros z. apply (bounded_bind_post _ (fun c1 => key_of (pc_Meta c1) = req)).
    - intros w c1 w' (Hm & _)%Cluster.classify_inv. by rewrite Hm.
    - unfold Cluster.classify. bounded_tac.
    - intros c1 H1. unfold err_of. bounded_tac. exact H1. }
  unfold Cluster.updateStatus. cbn zeta. apply bounded_bind; [by apply bounded_Get|].
  intros [o|e]; [apply Hs|]. destruct (IsNotFound e); [apply (Hs (if 0 <? 0 then 0 else 0)%Z)|apply bounded_ret].
Qed.

Lemma account_named : bounded (W:=W) P (Cluster.reconcileServiceAccount c).
Proof using All.
  unfold Cluster.reconcileServiceAccount, err_of.
  destruct (String.eqb_spec (pcs_ServiceAccountName (pc_Spec c)) "") as [Es|]; cbn [negb]; [|apply bounded_ret].
  destruct (rt_SetControllerReference _ _ _ _) as [d|e] eqn:Er; [|apply bounded_ret].
  apply setref_keyed in Er. bounded_tac. cbn. rewrite Er, <- Hc.
  unfold key, key_of, Resources.BuildServiceAccount, Naming.ServiceAccountName. cbn. by rewrite Es.
Qed.

Lemma credentials_named : bounded (W:=W) P (Cluster.reconcileCredentials rec c).
Proof using All.
  unfold Cluster.reconcileCredentials, Password.Generate.
  apply bounded_bind; [by apply bounded_Get|]. intros [o|e]; [apply bounded_ret|].
  destruct (negb _); [apply bounded_ret|]. apply bounded_bind; [by apply generate_bounded|].
  intros [pw|e']; [|apply bounded_ret].
  destruct (rt_SetControllerReference _ _ _ _) as [d|e'] eqn:Er; [|apply bounded_ret].
  apply setref_keyed in Er. bounded_tac; [|apply event_named]. cbn. by rewrite Er, <- Hc.
Qed.

Lemma services_named l :
  (forall svc, svc ∈ l -> Cluster.owned req KService (key_of (svc_Meta svc))) ->
  bounded (W:=W) P (Cluster.reconcile_service_loop c l).
Proof using All.
  induction l as [|s l IH]; intros HS; cbn [Cluster.reconcile_service_loop]; [apply bounded_ret|].
  apply bounded_mtry; [|apply IH; intros; apply HS; by right].
  apply (ensure_named _ _ _ _ KService); [apply HS; by left|done|apply bounded_ret|intros; apply bounded_ret].
Qed.

Lemma steps_named : Forall (fun s => bounded P s.2) (Cluster.steps (W:=W) rec c).
Proof using All.
  unfold Cluster.steps. rewrite !Forall_cons, Forall_nil. cbn [snd]. split_and!.
  - apply account_named.
  - apply credentials_named.
  - apply (ensure_named _ _ _ _ KConfigMap); [by rewrite <- Hc|done|apply event_named|intros; apply bounded_ret].
  - apply (ensure_named _ _ _ _ KStatefulSet); [by rewrite <- Hc|done|apply event_named|].
    intros. unfold Cluster.scale_event, nothing. repeat first [apply event_named | progress bounded_tac].
  - apply services_named. intros svc. unfold Cluster.services. rewrite !elem_of_cons, elem_of_nil, <- Hc.
    intros [->|[->|[->|[]]]]; cbn; auto.
  - apply (ensure_named _ _ _ _ KPDB); [by rewrite <- Hc|done|apply event_named|intros; apply bounded_ret].
  - apply updateStatus_named.
  - done.
Qed.

Lemma bootstrap_named : bounded (W:=W) P (Cluster.bootstrap c).
Proof using All. unfold Cluster.bootstrap. bounded_tac. exact Hc. Qed.

Lemma bootstrap_post w r w' :
  Cluster.bootstrap c w = (r, w') -> forall c', r = Ok c' -> key_of (pc_Meta c') = req.
Proof using All.
  unfold Cluster.bootstrap. intros Hw c' ->. revert Hw. case_bool_decide; intros Hw; [|by injection Hw as <- <-].
  mstep Hw. apply (status_keyed KCluster) in Hw. unfold key in Hw. cbn in Hw. by rewrite Hw.
Qed.

End Fetched.

Lemma cluster_named : bounded (W:=W) P (Cluster.Reconcile rec req).
Proof.
  unfold Cluster.Reconcile. apply bounded_bind_Get; [exact Logic.I|]. intros [c|e] Hk; [|bounded_tac].
  specialize (Hk c eq_refl). change (key_of (pc_Meta c) = req) in Hk.
  destruct (pcs_Paused _).
  { unfold Cluster.reconcilePaused. bounded_tac; [exact Hk|apply event_named]. }
  destruct (negb _); [bounded_tac; exact Hk|].
  case_bool_decide; [unfold Cluster.reconcileDelete, err_of; bounded_tac; exact Hk|].
  apply (bounded_bind_post _ _ _ _ (bootstrap_post c Hk)); [by apply bootstrap_named|].
  intros [c'|e] Hc'; [|apply bounded_ret]. apply bounded_bind; [|intros []; apply bounded_ret].
  by apply run_steps_bounded, steps_named, Hc'.
Qed.

End Cluster.

Lemma user_named T req : bounded (W:=W) (within PostgresUserReconciler req) (User.Reconcile T true req).
Proof.
  unfold User.Reconcile. apply bounded_bind_Get; [exact Logic.I|]. intros [u|e] Hk; [|bounded_tac].
  specialize (Hk u eq_refl). change (key_of (pu_Meta u) = req) in Hk.
  unfold User.resolve_password, User.apply_user, User.execSQL, err_of. bounded_tac; by split.
Qed.

Lemma sync_named req b cs :
  key_of (pb_Meta b) = req -> bounded (W:=W) (within PostgresBackupReconciler req) (Backup.sync_conditions b cs).
Proof.
  intros Hb. induction cs as [|c cs IH]; cbn [Backup.sync_conditions]; unfold err_of; bounded_tac;
    first [exact IH | by left].
Qed.

Lemma backup_named T req : bounded (W:=W) (within PostgresBackupReconciler req) (Backup.Reconcile T req).
Proof.
  unfold Backup.Reconcile. apply bounded_bind_Get; [exact Logic.I|]. intros [b|e] Hk; [|bounded_tac].
  specialize (Hk b eq_refl). change (key_of (pb_Meta b) = req) in Hk.
  destruct (Backup.terminal _); [apply bounded_ret|]. apply bounded_bind; [by apply bounded_Get|].
  intros [c|e]; [|bounded_tac; by left]. destruct (negb _); [bounded_tac; by left|].
  unfold Backup.drive_job, Backup.createBackupJob, Backup.syncBackupStatus, err_of.
  apply bounded_bind; [by apply bounded_Get|]. intros [j|e]; [by apply sync_named|].
  destruct (IsNotFound e); [|apply bounded_ret].
  destruct (rt_SetControllerReference _ _ _ _) as [d|e'] eqn:Er; [|apply bounded_ret].
  apply setref_keyed in Er. bounded_tac; [|by left]. cbn. rewrite Er, <- Hk. by right.
Qed.

(** Every reconcile of the registered controllers writes only its own objects. *)
Lemma dispatch_named T c req :
  c <> PostgresPoolerReconciler -> bounded (W:=W) (within c req) (dispatch T c req).
Proof. intros Hc. destruct c; [apply cluster_named|apply backup_named|apply user_named|done]. Qed.

End Named.

(** ** Disjointness *)

(** The bytes of a string from the last to the first. *)
Definition backwards (s : string) : list Ascii.ascii := rev (String.list_ascii_of_string s).

Lemma backwards_app a b : backwards (a +:+ b) = backwards b ++ backwards a.
Proof.
  unfold backwards. rewrite <- rev_app_distr. f_equal. induction a as [|x a IH]; [done|].
  rewrite app_cons_l. cbn. by rewrite IH.
Qed.

(** Two names with one of the suffixes of a kind. *)
Lemma suffix_inj a b s ns ns' : nn (a +:+ s) ns = nn (b +:+ s) ns' -> nn a ns = nn b ns'.
Proof. intros [= E ->]. f_equal. by apply app_inv_tail_s in E. Qed.

Lemma service_suffixes a b :
  a +:+ "-pods" <> b +:+ "-primary" /\ a +:+ "-pods" <> b +:+ "-replicas" /\ a +:+ "-primary" <> b +:+ "-replicas".
Proof. split_and!; intros E%(f_equal backwards); rewrite !backwards_app in E; cbn in E; discriminate E. Qed.

Lemma owned_inj req req' k n : Cluster.owned req k n -> Cluster.owned req' k n -> req = req'.
Proof.
  destruct req as [a ns], req' as [b ns']. destruct (service_suffixes a b) as (S1 & S2 & S3), (service_suffixes b a) as (T1 & T2 & T3).
  destruct k; cbn [Cluster.owned nn_Name nn_Namespace]; intros H1 H2; try done;
    try (rewrite H1 in H2; first [exact H2 | by apply suffix_inj in H2]).
  destruct H1 as [H1|[H1|H1]], H2 as [H2|[H2|H2]]; rewrite H1 in H2;
    first [by apply suffix_inj in H2 | exfalso; apply (f_equal nn_Name) in H2; cbn in H2; congruence].
Qed.

(** No object belongs to two reconciles. *)
Lemma touches_disjoint c c' req req' k n :
  c <> PostgresPoolerReconciler -> c' <> PostgresPoolerReconciler ->
  touches c req k n -> touches c' req' k n -> c = c' /\ req = req'.
Proof.
  intros Hc Hc'. destruct c, c'; cbn [touches]; try done.
  - intros H1 H2. split; [done|]. by eapply owned_inj.
  - intros H1 [[-> _]|[-> _]]; done.
  - intros H1 [-> _]; done.
  - intros [[-> _]|[-> _]]; done.
  - intros [[-> ->]|[-> ->]] [[E H2]|[E H2]]; try done.
    split; [done|]. destruct req, req'. by apply suffix_inj in H2.
  - intros [[-> _]|[-> _]] [? _]; done.
  - intros [-> _]; done.
  - intros [-> _] [[? _]|[? _]]; done.
  - intros [_ ->] [_ ->]; done.
Qed.

(** ** Isolation under concurrency *)

Section Isolation.
Context {W : Type} {R : Runtime W} {L : RuntimeLaws W}.

(** A call that stays within its objects leaves the others as they are. *)
Lemma within_leaves c req x k n w :
  within c req x -> ~ touches c req k n -> stored (perform x w) k n = stored w k n.
Proof.
  intros Hx Hn.
  assert (Hne : forall k' (o : obj k'), touches c req k' (key o) -> k <> k' \/ n <> key o).
  { intros k' o Ht. destruct (decide (k = k')) as [<-|]; [|by left]. right. by intros ->. }
  destruct x as [k' n'|k' o|k' o|k' o| |e|b|e]; cbn in *.
  - eapply get_frame, surjective_pairing.
  - eapply create_frame; [apply surjective_pairing|]. destruct (Hne _ _ Hx); auto.
  - eapply update_frame; [apply surjective_pairing|]. destruct (Hne _ _ Hx); auto.
  - eapply status_frame; [apply surjective_pairing|]. destruct (Hne _ _ Hx); auto.
  - eapply now_frame, surjective_pairing.
  - eapply event_frame, surjective_pairing.
  - eapply rand_frame, surjective_pairing.
  - eapply exec_frame, surjective_pairing.
Qed.

(** An action of others that does not change an object: a call of another reconcile that
    does not own it, or anything that leaves it alone. *)
Definition leaves (k : Kind) (n : NamespacedName) (f : W -> W) : Prop :=
  (exists c req x, within c req x /\ ~ touches c req k n /\ f = perform x) \/
  (forall w, stored (f w) k n = stored w k n).

Lemma leaves_stored k n f w : leaves k n f -> stored (f w) k n = stored w k n.
Proof. intros [(c & req & x & Hx & Hn & ->)|Hf]; [by eapply within_leaves|apply Hf]. Qed.

End Isolation.

(** C7: every reconcile writes its own objects only, also under concurrency.  No object
    belongs to two reconciles of the registered controllers for different requests; and
    however other actions come between its calls, an object that does not belong to a
    reconcile is the same in every world of its run, as long as the other actions leave it
    alone, which the calls of reconciles that do not own it do. *)
Theorem interleaved_reconcile_isolated (W : Type) (R : Runtime W) (L : RuntimeLaws W) (T : UnicodeTables)
  (c : controller) (req : NamespacedName) (w : W) (fs : list (W -> W)) (r : Result * option error) (s : Shared W)
  (k : Kind) (n : NamespacedName) :
  c <> PostgresPoolerReconciler ->
  dispatch (H := interleaved R) T c req (start w fs) = (r, s) ->
  (forall c' req', c' <> PostgresPoolerReconciler -> touches c req k n -> touches c' req' k n -> c' = c /\ req' = req) /\
  (~ touches c req k n -> Forall (leaves k n) fs -> Forall (fun v => stored v k n = stored w k n) (history s)).
Proof.
  intros Hc Hd. split.
  { intros c' req' Hc' H1 H2. by apply (touches_disjoint c' c req' req k n). }
  intros Hn Hf.
  pose (I := fun s : Shared W => Forall (fun v => stored v k n = stored w k n) (history s) /\ Forall (leaves k n) (others s)).
  assert (I s) as [? _]; [|done].
  replace s with (dispatch (H := interleaved R) T c req (start w fs)).2 by (by rewrite Hd).
  apply (dispatch_named (H0 := interleaved_keyed R laws_keyed) T c req Hc I).
  - intros x v Hx [Hv Hfs]. rewrite perform_interleaved. unfold I, history at 1. cbn [now past others].
    assert (stored (interfered v) k n = stored w k n) as Hi.
    { apply Forall_cons in Hv as [Hv _]. unfold interfered. destruct (others v) as [|f l]; [done|].
      apply Forall_cons in Hfs as [Hf1 _]. by rewrite leaves_stored. }
    split.
    + repeat (apply Forall_cons; split); [|done|by apply Forall_cons in Hv as [? _]|by apply Forall_cons in Hv as [_ ?]].
      by rewrite (within_leaves c req).
    + destruct (others v); [done|]. by apply Forall_cons in Hfs as [_ ?].
  - split; [|done]. cbn. by apply Forall_cons.
Qed.

(** The reconcile of a cluster, during which a reconcile of another cluster stores its
    Secret, in a namespace that has a ConfigMap of somebody else. *)
Definition other_cluster : PostgresCluster :=
  {| pc_Meta := mkMeta "db2" "prod" ∅; pc_Spec := pc_Spec Cluster.sample_active; pc_Status := pc_Status Cluster.sample_active |}.

Definition other_call : Call := CCreate KSecret (Resources.BuildCredentialSecret other_cluster "secret-of-db2").

Definition settings : ConfigMap := {| cm_Meta := mkMeta "settings" "prod" ∅; cm_Data := {["colour" := "blue"]} |}.

Definition shared_world : World := put_obj KConfigMap settings Cluster.sample_world.

Definition after_other : (Result * option error) * Shared World :=
  dispatch (H := interleaved fake_runtime) ascii_tables PostgresClusterReconciler Cluster.sample_req
    (start shared_world [perform other_call]).

Lemma interleaved_reconcile_isolated_witness :
  is_Some (stored (now after_other.2) KSecret (nn "db2-credentials" "prod")) /\
  is_Some (stored (now after_other.2) KConfigMap (nn "db-config" "prod")) /\
  Forall (fun v => stored v KConfigMap (nn "settings" "prod") = stored shared_world KConfigMap (nn "settings" "prod"))
    (history after_other.2).
Proof.
  split; [apply (bool_decide_unpack _); vm_compute; exact I|].
  split; [apply (bool_decide_unpack _); vm_compute; exact I|].
  apply (interleaved_reconcile_isolated World _ _ ascii_tables PostgresClusterReconciler Cluster.sample_req
           shared_world [perform other_call] after_other.1).
  - discriminate.
  - apply surjective_pairing.
  - cbn. discriminate.
  - apply Forall_cons. split; [|apply Forall_nil_2]. left.
    exists PostgresClusterReconciler, (nn "db2" "prod"), other_call. split_and!; [reflexivity|cbn; discriminate|reflexivity].
Defined.

End OwnWrites.
